(* ===== verification/_CoqProject ===== *)
-Q . S2P
Prelude.v
Links.v
KState.v
Sched.v
Memory.v
Share.v
Hd.v
Buffer.v
Bitmap.v
Inode.v
Super.v
Namei.v
Files.v
Process.v
Queue.v
Console.v
Tty.v
ReadWrite.v
Exec.v
Stat.v
Sys.v
Entry.v
Fork.v
Vsprintf.v
Str.v
Keyboard.v
Rsio.v
Printk.v
User.v
Fair.v
Rely.v
Keeps.v
Descr.v
System.v
Boot.v
Build.v
Head.v
Paging.v
Faults.v
