(* ===== verification/Prelude.v ===== *)
(** * A model of the Rhee Creatives Linux v1.0 kernel

    The program is a kernel for one i386, descended from Linux 0.01.  This
    library translates its C code function by function into executable
    definitions and proves what the main parts promise.  File names without a
    directory are files of this library; [kernel/], [fs/], [mm/], [lib/],
    [init/] and [include/] are directories of the source.  The comment before
    a definition gives the lines it translates.

    ** The shape of the model

    The whole kernel has one state, the record [kstate] of KState.v: the
    static variables of every file, and each table of structures as a function
    from the index to the record of the structure, with the fields of the C
    declaration.  A pointer into a table is [Some] index, [NULL] is [None].
    Kernel code is a function in the monad [M kstate] of Prelude.v; running it
    gives a [res]:

    - [Ret v s]: it returned;
    - [Panic msg s]: it called [panic];
    - [Fault s]: it followed a null pointer;
    - [Yield s k]: it gave the processor away in state [s], and goes on as
      [k s'] from the state [s'] in which it is resumed.  [switch_to] is the
      only source of it, so this is where other processes and interrupts run;
      a statement about [Yield] says what holds whatever they do ([wp],
      [anytime]);
    - [NoFuel]: a loop was given too few rounds.

    C integers are [Z], with the wrap-around of a store written out ([u8],
    [u16], [u32], [s32]) wherever a value may leave its range.

    ** The files

    - Prelude.v: machine integers, field update, the monad and its laws,
      loops, searches, sums, byte arrays, rings.  Links.v: doubly linked
      lists and rings over tables, for the buffer cache.
    - KState.v: constants, structures, state and primitive accesses
      (include/), and the class [Machine]: the devices, the fuel, the bytes C
      leaves unspecified, and the addresses the linker chooses.
    - Sched.v: kernel/sched.c.  Memory.v: mm/memory.c; Share.v: the same code
      over whole ranges of page tables, with the counts of the frames.  Process.v:
      kernel/fork.c and kernel/exit.c.  Sys.v: kernel/sys.c, kernel/mktime.c and
      [time_init] of init/main.c.
    - Hd.v: kernel/hd.c with the disk interrupt of kernel/system_call.s.
      Buffer.v: fs/buffer.c and fs/block_dev.c, above Hd.v through
      [ll_rw_block].  Bitmap.v, Inode.v, Super.v, Namei.v: fs/bitmap.c,
      fs/inode.c and fs/truncate.c, fs/super.c, fs/namei.c, each above the
      one before.
    - Files.v: fs/open.c, fs/fcntl.c and [sys_lseek].  ReadWrite.v: fs/pipe.c,
      fs/file_dev.c and fs/read_write.c.  Exec.v: fs/exec.c.  Stat.v:
      fs/stat.c and fs/sys_getdents.c.
    - Queue.v: the character queues of include/linux/tty.h.  Console.v:
      kernel/console.c.  Tty.v: kernel/tty_io.c, kernel/serial.c,
      fs/tty_ioctl.c, fs/ioctl.c, fs/char_dev.c and lib/ctype.c.
    - Entry.v, above all of these: the entry points of system calls, the timer
      and page faults and the delivery of signals (kernel/system_call.s,
      mm/page.s), the table of include/linux/sys.h that dispatches to every
      [sys_] function of the other files, kernel/traps.c, [sched_init], and the
      initialisation in [main].  Fork.v, above Entry.v and Share.v: the call [fork]
      with the memory of the child.
    - Vsprintf.v: kernel/vsprintf.c, on a memory of bytes that holds the format,
      the strings and the buffer, and Str.v: include/string.h, each on its own.
    - Keyboard.v and Rsio.v: the interrupts of kernel/keyboard.s and
      kernel/rs_io.s, below the line discipline of Tty.v.  Printk.v:
      kernel/printk.c and kernel/panic.c, from Vsprintf.v and Tty.v.
    - User.v: the first user programs - process 0 and [init] of init/main.c -
      and the stubs of lib/ and include/unistd.h they call, as interaction trees
      whose events are the system calls of Entry.v.
    - The whole system.  Fair.v: the timer and [schedule] over an infinite run.
      Rely.v: what every piece of kernel code may rely on from the processes that
      run while it sleeps, and guarantees to them ([view], [guar], [keeps]), with
      the rules to derive it.  Keeps.v: the guarantee for every function that
      leaves descriptors alone, one lemma each, by the rules.  Descr.v: the
      functions that change descriptors.  System.v: all system calls, interrupts
      and faults together, and the steps of the system, [wstep]: a process enters
      the kernel, code that slept is resumed, the timer, the keyboard or a serial
      line interrupts.  [statics] of Entry.v is the data the kernel is loaded with, and
      [statics_running] says that the theorems start there, but for [setup].
    - Before and around the kernel.  Boot.v: boot/boot.s on a machine of its own
      ([real]), with the BIOS as the class [Bios].  Build.v: tools/build.c, and what
      becomes of its image.  The variables of the boot sector are words of its copy in
      memory, at an offset that the assembler chooses ([sread]).  Head.v: boot/head.s, on the state of the kernel, above
      Entry.v and Share.v.  Paging.v: page faults and the counts of Share.v.
      Faults.v: kernel/asm.s, instruction by instruction, above the handlers of
      Entry.v.

    ** What is proved

    - Scheduler: [schedule] picks a runnable task with the largest remaining
      slice and always ends (Sched.v); [sleep_on] and [wake_up].
    - Memory: [get_free_page], [free_page]; demand-zero and copy-on-write
      faults change no other translation and no byte another process sees
      (Memory.v, against the page-table walk [translate]).  [mem_ok] says that the
      count of a frame covers every reference from the page tables of processes:
      [setup_paging] establishes it (Head.v), [copy_page_tables] and
      [free_page_tables] keep it and undo each other (Share.v), page faults keep it
      (Paging.v).  A write fault makes a page that is counted once writable and copies
      any other.  [fork] of a process whose segments and counts are as [forkable] says
      does not panic, and gives the child a new pid and its parent's memory read-only, or
      leaves every count as it was (Fork.v); the first [fork] shares the kernel's own
      pages (Head.v).
    - Start: the image of the build, when a disk holds it and [SYSSIZE] covers the
      kernel and is at most 512 KB, is put at address 0 by the boot sector, however often
      reads fail before they succeed (Build.v); an address line 20 that stays off stops the start for ever (Head.v).
    - Faults: the entry stubs give the C handlers what they declare and restore
      every register (Faults.v).
    - Disk: the sector and head of a request are in the range of the disk, the
      cylinder too when the partition lies in the disk; a new request goes into the list
      where [IN_ORDER] lets it, and the list stays one (Hd.v).
    - Entry: after initialisation a process can raise four interrupt vectors and
      no other, and every vector leads to its handler; the signal a process acts
      on and the frame its handler finds; calls that are not in the table
      (Entry.v).
    - Cache: [buffer_init] establishes the invariant of the lists; [getblk] on a
      block that is not cached, for a clean and for a dirty victim, and the guarantee of
      [get_hash_table] under interference (Buffer.v).
    - File system: the bitmap search against its definition, release and
      failing allocation of blocks (Bitmap.v); an inode is stored at its place on the
      disk and read back from there, the block map and the inode table (Inode.v).
    - Open files: the counts of the table agree with the descriptors of all
      processes, [files_ok], through [dup], [close] (Files.v), [fork]
      (Process.v) and [pipe] (ReadWrite.v), which panics only when every inode is in
      use.
    - The system as a whole (System.v): in every state that any interleaving of
      processes reaches, sleeping and resuming in the middle of system calls,
      [files_ok] holds, zombies have no descriptors, and priorities and slices are
      in range, so that [schedule] always ends; no step of one process changes the
      descriptors of another or lets it into an open file the other holds alone.
      These hold when the system is set up (the call [setup] is over), when fork
      puts the tables of the child where no other task is ([tasks_placed]), and
      when no process gives [nice] a negative increment; a process that panics or
      faults ends the run.
    - Fairness (Fair.v): under the timer a task that stays runnable is chosen
      again within a number of ticks that depends on slices and priorities only.
    - A pipe refines a queue of bytes and a regular file a sequence of bytes
      (ReadWrite.v); a terminal's ring a bounded queue (Queue.v); [getdents]
      yields the next entry (Stat.v).
    - Loading: exec.c's own block walk agrees with [bmap] where it can, and the
      argument tables are as a program expects them (Exec.v).
    - Processes: pids and slots, [kill], the child of [fork], descriptors of
      segments (Process.v); identity (Sys.v).
    - Console: for any output and input the driver writes to video memory only
      and keeps its cursor and region in range (Console.v, Tty.v).
    - Input: a scan code changes the modifier keys and locks it names and types the
      characters that a layout, given apart from the code's tables, has for the key into
      the console's queue, all or none; ctrl, alt and Del and nothing else reset the
      computer (Keyboard.v); serial lines
      send and take bytes in order (Rsio.v); a message reaches the console with a
      carriage return before each line feed (Printk.v).
    - The numbers in the library's stubs and the kernel's table agree (User.v).
    - Time and text: [kernel_mktime] is the Gregorian calendar until 2037
      (Sys.v); numbers are printed right, in the width asked for, and are read
      back; [vsprintf] stores the text that [render] gives a format, and nothing else
      (Vsprintf.v).  A format with %n, and a buffer that holds the format or a string of
      its arguments, are outside this theorem; nothing keeps a long text within the
      buffer, neither in the code nor in the model.
    - Strings: [memmove] is a copy through an intermediate place, [strtok] cuts
      off the next token, [strcmp] compares, at the level of the string
      instructions (Str.v).

    Some theorems show where the code does not do what it means to:
    [getblk_miss], [new_block_full], [clock_month], [set_ids_spec], [strncat_spec],
    [memcmp_spec], [system_call_errors], [shift_space], [user_calls], [do_kill_spec]
    (pid 0 selects by the sender's pid), [in_order_partial] ([IN_ORDER] is not a
    linear order), [keyboard_types] (function keys depend on a foreign register) and
    [vsprintf_spec] (a [*] stays in the format).

    ** Bounds and fuel

    A loop whose number of rounds is known takes it as its bound: [for_]
    loops, searches of tables ([scan]), reads and writes of [count] bytes, at
    most [count] rounds, the walk over a directory block, at most 65.  The
    loops that wait - for a lock, a buffer, a character - take [fuel] of the
    class [Machine]; the theorems about them either give a fuel that is enough
    or hold for every run, however long.  The line discipline and the console
    call each other through the [write] pointer of a terminal; [cook_at] bounds
    the depth of these calls by [fuel].

    ** Where the model is simpler than the machine

    - Interrupts happen only where code sleeps; [cli] and [sti] are not
      modelled.  The handlers are definitions of their own.
    - [user], the memory behind [%fs], is a view of the current process's data
      segment and is kept apart from [phys]; page faults on it are not taken
      by the accessors.  [exec] renews the view where the mapping changes.
    - The translation cache of the processor is taken to agree with the page
      tables.
    - Each buffer's data is an array of its own; code that runs past its 1024
      bytes stays in it.
    - A null pointer that is followed ends the run with [Fault]; on the machine
      it reads or writes low memory.
    - Where code calls [printk], the call is recorded with its arguments in
      [klog] and does not go through the console; the messages of [panic] are
      kept.  Printk.v has both functions themselves, apart from their callers.
    - The [sys_] functions take integers already converted to the types of
      their C parameters; the table of Entry.v converts the registers.
    - The registers and flags of inline assembler are modelled by what it does
      to memory; only Str.v has them.  Code that calls a string routine has its
      meaning in place of the call.
    - The static [prev_nr] of [sys_null], which nothing else reads, is not kept.

    ** Not modelled

    The messages of boot/boot.s and its loading of the registers of protected mode.
    Of counts, those that no page table holds - the pages of task structures, pipes
    and arguments - are above what [mem_ok] asks for, and are not accounted for.
    Most of include/elf.h is a library header of which the loader uses two structures;
    include/stdint.h and the other headers without code have nothing to
    translate.  The busy loop of [init]'s benchmark only spends time. *)
From Stdlib Require Export ZArith Lia.
From Stdlib Require Export FunctionalExtensionality.
From stdpp Require Export base numbers list sets strings functions.
#[global] Open Scope Z_scope.
#[export] Set Warnings "-clear-no-such-hyp".

(** ** Machine integers

    A C integer is a [Z]; the conversions below are the wrap-arounds the code
    relies on when it stores into a narrower field. *)

Definition u8 (x : Z) : Z := x mod 256.
Definition u16 (x : Z) : Z := x mod 65536.
Definition u32 (x : Z) : Z := x mod 4294967296.
Definition s32 (x : Z) : Z := (x + 2147483648) mod 4294967296 - 2147483648.
(** A [signed char] read from a byte. *)
Definition s8 (x : Z) : Z := (x + 128) mod 256 - 128.

(** The codes of the characters of a string. *)
Definition chars (s : string) : list Z :=
  map (fun c => Z.of_nat (Ascii.nat_of_ascii c)) (String.list_ascii_of_string s).

(** C truth values: a non-zero integer, a non-null pointer. *)
Definition nz (x : Z) : bool := negb (x =? 0).
(** [x & m] used as a condition. *)
Definition hasbit (x m : Z) : bool := nz (Z.land x m).
Definition b2z (b : bool) : Z := if b then 1 else 0.

Lemma u8_small x : 0 <= x < 256 -> u8 x = x.
Proof. apply Z.mod_small. Qed.
Lemma u16_small x : 0 <= x < 65536 -> u16 x = x.
Proof. apply Z.mod_small. Qed.
Lemma u32_small x : 0 <= x < 4294967296 -> u32 x = x.
Proof. apply Z.mod_small. Qed.
Lemma s32_small x : -2147483648 <= x < 2147483648 -> s32 x = x.
Proof. intros. unfold s32. rewrite Z.mod_small; lia. Qed.
Lemma u8_range x : 0 <= u8 x < 256.
Proof. apply Z.mod_pos_bound; lia. Qed.
Lemma u16_range x : 0 <= u16 x < 65536.
Proof. apply Z.mod_pos_bound; lia. Qed.
Lemma u32_range x : 0 <= u32 x < 4294967296.
Proof. apply Z.mod_pos_bound; lia. Qed.
Lemma s32_range x : -2147483648 <= s32 x < 2147483648.
Proof. unfold s32. pose proof (Z.mod_pos_bound (x + 2147483648) 4294967296). lia. Qed.
Lemma nz_true x : nz x = true <-> x <> 0.
Proof. unfold nz. rewrite negb_true_iff, Z.eqb_neq. done. Qed.
Lemma nz_false x : nz x = false <-> x = 0.
Proof. unfold nz. rewrite negb_false_iff, Z.eqb_eq. done. Qed.

Create HintDb kern.
Create Rewrite HintDb kern.
#[export] Hint Resolve u8_range u16_range u32_range s32_range : kern.
#[export] Hint Rewrite u8_small u16_small u32_small s32_small using lia : kern.

(** ** Bit fields *)

(** Masking with [n] ones from bit [k] on. *)
Lemma land_field x k n :
  0 <= k -> 0 <= n -> Z.land x (Z.shiftl (Z.ones n) k) = 2 ^ k * ((x / 2 ^ k) mod 2 ^ n).
Proof.
  intros. rewrite Z.mul_comm, <- Z.shiftl_mul_pow2, <- Z.shiftr_div_pow2 by lia.
  rewrite <- Z.land_ones by lia. apply Z.bits_inj'. intros i Hi.
  rewrite Z.land_spec, !Z.shiftl_spec, Z.land_spec by lia.
  destruct (decide (i < k)).
  - rewrite !(Z.testbit_neg_r _ (i - k)) by lia. by rewrite andb_false_r.
  - rewrite Z.shiftr_spec by lia. by replace (i - k + k) with i by lia.
Qed.

(** Joining two numbers that share no bits. *)
Lemma lor_add x y : Z.land x y = 0 -> Z.lor x y = x + y.
Proof. intros H. pose proof (Z.add_lor_land x y). lia. Qed.

(** A multiple of [2^k] shares no bits with a number below [2^k]. *)
Lemma lor_low x y k : 0 <= k -> x mod 2 ^ k = 0 -> 0 <= y < 2 ^ k -> Z.lor x y = x + y.
Proof.
  intros Hk Hx Hy. apply lor_add. apply Z.bits_inj'. intros i Hi.
  rewrite Z.land_spec, Z.bits_0. destruct (decide (i < k)).
  - replace (Z.testbit x i) with false; [done|].
    rewrite <- (Z.mod_pow2_bits_low x k i) by lia. by rewrite Hx, Z.bits_0.
  - replace (Z.testbit y i) with false; [by rewrite andb_false_r|].
    rewrite <- (Z.mod_small y (2 ^ k)) by lia. by rewrite Z.mod_pow2_bits_high by lia.
Qed.

(** ** Pointers

    A pointer into one of the kernel's tables is the index of the element it
    points to; [None] is [NULL]. *)

Abbreviation ptr := (option Z).
Definition null (p : ptr) : bool := match p with None => true | Some _ => false end.
Definition ptr_eqb (p q : ptr) : bool := bool_decide (p = q).

Lemma ptr_eqb_true p q : ptr_eqb p q = true <-> p = q.
Proof. apply bool_decide_eq_true. Qed.
Lemma ptr_eqb_refl p : ptr_eqb p p = true.
Proof. by apply bool_decide_eq_true. Qed.
#[export] Hint Rewrite ptr_eqb_refl : kern.

(** ** Field update of records

    [r <| f := v |>] is [r] with field [f] set to [v], [r <| f ::= g |>]
    applies [g] to the field.  A record opts in with an [Eta] instance that
    rebuilds it from its projections; the setter of each field is computed. *)

Class Eta (R : Type) := eta_of : R -> R.
Class Setter {R E : Type} (proj : R -> E) := set_field : (E -> E) -> R -> R.
Arguments set_field {R E} proj {_} _ _.

Ltac build_setter :=
  match goal with
  | |- @Setter ?R ?E ?proj =>
      let e := constr:(_ : Eta R) in
      let body := constr:(fun (up : E -> E) (r : R) => ltac:(
         let e1 := eval hnf in e in
         let t := eval cbv beta in (e1 r) in
         let p := eval pattern (proj r) in t in
         match p with
         | ?g _ => let v := eval cbv beta in (g (up (proj r))) in exact v
         end)) in
      let b := eval cbv beta in body in
      exact b
  end.
#[export] Hint Extern 0 (Setter _) => build_setter : typeclass_instances.

Declare Scope kern_scope.
Delimit Scope kern_scope with kern.
Notation "r <| f := v |>" := (set_field f (fun _ => v) r)
  (at level 1, left associativity, f at level 0) : kern_scope.
Notation "r <| f ::= g |>" := (set_field f g r)
  (at level 1, left associativity, f at level 0) : kern_scope.
#[global] Open Scope kern_scope.

(** ** Results of kernel code

    Running kernel code from a state ends in one of five ways: it returns; it
    calls [panic], which never returns; it dereferences a null pointer; it
    gives up the processor and goes on from whatever state it is resumed in;
    or the fuel given to one of its unbounded loops runs out. *)

Inductive res (S A : Type) : Type :=
| Ret (a : A) (s : S)
| Panic (msg : string) (s : S)
| Fault (s : S)
| Yield (s : S) (k : S -> res S A)
| NoFuel.
Arguments Ret {S A} _ _.
Arguments Panic {S A} _ _.
Arguments Fault {S A} _.
Arguments Yield {S A} _ _.
Arguments NoFuel {S A}.

Definition M (S A : Type) : Type := S -> res S A.

Fixpoint res_bind {S A B} (r : res S A) (f : A -> M S B) : res S B :=
  match r with
  | Ret a s => f a s
  | Panic m s => Panic m s
  | Fault s => Fault s
  | Yield s k => Yield s (fun s' => res_bind (k s') f)
  | NoFuel => NoFuel
  end.

#[export] Instance M_ret S : MRet (M S) := fun A a s => Ret a s.
#[export] Instance M_bind S : MBind (M S) := fun A B f m s => res_bind (m s) f.

Section ops.
Context {S : Type}.

Definition get : M S S := fun s => Ret s s.
Definition gets {A} (f : S -> A) : M S A := fun s => Ret (f s) s.
Definition modify (f : S -> S) : M S unit := fun s => Ret tt (f s).
Definition panic {A} (msg : string) : M S A := fun s => Panic msg s.
Definition fault {A} : M S A := fun s => Fault s.
Definition nofuel {A} : M S A := fun _ => NoFuel.
(** Dereference of a pointer: what it points to, or a fault. *)
Definition deref (p : ptr) : M S Z :=
  match p with Some i => mret i | None => fault end.
Definition when (b : bool) (m : M S unit) : M S unit := if b then m else mret tt.

(** [while (c) b], at most [n] times. *)
Fixpoint while (n : nat) (c : M S bool) (b : M S unit) : M S unit :=
  x ← c;
  if x : bool then
    match n with
    | O => nofuel
    | Datatypes.S n => b;; while n c b
    end
  else mret tt.

(** A loop over a loop variable [b]; the body goes round again with [inl] or
    leaves with [inr]. *)
Fixpoint loop {B A} (n : nat) (body : B -> M S (B + A)) (b : B) : M S A :=
  match n with
  | O => nofuel
  | Datatypes.S n =>
      r ← body b;
      match r with
      | inl b' => loop n body b'
      | inr a => mret a
      end
  end.

(** [for (i = i0; i < i0 + n; i++) body(i)]. *)
Fixpoint for_ (i : Z) (n : nat) (body : Z -> M S unit) : M S unit :=
  match n with
  | O => mret tt
  | Datatypes.S n => body i;; for_ (i + 1) n body
  end.

(** The same loop when the body may return from the function: with [Some r]
    it leaves the loop with [r]. *)
Fixpoint for_ret {A} (i : Z) (n : nat) (body : Z -> M S (option A)) : M S (option A) :=
  match n with
  | O => mret None
  | Datatypes.S n =>
      r ← body i;
      match r with
      | Some a => mret (Some a)
      | None => for_ret (i + 1) n body
      end
  end.

(** The same loop run downwards: [i = i0 + n - 1, ..., i0]. *)
Fixpoint for_down (i : Z) (n : nat) (body : Z -> M S unit) : M S unit :=
  match n with
  | O => mret tt
  | Datatypes.S n => body (i + Z.of_nat n);; for_down i n body
  end.
End ops.

(** Weakest preconditions: [wp R I r Q E] holds when every way of running the
    result [r] returns in [Q] or panics in [E], whatever the rest of the
    system does while the code is switched out: it is switched out in a state
    of [I] and resumed in any state [R] allows.  It is a partial-correctness
    statement: a loop that is given too little fuel satisfies it. *)
Fixpoint wp {S A} (R : S -> S -> Prop) (I : S -> Prop) (r : res S A)
    (Q : A -> S -> Prop) (E : string -> S -> Prop) : Prop :=
  match r with
  | Ret a s => Q a s
  | Panic m s => E m s
  | Fault _ => False
  | Yield s k => I s /\ forall s', R s s' -> wp R I (k s') Q E
  | NoFuel => True
  end.

Section laws.
Context {S : Type}.
Implicit Types (s : S).

Lemma bind_Ret {A B} (m : M S A) (f : A -> M S B) s a s' :
  m s = Ret a s' -> (m ≫= f) s = f a s'.
Proof. intros H. unfold mbind, M_bind. by rewrite H. Qed.

Lemma bind_Panic {A B} (m : M S A) (f : A -> M S B) s msg s' :
  m s = Panic msg s' -> (m ≫= f) s = Panic msg s'.
Proof. intros H. unfold mbind, M_bind. by rewrite H. Qed.

Lemma bind_gets {A B} (g : S -> A) (f : A -> M S B) s : (gets g ≫= f) s = f (g s) s.
Proof. done. Qed.
Lemma bind_get {B} (f : S -> M S B) s : (get ≫= f) s = f s s.
Proof. done. Qed.
Lemma bind_modify {B} (g : S -> S) (f : unit -> M S B) s : (modify g ≫= f) s = f tt (g s).
Proof. done. Qed.
Lemma bind_mret {A B} (a : A) (f : A -> M S B) s : ((mret a : M S A) ≫= f) s = f a s.
Proof. done. Qed.
Lemma bind_deref {B} i (f : Z -> M S B) s : (deref (Some i) ≫= f) s = f i s.
Proof. done. Qed.
Lemma mret_run {A} (a : A) s : (mret a : M S A) s = Ret a s.
Proof. done. Qed.
Lemma bind_panic {A B} msg (f : A -> M S B) s : (panic msg ≫= f) s = Panic msg s.
Proof. done. Qed.

Lemma bind_assoc {A B C} (m : M S A) (f : A -> M S B) (g : B -> M S C) s :
  ((m ≫= f) ≫= g) s = (m ≫= (fun a => f a ≫= g)) s.
Proof.
  unfold mbind, M_bind.
  induction (m s) as [| | |s1 k IH|]; simpl; try done.
  f_equal. apply functional_extensionality. intros s'. apply IH.
Qed.

(** What comes after a computation may be rewritten. *)
Lemma bind_ext {A B} (m : M S A) (f g : A -> M S B) s :
  (forall a t, f a t = g a t) -> (m ≫= f) s = (m ≫= g) s.
Proof.
  intros Hf. replace g with f; [done|]. apply functional_extensionality. intros a.
  apply functional_extensionality. apply Hf.
Qed.

Lemma when_true (m : M S unit) : when true m = m.
Proof. done. Qed.
Lemma when_false (m : M S unit) s : when false m s = Ret tt s.
Proof. done. Qed.
Lemma when_run b (m : M S unit) s :
  when b m s = (if b then m s else Ret tt s).
Proof. by destruct b. Qed.

Lemma while_false n (c : M S bool) b s s' :
  c s = Ret false s' -> while n c b s = Ret tt s'.
Proof. intros H. destruct n; simpl; unfold mbind, M_bind; rewrite H; done. Qed.

(** One round of a loop whose body is known to go on, or to leave. *)
Lemma loop_again {A B} n (body : B -> M S (B + A)) b b' s s' :
  body b s = Ret (inl b') s' -> loop (Datatypes.S n) body b s = loop n body b' s'.
Proof. intros H. simpl. by rewrite (bind_Ret _ _ _ _ _ H). Qed.
Lemma loop_leave {A B} n (body : B -> M S (B + A)) b a s s' :
  body b s = Ret (inr a) s' -> loop (Datatypes.S n) body b s = Ret a s'.
Proof. intros H. simpl. by rewrite (bind_Ret _ _ _ _ _ H). Qed.

(** [for_] as an invariant rule: the body keeps [P], one index after the
    other, and never leaves the normal path. *)
Lemma for_inv (P : Z -> S -> Prop) i n (body : Z -> M S unit) s :
  P i s ->
  (forall j t, i <= j < i + Z.of_nat n -> P j t ->
     exists t', body j t = Ret tt t' /\ P (j + 1) t') ->
  exists s', for_ i n body s = Ret tt s' /\ P (i + Z.of_nat n) s'.
Proof.
  revert i s. induction n as [|n IH]; intros i s HP Hb.
  - exists s. rewrite Z.add_0_r. done.
  - destruct (Hb i s) as (t & Ht & HPt); [lia|done|].
    destruct (IH (i + 1) t HPt) as (s' & Hs & HPs).
    { intros j u Hj. apply Hb. lia. }
    exists s'. simpl. rewrite (bind_Ret _ _ _ _ _ Ht). split; [done|].
    replace (i + Z.of_nat (Datatypes.S n)) with (i + 1 + Z.of_nat n) by lia. done.
Qed.

Lemma for_down_inv (P : Z -> S -> Prop) i n (body : Z -> M S unit) s :
  P (i + Z.of_nat n) s ->
  (forall j t, i <= j < i + Z.of_nat n -> P (j + 1) t ->
     exists t', body j t = Ret tt t' /\ P j t') ->
  exists s', for_down i n body s = Ret tt s' /\ P i s'.
Proof.
  revert s. induction n as [|n IH]; intros s HP Hb.
  - exists s. rewrite Z.add_0_r in HP. done.
  - destruct (Hb (i + Z.of_nat n) s) as (t & Ht & HPt).
    { lia. }
    { by replace (i + Z.of_nat n + 1) with (i + Z.of_nat (Datatypes.S n)) by lia. }
    destruct (IH t HPt) as (s' & Hs & HPs).
    { intros j u Hj. apply Hb. lia. }
    exists s'. simpl. rewrite (bind_Ret _ _ _ _ _ Ht). done.
Qed.

(** [for_ret]: the body keeps [P] and goes on, or leaves with a result in [Q]. *)
Lemma for_ret_inv {A} (P : Z -> S -> Prop) (Q : option A -> S -> Prop) i n (body : Z -> M S (option A)) s :
  P i s ->
  (forall j t, i <= j < i + Z.of_nat n -> P j t ->
     (exists t', body j t = Ret None t' /\ P (j + 1) t') \/
     (exists a t', body j t = Ret (Some a) t' /\ Q (Some a) t')) ->
  exists r s', for_ret i n body s = Ret r s' /\ (Q r s' \/ r = None /\ P (i + Z.of_nat n) s').
Proof.
  revert i s. induction n as [|n IH]; intros i s HP Hb.
  - exists None, s. rewrite Z.add_0_r. auto.
  - destruct (Hb i s) as [(t & Ht & HPt)|(a & t & Ht & HQ)]; [lia|done| |].
    + destruct (IH (i + 1) t HPt) as (r & s' & Hs & HPs).
      { intros j u Hj. apply Hb. lia. }
      exists r, s'. simpl. rewrite (bind_Ret _ _ _ _ _ Ht). split; [done|].
      replace (i + Z.of_nat (Datatypes.S n)) with (i + 1 + Z.of_nat n) by lia. done.
    + exists (Some a), t. simpl. rewrite (bind_Ret _ _ _ _ _ Ht). auto.
Qed.

Section wp_rules.
Context (R : S -> S -> Prop) (I : S -> Prop).

Lemma wp_mono {A} (r : res S A) (Q Q' : A -> S -> Prop) (E E' : string -> S -> Prop) :
  wp R I r Q E -> (forall a s, Q a s -> Q' a s) -> (forall m s, E m s -> E' m s) ->
  wp R I r Q' E'.
Proof.
  intros H HQ HE. revert H.
  induction r as [| | |s k IH|]; simpl; eauto.
  intros [HI Hk]. split; [done|]. intros s' Hs'. apply IH, Hk, Hs'.
Qed.

Lemma wp_bind {A B} (m : M S A) (f : A -> M S B) s Q E :
  wp R I (m s) (fun a s' => wp R I (f a s') Q E) E -> wp R I ((m ≫= f) s) Q E.
Proof.
  unfold mbind, M_bind.
  induction (m s) as [| | |s1 k IH|]; simpl; try done.
  intros [HI Hk]. split; [done|]. intros s' Hs'. apply IH, Hk, Hs'.
Qed.

Lemma wp_Ret {A} (r : res S A) a s Q E : r = Ret a s -> Q a s -> wp R I r Q E.
Proof. by intros ->. Qed.

Lemma wp_loop {B A} n (body : B -> M S (B + A)) (P : B -> S -> Prop) Q E b s :
  (forall b s, P b s ->
     wp R I (body b s) (fun r s' => match r with inl b' => P b' s' | inr a => Q a s' end) E) ->
  P b s -> wp R I (loop n body b s) Q E.
Proof.
  intros Hb. revert b s. induction n as [|n IH]; intros b s HP; [done|].
  simpl. apply wp_bind. eapply wp_mono; [apply Hb, HP| |done].
  intros [b'|a] s'; simpl; [apply IH|done].
Qed.

Lemma wp_while n (c : M S bool) (b : M S unit) (P : S -> Prop) Q E s :
  (forall s, P s ->
     wp R I (c s) (fun x s' => if x : bool then wp R I (b s') (fun _ => P) E else Q tt s') E) ->
  P s -> wp R I (while n c b s) Q E.
Proof.
  intros Hc. revert s. induction n as [|n IH]; intros s HP; simpl; apply wp_bind.
  - eapply wp_mono; [apply Hc, HP| |done]. intros [] s'; simpl; done.
  - eapply wp_mono; [apply Hc, HP| |done]. intros [] s'; [|done].
    intros Hb. apply wp_bind. eapply wp_mono; [apply Hb| |done].
    intros [] s''. apply IH.
Qed.
End wp_rules.
End laws.

(** ** Searching a table

    [scan p i n] is the first index in [i, i+n) that satisfies [p]: the C
    loops [for (k = i; k < i+n; k++) if (p(k)) break;]. *)

Fixpoint scan (p : Z -> bool) (i : Z) (n : nat) : ptr :=
  match n with
  | O => None
  | S n => if p i then Some i else scan p (i + 1) n
  end.

Lemma scan_Some p i n j :
  scan p i n = Some j ->
  i <= j < i + Z.of_nat n /\ p j = true /\ forall k, i <= k < j -> p k = false.
Proof.
  revert i. induction n as [|n IH]; intros i; simpl; [done|].
  destruct (p i) eqn:Hp.
  - intros [= ->]. split; [lia|]. split; [done|]. intros; lia.
  - intros H. apply IH in H as (? & ? & Hk). split; [lia|]. split; [done|].
    intros k ?. destruct (decide (k = i)) as [->|]; [done|]. apply Hk. lia.
Qed.

Lemma scan_None p i n :
  scan p i n = None <-> forall k, i <= k < i + Z.of_nat n -> p k = false.
Proof.
  revert i. induction n as [|n IH]; intros i; simpl.
  { split; [intros _ k ?; lia|done]. }
  destruct (p i) eqn:Hp.
  - split; [done|]. intros H. rewrite H in Hp; [done|lia].
  - rewrite IH. split; intros H k Hk.
    + destruct (decide (k = i)) as [->|]; [done|]. apply H. lia.
    + apply H. lia.
Qed.

Lemma scan_is p i n j :
  i <= j < i + Z.of_nat n -> p j = true -> (forall k, i <= k < j -> p k = false) ->
  scan p i n = Some j.
Proof.
  intros Hj Hp Hk. destruct (scan p i n) as [j'|] eqn:E.
  - apply scan_Some in E as (? & Hp' & Hk'). f_equal.
    destruct (Z.lt_trichotomy j j') as [?|[?|?]]; [|done|].
    + rewrite Hk' in Hp; [done|lia].
    + rewrite Hk in Hp'; [done|lia].
  - rewrite scan_None in E. rewrite E in Hp; [done|lia].
Qed.

Lemma scan_ext p q i n :
  (forall k, i <= k < i + Z.of_nat n -> p k = q k) -> scan p i n = scan q i n.
Proof.
  revert i. induction n as [|n IH]; intros i H; simpl; [done|].
  rewrite H by lia. destruct (q i); [done|]. apply IH. intros k ?. apply H. lia.
Qed.

Lemma scan_app p i n m :
  scan p i (n + m) = match scan p i n with Some k => Some k | None => scan p (i + Z.of_nat n) m end.
Proof.
  revert i. induction n as [|n IH]; intros i; simpl; [by rewrite Z.add_0_r|].
  destruct (p i); [done|]. rewrite IH. by replace (i + 1 + Z.of_nat n) with (i + Z.of_nat (S n)) by lia.
Qed.

Lemma scan_skip p i k n :
  0 <= k -> (forall j, i <= j < i + k -> p j = false) -> (Z.to_nat k <= n)%nat ->
  scan p i n = scan p (i + k) (n - Z.to_nat k).
Proof.
  intros Hk Hf Hn. replace n with (Z.to_nat k + (n - Z.to_nat k))%nat at 1 by lia.
  rewrite scan_app, (proj2 (scan_None p i (Z.to_nat k))) by (intros; apply Hf; lia).
  by rewrite Z2Nat.id by lia.
Qed.
Lemma scan_shift p i j n :
  option_map (fun k => k - i) (scan p (i + j) n) = scan (fun k => p (i + k)) j n.
Proof.
  revert j. induction n as [|n IH]; intros j; simpl; [done|].
  destruct (p (i + j)); simpl; [f_equal; lia|].
  replace (i + j + 1) with (i + (j + 1)) by lia. apply IH.
Qed.

(** The number of indices in [i, i+n) that satisfy [p]. *)
Fixpoint count_if (p : Z -> bool) (i : Z) (n : nat) : Z :=
  match n with
  | O => 0
  | S n => b2z (p i) + count_if p (i + 1) n
  end.

Lemma count_if_ext p q i n :
  (forall j, i <= j < i + Z.of_nat n -> p j = q j) -> count_if p i n = count_if q i n.
Proof.
  revert i. induction n as [|n IH]; intros i H; simpl; [done|].
  rewrite H by lia. f_equal. apply IH. intros j ?. apply H. lia.
Qed.

(** Changing the answer at one index changes the count by one. *)
Lemma count_if_flip p q i n k :
  i <= k < i + Z.of_nat n -> p k = true -> q k = false ->
  (forall j, i <= j < i + Z.of_nat n -> j <> k -> p j = q j) ->
  count_if p i n = 1 + count_if q i n.
Proof.
  revert i. induction n as [|n IH]; intros i Hk Hp Hq H; simpl; [lia|].
  destruct (decide (i = k)) as [->|Hne].
  - rewrite Hp, Hq, (count_if_ext p q); [simpl; lia|]. intros j ?. apply H; lia.
  - rewrite H, (IH (i + 1)) by (done || lia || (intros; apply H; lia)). lia.
Qed.

(** The sum of [g] over the indices in [i, i+n). *)
Fixpoint zsum (g : Z -> Z) (i : Z) (n : nat) : Z :=
  match n with
  | O => 0
  | S n => g i + zsum g (i + 1) n
  end.

Lemma zsum_ext g h i n :
  (forall j, i <= j < i + Z.of_nat n -> g j = h j) -> zsum g i n = zsum h i n.
Proof.
  revert i. induction n as [|n IH]; intros i H; simpl; [done|].
  rewrite H by lia. f_equal. apply IH. intros j ?. apply H. lia.
Qed.

Lemma zsum_snoc g i n : zsum g i (S n) = zsum g i n + g (i + Z.of_nat n).
Proof.
  revert i. induction n as [|n IH]; intros i; [simpl; rewrite !Z.add_0_r; lia|].
  change (zsum g i (S (S n))) with (g i + zsum g (i + 1) (S n)). rewrite IH. simpl.
  replace (i + 1 + Z.of_nat n) with (i + Z.of_nat (S n)) by lia. simpl. lia.
Qed.

(** Two functions that differ at one index at most. *)
Lemma zsum_change g h i n k :
  i <= k < i + Z.of_nat n -> (forall j, i <= j < i + Z.of_nat n -> j <> k -> g j = h j) ->
  zsum g i n = zsum h i n + (g k - h k).
Proof.
  revert i. induction n as [|n IH]; intros i Hk H; simpl; [lia|].
  destruct (decide (i = k)) as [->|Hne].
  - rewrite (zsum_ext g h); [lia|]. intros j ?. apply H; lia.
  - rewrite (H i) by lia. rewrite IH; [lia|lia|]. intros j ??. apply H; lia.
Qed.

Lemma zsum_bound g i n b :
  (forall j, i <= j < i + Z.of_nat n -> 0 <= g j <= b) -> 0 <= zsum g i n <= Z.of_nat n * b.
Proof.
  revert i. induction n as [|n IH]; intros i H; simpl; [lia|].
  pose proof (H i ltac:(lia)). pose proof (IH (i + 1) ltac:(intros; apply H; lia)). lia.
Qed.

Lemma zsum_nonneg g i n : (forall j, i <= j < i + Z.of_nat n -> 0 <= g j) -> 0 <= zsum g i n.
Proof.
  revert i. induction n as [|n IH]; intros i H; simpl; [lia|].
  pose proof (H i ltac:(lia)). pose proof (IH (i + 1) ltac:(intros; apply H; lia)). lia.
Qed.

Lemma zsum_0 g i n : (forall j, i <= j < i + Z.of_nat n -> g j = 0) -> zsum g i n = 0.
Proof.
  intros H. pose proof (zsum_bound g i n 0). enough (0 <= zsum g i n <= Z.of_nat n * 0) by lia.
  apply zsum_bound. intros j Hj. rewrite H by done. lia.
Qed.

Lemma zsum_le g h i n b :
  (forall j, i <= j < i + Z.of_nat n -> g j <= h j + b) -> zsum g i n <= zsum h i n + Z.of_nat n * b.
Proof.
  revert i. induction n as [|n IH]; intros i H; simpl; [lia|].
  pose proof (H i ltac:(lia)). pose proof (IH (i + 1) ltac:(intros; apply H; lia)). lia.
Qed.

(** A term is at most the sum. *)
Lemma zsum_ge g i n k :
  i <= k < i + Z.of_nat n -> (forall j, i <= j < i + Z.of_nat n -> 0 <= g j) -> g k <= zsum g i n.
Proof.
  intros Hk H. rewrite (zsum_change g (fun j => if decide (j = k) then 0 else g j) i n k Hk).
  - rewrite decide_True by done.
    enough (0 <= zsum (fun j => if decide (j = k) then 0 else g j) i n) by lia.
    apply zsum_nonneg. intros j Hj. case_decide; [lia|]. by apply H.
  - intros j Hj Hne. by rewrite decide_False by done.
Qed.

(** ** Arrays

    A table is a function from the index, updated with [<[i:=v]> a]. *)

Lemma arr_eq {A} (a : Z -> A) i v : <[i:=v]> a i = v.
Proof. apply fn_lookup_insert. Qed.
Lemma arr_ne {A} (a : Z -> A) i j v : i <> j -> <[i:=v]> a j = a j.
Proof. apply fn_lookup_insert_ne. Qed.
Lemma arr_dec {A} (a : Z -> A) i j v : <[i:=v]> a j = if decide (i = j) then v else a j.
Proof. case_decide; [subst; apply arr_eq|by apply arr_ne]. Qed.
Lemma arr_same {A} (a : Z -> A) i v w : <[i:=v]> (<[i:=w]> a) = <[i:=v]> a.
Proof. apply functional_extensionality. intros j. rewrite !arr_dec. by case_decide. Qed.
Lemma arr_id {A} (a : Z -> A) i : <[i:=a i]> a = a.
Proof. apply functional_extensionality. intros j. rewrite arr_dec. case_decide; congruence. Qed.
#[export] Hint Rewrite @arr_eq @arr_same @arr_id : kern.
#[export] Hint Rewrite @arr_ne using (first [done | lia | congruence]) : kern.

(** Little-endian integers in byte arrays. *)
Definition le16 (d : Z -> Z) (o : Z) : Z := d o + 256 * d (o + 1).
Definition le32 (d : Z -> Z) (o : Z) : Z :=
  d o + 256 * d (o + 1) + 65536 * d (o + 2) + 16777216 * d (o + 3).
Definition put16 (d : Z -> Z) (o v : Z) : Z -> Z :=
  <[o + 1 := u8 (v / 256)]> (<[o := u8 v]> d).
Definition put32 (d : Z -> Z) (o v : Z) : Z -> Z :=
  <[o + 3 := u8 (v / 16777216)]> (<[o + 2 := u8 (v / 65536)]>
    (<[o + 1 := u8 (v / 256)]> (<[o := u8 v]> d))).

(** An array of bytes. *)
Definition bytes (d : Z -> Z) : Prop := forall a, 0 <= d a < 256.
Lemma le16_range d o : bytes d -> 0 <= le16 d o < 65536.
Proof. intros H. unfold le16. pose proof (H o). pose proof (H (o + 1)). lia. Qed.
Lemma le32_range d o : bytes d -> 0 <= le32 d o < 4294967296.
Proof.
  intros H. unfold le32.
  pose proof (H o). pose proof (H (o + 1)). pose proof (H (o + 2)). pose proof (H (o + 3)). lia.
Qed.

Ltac arr_decide := rewrite ?arr_dec; repeat case_decide; try lia.

Lemma mod_split v a b :
  0 < a -> 0 < b -> v mod (a * b) = v mod a + a * ((v / a) mod b).
Proof. intros. apply Z.rem_mul_r; lia. Qed.

Lemma le16_put16 d o v : le16 (put16 d o v) o = u16 v.
Proof.
  unfold le16, put16. rewrite arr_eq, arr_ne, arr_eq by lia.
  unfold u8, u16. change 65536 with (256 * 256). rewrite mod_split; lia.
Qed.
Lemma le16_put16_ne d o o' v : o' + 1 < o \/ o + 1 < o' -> le16 (put16 d o v) o' = le16 d o'.
Proof. intros. unfold le16, put16. arr_decide. Qed.
Lemma put16_ne d o v i : i < o \/ o + 1 < i -> put16 d o v i = d i.
Proof. intros. unfold put16. by arr_decide. Qed.

Lemma le32_put32 d o v : le32 (put32 d o v) o = u32 v.
Proof.
  unfold le32, put32. arr_decide.
  unfold u8, u32.
  change 4294967296 with (256 * (256 * (256 * 256))).
  rewrite !mod_split, !Z.div_div by lia.
  change (256 * 256 * 256) with 16777216. change (256 * 256) with 65536. lia.
Qed.
Lemma le32_put32_ne d o o' v : o' + 3 < o \/ o + 3 < o' -> le32 (put32 d o v) o' = le32 d o'.
Proof. intros. unfold le32, put32. arr_decide. Qed.
Lemma put32_ne d o v i : i < o \/ o + 3 < i -> put32 d o v i = d i.
Proof. intros. unfold put32. by arr_decide. Qed.

Lemma bytes_put16 d o v : bytes d -> bytes (put16 d o v).
Proof. intros H a. unfold put16. rewrite !arr_dec. repeat case_decide; auto using u8_range. Qed.
Lemma bytes_put32 d o v : bytes d -> bytes (put32 d o v).
Proof. intros H a. unfold put32. rewrite !arr_dec. repeat case_decide; auto using u8_range. Qed.

(** ** Ring buffers

    The [n] elements of a ring of [size] slots from the slot [tail] on. *)
Definition ring {A} (g : Z -> A) (size tail : Z) (n : nat) : list A :=
  map (fun k => g ((tail + Z.of_nat k) mod size)) (seq 0 n).

Lemma length_ring {A} (g : Z -> A) size tail n : length (ring g size tail n) = n.
Proof. unfold ring. by rewrite length_map, length_seq. Qed.
Lemma ring_ext {A} (g h : Z -> A) size tail n :
  (forall k, 0 <= k < Z.of_nat n -> g ((tail + k) mod size) = h ((tail + k) mod size)) ->
  ring g size tail n = ring h size tail n.
Proof. intros H. apply map_ext_in. intros k Hk%in_seq. apply H. lia. Qed.
Lemma ring_snoc {A} (g : Z -> A) size tail n :
  ring g size tail (S n) = ring g size tail n ++ [g ((tail + Z.of_nat n) mod size)].
Proof. unfold ring. by rewrite seq_S, map_app. Qed.
Lemma ring_cons {A} (g : Z -> A) size tail n :
  0 <= tail < size ->
  ring g size tail (S n) = g tail :: ring g size ((tail + 1) mod size) n.
Proof.
  intros Ht. unfold ring. cbn [seq map]. f_equal; [by rewrite Z.add_0_r, Z.mod_small by lia|].
  rewrite <- seq_shift, map_map. apply map_ext. intros k. f_equal.
  rewrite Zplus_mod_idemp_l. f_equal. lia.
Qed.

(** The bytes of [l] stored from [a] on, and the [n] bytes read from [a] on. *)
Fixpoint store_bytes (m : Z -> Z) (a : Z) (l : list Z) : Z -> Z :=
  match l with
  | [] => m
  | c :: l => store_bytes (<[a := c]> m) (a + 1) l
  end.
Fixpoint load_bytes (m : Z -> Z) (a : Z) (n : nat) : list Z :=
  match n with
  | O => []
  | S n => m a :: load_bytes m (a + 1) n
  end.

Lemma store_bytes_app m a l k :
  store_bytes m a (l ++ k) = store_bytes (store_bytes m a l) (a + Z.of_nat (length l)) k.
Proof.
  revert m a. induction l as [|c l IH]; intros m a; simpl; [by rewrite Z.add_0_r|].
  rewrite IH. f_equal. lia.
Qed.
Lemma store_bytes_out m a l i :
  i < a \/ a + Z.of_nat (length l) <= i -> store_bytes m a l i = m i.
Proof.
  revert m a. induction l as [|c l IH]; intros m a H; simpl in *; [done|].
  rewrite IH by lia. apply arr_ne. lia.
Qed.
Lemma store_bytes_ext m m' a l i : m i = m' i -> store_bytes m a l i = store_bytes m' a l i.
Proof.
  revert m m' a. induction l as [|c l IH]; intros m m' a H; simpl; [done|].
  apply IH. rewrite !arr_dec. by case_decide.
Qed.
Lemma load_store m a l : load_bytes (store_bytes m a l) a (length l) = l.
Proof.
  revert m a. induction l as [|c l IH]; intros m a; simpl; [done|].
  by rewrite IH, store_bytes_out, arr_eq by lia.
Qed.
Lemma store_nth m a l i : 0 <= i < Z.of_nat (length l) -> store_bytes m a l (a + i) = nth (Z.to_nat i) l 0.
Proof.
  revert m a i. induction l as [|c l IH]; intros m a i Hi; simpl in *; [lia|].
  destruct (Z.eq_dec i 0) as [->|]; [by rewrite Z.add_0_r, store_bytes_out, arr_eq by lia|].
  replace (a + i) with (a + 1 + (i - 1)) by lia. rewrite IH by lia.
  replace (Z.to_nat i) with (S (Z.to_nat (i - 1))) by lia. done.
Qed.
Lemma length_load m a n : length (load_bytes m a n) = n.
Proof. revert a. induction n; intros; simpl; auto. Qed.
Lemma load_ext m m' a n :
  (forall i, a <= i < a + Z.of_nat n -> m i = m' i) -> load_bytes m a n = load_bytes m' a n.
Proof.
  revert a. induction n as [|n IH]; intros a H; simpl; [done|].
  rewrite H by lia. f_equal. apply IH. intros i ?. apply H. lia.
Qed.
Lemma load_app m a n k :
  load_bytes m a (n + k) = load_bytes m a n ++ load_bytes m (a + Z.of_nat n) k.
Proof.
  revert a. induction n as [|n IH]; intros a; simpl; [by rewrite Z.add_0_r|].
  rewrite IH. do 3 f_equal. lia.
Qed.
Lemma load_snoc m a n : load_bytes m a (S n) = load_bytes m a n ++ [m (a + Z.of_nat n)].
Proof. replace (S n) with (n + 1)%nat by lia. by rewrite load_app. Qed.

(** ** Tactics *)

(** Normalise reads of updated records and arrays. *)
Ltac kred := repeat (progress (simpl; autorewrite with kern)).

(** [lia] with quotients and remainders. *)
Ltac dlia := Z.to_euclidean_division_equations; lia.

(** Run the next primitive of a monadic program in the goal. *)
Ltac mrun1 :=
  first [ rewrite bind_gets | rewrite bind_get | rewrite bind_modify | rewrite bind_mret
        | rewrite bind_deref | rewrite bind_assoc | rewrite bind_panic
        | rewrite when_true | rewrite (bind_Ret (when false _) _ _ tt _ (when_false _ _)) ].
Ltac mrun := repeat mrun1.

(** Run a call whose result is known from an equation. *)
Tactic Notation "mcall" uconstr(H) := erewrite bind_Ret; [|eapply H].

(** Split a bool test of the source into its two arithmetic cases. *)
Ltac ztest :=
  repeat match goal with
  | H : (_ =? _) = true |- _ => apply Z.eqb_eq in H
  | H : (_ =? _) = false |- _ => apply Z.eqb_neq in H
  | H : (_ <? _) = true |- _ => apply Z.ltb_lt in H
  | H : (_ <? _) = false |- _ => apply Z.ltb_ge in H
  | H : (_ <=? _) = true |- _ => apply Z.leb_le in H
  | H : (_ <=? _) = false |- _ => apply Z.leb_gt in H
  | H : (_ >? _) = true |- _ => rewrite Z.gtb_ltb in H
  | H : (_ >? _) = false |- _ => rewrite Z.gtb_ltb in H
  | H : (_ >=? _) = true |- _ => rewrite Z.geb_leb in H
  | H : (_ >=? _) = false |- _ => rewrite Z.geb_leb in H
  | H : nz _ = true |- _ => apply nz_true in H
  | H : nz _ = false |- _ => apply nz_false in H
  | H : ptr_eqb _ _ = true |- _ => apply bool_decide_eq_true in H
  | H : ptr_eqb _ _ = false |- _ => apply bool_decide_eq_false in H
  | H : (_ && _)%bool = true |- _ => apply andb_true_iff in H as [? ?]
  | H : (_ || _)%bool = false |- _ => apply orb_false_iff in H as [? ?]
  | H : negb _ = true |- _ => apply negb_true_iff in H
  | H : negb _ = false |- _ => apply negb_false_iff in H
  end.
