(* ===== verification/Links.v ===== *)
(** Doubly linked lists and rings over tables: the link fields are given as
    functions from the index of an element, so that one theory serves the
    hash queues and the free list of the buffer cache. *)
From S2P Require Export Prelude.

(** A list from [p] on along [nx], with the links [pv] pointing back, the
    first one to [prev]. *)
Fixpoint dlist (nx pv : Z -> ptr) (p prev : ptr) (l : list Z) : Prop :=
  match l with
  | [] => p = None
  | i :: l => p = Some i /\ pv i = prev /\ dlist nx pv (nx i) (Some i) l
  end.

(** The elements [l] between [a] and [z]. *)
Fixpoint seg (nx pv : Z -> ptr) (a : Z) (l : list Z) (z : Z) : Prop :=
  match l with
  | [] => nx a = Some z /\ pv z = Some a
  | y :: l => nx a = Some y /\ pv y = Some a /\ seg nx pv y l z
  end.

(** A ring that starts at the head of [l]. *)
Definition ring (nx pv : Z -> ptr) (l : list Z) : Prop :=
  match l with
  | [] => False
  | a :: l => seg nx pv a l a
  end.

Section links.
Context (nx pv : Z -> ptr).

Lemma dlist_ext nx' pv' p prev l :
  (forall i, i ∈ l -> nx' i = nx i /\ pv' i = pv i) -> dlist nx pv p prev l -> dlist nx' pv' p prev l.
Proof.
  revert p prev. induction l as [|i l IH]; intros p prev He; simpl; [done|].
  intros (-> & Hp & Hl). destruct (He i) as [-> ->]; [set_solver|].
  split; [done|]. split; [done|]. apply IH; [|done]. intros j Hj. apply He. set_solver.
Qed.

(** Unlinking [x]: its neighbours are joined. *)
Definition unlink_nx (x : Z) : Z -> ptr :=
  match pv x with Some m => <[m := nx x]> nx | None => nx end.
Definition unlink_pv (x : Z) : Z -> ptr :=
  match nx x with Some n => <[n := pv x]> pv | None => pv end.

Lemma dlist_unlink p prev l1 x l2 :
  dlist nx pv p prev (l1 ++ x :: l2) -> NoDup (l1 ++ x :: l2) ->
  (forall y, prev = Some y -> y ∉ l1 ++ x :: l2) ->
  dlist (unlink_nx x) (unlink_pv x) (match l1 with [] => nx x | _ => p end) prev (l1 ++ l2).
Proof.
  revert p prev. induction l1 as [|y l1 IH]; intros p prev; simpl.
  - intros (-> & Hp & Hl) [Hx Hnd]%list.NoDup_cons Hprev.
    unfold unlink_nx, unlink_pv. rewrite Hp. destruct l2 as [|z l2]; simpl in *; [done|].
    destruct Hl as (Hn & Hz & Hl). rewrite Hn. split; [done|]. rewrite arr_eq. split; [done|].
    apply list.NoDup_cons in Hnd as [Hzl _].
    assert (Hzn : match prev with Some m => <[m:=Some z]> nx | None => nx end z = nx z).
    { destruct prev as [m|]; [|done]. apply arr_ne. specialize (Hprev m eq_refl). set_solver. }
    rewrite Hzn. apply dlist_ext; [|done]. intros i Hi. split; [|apply arr_ne; set_solver].
    destruct prev as [m|]; [|done]. apply arr_ne. specialize (Hprev m eq_refl). set_solver.
  - intros (-> & Hp & Hl) Hnd Hprev. split; [done|].
    apply list.NoDup_cons in Hnd as [Hy Hnd].
    assert (Hpv : unlink_pv x y = pv y).
    { unfold unlink_pv. destruct (nx x) as [n|] eqn:Hn; [|done]. apply arr_ne. intros ->.
      apply Hy. clear -Hl Hn. revert Hl. generalize (nx y) (Some y).
      induction l1 as [|w l1 IH]; simpl; intros p q (? & ? & Hl).
      - rewrite Hn in Hl. destruct l2; [done|]. destruct Hl as ([= ->] & _). set_solver.
      - apply IH in Hl. set_solver. }
    split; [by rewrite Hpv|].
    specialize (IH (nx y) (Some y) Hl Hnd). destruct l1 as [|w l1].
    + simpl in *. destruct Hl as (Hnx & Hpx & Hl).
      replace (unlink_nx x y) with (nx x); [apply IH|].
      * intros ? [= <-]. done.
      * unfold unlink_nx. rewrite Hpx. by rewrite arr_eq.
    + replace (unlink_nx x y) with (nx y); [apply IH|].
      * intros ? [= <-]. done.
      * unfold unlink_nx. destruct (pv x) as [m|] eqn:Hm; [|done]. symmetry. apply arr_ne.
        intros ->. apply Hy. clear -Hl Hm. simpl in Hl. destruct Hl as (_ & _ & Hl).
        revert Hl. generalize (nx w). revert w. induction l1 as [|v l1 IH]; simpl; intros w p.
        -- intros (_ & Hx & _). assert (y = w) as -> by congruence. set_solver.
        -- intros (_ & _ & Hl). apply IH in Hl. set_solver.
Qed.

(** Linking [x] in at the front. *)
Lemma dlist_push p l x :
  dlist nx pv p None l -> x ∉ l -> NoDup l ->
  dlist (<[x := p]> nx) (match p with Some n => <[n := Some x]> (<[x := None]> pv) | None => <[x := None]> pv end)
    (Some x) None (x :: l).
Proof.
  intros Hl Hx Hnd. simpl. split; [done|]. rewrite arr_eq. destruct l as [|n l]; simpl in *.
  - subst p. split; [by rewrite arr_eq|done].
  - destruct Hl as (-> & Hp & Hl). apply list.NoDup_cons in Hnd as [Hn _].
    rewrite arr_ne, arr_eq by set_solver. split; [done|]. split; [done|].
    rewrite arr_eq. split; [done|]. rewrite arr_ne by set_solver.
    apply dlist_ext; [|done]. intros i Hi. rewrite !arr_ne by set_solver. done.
Qed.

Lemma seg_app a l1 x l2 z : seg nx pv a (l1 ++ x :: l2) z <-> seg nx pv a l1 x /\ seg nx pv x l2 z.
Proof. revert a. induction l1 as [|y l1 IH]; intros a; simpl; [tauto|]. rewrite IH. tauto. Qed.

Lemma ring_rotate a r : ring nx pv (a :: r) -> r <> [] -> ring nx pv (r ++ [a]).
Proof.
  intros Hr Hne. destruct r as [|b r]; [done|]. simpl in *. destruct Hr as (? & ? & ?).
  apply seg_app. simpl. auto.
Qed.

Lemma seg_ext nx' pv' a l z :
  (forall i, i ∈ a :: l -> nx' i = nx i) -> (forall i, i ∈ l ++ [z] -> pv' i = pv i) ->
  seg nx pv a l z -> seg nx' pv' a l z.
Proof.
  revert a. induction l as [|y l IH]; intros a Hn Hp; simpl.
  - rewrite Hn, Hp by set_solver. done.
  - rewrite Hn, Hp by set_solver. intros (? & ? & ?). split; [done|]. split; [done|].
    apply IH; [|intros; apply Hp; set_solver|done]. intros i Hi. apply Hn. set_solver.
Qed.

Lemma seg_nx a l z : seg nx pv a l z -> exists n, nx a = Some n /\ n ∈ l ++ [z].
Proof. destruct l as [|y l]; simpl; intros [? ?]; eexists; (split; [done|set_solver]). Qed.
Lemma seg_pv a l z : seg nx pv a l z -> exists p, pv z = Some p /\ p ∈ a :: l.
Proof.
  revert a. induction l as [|y l IH]; intros a; simpl.
  - intros [_ ?]. exists a. set_solver.
  - intros (_ & _ & Hl). apply IH in Hl as (p & ? & ?). exists p. set_solver.
Qed.

(** Taking [x] out from between [a] and [z]. *)
Lemma seg_unlink a l1 x l2 z :
  seg nx pv a (l1 ++ x :: l2) z -> NoDup (l1 ++ x :: l2) ->
  a ∉ l1 ++ x :: l2 -> z ∉ l1 ++ x :: l2 ->
  seg (unlink_nx x) (unlink_pv x) a (l1 ++ l2) z.
Proof.
  intros Hs Hnd Ha Hz. apply seg_app in Hs as [H1 H2].
  destruct (seg_pv _ _ _ H1) as (m & Hm & Hml). destruct (seg_nx _ _ _ H2) as (n & Hn & Hnl).
  unfold unlink_nx, unlink_pv. rewrite Hm, Hn.
  apply list.NoDup_app in Hnd as (Hnd1 & Hdisj & [Hx Hnd2]%list.NoDup_cons).
  assert (H2' : forall b, m = b ->
    seg (<[m:=Some n]> nx) (<[n:=Some m]> pv) b l2 z).
  { intros b <-. destruct l2 as [|y l2]; simpl in *.
    - destruct H2 as [Hxz _]. assert (n = z) as -> by congruence. by rewrite !arr_eq.
    - destruct H2 as (Hxy & _ & H2). assert (n = y) as -> by congruence. rewrite !arr_eq.
      split; [done|]. split; [done|]. apply list.NoDup_cons in Hnd2 as [Hy _].
      assert (m ∉ y :: l2) by (intros ?; set_solver).
      apply seg_ext; [| |done]; intros i Hi; apply arr_ne; set_solver. }
  clear H2. revert a H1 Ha Hml Hnd1. induction l1 as [|y l1 IH]; intros a H1 Ha Hml Hnd1; simpl in *.
  - apply H2'. set_solver.
  - destruct H1 as (Hy & Hpy & H1). apply list.NoDup_cons in Hnd1 as [Hyl Hnd1].
    destruct (seg_pv _ _ _ H1) as (m' & Hm' & Hml'). assert (m' = m) as -> by congruence.
    rewrite (arr_ne _ m a), (arr_ne _ n y) by set_solver.
    split; [done|]. split; [done|]. apply IH; try done; set_solver.
Qed.

(** Linking [x] in before [z]. *)
Lemma seg_append a l z x p :
  seg nx pv a l z -> pv z = Some p -> NoDup (a :: l) -> x ∉ a :: l -> x <> z -> z ∉ l ->
  seg (<[p := Some x]> (<[x := Some z]> nx)) (<[z := Some x]> (<[x := Some p]> pv)) a (l ++ [x]) z.
Proof.
  intros Hs Hp Hnd Hx Hxz Hz.
  destruct (seg_pv _ _ _ Hs) as (p' & Hp' & Hpl). assert (p' = p) as -> by congruence.
  clear Hp'. revert a Hs Hnd Hx Hpl. induction l as [|y l IH]; intros a Hs Hnd Hx Hpl; simpl in *.
  - assert (p = a) as -> by set_solver.
    rewrite !arr_eq, (arr_ne _ a x), (arr_ne _ z x), !arr_eq by set_solver. done.
  - destruct Hs as (Hy & Hpy & Hs). apply list.NoDup_cons in Hnd as [Ha Hnd].
    destruct (seg_pv _ _ _ Hs) as (p' & Hp' & Hpl'). assert (p' = p) as -> by congruence.
    rewrite (arr_ne _ p a), (arr_ne _ x a), (arr_ne _ z y), (arr_ne _ x y) by set_solver.
    split; [done|]. split; [done|]. apply IH; set_solver.
Qed.
End links.

(** Taking an element out of a ring; the head moves on when it was the head. *)
Lemma ring_unlink nx pv l1 x l2 :
  ring nx pv (l1 ++ x :: l2) -> NoDup (l1 ++ x :: l2) -> l1 ++ l2 <> [] ->
  ring (unlink_nx nx pv x) (unlink_pv nx pv x) (l1 ++ l2).
Proof.
  intros Hr Hnd Hne. destruct l1 as [|a l1]; simpl in *.
  - destruct l2 as [|b l2]; [done|]. apply ring_rotate in Hr; [|done]. simpl in Hr.
    apply list.NoDup_cons in Hnd as [Hx Hnd]. apply list.NoDup_cons in Hnd as [Hb Hnd].
    rewrite <- (app_nil_r l2). apply seg_unlink; [done| |set_solver|set_solver].
    apply list.NoDup_app. split; [done|]. split; [set_solver|].
    apply list.NoDup_cons. split; [set_solver|constructor].
  - apply list.NoDup_cons in Hnd as [Ha Hnd]. by apply seg_unlink.
Qed.

(** Adding an element at the end of a ring. *)
Lemma ring_append nx pv a l x p :
  ring nx pv (a :: l) -> pv a = Some p -> NoDup (a :: l) -> x ∉ a :: l ->
  ring (<[p := Some x]> (<[x := Some a]> nx)) (<[a := Some x]> (<[x := Some p]> pv)) (a :: l ++ [x]).
Proof.
  intros Hr Hp Hnd Hx. simpl in *. pose proof Hnd as [Ha _]%list.NoDup_cons.
  apply seg_append; try done. set_solver.
Qed.

(** The neighbours of an element. *)
Lemma ring_neighbours nx pv l1 x l2 :
  ring nx pv (l1 ++ x :: l2) -> NoDup (l1 ++ x :: l2) -> l1 ++ l2 <> [] ->
  exists p n, pv x = Some p /\ nx x = Some n /\ p ∈ l1 ++ l2 /\ n ∈ l1 ++ l2 /\
    (l1 = [] -> head l2 = Some n).
Proof.
  intros Hr Hnd Hne. destruct l1 as [|a l1]; simpl in *.
  - destruct (seg_nx _ _ _ _ _ Hr) as (n & Hn & _). destruct l2 as [|b l2]; [done|].
    simpl in Hr. destruct Hr as (Hb & _ & Hs).
    destruct (seg_pv _ _ _ _ _ Hs) as (p & Hp & Hpl). exists p, b.
    split; [done|]. split; [done|]. split; [done|]. split; [set_solver|done].
  - apply list.NoDup_cons in Hnd as [Ha Hnd]. apply seg_app in Hr as [H1 H2].
    destruct (seg_pv _ _ _ _ _ H1) as (p & Hp & Hpl). destruct (seg_nx _ _ _ _ _ H2) as (n & Hn & Hnl).
    exists p, n. split; [done|]. split; [done|]. split; [set_solver|]. split; [set_solver|done].
Qed.

Lemma dlist_neighbours nx pv p prev l1 x l2 :
  dlist nx pv p prev (l1 ++ x :: l2) ->
  (nx x = head l2) /\ (pv x = match list.last l1 with Some m => Some m | None => prev end).
Proof.
  revert p prev. induction l1 as [|y l1 IH]; intros p prev; simpl.
  - intros (_ & Hp & Hl). split; [|done]. destruct l2; simpl in Hl; [done|apply Hl].
  - intros (_ & _ & Hl). apply IH in Hl as [? Hpv]. split; [done|].
    rewrite Hpv. destruct l1 as [|z l1]; [done|].
    change (list.last (y :: z :: l1)) with (list.last (z :: l1)).
    destruct (list.last (z :: l1)) eqn:E; [done|]. by apply last_None in E.
Qed.

(** Unlinking an element changes nothing for a list apart from its own. *)
Lemma dlist_unlink_other nx pv p prev l x :
  (forall m, pv x = Some m -> m ∉ l) -> (forall n, nx x = Some n -> n ∉ l) ->
  dlist nx pv p prev l -> dlist (unlink_nx nx pv x) (unlink_pv nx pv x) p prev l.
Proof.
  intros Hm Hn. apply dlist_ext. intros i Hi. unfold unlink_nx, unlink_pv. split.
  - destruct (pv x) as [m|]; [|done]. apply arr_ne. intros ->. by apply (Hm i).
  - destruct (nx x) as [n|]; [|done]. apply arr_ne. intros ->. by apply (Hn i).
Qed.

(** Filtering one element out. *)
Lemma filter_all {A} (P : A -> Prop) `{HP : !forall x, Decision (P x)} (l : list A) :
  (forall i, i ∈ l -> P i) -> filter P l = l.
Proof.
  induction l as [|i l IH]; intros Hall; [done|]. rewrite filter_cons_True by (apply Hall; set_solver).
  f_equal. apply IH. intros j ?. apply Hall. set_solver.
Qed.
Lemma filter_remove (x : Z) l1 l2 :
  NoDup (l1 ++ x :: l2) -> filter (fun i => i <> x) (l1 ++ x :: l2) = l1 ++ l2.
Proof.
  intros (_ & Hdis & [Hx _]%list.NoDup_cons)%list.NoDup_app.
  rewrite list.filter_app, filter_cons_False by auto.
  rewrite !filter_all; [done| |]; intros i Hi ->; [done|].
  apply (Hdis x Hi). set_solver.
Qed.
