(* ===== verification/KState.v ===== *)
(** The constants, the data structures and the state of the kernel, as the
    headers under include/ declare them, with the primitives that read and
    write them. *)
From S2P Require Export Prelude.
#[local] Open Scope bool_scope.

(** Limits and layout (include/linux/fs.h, sched.h, mm.h, tty.h, config.h, mm/memory.c). *)
Definition NR_TASKS : Z := 64.
Definition HZ : Z := 100.
Definition NR_OPEN : Z := 20.
Definition NR_INODE : Z := 32.
Definition NR_FILE : Z := 64.
Definition NR_SUPER : Z := 8.
Definition NR_HASH : Z := 307.
Definition BLOCK_SIZE : Z := 1024.
Definition NAME_LEN : Z := 14.
Definition I_MAP_SLOTS : Z := 8.
Definition Z_MAP_SLOTS : Z := 8.
Definition SUPER_MAGIC : Z := 0x137F.
Definition READ : Z := 0.
Definition WRITE : Z := 1.
Definition PAGE_SIZE : Z := 4096.
Definition TTY_BUF_SIZE : Z := 1024.
Definition HIGH_MEMORY : Z := 0x800000.
Definition BUFFER_END : Z := 0x200000.
Definition ROOT_DEV : Z := 0x301.
Definition LOW_MEM : Z := BUFFER_END.
Definition PAGING_MEMORY : Z := (HIGH_MEMORY - LOW_MEM).
Definition PAGING_PAGES : Z := (PAGING_MEMORY / 4096).

(** Task states (include/linux/sched.h). *)
Definition TASK_RUNNING : Z := 0.
Definition TASK_INTERRUPTIBLE : Z := 1.
Definition TASK_UNINTERRUPTIBLE : Z := 2.
Definition TASK_ZOMBIE : Z := 3.
Definition TASK_STOPPED : Z := 4.

(** Error numbers (include/errno.h). *)
Definition ERROR : Z := 99.
Definition EPERM : Z := 1.
Definition ENOENT : Z := 2.
Definition ESRCH : Z := 3.
Definition EINTR : Z := 4.
Definition EIO : Z := 5.
Definition ENOEXEC : Z := 8.
Definition EBADF : Z := 9.
Definition ECHILD : Z := 10.
Definition EAGAIN : Z := 11.
Definition ENOMEM : Z := 12.
Definition EACCES : Z := 13.
Definition EEXIST : Z := 17.
Definition EXDEV : Z := 18.
Definition ENOTDIR : Z := 20.
Definition EISDIR : Z := 21.
Definition EINVAL : Z := 22.
Definition EMFILE : Z := 24.
Definition ENOTTY : Z := 25.
Definition ENOSPC : Z := 28.
Definition ESPIPE : Z := 29.
Definition ENOSYS : Z := 38.
Definition ENOTEMPTY : Z := 39.

(** Signals (include/signal.h). *)
Definition SIGHUP : Z := 1.
Definition SIGINT : Z := 2.
Definition SIGQUIT : Z := 3.
Definition SIGILL : Z := 4.
Definition SIGTRAP : Z := 5.
Definition SIGABRT : Z := 6.
Definition SIGFPE : Z := 8.
Definition SIGUSR1 : Z := 10.
Definition SIGSEGV : Z := 11.
Definition SIGUSR2 : Z := 12.
Definition SIGPIPE : Z := 13.
Definition SIGALRM : Z := 14.
Definition SIGCHLD : Z := 17.

(** Open flags and [fcntl] commands (include/fcntl.h), in decimal. *)
Definition O_ACCMODE : Z := 3.
Definition O_WRONLY : Z := 1.
Definition O_CREAT : Z := 64.
Definition O_EXCL : Z := 128.
Definition O_TRUNC : Z := 512.
Definition O_APPEND : Z := 1024.
Definition O_NONBLOCK : Z := 2048.
Definition F_DUPFD : Z := 0.
Definition F_GETFD : Z := 1.
Definition F_SETFD : Z := 2.
Definition F_GETFL : Z := 3.
Definition F_SETFL : Z := 4.
Definition F_GETLK : Z := 5.
Definition F_SETLK : Z := 6.
Definition F_SETLKW : Z := 7.
Definition F_GETLK64 : Z := 12.
Definition F_SETLK64 : Z := 13.
Definition F_SETLKW64 : Z := 14.

(** File types (include/sys/stat.h, include/const.h), in decimal. *)
Definition S_IFMT : Z := 61440.
Definition S_IFREG : Z := 32768.
Definition S_IFBLK : Z := 24576.
Definition S_IFDIR : Z := 16384.
Definition S_IFCHR : Z := 8192.
Definition I_DIRECTORY : Z := 16384.
Definition I_REGULAR : Z := 32768.

(** Options of [waitpid] (include/sys/wait.h). *)
Definition WNOHANG : Z := 1.

Definition S_ISREG (m : Z) : bool := Z.land m S_IFMT =? S_IFREG.
Definition S_ISDIR (m : Z) : bool := Z.land m S_IFMT =? S_IFDIR.
Definition S_ISCHR (m : Z) : bool := Z.land m S_IFMT =? S_IFCHR.
Definition S_ISBLK (m : Z) : bool := Z.land m S_IFMT =? S_IFBLK.
Definition MAJOR (a : Z) : Z := u32 a / 256.
Definition MINOR (a : Z) : Z := Z.land a 255.
Definition IS_BLOCKDEV (x : Z) : bool := (x =? 2) || (x =? 3).
Definition INODES_PER_BLOCK : Z := BLOCK_SIZE / 32.
Definition DIR_ENTRIES_PER_BLOCK : Z := BLOCK_SIZE / 16.

(** [struct buffer_head]: a block of the buffer cache. *)
Record buffer_head : Type := mk_buffer_head {
  (** the pointer [b_data] *)
  b_addr : Z;
  (** the bytes it points to *)
  b_data : Z -> Z;
  b_dev : Z;
  b_blocknr : Z;
  b_uptodate : Z;
  b_dirt : Z;
  b_count : Z;
  b_lock : Z;
  b_wait : ptr;
  b_prev : ptr;
  b_next : ptr;
  b_prev_free : ptr;
  b_next_free : ptr;
}.
#[export] Instance eta_buffer_head : Eta buffer_head := fun r => mk_buffer_head
    (b_addr r) (b_data r) (b_dev r) (b_blocknr r) (b_uptodate r) (b_dirt r)
    (b_count r) (b_lock r) (b_wait r) (b_prev r) (b_next r) (b_prev_free r)
    (b_next_free r).

(** [struct d_inode]: an inode as it lies on the disk. *)
Record d_inode : Type := mk_d_inode {
  di_mode : Z;
  di_uid : Z;
  di_size : Z;
  di_time : Z;
  di_gid : Z;
  di_nlinks : Z;
  di_zone : Z -> Z;
}.
#[export] Instance eta_d_inode : Eta d_inode := fun r => mk_d_inode
    (di_mode r) (di_uid r) (di_size r) (di_time r) (di_gid r) (di_nlinks r)
    (di_zone r).

(** [struct m_inode]: an inode in memory. *)
Record m_inode : Type := mk_m_inode {
  i_mode : Z;
  i_uid : Z;
  i_size : Z;
  i_mtime : Z;
  i_gid : Z;
  i_nlinks : Z;
  i_zone : Z -> Z;
  i_wait : ptr;
  i_atime : Z;
  i_ctime : Z;
  i_dev : Z;
  i_num : Z;
  i_count : Z;
  i_lock : Z;
  i_dirt : Z;
  i_pipe : Z;
  i_mount : Z;
  i_seek : Z;
  i_update : Z;
}.
#[export] Instance eta_m_inode : Eta m_inode := fun r => mk_m_inode
    (i_mode r) (i_uid r) (i_size r) (i_mtime r) (i_gid r) (i_nlinks r)
    (i_zone r) (i_wait r) (i_atime r) (i_ctime r) (i_dev r) (i_num r)
    (i_count r) (i_lock r) (i_dirt r) (i_pipe r) (i_mount r) (i_seek r)
    (i_update r).

(** [struct file]: an entry of the open-file table. *)
Record file : Type := mk_file {
  f_mode : Z;
  f_flags : Z;
  f_count : Z;
  f_inode : ptr;
  f_pos : Z;
}.
#[export] Instance eta_file : Eta file := fun r => mk_file
    (f_mode r) (f_flags r) (f_count r) (f_inode r) (f_pos r).

(** [struct super_block]. *)
Record super_block : Type := mk_super_block {
  s_ninodes : Z;
  s_nzones : Z;
  s_imap_blocks : Z;
  s_zmap_blocks : Z;
  s_firstdatazone : Z;
  s_log_zone_size : Z;
  s_max_size : Z;
  s_magic : Z;
  s_imap : Z -> ptr;
  s_zmap : Z -> ptr;
  s_dev : Z;
  s_isup : ptr;
  s_imount : ptr;
  s_time : Z;
  s_rd_only : Z;
  s_dirt : Z;
}.
#[export] Instance eta_super_block : Eta super_block := fun r => mk_super_block
    (s_ninodes r) (s_nzones r) (s_imap_blocks r) (s_zmap_blocks r)
    (s_firstdatazone r) (s_log_zone_size r) (s_max_size r) (s_magic r)
    (s_imap r) (s_zmap r) (s_dev r) (s_isup r) (s_imount r) (s_time r)
    (s_rd_only r) (s_dirt r).

(** [struct tss_struct]: the processor state of a task that does not run. *)
Record tss_struct : Type := mk_tss_struct {
  back_link : Z;
  esp0 : Z;
  ss0 : Z;
  esp1 : Z;
  ss1 : Z;
  esp2 : Z;
  ss2 : Z;
  cr3 : Z;
  eip : Z;
  eflags : Z;
  eax : Z;
  ecx : Z;
  edx : Z;
  ebx : Z;
  esp : Z;
  ebp : Z;
  esi : Z;
  edi : Z;
  es : Z;
  cs : Z;
  ss : Z;
  ds : Z;
  fs : Z;
  gs : Z;
  ldtr : Z;
  trace_bitmap : Z;
  (** the image of the floating-point unit *)
  i387 : Z -> Z;
}.
#[export] Instance eta_tss_struct : Eta tss_struct := fun r => mk_tss_struct
    (back_link r) (esp0 r) (ss0 r) (esp1 r) (ss1 r) (esp2 r) (ss2 r) (cr3 r)
    (eip r) (eflags r) (eax r) (ecx r) (edx r) (ebx r) (esp r) (ebp r)
    (esi r) (edi r) (es r) (cs r) (ss r) (ds r) (fs r) (gs r) (ldtr r)
    (trace_bitmap r) (i387 r).

(** [struct task_struct]: a process. *)
Record task_struct : Type := mk_task_struct {
  t_state : Z;
  t_counter : Z;
  t_priority : Z;
  t_signal : Z;
  t_sig_restorer : Z;
  t_sig_fn : Z -> Z;
  t_exit_code : Z;
  t_end_code : Z;
  t_end_data : Z;
  t_brk : Z;
  t_start_stack : Z;
  t_pid : Z;
  t_father : Z;
  t_pgrp : Z;
  t_session : Z;
  t_leader : Z;
  t_uid : Z;
  t_euid : Z;
  t_suid : Z;
  t_gid : Z;
  t_egid : Z;
  t_sgid : Z;
  t_alarm : Z;
  t_utime : Z;
  t_stime : Z;
  t_cutime : Z;
  t_cstime : Z;
  t_start_time : Z;
  t_used_math : Z;
  t_tty : Z;
  t_umask : Z;
  t_pwd : ptr;
  t_root : ptr;
  t_close_on_exec : Z;
  t_filp : Z -> ptr;
  (** the descriptors [{a, b}] of the local table *)
  t_ldt : Z -> Z * Z;
  t_tss : tss_struct;
}.
#[export] Instance eta_task_struct : Eta task_struct := fun r => mk_task_struct
    (t_state r) (t_counter r) (t_priority r) (t_signal r) (t_sig_restorer r)
    (t_sig_fn r) (t_exit_code r) (t_end_code r) (t_end_data r) (t_brk r)
    (t_start_stack r) (t_pid r) (t_father r) (t_pgrp r) (t_session r)
    (t_leader r) (t_uid r) (t_euid r) (t_suid r) (t_gid r) (t_egid r)
    (t_sgid r) (t_alarm r) (t_utime r) (t_stime r) (t_cutime r) (t_cstime r)
    (t_start_time r) (t_used_math r) (t_tty r) (t_umask r) (t_pwd r)
    (t_root r) (t_close_on_exec r) (t_filp r) (t_ldt r) (t_tss r).

(** [struct termios]. *)
Record termios : Type := mk_termios {
  c_iflag : Z;
  c_oflag : Z;
  c_cflag : Z;
  c_lflag : Z;
  c_line : Z;
  c_cc : Z -> Z;
}.
#[export] Instance eta_termios : Eta termios := fun r => mk_termios
    (c_iflag r) (c_oflag r) (c_cflag r) (c_lflag r) (c_line r) (c_cc r).

(** [struct tty_queue]: a ring of characters. *)
Record tty_queue : Type := mk_tty_queue {
  q_data : Z;
  q_head : Z;
  q_tail : Z;
  q_proc_list : ptr;
  q_buf : Z -> Z;
}.
#[export] Instance eta_tty_queue : Eta tty_queue := fun r => mk_tty_queue
    (q_data r) (q_head r) (q_tail r) (q_proc_list r) (q_buf r).

(** The [write] function pointer of a tty: [con_write] or [rs_write]. *)
Inductive tty_writer : Type := con_writer | rs_writer.

(** [struct tty_struct]. *)
Record tty_struct : Type := mk_tty_struct {
  tt_termios : termios;
  tt_pgrp : Z;
  tt_stopped : Z;
  tt_write : tty_writer;
  tt_read_q : tty_queue;
  tt_write_q : tty_queue;
  tt_secondary : tty_queue;
}.
#[export] Instance eta_tty_struct : Eta tty_struct := fun r => mk_tty_struct
    (tt_termios r) (tt_pgrp r) (tt_stopped r) (tt_write r) (tt_read_q r)
    (tt_write_q r) (tt_secondary r).

(** The static variables of the console driver and the video memory they address. *)
Record console : Type := mk_console {
  origin : Z;
  scr_end : Z;
  pos : Z;
  con_x : Z;
  con_y : Z;
  con_top : Z;
  con_bottom : Z;
  con_state : Z;
  npar : Z;
  ques : Z;
  attr : Z;
  saved_x : Z;
  saved_y : Z;
  par : Z -> Z;
  (** the 16-bit cells of video memory, by byte address *)
  vmem : Z -> Z;
}.
#[export] Instance eta_console : Eta console := fun r => mk_console
    (origin r) (scr_end r) (pos r) (con_x r) (con_y r) (con_top r)
    (con_bottom r) (con_state r) (npar r) (ques r) (attr r) (saved_x r)
    (saved_y r) (par r) (vmem r).

(** [struct hd_request]: a queued transfer. *)
Record hd_request : Type := mk_hd_request {
  r_hd : Z;
  r_nsector : Z;
  r_sector : Z;
  r_head : Z;
  r_cyl : Z;
  r_cmd : Z;
  r_errors : Z;
  r_bh : ptr;
  r_next : ptr;
}.
#[export] Instance eta_hd_request : Eta hd_request := fun r => mk_hd_request
    (r_hd r) (r_nsector r) (r_sector r) (r_head r) (r_cyl r) (r_cmd r)
    (r_errors r) (r_bh r) (r_next r).

(** The [do_hd] function pointer: what the next disk interrupt runs. *)
Inductive hd_handler : Type := read_intr_h | write_intr_h | do_request_h.

(** The state of the kernel: its static variables, the structures its pointers
    lead to and the memory it manages. *)
Record kstate : Type := mk_kstate {
  (** kernel/sched.c *)
  jiffies : Z;
  startup_time : Z;
  (** the address of the first task *)
  init_task : Z;
  (** the task table, and the task structures it points to, by address *)
  task : Z -> ptr;
  tsk : Z -> task_struct;
  current : ptr;
  last_task_used_math : ptr;
  (** the global descriptor table: the descriptors [{a, b}] *)
  gdt : Z -> Z * Z;
  (** the interrupt descriptor table *)
  idt : Z -> Z * Z;
  (** the registers of the floating-point unit *)
  fpu : Z -> Z;
  (** kernel/fork.c *)
  last_pid : Z;
  (** mm/memory.c: the reference counts of the page frames *)
  mem_map : Z -> Z;
  (** physical memory, by bytes *)
  phys : Z -> Z;
  (** the data segment of the current process ([%fs]) *)
  user : Z -> Z;
  (** fs/buffer.c *)
  start_buffer : Z;
  nr_buffers : Z;
  bufs : Z -> buffer_head;
  hash_table : Z -> ptr;
  free_list : ptr;
  buffer_wait : ptr;
  (** fs/inode.c *)
  inode_table : Z -> m_inode;
  last_allocated_inode : Z;
  (** fs/super.c *)
  supers : Z -> super_block;
  (** fs/file_table.c *)
  file_table : Z -> file;
  (** kernel/tty_io.c, kernel/console.c *)
  tty_table : Z -> tty_struct;
  cr_flag : Z;
  con : console;
  (** kernel/hd.c *)
  request : Z -> hd_request;
  this_request : ptr;
  sorting : Z;
  do_hd : option hd_handler;
  wait_for_request : ptr;
  (** the table [hd]: start and length of each partition *)
  hd_parts : Z -> Z * Z;
  setup_callable : Z;
  (** the values written to I/O ports, last first, and the number of reads *)
  ports : list (Z * Z);
  inputs : Z;
  (** the calls of [printk], last first *)
  klog : list (string * list Z);
}.
#[export] Instance eta_kstate : Eta kstate := fun r => mk_kstate
    (jiffies r) (startup_time r) (init_task r) (task r) (tsk r) (current r)
    (last_task_used_math r) (gdt r) (idt r) (fpu r) (last_pid r) (mem_map r) (phys r)
    (user r) (start_buffer r) (nr_buffers r) (bufs r) (hash_table r)
    (free_list r) (buffer_wait r) (inode_table r) (last_allocated_inode r)
    (supers r) (file_table r) (tty_table r) (cr_flag r) (con r) (request r)
    (this_request r) (sorting r) (do_hd r) (wait_for_request r) (hd_parts r)
    (setup_callable r) (ports r) (inputs r) (klog r).

(** ** Access to the state *)

Abbreviation K := (M kstate).

(** One element of a table changed. *)
Definition upd_buf (i : Z) (f : buffer_head -> buffer_head) (s : kstate) : kstate :=
  s <| bufs ::= fun t => <[i := f (t i)]> t |>.
Definition upd_inode (i : Z) (f : m_inode -> m_inode) (s : kstate) : kstate :=
  s <| inode_table ::= fun t => <[i := f (t i)]> t |>.
Definition upd_file (i : Z) (f : file -> file) (s : kstate) : kstate :=
  s <| file_table ::= fun t => <[i := f (t i)]> t |>.
Definition upd_super (i : Z) (f : super_block -> super_block) (s : kstate) : kstate :=
  s <| supers ::= fun t => <[i := f (t i)]> t |>.
Definition upd_task (p : Z) (f : task_struct -> task_struct) (s : kstate) : kstate :=
  s <| tsk ::= fun t => <[p := f (t p)]> t |>.

Definition getb (i : Z) : K buffer_head := gets (fun s => bufs s i).
Definition setb (i : Z) (f : buffer_head -> buffer_head) : K unit := modify (upd_buf i f).
Definition geti (i : Z) : K m_inode := gets (fun s => inode_table s i).
Definition seti (i : Z) (f : m_inode -> m_inode) : K unit := modify (upd_inode i f).
Definition getf (i : Z) : K file := gets (fun s => file_table s i).
Definition setf (i : Z) (f : file -> file) : K unit := modify (upd_file i f).
Definition getsb (i : Z) : K super_block := gets (fun s => supers s i).
Definition setsb (i : Z) (f : super_block -> super_block) : K unit := modify (upd_super i f).
Definition gett (p : Z) : K task_struct := gets (fun s => tsk s p).
Definition sett (p : Z) (f : task_struct -> task_struct) : K unit := modify (upd_task p f).

(** [current], as a pointer that is followed. *)
Definition cur : K Z := c ← gets current; deref c.
Definition me : K task_struct := c ← cur; gett c.
Definition setme (f : task_struct -> task_struct) : K unit := c ← cur; sett c f.

(** [printk(fmt, args)]: the call is recorded; what it puts on the screen is
    the business of kernel/vsprintf.c and kernel/console.c. *)
Definition printk (fmt : string) (args : list Z) : K unit :=
  modify (fun s => s <| klog ::= cons (fmt, args) |>).

(** include/linux/sched.h:142. *)
Definition CURRENT_TIME : K Z :=
  gets (fun s => s32 (startup_time s + Z.quot (jiffies s) HZ)).

(** The accessors of the memory behind [%fs]. *)

(** include/asm/segment.h:1-7 *)
Definition get_fs_byte (a : Z) : K Z := gets (fun s => user s a).
(** include/asm/segment.h:17-23 *)
Definition get_fs_long (a : Z) : K Z := gets (fun s => le32 (user s) a).
(** include/asm/segment.h:25-28 *)
Definition put_fs_byte (v a : Z) : K unit :=
  modify (fun s => s <| user ::= <[a := u8 v]> |>).
(** include/asm/segment.h:30-33 *)
Definition put_fs_word (v a : Z) : K unit :=
  modify (fun s => s <| user ::= fun m => put16 m a v |>).
(** include/asm/segment.h:35-38 *)
Definition put_fs_long (v a : Z) : K unit :=
  modify (fun s => s <| user ::= fun m => put32 m a v |>).

(** Words of physical memory. *)
Definition phys_get (a : Z) : K Z := gets (fun s => le32 (phys s) a).
Definition phys_put (a v : Z) : K unit :=
  modify (fun s => s <| phys ::= fun m => put32 m a v |>).

(** A wait queue: the [struct task_struct *] variable whose address is passed
    to [sleep_on] and [wake_up]. *)
Record wqueue : Type := mk_wqueue {
  wq_get : kstate -> ptr;
  wq_set : ptr -> kstate -> kstate;
}.
Definition wq_b_wait (i : Z) : option wqueue := Some
  {| wq_get s := b_wait (bufs s i);
     wq_set p := upd_buf i (fun b => b <| b_wait := p |>) |}.
Definition wq_i_wait (i : Z) : option wqueue := Some
  {| wq_get s := i_wait (inode_table s i);
     wq_set p := upd_inode i (fun n => n <| i_wait := p |>) |}.
Definition wq_buffer_wait : option wqueue := Some
  {| wq_get := buffer_wait; wq_set p s := s <| buffer_wait := p |> |}.
Definition wq_wait_for_request : option wqueue := Some
  {| wq_get := wait_for_request; wq_set p s := s <| wait_for_request := p |> |}.

(** The entry points of exceptions, interrupts and system calls: asm.s,
    system_call.s, page.s, keyboard.s and rs_io.s.  include/linux/head.h and
    kernel/traps.c declare them. *)
Inductive entry : Type :=
| at_divide_error | at_debug | at_nmi | at_int3 | at_overflow | at_bounds | at_invalid_op
| at_device_not_available | at_double_fault | at_coprocessor_segment_overrun
| at_invalid_TSS | at_segment_not_present | at_stack_segment | at_general_protection
| at_page_fault | at_coprocessor_error | at_reserved
| at_timer_interrupt | at_keyboard_interrupt | at_rs2_interrupt | at_rs1_interrupt
| at_hd_interrupt | at_system_call | at_ignore_int.

(** include/asm/system.h:22-31: the gate in slot [n] of the table. *)
Definition _set_gate (n type dpl addr : Z) : K unit :=
  modify (fun s => s <| idt ::= <[n :=
    (0x00080000 + addr mod 65536,
     65536 * (addr / 65536 mod 65536) + u16 (0x8000 + Z.shiftl dpl 13 + Z.shiftl type 8))]> |>).
(** include/asm/system.h:33-34 *)
Definition set_intr_gate (n addr : Z) : K unit := _set_gate n 14 0 addr.
(** include/asm/system.h:36-37 *)
Definition set_trap_gate (n addr : Z) : K unit := _set_gate n 15 0 addr.
(** include/asm/system.h:39-40 *)
Definition set_system_gate (n addr : Z) : K unit := _set_gate n 15 3 addr.

(** What the kernel runs on: the devices, which answer a read of a port from
    the history of the bus - the writes so far and the number of reads -, the
    fuel given to the loops that have no bound of their own, and the bytes C
    leaves unspecified. *)
Class Machine := {
  fuel : nat;
  dev_in : list (Z * Z) -> Z -> Z -> Z;
  (** the bytes that happen to lie in a local variable that is not
      initialised, and below the table [_ctype] of lib/ctype.c *)
  stack_junk : Z -> Z;
  below_ctype : Z -> Z;
  (** where the linker puts the entry points of interrupts *)
  address_of : entry -> Z;
}.

Section io.
Context `{Machine}.

(** include/asm/io.h:5-9 *)
Definition inb (port : Z) : K Z :=
  s ← get;
  modify (fun s => s <| inputs ::= Z.succ |>);;
  mret (u8 (dev_in (ports s) (inputs s) port)).
(** include/asm/io.h:17-24 *)
Definition inb_p (port : Z) : K Z := inb port.
(** A 16-bit read. *)
Definition inw (port : Z) : K Z :=
  s ← get;
  modify (fun s => s <| inputs ::= Z.succ |>);;
  mret (u16 (dev_in (ports s) (inputs s) port)).
End io.

(** include/asm/io.h:1-2 *)
Definition outb (value port : Z) : K unit :=
  modify (fun s => s <| ports ::= cons (port, u8 value) |>).
(** include/asm/io.h:11-15 *)
Definition outb_p (value port : Z) : K unit := outb value port.
(** A 16-bit write. *)
Definition outw (value port : Z) : K unit :=
  modify (fun s => s <| ports ::= cons (port, u16 value) |>).

(** ** Laws of the updates *)

Lemma upd_buf_eq i f s : bufs (upd_buf i f s) i = f (bufs s i).
Proof. unfold upd_buf. simpl. apply arr_eq. Qed.
Lemma upd_buf_ne i j f s : i <> j -> bufs (upd_buf i f s) j = bufs s j.
Proof. intros. unfold upd_buf. simpl. by apply arr_ne. Qed.
Lemma upd_buf_fuse i f g s : upd_buf i f (upd_buf i g s) = upd_buf i (fun x => f (g x)) s.
Proof. unfold upd_buf, set_field. simpl. by rewrite arr_same, arr_eq. Qed.
Lemma upd_buf_id i f s : f (bufs s i) = bufs s i -> upd_buf i f s = s.
Proof. intros H. unfold upd_buf, set_field. simpl. rewrite H, arr_id. by destruct s. Qed.
Lemma upd_buf_ext i f g s : f (bufs s i) = g (bufs s i) -> upd_buf i f s = upd_buf i g s.
Proof. intros H. unfold upd_buf, set_field. simpl. by rewrite H. Qed.
#[export] Hint Rewrite upd_buf_eq upd_buf_fuse : kern.
#[export] Hint Rewrite upd_buf_ne using (first [done | lia | congruence]) : kern.

Lemma upd_inode_eq i f s : inode_table (upd_inode i f s) i = f (inode_table s i).
Proof. unfold upd_inode. simpl. apply arr_eq. Qed.
Lemma upd_inode_ne i j f s : i <> j -> inode_table (upd_inode i f s) j = inode_table s j.
Proof. intros. unfold upd_inode. simpl. by apply arr_ne. Qed.
Lemma upd_inode_fuse i f g s : upd_inode i f (upd_inode i g s) = upd_inode i (fun x => f (g x)) s.
Proof. unfold upd_inode, set_field. simpl. by rewrite arr_same, arr_eq. Qed.
Lemma upd_inode_id i f s : f (inode_table s i) = inode_table s i -> upd_inode i f s = s.
Proof. intros H. unfold upd_inode, set_field. simpl. rewrite H, arr_id. by destruct s. Qed.
Lemma upd_inode_ext i f g s : f (inode_table s i) = g (inode_table s i) -> upd_inode i f s = upd_inode i g s.
Proof. intros H. unfold upd_inode, set_field. simpl. by rewrite H. Qed.
#[export] Hint Rewrite upd_inode_eq upd_inode_fuse : kern.
#[export] Hint Rewrite upd_inode_ne using (first [done | lia | congruence]) : kern.

Lemma upd_file_eq i f s : file_table (upd_file i f s) i = f (file_table s i).
Proof. unfold upd_file. simpl. apply arr_eq. Qed.
Lemma upd_file_ne i j f s : i <> j -> file_table (upd_file i f s) j = file_table s j.
Proof. intros. unfold upd_file. simpl. by apply arr_ne. Qed.
Lemma upd_file_fuse i f g s : upd_file i f (upd_file i g s) = upd_file i (fun x => f (g x)) s.
Proof. unfold upd_file, set_field. simpl. by rewrite arr_same, arr_eq. Qed.
Lemma upd_file_id i f s : f (file_table s i) = file_table s i -> upd_file i f s = s.
Proof. intros H. unfold upd_file, set_field. simpl. rewrite H, arr_id. by destruct s. Qed.
Lemma upd_file_ext i f g s : f (file_table s i) = g (file_table s i) -> upd_file i f s = upd_file i g s.
Proof. intros H. unfold upd_file, set_field. simpl. by rewrite H. Qed.
#[export] Hint Rewrite upd_file_eq upd_file_fuse : kern.
#[export] Hint Rewrite upd_file_ne using (first [done | lia | congruence]) : kern.

Lemma upd_super_eq i f s : supers (upd_super i f s) i = f (supers s i).
Proof. unfold upd_super. simpl. apply arr_eq. Qed.
Lemma upd_super_ne i j f s : i <> j -> supers (upd_super i f s) j = supers s j.
Proof. intros. unfold upd_super. simpl. by apply arr_ne. Qed.
Lemma upd_super_fuse i f g s : upd_super i f (upd_super i g s) = upd_super i (fun x => f (g x)) s.
Proof. unfold upd_super, set_field. simpl. by rewrite arr_same, arr_eq. Qed.
Lemma upd_super_id i f s : f (supers s i) = supers s i -> upd_super i f s = s.
Proof. intros H. unfold upd_super, set_field. simpl. rewrite H, arr_id. by destruct s. Qed.
Lemma upd_super_ext i f g s : f (supers s i) = g (supers s i) -> upd_super i f s = upd_super i g s.
Proof. intros H. unfold upd_super, set_field. simpl. by rewrite H. Qed.
#[export] Hint Rewrite upd_super_eq upd_super_fuse : kern.
#[export] Hint Rewrite upd_super_ne using (first [done | lia | congruence]) : kern.

Lemma upd_task_eq i f s : tsk (upd_task i f s) i = f (tsk s i).
Proof. unfold upd_task. simpl. apply arr_eq. Qed.
Lemma upd_task_ne i j f s : i <> j -> tsk (upd_task i f s) j = tsk s j.
Proof. intros. unfold upd_task. simpl. by apply arr_ne. Qed.
Lemma upd_task_fuse i f g s : upd_task i f (upd_task i g s) = upd_task i (fun x => f (g x)) s.
Proof. unfold upd_task, set_field. simpl. by rewrite arr_same, arr_eq. Qed.
Lemma upd_task_id i f s : f (tsk s i) = tsk s i -> upd_task i f s = s.
Proof. intros H. unfold upd_task, set_field. simpl. rewrite H, arr_id. by destruct s. Qed.
Lemma upd_task_ext i f g s : f (tsk s i) = g (tsk s i) -> upd_task i f s = upd_task i g s.
Proof. intros H. unfold upd_task, set_field. simpl. by rewrite H. Qed.
#[export] Hint Rewrite upd_task_eq upd_task_fuse : kern.
#[export] Hint Rewrite upd_task_ne using (first [done | lia | congruence]) : kern.

(** ** Running the primitives *)

Lemma bind_getb {B} i (k : _ -> K B) s : (getb i ≫= k) s = k (bufs s i) s.
Proof. done. Qed.
Lemma bind_setb {B} i f (k : _ -> K B) s : (setb i f ≫= k) s = k tt (upd_buf i f s).
Proof. done. Qed.
Lemma bind_geti {B} i (k : _ -> K B) s : (geti i ≫= k) s = k (inode_table s i) s.
Proof. done. Qed.
Lemma bind_seti {B} i f (k : _ -> K B) s : (seti i f ≫= k) s = k tt (upd_inode i f s).
Proof. done. Qed.
Lemma bind_getf {B} i (k : _ -> K B) s : (getf i ≫= k) s = k (file_table s i) s.
Proof. done. Qed.
Lemma bind_setf {B} i f (k : _ -> K B) s : (setf i f ≫= k) s = k tt (upd_file i f s).
Proof. done. Qed.
Lemma bind_getsb {B} i (k : _ -> K B) s : (getsb i ≫= k) s = k (supers s i) s.
Proof. done. Qed.
Lemma bind_setsb {B} i f (k : _ -> K B) s : (setsb i f ≫= k) s = k tt (upd_super i f s).
Proof. done. Qed.
Lemma bind_gett {B} i (k : _ -> K B) s : (gett i ≫= k) s = k (tsk s i) s.
Proof. done. Qed.
Lemma bind_sett {B} i f (k : _ -> K B) s : (sett i f ≫= k) s = k tt (upd_task i f s).
Proof. done. Qed.
Lemma bind_phys_get {B} a (k : _ -> K B) s : (phys_get a ≫= k) s = k (le32 (phys s) a) s.
Proof. done. Qed.
Lemma bind_phys_put {B} a v (k : _ -> K B) s :
  (phys_put a v ≫= k) s = k tt (s <| phys ::= fun m => put32 m a v |>).
Proof. done. Qed.
Lemma bind_printk {B} f a (k : _ -> K B) s :
  (printk f a ≫= k) s = k tt (s <| klog ::= cons (f, a) |>).
Proof. done. Qed.

Ltac mrun1 ::=
  first [ rewrite bind_gets | rewrite bind_get | rewrite bind_modify | rewrite bind_mret
        | rewrite bind_deref | rewrite bind_assoc | rewrite bind_panic
        | rewrite bind_getb
        | rewrite bind_setb
        | rewrite bind_geti
        | rewrite bind_seti
        | rewrite bind_getf
        | rewrite bind_setf
        | rewrite bind_getsb
        | rewrite bind_setsb
        | rewrite bind_gett
        | rewrite bind_sett
        | rewrite bind_phys_get
        | rewrite bind_phys_put
        | rewrite bind_printk
        | rewrite when_true | rewrite (bind_Ret (when false _) _ _ tt _ (when_false _ _)) ].

(** ** The all-zero structures

    What [memset(p, 0, sizeof *p)] leaves, and a kernel state in which every
    table is empty, from which the examples start. *)
Definition zero_arr : Z -> Z := fun _ => 0.
Definition zero_buffer_head : buffer_head :=
  mk_buffer_head 0 zero_arr 0 0 0 0 0 0 None None None None None.
Definition zero_m_inode : m_inode :=
  mk_m_inode 0 0 0 0 0 0 zero_arr None 0 0 0 0 0 0 0 0 0 0 0.
Definition zero_file : file := mk_file 0 0 0 None 0.
Definition zero_super_block : super_block :=
  mk_super_block 0 0 0 0 0 0 0 0 (fun _ => None) (fun _ => None) 0 None None 0 0 0.
Definition zero_tss : tss_struct :=
  mk_tss_struct 0 0 0 0 0 0 0 0 0 0 0 0 0 0 0 0 0 0 0 0 0 0 0 0 0 0 zero_arr.
Definition zero_task : task_struct :=
  mk_task_struct 0 0 0 0 0 zero_arr 0 0 0 0 0 0 0 0 0 0 0 0 0 0 0 0 0 0 0 0 0 0 0 0 0
    None None 0 (fun _ => None) (fun _ => (0, 0)) zero_tss.
Definition zero_termios : termios := mk_termios 0 0 0 0 0 zero_arr.
Definition zero_queue : tty_queue := mk_tty_queue 0 0 0 None zero_arr.
Definition zero_tty : tty_struct :=
  mk_tty_struct zero_termios 0 0 con_writer zero_queue zero_queue zero_queue.
Definition zero_console : console := mk_console 0 0 0 0 0 0 0 0 0 0 0 0 0 zero_arr zero_arr.
Definition zero_request : hd_request := mk_hd_request 0 0 0 0 0 0 0 None None.
Definition zero_kstate : kstate := {|
  jiffies := 0; startup_time := 0; init_task := 4096;
  task := fun i => if i =? 0 then Some 4096 else None; tsk := fun _ => zero_task;
  current := Some 4096; last_task_used_math := None; gdt := fun _ => (0, 0); idt := fun _ => (0, 0); fpu := zero_arr; last_pid := 0;
  mem_map := zero_arr; phys := zero_arr; user := zero_arr;
  start_buffer := 0x40000; nr_buffers := 0; bufs := fun _ => zero_buffer_head;
  hash_table := fun _ => None; free_list := None; buffer_wait := None;
  inode_table := fun _ => zero_m_inode; last_allocated_inode := 0;
  supers := fun _ => zero_super_block; file_table := fun _ => zero_file;
  tty_table := fun _ => zero_tty; cr_flag := 0; con := zero_console;
  request := fun _ => zero_request; this_request := None; sorting := 0; do_hd := None;
  wait_for_request := None; hd_parts := fun _ => (0, 0); setup_callable := 1;
  ports := []; inputs := 0; klog := [];
|}.

(** A machine whose devices always answer 0x50: a disk that is ready. *)
Definition quiet_machine : Machine := {| fuel := 400; dev_in _ _ _ := 0x50;
  stack_junk _ := 0; below_ctype _ := 0; address_of _ := 0x12345678 |}.
