(* ===== verification/Sched.v ===== *)
(** The scheduler, kernel/sched.c: choice of the next task, wait queues, the
    timer tick and the system calls that touch only the current task. *)
From S2P Require Export KState.
#[local] Open Scope bool_scope.

Section sched.
  (** The image [fninit] leaves in the floating-point unit. *)
  Context (fninit : Z -> Z).

(** kernel/sched.c:109-156 *)
Definition math_state_restore : K unit :=
  s ← get;
  match current s with
  | None => panic "CRITICAL: math_state_restore called with NULL current task!"
  | Some c =>
      if ptr_eqb (last_task_used_math s) (Some c) then mret tt
      else
        match last_task_used_math s with
        | Some l =>
            sett l (fun t => t <| t_tss ::= fun x => x <| i387 := fpu s |> |>);;
            modify (fun s => s <| fpu := fninit |>)
        | None => mret tt
        end;;
        t ← gett c;
        if nz (t_used_math t) then
          modify (fun s => s <| fpu := i387 (t_tss t) |>);;
          modify (fun s => s <| last_task_used_math := Some c |>)
        else
          modify (fun s => s <| fpu := fninit |>);;
          sett c (fun t => t <| t_used_math := 1 |>);;
          modify (fun s => s <| last_task_used_math := Some c |>)
  end.
End sched.

(** include/linux/sched.h:168-181: the tasks run until the current one is
    chosen again, which makes it [current] once more. *)
Definition switch_to (n : Z) : K unit := fun s =>
  if ptr_eqb (task s n) (current s) then Ret tt s
  else Yield (s <| current := task s n |>)
             (fun s' => Ret tt (s' <| current := current s |>)).

(** kernel/sched.c:187-209, the body of the loop. *)
Definition check_signals (i : Z) : K unit :=
  s ← get;
  match task s i with
  | None => mret tt
  | Some p =>
      t ← gett p;
      when (nz (t_alarm t) && (t_alarm t <? jiffies s))
        (sett p (fun t => t <| t_signal ::= fun g => Z.lor g (Z.shiftl 1 (SIGALRM - 1)) |>);;
         sett p (fun t => t <| t_alarm := 0 |>));;
      t ← gett p;
      when (nz (t_signal t) && (t_state t =? TASK_INTERRUPTIBLE))
        (sett p (fun t => t <| t_state := TASK_RUNNING |>))
  end.

(** kernel/sched.c:219-235: the slots below [i + 1], from the top, with the
    best counter so far in [c] and its slot in [next]. *)
Fixpoint pick (s : kstate) (i : nat) (c next : Z) : Z * Z :=
  match i with
  | O => (c, next)
  | S i' =>
      match task s (Z.of_nat i) with
      | None => pick s i' c next
      | Some p =>
          if (t_state (tsk s p) =? TASK_RUNNING) && (t_counter (tsk s p) >? c)
          then pick s i' (t_counter (tsk s p)) (Z.of_nat i)
          else pick s i' c next
      end
  end.

(** kernel/sched.c:255-259, the body of the loop. *)
Definition recharge (i : Z) : K unit :=
  s ← get;
  match task s i with
  | None => mret tt
  | Some p => sett p (fun t => t <| t_counter := s32 (Z.shiftr (t_counter t) 1 + t_priority t) |>)
  end.

(** kernel/sched.c:218-260 *)
Definition choose_next (fuel : nat) : K Z :=
  loop fuel (fun _ : unit =>
    s ← get;
    let '(c, next) := pick s 63 (-1) 0 in
    if nz c then mret (inr next)
    else for_down 1 63 recharge;; mret (inl tt)) tt.

(** kernel/sched.c:175-267 *)
Definition schedule (fuel : nat) : K unit :=
  for_down 1 63 check_signals;;
  next ← choose_next fuel;
  switch_to next.

Section waiting.
  Context (fuel : nat).

(** kernel/sched.c:278-284 *)
Definition sys_pause : K Z :=
  s ← get;
  match current s with
  | None => panic "sys_pause: Current task is NULL"
  | Some c =>
      sett c (fun t => t <| t_state := TASK_INTERRUPTIBLE |>);;
      schedule fuel;;
      mret 0
  end.

(** kernel/sched.c:298-333 *)
Definition sleep_on (p : option wqueue) : K unit :=
  match p with
  | None => mret tt
  | Some q =>
      s ← get;
      if ptr_eqb (current s) (Some (init_task s))
      then panic "CRITICAL ERROR: Task[0] attempting to sleep! System Halted."
      else
        tmp ← gets (wq_get q);
        modify (wq_set q (current s));;
        setme (fun t => t <| t_state := TASK_UNINTERRUPTIBLE |>);;
        schedule fuel;;
        match tmp with
        | Some t => sett t (fun t => t <| t_state := TASK_RUNNING |>)
        | None => mret tt
        end
  end.

(** kernel/sched.c:341-371 *)
Definition interruptible_sleep_on (p : option wqueue) : K unit :=
  match p with
  | None => mret tt
  | Some q =>
      s ← get;
      if ptr_eqb (current s) (Some (init_task s))
      then panic "CRITICAL ERROR: Task[0] attempting to sleep (interruptible)!"
      else
        tmp ← gets (wq_get q);
        modify (wq_set q (current s));;
        loop fuel (fun _ : unit =>
          setme (fun t => t <| t_state := TASK_INTERRUPTIBLE |>);;
          schedule fuel;;
          s ← get;
          match wq_get q s with
          | Some h =>
              if ptr_eqb (Some h) (current s) then mret (inr tt)
              else sett h (fun t => t <| t_state := TASK_RUNNING |>);; mret (inl tt)
          | None => mret (inr tt)
          end) tt;;
        modify (wq_set q None);;
        match tmp with
        | Some t => sett t (fun t => t <| t_state := TASK_RUNNING |>)
        | None => mret tt
        end
  end.

(** kernel/sched.c:379-389 *)
Definition wake_up (p : option wqueue) : K unit :=
  match p with
  | None => mret tt
  | Some q =>
      h ← gets (wq_get q);
      match h with
      | None => mret tt
      | Some t =>
          sett t (fun t => t <| t_state := TASK_RUNNING |>);;
          modify (wq_set q None)
      end
  end.

(** kernel/sched.c:400-435 *)
Definition do_timer (cpl : Z) : K unit :=
  s ← get;
  match current s with
  | None => mret tt
  | Some c =>
      (if nz cpl then sett c (fun t => t <| t_utime ::= fun x => s32 (x + 1) |>)
       else sett c (fun t => t <| t_stime ::= fun x => s32 (x + 1) |>));;
      sett c (fun t => t <| t_counter ::= fun x => s32 (x - 1) |>);;
      t ← gett c;
      if t_counter t >? 0 then mret tt
      else
        sett c (fun t => t <| t_counter := 0 |>);;
        if negb (nz cpl) then mret tt else schedule fuel
  end.
End waiting.

(** kernel/sched.c:443-450 *)
Definition sys_alarm (seconds : Z) : K Z :=
  t ← me;
  s ← get;
  let old := if nz (t_alarm t) then Z.quot (t_alarm t - jiffies s) HZ else t_alarm t in
  setme (fun t => t <| t_alarm :=
    if seconds >? 0 then s32 (jiffies s + HZ * seconds) else 0 |>);;
  mret old.

(** kernel/sched.c:452 *)
Definition sys_getpid : K Z := t ← me; mret (t_pid t).
(** kernel/sched.c:453 *)
Definition sys_getppid : K Z := t ← me; mret (t_father t).
(** kernel/sched.c:454 *)
Definition sys_getuid : K Z := t ← me; mret (t_uid t).
(** kernel/sched.c:455 *)
Definition sys_geteuid : K Z := t ← me; mret (t_euid t).
(** kernel/sched.c:456 *)
Definition sys_getgid : K Z := t ← me; mret (t_gid t).
(** kernel/sched.c:457 *)
Definition sys_getegid : K Z := t ← me; mret (t_egid t).

(** kernel/sched.c:468-482 *)
Definition sys_nice (increment : Z) : K Z :=
  t ← me;
  when (s32 (t_priority t - increment) >? 0)
    (setme (fun t => t <| t_priority := s32 (t_priority t - increment) |>);;
     t ← me;
     when (increment <? 0)
       (printk " [PERF] Process Priority Boosted! (PID: %d, NewPrio: %d)\n\r"
          [t_pid t; t_priority t]));;
  mret 0.

(** kernel/sched.c:494-497 *)
Definition catchable (signal : Z) : bool :=
  existsb (Z.eqb signal)
    [SIGHUP; SIGINT; SIGQUIT; SIGILL; SIGTRAP; SIGABRT; SIGFPE; SIGUSR1;
     SIGSEGV; SIGUSR2; SIGPIPE; SIGALRM; SIGCHLD].

(** kernel/sched.c:484-504 *)
Definition sys_signal (signal addr restorer : Z) : K Z :=
  if (signal <? 1) || (signal >? 32) then mret (-1)
  else if catchable signal then
    t ← me;
    let i := t_sig_fn t (signal - 1) in
    setme (fun t => t <| t_sig_fn ::= <[signal - 1 := addr]> |>);;
    setme (fun t => t <| t_sig_restorer := restorer |>);;
    mret i
  else mret (-1).

(** ** The choice of the next task *)

Definition occupied (s : kstate) (i : Z) (p : Z) : Prop := task s i = Some p.
Definition runnable (s : kstate) (i : Z) : Prop :=
  exists p, task s i = Some p /\ t_state (tsk s p) = TASK_RUNNING.
Definition counter_of (s : kstate) (i : Z) : Z :=
  match task s i with Some p => t_counter (tsk s p) | None => 0 end.

(** The task table is sane: distinct slots hold distinct tasks, priorities are
    positive and counters not negative, both small enough that the recharge
    does not overflow. *)
Record sched_ok (s : kstate) : Prop := {
  so_inj : forall i j p, 1 <= i <= 63 -> 1 <= j <= 63 ->
    task s i = Some p -> task s j = Some p -> i = j;
  so_prio : forall i p, 1 <= i <= 63 -> task s i = Some p ->
    0 < t_priority (tsk s p) < 1073741824;
  so_count : forall i p, 1 <= i <= 63 -> task s i = Some p ->
    0 <= t_counter (tsk s p) < 2147483648;
}.

(** What [pick] returns: the best counter and the slot that has it, the
    highest such slot, or the starting values when no slot beats them. *)
Lemma pick_spec s n c next :
  let '(c', next') := pick s n c next in
  c <= c' /\
  ((c', next') = (c, next) \/
   1 <= next' <= Z.of_nat n /\ runnable s next' /\ counter_of s next' = c') /\
  (forall i, 1 <= i <= Z.of_nat n -> runnable s i -> counter_of s i <= c').
Proof.
  revert c next. induction n as [|n IH]; intros c next.
  { simpl. split; [lia|]. split; [by left|]. intros i ?. lia. }
  cbn [pick]. set (i := Z.of_nat (S n)).
  destruct (task s i) as [p|] eqn:Hp; cycle 1.
  { specialize (IH c next). destruct (pick s n c next) as [c' next'].
    destruct IH as (Hc & Hn & Hall). split; [done|]. split.
    - destruct Hn as [?|(? & ? & ?)]; [by left|right]. split; [lia|done].
    - intros j Hj Hr. destruct (decide (j = i)) as [->|]; [|apply Hall; [lia|done]].
      destruct Hr as (q & Hq & _). congruence. }
  destruct ((t_state (tsk s p) =? TASK_RUNNING) && (t_counter (tsk s p) >? c)) eqn:Ht.
  - ztest. specialize (IH (t_counter (tsk s p)) i).
    destruct (pick s n _ i) as [c' next']. destruct IH as (Hc & Hn & Hall).
    assert (Hci : counter_of s i = t_counter (tsk s p)) by (unfold counter_of; by rewrite Hp).
    split; [lia|]. split.
    + right. destruct Hn as [[= -> ->]|(? & ? & ?)].
      * split; [lia|]. split; [by exists p|done].
      * split; [lia|done].
    + intros j Hj Hr. destruct (decide (j = i)) as [->|]; [lia|apply Hall; [lia|done]].
  - specialize (IH c next). destruct (pick s n c next) as [c' next'].
    destruct IH as (Hc & Hn & Hall). split; [done|]. split.
    + destruct Hn as [?|(? & ? & ?)]; [by left|right]. split; [lia|done].
    + intros j Hj Hr. destruct (decide (j = i)) as [->|]; [|apply Hall; [lia|done]].
      destruct Hr as (q & Hq & Hrun). assert (q = p) as -> by congruence.
      unfold counter_of. rewrite Hp. apply andb_false_iff in Ht as [Ht|Ht]; ztest; [done|lia].
Qed.

(** ** Walks over the task table

    Several loops of the kernel go down the task table and do something to
    each task they find.  [on_tasks g s] is the state in which every task in
    a slot [1..63] has been passed through [g]. *)

Definition in_slots (s : kstate) (j : Z) (p : Z) : bool :=
  negb (null (scan (fun i => ptr_eqb (task s i) (Some p)) j (Z.to_nat (64 - j)))).
Definition on_tasks_from (g : task_struct -> task_struct) (j : Z) (s : kstate) : kstate :=
  s <| tsk := fun p => if in_slots s j p then g (tsk s p) else tsk s p |>.
Definition on_tasks (g : task_struct -> task_struct) : kstate -> kstate :=
  on_tasks_from g 1.

Lemma in_slots_true s j p :
  in_slots s j p = true <-> exists i, j <= i <= 63 /\ task s i = Some p.
Proof.
  unfold in_slots.
  destruct (scan _ j _) as [i|] eqn:E; simpl.
  - split; [intros _|done]. apply scan_Some in E as (? & Hi & _). ztest.
    exists i. split; [lia|done].
  - split; [done|]. intros (i & ? & Hi). rewrite scan_None in E.
    specialize (E i ltac:(lia)). simpl in E. rewrite Hi, ptr_eqb_refl in E. done.
Qed.

Lemma in_slots_false s j p :
  in_slots s j p = false <-> forall i, j <= i <= 63 -> task s i <> Some p.
Proof.
  rewrite <- not_true_iff_false, in_slots_true. split.
  - intros H i ? ?. apply H. eauto.
  - intros H (i & ? & ?). eapply H; eauto.
Qed.

Lemma on_tasks_from_step g s j :
  sched_ok s -> 1 <= j <= 63 ->
  on_tasks_from g j s =
  match task s j with
  | None => on_tasks_from g (j + 1) s
  | Some p => upd_task p g (on_tasks_from g (j + 1) s)
  end.
Proof.
  intros Hok Hj.
  assert (Hstep : forall q, in_slots s j q = ptr_eqb (task s j) (Some q) || in_slots s (j + 1) q).
  { intros q. unfold in_slots. replace (Z.to_nat (64 - j)) with (S (Z.to_nat (64 - (j + 1)))) by lia.
    simpl. by destruct (ptr_eqb (task s j) (Some q)). }
  unfold on_tasks_from. destruct (task s j) as [p|] eqn:Hp.
  - unfold upd_task, set_field; simpl. f_equal. apply functional_extensionality. intros q.
    rewrite Hstep, arr_dec. case_decide as Hq.
    + subst q. rewrite ptr_eqb_refl. simpl.
      replace (in_slots s (j + 1) p) with false; [done|]. symmetry.
      apply in_slots_false. intros i ? Hi.
      assert (i = j) by (eapply (so_inj _ Hok); eauto; lia). lia.
    + unfold ptr_eqb. rewrite bool_decide_eq_false_2 by congruence. done.
  - unfold set_field; simpl. f_equal. apply functional_extensionality. intros q.
    by rewrite Hstep.
Qed.

Lemma walk_tasks_from g body s :
  sched_ok s ->
  (forall i, 1 <= i <= 63 -> forall t, t = on_tasks_from g (i + 1) s ->
     body i t = Ret tt (match task s i with
                        | None => t
                        | Some p => upd_task p g t
                        end)) ->
  for_down 1 63 body s = Ret tt (on_tasks g s).
Proof.
  intros Hok Hbody.
  destruct (for_down_inv (fun j t => t = on_tasks_from g j s) 1 63 body s) as (s' & H & ->).
  - unfold on_tasks_from. simpl. destruct s; reflexivity.
  - intros j t Hj Ht. eexists. split; [apply Hbody; [lia|done]|].
    rewrite (on_tasks_from_step g s j Hok) by lia. subst t. by destruct (task s j).
  - done.
Qed.

Lemma walk_tasks g body s :
  sched_ok s ->
  (forall i, 1 <= i <= 63 -> forall t, task t = task s -> jiffies t = jiffies s ->
     current t = current s ->
     body i t = Ret tt (match task t i with
                        | None => t
                        | Some p => upd_task p g t
                        end)) ->
  for_down 1 63 body s = Ret tt (on_tasks g s).
Proof.
  intros Hok Hbody. apply walk_tasks_from; [done|]. intros i Hi t ->.
  by rewrite Hbody.
Qed.

(** What the two loops of [schedule] do to one task. *)
Definition check_task (now : Z) (t : task_struct) : task_struct :=
  let t1 := if nz (t_alarm t) && (t_alarm t <? now)
            then t <| t_signal ::= fun g => Z.lor g (Z.shiftl 1 (SIGALRM - 1)) |> <| t_alarm := 0 |>
            else t in
  if nz (t_signal t1) && (t_state t1 =? TASK_INTERRUPTIBLE)
  then t1 <| t_state := TASK_RUNNING |> else t1.
Definition recharged (t : task_struct) : task_struct :=
  t <| t_counter := s32 (Z.shiftr (t_counter t) 1 + t_priority t) |>.

Lemma check_signals_run s : sched_ok s ->
  for_down 1 63 check_signals s = Ret tt (on_tasks (check_task (jiffies s)) s).
Proof.
  intros Hok. apply walk_tasks; [done|]. intros i Hi t Ht Hj _.
  unfold check_signals. mrun. destruct (task t i) as [p|] eqn:Hp; [|done].
  unfold gett, sett. mrun. rewrite Hj.
  destruct (nz (t_alarm (tsk t p)) && (t_alarm (tsk t p) <? jiffies s)) eqn:Ha.
  - mrun. kred. rewrite when_run. unfold modify.
    match goal with |- context [if ?c then _ else _] => destruct c eqn:Hb end; kred;
      f_equal; apply upd_task_ext; unfold check_task; rewrite Ha; simpl; by rewrite Hb.
  - mrun. rewrite when_run. unfold modify.
    match goal with |- context [if ?c then _ else _] => destruct c eqn:Hb end; f_equal.
    + apply upd_task_ext. unfold check_task. by rewrite Ha, Hb.
    + symmetry. apply upd_task_id. unfold check_task. by rewrite Ha, Hb.
Qed.

Lemma recharge_run s : sched_ok s ->
  for_down 1 63 recharge s = Ret tt (on_tasks recharged s).
Proof.
  intros Hok. apply walk_tasks; [done|]. intros i Hi t Ht _ _.
  unfold recharge. mrun. by destruct (task t i).
Qed.

Lemma on_tasks_lookup g s i p :
  1 <= i <= 63 -> task s i = Some p -> tsk (on_tasks g s) p = g (tsk s p).
Proof.
  intros Hi Hp. unfold on_tasks, on_tasks_from. simpl.
  replace (in_slots s 1 p) with true; [done|]. symmetry. apply in_slots_true. eauto.
Qed.
Lemma on_tasks_other g s p :
  (forall i, 1 <= i <= 63 -> task s i <> Some p) -> tsk (on_tasks g s) p = tsk s p.
Proof.
  intros H. unfold on_tasks, on_tasks_from. simpl.
  replace (in_slots s 1 p) with false; [done|]. symmetry. by apply in_slots_false.
Qed.

Lemma recharged_counter t :
  0 <= t_counter t < 2147483648 -> 0 < t_priority t < 1073741824 ->
  t_counter (recharged t) = t_counter t / 2 + t_priority t.
Proof.
  intros. simpl. rewrite Z.shiftr_div_pow2 by lia. change (2 ^ 1) with 2.
  apply s32_small. dlia.
Qed.

Lemma sched_ok_on_tasks g s :
  sched_ok s ->
  (forall t, 0 < t_priority t < 1073741824 -> 0 <= t_counter t < 2147483648 ->
     0 < t_priority (g t) < 1073741824 /\ 0 <= t_counter (g t) < 2147483648) ->
  sched_ok (on_tasks g s).
Proof.
  intros [Hinj Hp Hc] Hg. constructor; [apply Hinj| |]; intros i p Hi Ht; simpl in Ht;
    rewrite (on_tasks_lookup g s i p) by done; eapply Hg; eauto.
Qed.

Lemma check_task_keeps now t :
  t_priority (check_task now t) = t_priority t /\ t_counter (check_task now t) = t_counter t.
Proof. unfold check_task. by repeat case_match. Qed.

Lemma recharged_ok t :
  0 < t_priority t < 1073741824 -> 0 <= t_counter t < 2147483648 ->
  0 < t_priority (recharged t) < 1073741824 /\ 0 <= t_counter (recharged t) < 2147483648.
Proof. intros. split; [done|]. rewrite recharged_counter by done. dlia. Qed.

Lemma sched_ok_check now s : sched_ok s -> sched_ok (on_tasks (check_task now) s).
Proof.
  intros. apply sched_ok_on_tasks; [done|]. intros t ? ?.
  destruct (check_task_keeps now t) as [-> ->]. done.
Qed.

Lemma runnable_recharged s i :
  1 <= i <= 63 -> runnable (on_tasks recharged s) i <-> runnable s i.
Proof.
  intros Hi. unfold runnable. change (task (on_tasks recharged s)) with (task s).
  split; intros (p & Hp & Hs); exists p; (split; [done|]).
  - by rewrite (on_tasks_lookup _ s i p) in Hs.
  - by rewrite (on_tasks_lookup _ s i p).
Qed.

Lemma counter_recharged s i p :
  sched_ok s -> 1 <= i <= 63 -> task s i = Some p ->
  counter_of (on_tasks recharged s) i = counter_of s i / 2 + t_priority (tsk s p).
Proof.
  intros Hok Hi Hp. unfold counter_of. change (task (on_tasks recharged s)) with (task s).
  rewrite Hp, (on_tasks_lookup _ s i p) by done.
  apply recharged_counter; [eapply so_count|eapply so_prio]; eauto.
Qed.

(** A slot the scheduler may choose: nothing runs and it is slot 0, or it
    holds a runnable task with the largest time slice, which is not spent. *)
Definition best_slot (s : kstate) (next : Z) : Prop :=
  (next = 0 /\ forall i, 1 <= i <= 63 -> ~ runnable s i) \/
  (1 <= next <= 63 /\ runnable s next /\ 0 < counter_of s next /\
   forall i, 1 <= i <= 63 -> runnable s i -> counter_of s i <= counter_of s next).

(** Every runnable task has spent its slice, and there is one. *)
Definition all_spent (s : kstate) : Prop :=
  (exists i, 1 <= i <= 63 /\ runnable s i) /\
  (forall i, 1 <= i <= 63 -> runnable s i -> counter_of s i = 0).

Lemma pick_best s : sched_ok s ->
  let '(c, next) := pick s 63 (-1) 0 in
  (c <> 0 -> best_slot s next) /\ (c = 0 -> all_spent s).
Proof.
  intros Hok. pose proof (pick_spec s 63 (-1) 0) as H.
  destruct (pick s 63 (-1) 0) as [c next]. destruct H as (Hc & Hn & Hall).
  assert (Hpos : forall i, 1 <= i <= 63 -> runnable s i -> 0 <= counter_of s i).
  { intros i Hi (p & Hp & _). unfold counter_of. rewrite Hp.
    apply (so_count _ Hok i p Hi Hp). }
  destruct Hn as [[= -> ->]|(Hr & Hrun & Hcn)]; split; intros Hz; try lia.
  - left. split; [done|]. intros i Hi Hr. specialize (Hall i Hi Hr). specialize (Hpos i Hi Hr). lia.
  - right. specialize (Hpos next Hr Hrun). rewrite Hcn in *. split; [done|].
    split; [done|]. split; [lia|]. done.
  - split; [by exists next|]. intros i Hi Hri.
    specialize (Hall i Hi Hri). specialize (Hpos i Hi Hri). lia.
Qed.

Lemma choose_next_run fuel s : (2 <= fuel)%nat -> sched_ok s ->
  exists next s1, choose_next fuel s = Ret next s1 /\ best_slot s1 next /\
    (s1 = s \/ all_spent s /\ s1 = on_tasks recharged s).
Proof.
  intros Hf Hok. destruct fuel as [|[|fuel]]; [lia|lia|].
  pose proof (pick_best s Hok) as Hp.
  destruct (pick s 63 (-1) 0) as [c next] eqn:Hpick. destruct Hp as [Hbest Hspent].
  unfold choose_next. cbn [loop]. mrun. rewrite Hpick. destruct (nz c) eqn:Hc; ztest.
  - mrun. exists next, s. split; [done|]. split; [by apply Hbest|by left].
  - specialize (Hspent Hc).
    mrun. erewrite bind_Ret; [|by apply recharge_run]. mrun.
    set (s1 := on_tasks recharged s) in *.
    assert (Hok1 : sched_ok s1) by (apply sched_ok_on_tasks; [done|apply recharged_ok]).
    pose proof (pick_best s1 Hok1) as Hp1.
    destruct (pick s1 63 (-1) 0) as [c1 next1] eqn:Hpick1. destruct Hp1 as [Hb1 Hs1].
    destruct (nz c1) eqn:Hc1; ztest.
    + mrun. exists next1, s1. split; [done|]. split; [by apply Hb1|]. by right.
    + exfalso. destruct (Hs1 Hc1) as [_ Hz].
      destruct Hspent as [(i & Hi & p & Hp & Hrun) _].
      assert (runnable s1 i) by (apply runnable_recharged; [done|by exists p]).
      specialize (Hz i Hi ltac:(done)). unfold s1 in Hz.
      rewrite (counter_recharged s i p) in Hz by done.
      pose proof (so_prio _ Hok i p Hi Hp). pose proof (so_count _ Hok i p Hi Hp).
        unfold counter_of in Hz. rewrite Hp in Hz. dlia.
Qed.

(** C1: schedule first marks expired alarms and wakes interruptible sleepers
    that have a signal; then, recharging every time slice at most once and only
    when all runnable tasks have spent theirs, it switches to a runnable task
    with the largest remaining slice, or to task 0 when nothing can run. Two
    rounds of its endless loop always suffice. *)
Theorem schedule_picks_best fuel s :
  (2 <= fuel)%nat -> sched_ok s ->
  exists next s1,
    schedule fuel s = switch_to next s1 /\ best_slot s1 next /\
    (let s0 := on_tasks (check_task (jiffies s)) s in
     s1 = s0 \/ all_spent s0 /\ s1 = on_tasks recharged s0).
Proof.
  intros Hf Hok. set (s0 := on_tasks (check_task (jiffies s)) s).
  destruct (choose_next_run fuel s0 Hf) as (next & s1 & Hrun & Hbest & Hs1).
  { by apply sched_ok_check. }
  exists next, s1. split; [|done].
  unfold schedule. erewrite bind_Ret; [|by apply check_signals_run].
  by erewrite bind_Ret.
Qed.

(** ** Wait queues *)

(** What a wait-queue variable owes to the scheduler: it is a variable of its
    own, apart from the task table. *)
Class WaitQueue (q : wqueue) : Prop := {
  wq_get_set p s : wq_get q (wq_set q p s) = p;
  wq_get_tsk f s : wq_get q (s <| tsk := f |>) = wq_get q s;
  wq_get_current c s : wq_get q (s <| current := c |>) = wq_get q s;
  wq_set_tsk p s : tsk (wq_set q p s) = tsk s;
  wq_set_task p s : task (wq_set q p s) = task s;
  wq_set_current p s : current (wq_set q p s) = current s;
  wq_set_jiffies p s : jiffies (wq_set q p s) = jiffies s;
}.

#[export] Instance buffer_wait_queue :
  WaitQueue {| wq_get := buffer_wait; wq_set p s := s <| buffer_wait := p |> |}.
Proof. by constructor. Qed.
#[export] Instance b_wait_queue i :
  WaitQueue {| wq_get s := b_wait (bufs s i);
               wq_set p := upd_buf i (fun b => b <| b_wait := p |>) |}.
Proof. constructor; try done. intros p s. simpl. by rewrite arr_eq. Qed.
#[export] Instance i_wait_queue i :
  WaitQueue {| wq_get s := i_wait (inode_table s i);
               wq_set p := upd_inode i (fun n => n <| i_wait := p |>) |}.
Proof. constructor; try done. intros p s. simpl. by rewrite arr_eq. Qed.

(** wake_up makes the task at the head of a wait queue runnable, empties the
    queue variable and changes no other task. *)
Theorem wake_up_first q t s :
  WaitQueue q -> wq_get q s = Some t ->
  exists s', wake_up (Some q) s = Ret tt s' /\
    wq_get q s' = None /\ t_state (tsk s' t) = TASK_RUNNING /\
    forall p, p <> t -> tsk s' p = tsk s p.
Proof.
  intros Hq Ht. unfold wake_up, sett. mrun. rewrite Ht. mrun. eexists. split; [done|].
  rewrite wq_get_set, wq_set_tsk. split; [done|]. split.
  - by rewrite upd_task_eq.
  - intros p Hp. by rewrite upd_task_ne.
Qed.

Lemma sched_ok_state f s p :
  sched_ok s -> (forall t, t_priority (f t) = t_priority t /\ t_counter (f t) = t_counter t) ->
  sched_ok (upd_task p f s).
Proof.
  intros [Hi Hp Hc] Hf. constructor; [apply Hi| |]; intros i q Hr Hq;
    change (task (upd_task p f s)) with (task s) in Hq.
  - destruct (decide (p = q)) as [->|]; [rewrite upd_task_eq, (proj1 (Hf _))|rewrite upd_task_ne by done]; eauto.
  - destruct (decide (p = q)) as [->|]; [rewrite upd_task_eq, (proj2 (Hf _))|rewrite upd_task_ne by done]; eauto.
Qed.

Lemma sched_ok_same s s' : sched_ok s -> task s' = task s -> tsk s' = tsk s -> sched_ok s'.
Proof. intros [? ? ?] Ht Hk. constructor; rewrite Ht, ?Hk; eauto. Qed.

(** A task that is not runnable and has nothing that would make it so is not
    the one the scheduler switches to. *)
Definition uninterruptible (t : task_struct) : Prop := t_state t = TASK_UNINTERRUPTIBLE.

Lemma check_task_uninterruptible now t : uninterruptible t -> uninterruptible (check_task now t).
Proof.
  unfold uninterruptible, check_task. intros H.
  destruct (nz (t_alarm t) && _); simpl; rewrite H;
    (replace (TASK_UNINTERRUPTIBLE =? TASK_INTERRUPTIBLE) with false by done);
    by rewrite andb_false_r.
Qed.

Lemma on_tasks_pres (P : task_struct -> Prop) g s p :
  (forall t, P t -> P (g t)) -> P (tsk s p) -> P (tsk (on_tasks g s) p).
Proof.
  intros Hg HP. unfold on_tasks, on_tasks_from. simpl.
  destruct (in_slots s 1 p); eauto.
Qed.

Lemma schedule_leaves fuel s c :
  (2 <= fuel)%nat -> sched_ok s -> current s = Some c ->
  task s 0 <> Some c -> uninterruptible (tsk s c) ->
  exists next s1, schedule fuel s =
      Yield (s1 <| current := task s next |>) (fun s' => Ret tt (s' <| current := Some c |>)) /\
    s1 = s <| tsk := tsk s1 |> /\ uninterruptible (tsk s1 c) /\ task s next <> Some c.
Proof.
  intros Hf Hok Hc H0 Hu.
  destruct (choose_next_run fuel (on_tasks (check_task (jiffies s)) s) Hf)
    as (next & s1 & Hrun & Hbest & Hs1); [by apply sched_ok_check|].
  assert (Hu1 : uninterruptible (tsk s1 c)).
  { destruct Hs1 as [->|[_ ->]]; repeat apply on_tasks_pres; try done;
      intros t; apply check_task_uninterruptible. }
  assert (Hfr : s1 = s <| tsk := tsk s1 |>) by (destruct Hs1 as [->|[_ ->]]; done).
  assert (Htask : task s1 = task s) by (by rewrite Hfr).
  assert (Hnext : task s next <> Some c).
  { destruct Hbest as [[-> _]|(Hr & (p & Hp & Hrun') & _)]; [done|].
    rewrite Htask in Hp. intros Hn. assert (p = c) as -> by congruence.
    unfold uninterruptible in Hu1. rewrite Hu1 in Hrun'. done. }
  exists next, s1. split; [|done].
  unfold schedule. erewrite bind_Ret; [|by apply check_signals_run].
  erewrite bind_Ret; [|exact Hrun]. unfold switch_to.
  assert (Hc1 : current s1 = Some c) by (rewrite Hfr; done).
  rewrite Htask, Hc1. unfold ptr_eqb. by rewrite bool_decide_eq_false_2.
Qed.

(** C6: sleep_on queues the current task at the head of the wait queue, leaves
    it uninterruptible and gives the processor to another task; when it is
    resumed, in whatever state, it makes the previous head of the queue runnable
    and returns. *)
Theorem sleep_on_blocks fuel q s c :
  WaitQueue q -> (2 <= fuel)%nat -> sched_ok s ->
  current s = Some c -> c <> init_task s -> task s 0 <> Some c ->
  exists s1 k, sleep_on fuel (Some q) s = Yield s1 k /\
    wq_get q s1 = Some c /\ t_state (tsk s1 c) = TASK_UNINTERRUPTIBLE /\
    current s1 <> Some c /\
    forall s', exists s2, k s' = Ret tt s2 /\ current s2 = Some c /\
      match wq_get q s with
      | None => tsk s2 = tsk s'
      | Some t => t_state (tsk s2 t) = TASK_RUNNING
      end.
Proof.
  intros Hq Hf Hok Hc Hini H0.
  unfold sleep_on. mrun. rewrite Hc.
  unfold ptr_eqb. rewrite bool_decide_eq_false_2 by congruence. mrun.
  unfold setme, cur. mrun. rewrite (wq_set_current (q:=q)), Hc. mrun. unfold sett. mrun.
  set (s0 := upd_task c _ _).
  destruct (schedule_leaves fuel s0 c Hf) as (next & s1 & Hrun & Hfr & Hu & Hn).
  { apply sched_ok_state; [|done]. eapply sched_ok_same; [done| |].
    - by rewrite (wq_set_task (q:=q)).
    - by rewrite (wq_set_tsk (q:=q)). }
  { unfold s0. simpl. by rewrite (wq_set_current (q:=q)). }
  { unfold s0. simpl. by rewrite (wq_set_task (q:=q)). }
  { unfold s0, uninterruptible. by rewrite upd_task_eq. }
  eexists _, _. split.
  { unfold mbind, M_bind. rewrite Hrun. reflexivity. }
  split; [|split; [|split]].
  - rewrite (wq_get_current (q:=q)). etrans; [|apply (wq_get_set (Some c) s)].
    rewrite Hfr. etrans; [apply (wq_get_tsk (q:=q))|].
    exact (wq_get_tsk (q:=q) _ (wq_set q (Some c) s)).
  - exact Hu.
  - exact Hn.
  - intros s'. destruct (wq_get q s) as [t|]; eexists; (split; [reflexivity|]); simpl.
    + split; [done|]. by rewrite arr_eq.
    + done.
Qed.

(** ** Sleeping while anything may happen

    [anytime r Q]: however the rest of the system changes the state while the
    code is switched out, it returns in [Q], panics, or needs more fuel. *)
Definition anytime {A} (r : res kstate A) (Q : A -> kstate -> Prop) : Prop :=
  wp (fun _ _ => True) (fun _ => True) r Q (fun _ _ => True).

Lemma check_signals_current i s : exists s', check_signals i s = Ret tt s' /\ current s' = current s.
Proof.
  unfold check_signals. mrun. destruct (task s i) as [p|]; [|by eexists].
  mrun. rewrite when_run || idtac. destruct (nz (t_alarm (tsk s p)) && _); mrun;
    rewrite when_run; match goal with |- context [if ?c then _ else _] => destruct c end;
    eexists; (split; [reflexivity|done]).
Qed.
Lemma recharge_current i s : exists s', recharge i s = Ret tt s' /\ current s' = current s.
Proof. unfold recharge. mrun. destruct (task s i) as [p|]; eexists; (split; [reflexivity|done]). Qed.

Lemma schedule_anytime n s Q :
  (forall s', current s' = current s -> Q tt s') -> anytime (schedule n s) Q.
Proof.
  intros HQ. unfold schedule, anytime.
  destruct (for_down_inv (fun _ t => current t = current s) 1 63 check_signals s) as (s1 & Hrun & Hc1);
    [done| |].
  { intros j t _ Ht. destruct (check_signals_current j t) as (t' & ? & ?). exists t'. split; [done|congruence]. }
  rewrite (bind_Ret _ _ _ _ _ Hrun). apply wp_bind. unfold choose_next.
  apply (wp_loop _ _ _ _ (fun _ t => current t = current s)); [|done].
  intros [] t Ht. mrun. destruct (pick t 63 (-1) 0) as [c next]. destruct (nz c).
  - simpl. unfold switch_to. destruct (ptr_eqb _ _); simpl; [by apply HQ|].
    split; [done|]. intros s' _. by apply HQ.
  - destruct (for_down_inv (fun _ t => current t = current s) 1 63 recharge t) as (t1 & Hr & Hc); [done| |].
    { intros j u _ Hu. destruct (recharge_current j u) as (u' & ? & ?). exists u'. split; [done|congruence]. }
    rewrite (bind_Ret _ _ _ _ _ Hr). done.
Qed.

Lemma sleep_on_anytime n q s Q :
  WaitQueue q -> current s <> None -> (forall s', current s' = current s -> Q tt s') ->
  anytime (sleep_on n (Some q) s) Q.
Proof.
  intros Hq Hc HQ. unfold sleep_on. mrun. destruct (ptr_eqb _ _); [done|]. mrun.
  destruct (current s) as [c|] eqn:Ec; [|done].
  unfold setme, cur. mrun. rewrite (wq_set_current (q:=q)), Ec. mrun. apply wp_bind.
  apply schedule_anytime. intros s' Hs'.
  assert (Hcs : current s' = Some c).
  { rewrite Hs'. simpl. by rewrite (wq_set_current (q:=q)). }
  destruct (wq_get q s); apply HQ; simpl; done.
Qed.

(** ** Examples: a machine with the first task and one process *)

Definition one_process : kstate :=
  zero_kstate <| task := fun i => if i =? 0 then Some 4096 else if i =? 1 then Some 8192 else None |>
    <| tsk := fun _ => zero_task <| t_priority := 15 |> <| t_counter := 3 |> |>
    <| current := Some 8192 |>.

Lemma one_process_task i p : 1 <= i -> task one_process i = Some p -> i = 1 /\ p = 8192.
Proof.
  intros Hi. unfold one_process; simpl.
  destruct (i =? 0) eqn:E0; ztest; [lia|]. destruct (i =? 1) eqn:E1; ztest; [|done].
  by intros [= <-].
Qed.

Lemma one_process_ok : sched_ok one_process.
Proof.
  constructor.
  - intros i j p Hi Hj Hip Hjp. apply one_process_task in Hip, Hjp; lia.
  - intros i p Hi _. simpl. lia.
  - intros i p Hi _. simpl. lia.
Qed.

Lemma schedule_picks_best_witness :
  exists s1, schedule 2 one_process = switch_to 1 s1 /\ runnable s1 1.
Proof.
  destruct (schedule_picks_best 2 one_process) as (next & s1 & Hrun & Hbest & Hs1);
    [lia|apply one_process_ok|].
  assert (Hr : runnable s1 1).
  { destruct Hs1 as [->|[_ ->]]; exists 8192; split; reflexivity. }
  destruct Hbest as [[_ Hnone]|(Hi & (p & Hp & _) & _ & _)].
  - exfalso. apply (Hnone 1); [lia|exact Hr].
  - assert (task s1 = task one_process) as Htask by (destruct Hs1 as [->|[_ ->]]; reflexivity).
    rewrite Htask in Hp. apply one_process_task in Hp as [-> _]; [|lia].
    exists s1. split; [exact Hrun|exact Hr].
Defined.

Definition buffer_queue : wqueue :=
  {| wq_get := buffer_wait; wq_set p s := s <| buffer_wait := p |> |}.

Lemma wake_up_first_witness :
  exists s', wake_up (Some buffer_queue) (one_process <| buffer_wait := Some 12288 |>) = Ret tt s' /\
    buffer_wait s' = None /\ t_state (tsk s' 12288) = TASK_RUNNING.
Proof.
  destruct (wake_up_first buffer_queue 12288 (one_process <| buffer_wait := Some 12288 |>))
    as (s' & Hrun & Hq & Hst & _); [apply buffer_wait_queue|reflexivity|].
  exists s'. split; [exact Hrun|]. split; [exact Hq|exact Hst].
Defined.

Lemma sleep_on_blocks_witness :
  exists s1 k, sleep_on 2 (Some buffer_queue) one_process = Yield s1 k /\
    buffer_wait s1 = Some 8192 /\ t_state (tsk s1 8192) = TASK_UNINTERRUPTIBLE.
Proof.
  destruct (sleep_on_blocks 2 buffer_queue one_process 8192) as (s1 & k & Hrun & Hq & Hst & _);
    [apply buffer_wait_queue|lia|apply one_process_ok|reflexivity|discriminate|discriminate|].
  exists s1, k. split; [exact Hrun|]. split; [exact Hq|exact Hst].
Defined.
