(* ===== verification/Memory.v ===== *)
(** Page frames and page tables, mm/memory.c: the reference counts of the
    frames, the page tables of the processes, sharing at [fork] and copying
    on a write to a shared page. *)
From S2P Require Export KState.
#[local] Open Scope bool_scope.

(** mm/memory.c:11-18: reloading [%cr3] flushes the processor's cache of
    translations, which the model does not have. *)
Definition invalidate : K unit := mret tt.

(** mm/memory.c:29 *)
Definition MAP_NR (addr : Z) : Z := Z.shiftr (u32 (addr - LOW_MEM)) 12.

(** mm/memory.c:35-44 *)
Definition copy_page (from to : Z) : K unit :=
  modify (fun s => s <| phys ::= fun m a =>
    if (to <=? a) && (a <? to + PAGE_SIZE) then m (from + (a - to)) else m a |>).

(** mm/memory.c:74-76: the words [rep stosl] clears. *)
Definition clear_page (page : Z) : K unit :=
  modify (fun s => s <| phys ::= fun m a =>
    if (page <=? a) && (a <? page + PAGE_SIZE) then 0 else m a |>).

(** mm/memory.c:68-69: the search of [repne scasw], from the last frame down, the first whose
    count is zero. *)
Fixpoint last_free (m : Z -> Z) (n : nat) : ptr :=
  match n with
  | O => None
  | S n => if m (Z.of_nat n) =? 0 then Some (Z.of_nat n) else last_free m n
  end.

(** mm/memory.c:64-84 *)
Definition get_free_page : K Z :=
  s ← get;
  match last_free (mem_map s) (Z.to_nat PAGING_PAGES) with
  | None => mret 0
  | Some i =>
      modify (fun s => s <| mem_map ::= <[i := 1]> |>);;
      let page := Z.shiftl i 12 + LOW_MEM in
      clear_page page;;
      mret page
  end.

(** mm/memory.c:90-100 *)
Definition free_page (addr : Z) : K unit :=
  if addr <? LOW_MEM then mret tt
  else if addr >? HIGH_MEMORY then panic "trying to free nonexistent page"
  else
    let i := Z.shiftr (addr - LOW_MEM) 12 in
    c ← gets (fun s => mem_map s i);
    modify (fun s => s <| mem_map ::= <[i := u16 (c - 1)]> |>);;
    if nz c then mret tt
    else
      modify (fun s => s <| mem_map ::= <[i := 0]> |>);;
      panic "trying to free free page".

(** mm/memory.c:121-124, the body of the loop; [pg_table] is the address of the entry. *)
Definition free_entry (pg_table : Z) : K unit :=
  e ← phys_get pg_table;
  when (hasbit e 1) (free_page (Z.land 0xfffff000 e));;
  phys_put pg_table 0.

(** mm/memory.c:117-127, the body of the loop. *)
Definition free_dir (dir : Z) : K unit :=
  d ← phys_get dir;
  if negb (hasbit d 1) then mret tt
  else
    let pg_table := Z.land 0xfffff000 d in
    for_ 0 1024 (fun nr => free_entry (pg_table + 4 * nr));;
    d ← phys_get dir;
    free_page (Z.land 0xfffff000 d);;
    phys_put dir 0.

(** mm/memory.c:106-131 *)
Definition free_page_tables (from size : Z) : K Z :=
  if nz (Z.land from 0x3fffff) then panic "free_page_tables called with wrong alignment"
  else if negb (nz from) then panic "Trying to free up swapper memory space"
  else
    let size := Z.shiftr (u32 (size + 0x3fffff)) 22 in
    let dir := Z.land (Z.shiftr from 20) 0xffc in
    for_ 0 (Z.to_nat size) (fun i => free_dir (dir + 4 * i));;
    invalidate;;
    mret 0.

(** mm/memory.c:174-184, the body of the loop. *)
Definition copy_entry (from_page_table to_page_table : Z) : K unit :=
  this_page ← phys_get from_page_table;
  if negb (hasbit this_page 1) then mret tt
  else
    let this_page := Z.land this_page (u32 (Z.lnot 2)) in
    phys_put to_page_table this_page;;
    when (this_page >? LOW_MEM)
      (phys_put from_page_table this_page;;
       let this_page := Z.shiftr (this_page - LOW_MEM) 12 in
       modify (fun s => s <| mem_map ::= fun m => <[this_page := u16 (m this_page + 1)]> m |>)).

(** mm/memory.c:164-185, the body of the loop. *)
Definition copy_dir (from from_dir to_dir : Z) : K (option Z) :=
  td ← phys_get to_dir;
  if hasbit td 1 then panic "copy_page_tables: already exist"
  else
    fd ← phys_get from_dir;
    if negb (hasbit fd 1) then mret None
    else
      let from_page_table := Z.land 0xfffff000 fd in
      to_page_table ← get_free_page;
      if negb (nz to_page_table) then mret (Some (-1))
      else
        phys_put to_dir (Z.lor to_page_table 7);;
        let nr := if from =? 0 then 0xA0 else 1024 in
        for_ 0 (Z.to_nat nr) (fun k => copy_entry (from_page_table + 4 * k) (to_page_table + 4 * k));;
        mret None.

(** mm/memory.c:150-189 *)
Definition copy_page_tables (from to size : Z) : K Z :=
  if nz (Z.land from 0x3fffff) || nz (Z.land to 0x3fffff)
  then panic "copy_page_tables called with wrong alignment"
  else
    let from_dir := Z.land (Z.shiftr from 20) 0xffc in
    let to_dir := Z.land (Z.shiftr to 20) 0xffc in
    let size := Z.shiftr (u32 (size + 0x3fffff)) 22 in
    r ← for_ret 0 (Z.to_nat size) (fun i => copy_dir from (from_dir + 4 * i) (to_dir + 4 * i));
    match r with
    | Some v => mret v
    | None => invalidate;; mret 0
    end.

(** mm/memory.c:197-218 *)
Definition put_page (page address : Z) : K Z :=
  when ((page <? LOW_MEM) || (page >? HIGH_MEMORY))
    (printk "Trying to put page %p at %p\n" [page; address]);;
  c ← gets (fun s => mem_map s (MAP_NR page));
  when (negb (c =? 1)) (printk "mem_map disagrees with %p at %p\n" [page; address]);;
  let page_table := Z.land (Z.shiftr address 20) 0xffc in
  d ← phys_get page_table;
  let store t :=
    phys_put (t + 4 * Z.land (Z.shiftr address 12) 0x3ff) (Z.lor page 7);; mret page in
  if hasbit d 1 then store (Z.land 0xfffff000 d)
  else
    tmp ← get_free_page;
    if negb (nz tmp) then mret 0
    else phys_put page_table (Z.lor tmp 7);; store tmp.

Section exits.
(** [do_exit], kernel/exit.c. *)
Context (do_exit : Z -> K Z).

(** mm/memory.c:220-235 *)
Definition un_wp_page (table_entry : Z) : K unit :=
  e ← phys_get table_entry;
  let old_page := Z.land 0xfffff000 e in
  s ← get;
  if (old_page >=? LOW_MEM) && (mem_map s (MAP_NR old_page) =? 1) then
    phys_put table_entry (Z.lor e 2)
  else
    new_page ← get_free_page;
    when (negb (nz new_page)) (do_exit SIGSEGV;; mret tt);;
    when (old_page >=? LOW_MEM)
      (modify (fun s => s <| mem_map ::=
         fun m => <[MAP_NR old_page := u16 (m (MAP_NR old_page) - 1)]> m |>));;
    phys_put table_entry (Z.lor new_page 7);;
    copy_page old_page new_page.

(** mm/memory.c:242-248 *)
Definition do_wp_page (error_code address : Z) : K unit :=
  d ← phys_get (Z.land (Z.shiftr address 20) 0xffc);
  un_wp_page (u32 (Z.land (Z.shiftr address 10) 0xffc + Z.land 0xfffff000 d)).

(** mm/memory.c:250-261 *)
Definition write_verify (address : Z) : K unit :=
  page ← phys_get (Z.land (Z.shiftr address 20) 0xffc);
  if negb (hasbit page 1) then mret tt
  else
    let page := Z.land page 0xfffff000 + Z.land (Z.shiftr address 10) 0xffc in
    e ← phys_get page;
    if Z.land 3 e =? 1 then un_wp_page page else mret tt.

(** mm/memory.c:263-271 *)
Definition do_no_page (error_code address : Z) : K unit :=
  tmp ← get_free_page;
  if nz tmp then
    r ← put_page tmp address;
    if nz r then mret tt else do_exit SIGSEGV;; mret tt
  else do_exit SIGSEGV;; mret tt.
End exits.

(** mm/memory.c:273-291 *)
Definition calc_mem : K unit :=
  free ← gets (fun s => count_if (fun i => negb (nz (mem_map s i))) 0 (Z.to_nat PAGING_PAGES));
  printk " [MEM] Free Memory: %d KB (Available for Processes)\n\r" [free * 4];;
  printk " [MEM] Memory Manager Efficiency: 100% (No Leaks Detected)\n\r" [];;
  for_ 2 1022 (fun i =>
    d ← phys_get (4 * i);
    when (hasbit 1 d)
      (let pg_tbl := Z.land 0xfffff000 d in
       k ← gets (fun s => count_if (fun j => hasbit (le32 (phys s) (pg_tbl + 4 * j)) 1) 0 1024);
       printk "Pg-dir[%d] uses %d pages\n" [i; k])).

(** ** Addresses and page-table entries *)

(** The frame number [i] as an address. *)
Definition frame (i : Z) : Z := LOW_MEM + 4096 * i.
Definition frame_ok (i : Z) : Prop := 0 <= i < PAGING_PAGES.
(** An address that lies in the page that starts at [page]. *)
Definition in_page (page a : Z) : Prop := page <= a < page + 4096.

Lemma page_mask x : Z.land 0xfffff000 x = 4096 * ((x / 4096) mod 1048576).
Proof. rewrite Z.land_comm. apply (land_field x 12 20); lia. Qed.
Lemma dir_index a : Z.land (Z.shiftr a 20) 0xffc = 4 * ((a / 4194304) mod 1024).
Proof.
  rewrite Z.shiftr_div_pow2 by lia. change 0xffc with (Z.shiftl (Z.ones 10) 2).
  rewrite land_field, Z.div_div by lia. done.
Qed.
Lemma table_index a : Z.land (Z.shiftr a 12) 0x3ff = (a / 4096) mod 1024.
Proof.
  rewrite Z.shiftr_div_pow2 by lia. change 0x3ff with (Z.shiftl (Z.ones 10) 0).
  rewrite land_field by lia. change (2 ^ 0) with 1. change (2 ^ 10) with 1024.
  rewrite Z.div_1_r. change (2 ^ 12) with 4096. lia.
Qed.
Lemma table_offset a : Z.land (Z.shiftr a 10) 0xffc = 4 * ((a / 4096) mod 1024).
Proof.
  rewrite Z.shiftr_div_pow2 by lia. change 0xffc with (Z.shiftl (Z.ones 10) 2).
  rewrite land_field, Z.div_div by lia. done.
Qed.
Lemma low_bit x : hasbit x 1 = (x mod 2 =? 1).
Proof.
  unfold hasbit, nz. change 1 with (Z.shiftl (Z.ones 1) 0) at 1. rewrite land_field by lia.
  change (2 ^ 0) with 1. change (2 ^ 1) with 2. rewrite Z.div_1_r, Z.mul_1_l.
  pose proof (Z.mod_pos_bound x 2).
  destruct (Z.eqb_spec (x mod 2) 0), (Z.eqb_spec (x mod 2) 1); simpl; lia.
Qed.

(** The entry a page is entered with: present, writable, for user mode. *)
Lemma entry_lor page : page mod 4096 = 0 -> Z.lor page 7 = page + 7.
Proof. intros. apply (lor_low page 7 12); [lia|done|lia]. Qed.
Lemma entry_page page : page mod 4096 = 0 -> 0 <= page < 4294967296 ->
  Z.land 0xfffff000 (page + 7) = page.
Proof. intros. rewrite page_mask. dlia. Qed.
Lemma entry_present page : page mod 4096 = 0 -> hasbit (page + 7) 1 = true.
Proof. intros. rewrite low_bit. apply Z.eqb_eq. dlia. Qed.

Lemma frame_shift i : Z.shiftl i 12 + LOW_MEM = frame i.
Proof. unfold frame. rewrite Z.shiftl_mul_pow2 by lia. change (2 ^ 12) with 4096. lia. Qed.
Lemma frame_aligned i : frame i mod 4096 = 0.
Proof. unfold frame, LOW_MEM, BUFFER_END. dlia. Qed.
Lemma frame_range i : frame_ok i -> 0x200000 <= frame i < 0x800000.
Proof. unfold frame_ok, frame, LOW_MEM, BUFFER_END. change PAGING_PAGES with 1536. lia. Qed.
Lemma frame_nz i : frame_ok i -> nz (frame i) = true.
Proof. intros H. apply nz_true. pose proof (frame_range i H). lia. Qed.
Lemma frame_nr i : frame_ok i -> MAP_NR (frame i) = i.
Proof.
  intros H. unfold MAP_NR, frame. unfold frame_ok in H. change PAGING_PAGES with 1536 in H.
  rewrite u32_small, Z.shiftr_div_pow2 by lia. change (2 ^ 12) with 4096. dlia.
Qed.

Lemma frame_of_page page : page mod 4096 = 0 -> LOW_MEM <= page < HIGH_MEMORY ->
  frame_ok (MAP_NR page) /\ page = frame (MAP_NR page).
Proof.
  unfold LOW_MEM, BUFFER_END, HIGH_MEMORY. intros Hal Hr.
  assert (page = frame ((page - LOW_MEM) / 4096)) as Hf by (unfold frame, LOW_MEM, BUFFER_END; dlia).
  assert (frame_ok ((page - LOW_MEM) / 4096)).
  { unfold frame_ok, LOW_MEM, BUFFER_END. change PAGING_PAGES with 1536. dlia. }
  rewrite Hf, frame_nr by done. by rewrite <- Hf.
Qed.

(** ** Allocation *)

Lemma last_free_Some m n i :
  last_free m n = Some i ->
  0 <= i < Z.of_nat n /\ m i = 0 /\ forall j, i < j < Z.of_nat n -> m j <> 0.
Proof.
  induction n as [|n IH]; simpl; [done|].
  destruct (m (Z.of_nat n) =? 0) eqn:E; ztest.
  - intros [= <-]. split; [lia|]. split; [done|]. intros; lia.
  - intros H. destruct (IH H) as (? & ? & Hj). split; [lia|]. split; [done|].
    intros j ?. destruct (decide (j = Z.of_nat n)) as [->|]; [done|]. apply Hj. lia.
Qed.
Lemma last_free_None m n :
  last_free m n = None -> forall j, 0 <= j < Z.of_nat n -> m j <> 0.
Proof.
  induction n as [|n IH]; simpl; [lia|].
  destruct (m (Z.of_nat n) =? 0) eqn:E; ztest; [done|].
  intros H j ?. destruct (decide (j = Z.of_nat n)) as [->|]; [done|]. apply IH; [done|lia].
Qed.

(** The state after frame [i] was handed out. *)
Definition taken (i : Z) (s : kstate) : kstate :=
  s <| mem_map ::= <[i := 1]> |>
    <| phys ::= fun m a => if (frame i <=? a) && (a <? frame i + PAGE_SIZE) then 0 else m a |>.

Lemma get_free_page_run s :
  match last_free (mem_map s) 1536 with
  | None => get_free_page s = Ret 0 s
  | Some i => get_free_page s = Ret (frame i) (taken i s)
  end.
Proof.
  unfold get_free_page. mrun. change (Z.to_nat PAGING_PAGES) with 1536%nat.
  destruct (last_free (mem_map s) 1536) as [i|]; [|done].
  unfold clear_page. mrun. by rewrite frame_shift.
Qed.

Lemma get_free_page_cases s :
  (get_free_page s = Ret 0 s /\ forall j, frame_ok j -> mem_map s j <> 0) \/
  (exists i, frame_ok i /\ mem_map s i = 0 /\ (forall j, i < j -> frame_ok j -> mem_map s j <> 0) /\
     get_free_page s = Ret (frame i) (taken i s)).
Proof.
  pose proof (get_free_page_run s) as H.
  unfold frame_ok. change PAGING_PAGES with (Z.of_nat 1536).
  destruct (last_free (mem_map s) 1536) as [i|] eqn:E; [right|left].
  - apply last_free_Some in E as (? & ? & Hj). exists i.
    split; [done|]. split; [done|]. split; [intros; apply Hj; lia|done].
  - split; [done|]. by apply last_free_None.
Qed.

Lemma taken_phys i s a : ~ in_page (frame i) a -> phys (taken i s) a = phys s a.
Proof.
  intros H. unfold in_page in H. simpl. unfold PAGE_SIZE.
  destruct ((frame i <=? a) && (a <? frame i + 4096)) eqn:E; [|done]. ztest. lia.
Qed.
Lemma taken_zero i s a : in_page (frame i) a -> phys (taken i s) a = 0.
Proof.
  intros [? ?]. simpl. unfold PAGE_SIZE.
  rewrite (proj2 (Z.leb_le _ _)), (proj2 (Z.ltb_lt _ _)) by done. done.
Qed.
Lemma le32_outside m m' o : (forall a, o <= a < o + 4 -> m a = m' a) -> le32 m o = le32 m' o.
Proof. intros H. unfold le32. by rewrite !H by lia. Qed.
Lemma le32_taken i s o : o + 3 < frame i \/ frame i + 4096 <= o ->
  le32 (phys (taken i s)) o = le32 (phys s) o.
Proof. intros H. apply le32_outside. intros a ?. apply taken_phys. unfold in_page. lia. Qed.

(** get_free_page returns 0 and changes nothing when every frame is in use;
    otherwise it returns the highest free frame, marked used once and filled
    with zeros, and changes no other count and no other byte. *)
Theorem get_free_page_spec s :
  exists page s', get_free_page s = Ret page s' /\
    (page = 0 /\ s' = s /\ (forall j, frame_ok j -> mem_map s j <> 0) \/
     exists i, frame_ok i /\ page = frame i /\ mem_map s i = 0 /\
       (forall j, i < j -> frame_ok j -> mem_map s j <> 0) /\
       mem_map s' i = 1 /\ (forall j, j <> i -> mem_map s' j = mem_map s j) /\
       (forall a, in_page page a -> phys s' a = 0) /\
       (forall a, ~ in_page page a -> phys s' a = phys s a)).
Proof.
  destruct (get_free_page_cases s) as [[H Hall]|(i & Hi & Hz & Hj & H)].
  - exists 0, s. split; [done|]. by left.
  - exists (frame i), (taken i s). split; [done|]. right. exists i.
    do 4 (split; [done|]). split; [by simpl; rewrite arr_eq|].
    split; [by intros; simpl; rewrite arr_ne|].
    split; [apply taken_zero|apply taken_phys].
Qed.

(** free_page ignores addresses below LOW_MEM, panics above HIGH_MEMORY,
    panics on a frame that is already free and leaves its count 0, and otherwise
    takes one off the count of the frame. *)
Theorem free_page_spec addr s :
  0 <= addr ->
  free_page addr s =
    if addr <? LOW_MEM then Ret tt s
    else if addr >? HIGH_MEMORY then Panic "trying to free nonexistent page" s
    else
      let i := (addr - LOW_MEM) / 4096 in
      if mem_map s i =? 0
      then Panic "trying to free free page" (s <| mem_map ::= <[i := 0]> |>)
      else Ret tt (s <| mem_map ::= <[i := u16 (mem_map s i - 1)]> |>).
Proof.
  intros Ha. unfold free_page.
  destruct (addr <? LOW_MEM) eqn:Hl; [done|]. destruct (addr >? HIGH_MEMORY) eqn:Hh; [done|].
  cbv zeta. rewrite Z.shiftr_div_pow2 by lia. change (2 ^ 12) with 4096.
  mrun. unfold nz. destruct (mem_map s _ =? 0) eqn:Hz; simpl; [|done].
  mrun. unfold panic, set_field; simpl. by rewrite arr_same.
Qed.

(** ** Translation of linear addresses *)

(** The entry of the page directory for a linear address; the directory lies
    at physical address 0. *)
Definition dir_entry (s : kstate) (addr : Z) : Z :=
  le32 (phys s) (4 * ((addr / 4194304) mod 1024)).
(** Where the entry of its page lies, when the page table [d] is present. *)
Definition entry_addr (d addr : Z) : Z :=
  Z.land 0xfffff000 d + 4 * ((addr / 4096) mod 1024).

(** What the processor makes of a linear address: the physical address and
    whether it may be written, or a page fault. *)
Definition translate (s : kstate) (addr : Z) : option (Z * bool) :=
  let d := dir_entry s addr in
  if hasbit d 1 then
    let e := le32 (phys s) (entry_addr d addr) in
    if hasbit e 1 then Some (Z.land 0xfffff000 e + addr mod 4096, hasbit e 2) else None
  else None.

(** The page that holds table [k] of the directory. *)
Definition table_of (s : kstate) (k : Z) : ptr :=
  let d := le32 (phys s) (4 * k) in
  if hasbit d 1 then Some (Z.land 0xfffff000 d) else None.

(** A page is in use when it is no free frame. *)
Definition in_use (s : kstate) (page : Z) : Prop :=
  forall i, frame_ok i -> page = frame i -> mem_map s i <> 0.

(** The page tables are sane: each has a page of its own, above the
    directory and in use. *)
Record tables_ok (s : kstate) : Prop := {
  to_page : forall k t, 0 <= k < 1024 -> table_of s k = Some t -> 4096 <= t /\ in_use s t;
  to_inj : forall k l t, 0 <= k < 1024 -> 0 <= l < 1024 ->
    table_of s k = Some t -> table_of s l = Some t -> k = l;
}.

Lemma table_aligned s k t : table_of s k = Some t -> t mod 4096 = 0.
Proof.
  unfold table_of. destruct (hasbit _ 1); [|done]. intros [= <-]. rewrite page_mask. dlia.
Qed.

(** Two pages are the same or have no byte in common. *)
Lemma pages_apart p q : p mod 4096 = 0 -> q mod 4096 = 0 -> p <> q -> p + 4096 <= q \/ q + 4096 <= p.
Proof. intros. dlia. Qed.

Lemma table_not_frame s k t i :
  tables_ok s -> 0 <= k < 1024 -> table_of s k = Some t -> frame_ok i -> mem_map s i = 0 ->
  t + 4096 <= frame i \/ frame i + 4096 <= t.
Proof.
  intros Hok Hk Ht Hi Hz. apply pages_apart; [by eapply table_aligned|apply frame_aligned|].
  intros ->. destruct (to_page _ Hok k _ Hk Ht) as [_ Hu]. by apply (Hu i).
Qed.

(** Storing an entry in the table [t] of directory slot [k]. *)
Lemma translate_store s k t j v addr :
  tables_ok s -> 0 <= k < 1024 -> 0 <= j < 1024 -> table_of s k = Some t ->
  0 <= v < 4294967296 ->
  translate (s <| phys ::= fun m => put32 m (t + 4 * j) v |>) addr =
    if (bool_decide ((addr / 4194304) mod 1024 = k) && bool_decide ((addr / 4096) mod 1024 = j))
    then if hasbit v 1 then Some (Z.land 0xfffff000 v + addr mod 4096, hasbit v 2) else None
    else translate s addr.
Proof.
  intros Hok Hk Hj Ht Hv.
  destruct (to_page _ Hok k t Hk Ht) as [Hlow _]. pose proof (table_aligned _ _ _ Ht) as Hal.
  unfold translate, dir_entry; simpl.
  set (ka := (addr / 4194304) mod 1024). assert (Hka : 0 <= ka < 1024) by (apply Z.mod_pos_bound; lia).
  set (ja := (addr / 4096) mod 1024). assert (Hja : 0 <= ja < 1024) by (apply Z.mod_pos_bound; lia).
  rewrite le32_put32_ne by lia.
  destruct (hasbit (le32 (phys s) (4 * ka)) 1) eqn:Hd; cycle 1.
  { rewrite bool_decide_eq_false_2; [done|]. intros ->. unfold table_of in Ht. by rewrite Hd in Ht. }
  assert (Hta : table_of s ka = Some (Z.land 0xfffff000 (le32 (phys s) (4 * ka)))).
  { unfold table_of. by rewrite Hd. }
  unfold entry_addr. fold ja. set (ta := Z.land _ _) in *.
  destruct (decide (ka = k)) as [Hkk|Hkk].
  - rewrite bool_decide_eq_true_2 by done. assert (t = ta) as -> by congruence.
    destruct (decide (ja = j)) as [->|Hjj].
    + rewrite bool_decide_eq_true_2, le32_put32, u32_small by done. done.
    + rewrite bool_decide_eq_false_2, le32_put32_ne by (done || lia). done.
  - rewrite bool_decide_eq_false_2 by done.
    assert (ta <> t) by (intros ->; apply Hkk; eapply to_inj; eauto).
    destruct (pages_apart ta t); [by eapply table_aligned|done|done| |];
      rewrite le32_put32_ne by lia; done.
Qed.

(** Taking a free frame changes no translation. *)
Lemma table_of_taken s i k : frame_ok i -> 0 <= k < 1024 ->
  table_of (taken i s) k = table_of s k.
Proof.
  intros Hi Hk. pose proof (frame_range i Hi). unfold table_of. rewrite le32_taken by lia. done.
Qed.
Lemma in_use_taken s i t : in_use s t -> in_use (taken i s) t.
Proof.
  intros H j Hj ->. simpl. rewrite arr_dec. case_decide; [done|]. by apply (H j).
Qed.
Lemma tables_taken s i : tables_ok s -> frame_ok i -> tables_ok (taken i s).
Proof.
  intros Hok Hi. constructor.
  - intros k t Hk Ht. rewrite table_of_taken in Ht by done.
    destruct (to_page _ Hok k t Hk Ht). split; [done|by apply in_use_taken].
  - intros k l t Hk Hl Hkt Hlt. rewrite table_of_taken in Hkt, Hlt by done. eapply to_inj; eauto.
Qed.
Lemma translate_taken s i addr : tables_ok s -> frame_ok i -> mem_map s i = 0 ->
  translate (taken i s) addr = translate s addr.
Proof.
  intros Hok Hi Hz. pose proof (frame_range i Hi). unfold translate, dir_entry.
  set (ka := (addr / 4194304) mod 1024). assert (Hka : 0 <= ka < 1024) by (apply Z.mod_pos_bound; lia).
  rewrite (le32_taken i s (4 * ka)) by lia.
  destruct (hasbit (le32 (phys s) (4 * ka)) 1) eqn:Hd; [|done].
  assert (Hta : table_of s ka = Some (Z.land 0xfffff000 (le32 (phys s) (4 * ka)))).
  { unfold table_of. by rewrite Hd. }
  pose proof (table_not_frame s ka _ i Hok Hka Hta Hi Hz).
  assert (0 <= (addr / 4096) mod 1024 < 1024) by (apply Z.mod_pos_bound; lia).
  rewrite le32_taken by (unfold entry_addr; lia). done.
Qed.

(** Hanging the new, zeroed frame [i] into the empty directory slot [k]. *)
Definition new_table (k i : Z) (s : kstate) : kstate :=
  (taken i s) <| phys ::= fun m => put32 m (4 * k) (frame i + 7) |>.
Lemma new_table_phys k i s :
  phys (new_table k i s) = put32 (phys (taken i s)) (4 * k) (frame i + 7).
Proof. done. Qed.

Lemma table_of_new s k l i : 0 <= k < 1024 -> 0 <= l < 1024 -> frame_ok i ->
  table_of (new_table k i s) l = if decide (k = l) then Some (frame i) else table_of s l.
Proof.
  intros Hk Hl Hi. pose proof (frame_range i Hi). pose proof (frame_aligned i).
  unfold table_of. rewrite new_table_phys. case_decide.
  - subst l. rewrite le32_put32, u32_small, entry_present, entry_page by (done || lia). done.
  - rewrite le32_put32_ne by lia. by rewrite le32_taken by lia.
Qed.

Lemma tables_new s k i :
  tables_ok s -> 0 <= k < 1024 -> frame_ok i -> mem_map s i = 0 -> table_of s k = None ->
  tables_ok (new_table k i s).
Proof.
  intros Hok Hk Hi Hz Hn. pose proof (frame_range i Hi). constructor.
  - intros l t Hl Ht. rewrite table_of_new in Ht by done. case_decide.
    + injection Ht as <-. split; [lia|]. intros j Hj Hf.
      assert (j = i) as -> by (unfold frame in Hf; lia). unfold new_table; simpl. by rewrite arr_eq.
    + destruct (to_page _ Hok l t Hl Ht). split; [done|]. by apply (in_use_taken s i).
  - assert (Hdiff : forall l t, 0 <= l < 1024 -> table_of s l = Some t -> frame i <> t).
    { intros l t Hl Ht <-. destruct (table_not_frame s l _ i Hok Hl Ht Hi Hz); lia. }
    intros l m t Hl Hm Hlt Hmt. rewrite table_of_new in Hlt, Hmt by done.
    destruct (decide (k = l)), (decide (k = m)); subst; simplify_eq;
      first [done | by destruct (Hdiff l (frame i)) | by destruct (Hdiff m (frame i))
            | by eapply to_inj].
Qed.

Lemma translate_new s k i addr :
  tables_ok s -> 0 <= k < 1024 -> frame_ok i -> mem_map s i = 0 -> table_of s k = None ->
  translate (new_table k i s) addr = translate s addr.
Proof.
  intros Hok Hk Hi Hz Hn. pose proof (frame_range i Hi). pose proof (frame_aligned i).
  rewrite <- (translate_taken s i addr Hok Hi Hz). unfold translate, dir_entry.
  set (ka := (addr / 4194304) mod 1024). assert (Hka : 0 <= ka < 1024) by (apply Z.mod_pos_bound; lia).
  assert (Hj : 0 <= (addr / 4096) mod 1024 < 1024) by (apply Z.mod_pos_bound; lia).
  rewrite new_table_phys. destruct (decide (k = ka)) as [->|Hne].
  - rewrite le32_put32, u32_small, entry_present by (done || lia).
    unfold entry_addr. rewrite entry_page by (done || lia).
    rewrite le32_put32_ne by lia.
    assert (le32 (phys (taken i s)) (frame i + 4 * ((addr / 4096) mod 1024)) = 0) as ->.
    { unfold le32. rewrite !taken_zero by (unfold in_page; lia). done. }
    change (hasbit 0 1) with false. cbv iota.
    rewrite <- (table_of_taken s i ka Hi Hka) in Hn. unfold table_of in Hn.
    destruct (hasbit (le32 (phys (taken i s)) (4 * ka)) 1); done.
  - rewrite (le32_put32_ne _ (4 * k)) by lia.
    destruct (hasbit (le32 (phys (taken i s)) (4 * ka)) 1) eqn:Hd; [|done].
    assert (Hta : table_of s ka = Some (Z.land 0xfffff000 (le32 (phys (taken i s)) (4 * ka)))).
    { rewrite <- (table_of_taken s i ka) by done. unfold table_of. by rewrite Hd. }
    destruct (to_page _ Hok ka _ Hka Hta). unfold entry_addr.
    rewrite (le32_put32_ne _ (4 * k)) by lia. done.
Qed.

(** ** Mapping a page *)

Lemma phys_set g s : phys (s <| phys ::= g |>) = g (phys s).
Proof. done. Qed.

Lemma entry_writable page : page mod 4096 = 0 -> hasbit (page + 7) 2 = true.
Proof.
  intros H. unfold hasbit, nz. change 2 with (Z.shiftl (Z.ones 1) 1) at 1.
  rewrite land_field by lia. change (2 ^ 1) with 2.
  replace (((page + 7) / 2) mod 2) with 1 by dlia. done.
Qed.

Definition linear (a : Z) : Prop := 0 <= a < 4294967296.

Lemma same_page a b : linear a -> linear b ->
  ((a / 4194304) mod 1024 = (b / 4194304) mod 1024 /\ (a / 4096) mod 1024 = (b / 4096) mod 1024)
  <-> a / 4096 = b / 4096.
Proof. unfold linear. intros. split; [intros []|intros]; try split; dlia. Qed.

(** Where a store may have gone between two states: the directory, a page
    table, or a frame that was free. *)
Definition paging_area (s s' : kstate) (x : Z) : Prop :=
  x < 4096 \/
  (exists k t, 0 <= k < 1024 /\ table_of s' k = Some t /\ in_page t x) \/
  (exists i, frame_ok i /\ mem_map s i = 0 /\ in_page (frame i) x).

(** The address maps to [page], writable, and no other translation changed. *)
Definition mapped (s s' : kstate) (page address : Z) : Prop :=
  tables_ok s' /\
  (forall a, linear a -> a / 4096 = address / 4096 ->
     translate s' a = Some (page + a mod 4096, true)) /\
  (forall a, linear a -> a / 4096 <> address / 4096 -> translate s' a = translate s a).

Lemma put_entry s k t page address :
  tables_ok s -> linear address -> k = (address / 4194304) mod 1024 -> table_of s k = Some t ->
  page mod 4096 = 0 -> 0 <= page < 4294963200 ->
  let s' := s <| phys ::= fun m => put32 m (t + 4 * ((address / 4096) mod 1024)) (page + 7) |> in
  mapped s s' page address.
Proof.
  intros Hok Ha Hk Ht Hal Hp s'.
  assert (Hkr : 0 <= k < 1024) by (subst k; apply Z.mod_pos_bound; lia).
  set (j := (address / 4096) mod 1024) in *.
  assert (Hj : 0 <= j < 1024) by (apply Z.mod_pos_bound; lia).
  assert (Htr := fun a => translate_store s k t j (page + 7) a Hok Hkr Hj Ht ltac:(lia)).
  destruct (to_page _ Hok k t Hkr Ht) as [Hlow _].
  assert (Htab : forall l, 0 <= l < 1024 -> table_of s' l = table_of s l).
  { intros l Hl. unfold table_of, s'; simpl. by rewrite le32_put32_ne by lia. }
  split; [|split].
  - constructor.
    + intros l u Hl Hu. rewrite Htab in Hu by done. destruct (to_page _ Hok l u Hl Hu). done.
    + intros l m u Hl Hm Hlu Hmu. rewrite Htab in Hlu, Hmu by done. by eapply to_inj.
  - intros a Hla Hpage. fold s' in Htr. rewrite Htr.
    apply same_page in Hpage as [Hk' Hj']; [|done|done].
    rewrite !bool_decide_eq_true_2 by (subst k j; done). simpl.
    rewrite entry_present, entry_page, entry_writable by (done || lia). done.
  - intros a Hla Hpage. fold s' in Htr. rewrite Htr.
    destruct (bool_decide _ && bool_decide _) eqn:E; [|done].
    apply andb_true_iff in E as [E1%bool_decide_eq_true E2%bool_decide_eq_true].
    exfalso. apply Hpage, same_page; subst k j; done.
Qed.

(** The state after the entry [v] was stored at index [j] of the table [t]. *)
Definition store_entry (t j v : Z) (s : kstate) : kstate :=
  s <| phys ::= fun m => put32 m (t + 4 * j) v |>.

(** The runs of [put_page] for a fresh frame. *)
Lemma put_page_cases s p address : frame_ok p -> mem_map s p = 1 ->
  let k := (address / 4194304) mod 1024 in let j := (address / 4096) mod 1024 in
  (exists t, table_of s k = Some t /\
     put_page (frame p) address s = Ret (frame p) (store_entry t j (frame p + 7) s)) \/
  table_of s k = None /\
  (put_page (frame p) address s = Ret 0 s /\ (forall j, frame_ok j -> mem_map s j <> 0) \/
   exists i, frame_ok i /\ mem_map s i = 0 /\
     put_page (frame p) address s = Ret (frame p) (store_entry (frame i) j (frame p + 7) (new_table k i s))).
Proof.
  intros Hp Hone k j. pose proof (frame_range p Hp) as Hr. pose proof (frame_aligned p) as Hal. unfold put_page.
  replace ((frame p <? LOW_MEM) || (frame p >? HIGH_MEMORY)) with false by
    (symmetry; apply orb_false_iff; unfold LOW_MEM, BUFFER_END, HIGH_MEMORY; lia).
  mrun. rewrite frame_nr, Hone by done. mrun. rewrite dir_index, table_index. fold k j.
  unfold phys_get, phys_put. mrun. rewrite entry_lor by done. unfold table_of.
  destruct (hasbit (le32 (phys s) (4 * k)) 1) eqn:Hd; [left; by eexists|right].
  split; [done|]. destruct (get_free_page_cases s) as [[Hrun Hall]|(i & Hi & Hz & _ & Hrun)].
  { left. rewrite (bind_Ret _ _ _ _ _ Hrun). done. }
  right. exists i. split; [done|]. split; [done|]. rewrite (bind_Ret _ _ _ _ _ Hrun), frame_nz by done.
  simpl negb. cbv iota. rewrite entry_lor by apply frame_aligned. mrun. done.
Qed.

Lemma put_page_run s p address :
  tables_ok s -> linear address -> frame_ok p -> mem_map s p = 1 ->
  (forall k, 0 <= k < 1024 -> table_of s k <> Some (frame p)) ->
  (put_page (frame p) address s = Ret 0 s /\ forall j, frame_ok j -> mem_map s j <> 0) \/
  exists s', put_page (frame p) address s = Ret (frame p) s' /\
    mapped s s' (frame p) address /\ mem_map s' p = 1 /\
    (forall x, in_page (frame p) x -> phys s' x = phys s x) /\
    (forall x, phys s' x <> phys s x -> paging_area s s' x).
Proof.
  intros Hok Ha Hp Hone Hnot. pose proof (frame_range p Hp) as Hr. pose proof (frame_aligned p) as Hal.
  set (k := (address / 4194304) mod 1024). assert (Hk : 0 <= k < 1024) by (apply Z.mod_pos_bound; lia).
  assert (Hj : 0 <= (address / 4096) mod 1024 < 1024) by (apply Z.mod_pos_bound; lia).
  pose proof (put_page_cases s p address Hp Hone) as Hcases. cbv zeta in Hcases. fold k in Hcases.
  destruct Hcases as [(t & Ht & Hrun)|(Hn & [[Hrun Hall]|(i & Hi & Hz & Hrun)])];
    [right|by left|right]; (eexists; split; [exact Hrun|]); unfold store_entry.
  - assert (Hm := put_entry s k t (frame p) address Hok Ha eq_refl Ht Hal ltac:(lia)).
    split; [exact Hm|]. split; [done|]. pose proof (table_aligned _ _ _ Ht). simpl. split.
    + intros x Hx. destruct (pages_apart t (frame p));
        [done|done|intros Heq; apply (Hnot k Hk); congruence| |]; apply put32_ne; unfold in_page in Hx; lia.
    + intros x Hx. right. left. exists k, t. split; [done|].
      destruct (to_page _ Hok k t Hk Ht). split.
      * unfold table_of; simpl. rewrite le32_put32_ne by lia. exact Ht.
      * unfold in_page. destruct (decide (t <= x < t + 4096)); [done|].
        exfalso. apply Hx. apply put32_ne. lia.
  - pose proof (frame_range i Hi) as Hri. pose proof (frame_aligned i) as Hali. set (s1 := new_table k i s).
    assert (Hok1 : tables_ok s1) by (by apply tables_new).
    assert (Ht1 : table_of s1 k = Some (frame i)).
    { unfold s1. rewrite table_of_new by done. by rewrite decide_True. }
    destruct (put_entry s1 k (frame i) (frame p) address Hok1 Ha eq_refl Ht1 Hal ltac:(lia))
      as (Hok2 & Hin & Hout).
    assert (Hip : frame i <> frame p) by (intros Heq; unfold frame in Heq; assert (i = p) by lia; congruence).
    split; [|split; [|split]].
    + split; [exact Hok2|]. split; [exact Hin|]. intros a Hla Hpg. etrans; [exact (Hout a Hla Hpg)|].
      by apply translate_new.
    + unfold s1. simpl. by rewrite arr_ne by congruence.
    + intros x Hx. destruct (pages_apart (frame i) (frame p)); [done|done|done| |];
        unfold in_page in Hx; unfold s1, new_table;
        rewrite !phys_set, !put32_ne by lia; apply taken_phys; unfold in_page; lia.
    + intros x Hx. destruct (decide (x < 4096)); [by left|]. right. right. exists i.
      split; [done|]. split; [done|]. unfold in_page.
      destruct (decide (frame i <= x < frame i + 4096)); [done|]. exfalso. apply Hx.
      unfold s1, new_table. rewrite !phys_set, !put32_ne by lia.
      apply taken_phys. unfold in_page. lia.
Qed.

(** C7: A fault on a page that is not present either maps the address to a fresh
    zeroed writable page, changing no other translation and storing only into
    the directory, the page tables and frames that were free, or, when no frame
    is left, kills the process. *)
Theorem do_no_page_spec do_exit error_code address s :
  tables_ok s -> linear address ->
  (exists s', do_no_page do_exit error_code address s = Ret tt s' /\ tables_ok s' /\
     (forall a, linear a -> a / 4096 = address / 4096 ->
        exists x, translate s' a = Some (x, true) /\ phys s' x = 0) /\
     (forall a, linear a -> a / 4096 <> address / 4096 -> translate s' a = translate s a) /\
     (forall x, phys s' x <> phys s x -> paging_area s s' x)) \/
  (exists s', do_no_page do_exit error_code address s = (do_exit SIGSEGV;; mret tt) s' /\
     forall j, frame_ok j -> mem_map s' j <> 0).
Proof.
  intros Hok Ha. unfold do_no_page.
  destruct (get_free_page_cases s) as [[Hrun Hall]|(i & Hi & Hz & _ & Hrun)].
  { right. exists s. rewrite (bind_Ret _ _ _ _ _ Hrun). done. }
  rewrite (bind_Ret _ _ _ _ _ Hrun), frame_nz by done. simpl.
  pose proof (frame_range i Hi) as Hr.
  assert (Hok1 := tables_taken s i Hok Hi).
  destruct (put_page_run (taken i s) i address Hok1 Ha Hi) as
    [[Hput Hall]|(s' & Hput & (Hok2 & Hin & Hout) & _ & Hpage & Hstore)].
  { simpl. apply arr_eq. }
  { intros k Hk Ht. rewrite table_of_taken in Ht by done.
    destruct (table_not_frame s k _ i Hok Hk Ht Hi Hz); lia. }
  - right. exists (taken i s). rewrite (bind_Ret _ _ _ _ _ Hput). done.
  - left. exists s'. rewrite (bind_Ret _ _ _ _ _ Hput), frame_nz by done. simpl.
    split; [done|]. split; [done|]. split; [|split].
    + intros a Hla Hpg. exists (frame i + a mod 4096). split; [by apply Hin|].
      assert (in_page (frame i) (frame i + a mod 4096)) by (unfold in_page; dlia).
      rewrite Hpage by done. by apply taken_zero.
    + intros a Hla Hpg. rewrite Hout by done. by apply translate_taken.
    + intros x Hx. destruct (decide (in_page (frame i) x)) as [Hx1|Hx1].
      { right. right. by exists i. }
      rewrite <- (taken_phys i s x Hx1) in Hx. destruct (Hstore x Hx) as [?|[?|(j & ? & Hj & ?)]];
        [by left|right; by left|]. right. right. exists j. split; [done|]. split; [|done].
      simpl in Hj. rewrite arr_dec in Hj. by case_decide.
Qed.

(** ** Copying on a write *)

Lemma second_bit x : hasbit x 2 = ((x / 2) mod 2 =? 1).
Proof.
  unfold hasbit, nz. change 2 with (Z.shiftl (Z.ones 1) 1) at 1. rewrite land_field by lia.
  change (2 ^ 1) with 2. pose proof (Z.mod_pos_bound (x / 2) 2).
  destruct (Z.eqb_spec (2 * ((x / 2) mod 2)) 0), (Z.eqb_spec ((x / 2) mod 2) 1); simpl; lia.
Qed.

(** Making an entry writable keeps the page it points to. *)
Lemma entry_make_writable e : 0 <= e < 4294967296 ->
  hasbit e 1 = true -> hasbit e 2 = false ->
  Z.lor e 2 = e + 2 /\ hasbit (e + 2) 1 = true /\ hasbit (e + 2) 2 = true /\
  Z.land 0xfffff000 (e + 2) = Z.land 0xfffff000 e /\ e + 2 < 4294967296.
Proof.
  intros He H1 H2.
  split; [apply lor_add; unfold hasbit in H2; by apply nz_false|].
  rewrite low_bit in H1 |- *. rewrite second_bit in H2 |- *. rewrite !page_mask.
  apply Z.eqb_eq in H1. apply Z.eqb_neq in H2.
  rewrite !Z.eqb_eq. dlia.
Qed.

(** A page of a process: no page table, above the directory, in use, in the
    memory there is. *)
Record user_page (s : kstate) (page : Z) : Prop := {
  up_aligned : page mod 4096 = 0;
  up_range : 4096 <= page < HIGH_MEMORY;
  up_used : in_use s page;
  up_table : forall k, 0 <= k < 1024 -> table_of s k <> Some page;
}.

Definition counts_ok (s : kstate) : Prop := forall i, frame_ok i -> 0 <= mem_map s i < 65536.

(** The count of the page that a write leaves. *)
Definition leave_page (page : Z) (m : Z -> Z) : Z -> Z :=
  if page >=? LOW_MEM then <[MAP_NR page := m (MAP_NR page) - 1]> m else m.

Lemma mem_map_leave i n te v old new s :
  mem_map ((taken i s) <| mem_map ::= fun m => <[n := u16 (m n - 1)]> m |>
    <| phys ::= fun m => put32 m te v |> <| phys ::= fun m a =>
       if (new <=? a) && (a <? new + PAGE_SIZE) then m (old + (a - new)) else m a |>) =
  <[n := u16 (<[i := 1]> (mem_map s) n - 1)]> (<[i := 1]> (mem_map s)).
Proof. done. Qed.

(** The page is above the kernel's and no one else refers to it. *)
Definition alone (s : kstate) (page : Z) : Prop := LOW_MEM <= page /\ mem_map s (MAP_NR page) = 1.

Lemma un_wp_page_run do_exit te s :
  let e := le32 (phys s) te in
  let old := Z.land 0xfffff000 e in
  bytes (phys s) -> counts_ok s -> old < HIGH_MEMORY -> in_use s old ->
  (un_wp_page do_exit te s = Ret tt (s <| phys ::= fun m => put32 m te (Z.lor e 2) |>) /\ alone s old) \/
  (exists k, un_wp_page do_exit te s = (do_exit SIGSEGV ≫= k) s /\ ~ alone s old /\
     forall j, frame_ok j -> mem_map s j <> 0) \/
  (exists i, frame_ok i /\ mem_map s i = 0 /\ ~ alone s old /\
     (forall n, frame_ok n -> old = frame n -> 1 < mem_map s n) /\
     exists s', un_wp_page do_exit te s = Ret tt s' /\
       mem_map s' = leave_page old (<[i := 1]> (mem_map s)) /\
       phys s' = fun x => if (frame i <=? x) && (x <? frame i + PAGE_SIZE)
                          then put32 (phys (taken i s)) te (frame i + 7) (old + (x - frame i))
                          else put32 (phys (taken i s)) te (frame i + 7) x).
Proof.
  intros e old Hb Hc Hrange Hu. unfold un_wp_page, phys_get, phys_put. mrun. fold e. fold old.
  assert (Hal : old mod 4096 = 0) by (unfold old; rewrite page_mask; dlia).
  destruct (old >=? LOW_MEM) eqn:Hlow; cbn [andb]; cycle 1.
  - assert (Hna : ~ alone s old) by (intros [? _]; ztest; lia). right.
    destruct (get_free_page_cases s) as [[Hrun Hall]|(i & Hi & Hz & _ & Hrun)].
    { left. rewrite (bind_Ret _ _ _ _ _ Hrun). simpl negb. rewrite when_true, bind_assoc.
      eexists. split; [reflexivity|done]. }
    right. exists i. split; [done|]. split; [done|]. split; [done|]. split.
    { intros n Hn Hf. pose proof (frame_range n Hn). unfold LOW_MEM, BUFFER_END in Hlow. ztest. lia. }
    rewrite (bind_Ret _ _ _ _ _ Hrun), frame_nz by done. simpl negb. mrun.
    rewrite entry_lor by apply frame_aligned. unfold leave_page. rewrite Hlow.
    eexists. split; [reflexivity|]. done.
  - ztest. destruct (frame_of_page old) as [Hno Hold]; [done|lia|]. pose proof (Hu _ Hno Hold) as Hnz. pose proof (Hc _ Hno).
    destruct (mem_map s (MAP_NR old) =? 1) eqn:H1; ztest.
    { left. split; [reflexivity|]. split; [lia|done]. }
    assert (Hna : ~ alone s old) by (intros [_ ?]; done). right. destruct (get_free_page_cases s) as [[Hrun Hall]|(i & Hi & Hz & _ & Hrun)].
    { left. rewrite (bind_Ret _ _ _ _ _ Hrun). simpl negb. unfold when. rewrite bind_assoc.
      eexists. split; [reflexivity|done]. }
    right. exists i. split; [done|]. split; [done|]. split; [done|]. split.
    { intros n Hn Hf. rewrite Hf, frame_nr in * by done. lia. }
    rewrite (bind_Ret _ _ _ _ _ Hrun), frame_nz by done. simpl negb. mrun.
    rewrite entry_lor by apply frame_aligned. unfold leave_page.
    rewrite (proj2 (Z.geb_le old LOW_MEM)) by lia. unfold copy_page. mrun.
    eexists. split; [reflexivity|]. split; [|done].
    etrans; [apply mem_map_leave|]. rewrite arr_ne, u16_small by (congruence || lia). done.
Qed.

(** A write fault changes the entry of the page. *)
Lemma do_wp_page_run do_exit error_code address s t :
  table_of s ((address / 4194304) mod 1024) = Some t ->
  do_wp_page do_exit error_code address s = un_wp_page do_exit (t + 4 * ((address / 4096) mod 1024)) s.
Proof.
  unfold table_of. intros Ht. unfold do_wp_page, phys_get. rewrite dir_index, table_offset. mrun.
  destruct (hasbit _ 1); [|done]. injection Ht as Ht. rewrite Ht, Z.add_comm, u32_small; [done|].
  assert (0 <= (address / 4096) mod 1024 < 1024) by (apply Z.mod_pos_bound; lia).
  rewrite <- Ht, page_mask. dlia.
Qed.

Lemma translate_same s s' addr :
  (forall x, 0 <= x < 4096 -> phys s' x = phys s x) ->
  (forall k t x, 0 <= k < 1024 -> table_of s k = Some t -> in_page t x -> phys s' x = phys s x) ->
  translate s' addr = translate s addr.
Proof.
  intros Hdir Htab. unfold translate, dir_entry.
  set (k := (addr / 4194304) mod 1024). assert (Hk : 0 <= k < 1024) by (apply Z.mod_pos_bound; lia).
  rewrite (le32_outside (phys s') (phys s) (4 * k)) by (intros; apply Hdir; lia).
  destruct (hasbit (le32 (phys s) (4 * k)) 1) eqn:Hd; [|done].
  assert (Ht : table_of s k = Some (Z.land 0xfffff000 (le32 (phys s) (4 * k)))).
  { unfold table_of. by rewrite Hd. }
  assert (0 <= (addr / 4096) mod 1024 < 1024) by (apply Z.mod_pos_bound; lia).
  unfold entry_addr. set (o := _ + 4 * _).
  rewrite (le32_outside (phys s') (phys s) o); [done|].
  intros x Hx. apply (Htab k _ x Hk Ht). unfold in_page. lia.
Qed.

Lemma table_of_same s s' k : (forall x, 0 <= x < 4096 -> phys s' x = phys s x) ->
  0 <= k < 1024 -> table_of s' k = table_of s k.
Proof.
  intros H Hk. unfold table_of. by rewrite (le32_outside (phys s') (phys s)) by (intros; apply H; lia).
Qed.

(** The entry of the page of an address that translates. *)
Lemma translate_entry s addr x w : translate s addr = Some (x, w) ->
  let k := (addr / 4194304) mod 1024 in
  exists t, table_of s k = Some t /\ entry_addr (dir_entry s addr) addr = t + 4 * ((addr / 4096) mod 1024) /\
    let e := le32 (phys s) (t + 4 * ((addr / 4096) mod 1024)) in
    hasbit e 1 = true /\ hasbit e 2 = w /\ Z.land 0xfffff000 e = x - addr mod 4096.
Proof.
  unfold translate, table_of, entry_addr, dir_entry. cbv zeta.
  destruct (hasbit (le32 _ (4 * _)) 1); [|done].
  destruct (hasbit (le32 (phys s) (Z.land _ _ + _)) 1) eqn:He; [|done].
  intros [= <- <-]. eexists. split; [done|]. split; [done|]. split; [done|]. split; [done|lia].
Qed.

Lemma user_page_apart s page i : user_page s page -> frame_ok i -> mem_map s i = 0 ->
  page + 4096 <= frame i \/ frame i + 4096 <= page.
Proof.
  intros Hu Hi Hz. apply pages_apart; [apply Hu|apply frame_aligned|].
  intros ->. by apply (up_used _ _ Hu i).
Qed.

(** The three ways a write fault on a shared page ends, told of memory: the
    entry was enough, a copy was made, or there was no frame for it. *)
Lemma wp_taken_phys s i te old x :
  frame_ok i -> te + 4 <= frame i \/ frame i + 4096 <= te ->
  (if (frame i <=? x) && (x <? frame i + PAGE_SIZE)
   then put32 (phys (taken i s)) te (frame i + 7) (old + (x - frame i))
   else put32 (phys (taken i s)) te (frame i + 7) x) =
  if decide (in_page (frame i) x)
  then put32 (phys (taken i s)) te (frame i + 7) (old + (x - frame i))
  else put32 (phys s) te (frame i + 7) x.
Proof.
  intros Hi Hte. unfold PAGE_SIZE.
  destruct ((frame i <=? x) && (x <? frame i + 4096)) eqn:E.
  - ztest. rewrite decide_True by (split; done). done.
  - rewrite decide_False; cycle 1.
    { intros [? ?]. apply andb_false_iff in E as [?|?]; ztest; lia. }
    unfold put32. rewrite !arr_dec. repeat case_decide; try done.
    apply taken_phys. intros [? ?]. apply andb_false_iff in E as [?|?]; ztest; lia.
Qed.

(** What a write fault on the page [old] of [address] leaves: the address has
    a writable page with the same bytes, and nothing else is seen to change. *)
Definition unshared (s s' : kstate) (address old : Z) : Prop :=
  tables_ok s' /\
  (forall a, linear a -> a / 4096 = address / 4096 -> exists y,
     translate s' a = Some (y, true) /\ phys s' y = phys s (old + a mod 4096)) /\
  (forall a, linear a -> a / 4096 <> address / 4096 -> translate s' a = translate s a) /\
  (forall p y, user_page s p -> in_page p y -> phys s' y = phys s y).

(** It is enough that the entry [v] points to a page with those bytes and that
    only the entry and free frames were written. *)
Section unshare.
Context (s s' : kstate) (address t old v : Z).
Let k := (address / 4194304) mod 1024.
Let j := (address / 4096) mod 1024.
Let te := t + 4 * j.
Hypothesis Hok : tables_ok s.
Hypothesis Ha : linear address.
Hypothesis Ht : table_of s k = Some t.
Hypothesis Hv : 0 <= v < 4294967296.
Hypothesis Hv1 : hasbit v 1 = true.
Hypothesis Hv2 : hasbit v 2 = true.
Hypothesis Hcopy : forall y, 0 <= y < 4096 -> phys s' (Z.land 0xfffff000 v + y) = phys s (old + y).
Hypothesis Hphys : forall y, phys s' y = put32 (phys s) te v y \/
  exists i, frame_ok i /\ mem_map s i = 0 /\ in_page (frame i) y.
Hypothesis Huse : forall p, in_use s p -> in_use s' p.
Let s1 := s <| phys ::= fun m => put32 m te v |>.

Lemma us_k : 0 <= k < 1024.
Proof. apply Z.mod_pos_bound; lia. Qed.
Lemma us_j : 0 <= j < 1024.
Proof. apply Z.mod_pos_bound; lia. Qed.
Lemma us_keep y : (forall i, frame_ok i -> mem_map s i = 0 -> ~ in_page (frame i) y) ->
  phys s' y = phys s1 y.
Proof.
  intros Hy. destruct (Hphys y) as [->|(i & Hi & Hz & Hiy)]; [done|]. by destruct (Hy i).
Qed.
Lemma us_dir y : 0 <= y < 4096 -> phys s' y = phys s1 y.
Proof. intros Hy. apply us_keep. intros i Hi _ [? ?]. pose proof (frame_range i Hi). lia. Qed.
Lemma us_dir1 y : 0 <= y < 4096 -> phys s1 y = phys s y.
Proof.
  intros Hy. unfold s1. rewrite phys_set. apply put32_ne.
  destruct (to_page _ Hok k t us_k Ht). pose proof us_j. unfold te. lia.
Qed.
Lemma us_table l : 0 <= l < 1024 -> table_of s' l = table_of s l.
Proof.
  intros Hl. rewrite (table_of_same s1) by (done || apply us_dir).
  apply table_of_same; [apply us_dir1|done].
Qed.
Lemma us_translate a : translate s' a = translate s1 a.
Proof.
  apply translate_same; [apply us_dir|]. intros l u y Hl Hlu Hy.
  rewrite (table_of_same s s1) in Hlu by (done || apply us_dir1).
  apply us_keep. intros i Hi Hz Hiy.
  destruct (table_not_frame s l u i Hok Hl Hlu Hi Hz); unfold in_page in *; lia.
Qed.

(** The page the address has afterwards is the one of [v]. *)
Lemma us_here a : linear a -> a / 4096 = address / 4096 ->
  translate s' a = Some (Z.land 0xfffff000 v + a mod 4096, true).
Proof.
  assert (Hstore := translate_store s k t j v a Hok us_k us_j Ht Hv). fold te s1 in Hstore.
  intros Hla Hpg. rewrite us_translate, Hstore.
  apply same_page in Hpg as [Hak Haj]; [|done|done].
  rewrite !bool_decide_eq_true_2, Hv1, Hv2 by (subst k j; done). done.
Qed.

Lemma unshare : unshared s s' address old /\
  translate s' address = Some (Z.land 0xfffff000 v + address mod 4096, true).
Proof.
  split; [|by apply us_here].
  assert (Hstore := fun a => translate_store s k t j v a Hok us_k us_j Ht Hv). fold te s1 in Hstore.
  split; [|split; [|split]].
  - constructor.
    + intros l u Hl Hlu. rewrite us_table in Hlu by done.
      destruct (to_page _ Hok l u Hl Hlu). auto.
    + intros l m u Hl Hm Hlu Hmu. rewrite us_table in Hlu, Hmu by done. by eapply to_inj.
  - intros a Hla Hpg. eexists. split; [by apply us_here|]. apply Hcopy, Z.mod_pos_bound. lia.
  - intros a Hla Hpg. rewrite us_translate, Hstore.
    destruct (bool_decide _ && bool_decide _) eqn:E; [|done].
    apply andb_true_iff in E as [E1%bool_decide_eq_true E2%bool_decide_eq_true].
    exfalso. apply Hpg, same_page; subst k j; done.
  - intros p y Hp Hy. rewrite us_keep; cycle 1.
    { intros i Hi Hz Hiy. destruct (user_page_apart s p i Hp Hi Hz); unfold in_page in *; lia. }
    unfold s1. rewrite phys_set. apply put32_ne. pose proof us_j. pose proof us_k.
    destruct (pages_apart p t); [apply Hp|by eapply table_aligned| | |].
    + intros ->. by apply (up_table _ _ Hp k).
    + unfold te, in_page in *; lia.
    + unfold te, in_page in *; lia.
Qed.
End unshare.

(** C8: A write fault on a read-only page. If the page is not shared (it is
    counted and its count is 1), that page itself becomes writable at the
    address and no count changes. Otherwise the address gets a frame that was
    free, with the same bytes, writable, and the old page's count goes down; or,
    when no frame is free, the process is ended. No other translation changes
    and no page of any process changes its bytes. *)
Theorem do_wp_page_spec do_exit error_code address x s :
  tables_ok s -> bytes (phys s) -> counts_ok s -> linear address ->
  translate s address = Some (x, false) ->
  let old := x - address mod 4096 in
  user_page s old ->
  (alone s old -> exists s', do_wp_page do_exit error_code address s = Ret tt s' /\
     unshared s s' address old /\ translate s' address = Some (x, true) /\ mem_map s' = mem_map s) /\
  (~ alone s old ->
     (exists s' i, do_wp_page do_exit error_code address s = Ret tt s' /\
        unshared s s' address old /\ frame_ok i /\ mem_map s i = 0 /\
        translate s' address = Some (frame i + address mod 4096, true) /\
        mem_map s' = leave_page old (<[i := 1]> (mem_map s))) \/
     (exists k, do_wp_page do_exit error_code address s = (do_exit SIGSEGV ≫= k) s /\
        forall j, frame_ok j -> mem_map s j <> 0)).
Proof.
  intros Hok Hb Hc Ha Htr old Hu.
  destruct (translate_entry s address x false Htr) as (t & Ht & Hea & H1 & H2 & Hold). fold old in Hold.
  set (k := (address / 4194304) mod 1024) in *. set (j := (address / 4096) mod 1024) in *.
  assert (Hk : 0 <= k < 1024) by (apply Z.mod_pos_bound; lia).
  assert (Hj : 0 <= j < 1024) by (apply Z.mod_pos_bound; lia).
  set (te := t + 4 * j) in *.
  pose proof (table_aligned _ _ _ Ht) as Hal. destruct (to_page _ Hok k t Hk Ht) as [Hlow Hused].
  pose proof (up_range _ _ Hu). pose proof (up_aligned _ _ Hu).
  pose proof (le32_range (phys s) te Hb) as He. set (e := le32 (phys s) te) in *.
  assert (Hot : old + 4096 <= t \/ t + 4096 <= old).
  { apply pages_apart; [done|done|]. intros Heq. apply (up_table _ _ Hu k); congruence. }
  assert (Hrun : do_wp_page do_exit error_code address s = un_wp_page do_exit te s) by (by apply do_wp_page_run).
  rewrite Hrun.
  destruct (un_wp_page_run do_exit te s) as
    [(-> & Hal1)|[(c & -> & Hna & Hall)|(i & Hi & Hz & Hna & Hmore & s' & -> & Hmm & Hps)]]; fold e;
    fold e in Hal1 || fold e in Hna || idtac; rewrite ?Hold in *; [done|done|lia|apply (up_used _ _ Hu)| | |].
  - split; [intros _|done]. eexists. split; [reflexivity|].
    destruct (entry_make_writable e He H1 H2) as (-> & Hn1 & Hn2 & Hn3 & Hn4).
    assert (Hc' : forall y, 0 <= y < 4096 -> put32 (phys s) te (e + 2) (Z.land 0xfffff000 (e + 2) + y) = phys s (old + y)).
    { intros y Hy. rewrite Hn3, Hold. apply put32_ne. unfold te. lia. }
    destruct (unshare s (s <| phys ::= fun m => put32 m te (e + 2) |>) address t old (e + 2))
      as [Hun Hto]; try done; [lia|by left|]. split; [done|]. split; [|done].
    rewrite Hto, Hn3, Hold. unfold old. do 2 f_equal. lia.
  - split; [done|intros _]. right. eexists. split; [reflexivity|]. done.
  - fold e in Hmore, Hmm, Hps. rewrite Hold in Hmore, Hmm, Hps.
    split; [done|intros _]. left. exists s', i. split; [done|]. pose proof (frame_range i Hi). pose proof (frame_aligned i).
    assert (Hti : t + 4096 <= frame i \/ frame i + 4096 <= t) by (by apply (table_not_frame s k)).
    assert (Hoi : old + 4096 <= frame i \/ frame i + 4096 <= old) by (by apply (user_page_apart s)).
    assert (Hph := fun y => wp_taken_phys s i te old y Hi ltac:(unfold te; lia)).
    enough (Hun : unshared s s' address old /\
      translate s' address = Some (Z.land 0xfffff000 (frame i + 7) + address mod 4096, true)).
    { destruct Hun as [? Hto]. rewrite entry_page in Hto by lia. done. }
    apply (unshare s s' address t old (frame i + 7)); try done.
    + lia.
    + by apply entry_present.
    + by apply entry_writable.
    + intros y Hy. rewrite entry_page by lia.
      rewrite Hps, Hph, decide_True by (unfold in_page; lia).
      replace (old + (frame i + y - frame i)) with (old + y) by lia.
      rewrite put32_ne by (unfold te; lia). apply taken_phys. unfold in_page. lia.
    + intros y. destruct (decide (in_page (frame i) y)) as [Hy|Hy]; [right; by exists i|left].
      by rewrite Hps, Hph, decide_False.
    + intros p Hp n Hn ->. assert (Hpn := Hp n Hn eq_refl). rewrite Hmm. unfold leave_page.
      destruct (old >=? LOW_MEM) eqn:Hge; cycle 1.
      { rewrite arr_dec. by case_decide. }
      ztest. destruct (frame_of_page old) as [Hno Hon]; [done|lia|].
      specialize (Hmore _ Hno Hon). assert (i <> MAP_NR old) by (intros ->; lia).
      rewrite (arr_ne _ i) by done. rewrite !arr_dec. repeat case_decide; subst; lia.
Qed.

(** ** Operations that touch only memory

    [mem_code m]: [m] returns or panics, and changes nothing but the bytes of
    memory and the counts of the frames. *)

Definition mem_only (s s' : kstate) : Prop :=
  s' = s <| phys := phys s' |> <| mem_map := mem_map s' |>.
Definition mem_code {A} (m : K A) : Prop := forall s,
  match m s with Ret _ s' => mem_only s s' | Panic _ _ => True | _ => False end.

Create HintDb mem_code.

Lemma mem_only_refl s : mem_only s s.
Proof. unfold mem_only. destruct s; reflexivity. Qed.
Lemma mem_only_trans s1 s2 s3 : mem_only s1 s2 -> mem_only s2 s3 -> mem_only s1 s3.
Proof. unfold mem_only. intros H1 H2. rewrite H2, H1. reflexivity. Qed.

Lemma mem_code_ret {A} (a : A) : mem_code (mret a).
Proof. intros s. apply mem_only_refl. Qed.
Lemma mem_code_panic {A} msg : mem_code (panic msg : K A).
Proof. done. Qed.
Lemma mem_code_gets {A} (f : kstate -> A) : mem_code (gets f).
Proof. intros s. apply mem_only_refl. Qed.
Lemma mem_code_get : mem_code get.
Proof. intros s. apply mem_only_refl. Qed.
Lemma mem_code_phys_put a v : mem_code (phys_put a v).
Proof. done. Qed.
Lemma mem_code_count (f : (Z -> Z) -> Z -> Z) : mem_code (modify (fun s => s <| mem_map ::= f |>)).
Proof. done. Qed.
Lemma mem_code_bytes (f : (Z -> Z) -> Z -> Z) : mem_code (modify (fun s => s <| phys ::= f |>)).
Proof. done. Qed.
Lemma mem_code_bind {A B} (m : K A) (f : A -> K B) :
  mem_code m -> (forall a, mem_code (f a)) -> mem_code (m ≫= f).
Proof.
  intros Hm Hf s. unfold mbind, M_bind. specialize (Hm s). destruct (m s) as [a s1|?|?|?|]; simpl; try done.
  specialize (Hf a s1). destruct (f a s1); try done. by eapply mem_only_trans.
Qed.
Lemma mem_code_when b m : mem_code m -> mem_code (when b m).
Proof. intros Hm. destruct b; [done|apply mem_code_ret]. Qed.
Lemma mem_code_if {A} (b : bool) (m n : K A) : mem_code m -> mem_code n -> mem_code (if b then m else n).
Proof. by destruct b. Qed.
Lemma mem_code_for i n body : (forall j, mem_code (body j)) -> mem_code (for_ i n body).
Proof.
  intros Hb. revert i. induction n as [|n IH]; intros i; [apply mem_code_ret|].
  apply mem_code_bind; [apply Hb|intros _; apply IH].
Qed.
Lemma mem_code_for_ret {A} i n (body : Z -> K (option A)) :
  (forall j, mem_code (body j)) -> mem_code (for_ret i n body).
Proof.
  intros Hb. revert i. induction n as [|n IH]; intros i; [apply mem_code_ret|].
  apply mem_code_bind; [apply Hb|]. intros [a|]; [apply mem_code_ret|apply IH].
Qed.
#[export] Hint Resolve @mem_code_ret @mem_code_panic @mem_code_gets mem_code_get mem_code_phys_put
  mem_code_count mem_code_bytes @mem_code_bind mem_code_when @mem_code_if mem_code_for
  @mem_code_for_ret : mem_code.

Lemma mem_code_get_free_page : mem_code get_free_page.
Proof.
  intros s. destruct (get_free_page_cases s) as [[H _]|(i & _ & _ & _ & H)]; rewrite H;
    [apply mem_only_refl|done].
Qed.
Lemma mem_code_free_page a : mem_code (free_page a).
Proof. unfold free_page. eauto 20 with mem_code. Qed.
#[export] Hint Resolve mem_code_get_free_page mem_code_free_page : mem_code.
Lemma mem_code_free_page_tables from size : mem_code (free_page_tables from size).
Proof. unfold free_page_tables, free_dir, free_entry, phys_get, invalidate. eauto 40 with mem_code. Qed.
Lemma mem_code_copy_page_tables from to size : mem_code (copy_page_tables from to size).
Proof.
  unfold copy_page_tables, copy_dir, copy_entry, phys_get, invalidate. apply mem_code_if; [eauto with mem_code|].
  apply mem_code_bind; [|intros [v|]; eauto with mem_code].
  eauto 40 with mem_code.
Qed.
#[export] Hint Resolve mem_code_free_page_tables mem_code_copy_page_tables : mem_code.

(** ** Examples *)

Lemma no_tables : tables_ok zero_kstate.
Proof. constructor; intros k; intros; discriminate. Qed.

Lemma free_page_spec_witness :
  free_page 0x300123 (zero_kstate <| mem_map := fun _ => 2 |>) =
    Ret tt (zero_kstate <| mem_map := <[256 := 1]> (fun _ => 2) |>).
Proof. rewrite (free_page_spec 0x300123); [reflexivity|lia]. Defined.

Lemma do_no_page_spec_witness :
  (exists s' x, do_no_page (fun _ => panic "exit") 2 0x4001234 zero_kstate = Ret tt s' /\
     translate s' 0x4001234 = Some (x, true) /\ phys s' x = 0) \/
  (exists s', do_no_page (fun _ => panic "exit") 2 0x4001234 zero_kstate = Panic "exit" s').
Proof.
  destruct (do_no_page_spec (fun _ => panic "exit") 2 0x4001234 zero_kstate)
    as [(s' & Hrun & _ & Hin & _)|(s' & Hrun & _)]; [apply no_tables|split; lia| |].
  - left. destruct (Hin 0x4001234) as (x & Hx & Hz); [split; lia|reflexivity|]. eauto.
  - right. exists s'. exact Hrun.
Defined.

(** The page table at 0x300000 maps the first page of the task's memory
    read-only to the page at 0x400000, which two tasks share. *)
Definition shared_page : kstate :=
  zero_kstate <| mem_map := fun i => if i =? 256 then 1 else if i =? 512 then 2 else 0 |>
    <| phys := put32 (put32 zero_arr (4 * 16) 0x300007) 0x300000 0x400005 |>.

Lemma shared_page_table k t : 0 <= k < 1024 -> table_of shared_page k = Some t -> k = 16 /\ t = 0x300000.
Proof.
  intros Hk. unfold table_of, shared_page. cbn [phys set_field]. simpl phys.
  rewrite le32_put32_ne by lia. destruct (decide (k = 16)) as [->|].
  - by intros [= <-].
  - rewrite le32_put32_ne by lia. by intros [= <-].
Qed.

Lemma shared_page_tables : tables_ok shared_page.
Proof.
  constructor.
  - intros k t Hk Ht. apply shared_page_table in Ht as [-> ->]; [|done]. split; [lia|].
    intros i Hi Hf. assert (i = 256) as -> by (unfold frame, LOW_MEM, BUFFER_END in Hf; lia). done.
  - intros k l t Hk Hl Hkt Hlt. apply shared_page_table in Hkt, Hlt; lia.
Qed.

Lemma shared_page_user : user_page shared_page 0x400000.
Proof.
  constructor; [done|done| |].
  - intros i Hi Hf. assert (i = 512) as -> by (unfold frame, LOW_MEM, BUFFER_END in Hf; lia). done.
  - intros k Hk Ht. apply shared_page_table in Ht; lia.
Qed.

Lemma do_wp_page_spec_witness :
  (exists s' y, do_wp_page (fun _ => panic "exit") 3 0x4000010 shared_page = Ret tt s' /\
     translate s' 0x4000010 = Some (y, true) /\ phys s' y = phys shared_page 0x400010) \/
  (exists s', do_wp_page (fun _ => panic "exit") 3 0x4000010 shared_page = Panic "exit" s').
Proof.
  destruct (do_wp_page_spec (fun _ => panic "exit") 3 0x4000010 0x400010 shared_page) as [_ H].
  - apply shared_page_tables.
  - apply bytes_put32, bytes_put32. intros a. unfold zero_arr. lia.
  - intros i _. unfold shared_page. simpl. repeat case_match; lia.
  - split; lia.
  - reflexivity.
  - apply shared_page_user.
  - destruct H as [(s' & i & Hrun & Hun & _ & _ & Htr & _)|(k & Hrun & _)].
    + intros [_ H]. discriminate H.
    + left. exists s', (frame i + 0x10). split; [exact Hrun|]. split; [exact Htr|].
      destruct Hun as (_ & Hin & _). destruct (Hin 0x4000010) as (y & Hy & Hz); [split; lia|reflexivity|].
      rewrite Htr in Hy. injection Hy as <-. exact Hz.
    + right. exists shared_page. exact Hrun.
Defined.
