(* ===== verification/Share.v ===== *)
(** Sharing and freeing page tables, mm/memory.c: what [copy_page_tables] of
    [fork] and [free_page_tables] of [exit] and [exec] do to the page tables and
    to the reference counts of the frames, over whole ranges of 4 MB blocks. *)
From S2P Require Export Memory.
#[local] Open Scope bool_scope.

(** ** Entries *)

(** The entry of page [j] in block [k] of the directory, 0 when it has no table. *)
Definition pte (s : kstate) (k j : Z) : Z :=
  match table_of s k with Some t => le32 (phys s) (t + 4 * j) | None => 0 end.

(** The page of an entry, and whether a page is frame [x]. *)
Definition page_of (e : Z) : Z := Z.land 0xfffff000 e.
Definition at_frame (p x : Z) : bool := (LOW_MEM <=? p) && (Z.shiftr (p - LOW_MEM) 12 =? x).
(** The entry [e] is a reference to frame [x]. *)
Definition refers (e x : Z) : bool := hasbit e 1 && at_frame (page_of e) x.

(** What a shared entry becomes: in the copy, and in the original. *)
Definition cow (e : Z) : Z := if hasbit e 1 then Z.land e 0xfffffffd else 0.
Definition kept (e : Z) : Z := if hasbit e 1 && (LOW_MEM <=? page_of e) then cow e else e.

Lemma translate_pte s a : translate s a =
  let e := pte s ((a / 4194304) mod 1024) ((a / 4096) mod 1024) in
  if hasbit e 1 then Some (page_of e + a mod 4096, hasbit e 2) else None.
Proof.
  unfold translate, pte, table_of, dir_entry, entry_addr. destruct (hasbit _ 1) eqn:E; [|done].
  reflexivity.
Qed.

Lemma hasbit_land e m b : Z.land m b = b -> hasbit (Z.land e m) b = hasbit e b.
Proof. intros Hb. unfold hasbit. by rewrite <- Z.land_assoc, Hb. Qed.

Lemma cow_present e : hasbit (cow e) 1 = hasbit e 1.
Proof. unfold cow. destruct (hasbit e 1) eqn:E; [|done]. by rewrite hasbit_land. Qed.
Lemma cow_readonly e : hasbit (cow e) 2 = false.
Proof. unfold cow. destruct (hasbit e 1); [|done]. unfold hasbit. by rewrite <- Z.land_assoc, Z.land_0_r. Qed.
Lemma cow_page e : hasbit e 1 = true -> page_of (cow e) = page_of e.
Proof. unfold cow, page_of. intros ->. by rewrite (Z.land_comm e), Z.land_assoc. Qed.
Lemma cow_range e : 0 <= cow e < 4294967296.
Proof.
  unfold cow. destruct (hasbit e 1); [|lia]. change 0xfffffffd with (Z.land (Z.ones 32) 0xfffffffd).
  rewrite (Z.land_comm (Z.ones 32)), Z.land_assoc, Z.land_ones by lia. apply Z.mod_pos_bound. lia.
Qed.

(** The entry is its page and twelve bits of flags. *)
Lemma cow_split e : hasbit e 1 = true -> exists f, cow e = page_of e + f /\ 0 < f < 4096.
Proof.
  intros E. exists (Z.land e 0xffd). 
  assert (Hc : cow e = Z.land e 0xfffffffd) by (unfold cow; by rewrite E). rewrite Hc. split.
  - unfold page_of. rewrite (Z.land_comm _ e). rewrite <- lor_add.
    + by rewrite <- Z.land_lor_distr_r.
    + rewrite <- Z.land_assoc, (Z.land_assoc _ e), (Z.land_comm _ e), <- Z.land_assoc, Z.land_assoc, Z.land_diag.
      by rewrite Z.land_0_r.
  - assert (0 <= Z.land e 0xffd < 4096).
    { change 0xffd with (Z.land 0xffd (Z.ones 12)). rewrite Z.land_assoc, Z.land_ones by lia.
      apply Z.mod_pos_bound. lia. }
    enough (Z.land e 0xffd <> 0) by lia. intros Hz.
    rewrite <- (hasbit_land e 0xffd 1) in E by done. by rewrite Hz in E.
Qed.
Lemma page_aligned e : page_of e mod 4096 = 0.
Proof. unfold page_of. rewrite page_mask. dlia. Qed.
Lemma low_mem_aligned : LOW_MEM mod 4096 = 0.
Proof. done. Qed.

Lemma cow_low e : hasbit e 1 = true -> (cow e >? LOW_MEM) = (LOW_MEM <=? page_of e).
Proof.
  intros E. destruct (cow_split e E) as (f & -> & Hf). pose proof (page_aligned e). pose proof low_mem_aligned.
  apply eq_true_iff_eq. rewrite Z.gtb_lt, Z.leb_le. split; intros; dlia.
Qed.
Lemma cow_frame e : hasbit e 1 = true ->
  Z.shiftr (cow e - LOW_MEM) 12 = Z.shiftr (page_of e - LOW_MEM) 12.
Proof.
  intros E. destruct (cow_split e E) as (f & -> & Hf). pose proof (page_aligned e). pose proof low_mem_aligned.
  rewrite !Z.shiftr_div_pow2 by lia. change (2 ^ 12) with 4096. dlia.
Qed.
Lemma refers_cow e x : refers (cow e) x = refers e x.
Proof. unfold refers. rewrite cow_present. destruct (hasbit e 1) eqn:E; [|done]. by rewrite cow_page. Qed.
Lemma kept_refers e x : refers (kept e) x = refers e x.
Proof. unfold kept. destruct (_ && _); [apply refers_cow|done]. Qed.

(** ** One page table *)

Lemma copy_entry_run a b s : let e := le32 (phys s) a in
  copy_entry a b s = Ret tt
    (if hasbit e 1 then
       let s1 := s <| phys ::= fun m => put32 m b (cow e) |> in
       if LOW_MEM <=? page_of e
       then s1 <| phys ::= fun m => put32 m a (cow e) |>
               <| mem_map ::= fun m => let i := Z.shiftr (page_of e - LOW_MEM) 12 in <[i := u16 (m i + 1)]> m |>
       else s1
     else s).
Proof.
  intros e. unfold copy_entry, phys_get. rewrite bind_gets. fold e. destruct (hasbit e 1) eqn:E; [|done].
  cbn [negb]. change (u32 (Z.lnot 2)) with 0xfffffffd.
  assert (Hc : Z.land e 0xfffffffd = cow e) by (unfold cow; by rewrite E). rewrite Hc, cow_low, cow_frame by done.
  unfold phys_put. rewrite bind_modify, when_run. by destruct (LOW_MEM <=? page_of e).
Qed.

(** The references of [n] entries to frame [x]. *)
Definition refs_to (e : Z -> Z) (x : Z) (n : nat) : Z := zsum (fun l => b2z (refers (e l) x)) 0 n.

Lemma refs_to_snoc e x n : refs_to e x (S n) = refs_to e x n + b2z (refers (e (Z.of_nat n)) x).
Proof. unfold refs_to. rewrite zsum_snoc. by rewrite Z.add_0_l. Qed.
Lemma refs_to_bound e x n : 0 <= refs_to e x n <= Z.of_nat n.
Proof. pose proof (zsum_bound (fun l => b2z (refers (e l) x)) 0 n 1) as H. unfold refs_to.
  enough (0 <= zsum (fun l => b2z (refers (e l) x)) 0 n <= Z.of_nat n * 1) by lia.
  apply H. intros l _. destruct (refers _ _); simpl; lia. Qed.
Lemma refs_to_ext e e' x n : (forall l, 0 <= l < Z.of_nat n -> refers (e l) x = refers (e' l) x) ->
  refs_to e x n = refs_to e' x n.
Proof. intros H. apply zsum_ext. intros l Hl. by rewrite H by lia. Qed.

(** Only memory and the counts change. *)
Definition paging_only (s t : kstate) : Prop := t = s <| phys := phys t |> <| mem_map := mem_map t |>.
Lemma paging_refl s : paging_only s s.
Proof. unfold paging_only. by destruct s. Qed.
Lemma paging_set s m c : paging_only s (s <| phys := m |> <| mem_map := c |>).
Proof. done. Qed.
Lemma paging_trans s t u : paging_only s t -> paging_only t u -> paging_only s u.
Proof. unfold paging_only. intros -> Hu. rewrite Hu. done. Qed.

(** After [j] entries of the table [ft] were copied to the table [tt]. *)
Record copied_entries (s : kstate) (ft tt j : Z) (t : kstate) : Prop := {
  ce_rest : paging_only s t;
  ce_out : forall a, ~ in_page ft a -> ~ in_page tt a -> phys t a = phys s a;
  ce_new : forall l, 0 <= l < 1024 -> le32 (phys t) (tt + 4 * l) =
    if l <? j then cow (le32 (phys s) (ft + 4 * l)) else le32 (phys s) (tt + 4 * l);
  ce_old : forall l, 0 <= l < 1024 -> le32 (phys t) (ft + 4 * l) =
    if l <? j then kept (le32 (phys s) (ft + 4 * l)) else le32 (phys s) (ft + 4 * l);
  ce_map : forall x, mem_map t x = mem_map s x + refs_to (fun l => le32 (phys s) (ft + 4 * l)) x (Z.to_nat j);
}.

Lemma copy_entries_run s ft tt n : (n <= 1024)%nat ->
  ft mod 4096 = 0 -> tt mod 4096 = 0 -> ft <> tt ->
  (forall l, 0 <= l < 1024 -> le32 (phys s) (tt + 4 * l) = 0) ->
  (forall x, 0 <= mem_map s x < 65536 - 1024) ->
  exists t, for_ 0 n (fun k => copy_entry (ft + 4 * k) (tt + 4 * k)) s = Ret Datatypes.tt t /\
    copied_entries s ft tt (Z.of_nat n) t.
Proof.
  intros Hn1 Hft Htt Hne Hz Hc. apply (for_inv (copied_entries s ft tt)).
  { split; [apply paging_refl|done| | |].
    - intros l Hl. destruct (Z.ltb_spec l 0); [lia|done].
    - intros l Hl. destruct (Z.ltb_spec l 0); [lia|done].
    - intros x. change (refs_to _ x (Z.to_nat 0)) with 0. lia. }
  intros j t Hj [C1 C2 C3 C4 C5]. eexists. split; [apply copy_entry_run|].
  pose proof (pages_apart ft tt Hft Htt Hne) as Hap.
  set (e := fun l => le32 (phys s) (ft + 4 * l)) in *.
  assert (He : le32 (phys t) (ft + 4 * j) = e j) by (rewrite C4 by lia; by rewrite Z.ltb_irrefl).
  rewrite He. assert (Hs : Z.to_nat (j + 1) = S (Z.to_nat j)) by lia.
  assert (Hnew : forall x, refs_to e x (S (Z.to_nat j)) = refs_to e x (Z.to_nat j) + b2z (refers (e j) x)).
  { intros x. rewrite refs_to_snoc. by rewrite Z2Nat.id by lia. }
  assert (Hlt : forall l, l <> j -> (l <? j + 1) = (l <? j)).
  { intros l Hl. apply eq_true_iff_eq. rewrite !Z.ltb_lt. lia. }
  assert (Hjj : (j <? j + 1) = true) by (apply Z.ltb_lt; lia).
  unfold refers in Hnew.
  destruct (hasbit (e j) 1) eqn:Ep; cycle 1.
  { split; [done|done| | |]; intros.
    - destruct (decide (l = j)) as [->|Hl]; [|rewrite Hlt by done; by apply C3].
      rewrite C3, Hjj, Z.ltb_irrefl, Hz by lia. unfold cow. fold (e j). by rewrite Ep.
    - destruct (decide (l = j)) as [->|Hl]; [|rewrite Hlt by done; by apply C4].
      rewrite C4, Hjj, Z.ltb_irrefl by lia. unfold kept. fold (e j). by rewrite Ep.
    - fold e; rewrite Hs, Hnew, C5. simpl. lia. }
  set (m1 := put32 (phys t) (tt + 4 * j) (cow (e j))).
  set (m2 := if LOW_MEM <=? page_of (e j) then put32 m1 (ft + 4 * j) (cow (e j)) else m1).
  assert (M1 : forall a, ~ in_page ft a -> ~ in_page tt a -> m2 a = phys t a).
  { unfold in_page. intros a H1 H2. unfold m2, m1. case_match; rewrite ?put32_ne by lia; done. }
  assert (M2 : forall l, 0 <= l < 1024 ->
    le32 m2 (tt + 4 * l) = if l =? j then cow (e j) else le32 (phys t) (tt + 4 * l)).
  { intros l Hl. transitivity (le32 m1 (tt + 4 * l)).
    { unfold m2. case_match; [|done]. by rewrite le32_put32_ne by lia. }
    unfold m1. destruct (Z.eqb_spec l j) as [->|]; [|by rewrite le32_put32_ne by lia].
    rewrite le32_put32. apply u32_small, cow_range. }
  assert (M3 : forall l, 0 <= l < 1024 ->
    le32 m2 (ft + 4 * l) = if l =? j then kept (e j) else le32 (phys t) (ft + 4 * l)).
  { intros l Hl. assert (H1 : le32 m1 (ft + 4 * l) = le32 (phys t) (ft + 4 * l)).
    { unfold m1. by rewrite le32_put32_ne by lia. }
    unfold m2, kept. rewrite Ep. cbn [andb]. destruct (LOW_MEM <=? _); destruct (Z.eqb_spec l j) as [->|].
    - rewrite le32_put32. apply u32_small, cow_range.
    - by rewrite le32_put32_ne by lia.
    - by rewrite H1, He.
    - done. }
  set (i := Z.shiftr (page_of (e j) - LOW_MEM) 12) in *.
  set (c := if LOW_MEM <=? page_of (e j) then <[i := u16 (mem_map t i + 1)]> (mem_map t) else mem_map t).
  assert (Mc : forall x, c x = mem_map t x + b2z (at_frame (page_of (e j)) x)).
  { intros x. unfold c, at_frame. fold i. destruct (LOW_MEM <=? page_of (e j)); [|simpl; lia].
    rewrite arr_dec. cbn [andb]. destruct (Z.eqb_spec i x) as [->|Hx]; [|rewrite decide_False by done; simpl; lia].
    rewrite decide_True by done. rewrite C5. fold e. pose proof (refs_to_bound e x (Z.to_nat j)). pose proof (Hc x).
    unfold u16. simpl. rewrite Z.mod_small by lia. lia. }
  match goal with |- copied_entries _ _ _ _ ?u => assert (Eu : u = t <| phys := m2 |> <| mem_map := c |>) end.
  { unfold m2, c, m1. cbv zeta. fold i. destruct (LOW_MEM <=? page_of (e j)); [done|]. by destruct t. }
  rewrite Eu. split.
  - eapply paging_trans; [exact C1|apply paging_set].
  - intros a Ha1 Ha2. simpl. by rewrite M1, C2.
  - intros l Hl. simpl. rewrite M2 by done. destruct (Z.eqb_spec l j) as [->|Hlj]; [by rewrite Hjj|].
    rewrite Hlt by done. by apply C3.
  - intros l Hl. simpl. rewrite M3 by done. destruct (Z.eqb_spec l j) as [->|Hlj]; [by rewrite Hjj|].
    rewrite Hlt by done. by apply C4.
  - intros x. simpl. fold e. rewrite Mc, Hs, Hnew, C5. simpl. lia.
Qed.

(** ** One block *)

(** The references from block [k] of the directory to frame [x]: those of its pages, and
    that of its table. *)
Definition block_refs (s : kstate) (k x : Z) : Z := refs_to (pte s k) x 1024.
Definition tab_ref (s : kstate) (k x : Z) : Z :=
  match table_of s k with Some t => b2z (at_frame t x) | None => 0 end.

Lemma at_frame_frame i x : 0 <= i -> at_frame (frame i) x = (i =? x).
Proof.
  intros Hi. unfold at_frame, frame. rewrite (proj2 (Z.leb_le _ _)) by lia. cbn [andb].
  f_equal. rewrite Z.shiftr_div_pow2 by lia. change (2 ^ 12) with 4096. dlia.
Qed.

(** All references to frame [x]. *)
Definition dir_refs (s : kstate) (x k : Z) : Z := block_refs s k x + tab_ref s k x.
(** All references to frame [x] but the kernel's: its two blocks map all of memory
    without a count (boot/head.s). *)
Definition total_refs (s : kstate) (x : Z) : Z := zsum (dir_refs s x) 2 1022.

(** The counts cover every reference of a process, and everything that a process has
    mapped lies in memory. *)
Record mem_ok (s : kstate) : Prop := {
  mo_tables : tables_ok s;
  mo_count : forall x, total_refs s x <= mem_map s x < 65536;
  mo_page : forall k j, 2 <= k < 1024 -> 0 <= j < 1024 -> hasbit (pte s k j) 1 = true ->
    page_of (pte s k j) < HIGH_MEMORY;
  mo_table : forall k u, 2 <= k < 1024 -> table_of s k = Some u -> u < HIGH_MEMORY;
  mo_kernel : forall k u, 0 <= k < 2 -> table_of s k = Some u -> u < LOW_MEM;
}.

(** Stores went to the directory and to page tables only. *)
Definition in_tables (s : kstate) (a : Z) : Prop :=
  exists k u, 0 <= k < 1024 /\ table_of s k = Some u /\ in_page u a.
Definition stores_tables (s t : kstate) : Prop := forall a, 4096 <= a -> ~ in_tables t a -> phys t a = phys s a.

Lemma block_refs_range s k x : 0 <= block_refs s k x <= 1024.
Proof. apply (refs_to_bound (pte s k) x 1024). Qed.
Lemma tab_ref_range s k x : 0 <= tab_ref s k x <= 1.
Proof. unfold tab_ref. case_match; [|lia]. destruct (at_frame _ _); simpl; lia. Qed.
Lemma dir_refs_range s x k : 0 <= dir_refs s x k <= 1025.
Proof. pose proof (block_refs_range s k x). pose proof (tab_ref_range s k x). unfold dir_refs. lia. Qed.
Lemma total_refs_ge s x k : 2 <= k < 1024 -> dir_refs s x k <= total_refs s x.
Proof. intros Hk. apply zsum_ge; [lia|]. intros l _. apply dir_refs_range. Qed.
Lemma mem_count s x : mem_ok s -> 0 <= mem_map s x.
Proof.
  intros Hok. pose proof (mo_count s Hok x). pose proof (total_refs_ge s x 2 ltac:(lia)).
  pose proof (dir_refs_range s x 2). lia.
Qed.

Definition roomy (s : kstate) : Prop := forall x, 0 <= mem_map s x < 65536 - 1024.

(** The first [nr] entries of block [fk] copied to a new table for block [tk]. *)
Record copied_part (s : kstate) (fk tk nr : Z) (t : kstate) : Prop := {
  pb_rest : paging_only s t;
  pb_tables : tables_ok t;
  pb_table : forall k, 0 <= k < 1024 -> k <> tk -> table_of t k = table_of s k;
  pb_new : forall j, 0 <= j < 1024 -> pte t tk j = if j <? nr then cow (pte s fk j) else 0;
  pb_old : forall j, 0 <= j < 1024 -> pte t fk j = if j <? nr then kept (pte s fk j) else pte s fk j;
  pb_other : forall k j, 0 <= k < 1024 -> 0 <= j < 1024 -> k <> fk -> k <> tk -> pte t k j = pte s k j;
  pb_map : forall x, mem_map t x = mem_map s x + refs_to (pte s fk) x (Z.to_nat nr) + tab_ref t tk x;
  pb_high : forall u, table_of t tk = Some u -> u < HIGH_MEMORY;
  pb_stores : stores_tables s t;
}.

(** The whole block copied. *)
Record copied_block (s : kstate) (fk tk : Z) (t : kstate) : Prop := {
  cb_rest : paging_only s t;
  cb_tables : tables_ok t;
  cb_table : forall k, 0 <= k < 1024 -> k <> tk -> table_of t k = table_of s k;
  cb_new : forall j, 0 <= j < 1024 -> pte t tk j = cow (pte s fk j);
  cb_old : forall j, 0 <= j < 1024 -> pte t fk j = kept (pte s fk j);
  cb_other : forall k j, 0 <= k < 1024 -> 0 <= j < 1024 -> k <> fk -> k <> tk -> pte t k j = pte s k j;
  cb_map : forall x, mem_map t x = mem_map s x + block_refs s fk x + tab_ref t tk x;
  cb_high : forall u, table_of t tk = Some u -> u < HIGH_MEMORY;
  cb_stores : stores_tables s t;
}.

Lemma copied_part_block s fk tk t : copied_part s fk tk 1024 t -> copied_block s fk tk t.
Proof.
  intros [P1 P2 P3 P4 P5 P6 P7 P8 P9]. split; try done.
  - intros j Hj. rewrite P4 by done. by rewrite (proj2 (Z.ltb_lt j 1024)) by lia.
  - intros j Hj. rewrite P5 by done. by rewrite (proj2 (Z.ltb_lt j 1024)) by lia.
Qed.

Lemma tables_grow s t : tables_ok s -> (forall k, 0 <= k < 1024 -> table_of t k = table_of s k) ->
  (forall x, mem_map s x <> 0 -> mem_map t x <> 0) -> tables_ok t.
Proof.
  intros [P1 P2] Ht Hm. split.
  - intros k u Hk Hu. rewrite Ht in Hu by done. destruct (P1 k u Hk Hu) as [? Hi]. split; [done|].
    intros i Hi1 Hi2. by apply Hm, Hi.
  - intros k l u Hk Hl Hku Hlu. rewrite Ht in Hku, Hlu by done. by apply (P2 k l u).
Qed.

Lemma copy_dir_none from fk tk s : 0 <= fk < 1024 -> 0 <= tk < 1024 -> table_of s tk = None -> table_of s fk = None ->
  copy_dir from (4 * fk) (4 * tk) s = Ret None s.
Proof.
  unfold table_of. intros Hf Ht H1 H2. unfold copy_dir, phys_get. rewrite bind_gets.
  destruct (hasbit (le32 (phys s) (4 * tk)) 1); [done|]. rewrite bind_gets.
  by destruct (hasbit (le32 (phys s) (4 * fk)) 1).
Qed.

Lemma copied_nothing s fk tk : tables_ok s -> table_of s tk = None -> table_of s fk = None ->
  copied_block s fk tk s.
Proof.
  intros Hok H1 H2. assert (Hp : forall j, pte s fk j = 0) by (intros j; unfold pte; by rewrite H2).
  split; try done.
  - apply paging_refl.
  - intros j _. rewrite Hp. unfold pte. by rewrite H1.
  - intros j _. by rewrite Hp.
  - intros x. unfold tab_ref, block_refs, refs_to. rewrite H1, zsum_0; [lia|]. intros l _. by rewrite Hp.
  - by rewrite H1.
Qed.

(** The state after the entries were copied to the new table, frame [i]. *)
Lemma copied_part_new s fk tk ft i nr t : 0 <= nr <= 1024 ->
  tables_ok s -> roomy s -> 0 <= fk < 1024 -> 0 <= tk < 1024 -> table_of s tk = None -> table_of s fk = Some ft ->
  frame_ok i -> mem_map s i = 0 ->
  copied_entries (new_table tk i s) ft (frame i) nr t -> copied_part s fk tk nr t.
Proof.
  intros Hnr Hok Hr Hfk Htk Hn Hft Hi Hz [C1 C2 C3 C4 C5]. set (s0 := new_table tk i s) in *.
  pose proof (frame_range i Hi) as Hfr. destruct (to_page _ Hok fk ft Hfk Hft) as [Hlow Huse].
  assert (Hne : fk <> tk) by congruence.
  pose proof (tables_new s tk i Hok Htk Hi Hz Hn) as Hok0. fold s0 in Hok0.
  assert (Hdir : forall k, 0 <= k < 1024 -> table_of t k = table_of s0 k).
  { intros k Hk. unfold table_of. rewrite (le32_outside (phys t) (phys s0) (4 * k)); [done|].
    intros a Ha. apply C2; unfold in_page; lia. }
  assert (Htab : forall k, 0 <= k < 1024 -> k <> tk -> table_of t k = table_of s k).
  { intros k Hk Hkt. rewrite Hdir by done. unfold s0. rewrite table_of_new by done. by rewrite decide_False. }
  assert (Hnew : table_of t tk = Some (frame i)).
  { rewrite Hdir by done. unfold s0. rewrite table_of_new by done. by rewrite decide_True. }
  (* the words of a table of [s] that are not in [ft] *)
  assert (Hword : forall k u j, 0 <= k < 1024 -> 0 <= j < 1024 -> table_of s k = Some u ->
    le32 (phys s0) (u + 4 * j) = le32 (phys s) (u + 4 * j)).
  { intros k u j Hk Hj Hu. destruct (to_page _ Hok k u Hk Hu).
    pose proof (table_not_frame s k u i Hok Hk Hu Hi Hz).
    unfold s0. rewrite new_table_phys, le32_put32_ne by lia. apply le32_taken. lia. }
  assert (Hpf : forall j, 0 <= j < 1024 -> le32 (phys s0) (ft + 4 * j) = pte s fk j).
  { intros j Hj. unfold pte. rewrite Hft. by apply (Hword fk). }
  split.
  - eapply paging_trans; [|exact C1]. done.
  - apply (tables_grow s0); [done|done|]. intros x Hx. rewrite C5.
    pose proof (refs_to_bound (fun l => le32 (phys s0) (ft + 4 * l)) x (Z.to_nat nr)).
    assert (0 <= mem_map s0 x) by (unfold s0; simpl; rewrite arr_dec; case_decide; [lia|apply Hr]). lia.
  - done.
  - intros j Hj. unfold pte at 1. rewrite Hnew, C3, Hpf by done. case_match; [done|].
    unfold s0. rewrite new_table_phys, le32_put32_ne by lia. unfold le32. by rewrite !taken_zero by (unfold in_page; lia).
  - intros j Hj. unfold pte at 1. rewrite Htab, Hft, C4, Hpf by done. done.
  - intros k j Hk Hj Hkf Hkt. unfold pte. rewrite Htab by done. destruct (table_of s k) as [u|] eqn:Hu; [|done].
    rewrite <- (Hword k u j Hk Hj Hu). apply le32_outside. intros a Ha.
    assert (Hap : u + 4096 <= ft \/ ft + 4096 <= u).
    { apply pages_apart; [by eapply table_aligned|by eapply table_aligned|]. intros ->. by apply Hkf, (to_inj _ Hok k fk ft). }
    pose proof (table_not_frame s k u i Hok Hk Hu Hi Hz). apply C2; unfold in_page; lia.
  - intros x. rewrite C5. unfold tab_ref. rewrite Hnew, at_frame_frame by (destruct Hi; lia).
    rewrite (refs_to_ext _ (pte s fk) x (Z.to_nat nr)) by (intros l Hl; by rewrite Hpf by lia).
    unfold s0. simpl mem_map. rewrite arr_dec. destruct (Z.eqb_spec i x) as [<-|]; [rewrite decide_True by done|rewrite decide_False by done]; simpl; lia.
  - intros u Hu. rewrite Hnew in Hu. injection Hu as <-. unfold HIGH_MEMORY. lia.
  - intros a Ha Hin. rewrite C2.
    + unfold s0. rewrite new_table_phys, put32_ne by lia. apply taken_phys. intros Hp. apply Hin. by exists tk, (frame i).
    + intros Hp. apply Hin. exists fk, ft. by rewrite Htab.
    + intros Hp. apply Hin. by exists tk, (frame i).
Qed.

(** How many entries of a block are copied: 640 KB of the kernel's. *)
Definition copy_nr (from : Z) : Z := if from =? 0 then 0xA0 else 1024.

Lemma copy_part_run from fk tk s ft :
  tables_ok s -> roomy s -> 0 <= fk < 1024 -> 0 <= tk < 1024 -> fk <> tk -> table_of s tk = None -> table_of s fk = Some ft ->
  (copy_dir from (4 * fk) (4 * tk) s = Ret (Some (-1)) s /\ forall j, frame_ok j -> mem_map s j <> 0) \/
  exists t, copy_dir from (4 * fk) (4 * tk) s = Ret None t /\ copied_part s fk tk (copy_nr from) t.
Proof.
  intros Hok Hr Hfk Htk Hne Hn Hft.
  assert (Hd : hasbit (le32 (phys s) (4 * fk)) 1 = true /\ Z.land 0xfffff000 (le32 (phys s) (4 * fk)) = ft).
  { unfold table_of in Hft. destruct (hasbit _ 1); [|done]. by injection Hft. }
  destruct Hd as [Hd Hland].
  assert (Hdt : hasbit (le32 (phys s) (4 * tk)) 1 = false) by (unfold table_of in Hn; by destruct (hasbit _ 1)).
  unfold copy_dir, phys_get. rewrite bind_gets, Hdt, bind_gets, Hd. cbn [negb]. rewrite Hland.
  destruct (get_free_page_cases s) as [[Hg Hall]|(i & Hi & Hz & _ & Hg)]; rewrite (bind_Ret _ _ _ _ _ Hg).
  { left. done. }
  right. rewrite frame_nz, (Z.lor_comm _ 7), (Z.lor_comm 7), entry_lor by (done || apply frame_aligned). cbn [negb].
  unfold phys_put. rewrite bind_modify. fold (new_table tk i s).
  pose proof (table_aligned s fk ft Hft) as Hal. pose proof (frame_aligned i) as Hali. pose proof (frame_range i Hi) as Hfr.
  pose proof (table_not_frame s fk ft i Hok Hfk Hft Hi Hz) as Hap.
  destruct (to_page _ Hok fk ft Hfk Hft) as [Hlow _].
  assert (Hnr : (Z.to_nat (copy_nr from) <= 1024)%nat) by (unfold copy_nr; case_match; lia).
  destruct (copy_entries_run (new_table tk i s) ft (frame i) (Z.to_nat (copy_nr from)) Hnr Hal Hali) as (t & Ht & Hc).
  { lia. }
  { intros l Hl. rewrite new_table_phys, le32_put32_ne by lia. unfold le32. rewrite !taken_zero by (unfold in_page; lia). done. }
  { intros x. simpl. rewrite arr_dec. case_decide; [lia|apply Hr]. }
  fold (copy_nr from). rewrite (bind_Ret _ _ _ _ _ Ht). exists t. split; [done|].
  rewrite Z2Nat.id in Hc by (unfold copy_nr; case_match; lia).
  apply (copied_part_new s fk tk ft i); try done. unfold copy_nr. case_match; lia.
Qed.

Lemma copy_dir_run from fk tk s :
  from <> 0 -> tables_ok s -> roomy s -> 0 <= fk < 1024 -> 0 <= tk < 1024 -> fk <> tk -> table_of s tk = None ->
  (copy_dir from (4 * fk) (4 * tk) s = Ret (Some (-1)) s /\ forall j, frame_ok j -> mem_map s j <> 0) \/
  exists t, copy_dir from (4 * fk) (4 * tk) s = Ret None t /\ copied_block s fk tk t.
Proof.
  intros Hfrom Hok Hr Hfk Htk Hne Hn. destruct (table_of s fk) as [ft|] eqn:Hft; cycle 1.
  { right. exists s. split; [by apply copy_dir_none|by apply copied_nothing]. }
  destruct (copy_part_run from fk tk s ft) as [?|(t & Ht & HP)]; try done; [by left|right].
  exists t. split; [done|]. apply copied_part_block. unfold copy_nr in HP.
  by rewrite (proj2 (Z.eqb_neq from 0) Hfrom) in HP.
Qed.

(** ** A range of blocks *)

Record copied_blocks (s : kstate) (fk tk i : Z) (t : kstate) : Prop := {
  bs_rest : paging_only s t;
  bs_ok : mem_ok t;
  bs_stores : stores_tables s t;
  bs_table : forall k, 0 <= k < 1024 -> ~ tk <= k < tk + i -> table_of t k = table_of s k;
  bs_new : forall m j, 0 <= m < i -> 0 <= j < 1024 -> pte t (tk + m) j = cow (pte s (fk + m) j);
  bs_old : forall m j, 0 <= m < i -> 0 <= j < 1024 -> pte t (fk + m) j = kept (pte s (fk + m) j);
  bs_other : forall k j, 0 <= k < 1024 -> 0 <= j < 1024 -> ~ fk <= k < fk + i -> ~ tk <= k < tk + i ->
    pte t k j = pte s k j;
  bs_map : forall x, mem_map t x = mem_map s x +
    zsum (fun m => block_refs s (fk + m) x + tab_ref t (tk + m) x) 0 (Z.to_nat i);
  bs_total : forall x, mem_map t x - mem_map s x = total_refs t x - total_refs s x;
}.

Lemma copied_block_total s fk tk t x : 2 <= fk < 1024 -> 2 <= tk < 1024 -> fk <> tk -> table_of s tk = None ->
  copied_block s fk tk t -> mem_map t x - mem_map s x = total_refs t x - total_refs s x.
Proof.
  intros Hf Ht Hne Hn [C1 C2 C3 C4 C5 C6 C7 C8 C9]. rewrite C7. unfold total_refs.
  rewrite (zsum_change (dir_refs t x) (dir_refs s x) 2 1022 tk).
  - assert (H0 : dir_refs s x tk = 0).
    { unfold dir_refs, tab_ref, block_refs, refs_to. rewrite Hn, zsum_0; [done|].
      intros l _. unfold pte. by rewrite Hn. }
    assert (H1 : block_refs t tk x = block_refs s fk x).
    { apply refs_to_ext. intros l Hl. by rewrite C4, refers_cow by lia. }
    rewrite H0. unfold dir_refs. rewrite H1. lia.
  - lia.
  - intros k Hk Hkt. unfold dir_refs, tab_ref. rewrite C3 by lia. f_equal.
    apply refs_to_ext. intros l Hl. destruct (decide (k = fk)) as [->|]; [by rewrite C5, kept_refers by lia|].
    by rewrite C6 by lia.
Qed.

Lemma copied_block_ok s fk tk t : 2 <= fk < 1024 -> 2 <= tk < 1024 -> fk <> tk -> table_of s tk = None ->
  (forall x, mem_map s x < 65536 - 1025) -> mem_ok s -> copied_block s fk tk t -> mem_ok t.
Proof.
  intros Hf Ht Hne Hn Hr [M1 M2 M3 M4 M5] HC.
  pose proof (fun x => copied_block_total s fk tk t x Hf Ht Hne Hn HC) as Htot.
  destruct HC as [C1 C2 C3 C4 C5 C6 C7 C8 C9]. split.
  - done.
  - intros x. specialize (Htot x). specialize (C7 x). specialize (M2 x). pose proof (block_refs_range s fk x). pose proof (tab_ref_range t tk x).
    specialize (Hr x). lia.
  - intros k j Hk Hj Hp. destruct (decide (k = tk)) as [->|].
    { rewrite C4 in Hp |- * by (done || lia). rewrite cow_present in Hp. rewrite cow_page by (done || lia). apply M3; [lia|lia|done]. }
    destruct (decide (k = fk)) as [->|]; [|rewrite C6 in Hp |- * by (done || lia); apply M3; [lia|lia|done]].
    rewrite C5 in Hp |- * by (done || lia). unfold kept in *. destruct (_ && _); [|apply M3; [lia|lia|done]].
    rewrite cow_present in Hp. rewrite cow_page by (done || lia). apply M3; [lia|lia|done].
  - intros k u Hk Hu. destruct (decide (k = tk)) as [->|]; [by apply C8|]. rewrite C3 in Hu by (done || lia). by apply (M4 k).
  - intros k u Hk Hu. rewrite C3 in Hu by lia. by apply (M5 k).
Qed.

Lemma in_tables_more s t a : (forall k u, 0 <= k < 1024 -> table_of s k = Some u -> table_of t k = Some u) ->
  in_tables s a -> in_tables t a.
Proof. intros H (k & u & Hk & Hu & Hp). exists k, u. auto. Qed.
Lemma stores_trans s t u : (forall a, in_tables t a -> in_tables u a) ->
  stores_tables s t -> stores_tables t u -> stores_tables s u.
Proof. intros Hin H1 H2 a Ha Hn. rewrite H2, H1; auto. Qed.

Lemma copied_blocks_step s fk tk i n t u :
  2 <= fk -> fk + n <= 1024 -> 2 <= tk -> tk + n <= 1024 -> fk + n <= tk \/ tk + n <= fk -> 0 <= i < n ->
  copied_blocks s fk tk i t -> table_of t (tk + i) = None -> (forall x, mem_map t x < 65536 - 1025) ->
  copied_block t (fk + i) (tk + i) u -> copied_blocks s fk tk (i + 1) u.
Proof.
  intros Hf Hf' Ht Ht' Hdis Hi [B1 B2 B0 B3 B4 B5 B6 B7 B8] Hnone Hr C.
  assert (Hok : mem_ok u) by (apply (copied_block_ok t (fk + i) (tk + i)); try done; lia).
  pose proof (fun x => copied_block_total t (fk + i) (tk + i) u x ltac:(lia) ltac:(lia) ltac:(lia) Hnone C) as Htot.
  destruct C as [C1 C2 C3 C4 C5 C6 C7 C8 C9].
  assert (Hsame : forall j, 0 <= j < 1024 -> pte t (fk + i) j = pte s (fk + i) j).
  { intros j Hj. apply B6; lia. }
  split.
  - by eapply paging_trans.
  - done.
  - apply (stores_trans s t); [|done|done]. intros a. apply in_tables_more. intros k v Hk Hv.
    rewrite C3; [done|done|]. intros ->. by rewrite Hnone in Hv.
  - intros k Hk Hkr. rewrite C3, B3 by lia. done.
  - intros m j Hm Hj. destruct (decide (m = i)) as [->|]; [by rewrite C4, Hsame|].
    rewrite C6 by lia. apply B4; lia.
  - intros m j Hm Hj. destruct (decide (m = i)) as [->|]; [by rewrite C5, Hsame|].
    rewrite C6 by lia. apply B5; lia.
  - intros k j Hk Hj H1 H2. rewrite C6 by lia. apply B6; lia.
  - intros x. replace (Z.to_nat (i + 1)) with (S (Z.to_nat i)) by lia.
    rewrite zsum_snoc, Z.add_0_l, Z2Nat.id by lia. rewrite C7, B7.
    rewrite (zsum_ext (fun m => block_refs s (fk + m) x + tab_ref u (tk + m) x)
      (fun m => block_refs s (fk + m) x + tab_ref t (tk + m) x)).
    + unfold block_refs at 2. rewrite (refs_to_ext (pte t (fk + i)) (pte s (fk + i))) by (intros l Hl; by rewrite Hsame by lia).
      fold (block_refs s (fk + i) x). lia.
    + intros m Hm. unfold tab_ref. by rewrite C3 by lia.
  - intros x. specialize (B8 x). specialize (Htot x). lia.
Qed.

Lemma copy_blocks_run from fk tk n s :
  from <> 0 -> mem_ok s -> 2 <= fk -> fk + Z.of_nat n <= 1024 -> 2 <= tk -> tk + Z.of_nat n <= 1024 ->
  fk + Z.of_nat n <= tk \/ tk + Z.of_nat n <= fk ->
  (forall k, tk <= k < tk + Z.of_nat n -> table_of s k = None) ->
  (forall x, mem_map s x < 65536 - 1025 - 1025 * Z.of_nat n) ->
  exists r t, for_ret 0 n (fun i => copy_dir from (4 * fk + 4 * i) (4 * tk + 4 * i)) s = Ret r t /\
    ((exists i, r = Some (-1) /\ (forall j, frame_ok j -> mem_map t j <> 0) /\ 0 <= i < Z.of_nat n /\
        copied_blocks s fk tk i t) \/
     r = None /\ copied_blocks s fk tk (Z.of_nat n) t).
Proof.
  intros Hfrom Hok Hf Hf' Ht Ht' Hdis Hn Hroom.
  apply (for_ret_inv (copied_blocks s fk tk)
    (fun r t => exists i, r = Some (-1) /\ (forall j, frame_ok j -> mem_map t j <> 0) /\ 0 <= i < Z.of_nat n /\
       copied_blocks s fk tk i t)).
  - split; try done; try (intros; lia). + apply paging_refl. + intros x. simpl. lia.
  - intros i t Hi HB. pose proof HB as [B1 B2 B0 B3 B4 B5 B6 B7 B8].
    assert (Hr1 : forall x, mem_map t x < 65536 - 1025).
    { intros x. rewrite B7. pose proof (Hroom x).
      pose proof (zsum_bound (fun m => block_refs s (fk + m) x + tab_ref t (tk + m) x) 0 (Z.to_nat i) 1025) as Hb.
      assert (forall m, 0 <= m < 0 + Z.of_nat (Z.to_nat i) -> 0 <= block_refs s (fk + m) x + tab_ref t (tk + m) x <= 1025).
      { intros m _. pose proof (block_refs_range s (fk + m) x). pose proof (tab_ref_range t (tk + m) x). lia. }
      specialize (Hb ltac:(done)). lia. }
    assert (Hr : roomy t) by (intros x; pose proof (mem_count t x B2); specialize (Hr1 x); lia).
    assert (Hnone : table_of t (tk + i) = None) by (rewrite B3, Hn by lia; done).
    rewrite <- !Z.mul_add_distr_l.
    destruct (copy_dir_run from (fk + i) (tk + i) t Hfrom (mo_tables t B2) Hr) as [[Hc Hall]|(u & Hc & Hu)]; try done; try lia.
    + right. exists (-1), t. split; [done|]. by exists i.
    + left. exists u. split; [done|]. by apply (copied_blocks_step s fk tk i (Z.of_nat n) t).
Qed.

(** ** Freeing *)

Lemma free_page_run p s : (forall x, at_frame p x = true -> 0 < mem_map s x < 65536) -> p < HIGH_MEMORY ->
  exists c, free_page p s = Ret tt (s <| mem_map := c |>) /\
    forall x, c x = mem_map s x - b2z (at_frame p x).
Proof.
  intros Hc Hp. unfold free_page, at_frame in *. destruct (Z.ltb_spec p LOW_MEM) as [Hl|Hl].
  { exists (mem_map s). rewrite (proj2 (Z.leb_gt _ _)) by done. split; [by destruct s|]. intros x. simpl. lia. }
  rewrite (proj2 (Z.leb_le _ _)) in * by done. cbn [andb] in *.
  rewrite Z.gtb_ltb, (proj2 (Z.ltb_ge _ _)) by lia. set (i := Z.shiftr (p - LOW_MEM) 12) in *.
  specialize (Hc i (Z.eqb_refl i)). rewrite bind_gets, bind_modify.
  assert (Hn : nz (mem_map s i) = true) by (apply nz_true; lia). rewrite Hn.
  eexists. split; [reflexivity|]. intros x. rewrite arr_dec. unfold u16. rewrite Z.mod_small by lia.
  destruct (Z.eqb_spec i x) as [->|]; [rewrite decide_True by done|rewrite decide_False by done]; simpl; lia.
Qed.

(** After [j] entries of the table [ft] were freed. *)
Record freed_entries (s : kstate) (ft j : Z) (t : kstate) : Prop := {
  fe_rest : paging_only s t;
  fe_out : forall a, ~ in_page ft a -> phys t a = phys s a;
  fe_entry : forall l, 0 <= l < 1024 -> le32 (phys t) (ft + 4 * l) = if l <? j then 0 else le32 (phys s) (ft + 4 * l);
  fe_map : forall x, mem_map t x = mem_map s x - refs_to (fun l => le32 (phys s) (ft + 4 * l)) x (Z.to_nat j);
}.

Lemma refs_to_mono e x n m : (n <= m)%nat -> refs_to e x n <= refs_to e x m.
Proof. induction 1 as [|m _ IH]; [lia|]. rewrite refs_to_snoc. destruct (refers _ _); simpl; lia. Qed.

Lemma free_entries_run s ft : ft mod 4096 = 0 ->
  (forall l, 0 <= l < 1024 -> hasbit (le32 (phys s) (ft + 4 * l)) 1 = true -> page_of (le32 (phys s) (ft + 4 * l)) < HIGH_MEMORY) ->
  (forall x, refs_to (fun l => le32 (phys s) (ft + 4 * l)) x 1024 <= mem_map s x < 65536) ->
  exists t, for_ 0 1024 (fun l => free_entry (ft + 4 * l)) s = Ret tt t /\ freed_entries s ft 1024 t.
Proof.
  intros Hft Hhigh Hc. apply (for_inv (freed_entries s ft)).
  { split; [apply paging_refl|done| |].
    - intros l Hl. destruct (Z.ltb_spec l 0); [lia|done].
    - intros x. change (refs_to _ x (Z.to_nat 0)) with 0. lia. }
  intros j t Hj [F1 F2 F3 F4]. set (e := fun l => le32 (phys s) (ft + 4 * l)) in *.
  assert (He : le32 (phys t) (ft + 4 * j) = e j) by (rewrite F3 by lia; by rewrite Z.ltb_irrefl).
  assert (Hs : Z.to_nat (j + 1) = S (Z.to_nat j)) by lia.
  assert (Hnew : forall x, refs_to e x (S (Z.to_nat j)) = refs_to e x (Z.to_nat j) + b2z (refers (e j) x)).
  { intros x. rewrite refs_to_snoc. by rewrite Z2Nat.id by lia. }
  assert (Hfree : exists c, when (hasbit (e j) 1) (free_page (page_of (e j))) t = Ret tt (t <| mem_map := c |>) /\
    forall x, c x = mem_map t x - b2z (refers (e j) x)).
  { unfold refers in *. rewrite when_run. destruct (hasbit (e j) 1) eqn:Ep; cbn [andb].
    - apply free_page_run; [|by apply Hhigh]. intros x Hx. rewrite F4.
      pose proof (refs_to_mono e x (S (Z.to_nat j)) 1024 ltac:(lia)) as Hm. rewrite Hnew, Hx in Hm. simpl in Hm.
      specialize (Hc x). pose proof (refs_to_bound e x (Z.to_nat j)). lia.
    - exists (mem_map t). split; [by destruct t|]. intros x. simpl. lia. }
  destruct Hfree as (c & Hf & Hcx).
  exists (t <| phys := put32 (phys t) (ft + 4 * j) 0 |> <| mem_map := c |>). split.
  { unfold free_entry, phys_get. rewrite bind_gets, He. change (Z.land 0xfffff000 (e j)) with (page_of (e j)).
    rewrite (bind_Ret _ _ _ _ _ Hf). done. }
  split.
  - eapply paging_trans; [exact F1|apply paging_set].
  - intros a Ha. simpl. rewrite put32_ne, F2 by (done || (unfold in_page in Ha; lia)). done.
  - intros l Hl. simpl. destruct (decide (l = j)) as [->|Hlj].
    + rewrite le32_put32, (proj2 (Z.ltb_lt j (j + 1))) by lia. done.
    + rewrite le32_put32_ne, F3 by lia. destruct (Z.ltb_spec l j), (Z.ltb_spec l (j + 1)); try lia; done.
  - intros x. fold e. rewrite Hs, Hnew. simpl. rewrite Hcx, F4. lia.
Qed.

(** Block [k] freed. *)
Record freed_block (s : kstate) (k : Z) (t : kstate) : Prop := {
  fb_rest : paging_only s t;
  fb_table : forall l, 0 <= l < 1024 -> table_of t l = if decide (l = k) then None else table_of s l;
  fb_pte : forall l j, 0 <= l < 1024 -> 0 <= j < 1024 -> l <> k -> pte t l j = pte s l j;
  fb_map : forall x, mem_map t x = mem_map s x - dir_refs s x k;
  fb_stores : forall a, 4096 <= a -> ~ in_tables s a -> phys t a = phys s a;
}.

Lemma freed_nothing s k : 0 <= k < 1024 -> table_of s k = None -> freed_block s k s.
Proof.
  intros Hk Hn. split; try done.
  - apply paging_refl.
  - intros l Hl. case_decide; [by subst|done].
  - intros x. unfold dir_refs, tab_ref, block_refs, refs_to. rewrite Hn, zsum_0; [lia|]. intros l _.
    unfold pte. by rewrite Hn.
Qed.

Lemma free_dir_run s k : mem_ok s -> 2 <= k < 1024 ->
  exists t, free_dir (4 * k) s = Ret tt t /\ freed_block s k t.
Proof.
  intros Hok Hk2. assert (Hk : 0 <= k < 1024) by lia. pose proof (mo_tables s Hok) as Htok. destruct (table_of s k) as [u|] eqn:Hu; cycle 1.
  { exists s. split; [|by apply freed_nothing]. unfold free_dir, phys_get. rewrite bind_gets.
    unfold table_of in Hu. by destruct (hasbit (le32 (phys s) (4 * k)) 1). }
  pose proof (table_aligned s k u Hu) as Hal. destruct (to_page _ Htok k u Hk Hu) as [Hlow _].
  assert (Hd : hasbit (le32 (phys s) (4 * k)) 1 = true /\ Z.land 0xfffff000 (le32 (phys s) (4 * k)) = u).
  { unfold table_of in Hu. destruct (hasbit _ 1); [|done]. by injection Hu. }
  destruct Hd as [Hd Hland].
  assert (Hp : forall j, le32 (phys s) (u + 4 * j) = pte s k j) by (intros j; unfold pte; by rewrite Hu).
  assert (Href : forall x, refs_to (fun l => le32 (phys s) (u + 4 * l)) x 1024 = block_refs s k x).
  { intros x. apply refs_to_ext. intros l _. by rewrite Hp. }
  destruct (free_entries_run s u Hal) as (t & Ht & [F1 F2 F3 F4]).
  { intros l Hl. rewrite Hp. by apply (mo_page s Hok). }
  { intros x. rewrite Href. pose proof (mo_count s Hok x). pose proof (total_refs_ge s x k Hk2) as Hge.
    unfold dir_refs in Hge. pose proof (tab_ref_range s k x). lia. }
  change (Z.to_nat 1024) with 1024%nat in F4.
  assert (Hdt : le32 (phys t) (4 * k) = le32 (phys s) (4 * k)).
  { apply le32_outside. intros a Ha. apply F2. unfold in_page. lia. }
  destruct (free_page_run u t) as (c & Hc & Hcx).
  { intros x Hx. rewrite F4, Href. pose proof (mo_count s Hok x). pose proof (total_refs_ge s x k Hk2) as Hge.
    unfold dir_refs, tab_ref in Hge. rewrite Hu, Hx in Hge. simpl in Hge. pose proof (block_refs_range s k x). lia. }
  { by apply (mo_table s Hok k). }
  exists (t <| phys := put32 (phys t) (4 * k) 0 |> <| mem_map := c |>). split.
  { unfold free_dir, phys_get. rewrite bind_gets, Hd. cbn [negb]. rewrite Hland, (bind_Ret _ _ _ _ _ Ht).
    rewrite bind_gets, Hdt, Hland, (bind_Ret _ _ _ _ _ Hc). done. }
  assert (Htab : forall l, 0 <= l < 1024 -> table_of (t <| phys := put32 (phys t) (4 * k) 0 |> <| mem_map := c |>) l =
    if decide (l = k) then None else table_of s l).
  { intros l Hl. unfold table_of. simpl. case_decide as E; [subst; by rewrite le32_put32|].
    rewrite le32_put32_ne, (le32_outside (phys t) (phys s)) by (try lia; intros a Ha; apply F2; unfold in_page; lia). done. }
  split.
  - eapply paging_trans; [exact F1|apply paging_set].
  - exact Htab.
  - intros l j Hl Hj Hne. unfold pte. rewrite Htab, decide_False by done. destruct (table_of s l) as [v|] eqn:Hv; [|done].
    destruct (to_page _ Htok l v Hl Hv). simpl. rewrite le32_put32_ne by lia. apply le32_outside. intros a Ha. apply F2.
    assert (v + 4096 <= u \/ u + 4096 <= v).
    { apply pages_apart; [by eapply table_aligned|done|]. intros ->. by apply Hne, (to_inj _ Htok l k u). }
    unfold in_page. lia.
  - intros x. simpl. rewrite Hcx, F4, Href. unfold dir_refs, tab_ref. rewrite Hu. lia.
  - intros a Ha Hn. simpl. rewrite put32_ne by lia. apply F2. intros Hin. apply Hn. by exists k, u.
Qed.

Lemma freed_block_total s k t x : 2 <= k < 1024 -> freed_block s k t ->
  total_refs t x = total_refs s x - dir_refs s x k.
Proof.
  intros Hk2 [F1 F2 F3 F4 F5]. assert (Hk : 0 <= k < 1024) by lia. unfold total_refs. rewrite (zsum_change (dir_refs t x) (dir_refs s x) 2 1022 k); [|lia|].
  - assert (H0 : dir_refs t x k = 0); [|lia]. assert (Hn : table_of t k = None) by (rewrite F2 by done; by rewrite decide_True).
    unfold dir_refs, tab_ref, block_refs, refs_to. rewrite Hn, zsum_0; [done|]. intros l _. unfold pte. by rewrite Hn.
  - intros l Hl Hne. unfold dir_refs, tab_ref. rewrite F2, decide_False by (done || lia). f_equal.
    apply refs_to_ext. intros j Hj. by rewrite F3 by lia.
Qed.

Lemma freed_block_ok s k t : 2 <= k < 1024 -> mem_ok s -> freed_block s k t -> mem_ok t.
Proof.
  intros Hk2 Hok Hf. assert (Hk : 0 <= k < 1024) by lia. pose proof (fun x => freed_block_total s k t x Hk2 Hf) as Htot. destruct Hf as [F1 F2 F3 F4 F5].
  assert (Hcount : forall x, total_refs t x <= mem_map t x < 65536).
  { intros x. rewrite Htot, F4. pose proof (mo_count s Hok x). pose proof (dir_refs_range s x k). lia. }
  destruct Hok as [[M1a M1b] M2 M3 M4 M5].
  assert (Htab : forall l u, 0 <= l < 1024 -> table_of t l = Some u -> l <> k /\ table_of s l = Some u).
  { intros l u Hl Hu. rewrite F2 in Hu by done. by case_decide. }
  split; [split|done| | |].
  - intros l u Hl Hu. destruct (Htab l u Hl Hu) as [_ Hs]. destruct (M1a l u Hl Hs) as [? _]. split; [done|].
    intros i Hi ->. pose proof (frame_range i Hi) as Hfr. destruct (decide (l < 2)) as [Hl2|Hl2].
    { specialize (M5 l _ ltac:(lia) Hs). unfold LOW_MEM, BUFFER_END in M5. lia. }
    specialize (Hcount i). pose proof (total_refs_ge t i l ltac:(lia)) as Hge. unfold dir_refs, tab_ref in Hge.
    rewrite Hu, at_frame_frame, Z.eqb_refl in Hge by (destruct Hi; lia). simpl in Hge.
    pose proof (block_refs_range t l i). lia.
  - intros l m u Hl Hm Hlu Hmu. destruct (Htab l u Hl Hlu), (Htab m u Hm Hmu). by apply (M1b l m u).
  - intros l j Hl Hj Hp. destruct (decide (l = k)) as [->|Hne].
    + unfold pte in Hp. by rewrite F2, decide_True in Hp by done.
    + rewrite F3 in Hp |- * by (done || lia). apply M3; [lia|lia|done].
  - intros l u Hl Hu. destruct (Htab l u ltac:(lia) Hu) as [_ Hs]. by apply (M4 l).
  - intros l u Hl Hu. destruct (Htab l u ltac:(lia) Hu) as [_ Hs]. by apply (M5 l).
Qed.

(** Blocks [k] to [k + i - 1] freed. *)
Record freed_blocks (s : kstate) (k i : Z) (t : kstate) : Prop := {
  zs_rest : paging_only s t;
  zs_ok : mem_ok t;
  zs_table : forall l, 0 <= l < 1024 -> table_of t l = if decide (k <= l < k + i) then None else table_of s l;
  zs_pte : forall l j, 0 <= l < 1024 -> 0 <= j < 1024 -> ~ k <= l < k + i -> pte t l j = pte s l j;
  zs_total : forall x, mem_map t x - mem_map s x = total_refs t x - total_refs s x;
  zs_stores : forall a, 4096 <= a -> ~ in_tables s a -> phys t a = phys s a;
}.

Lemma freed_blocks_step s k i t u : 2 <= k -> 0 <= i -> k + i < 1024 ->
  freed_blocks s k i t -> freed_block t (k + i) u -> freed_blocks s k (i + 1) u.
Proof.
  intros Hk Hi Hki [Z1 Z2 Z3 Z4 Z5 Z6] F. pose proof (freed_block_ok t (k + i) u ltac:(lia) Z2 F) as Hok.
  pose proof (fun x => freed_block_total t (k + i) u x ltac:(lia) F) as Htot.
  destruct F as [F1 F2 F3 F4 F5]. split; [by eapply paging_trans|done| | | |].
  - intros l Hl. rewrite F2, Z3 by done. repeat case_decide; try lia; done.
  - intros l j Hl Hj Hn. rewrite F3 by lia. apply Z4; lia.
  - intros x. rewrite F4, Htot. specialize (Z5 x). lia.
  - intros a Ha Hn. rewrite F5; [by apply Z6|done|]. intros (l & v & Hl & Hv & Hp). apply Hn.
    rewrite Z3 in Hv by done. case_decide; [done|]. by exists l, v.
Qed.

Lemma free_blocks_run s k n : mem_ok s -> 2 <= k -> k + Z.of_nat n <= 1024 ->
  exists t, for_ 0 n (fun i => free_dir (4 * k + 4 * i)) s = Ret tt t /\ freed_blocks s k (Z.of_nat n) t.
Proof.
  intros Hok Hk Hn. apply (for_inv (freed_blocks s k)).
  - split; try done; try (intros; lia).
    + apply paging_refl.
    + intros l Hl. rewrite decide_False by lia. done.
  - intros i t Hi HZ. rewrite <- Z.mul_add_distr_l.
    destruct (free_dir_run t (k + i) (zs_ok _ _ _ _ HZ) ltac:(lia)) as (u & Hu & HF).
    exists u. split; [done|]. by apply (freed_blocks_step s k i t); try lia.
Qed.

(** ** The two functions *)

(** The number of blocks an area of [size] bytes takes. *)
Definition blocks (size : Z) : Z := (size + 4194303) / 4194304.
(** Block [fk] begins at this linear address. *)
Definition block_start (k : Z) : Z := 4194304 * k.
Definition in_blocks (k n a : Z) : Prop := k <= a / 4194304 < k + n.
#[global] Instance in_blocks_dec k n a : Decision (in_blocks k n a).
Proof. unfold in_blocks. apply _. Defined.

(** A translation without leave to write: everywhere, or where pages are counted. *)
Definition read_only (o : option (Z * bool)) : option (Z * bool) := '(p, _) ← o; Some (p, false).
Definition write_shared (o : option (Z * bool)) : option (Z * bool) :=
  '(p, w) ← o; Some (p, w && (p <? LOW_MEM)).

(** A child's area is unused, apart from its parent's, and no count can overflow. *)
Record copyable (s : kstate) (fk tk n : Z) : Prop := {
  cp_ok : mem_ok s;
  cp_from : 2 <= fk /\ fk + n <= 1024;
  cp_to : 2 <= tk /\ tk + n <= 1024;
  cp_apart : fk + n <= tk \/ tk + n <= fk;
  cp_unused : forall k, tk <= k < tk + n -> table_of s k = None;
  cp_room : forall x, mem_map s x < 65536 - 1025 - 1025 * n;
}.

Lemma start_aligned k : nz (Z.land (block_start k) 0x3fffff) = false.
Proof.
  unfold block_start. change 0x3fffff with (Z.ones 22). rewrite Z.land_ones by lia. apply nz_false.
  change (2 ^ 22) with 4194304. dlia.
Qed.
Lemma start_dir k : 0 <= k < 1024 -> Z.land (Z.shiftr (block_start k) 20) 0xffc = 4 * k.
Proof. intros Hk. rewrite dir_index. unfold block_start. dlia. Qed.
Lemma size_blocks size n : 0 < size -> blocks size = n -> n <= 1023 ->
  Z.shiftr (u32 (size + 0x3fffff)) 22 = n /\ 0 < n.
Proof.
  unfold blocks. intros Hs Hn Hle. rewrite u32_small by dlia. rewrite Z.shiftr_div_pow2 by lia.
  change (2 ^ 22) with 4194304. split; dlia.
Qed.

Lemma copy_page_tables_run fk tk size s : 0 < size -> copyable s fk tk (blocks size) ->
  exists r i t, copy_page_tables (block_start fk) (block_start tk) size s = Ret r t /\
    copied_blocks s fk tk i t /\ 0 <= i <= blocks size /\
    (r = -1 /\ (forall j, frame_ok j -> mem_map t j <> 0) /\ i < blocks size \/ r = 0 /\ i = blocks size).
Proof.
  intros Hs [Hok [Hf Hf'] [Ht Ht'] Hap Hn Hroom].
  destruct (size_blocks size (blocks size) Hs eq_refl ltac:(lia)) as [Hsz Hn0].
  unfold copy_page_tables. rewrite !start_aligned, Hsz. cbn [orb]. rewrite !start_dir by lia.
  destruct (copy_blocks_run (block_start fk) fk tk (Z.to_nat (blocks size)) s)
    as (r & t & Hrun & HQ); rewrite ?Z2Nat.id by lia; try done; try lia; [unfold block_start; lia|].
  rewrite Z2Nat.id in HQ by lia. rewrite (bind_Ret _ _ _ _ _ Hrun).
  destruct HQ as [(i & -> & Hfull & Hi & HB)|[-> HB]].
  - exists (-1), i, t. split; [done|]. split; [done|]. split; [lia|]. left. split; [done|]. split; [done|lia].
  - exists 0, (blocks size), t. split; [done|]. split; [done|]. split; [lia|]. by right.
Qed.

Lemma free_page_tables_run k size s : 0 < size -> mem_ok s -> 2 <= k -> k + blocks size <= 1024 ->
  exists t, free_page_tables (block_start k) size s = Ret 0 t /\ freed_blocks s k (blocks size) t.
Proof.
  intros Hs Hok Hk Hk'. destruct (size_blocks size (blocks size) Hs eq_refl ltac:(lia)) as [Hsz Hn0].
  unfold free_page_tables. rewrite start_aligned, Hsz. destruct (nz (block_start k)) eqn:Hz; cycle 1.
  { apply nz_false in Hz. unfold block_start in Hz. lia. }
  cbn [negb]. rewrite start_dir by lia.
  destruct (free_blocks_run s k (Z.to_nat (blocks size)) Hok) as (t & Hrun & HZ); try lia.
  rewrite Z2Nat.id in HZ by lia. exists t. rewrite (bind_Ret _ _ _ _ _ Hrun). done.
Qed.

(** The translations of the parts of the address space. *)
Lemma copied_translations s fk tk i t : 0 <= fk -> fk + i <= 1024 -> 0 <= tk -> tk + i <= 1024 ->
  copied_blocks s fk tk i t ->
  (forall d, 0 <= d < 4194304 * i ->
     translate t (block_start tk + d) = read_only (translate s (block_start fk + d)) /\
     translate t (block_start fk + d) = write_shared (translate s (block_start fk + d))) /\
  (forall a, linear a -> ~ in_blocks fk i a -> ~ in_blocks tk i a -> translate t a = translate s a).
Proof.
  intros Hf Hf' Ht Ht' [B1 B2 B0 B3 B4 B5 B6 B7 B8]. unfold block_start, in_blocks. split.
  - intros d Hd. rewrite !translate_pte. cbv zeta.
    assert (Hk : forall k, 0 <= k -> k + i <= 1024 -> ((4194304 * k + d) / 4194304) mod 1024 = k + d / 4194304) by (intros; dlia).
    assert (Hj : forall k, ((4194304 * k + d) / 4096) mod 1024 = (d / 4096) mod 1024) by (intros; dlia).
    assert (Ho : forall k, (4194304 * k + d) mod 4096 = d mod 4096) by (intros; dlia).
    rewrite !Hk, !Hj, !Ho, B4, B5 by first [lia | dlia]. set (e := pte s _ _).
    rewrite cow_present, cow_readonly. unfold kept.
    destruct (hasbit e 1) eqn:E; cbn [andb]; [|by rewrite E].
    rewrite cow_page by done. cbn [read_only write_shared mbind option_bind]. split; [done|].
    pose proof (page_aligned e). pose proof low_mem_aligned.
    destruct (Z.leb_spec LOW_MEM (page_of e)).
    + rewrite cow_present, E, cow_page, cow_readonly by done. rewrite (proj2 (Z.ltb_ge _ _)) by dlia.
      by rewrite andb_false_r.
    + rewrite E, (proj2 (Z.ltb_lt _ _)) by dlia. by rewrite andb_true_r.
  - intros a Ha H1 H2. unfold linear in Ha. rewrite !translate_pte. cbv zeta.
    rewrite B6 by first [lia | dlia]. done.
Qed.

(** C9: copy_page_tables gives the 4 MB blocks of a child's area the pages of
    its parent's: every address of the child leads where the parent's does,
    read-only; the parent keeps leave to write only where pages are not counted;
    every other address is as before; every count grows by exactly the
    references that were made, and the invariant that counts cover all
    references holds again. It stores into the directory and page tables only,
    and fails, with -1, only when no frame is left. *)
Theorem copy_page_tables_shares fk tk size s :
  0 < size -> copyable s fk tk (blocks size) ->
  exists r t, copy_page_tables (block_start fk) (block_start tk) size s = Ret r t /\ mem_ok t /\
    (forall a, 4096 <= a -> ~ in_tables t a -> phys t a = phys s a) /\
    (forall x, mem_map t x - mem_map s x = total_refs t x - total_refs s x) /\
    (r = -1 /\ (forall j, frame_ok j -> mem_map t j <> 0) \/
     r = 0 /\
     (forall d, 0 <= d < 4194304 * blocks size ->
        translate t (block_start tk + d) = read_only (translate s (block_start fk + d)) /\
        translate t (block_start fk + d) = write_shared (translate s (block_start fk + d))) /\
     (forall a, linear a -> ~ in_blocks fk (blocks size) a -> ~ in_blocks tk (blocks size) a ->
        translate t a = translate s a)).
Proof.
  intros Hs Hc. destruct (copy_page_tables_run fk tk size s Hs Hc) as (r & i & t & Hrun & HB & Hi & HQ).
  exists r, t. split; [done|]. split; [by apply HB|]. split; [by apply (bs_stores _ _ _ _ _ HB)|].
  split; [by apply (bs_total _ _ _ _ _ HB)|]. destruct HQ as [(-> & Hfull & _)|[-> ->]]; [by left|right].
  split; [done|]. destruct Hc as [_ [] [] _ _ _]. by apply copied_translations; try lia.
Qed.

Lemma freed_translation t k n u a : 0 <= k -> k + n <= 1024 -> linear a -> freed_blocks t k n u ->
  translate u a = if decide (in_blocks k n a) then None else translate t a.
Proof.
  unfold linear, in_blocks. intros Hk Hn Ha HZ. rewrite !translate_pte. cbv zeta.
  replace ((a / 4194304) mod 1024) with (a / 4194304) by dlia. case_decide as Hin.
  - unfold pte. rewrite (zs_table _ _ _ _ HZ), decide_True by (done || dlia). done.
  - by rewrite (zs_pte _ _ _ _ HZ) by (done || dlia).
Qed.
Lemma unused_translation s k n a : 0 <= k -> k + n <= 1024 -> linear a -> in_blocks k n a ->
  (forall l, k <= l < k + n -> table_of s l = None) -> translate s a = None.
Proof.
  unfold linear, in_blocks. intros Hk Hn Ha Hin Hnone. rewrite translate_pte. cbv zeta.
  replace ((a / 4194304) mod 1024) with (a / 4194304) by dlia. unfold pte. by rewrite Hnone.
Qed.

(** Freeing what was copied leaves every reference as it was. *)
Lemma copied_freed_refs s fk tk i n t u x : 0 <= i <= n -> fk + n <= tk \/ tk + n <= fk ->
  0 <= fk -> fk + n <= 1024 -> 0 <= tk -> tk + n <= 1024 -> (forall k, tk <= k < tk + n -> table_of s k = None) ->
  copied_blocks s fk tk i t -> freed_blocks t tk n u -> total_refs u x = total_refs s x.
Proof.
  intros Hi Hap Hf Hf' Ht Ht' Hn HB HZ. apply zsum_ext. intros k Hk. unfold dir_refs, tab_ref.
  destruct (decide (tk <= k < tk + n)) as [Hin|Hout].
  - assert (Hu : table_of u k = None) by (rewrite (zs_table _ _ _ _ HZ) by lia; by rewrite decide_True).
    rewrite Hu, Hn by done. f_equal. apply refs_to_ext. intros l Hl. unfold pte. by rewrite Hu, Hn.
  - rewrite (zs_table _ _ _ _ HZ), decide_False, (bs_table _ _ _ _ _ HB) by lia. f_equal.
    apply refs_to_ext. intros l Hl. rewrite (zs_pte _ _ _ _ HZ) by lia.
    destruct (decide (fk <= k < fk + i)).
    + replace k with (fk + (k - fk)) by lia. rewrite (bs_old _ _ _ _ _ HB) by lia. apply kept_refers.
    + by rewrite (bs_other _ _ _ _ _ HB) by lia.
Qed.

(** What a copy, complete or not, and the freeing of it leave behind. *)
Lemma copied_freed s fk tk n i t u : copyable s fk tk n -> 0 <= i <= n ->
  copied_blocks s fk tk i t -> freed_blocks t tk n u ->
  mem_ok u /\ paging_only s u /\ (forall x, mem_map u x = mem_map s x) /\ (forall x, total_refs u x = total_refs s x) /\
  (forall a, 4096 <= a -> ~ in_tables t a -> phys u a = phys s a) /\
  (forall a, linear a ->
     translate u a = if decide (in_blocks fk i a) then write_shared (translate s a) else translate s a).
Proof.
  intros [Hok [Hf Hf'] [Ht Ht'] Hap Hn Hroom] Hi HB HZ.
  assert (Htot : forall x, total_refs u x = total_refs s x).
  { intros x. apply (copied_freed_refs s fk tk i n t u); (done || lia). }
  split; [by apply HZ|]. split; [eapply paging_trans; [by apply HB|by apply HZ]|]. split; [|split; [done|split]].
  - intros x. pose proof (bs_total _ _ _ _ _ HB x). pose proof (zs_total _ _ _ _ HZ x). rewrite Htot in *. lia.
  - intros a Ha Hin. rewrite (zs_stores _ _ _ _ HZ) by done. by apply (bs_stores _ _ _ _ _ HB).
  - intros a Ha. rewrite (freed_translation t tk n u) by (done || lia).
    destruct (copied_translations s fk tk i t) as [Hin Hout]; try done; try lia.
    destruct (decide (in_blocks tk n a)) as [Htk|Htk].
    + rewrite decide_False by (unfold in_blocks in *; lia). symmetry. by apply (unused_translation s tk n); try lia.
    + case_decide as Hfk.
      * destruct (Hin (a - block_start fk)) as [_ H]; [unfold in_blocks, block_start in *; dlia|].
        by replace (block_start fk + (a - block_start fk)) with a in H by lia.
      * apply Hout; [done..|]. unfold in_blocks in *. lia.
Qed.

(** C10: What fork makes, exit undoes: whether copy_page_tables succeeds or runs
    out of frames part of the way, free_page_tables of the child's area then
    succeeds without a panic and leaves every count as it was before, every
    address as it was but for the leave to write of the shared ones, and every
    byte outside the directory and the tables. *)
Theorem copy_free_roundtrip fk tk size s :
  0 < size -> copyable s fk tk (blocks size) ->
  exists r t u i, copy_page_tables (block_start fk) (block_start tk) size s = Ret r t /\
    free_page_tables (block_start tk) size t = Ret 0 u /\ mem_ok u /\
    u = s <| phys := phys u |> <| mem_map := mem_map u |> /\
    (forall x, mem_map u x = mem_map s x) /\
    (forall a, 4096 <= a -> ~ in_tables t a -> phys u a = phys s a) /\
    (r = 0 /\ i = blocks size \/ r = -1 /\ 0 <= i < blocks size) /\
    (forall a, linear a ->
       translate u a = if decide (in_blocks fk i a) then write_shared (translate s a) else translate s a).
Proof.
  intros Hs Hc. destruct (copy_page_tables_run fk tk size s Hs Hc) as (r & i & t & Hrun & HB & Hi & HQ).
  destruct (free_page_tables_run tk size t Hs (bs_ok _ _ _ _ _ HB)) as (u & Hfree & HZ); [apply Hc..|].
  destruct (copied_freed s fk tk (blocks size) i t u Hc Hi HB HZ) as (Hu & Hrest & Hmap & _ & Hst & Htr).
  exists r, t, u, i. do 6 (split; [done|]). split; [|done].
  destruct HQ as [(-> & _ & Hlt)|[-> ->]]; [|by left]. right. split; [done|lia].
Qed.

(** The invariant from its parts: that the tables are in use follows from the counts. *)
Lemma mem_ok_intro s :
  (forall k u, 0 <= k < 1024 -> table_of s k = Some u -> 4096 <= u) ->
  (forall k l u, 0 <= k < 1024 -> 0 <= l < 1024 -> table_of s k = Some u -> table_of s l = Some u -> k = l) ->
  (forall x, total_refs s x <= mem_map s x < 65536) ->
  (forall k j, 2 <= k < 1024 -> 0 <= j < 1024 -> hasbit (pte s k j) 1 = true -> page_of (pte s k j) < HIGH_MEMORY) ->
  (forall k u, 2 <= k < 1024 -> table_of s k = Some u -> u < HIGH_MEMORY) ->
  (forall k u, 0 <= k < 2 -> table_of s k = Some u -> u < LOW_MEM) ->
  mem_ok s.
Proof.
  intros Hlow Hinj Hc Hp Ht Hk. split; try done. split; [|done]. intros k u Hkr Hu. split; [by apply (Hlow k)|].
  intros i Hi ->. pose proof (frame_range i Hi) as Hfr. destruct (decide (k < 2)) as [H2|H2].
  { specialize (Hk k _ ltac:(lia) Hu). unfold LOW_MEM, BUFFER_END in Hk. lia. }
  specialize (Hc i). pose proof (total_refs_ge s i k ltac:(lia)) as Hge. unfold dir_refs, tab_ref in Hge.
  rewrite Hu, at_frame_frame, Z.eqb_refl in Hge by (destruct Hi; lia). simpl in Hge.
  pose proof (block_refs_range s k i). lia.
Qed.

(** ** A frame is taken *)

Lemma free_no_refs s i : mem_ok s -> mem_map s i = 0 -> total_refs s i <= 0.
Proof. intros Hok Hz. pose proof (mo_count s Hok i). lia. Qed.

Lemma pte_taken s i k j : tables_ok s -> frame_ok i -> mem_map s i = 0 -> 0 <= k < 1024 -> 0 <= j < 1024 ->
  pte (taken i s) k j = pte s k j.
Proof.
  intros Hok Hi Hz Hk Hj. unfold pte. rewrite table_of_taken by done. destruct (table_of s k) as [u|] eqn:Hu; [|done].
  destruct (table_not_frame s k u i Hok Hk Hu Hi Hz); by rewrite le32_taken by lia.
Qed.
Lemma total_ext s s' x : (forall k, 2 <= k < 1024 -> table_of s' k = table_of s k) ->
  (forall k j, 2 <= k < 1024 -> 0 <= j < 1024 -> pte s' k j = pte s k j) -> total_refs s' x = total_refs s x.
Proof.
  intros Ht Hp. apply zsum_ext. intros k Hk. unfold dir_refs, tab_ref. rewrite Ht by lia. f_equal.
  apply refs_to_ext. intros j Hj. by rewrite Hp by lia.
Qed.
Lemma total_taken s i x : tables_ok s -> frame_ok i -> mem_map s i = 0 -> total_refs (taken i s) x = total_refs s x.
Proof.
  intros Hok Hi Hz. apply total_ext; [intros k Hk; apply table_of_taken; (done || lia)|].
  intros k j Hk Hj. apply pte_taken; (done || lia).
Qed.
Lemma taken_ok s i : mem_ok s -> frame_ok i -> mem_map s i = 0 -> mem_ok (taken i s).
Proof.
  intros Hm Hi Hz. pose proof (mo_tables s Hm) as Hok. pose proof Hm as [_ M2 M3 M4 M5]. split.
  - by apply tables_taken.
  - intros x. rewrite total_taken by done. simpl. rewrite arr_dec. specialize (M2 x). case_decide; subst; lia.
  - intros k j Hk Hj. rewrite pte_taken by (done || lia). by apply M3.
  - intros k u Hk Hu. rewrite table_of_taken in Hu by (done || lia). by apply (M4 k).
  - intros k u Hk Hu. rewrite table_of_taken in Hu by (done || lia). by apply (M5 k).
Qed.

Lemma total_nonneg s x : 0 <= total_refs s x.
Proof. pose proof (total_refs_ge s x 2 ltac:(lia)). pose proof (dir_refs_range s x 2). lia. Qed.

(** ** An example: a task with one shared page *)

Lemma shared_page_pte k j : 0 <= k < 1024 -> 0 <= j < 1024 ->
  pte shared_page k j = if decide (k = 16 /\ j = 0) then 0x400005 else 0.
Proof.
  intros Hk Hj. unfold pte. destruct (table_of shared_page k) as [u|] eqn:Hu.
  - apply shared_page_table in Hu as [-> ->]; [|done]. unfold shared_page. cbn [phys set_field]. simpl phys.
    destruct (decide (j = 0)) as [->|].
    + rewrite decide_True by done. rewrite Z.mul_0_r, Z.add_0_r, le32_put32. done.
    + rewrite decide_False by (intros [_ ?]; done). rewrite !le32_put32_ne by lia. done.
  - rewrite decide_False; [done|]. intros [-> _]. done.
Qed.
Lemma shared_page_refs k x : 0 <= k < 1024 ->
  dir_refs shared_page x k = if decide (k = 16) then b2z (512 =? x) + b2z (256 =? x) else 0.
Proof.
  intros Hk. assert (Hb : block_refs shared_page k x = if decide (k = 16) then b2z (512 =? x) else 0).
  { unfold block_refs, refs_to. rewrite (zsum_change _ (fun _ => 0) 0 1024 0).
    - rewrite zsum_0 by done. rewrite shared_page_pte by lia. destruct (decide (k = 16)) as [->|Hne].
      + rewrite decide_True by done. change (refers 0x400005 x) with (512 =? x). lia.
      + rewrite decide_False by lia. done.
    - lia.
    - intros j Hj Hne. rewrite shared_page_pte by lia. by rewrite decide_False by lia. }
  unfold dir_refs. rewrite Hb. unfold tab_ref. destruct (table_of shared_page k) as [u|] eqn:Hu.
  - apply shared_page_table in Hu as [-> ->]; done.
  - case_decide as H; [subst; done|lia].
Qed.
Lemma shared_page_ok : mem_ok shared_page.
Proof.
  split; [apply shared_page_tables| | | |].
  - intros x. unfold total_refs. rewrite (zsum_change _ (fun _ => 0) 2 1022 16).
    + rewrite zsum_0 by done. rewrite shared_page_refs by lia. rewrite decide_True by done.
      change (mem_map shared_page x) with (if x =? 256 then 1 else if x =? 512 then 2 else 0).
      destruct (Z.eqb_spec 512 x), (Z.eqb_spec 256 x), (Z.eqb_spec x 256), (Z.eqb_spec x 512); simpl; lia.
    + lia.
    + intros k Hk Hne. rewrite shared_page_refs by lia. by rewrite decide_False.
  - intros k j Hk Hj. rewrite shared_page_pte by lia. by case_decide.
  - intros k u Hk Hu. apply shared_page_table in Hu as [_ ->]; [done|lia].
  - intros k u Hk Hu. apply shared_page_table in Hu as [-> _]; lia.
Qed.
Lemma shared_page_copyable_to tk : 17 <= tk < 1024 -> copyable shared_page 16 tk 1.
Proof.
  intros Htk. split; try lia.
  - apply shared_page_ok.
  - intros k Hk. destruct (table_of shared_page k) eqn:Hu; [|done]. apply shared_page_table in Hu; lia.
  - intros x. unfold shared_page. simpl. repeat case_match; lia.
Qed.
Lemma shared_page_copyable : copyable shared_page 16 32 1.
Proof. apply shared_page_copyable_to. lia. Qed.

Lemma copy_page_tables_shares_witness : copyable shared_page 16 32 (blocks 0x1000) /\
  exists r t, copy_page_tables (block_start 16) (block_start 32) 0x1000 shared_page = Ret r t /\
    mem_ok t /\ (r = -1 \/ r = 0 /\ translate t (block_start 32 + 0x10) = Some (0x400010, false)).
Proof.
  split; [exact shared_page_copyable|].
  destruct (copy_page_tables_shares 16 32 0x1000 shared_page) as (r & t & Hrun & Hok & _ & _ & HQ);
    [lia|exact shared_page_copyable|].
  exists r, t. split; [exact Hrun|]. split; [exact Hok|]. destruct HQ as [[-> _]|(-> & Hin & _)]; [left; reflexivity|right].
  split; [reflexivity|]. destruct (Hin 0x10) as [H _]; [change (blocks 0x1000) with 1; lia|].
  rewrite H. vm_compute. reflexivity.
Defined.

Lemma copy_free_roundtrip_witness : copyable shared_page 16 32 (blocks 0x1000) /\
  exists r t u, copy_page_tables (block_start 16) (block_start 32) 0x1000 shared_page = Ret r t /\
    free_page_tables (block_start 32) 0x1000 t = Ret 0 u /\ forall x, mem_map u x = mem_map shared_page x.
Proof.
  split; [exact shared_page_copyable|].
  destruct (copy_free_roundtrip 16 32 0x1000 shared_page) as (r & t & u & i & Hrun & Hfree & _ & _ & Hm & _);
    [lia|exact shared_page_copyable|].
  exists r, t, u. split; [exact Hrun|]. split; [exact Hfree|exact Hm].
Defined.
