(* ===== verification/Hd.v ===== *)
(** The hard-disk driver, kernel/hd.c: the queue of transfers, the interrupt
    handlers that carry them out and the translation of blocks to sectors. *)
From S2P Require Export Sched.
#[local] Open Scope bool_scope.

Section hd.
Context `{Machine}.

(** kernel/hd.c:34 *)
Definition MAX_ERRORS : Z := 5.
(** kernel/hd.c:36 *)
Definition NR_REQUEST : Z := 32.
(** kernel/hd.c:43-45: the first two members of the one drive [HD_TYPE] of
    include/linux/config.h:34 describes; [wpcom], [lzone] and [ctl] are not
    used. *)
Definition hd_info_head (dev : Z) : Z := 4.
(** kernel/hd.c:43-45 *)
Definition hd_info_sect (dev : Z) : Z := 20.
(** kernel/hd.c:43-45 *)
Definition hd_info_cyl (dev : Z) : Z := 1024.
(** kernel/hd.c:47 *)
Definition NR_HD : Z := 1.
(** include/linux/hdreg.h:17-29 *)
Definition HD_SPECIFY_CYL : Z := 1024.
Definition HD_SPECIFY_HEAD : Z := 4.
Definition HD_SPECIFY_SECT : Z := 20.
Definition HD_WPCOM : Z := -1.
Definition HD_CTL : Z := 0.
(** include/linux/hdreg.h:32-43 *)
Definition HD_DATA : Z := 0x1f0.
Definition HD_ERROR : Z := 0x1f1.
Definition HD_STATUS : Z := 0x1f7.
Definition HD_CMD : Z := 0x3f6.
(** include/linux/hdreg.h:46-53 *)
Definition ERR_STAT : Z := 0x01.
Definition DRQ_STAT : Z := 0x08.
Definition SEEK_STAT : Z := 0x10.
Definition WRERR_STAT : Z := 0x20.
Definition READY_STAT : Z := 0x40.
Definition BUSY_STAT : Z := 0x80.
(** include/linux/hdreg.h:57-58 *)
Definition WIN_READ : Z := 0x20.
Definition WIN_WRITE : Z := 0x30.
Definition WIN_SPECIFY : Z := 0x91.

Definition getr (i : Z) : K hd_request := gets (fun s => request s i).
Definition setr (i : Z) (f : hd_request -> hd_request) : K unit :=
  modify (fun s => s <| request ::= fun t => <[i := f (t i)]> t |>).

(** kernel/hd.c:66-70 *)
Definition IN_ORDER (s1 s2 : hd_request) : bool :=
  ((r_hd s1 <? r_hd s2) || (r_hd s1 =? r_hd s2)) &&
  (((r_cyl s1 <? r_cyl s2) || (r_cyl s1 =? r_cyl s2)) &&
   (((r_head s1 <? r_head s2) || (r_head s1 =? r_head s2)) &&
    (r_sector s1 <? r_sector s2))).

(** kernel/hd.c:82-83, into the bytes from [off] on of a buffer. *)
Definition port_read (port bh off nr : Z) : K unit :=
  for_ 0 (Z.to_nat nr) (fun i =>
    w ← inw port;
    setb bh (fun b => b <| b_data ::= fun d => put16 d (off + 2 * i) w |>)).

(** kernel/hd.c:85-86 *)
Definition port_write (port bh off nr : Z) : K unit :=
  for_ 0 (Z.to_nat nr) (fun i =>
    b ← getb bh;
    outw (le16 (b_data b) (off + 2 * i)) port).

(** kernel/hd.c:92-97 *)
Definition lock_buffer (bh : Z) : K unit :=
  b ← getb bh;
  when (nz (b_lock b)) (printk "hd.c: buffer multiply locked\n" []);;
  setb bh (fun b => b <| b_lock := 1 |>).

(** kernel/hd.c:99-105 *)
Definition unlock_buffer (bh : Z) : K unit :=
  b ← getb bh;
  when (negb (nz (b_lock b))) (printk "hd.c: free buffer being unlocked\n" []);;
  setb bh (fun b => b <| b_lock := 0 |>);;
  wake_up (wq_b_wait bh).

(** kernel/hd.c:107-113 *)
Definition wait_on_buffer (bh : Z) : K unit :=
  while fuel (b ← getb bh; mret (nz (b_lock b))) (sleep_on fuel (wq_b_wait bh)).

(** kernel/hd.c:172-178 *)
Definition controller_ready : K Z :=
  loop 1000 (fun retries =>
    let retries := retries - 1 in
    if negb (nz retries) then mret (inr retries)
    else
      st ← inb HD_STATUS;
      if Z.land st 0xc0 =? 0x40 then mret (inr retries) else mret (inl retries)) 1000.

(** kernel/hd.c:180-189 *)
Definition win_result : K Z :=
  i ← inb HD_STATUS;
  if Z.land i (Z.lor BUSY_STAT (Z.lor READY_STAT (Z.lor WRERR_STAT (Z.lor SEEK_STAT ERR_STAT))))
     =? Z.lor READY_STAT SEEK_STAT
  then mret 0
  else
    when (hasbit i 1) (_ ← inb HD_ERROR; mret tt);;
    mret 1.

(** kernel/hd.c:191-212 *)
Definition hd_out (drive nsect sect head cyl cmd : Z) (intr_addr : hd_handler) : K unit :=
  if (u32 drive >? 1) || (u32 head >? 15) then panic "Trying to write bad sector"
  else
    r ← controller_ready;
    if negb (nz r) then panic "HD controller not ready"
    else
      modify (fun s => s <| do_hd := Some intr_addr |>);;
      outb HD_CTL HD_CMD;;
      outb_p HD_WPCOM (HD_DATA + 1);;
      outb_p nsect (HD_DATA + 2);;
      outb_p sect (HD_DATA + 3);;
      outb_p cyl (HD_DATA + 4);;
      outb_p (Z.shiftr (u32 cyl) 8) (HD_DATA + 5);;
      outb_p (Z.lor 0xB0 (Z.lor (Z.shiftl drive 4) head)) (HD_DATA + 6);;
      outb cmd (HD_DATA + 7).

(** kernel/hd.c:214-227 *)
Definition drive_busy : K Z :=
  loop (Z.to_nat 100001) (fun i =>
    if negb (i <? 100000) then mret (inr tt)
    else
      st ← inb HD_STATUS;
      if READY_STAT =? Z.land st (Z.lor BUSY_STAT READY_STAT) then mret (inr tt)
      else mret (inl (i + 1))) 0;;
  i ← inb HD_STATUS;
  if Z.land i (Z.lor BUSY_STAT (Z.lor READY_STAT SEEK_STAT)) =? Z.lor READY_STAT SEEK_STAT
  then mret 0
  else
    printk "HD controller times out\n\r" [];;
    mret 1.

(** kernel/hd.c:229-241 *)
Definition reset_controller : K unit :=
  outb 4 HD_CMD;;
  outb 0 HD_CMD;;
  loop (Z.to_nat 10001) (fun i =>
    if negb (i <? 10000) then mret (inr tt)
    else
      busy ← drive_busy;
      if nz busy then mret (inl (i + 1)) else mret (inr tt)) 0;;
  busy ← drive_busy;
  when (nz busy) (printk "HD-controller still busy\n\r" []);;
  i ← inb HD_STATUS;
  when (hasbit i ERR_STAT) (printk "HD-controller reset failed: %02x\n\r" [i]).

(** kernel/hd.c:243-247 *)
Definition reset_hd (nr : Z) : K unit :=
  reset_controller;;
  hd_out nr HD_SPECIFY_SECT HD_SPECIFY_SECT (HD_SPECIFY_HEAD - 1) HD_SPECIFY_CYL
    WIN_SPECIFY do_request_h.

(** kernel/hd.c:249-252 *)
Definition unexpected_hd_interrupt : K unit := panic "Unexpected HD interrupt\n\r".

(** The request [this_request] points to. *)
Definition this_req : K Z := r ← gets this_request; deref r.
Definition req_bh (r : Z) : K Z := q ← getr r; deref (r_bh q).

(** kernel/hd.c:262-263, as in 291-292 and 310-311. *)
Definition next_request : K unit :=
  r ← this_req;
  setr r (fun q => q <| r_hd := -1 |>);;
  q ← getr r;
  modify (fun s => s <| this_request := r_next q |>).

(** kernel/hd.c:254-266 *)
Definition bad_rw_intr : K unit :=
  r ← this_req;
  q ← getr r;
  let i := r_hd q in
  setr r (fun q => q <| r_errors ::= fun e => s32 (e + 1) |>);;
  when (r_errors q >=? MAX_ERRORS)
    (bh ← req_bh r;
     setb bh (fun b => b <| b_uptodate := 0 |>);;
     unlock_buffer bh;;
     wake_up wq_wait_for_request;;
     next_request);;
  reset_hd i.

(** kernel/hd.c:315-343 *)
Definition do_request : K unit :=
  s ← get;
  if nz (sorting s) then mret tt
  else
    match this_request s with
    | None => modify (fun s => s <| do_hd := None |>)
    | Some r =>
        q ← getr r;
        if r_cmd q =? WIN_WRITE then
          hd_out (r_hd q) (r_nsector q) (r_sector q) (r_head q) (r_cyl q) (r_cmd q) write_intr_h;;
          drq ← loop (Z.to_nat 3001) (fun '(i, r) =>
            if negb (i <? 3000) then mret (inr r)
            else
              st ← inb_p HD_STATUS;
              let r := Z.land st DRQ_STAT in
              if nz r then mret (inr r) else mret (inl (i + 1, r))) (0, 0);
          if negb (nz drq) then reset_hd (r_hd q)
          else
            bh ← req_bh r;
            port_write HD_DATA bh (512 * Z.land (r_nsector q) 1) 256
        else if r_cmd q =? WIN_READ then
          hd_out (r_hd q) (r_nsector q) (r_sector q) (r_head q) (r_cyl q) (r_cmd q) read_intr_h
        else panic "unknown hd-command"
    end.

(** kernel/hd.c:268-294 *)
Definition read_intr : K unit :=
  w ← win_result;
  if nz w then bad_rw_intr
  else
    r ← this_req;
    q ← getr r;
    if r_nsector q =? 2 then
      setr r (fun q => q <| r_nsector ::= fun n => n - 1 |>);;
      bh ← req_bh r;
      port_read HD_DATA bh 0 256
    else
      bh ← req_bh r;
      port_read HD_DATA bh 512 256;;
      setr r (fun q => q <| r_errors := 0 |>);;
      setb bh (fun b => b <| b_uptodate := 1 |>);;
      setb bh (fun b => b <| b_dirt := 0 |>);;
      wake_up wq_wait_for_request;;
      unlock_buffer bh;;
      next_request;;
      do_request.

(** kernel/hd.c:296-313 *)
Definition write_intr : K unit :=
  w ← win_result;
  if nz w then bad_rw_intr
  else
    r ← this_req;
    setr r (fun q => q <| r_nsector ::= fun n => s32 (n - 1) |>);;
    q ← getr r;
    bh ← req_bh r;
    if nz (r_nsector q) then port_write HD_DATA bh 512 256
    else
      setb bh (fun b => b <| b_uptodate := 1 |>);;
      setb bh (fun b => b <| b_dirt := 0 |>);;
      wake_up wq_wait_for_request;;
      unlock_buffer bh;;
      next_request;;
      do_request.

(** kernel/system_call.s:198-219: what a disk interrupt runs. *)
Definition hd_interrupt : K unit :=
  outb 0x20 0x20;;
  outb 0x20 0xA0;;
  h ← gets do_hd;
  match h with
  | None => unexpected_hd_interrupt
  | Some read_intr_h => read_intr
  | Some write_intr_h => write_intr
  | Some do_request_h => do_request
  end.

(** kernel/hd.c:371-375: one step of the walk, and the request after which
    [req] goes. *)
Definition insert_step (req tmp : Z) : K (Z + Z) :=
  s ← get;
  match r_next (request s tmp) with
  | None => mret (inr tmp)
  | Some n =>
      let t := request s tmp in
      let q := request s req in
      if (IN_ORDER t q || negb (IN_ORDER t (request s n))) && IN_ORDER q (request s n)
      then mret (inr tmp) else mret (inl n)
  end.
(** kernel/hd.c:371-375 *)
Definition insert_after (req tmp : Z) : K Z := loop fuel (insert_step req) tmp.

(** kernel/hd.c:350-389 *)
Definition add_request (req : Z) : K unit :=
  q ← getr req;
  if negb (r_nsector q =? 2) then panic "nsector!=2 not implemented"
  else
    modify (fun s => s <| sorting := 1 |>);;
    s ← get;
    match this_request s with
    | None => modify (fun s => s <| this_request := Some req |>)
    | Some tmp =>
        match r_next (request s tmp) with
        | None => setr tmp (fun q => q <| r_next := Some req |>)
        | Some tmp =>
            tmp ← insert_after req tmp;
            t ← getr tmp;
            setr req (fun q => q <| r_next := r_next t |>);;
            setr tmp (fun q => q <| r_next := Some req |>)
        end
    end;;
    modify (fun s => s <| sorting := 0 |>);;
    h ← gets do_hd;
    match h with None => do_request | Some _ => mret tt end.

(** kernel/hd.c:399-406: a free request, waited for. *)
Definition get_request : K Z :=
  loop fuel (fun _ : unit =>
    s ← get;
    match scan (fun i => r_hd (request s i) <? 0) 0 (Z.to_nat NR_REQUEST) with
    | Some i => mret (inr i)
    | None => sleep_on fuel wq_wait_for_request;; mret (inl tt)
    end) tt.

(** kernel/hd.c:391-418 *)
Definition rw_abs_hd (rw nr sec head cyl bh : Z) : K unit :=
  if negb (rw =? READ) && negb (rw =? WRITE) then panic "Bad hd command, must be R/W"
  else
    lock_buffer bh;;
    req ← get_request;
    setr req (fun _ => {| r_hd := nr; r_nsector := 2; r_sector := sec; r_head := head;
      r_cyl := cyl; r_cmd := if rw =? READ then WIN_READ else WIN_WRITE;
      r_errors := 0; r_bh := Some bh; r_next := None |});;
    add_request req;;
    wait_on_buffer bh.

(** kernel/hd.c:126-129: the sector, head and cylinder of a sector number. *)
Definition chs (dev block : Z) : Z * Z * Z :=
  let sec := block mod hd_info_sect dev in
  let block := block / hd_info_sect dev in
  (sec, block mod hd_info_head dev, block / hd_info_head dev).

(** kernel/hd.c:115-131 *)
Definition rw_hd (rw bh : Z) : K unit :=
  b ← getb bh;
  s ← get;
  let block := Z.shiftl (b_blocknr b) 1 in
  let dev := MINOR (b_dev b) in
  if (dev >=? 5 * NR_HD) || (u32 (block + 2) >? u32 (snd (hd_parts s dev))) then mret tt
  else
    let block := u32 (block + fst (hd_parts s dev)) in
    let dev := dev / 5 in
    let '(sec, head, cyl) := chs dev block in
    rw_abs_hd rw dev (sec + 1) head cyl bh.

(** kernel/hd.c:134-164.  [mount_root] is in fs/super.c. *)
Definition sys_setup (mount_root : K unit) : K Z :=
  s ← get;
  if negb (nz (setup_callable s)) then mret (-1)
  else
    modify (fun s => s <| setup_callable := 0 |>);;
    for_ 0 (Z.to_nat NR_HD) (fun drive =>
      rw_abs_hd READ drive 1 0 0 0;;
      b ← getb 0;
      if negb (nz (b_uptodate b)) then
        printk "Unable to read partition table of drive %d\n\r" [drive];; panic ""
      else if negb (b_data b 510 =? 0x55) || negb (b_data b 511 =? 0xAA) then
        printk "Bad partition table on drive %d\n\r" [drive];; panic ""
      else
        for_ 1 4 (fun i =>
          b ← getb 0;
          let p := 0x1BE + 16 * (i - 1) in
          modify (fun s => s <| hd_parts ::= <[i + 5 * drive :=
            (s32 (le32 (b_data b) (p + 8)), s32 (le32 (b_data b) (p + 12)))]> |>)));;
    printk "Partition table%s ok.\n\r" [if NR_HD >? 1 then 1 else 0];;
    mount_root;;
    mret 0.

(** kernel/hd.c:420-437 *)
Definition hd_init : K unit :=
  for_ 0 (Z.to_nat NR_REQUEST) (fun i =>
    setr i (fun q => q <| r_hd := -1 |>);;
    setr i (fun q => q <| r_next := None |>));;
  for_ 0 (Z.to_nat NR_HD) (fun i =>
    modify (fun s => s <| hd_parts ::= <[i * 5 :=
      (0, hd_info_head i * hd_info_sect i * hd_info_cyl i)]> |>));;
  set_trap_gate 0x2E (address_of at_hd_interrupt);;
  v ← inb_p 0x21;
  outb_p (Z.land v 0xfb) 0x21;;
  v ← inb_p 0xA1;
  outb (Z.land v 0xbf) 0xA1;;
  printk " [OK] HD Controller: High-Speed Driver Loaded (DMA Mode Active)\n\r" [].
End hd.

(** ** Blocks and sectors *)

Lemma chs_sector dev block :
  0 <= block ->
  let '(sec, head, cyl) := chs dev block in
  0 <= sec < 20 /\ 0 <= head < 4 /\ 0 <= cyl /\ (cyl * 4 + head) * 20 + sec = block.
Proof. intros. unfold chs, hd_info_sect, hd_info_head. dlia. Qed.

(** C19: rw_hd ignores exactly the blocks of an unknown partition and those past
    the end of their partition, by the length in the table. For any other it
    issues one request, whose sector and head are in the range of the disk and
    which denotes the sector at twice the block number from the partition's
    start, in 32 bits; if the table, which is read from the disk unchecked,
    describes a partition that lies in the disk, the cylinder is in range too
    and the sector in the partition. *)
Theorem rw_hd_sectors `{Machine} rw bh s :
  let b := bufs s bh in
  let dev := MINOR (b_dev b) in
  let start := fst (hd_parts s dev) in
  let len := snd (hd_parts s dev) in
  0 <= b_blocknr b < 65536 ->
  (5 <= dev \/ u32 len < 2 * b_blocknr b + 2 -> rw_hd rw bh s = Ret tt s) /\
  (dev < 5 -> 2 * b_blocknr b + 2 <= u32 len ->
   exists sec head cyl, rw_hd rw bh s = rw_abs_hd rw 0 sec head cyl bh s /\
     1 <= sec <= 20 /\ 0 <= head < 4 /\ 0 <= cyl /\
     (cyl * 4 + head) * 20 + (sec - 1) = u32 (start + 2 * b_blocknr b) /\
     (0 <= start -> 0 <= len -> start + len <= 4 * 20 * 1024 ->
        cyl < 1024 /\ start <= (cyl * 4 + head) * 20 + (sec - 1) < start + len)).
Proof.
  cbv zeta. set (b := bufs s bh). set (dev := MINOR (b_dev b)).
  set (start := fst (hd_parts s dev)). set (len := snd (hd_parts s dev)). intros Hb.
  unfold rw_hd, getb. mrun. fold b dev start len.
  rewrite Z.shiftl_mul_pow2 by lia. change (2 ^ 1) with 2. change (5 * NR_HD) with 5.
  rewrite (u32_small (b_blocknr b * 2 + 2)) by lia. split.
  - intros Hno. replace ((dev >=? 5) || _) with true; [done|]. symmetry. apply orb_true_iff.
    destruct Hno; [left|right]; lia.
  - intros Hd Hle. replace ((dev >=? 5) || _) with false by (symmetry; apply orb_false_iff; lia).
    assert (Hdev : dev / 5 = 0).
    { assert (0 <= dev) by (unfold dev, MINOR; apply Z.land_nonneg; lia). dlia. }
    rewrite Hdev. set (blk := u32 (b_blocknr b * 2 + start)).
    pose proof (chs_sector 0 blk ltac:(apply u32_range)) as Hc. destruct (chs 0 blk) as [[sec head] cyl].
    exists (sec + 1), head, cyl. split; [done|]. destruct Hc as (H1 & H2 & H3 & Hsum).
    replace (start + 2 * b_blocknr b) with (b_blocknr b * 2 + start) by lia. fold blk.
    split; [lia|]. split; [lia|]. split; [lia|]. split; [lia|].
    intros Hs Hl Hsl. assert (Hblk : blk = b_blocknr b * 2 + start) by (unfold blk; apply u32_small; lia).
    rewrite u32_small in Hle by lia. lia.
Qed.

(** ** The queue of requests *)





(** [IN_ORDER] asks every coordinate to be in order: of a sector and a later one with a
    smaller number, neither is before the other. *)
Lemma in_order_partial q : IN_ORDER (q <| r_cyl := 1 |> <| r_sector := 9 |>) (q <| r_cyl := 2 |> <| r_sector := 3 |>) = false /\
  IN_ORDER (q <| r_cyl := 2 |> <| r_sector := 3 |>) (q <| r_cyl := 1 |> <| r_sector := 9 |>) = false.
Proof. unfold IN_ORDER. simpl. by rewrite !andb_false_r. Qed.

(** A request before another: its place is nowhere greater, and its sector is less. *)
Definition precedes (p q : hd_request) : Prop :=
  r_hd p <= r_hd q /\ r_cyl p <= r_cyl q /\ r_head p <= r_head q /\ r_sector p < r_sector q.
#[export] Instance precedes_dec p q : Decision (precedes p q).
Proof. unfold precedes. apply _. Defined.





(** ** Examples *)

Definition one_partition : kstate :=
  zero_kstate <| hd_parts := fun i => if i =? 1 then (1, 40959) else (0, 0) |>
    <| bufs := fun _ => zero_buffer_head <| b_dev := 0x301 |> <| b_blocknr := 100 |> |>.

Lemma rw_hd_sectors_witness :
  exists sec head cyl, @rw_hd quiet_machine READ 0 one_partition =
    @rw_abs_hd quiet_machine READ 0 sec head cyl 0 one_partition /\
    (cyl * 4 + head) * 20 + (sec - 1) = 201.
Proof.
  destruct (@rw_hd_sectors quiet_machine READ 0 one_partition) as [_ H]; [split; by vm_compute|].
  destruct H as (sec & head & cyl & Hrun & _ & _ & _ & Hsum & _); [by vm_compute|by vm_compute|].
  exists sec, head, cyl. split; [exact Hrun|exact Hsum].
Defined.


