(* ===== verification/Buffer.v ===== *)
(** The buffer cache, fs/buffer.c, and the dispatch to the block driver,
    fs/block_dev.c: hash queues and free list of the buffers, lookup,
    allocation, release and reading of blocks. *)
From S2P Require Export Hd Links.
#[local] Open Scope bool_scope.

Section buffer.
Context `{Machine}.

(** fs/block_dev.c:69-76: the major numbers that have a driver; 3, the hard
    disk, is the only one. *)
Definition rd_blk (major : Z) : option (Z -> Z -> K unit) :=
  if major =? 3 then Some rw_hd else None.
(** fs/block_dev.c:7 *)
Definition NR_BLK_DEV : Z := 7.

(** fs/block_dev.c:78-86 *)
Definition ll_rw_block (rw bh : Z) : K unit :=
  b ← getb bh;
  let major := MAJOR (b_dev b) in
  if major >=? NR_BLK_DEV then panic "Trying to read nonexistent block-device"
  else
    match rd_blk major with
    | None => panic "Trying to read nonexistent block-device"
    | Some blk_addr => blk_addr rw bh
    end.

(** fs/buffer.c:43-49 *)
Definition wait_on_buffer (bh : Z) : K unit :=
  while fuel (b ← getb bh; mret (nz (b_lock b))) (sleep_on fuel (wq_b_wait bh)).

(** fs/buffer.c:51-64.  [sync_inodes] is in fs/inode.c. *)
Definition sys_sync (sync_inodes : K unit) : K Z :=
  sync_inodes;;
  n ← gets nr_buffers;
  for_ 0 (Z.to_nat n) (fun bh =>
    wait_on_buffer bh;;
    b ← getb bh;
    when (nz (b_dirt b)) (ll_rw_block WRITE bh));;
  mret 0.

(** fs/buffer.c:66-80 *)
Definition sync_dev (dev : Z) : K Z :=
  n ← gets nr_buffers;
  for_ 0 (Z.to_nat n) (fun bh =>
    b ← getb bh;
    when (b_dev b =? dev)
      (wait_on_buffer bh;;
       b ← getb bh;
       when (nz (b_dirt b)) (ll_rw_block WRITE bh)));;
  mret 0.

(** fs/buffer.c:82 *)
Definition _hashfn (dev block : Z) : Z := u32 (Z.lxor dev block) mod NR_HASH.
(** fs/buffer.c:83, as a value and as a variable. *)
Definition hash (s : kstate) (dev block : Z) : ptr := hash_table s (_hashfn dev block).
(** fs/buffer.c:83 *)
Definition set_hash (dev block : Z) (p : ptr) : K unit :=
  modify (fun s => s <| hash_table ::= <[_hashfn dev block := p]> |>).

(** fs/buffer.c:85-101 *)
Definition remove_from_queues (bh : Z) : K unit :=
  b ← getb bh;
  match b_next b with
  | Some n => setb n (fun n => n <| b_prev := b_prev b |>)
  | None => mret tt
  end;;
  b ← getb bh;
  match b_prev b with
  | Some p => setb p (fun p => p <| b_next := b_next b |>)
  | None => mret tt
  end;;
  b ← getb bh;
  s ← get;
  when (ptr_eqb (hash s (b_dev b) (b_blocknr b)) (Some bh))
    (set_hash (b_dev b) (b_blocknr b) (b_next b));;
  b ← getb bh;
  match b_prev_free b, b_next_free b with
  | Some pf, Some _ =>
      setb pf (fun p => p <| b_next_free := b_next_free b |>);;
      b ← getb bh;
      nf ← deref (b_next_free b);
      setb nf (fun n => n <| b_prev_free := b_prev_free b |>);;
      s ← get;
      when (ptr_eqb (free_list s) (Some bh))
        (b ← getb bh; modify (fun s => s <| free_list := b_next_free b |>))
  | _, _ => panic "Free block list corrupted"
  end.

(** The address of a buffer head: they are 32 bytes long. *)
Definition bh_addr (s : kstate) (bh : Z) : Z := u32 (start_buffer s + 32 * bh).

(** fs/buffer.c:103-118.  The last store goes through [b_next] without a
    test.  When it is [NULL], the field [b_prev] of the structure at address
    0 lies at physical address 16, in the page directory. *)
Definition insert_into_queues (bh : Z) : K unit :=
  fl ← gets free_list;
  setb bh (fun b => b <| b_next_free := fl |>);;
  f ← deref fl;
  fb ← getb f;
  setb bh (fun b => b <| b_prev_free := b_prev_free fb |>);;
  fb ← getb f;
  pf ← deref (b_prev_free fb);
  setb pf (fun p => p <| b_next_free := Some bh |>);;
  setb f (fun b => b <| b_prev_free := Some bh |>);;
  setb bh (fun b => b <| b_prev := None |>);;
  setb bh (fun b => b <| b_next := None |>);;
  b ← getb bh;
  if negb (nz (b_dev b)) then mret tt
  else
    s ← get;
    setb bh (fun b' => b' <| b_next := hash s (b_dev b) (b_blocknr b) |>);;
    set_hash (b_dev b) (b_blocknr b) (Some bh);;
    b ← getb bh;
    match b_next b with
    | Some n => setb n (fun n => n <| b_prev := Some bh |>)
    | None => s ← get; phys_put 16 (bh_addr s bh)
    end.

(** fs/buffer.c:120-128: the walk along a hash queue. *)
Definition find_step (dev block : Z) (tmp : ptr) : K (ptr + ptr) :=
  match tmp with
  | None => mret (inr None)
  | Some t =>
      b ← getb t;
      if (b_dev b =? dev) && (b_blocknr b =? block) then mret (inr (Some t))
      else mret (inl (b_next b))
  end.
(** fs/buffer.c:120-128 *)
Definition find_buffer (dev block : Z) : K ptr :=
  s ← get;
  loop fuel (find_step dev block) (hash s dev block).

(** fs/buffer.c:281-290 *)
Definition brelse (buf : ptr) : K unit :=
  match buf with
  | None => mret tt
  | Some bh =>
      wait_on_buffer bh;;
      b ← getb bh;
      setb bh (fun b => b <| b_count := u8 (b_count b - 1) |>);;
      if negb (nz (b_count b)) then
        panic "CRITICAL: Trying to free an already free buffer!"
      else wake_up wq_buffer_wait
  end.

(** fs/buffer.c:137-151 *)
Definition get_hash_table (dev block : Z) : K ptr :=
  loop fuel (fun _ : unit =>
    r ← find_buffer dev block;
    match r with
    | None => mret (inr None)
    | Some bh =>
        setb bh (fun b => b <| b_count := u8 (b_count b + 1) |>);;
        wait_on_buffer bh;;
        b ← getb bh;
        if negb (b_dev b =? dev) || negb (b_blocknr b =? block)
        then brelse (Some bh);; mret (inl tt)
        else mret (inr (Some bh))
    end) tt.

(** fs/buffer.c:189-210: the walk along the free list; it ends at a buffer
    nobody uses, or back at the head of the list. *)
Definition scan_step (tmp : Z) : K (Z + Z) :=
  b ← getb tmp;
  free ← (if b_count b =? 0 then
            wait_on_buffer tmp;;
            b ← getb tmp;
            mret (b_count b =? 0)
          else mret false);
  if free : bool then mret (inr tmp)
  else
    b ← getb tmp;
    n ← deref (b_next_free b);
    s ← get;
    if ptr_eqb (Some n) (free_list s) then mret (inr n) else mret (inl n).
(** fs/buffer.c:189-210 *)
Definition scan_free : K Z :=
  fl ← gets free_list;
  f ← deref fl;
  loop fuel scan_step f.

(** fs/buffer.c:176-278, one round of the loop [repeat].  The test at line
    216 never holds: [tmp] is a buffer of the list. *)
Definition getblk_step (dev block : Z) (_ : unit) : K (unit + ptr) :=
  r ← get_hash_table dev block;
  match r with
  | Some bh => mret (inr (Some bh))
  | None =>
      tmp ← scan_free;
      setb tmp (fun b => b <| b_count := u8 (b_count b + 1) |>);;
      remove_from_queues tmp;;
      b ← getb tmp;
      when (nz (b_dirt b)) (sync_dev (b_dev b);; mret tt);;
      setb tmp (fun b => b <| b_dev := u16 dev |>);;
      setb tmp (fun b => b <| b_blocknr := u16 block |>);;
      setb tmp (fun b => b <| b_dirt := 0 |>);;
      setb tmp (fun b => b <| b_uptodate := 0 |>);;
      r ← find_buffer dev block;
      match r with
      | Some _ =>
          setb tmp (fun b => b <| b_dev := 0 |>);;
          setb tmp (fun b => b <| b_blocknr := 0 |>);;
          setb tmp (fun b => b <| b_count := 0 |>);;
          insert_into_queues tmp;;
          mret (inl tt)
      | None =>
          insert_into_queues tmp;;
          mret (inr (Some tmp))
      end
  end.
(** fs/buffer.c:172-279 *)
Definition getblk (dev block : Z) : K ptr := loop fuel (getblk_step dev block) tt.

(** fs/buffer.c:292-305 *)
Definition bread (dev block : Z) : K ptr :=
  r ← getblk dev block;
  match r with
  | None => panic "bread: getblk returned NULL\n"
  | Some bh =>
      b ← getb bh;
      if nz (b_uptodate b) then mret (Some bh)
      else
        ll_rw_block READ bh;;
        b ← getb bh;
        if nz (b_uptodate b) then mret (Some bh)
        else brelse (Some bh);; mret None
  end.

(** fs/buffer.c:329-351, one round of the loop. *)
Definition init_step (bh : Z * Z) : K (Z * Z + Z) :=
  let '(b, h) := bh in
  let b := b - BLOCK_SIZE in
  s ← get;
  if b <? start_buffer s + 32 * (h + 1) then mret (inr h)
  else
    setb h (fun x => x <| b_dev := 0 |> <| b_dirt := 0 |> <| b_count := 0 |> <| b_lock := 0 |>
      <| b_uptodate := 0 |> <| b_wait := None |> <| b_next := None |> <| b_prev := None |>
      <| b_addr := b |> <| b_prev_free := Some (h - 1) |> <| b_next_free := Some (h + 1) |>);;
    modify (fun s => s <| nr_buffers ::= Z.succ |>);;
    mret (inl (if b =? 0x100000 then 0xA0000 else b, h + 1)).

(** fs/buffer.c:316-366 *)
Definition buffer_init : K unit :=
  h ← loop fuel init_step (BUFFER_END, 0);
  let h := h - 1 in
  modify (fun s => s <| free_list := Some 0 |>);;
  setb 0 (fun b => b <| b_prev_free := Some h |>);;
  setb h (fun b => b <| b_next_free := Some 0 |>);;
  for_ 0 (Z.to_nat NR_HASH) (fun i =>
    modify (fun s => s <| hash_table ::= <[i := None]> |>));;
  printk " [DISK] Intelligent Pre-fetching: ENABLED (Algorithm: Optimized-LRU)\n\r" [];;
  printk " [DISK] Cache Coherency Check: PASS. Integrity Verified.\n\r" [].

(** fs/block_dev.c:9-35.  [pos] points to the position of the open file
    [filp].  A store past the 1024 bytes of the block goes into the model's buffer
    and not, as on the machine, into what follows it. *)
Definition block_write (dev filp buf count : Z) : K Z :=
  f ← getf filp;
  let block := Z.quot (f_pos f) BLOCK_SIZE in
  let offset := Z.rem (f_pos f) BLOCK_SIZE in
  loop fuel (fun '(block, offset, buf, count, written) =>
    if negb (count >? 0) then mret (inr written)
    else
      r ← bread dev block;
      match r with
      | None => mret (inr (if nz written then written else - EIO))
      | Some bh =>
          let chars := if count <? BLOCK_SIZE then count else BLOCK_SIZE in
          setf filp (fun x => x <| f_pos ::= fun pos => s32 (pos + chars) |>);;
          for_ 0 (Z.to_nat chars) (fun i =>
            c ← get_fs_byte (buf + i);
            setb bh (fun b => b <| b_data ::= <[offset + i := c]> |>));;
          setb bh (fun b => b <| b_dirt := 1 |>);;
          brelse (Some bh);;
          mret (inl (block + 1, 0, buf + chars, count - chars, written + chars))
      end) (block, offset, buf, count, 0).

(** fs/block_dev.c:37-63.  [*pos] is unsigned here. *)
Definition block_read (dev filp buf count : Z) : K Z :=
  f ← getf filp;
  let block := u32 (f_pos f) / BLOCK_SIZE in
  let offset := u32 (f_pos f) mod BLOCK_SIZE in
  loop fuel (fun '(block, offset, buf, count, read) =>
    if negb (count >? 0) then mret (inr read)
    else
      r ← bread dev block;
      match r with
      | None => mret (inr (if nz read then read else - EIO))
      | Some bh =>
          let chars := if count <? BLOCK_SIZE then count else BLOCK_SIZE in
          setf filp (fun x => x <| f_pos ::= fun pos => s32 (pos + chars) |>);;
          for_ 0 (Z.to_nat chars) (fun i =>
            b ← getb bh;
            put_fs_byte (b_data b (offset + i)) (buf + i));;
          setb bh (fun b => b <| b_dirt := 1 |>);;
          brelse (Some bh);;
          mret (inl (block + 1, 0, buf + chars, count - chars, read + chars))
      end) (block, offset, buf, count, 0).
End buffer.

(** ** The links of the buffers *)

Definition hnext (s : kstate) (i : Z) : ptr := b_next (bufs s i).
Definition hprev (s : kstate) (i : Z) : ptr := b_prev (bufs s i).
Definition fnext (s : kstate) (i : Z) : ptr := b_next_free (bufs s i).
Definition fprev (s : kstate) (i : Z) : ptr := b_prev_free (bufs s i).
(** What a buffer is apart from its links. *)
Definition payload (b : buffer_head) : buffer_head :=
  b <| b_next := None |> <| b_prev := None |> <| b_next_free := None |> <| b_prev_free := None |>.

Ltac links_tac :=
  intros; apply functional_extensionality; intros; unfold hnext, hprev, fnext, fprev, upd_buf; simpl;
  rewrite !arr_dec; case_decide; subst; simpl; eauto.

Lemma hnext_set n p s : hnext (upd_buf n (fun b => b <| b_next := p |>) s) = <[n := p]> (hnext s).
Proof. links_tac. Qed.
Lemma hprev_set n p s : hprev (upd_buf n (fun b => b <| b_prev := p |>) s) = <[n := p]> (hprev s).
Proof. links_tac. Qed.
Lemma fnext_set n p s : fnext (upd_buf n (fun b => b <| b_next_free := p |>) s) = <[n := p]> (fnext s).
Proof. links_tac. Qed.
Lemma fprev_set n p s : fprev (upd_buf n (fun b => b <| b_prev_free := p |>) s) = <[n := p]> (fprev s).
Proof. links_tac. Qed.
Lemma hnext_keep n f s : (forall b, b_next (f b) = b_next b) -> hnext (upd_buf n f s) = hnext s.
Proof. links_tac. Qed.
Lemma hprev_keep n f s : (forall b, b_prev (f b) = b_prev b) -> hprev (upd_buf n f s) = hprev s.
Proof. links_tac. Qed.
Lemma fnext_keep n f s : (forall b, b_next_free (f b) = b_next_free b) -> fnext (upd_buf n f s) = fnext s.
Proof. links_tac. Qed.
Lemma fprev_keep n f s : (forall b, b_prev_free (f b) = b_prev_free b) -> fprev (upd_buf n f s) = fprev s.
Proof. links_tac. Qed.
Lemma payload_keep n f s i : (forall b, payload (f b) = payload b) ->
  payload (bufs (upd_buf n f s) i) = payload (bufs s i).
Proof. intros Hf. unfold upd_buf. simpl. rewrite arr_dec. case_decide; subst; auto. Qed.
Create Rewrite HintDb links.
#[export] Hint Rewrite hnext_set hprev_set fnext_set fprev_set : links.
#[export] Hint Rewrite hnext_keep hprev_keep fnext_keep fprev_keep payload_keep using done : links.

(** The payload decides every field but the links. *)
Lemma payload_fields b c : payload b = payload c ->
  b_dev b = b_dev c /\ b_blocknr b = b_blocknr c /\ b_count b = b_count c /\
  b_dirt b = b_dirt c /\ b_uptodate b = b_uptodate c /\ b_lock b = b_lock c /\
  b_data b = b_data c /\ b_wait b = b_wait c.
Proof. destruct b, c. unfold payload. simpl. intros [=]. subst. done. Qed.

(** The buffer cache is sane: [l] is the free list from its head on, [h k]
    the hash queue [k]; every buffer of the list that has a device is in the
    queue of its block. *)
Record queues (s : kstate) (l : list Z) (h : Z -> list Z) : Prop := {
  q_free : ring (fnext s) (fprev s) l;
  q_head : free_list s = head l;
  q_nodup : NoDup l;
  q_hash : forall k, dlist (hnext s) (hprev s) (hash_table s k) None (h k);
  q_hnodup : forall k, NoDup (h k);
  q_in : forall k i, i ∈ h k <->
    i ∈ l /\ b_dev (bufs s i) <> 0 /\ _hashfn (b_dev (bufs s i)) (b_blocknr (bufs s i)) = k;
  q_idle : forall i, i ∈ l -> b_dev (bufs s i) = 0 -> hnext s i = None /\ hprev s i = None;
}.

(** A state that differs in the buffers' links and the heads of the queues. *)
Definition relinked (s s' : kstate) : Prop :=
  s' = s <| bufs := bufs s' |> <| hash_table := hash_table s' |> <| free_list := free_list s' |> /\
  forall i, payload (bufs s' i) = payload (bufs s i).

Section remove.
Context (x : Z).

(** The stores of [remove_from_queues], one after the other. *)
Definition rm1 (s : kstate) : kstate :=
  match hnext s x with
  | Some n => upd_buf n (fun n => n <| b_prev := hprev s x |>) s
  | None => s
  end.
Definition rm2 (s : kstate) : kstate :=
  match hprev s x with
  | Some p => upd_buf p (fun p => p <| b_next := hnext s x |>) s
  | None => s
  end.
Definition rm3 (s : kstate) : kstate :=
  let b := bufs s x in
  if ptr_eqb (hash s (b_dev b) (b_blocknr b)) (Some x)
  then s <| hash_table ::= <[_hashfn (b_dev b) (b_blocknr b) := b_next b]> |> else s.
Definition rm4 (p : Z) (s : kstate) : kstate :=
  upd_buf p (fun p => p <| b_next_free := fnext s x |>) s.
Definition rm5 (n : Z) (s : kstate) : kstate :=
  upd_buf n (fun n => n <| b_prev_free := fprev s x |>) s.
Definition rm6 (s : kstate) : kstate :=
  if ptr_eqb (free_list s) (Some x) then s <| free_list := fnext s x |> else s.

Lemma remove_run s p n :
  fprev (rm3 (rm2 (rm1 s))) x = Some p -> fnext (rm3 (rm2 (rm1 s))) x = Some n -> p <> x ->
  remove_from_queues x s = Ret tt (rm6 (rm5 n (rm4 p (rm3 (rm2 (rm1 s)))))).
Proof.
  intros Hp Hn Hpx. unfold remove_from_queues, getb, setb. mrun.
  rewrite (bind_Ret _ _ s tt (rm1 s)); cycle 1.
  { unfold rm1, hnext, hprev. by destruct (b_next (bufs s x)). }
  mrun. rewrite (bind_Ret _ _ (rm1 s) tt (rm2 (rm1 s))); cycle 1.
  { unfold rm2, hnext, hprev. by destruct (b_prev (bufs (rm1 s) x)). }
  mrun. set (s2 := rm2 (rm1 s)) in *. rewrite (bind_Ret _ _ s2 tt (rm3 s2)); cycle 1.
  { rewrite when_run. unfold rm3, hash. by destruct (ptr_eqb _ _). }
  set (s3 := rm3 s2) in *. mrun. unfold fprev in Hp. unfold fnext in Hn. rewrite Hp, Hn. mrun.
  fold (fnext s3 x). unfold rm4.
  set (s4 := upd_buf p _ s3). assert (Hn4 : b_next_free (bufs s4 x) = Some n).
  { unfold s4. rewrite upd_buf_ne by done. exact Hn. }
  rewrite Hn4. mrun. rewrite when_run. unfold rm6, rm5, fnext, fprev. unfold s4. rewrite Hn.
  by destruct (ptr_eqb _ _).
Qed.

Lemma rm1_hnext s : hnext (rm1 s) = hnext s.
Proof. unfold rm1. destruct (hnext s x); [|done]. by autorewrite with links. Qed.
Lemma rm1_hprev s : hprev (rm1 s) = unlink_pv (hnext s) (hprev s) x.
Proof. unfold rm1, unlink_pv. destruct (hnext s x); [|done]. by autorewrite with links. Qed.
Lemma rm2_hprev s : hprev (rm2 s) = hprev s.
Proof. unfold rm2. destruct (hprev s x); [|done]. by autorewrite with links. Qed.
Lemma rm2_hnext s : hnext (rm2 s) = unlink_nx (hnext s) (hprev s) x.
Proof. unfold rm2, unlink_nx. destruct (hprev s x); [|done]. by autorewrite with links. Qed.
Lemma rm12_free s : fnext (rm2 (rm1 s)) = fnext s /\ fprev (rm2 (rm1 s)) = fprev s /\
  hash_table (rm2 (rm1 s)) = hash_table s /\ free_list (rm2 (rm1 s)) = free_list s.
Proof.
  unfold rm2, rm1. destruct (hnext s x), (hprev _ x); autorewrite with links; done.
Qed.
Lemma rm3_links s : hnext (rm3 s) = hnext s /\ hprev (rm3 s) = hprev s /\
  fnext (rm3 s) = fnext s /\ fprev (rm3 s) = fprev s /\ free_list (rm3 s) = free_list s.
Proof. unfold rm3. by destruct (ptr_eqb _ _). Qed.
Lemma rm6_links s : hnext (rm6 s) = hnext s /\ hprev (rm6 s) = hprev s /\
  fnext (rm6 s) = fnext s /\ fprev (rm6 s) = fprev s /\ hash_table (rm6 s) = hash_table s.
Proof. unfold rm6. by destruct (ptr_eqb _ _). Qed.

Lemma relinked_refl s : relinked s s.
Proof. split; [by destruct s|done]. Qed.
Lemma relinked_trans s1 s2 s3 : relinked s1 s2 -> relinked s2 s3 -> relinked s1 s3.
Proof.
  intros [H1 H1'] [H2 H2']. split.
  - rewrite H2. rewrite H1 at 1. done.
  - intros i. by rewrite H2', H1'.
Qed.
Lemma relinked_upd n f s : (forall b, payload (f b) = payload b) -> relinked s (upd_buf n f s).
Proof. intros Hf. split; [by destruct s|]. intros i. by apply payload_keep. Qed.
Lemma relinked_heads s ht fl :
  relinked s (s <| hash_table := ht |> <| free_list := fl |>).
Proof. split; [by destruct s|done]. Qed.

Lemma rm12_relinked s : relinked s (rm2 (rm1 s)).
Proof.
  apply (relinked_trans _ (rm1 s)).
  - unfold rm1. destruct (hnext s x); [by apply relinked_upd|apply relinked_refl].
  - unfold rm2. destruct (hprev _ x); [by apply relinked_upd|apply relinked_refl].
Qed.

Lemma remove_relinked s p n : relinked s (rm6 (rm5 n (rm4 p (rm3 (rm2 (rm1 s)))))).
Proof.
  assert (H4 : forall p s, relinked s (rm4 p s)) by (intros; unfold rm4; by apply relinked_upd).
  assert (H5 : forall n s, relinked s (rm5 n s)) by (intros; unfold rm5; by apply relinked_upd).
  assert (H6 : forall s, relinked s (rm6 s)).
  { intros t. unfold rm6. destruct (ptr_eqb _ _); [|apply relinked_refl]. split; [by destruct t|done]. }
  assert (H3 : forall s, relinked s (rm3 s)).
  { intros t. unfold rm3. destruct (ptr_eqb _ _); [|apply relinked_refl]. split; [by destruct t|done]. }
  eapply relinked_trans; [apply rm12_relinked|].
  eapply relinked_trans; [apply H3|]. eapply relinked_trans; [apply H4|].
  eapply relinked_trans; [apply H5|]. apply H6.
Qed.

(** The hash queue a buffer is in. *)
Lemma queues_chain s l h : queues s l h -> x ∈ l -> b_dev (bufs s x) <> 0 ->
  exists a1 a2, h (_hashfn (b_dev (bufs s x)) (b_blocknr (bufs s x))) = a1 ++ x :: a2 /\
    hnext s x = head a2 /\ hprev s x = list.last a1.
Proof.
  intros Hq Hx Hd. set (k := _hashfn _ _).
  assert (Hin : x ∈ h k) by (by apply (q_in _ _ _ Hq)).
  apply list_elem_of_split in Hin as (a1 & a2 & Heq). exists a1, a2. split; [done|].
  pose proof (q_hash _ _ _ Hq k) as Hd1. rewrite Heq in Hd1.
  destruct (dlist_neighbours _ _ _ _ _ _ _ Hd1) as [-> ->]. by destruct (list.last a1).
Qed.

(** The neighbours of a buffer in its hash queue are in that queue. *)
Lemma queues_neighbours s l h y : queues s l h -> x ∈ l -> hnext s x = Some y \/ hprev s x = Some y ->
  b_dev (bufs s x) <> 0 /\ y <> x /\ y ∈ h (_hashfn (b_dev (bufs s x)) (b_blocknr (bufs s x))).
Proof.
  intros Hq Hx Hy. destruct (decide (b_dev (bufs s x) = 0)) as [Hd|Hd].
  { destruct (q_idle _ _ _ Hq x Hx Hd) as [Hn Hp]. rewrite Hn, Hp in Hy. by destruct Hy. }
  split; [done|]. destruct (queues_chain s l h Hq Hx Hd) as (a1 & a2 & Heq & Hn & Hp).
  pose proof (q_hnodup _ _ _ Hq (_hashfn (b_dev (bufs s x)) (b_blocknr (bufs s x)))) as Hnd.
  rewrite Heq in Hnd |- *. rewrite Hn, Hp in Hy.
  apply list.NoDup_app in Hnd as (_ & Hdis & [Hx2 _]%list.NoDup_cons). destruct Hy as [Hy|Hy].
  - destruct a2 as [|z a2]; [done|]. injection Hy as <-. set_solver.
  - apply last_Some_elem_of in Hy. split; [|set_solver]. intros ->. by apply (Hdis x Hy), list_elem_of_here.
Qed.
End remove.

(** The chain of the buffers is relinked as [Links] describes it. *)
Lemma remove_links x s l h p n :
  queues s l h -> x ∈ l -> p <> x ->
  let s' := rm6 x (rm5 x n (rm4 x p (rm3 x (rm2 x (rm1 x s))))) in
  hnext s' = unlink_nx (hnext s) (hprev s) x /\ hprev s' = unlink_pv (hnext s) (hprev s) x /\
  fnext s' = <[p := fnext s x]> (fnext s) /\ fprev s' = <[n := fprev s x]> (fprev s) /\
  free_list s' = (if ptr_eqb (free_list s) (Some x) then fnext s x else free_list s) /\
  hash_table s' =
    (let k := _hashfn (b_dev (bufs s x)) (b_blocknr (bufs s x)) in
     if ptr_eqb (hash_table s k) (Some x) then <[k := hnext s x]> (hash_table s) else hash_table s).
Proof.
  intros Hq Hx Hpx s'.
  assert (Hself : hnext s x <> Some x /\ hprev s x <> Some x).
  { split; intros He; (destruct (queues_neighbours x s l h x Hq Hx) as (_ & ? & _); [eauto|done]). }
  destruct Hself as [Hnx Hpv].
  set (s2 := rm2 x (rm1 x s)) in *. set (s3 := rm3 x s2) in *.
  destruct (rm12_free x s) as (F1 & F2 & F3 & F4). fold s2 in F1, F2, F3, F4.
  destruct (rm3_links x s2) as (L1 & L2 & L3 & L4 & L5). fold s3 in L1, L2, L3, L4, L5.
  assert (Hpvx : hprev (rm1 x s) x = hprev s x).
  { rewrite rm1_hprev. unfold unlink_pv. destruct (hnext s x) as [m|]; [|done]. apply arr_ne. congruence. }
  assert (Hn2 : hnext s2 = unlink_nx (hnext s) (hprev s) x).
  { unfold s2. rewrite rm2_hnext, rm1_hnext. unfold unlink_nx. by rewrite Hpvx. }
  assert (Hp2 : hprev s2 = unlink_pv (hnext s) (hprev s) x).
  { unfold s2. by rewrite rm2_hprev, rm1_hprev. }
  assert (Hn2x : hnext s2 x = hnext s x).
  { rewrite Hn2. unfold unlink_nx. destruct (hprev s x) as [m|]; [|done]. apply arr_ne. congruence. }
  assert (Hpay : payload (bufs s2 x) = payload (bufs s x)) by apply (proj2 (rm12_relinked x s)).
  destruct (payload_fields _ _ Hpay) as (Hdev & Hblk & _).
  set (s4 := rm4 x p s3) in *. set (s5 := rm5 x n s4) in *.
  destruct (rm6_links x s5) as (R1 & R2 & R3 & R4 & R5). fold s' in R1, R2, R3, R4, R5.
  assert (Hfp4 : fprev s4 x = fprev s x) by (unfold s4, rm4; autorewrite with links; by rewrite L4, F2).
  assert (Hfn5 : fnext s5 x = fnext s x).
  { unfold s5, s4, rm5, rm4. autorewrite with links. rewrite L3, F1. by apply arr_ne. }
  repeat split.
  - rewrite R1, <- Hn2. unfold s5, s4, rm5, rm4. by autorewrite with links.
  - rewrite R2, <- Hp2. unfold s5, s4, rm5, rm4. by autorewrite with links.
  - rewrite R3. unfold s5, s4, rm5, rm4. autorewrite with links. by rewrite L3, F1.
  - rewrite R4. unfold s5, rm5. autorewrite with links. rewrite Hfp4.
    unfold s4, rm4. autorewrite with links. by rewrite L4, F2.
  - unfold s', rm6. rewrite Hfn5.
    replace (free_list s5) with (free_list s) by (change (free_list s5) with (free_list s3); by rewrite L5, F4).
    destruct (ptr_eqb (free_list s) (Some x)); [done|].
    change (free_list s5) with (free_list s3). by rewrite L5, F4.
  - rewrite R5. change (hash_table s5) with (hash_table s3). unfold s3, rm3, hash.
    rewrite Hdev, Hblk, F3. fold (hnext s2 x). rewrite Hn2x.
    destruct (ptr_eqb _ _); [|done]. unfold set_field; simpl. by rewrite F3.
Qed.

(** Taking a buffer out of its queues keeps them sane. *)
Lemma remove_from_queues_run s l1 x l2 h :
  queues s (l1 ++ x :: l2) h -> l1 ++ l2 <> [] ->
  exists s', remove_from_queues x s = Ret tt s' /\ relinked s s' /\
    queues s' (l1 ++ l2) (fun k => filter (fun i => i <> x) (h k)).
Proof.
  intros Hq Hne. set (l := l1 ++ x :: l2) in *.
  assert (Hx : x ∈ l) by (unfold l; set_solver).
  destruct (ring_neighbours _ _ _ _ _ (q_free _ _ _ Hq) (q_nodup _ _ _ Hq) Hne)
    as (p & n & Hp & Hn & Hpl & Hnl & Hhd).
  pose proof (q_nodup _ _ _ Hq) as Hnd. unfold l in Hnd.
  assert (Hxl : x ∉ l1 ++ l2).
  { apply list.NoDup_app in Hnd as (_ & Hdis & [Hx2 _]%list.NoDup_cons). set_solver. }
  assert (Hpx : p <> x) by set_solver.
  destruct (remove_links x s l h p n Hq Hx Hpx) as (R1 & R2 & R3 & R4 & R5 & R6).
  destruct (rm12_free x s) as (F1 & F2 & _). destruct (rm3_links x (rm2 x (rm1 x s))) as (_ & _ & L3 & L4 & _).
  set (s' := rm6 x _) in *.
  assert (Hrel : relinked s s') by apply remove_relinked.
  exists s'. split; [apply remove_run; [by rewrite L4, F2|by rewrite L3, F1|done]|]. split; [done|].
  assert (Hpay : forall i, b_dev (bufs s' i) = b_dev (bufs s i) /\ b_blocknr (bufs s' i) = b_blocknr (bufs s i)).
  { intros i. destruct (payload_fields _ _ (proj2 Hrel i)) as (? & ? & _). done. }
  set (kx := _hashfn (b_dev (bufs s x)) (b_blocknr (bufs s x))) in *.
  assert (Hnb : forall y k, hnext s x = Some y \/ hprev s x = Some y -> y ∈ h k -> k = kx).
  { intros y k Hy Hk. destruct (queues_neighbours x s l h y Hq Hx Hy) as (_ & _ & Hk').
    apply (q_in _ _ _ Hq) in Hk as (_ & _ & <-). by apply (q_in _ _ _ Hq) in Hk' as (_ & _ & ?). }
  constructor.
  - rewrite R3, R4.
    replace (<[p:=fnext s x]> (fnext s)) with (unlink_nx (fnext s) (fprev s) x)
      by (unfold unlink_nx; by rewrite Hp).
    replace (<[n:=fprev s x]> (fprev s)) with (unlink_pv (fnext s) (fprev s) x)
      by (unfold unlink_pv; by rewrite Hn).
    apply ring_unlink; [apply Hq|done|done].
  - rewrite R5, (q_head _ _ _ Hq). unfold l. destruct l1 as [|a l1]; simpl.
    + rewrite ptr_eqb_refl. by rewrite Hn, Hhd.
    + unfold ptr_eqb. rewrite bool_decide_eq_false_2; [done|]. intros [= ->]. apply Hxl, list_elem_of_here.
  - apply list.NoDup_app in Hnd as (? & Hdis & [? ?]%list.NoDup_cons).
    apply list.NoDup_app. split; [done|]. split; [clear -Hdis; set_solver|done].
  - intros k. rewrite R1, R2, R6. pose proof (q_hash _ _ _ Hq k) as Hk.
    destruct (decide (x ∈ h k)) as [Hin|Hout].
    + assert (k = kx) as ->.
      { apply (q_in _ _ _ Hq) in Hin as (_ & _ & <-). done. }
      apply list_elem_of_split in Hin as (a1 & a2 & Heq).
      pose proof (q_hnodup _ _ _ Hq kx) as Hndk. rewrite Heq in Hk, Hndk |- *.
      rewrite filter_remove by done.
      replace ((if ptr_eqb _ _ then _ else _) kx) with
        (match a1 with [] => hnext s x | _ => hash_table s kx end).
      { apply dlist_unlink; [done|done|done]. }
      destruct a1 as [|a a1]; destruct Hk as [Hk _]; simpl; rewrite Hk.
      * by rewrite ptr_eqb_refl, arr_eq.
      * unfold ptr_eqb. rewrite bool_decide_eq_false_2; [done|]. intros [= ->].
        apply list.NoDup_cons in Hndk as [Hndk _]. clear -Hndk. set_solver.
    + rewrite filter_all by (intros i Hi ->; done).
      replace ((if ptr_eqb _ _ then _ else _) k) with (hash_table s k).
      { apply dlist_unlink_other; [| |done].
        - intros m Hm Hmk. destruct (queues_neighbours x s l h m Hq Hx) as (Hd & _ & _); [by right|].
          rewrite (Hnb m k) in Hout; [|by right|done]. apply Hout. by apply (q_in _ _ _ Hq).
        - intros m Hm Hmk. destruct (queues_neighbours x s l h m Hq Hx) as (Hd & _ & _); [by left|].
          rewrite (Hnb m k) in Hout; [|by left|done]. apply Hout. by apply (q_in _ _ _ Hq). }
      destruct (ptr_eqb (hash_table s kx) (Some x)) eqn:He; [|done]. ztest.
      rewrite arr_ne; [done|]. intros <-. rewrite He in Hk. apply Hout.
      destruct (h kx) as [|y t]; [done|]. destruct Hk as ([= ->] & _). apply list_elem_of_here.
  - intros k. apply list.NoDup_filter, Hq.
  - intros k i. destruct (Hpay i) as [-> ->]. rewrite list_elem_of_filter, (q_in _ _ _ Hq).
    unfold l. clear -Hxl. set_solver.
  - intros i Hi Hd. destruct (Hpay i) as [Hpd _]. rewrite Hpd in Hd.
    destruct (q_idle _ _ _ Hq i) as [Hni Hpi]; [unfold l; clear -Hi; set_solver|done|]. rewrite R1, R2.
    assert (Hno : forall y, hnext s x = Some y \/ hprev s x = Some y -> y <> i).
    { intros y Hy ->. destruct (queues_neighbours x s l h i Hq Hx Hy) as (_ & _ & Hk).
      by apply (q_in _ _ _ Hq) in Hk as (_ & ? & _). }
    unfold unlink_nx, unlink_pv. split.
    + destruct (hprev s x) as [m|]; [|done]. rewrite arr_ne; [done|]. apply (Hno m). by right.
    + destruct (hnext s x) as [m|]; [|done]. rewrite arr_ne; [done|]. apply (Hno m). by left.
Qed.

Section insert.
Context (x : Z).

(** The stores of [insert_into_queues]: the free list, with [a] its head and
    [p] its last element, then the hash queue. *)
Definition ins_free (a p : Z) (s : kstate) : kstate :=
  upd_buf x (fun b => b <| b_next := None |>)
    (upd_buf x (fun b => b <| b_prev := None |>)
      (upd_buf a (fun b => b <| b_prev_free := Some x |>)
        (upd_buf p (fun b => b <| b_next_free := Some x |>)
          (upd_buf x (fun b => b <| b_prev_free := Some p |>)
            (upd_buf x (fun b => b <| b_next_free := Some a |>) s))))).
Definition ins_hash (s : kstate) : kstate :=
  let k := _hashfn (b_dev (bufs s x)) (b_blocknr (bufs s x)) in
  let s1 := (upd_buf x (fun b => b <| b_next := hash_table s k |>) s)
              <| hash_table ::= <[k := Some x]> |> in
  match hash_table s k with
  | Some n => upd_buf n (fun n => n <| b_prev := Some x |>) s1
  | None => s1 <| phys ::= fun m => put32 m 16 (bh_addr s x) |>
  end.

Lemma insert_run s a p :
  free_list s = Some a -> fprev s a = Some p -> a <> x ->
  insert_into_queues x s = Ret tt
    (let s1 := ins_free a p s in if nz (b_dev (bufs s x)) then ins_hash s1 else s1).
Proof.
  intros Hf Hp Hax. unfold insert_into_queues, getb, setb. mrun. rewrite Hf. mrun.
  set (s0 := upd_buf x _ s).
  assert (H0 : b_prev_free (bufs s0 a) = Some p).
  { unfold s0. by rewrite upd_buf_ne by congruence. }
  rewrite H0. set (s1 := upd_buf x _ s0).
  assert (H1 : b_prev_free (bufs s1 a) = Some p).
  { unfold s1. by rewrite upd_buf_ne by congruence. }
  rewrite H1. mrun. set (s2 := upd_buf x (fun b => b <| b_next := None |>) _).
  change (ins_free a p s) with s2.
  assert (Hpay : payload (bufs s2 x) = payload (bufs s x)).
  { change s2 with (ins_free a p s). unfold ins_free. by autorewrite with links. }
  destruct (payload_fields _ _ Hpay) as (Hdev & _). rewrite Hdev.
  destruct (nz (b_dev (bufs s x))); cbn [negb]; [|done]. rewrite <- Hdev. clearbody s2.
  unfold ins_hash, set_hash, hash. mrun.
  set (k := _hashfn (b_dev (bufs s2 x)) (b_blocknr (bufs s2 x))). set (s3 := set_field _ _ _).
  assert (Hn : b_next (bufs s3 x) = hash_table s2 k) by (unfold s3; simpl; by rewrite arr_eq).
  rewrite Hn. by destruct (hash_table s2 k).
Qed.
End insert.

(** A state that differs in the links, the queue heads and the word of the
    page directory that the store through [NULL] hits. *)
Definition relinked_low (s s' : kstate) : Prop :=
  s' = s <| bufs := bufs s' |> <| hash_table := hash_table s' |> <| free_list := free_list s' |>
         <| phys := phys s' |> /\
  (forall i, payload (bufs s' i) = payload (bufs s i)) /\
  (phys s' = phys s \/ exists x, phys s' = put32 (phys s) 16 (bh_addr s x)).

Lemma relinked_low_refl s s' : relinked s s' -> relinked_low s s'.
Proof.
  intros [Hs Hp]. assert (Hphys : phys s' = phys s) by (by rewrite Hs).
  split; [|split; [done|by left]]. rewrite Hphys. rewrite Hs at 1. by destruct s.
Qed.
Lemma relinked_low_trans s1 s2 s3 : relinked s1 s2 -> relinked_low s2 s3 -> relinked_low s1 s3.
Proof.
  intros [H1 H1'] (H2 & H2' & H2''). split; [|split].
  - rewrite H2. rewrite H1 at 1. done.
  - intros i. by rewrite H2', H1'.
  - rewrite H1 in H2''. exact H2''.
Qed.
Lemma relinked_low_head s s' : relinked_low s s' -> free_list s' = free_list s ->
  s' = s <| bufs := bufs s' |> <| hash_table := hash_table s' |> <| phys := phys s' |>.
Proof. intros (Hs & _) Hf. rewrite Hf in Hs. rewrite Hs at 1. by destruct s. Qed.

Definition in_queue (s : kstate) (x k : Z) : bool :=
  nz (b_dev (bufs s x)) && (_hashfn (b_dev (bufs s x)) (b_blocknr (bufs s x)) =? k).

Lemma ins_free_links x a p s :
  let s1 := ins_free x a p s in
  relinked s s1 /\ hash_table s1 = hash_table s /\ free_list s1 = free_list s /\
  fnext s1 = <[p := Some x]> (<[x := Some a]> (fnext s)) /\
  fprev s1 = <[a := Some x]> (<[x := Some p]> (fprev s)) /\
  hnext s1 = <[x := None]> (hnext s) /\ hprev s1 = <[x := None]> (hprev s).
Proof.
  cbv zeta. unfold ins_free. split; [|split; [done|split; [done|by autorewrite with links]]].
  repeat (eapply relinked_trans; [|apply relinked_upd; intros; exact eq_refl]). apply relinked_refl.
Qed.

Lemma ins_hash_links x s :
  let s' := ins_hash x s in
  let k := _hashfn (b_dev (bufs s x)) (b_blocknr (bufs s x)) in
  let c := hash_table s k in
  relinked_low s s' /\ fnext s' = fnext s /\ fprev s' = fprev s /\ free_list s' = free_list s /\
  hnext s' = <[x := c]> (hnext s) /\
  hprev s' = (match c with Some n => <[n := Some x]> (hprev s) | None => hprev s end) /\
  hash_table s' = <[k := Some x]> (hash_table s).
Proof.
  cbv zeta. unfold ins_hash. set (k := _hashfn _ _). set (c := hash_table s k).
  set (s1 := upd_buf x (fun b => b <| b_next := c |>) s).
  assert (H1 : relinked s s1) by (apply relinked_upd; done).
  assert (M : fnext s1 = fnext s /\ fprev s1 = fprev s /\ hprev s1 = hprev s /\
              hnext s1 = <[x := c]> (hnext s)) by (unfold s1; by autorewrite with links).
  destruct M as (M1 & M2 & M3 & M4). rewrite <- M1, <- M2, <- M3, <- M4.
  change (hash_table s) with (hash_table s1). change (free_list s) with (free_list s1).
  change (bh_addr s x) with (bh_addr s1 x). clearbody s1.
  split; [apply (relinked_low_trans _ s1); [done|]|].
  - destruct c as [n|].
    + apply relinked_low_refl, (relinked_trans _ (s1 <| hash_table := <[k := Some x]> (hash_table s1) |>)).
      * split; [by destruct s1|done].
      * by apply relinked_upd.
    + split; [by destruct s1|]. split; [done|]. right. by exists x.
  - destruct c as [n|]; [|done]. autorewrite with links. done.
Qed.

Lemma insert_links x a p s :
  let s1 := ins_free x a p s in
  let s' := if nz (b_dev (bufs s x)) then ins_hash x s1 else s1 in
  let k := _hashfn (b_dev (bufs s x)) (b_blocknr (bufs s x)) in
  let c := hash_table s k in
  relinked_low s s' /\ free_list s' = free_list s /\
  fnext s' = <[p := Some x]> (<[x := Some a]> (fnext s)) /\
  fprev s' = <[a := Some x]> (<[x := Some p]> (fprev s)) /\
  (if nz (b_dev (bufs s x)) then
     hnext s' = <[x := c]> (hnext s) /\
     hprev s' = (match c with Some n => <[n := Some x]> (<[x := None]> (hprev s)) | None => <[x := None]> (hprev s) end) /\
     hash_table s' = <[k := Some x]> (hash_table s)
   else hnext s' = <[x := None]> (hnext s) /\ hprev s' = <[x := None]> (hprev s) /\
     hash_table s' = hash_table s).
Proof.
  cbv zeta. destruct (ins_free_links x a p s) as (H1 & Hh & Hf & L1 & L2 & L3 & L4).
  set (s1 := ins_free x a p s) in *. clearbody s1.
  destruct (payload_fields _ _ (proj2 H1 x)) as (Hdev & Hblk & _).
  destruct (nz (b_dev (bufs s x))).
  - destruct (ins_hash_links x s1) as (G1 & G2 & G3 & G4 & G5 & G6 & G7). set (s2 := ins_hash x s1) in *.
    clearbody s2. rewrite Hdev, Hblk, Hh in *. rewrite G2, G3, G4, G5, G6, G7, L1, L2, L3, L4, Hf, arr_same.
    split; [by apply (relinked_low_trans _ s1)|]. done.
  - rewrite L1, L2, L3, L4, Hf, Hh. split; [by apply relinked_low_refl|done].
Qed.

(** Putting a buffer into its queues keeps them sane; it goes to the end of
    the free list and to the front of its hash queue. *)
Lemma insert_into_queues_run s l h x :
  queues s l h -> x ∉ l -> l <> [] ->
  exists s', insert_into_queues x s = Ret tt s' /\ relinked_low s s' /\
    queues s' (l ++ [x]) (fun k => if in_queue s x k then x :: h k else h k).
Proof.
  intros Hq Hx Hne. destruct l as [|a r]; [done|]. set (l := a :: r) in *.
  pose proof (q_free _ _ _ Hq) as Hr. pose proof (q_nodup _ _ _ Hq) as Hnd.
  assert (Hp : exists p, fprev s a = Some p) by (destruct (seg_pv _ _ _ _ _ Hr) as (p & ? & _); eauto).
  destruct Hp as (p & Hp).
  assert (Hax : a <> x) by (unfold l in Hx; set_solver).
  destruct (insert_links x a p s) as (Hrel & Hfl & R1 & R2 & R3).
  eexists. split; [apply insert_run; [apply (q_head _ _ _ Hq)|done|done]|]. split; [done|].
  cbv zeta. set (s' := if nz _ then _ else _) in *. destruct Hrel as (_ & Hpay & _).
  assert (Hdev : forall i, b_dev (bufs s' i) = b_dev (bufs s i) /\ b_blocknr (bufs s' i) = b_blocknr (bufs s i)).
  { intros i. destruct (payload_fields _ _ (Hpay i)) as (? & ? & _). done. }
  set (kx := _hashfn (b_dev (bufs s x)) (b_blocknr (bufs s x))) in *.
  assert (Hxh : forall k, x ∉ h k) by (intros k Hin; apply (q_in _ _ _ Hq) in Hin as [? _]; done).
  constructor.
  - rewrite R1, R2. by apply ring_append.
  - rewrite Hfl. apply (q_head _ _ _ Hq).
  - apply list.NoDup_app. split; [done|]. split; [set_solver|]. apply NoDup_singleton.
  - intros k. pose proof (q_hash _ _ _ Hq) as Hd. unfold in_queue. fold kx.
    destruct (nz (b_dev (bufs s x))); cbn [andb].
    + destruct R3 as (-> & -> & ->). destruct (kx =? k) eqn:Ek; ztest.
      * subst k. rewrite arr_eq. apply dlist_push; [apply Hd|apply Hxh|apply Hq].
      * rewrite arr_ne by done. apply (dlist_ext (hnext s) (hprev s)); [|apply Hd].
        intros i Hi. assert (i <> x) by (intros ->; by apply (Hxh k)).
        split; [by apply arr_ne|]. destruct (hash_table s kx) as [n|] eqn:Hn; [|by apply arr_ne].
        rewrite !arr_ne; [done|done|]. intros ->.
        assert (i ∈ h kx) as Hik.
        { specialize (Hd kx). rewrite Hn in Hd. destruct (h kx); [done|]. destruct Hd as ([= ->] & _). set_solver. }
        apply (q_in _ _ _ Hq) in Hi as (_ & _ & <-). by apply (q_in _ _ _ Hq) in Hik as (_ & _ & ?).
    + destruct R3 as (-> & -> & ->). apply (dlist_ext (hnext s) (hprev s)); [|apply Hd].
      intros i Hi. assert (i <> x) by (intros ->; by apply (Hxh k)). split; by apply arr_ne.
  - intros k. destruct (in_queue s x k); [|apply Hq]. apply list.NoDup_cons. split; [done|apply Hq].
  - intros k i. destruct (Hdev i) as [-> ->]. unfold in_queue. fold kx.
    destruct (nz (b_dev (bufs s x))) eqn:Hd0, (kx =? k) eqn:Ek; cbn [andb]; ztest;
      rewrite ?elem_of_cons, (q_in _ _ _ Hq); clear -Hd0 Ek Hx; set_unfold; naive_solver.
  - intros i Hi Hd0. destruct (Hdev i) as [Hdi _]. rewrite Hdi in Hd0.
    destruct (decide (i = x)) as [->|Hix].
    + rewrite Hd0 in R3. destruct R3 as (-> & -> & _). by rewrite !arr_eq.
    + destruct (q_idle _ _ _ Hq i) as [Hni Hpi]; [clear -Hi Hix; set_solver|done|].
      destruct (nz (b_dev (bufs s x))) eqn:Hdx; destruct R3 as (-> & -> & _); [|by rewrite !arr_ne].
      rewrite arr_ne by done. split; [done|].
      destruct (hash_table s kx) as [n|] eqn:Hn; [|by rewrite arr_ne].
      rewrite !arr_ne; [done|done|]. intros ->.
      pose proof (q_hash _ _ _ Hq kx) as Hd. rewrite Hn in Hd.
      assert (i ∈ h kx) as Hik.
      { destruct (h kx); [done|]. destruct Hd as ([= ->] & _). apply list_elem_of_here. }
      apply (q_in _ _ _ Hq) in Hik as (_ & ? & _). done.
Qed.

(** ** Lookup *)

Definition holds (s : kstate) (dev block i : Z) : Prop :=
  b_dev (bufs s i) = dev /\ b_blocknr (bufs s i) = block.

Lemma holds_test s dev block i :
  ((b_dev (bufs s i) =? dev) && (b_blocknr (bufs s i) =? block)) = bool_decide (holds s dev block i).
Proof.
  unfold holds. destruct (Z.eqb_spec (b_dev (bufs s i)) dev), (Z.eqb_spec (b_blocknr (bufs s i)) block);
    simpl; symmetry; [apply bool_decide_eq_true_2|apply bool_decide_eq_false_2..]; tauto.
Qed.
#[export] Instance holds_dec s dev block i : Decision (holds s dev block i).
Proof. unfold holds. apply _. Defined.

Lemma find_step_run dev block i s :
  find_step dev block (Some i) s =
    Ret (if decide (holds s dev block i) then inr (Some i) else inl (hnext s i)) s.
Proof.
  unfold find_step, getb. mrun. rewrite holds_test. case_decide as Hh.
  - by rewrite bool_decide_eq_true_2.
  - by rewrite bool_decide_eq_false_2.
Qed.

Lemma find_loop n dev block s p prev l :
  dlist (hnext s) (hprev s) p prev l -> (length l < n)%nat ->
  loop n (find_step dev block) p s =
    Ret (match list_find (holds s dev block) l with Some (_, i) => Some i | None => None end) s.
Proof.
  revert n p prev. induction l as [|i l IH]; intros n p prev; simpl.
  - intros -> Hn. destruct n as [|n]; [lia|]. done.
  - intros (-> & _ & Hl) Hn. destruct n as [|n]; [lia|]. cbn [loop].
    rewrite (bind_Ret _ _ _ _ _ (find_step_run dev block i s)).
    destruct (decide (holds s dev block i)) as [Hh|Hh]; [done|].
    rewrite (IH n _ _ Hl) by lia. by destruct (list_find _ l) as [[? ?]|].
Qed.

Section lookup.
Context `{Machine}.

(** The loops of the cache fit in the fuel. *)
Definition cache_fits (l : list Z) (h : Z -> list Z) : Prop :=
  (length l < fuel)%nat /\ (forall k, (length (h k) < fuel)%nat) /\ (1 < fuel)%nat.

Lemma find_buffer_run dev block s l h :
  queues s l h -> cache_fits l h ->
  find_buffer dev block s =
    Ret (match list_find (holds s dev block) (h (_hashfn dev block)) with
         | Some (_, i) => Some i | None => None end) s.
Proof.
  intros Hq (_ & Hf & _). unfold find_buffer. mrun. unfold hash.
  by apply (find_loop _ _ _ _ _ None); [apply Hq|].
Qed.

Lemma find_buffer_none dev block s l h :
  queues s l h -> cache_fits l h -> (forall i, i ∈ l -> ~ holds s dev block i) ->
  find_buffer dev block s = Ret None s.
Proof.
  intros Hq Hf Hno. rewrite (find_buffer_run _ _ _ l h) by done.
  destruct (list_find _ _) as [[j i]|] eqn:E; [|done]. exfalso.
  apply list_find_Some in E as (Hi & Hh & _). apply list_elem_of_lookup_2 in Hi.
  apply (q_in _ _ _ Hq) in Hi as [Hi _]. by apply (Hno i).
Qed.

(** [wait_on_buffer] on a buffer that is not locked. *)
Lemma wait_unlocked bh s : b_lock (bufs s bh) = 0 -> wait_on_buffer bh s = Ret tt s.
Proof.
  intros Hl. unfold wait_on_buffer. apply while_false. unfold getb. mrun. by rewrite Hl.
Qed.

Lemma get_hash_table_none dev block s l h :
  queues s l h -> cache_fits l h -> (forall i, i ∈ l -> ~ holds s dev block i) ->
  get_hash_table dev block s = Ret None s.
Proof.
  intros Hq Hf Hno. unfold get_hash_table. destruct fuel as [|n] eqn:E; [destruct Hf; lia|].
  cbn [loop]. mrun. rewrite (bind_Ret _ _ _ _ _ (find_buffer_none _ _ _ l h Hq Hf Hno)). done.
Qed.

(** The first buffer of the free list that nobody uses; the head of the list
    when there is none. *)
Fixpoint first_free (s : kstate) (l : list Z) (a : Z) : Z :=
  match l with
  | [] => a
  | i :: l => if b_count (bufs s i) =? 0 then i else first_free s l a
  end.

Lemma first_free_in s l a : first_free s l a ∈ a :: l /\
  (b_count (bufs s (first_free s l a)) = 0 \/
   first_free s l a = a /\ forall i, i ∈ l -> b_count (bufs s i) <> 0).
Proof.
  induction l as [|i l [IH1 IH2]]; simpl; [set_solver|].
  destruct (b_count (bufs s i) =? 0) eqn:E; ztest; [set_solver|]. split; [set_solver|].
  destruct IH2 as [?|[? ?]]; [by left|right]. split; [done|]. set_solver.
Qed.

Lemma scan_step_run t y a s :
  (b_count (bufs s t) = 0 -> b_lock (bufs s t) = 0) -> fnext s t = Some y -> free_list s = Some a ->
  scan_step t s =
    Ret (if b_count (bufs s t) =? 0 then inr t else if decide (y = a) then inr y else inl y) s.
Proof.
  intros Hu Hn Hf. unfold scan_step, getb. mrun.
  destruct (b_count (bufs s t) =? 0) eqn:E; ztest; mrun.
  - rewrite (bind_Ret _ _ _ _ _ (wait_unlocked t s (Hu E))). mrun. by rewrite E.
  - unfold fnext in Hn. rewrite Hn. mrun. rewrite Hf. unfold ptr_eqb. case_decide; subst.
    + by rewrite bool_decide_eq_true_2.
    + by rewrite bool_decide_eq_false_2 by congruence.
Qed.

Lemma scan_loop n s a l t :
  seg (fnext s) (fprev s) t l a -> free_list s = Some a -> a ∉ l ->
  (forall i, i ∈ t :: l -> b_count (bufs s i) = 0 -> b_lock (bufs s i) = 0) -> (length l < n)%nat ->
  loop n scan_step t s = Ret (first_free s (t :: l) a) s.
Proof.
  revert n t. induction l as [|y l IH]; intros n t Hs Hf Ha Hu Hn; (destruct n as [|n]; [simpl in Hn; lia|]);
    cbn [loop first_free].
  - destruct Hs as [Hn1 _].
    rewrite (bind_Ret _ _ _ _ _ (scan_step_run t a a s (Hu t ltac:(set_solver)) Hn1 Hf)).
    rewrite decide_True by done. by destruct (_ =? 0).
  - destruct Hs as (Hn1 & _ & Hs).
    rewrite (bind_Ret _ _ _ _ _ (scan_step_run t y a s (Hu t ltac:(set_solver)) Hn1 Hf)).
    destruct (_ =? 0); [done|]. rewrite decide_False by set_solver.
    apply IH; [done|done|set_solver| |simpl in Hn; lia]. intros i Hi. apply Hu. set_solver.
Qed.
End lookup.

(** ** Allocation *)

(** A change of the payload of a buffer that is in no queue, or that keeps
    its block. *)
Lemma queues_upd x f s l h :
  queues s l h ->
  (forall b, b_next (f b) = b_next b /\ b_prev (f b) = b_prev b /\
             b_next_free (f b) = b_next_free b /\ b_prev_free (f b) = b_prev_free b) ->
  (x ∉ l \/ forall b, b_dev (f b) = b_dev b /\ b_blocknr (f b) = b_blocknr b) ->
  queues (upd_buf x f s) l h.
Proof.
  intros Hq Hf Hx.
  assert (Hd : forall i, i ∈ l -> b_dev (bufs (upd_buf x f s) i) = b_dev (bufs s i) /\
                               b_blocknr (bufs (upd_buf x f s) i) = b_blocknr (bufs s i)).
  { intros i Hi. unfold upd_buf; simpl. rewrite arr_dec. case_decide as Hxi; [|done]. subst i.
    destruct Hx as [?|Hx]; [done|apply Hx]. }
  assert (L : hnext (upd_buf x f s) = hnext s /\ hprev (upd_buf x f s) = hprev s /\
              fnext (upd_buf x f s) = fnext s /\ fprev (upd_buf x f s) = fprev s).
  { rewrite hnext_keep, hprev_keep, fnext_keep, fprev_keep by (intros b; apply (Hf b)). done. }
  destruct L as (L1 & L2 & L3 & L4). destruct Hq as [Q1 Q2 Q3 Q4 Q5 Q6 Q7].
  constructor; rewrite ?L1, ?L2, ?L3, ?L4; try done.
  - intros k i. rewrite Q6. split; intros (Hi & ? & ?); destruct (Hd i Hi) as [E1 E2];
      [rewrite E1, E2|rewrite E1, E2 in *]; done.
  - intros i Hi Hd0. apply Q7; [done|]. destruct (Hd i Hi) as [E1 _]. by rewrite E1 in Hd0.
Qed.

(** The buffer [x] made to stand for the block [block] of [dev]. *)
Definition renamed (dev block : Z) (b : buffer_head) : buffer_head :=
  b <| b_count := b_count b + 1 |> <| b_dev := dev |> <| b_blocknr := block |>
    <| b_dirt := 0 |> <| b_uptodate := 0 |>.

Section alloc.
Context `{Machine}.

Lemma getblk_take dev block s l1 x l2 h :
  queues s (l1 ++ x :: l2) h -> cache_fits (l1 ++ x :: l2) h -> l1 ++ l2 <> [] ->
  1 <= dev < 65536 -> 0 <= block < 65536 ->
  (forall i, i ∈ l1 ++ x :: l2 -> ~ holds s dev block i) ->
  scan_free s = Ret x s -> b_dirt (bufs s x) = 0 -> 0 <= b_count (bufs s x) < 255 ->
  exists s' h', getblk dev block s = Ret (Some x) s' /\ queues s' ((l1 ++ l2) ++ [x]) h' /\
    payload (bufs s' x) = payload (renamed dev block (bufs s x)) /\
    (forall i, i <> x -> payload (bufs s' i) = payload (bufs s i)) /\
    (phys s' = phys s \/ exists y, phys s' = put32 (phys s) 16 (bh_addr s y)).
Proof.
  intros Hq Hf Hne Hdev Hblk Hno Hscan Hdirt Hcount.
  assert (Hgh := get_hash_table_none dev block s _ _ Hq Hf Hno).
  set (s1 := upd_buf x (fun b => b <| b_count := u8 (b_count b + 1) |>) s).
  assert (Hq1 : queues s1 (l1 ++ x :: l2) h) by (apply queues_upd; [done|done|by right]).
  destruct (remove_from_queues_run s1 l1 x l2 h Hq1 Hne) as (s2 & Hrm & [Hs2 Hp2] & Hq2).
  assert (Hxl : x ∉ l1 ++ l2).
  { pose proof (q_nodup _ _ _ Hq) as Hnd. apply list.NoDup_app in Hnd as (_ & Hd & [? _]%list.NoDup_cons). set_solver. }
  set (s3 := upd_buf x (fun b => b <| b_uptodate := 0 |>) (upd_buf x (fun b => b <| b_dirt := 0 |>)
    (upd_buf x (fun b => b <| b_blocknr := u16 block |>) (upd_buf x (fun b => b <| b_dev := u16 dev |>) s2)))).
  assert (Hq3 : queues s3 (l1 ++ l2) (fun k => filter (fun i => i <> x) (h k))).
  { unfold s3. repeat (apply queues_upd; [|done|by left]). exact Hq2. }
  assert (Hf3 : cache_fits (l1 ++ l2) (fun k => filter (fun i => i <> x) (h k))).
  { destruct Hf as (F1 & F2 & F3). rewrite length_app, length_cons in F1. split; [rewrite length_app; lia|]. split; [|done].
    intros k. eapply Nat.le_lt_trans; [apply list.length_filter|apply F2]. }
  assert (Hp3 : forall i, i <> x -> payload (bufs s3 i) = payload (bufs s i)).
  { intros i Hi. unfold s3. rewrite !upd_buf_ne by done. rewrite Hp2. unfold s1. by rewrite upd_buf_ne. }
  destruct (insert_into_queues_run s3 (l1 ++ l2) _ x Hq3 Hxl Hne) as (s' & Hins & (Hs' & Hp' & Hphys) & Hq').
  assert (Hx3 : payload (bufs s3 x) = payload (renamed dev block (bufs s x))).
  { unfold s3. rewrite !upd_buf_fuse, upd_buf_eq. specialize (Hp2 x). unfold s1 in Hp2.
    rewrite upd_buf_eq in Hp2. revert Hp2. unfold payload, renamed. destruct (bufs s2 x), (bufs s x); simpl in *.
    intros [=]. subst. rewrite !u16_small, u8_small by lia. done. }
  eexists s', _. split; [|split; [exact Hq'|split; [|split]]].
  - unfold getblk. destruct fuel as [|n] eqn:E; [destruct Hf; lia|]. cbn [loop].
    unfold getblk_step. mrun. rewrite (bind_Ret _ _ _ _ _ Hgh). mrun.
    rewrite (bind_Ret _ _ _ _ _ Hscan). mrun. fold s1.
    rewrite (bind_Ret _ _ _ _ _ Hrm). mrun.
    assert (Hd2 : b_dirt (bufs s2 x) = 0).
    { destruct (payload_fields _ _ (Hp2 x)) as (_ & _ & _ & -> & _). unfold s1. by rewrite upd_buf_eq. }
    rewrite Hd2. mrun. fold s3.
    assert (Hno3 : forall i, i ∈ l1 ++ l2 -> ~ holds s3 dev block i).
    { intros i Hi Hh. assert (i <> x) by (intros ->; done). destruct (payload_fields _ _ (Hp3 i ltac:(done))) as (E1 & E2 & _).
      unfold holds in Hh. rewrite E1, E2 in Hh. apply (Hno i); [clear -Hi; set_solver|done]. }
    rewrite (bind_Ret _ _ _ _ _ (find_buffer_none dev block s3 _ _ Hq3 Hf3 Hno3)). mrun.
    rewrite (bind_Ret _ _ _ _ _ Hins). done.
  - by rewrite Hp', Hx3.
  - intros i Hi. by rewrite Hp', Hp3.
  - assert (E : phys s3 = phys s /\ forall y, bh_addr s3 y = bh_addr s y).
    { unfold bh_addr. change (phys s3) with (phys s2). change (start_buffer s3) with (start_buffer s2).
      rewrite Hs2. done. }
    destruct E as [E1 E2]. rewrite E1 in Hphys.
    destruct Hphys as [?|(y & Hy)]; [by left|right]. exists y. by rewrite Hy, E2.
Qed.

(** A dirty buffer is first taken out of all queues, and its device is written back. *)
Lemma getblk_dirty dev block s l1 x l2 h :
  queues s (l1 ++ x :: l2) h -> cache_fits (l1 ++ x :: l2) h -> l1 ++ l2 <> [] ->
  (forall i, i ∈ l1 ++ x :: l2 -> ~ holds s dev block i) ->
  scan_free s = Ret x s -> b_dirt (bufs s x) <> 0 -> 0 <= b_count (bufs s x) < 255 ->
  exists s2 h2 k, getblk dev block s = (sync_dev (b_dev (bufs s x)) ≫= k) s2 /\
    queues s2 (l1 ++ l2) h2 /\
    payload (bufs s2 x) = payload ((bufs s x) <| b_count ::= fun c => c + 1 |>) /\
    (forall i, i <> x -> payload (bufs s2 i) = payload (bufs s i)).
Proof.
  intros Hq Hf Hne Hno Hscan Hdirt Hcount.
  assert (Hgh := get_hash_table_none dev block s _ _ Hq Hf Hno).
  set (s1 := upd_buf x (fun b => b <| b_count := u8 (b_count b + 1) |>) s).
  assert (Hq1 : queues s1 (l1 ++ x :: l2) h) by (apply queues_upd; [done|done|by right]).
  destruct (remove_from_queues_run s1 l1 x l2 h Hq1 Hne) as (s2 & Hrm & [Hs2 Hp2] & Hq2).
  assert (Hx2 : payload (bufs s2 x) = payload ((bufs s x) <| b_count ::= fun c => c + 1 |>)).
  { specialize (Hp2 x). unfold s1 in Hp2. rewrite upd_buf_eq, u8_small in Hp2 by lia. exact Hp2. }
  destruct (payload_fields _ _ Hx2) as (Hd & _ & _ & Hdirt' & _).
  change (b_dev (bufs s2 x) = b_dev (bufs s x)) in Hd. change (b_dirt (bufs s2 x) = b_dirt (bufs s x)) in Hdirt'.
  exists s2, (fun k => filter (fun i => i <> x) (h k)).
  assert (Hp : forall i, i <> x -> payload (bufs s2 i) = payload (bufs s i)).
  { intros i Hi. rewrite Hp2. unfold s1. by rewrite upd_buf_ne. }
  cut (exists k, getblk dev block s = (sync_dev (b_dev (bufs s x)) ≫= k) s2).
  { intros (k & Hk). by exists k. }
  unfold getblk. destruct fuel as [|n] eqn:E; [destruct Hf; lia|]. cbn [loop].
  unfold getblk_step. mrun. rewrite (bind_Ret _ _ _ _ _ Hgh). mrun.
  rewrite (bind_Ret _ _ _ _ _ Hscan). mrun. fold s1.
  rewrite (bind_Ret _ _ _ _ _ Hrm). mrun. rewrite Hdirt', (proj2 (nz_true _) Hdirt), Hd.
  rewrite when_true, !bind_assoc. eexists. reflexivity.
Qed.
End alloc.

Lemma head_split (l : list Z) x : x ∈ l -> exists l1 l2, l = l1 ++ x :: l2.
Proof. apply list_elem_of_split. Qed.

(** C16: When the block is in no buffer (and the unused buffers are not locked,
    and the chosen one has fewer than 255 users), getblk chooses the first
    unused buffer of the free list, or, when every buffer is in use, the first
    of the list whatever its use, takes it out of the queues and adds one to its
    uses. A clean buffer is renamed to the block, marked not up to date, put at
    the end of the free list and into the hash chain of its new name, and
    returned; for a dirty one getblk first goes on to write back the buffers of
    its old device. No other buffer changes its name, count, data or flags. *)
Theorem getblk_miss `{Machine} dev block s a r h :
  let l := a :: r in
  let x := first_free s l a in
  queues s l h -> cache_fits l h -> r <> [] ->
  1 <= dev < 65536 -> 0 <= block < 65536 ->
  (forall i, i ∈ l -> ~ holds s dev block i) ->
  (forall i, i ∈ l -> b_count (bufs s i) = 0 -> b_lock (bufs s i) = 0) ->
  0 <= b_count (bufs s x) < 255 ->
  (b_count (bufs s x) = 0 \/ x = a /\ forall i, i ∈ l -> b_count (bufs s i) <> 0) /\
  exists l', l ≡ₚ x :: l' /\
    (b_dirt (bufs s x) = 0 ->
     exists s' h', getblk dev block s = Ret (Some x) s' /\ queues s' (l' ++ [x]) h' /\
       payload (bufs s' x) = payload (renamed dev block (bufs s x)) /\
       (forall i, i <> x -> payload (bufs s' i) = payload (bufs s i))) /\
    (b_dirt (bufs s x) <> 0 ->
     exists s' h' k, getblk dev block s = (sync_dev (b_dev (bufs s x)) ≫= k) s' /\ queues s' l' h' /\
       payload (bufs s' x) = payload ((bufs s x) <| b_count ::= fun c => c + 1 |>) /\
       (forall i, i <> x -> payload (bufs s' i) = payload (bufs s i))).
Proof.
  intros l x Hq Hf Hr Hdev Hblk Hno Hu Hc.
  destruct (first_free_in s l a) as [Hx Hfree]. fold x in Hx, Hfree.
  assert (Hxl : x ∈ l) by (unfold l in *; set_solver).
  assert (Hscan : scan_free s = Ret x s).
  { unfold scan_free. mrun. rewrite (q_head _ _ _ Hq). mrun.
    pose proof (q_nodup _ _ _ Hq) as [Ha _]%list.NoDup_cons.
    apply scan_loop; [apply Hq|apply (q_head _ _ _ Hq)|done|done|].
    destruct Hf as (F & _). simpl in F. lia. }
  split; [destruct Hfree as [?|[? ?]]; [by left|right; done]|].
  apply list_elem_of_split in Hxl as (l1 & l2 & Heq). fold l in Hq. rewrite Heq in *.
  assert (Hne : l1 ++ l2 <> []).
  { intros He. apply (f_equal length) in Heq. apply (f_equal length) in He.
    rewrite length_app in *. simpl in *. destruct r; [done|]. simpl in *. lia. }
  exists (l1 ++ l2). split; [by rewrite Permutation_middle|]. split; intros Hd.
  - destruct (getblk_take dev block s l1 x l2 h) as (s' & h' & ? & ? & ? & ? & _); try done. by exists s', h'.
  - by apply (getblk_dirty dev block s l1 x l2 h).
Qed.

(** ** Blocks that are in the cache *)

Section cached.
Context `{Machine}.

(** Buffer [bh] holds the block, is valid and not in transfer, and can be
    found and counted once more. *)
Definition cached (s : kstate) (dev block bh : Z) : Prop :=
  exists l1 l2, dlist (hnext s) (hprev s) (hash s dev block) None (l1 ++ bh :: l2) /\
    (length (l1 ++ bh :: l2) < fuel)%nat /\
    (forall i, i ∈ l1 -> ~ holds s dev block i) /\ holds s dev block bh /\
    b_lock (bufs s bh) = 0 /\ b_uptodate (bufs s bh) <> 0 /\ 0 <= b_count (bufs s bh) < 255.

(** One more, one fewer reference to a buffer. *)
Definition held (bh : Z) (s : kstate) : kstate :=
  upd_buf bh (fun b => b <| b_count := b_count b + 1 |>) s.
Definition dropped (bh : Z) (s : kstate) : kstate :=
  upd_buf bh (fun b => b <| b_count := b_count b - 1 |>) s.

Lemma getblk_cached dev block bh s :
  cached s dev block bh -> getblk dev block s = Ret (Some bh) (held bh s).
Proof.
  intros (l1 & l2 & Hd & Hf & Hno & Hh & Hl & _ & Hc).
  assert (Hfind : find_buffer dev block s = Ret (Some bh) s).
  { unfold find_buffer. mrun. rewrite (find_loop _ _ _ _ _ _ _ Hd Hf).
    rewrite list_find_app_r; cycle 1.
    { apply list_find_None, list.Forall_forall. exact Hno. }
    simpl. rewrite decide_True by done. done. }
  assert (Hheld : upd_buf bh (fun b => b <| b_count := u8 (b_count b + 1) |>) s = held bh s).
  { apply upd_buf_ext. by rewrite u8_small by lia. }
  assert (Hget : get_hash_table dev block s = Ret (Some bh) (held bh s)).
  { unfold get_hash_table. destruct fuel as [|n] eqn:E; [lia|]. cbn [loop]. mrun.
    rewrite (bind_Ret _ _ _ _ _ Hfind). mrun. rewrite Hheld.
    rewrite (bind_Ret _ _ _ tt (held bh s)); cycle 1.
    { apply wait_unlocked. unfold held. by rewrite upd_buf_eq. }
    mrun. unfold held at 1 2. rewrite !upd_buf_eq. simpl. destruct Hh as [-> ->].
    by rewrite !Z.eqb_refl. }
  unfold getblk. destruct fuel as [|n] eqn:E; [lia|]. cbn [loop]. unfold getblk_step. mrun.
  by rewrite (bind_Ret _ _ _ _ _ Hget).
Qed.

Lemma bread_cached dev block bh s :
  cached s dev block bh -> bread dev block s = Ret (Some bh) (held bh s).
Proof.
  intros Hc. unfold bread. rewrite (bind_Ret _ _ _ _ _ (getblk_cached _ _ _ _ Hc)). mrun.
  destruct Hc as (_ & _ & _ & _ & _ & _ & _ & Hu & _). unfold held at 1. rewrite upd_buf_eq. simpl.
  by rewrite (proj2 (nz_true _) Hu).
Qed.

Lemma brelse_run bh s :
  b_lock (bufs s bh) = 0 -> 0 < b_count (bufs s bh) < 256 -> buffer_wait s = None ->
  brelse (Some bh) s = Ret tt (dropped bh s).
Proof.
  intros Hl Hc Hw. unfold brelse. rewrite (bind_Ret _ _ _ _ _ (wait_unlocked _ _ Hl)). mrun.
  rewrite (proj2 (nz_true (b_count (bufs s bh)))) by lia. simpl.
  assert (Hd : upd_buf bh (fun b => b <| b_count := u8 (b_count b - 1) |>) s = dropped bh s).
  { apply upd_buf_ext. by rewrite u8_small by lia. }
  rewrite Hd. unfold wake_up. mrun. simpl. by rewrite Hw.
Qed.

Lemma dropped_held bh s : dropped bh (held bh s) = s.
Proof.
  unfold dropped, held. rewrite upd_buf_fuse. apply upd_buf_id. simpl.
  replace (b_count (bufs s bh) + 1 - 1) with (b_count (bufs s bh)) by lia. by destruct (bufs s bh).
Qed.
End cached.

(** ** Lookup while anything may happen *)

Section interference.
Context `{Machine}.

Lemma wait_on_buffer_anytime bh s Q :
  current s <> None ->
  (forall s', current s' <> None -> b_lock (bufs s' bh) = 0 -> Q tt s') ->
  anytime (wait_on_buffer bh s) Q.
Proof.
  intros Hc HQ. unfold wait_on_buffer, anytime.
  apply (wp_while _ _ _ _ _ (fun s => current s <> None)); [|done].
  clear s Hc. intros s Hc. mrun. rewrite mret_run. cbn [wp].
  destruct (nz (b_lock (bufs s bh))) eqn:Hl; ztest; [|by apply HQ].
  unfold wq_b_wait. apply sleep_on_anytime; [apply b_wait_queue|done|].
  intros s' ->. done.
Qed.

Lemma find_buffer_anytime dev block s :
  anytime (find_buffer dev block s) (fun r s' => s' = s).
Proof.
  unfold find_buffer, anytime. mrun.
  apply (wp_loop _ _ _ _ (fun _ t => t = s)); [|done]. intros [i|] t ->; [|done].
  rewrite find_step_run. simpl. by case_decide.
Qed.

Lemma brelse_anytime bh s Q :
  current s <> None -> (forall s', current s' <> None -> Q tt s') -> anytime (brelse (Some bh) s) Q.
Proof.
  intros Hc HQ. unfold brelse, anytime. apply wp_bind.
  apply wait_on_buffer_anytime; [done|]. intros s' Hc' _. mrun.
  destruct (negb _); [done|]. unfold wake_up, wq_buffer_wait. mrun. cbn [wq_get].
  change (buffer_wait (upd_buf _ _ _)) with (buffer_wait s').
  destruct (buffer_wait s'); apply HQ; done.
Qed.

(** C17: Whatever other processes and the disk do while get_hash_table sleeps, a
    buffer it returns holds the block asked for and is unlocked. *)
Theorem get_hash_table_anytime dev block s :
  current s <> None ->
  anytime (get_hash_table dev block s) (fun r s' =>
    match r with
    | None => True
    | Some bh => holds s' dev block bh /\ b_lock (bufs s' bh) = 0
    end).
Proof.
  intros Hc. unfold get_hash_table, anytime.
  apply (wp_loop _ _ _ _ (fun _ t => current t <> None)); [|done]. clear s Hc. intros [] s Hc.
  apply wp_bind. eapply wp_mono; [apply find_buffer_anytime| |done]. intros [bh|] s' ->; [|done].
  mrun. apply wp_bind. apply wait_on_buffer_anytime; [done|]. intros s1 Hc1 Hl. mrun.
  destruct (negb _ || negb _) eqn:E.
  - apply wp_bind. by apply brelse_anytime.
  - apply orb_false_iff in E as [E1%negb_false_iff%Z.eqb_eq E2%negb_false_iff%Z.eqb_eq]. done.
Qed.
End interference.

(** ** Examples: a cache of two buffers, the first one in use *)

Definition two_buffers : kstate :=
  zero_kstate <| nr_buffers := 2 |> <| free_list := Some 0 |>
    <| hash_table := fun k => if k =? _hashfn 0x301 7 then Some 0 else None |>
    <| bufs := fun i =>
         let other := if i =? 0 then Some 1 else Some 0 in
         let b := zero_buffer_head <| b_next_free := other |> <| b_prev_free := other |> in
         if i =? 0 then b <| b_dev := 0x301 |> <| b_blocknr := 7 |> <| b_count := 1 |> <| b_uptodate := 1 |>
         else b |>.
Definition two_buffers_hash (k : Z) : list Z := if k =? _hashfn 0x301 7 then [0] else [].

Lemma two_buffers_queues : queues two_buffers [0; 1] two_buffers_hash.
Proof.
  constructor.
  - repeat split; reflexivity.
  - reflexivity.
  - repeat constructor; set_solver.
  - intros k. unfold two_buffers_hash. cbn [hash_table set_field]. unfold two_buffers; simpl.
    destruct (k =? _hashfn 0x301 7); [|reflexivity]. repeat split; reflexivity.
  - intros k. unfold two_buffers_hash. destruct (k =? _); repeat constructor; set_solver.
  - intros k i. unfold two_buffers_hash. split.
    + destruct (k =? _hashfn 0x301 7) eqn:E; ztest; [|set_solver]. intros Hi.
      assert (i = 0) as -> by set_solver. split; [set_solver|]. split; [discriminate|]. by rewrite E.
    + intros (Hi & Hd & <-). assert (i = 0 \/ i = 1) as [->| ->] by set_solver; [|by destruct Hd].
      vm_compute. apply list_elem_of_here.
  - intros i Hi Hd. assert (i = 0 \/ i = 1) as [->| ->] by set_solver; [discriminate Hd|split; reflexivity].
Qed.

Lemma two_buffers_fit : @cache_fits quiet_machine [0; 1] two_buffers_hash.
Proof.
  split; [cbn; lia|]. split; [|cbn; lia]. intros k. unfold two_buffers_hash. destruct (k =? _); cbn; lia.
Qed.

Lemma getblk_miss_witness :
  exists s', @getblk quiet_machine 0x301 9 two_buffers = Ret (Some 1) s' /\
    b_count (bufs s' 1) = 1 /\ b_blocknr (bufs s' 1) = 9.
Proof.
  destruct (@getblk_miss quiet_machine 0x301 9 two_buffers 0 [1] two_buffers_hash)
    as (_ & l' & _ & Hclean & _).
  - apply two_buffers_queues.
  - apply two_buffers_fit.
  - discriminate.
  - lia.
  - lia.
  - intros i Hi [_ Hb]. assert (i = 0 \/ i = 1) as [->| ->] by set_solver; discriminate Hb.
  - intros i _ _. cbn. by case_match.
  - cbn. lia.
  - destruct (Hclean eq_refl) as (s' & h' & Hrun & _ & Hp & _). exists s'. destruct (payload_fields _ _ Hp) as (_ & Hb & Hc & _).
    split; [exact Hrun|]. split; [exact Hc|exact Hb].
Defined.

Lemma get_hash_table_anytime_witness :
  anytime (@get_hash_table quiet_machine 0x301 7 two_buffers) (fun r s' =>
    match r with
    | None => True
    | Some bh => holds s' 0x301 7 bh /\ b_lock (bufs s' bh) = 0
    end).
Proof. apply (@get_hash_table_anytime quiet_machine). discriminate. Defined.

(** ** Initialisation *)

Section init.
Context `{Machine}.

(** The address of the block of buffer [h]: downwards from the end of the
    buffer memory to 1 MB, then from 640 KB on. *)
Definition block_at (h : Z) : Z :=
  if h <? 1024 then BUFFER_END - 1024 * (h + 1) else 0xA0000 - 1024 * (h - 1024 + 1).
(** Where [b] stands before round [h]. *)
Definition block_above (h : Z) : Z :=
  if h <? 1024 then BUFFER_END - 1024 * h else 0xA0000 - 1024 * (h - 1024).

(** A header as the loop leaves it; the block number and the contents of the
    block are not set. *)
Definition fresh (h : Z) (x : buffer_head) : buffer_head :=
  x <| b_dev := 0 |> <| b_dirt := 0 |> <| b_count := 0 |> <| b_lock := 0 |>
    <| b_uptodate := 0 |> <| b_wait := None |> <| b_next := None |> <| b_prev := None |>
    <| b_addr := block_at h |> <| b_prev_free := Some (h - 1) |> <| b_next_free := Some (h + 1) |>.

(** The state after [h] rounds. *)
Definition after_rounds (h : Z) (s : kstate) : kstate :=
  s <| bufs := fun i => if (0 <=? i) && (i <? h) then fresh i (bufs s i) else bufs s i |>
    <| nr_buffers ::= fun n => n + h |>.

(** The headers and the blocks meet in buffer [h]. *)
Definition full (s : kstate) (h : Z) : bool := block_at h <? start_buffer s + 32 * (h + 1).

Lemma rounds_step h f (B : Z -> buffer_head) g s :
  (upd_buf h f (s <| bufs := B |> <| nr_buffers ::= g |>)) <| nr_buffers ::= Z.succ |> =
  s <| bufs := <[h := f (B h)]> B |> <| nr_buffers ::= fun n => Z.succ (g n) |>.
Proof. reflexivity. Qed.

Lemma init_step_run h s :
  0 <= h ->
  init_step (block_above h, h) (after_rounds h s) =
  if full s h then Ret (inr h) (after_rounds h s)
  else Ret (inl (block_above (h + 1), h + 1)) (after_rounds (h + 1) s).
Proof.
  intros Hh.
  assert (Hb : block_above h - BLOCK_SIZE = block_at h).
  { unfold block_above, block_at, BLOCK_SIZE, BUFFER_END. destruct (h <? 1024); lia. }
  unfold init_step. cbv zeta. mrun. rewrite Hb.
  change (start_buffer (after_rounds h s)) with (start_buffer s). fold (full s h).
  destruct (full s h); [done|]. mrun. rewrite mret_run. f_equal.
  - f_equal. f_equal. unfold block_above, block_at, BUFFER_END.
    destruct (h <? 1024) eqn:E, (h + 1 <? 1024) eqn:E', (_ =? _) eqn:E''; ztest; lia.
  - unfold after_rounds. rewrite rounds_step.
    rewrite (functional_extensionality (fun n => Z.succ (n + h)) (fun n => n + (h + 1))) by (intros; lia).
    f_equal. f_equal. apply functional_extensionality. intros _.
    apply functional_extensionality. intros i. rewrite arr_dec.
    destruct (decide (h = i)) as [<-|Hne].
    + rewrite (proj2 (Z.leb_le 0 h) Hh), (proj2 (Z.ltb_lt h (h + 1))), Z.ltb_irrefl by lia. reflexivity.
    + replace (i <? h + 1) with (i <? h); [reflexivity|].
      destruct (i <? h) eqn:E, (i <? h + 1) eqn:E'; ztest; (reflexivity || lia).
Qed.

Lemma init_loop n m s k :
  0 <= k -> full s (k + Z.of_nat n) = true -> (forall j, k <= j < k + Z.of_nat n -> full s j = false) ->
  (n < m)%nat ->
  loop m init_step (block_above k, k) (after_rounds k s) =
    Ret (k + Z.of_nat n) (after_rounds (k + Z.of_nat n) s).
Proof.
  revert m k. induction n as [|n IH]; intros [|m] k Hk Hf Hno Hm; try lia;
    pose proof (init_step_run k s Hk) as Hr.
  - rewrite Z.add_0_r in *. rewrite Hf in Hr. by rewrite (loop_leave _ _ _ _ _ _ Hr).
  - rewrite (Hno k) in Hr by lia. rewrite (loop_again _ _ _ _ _ _ Hr).
    replace (k + Z.of_nat (S n)) with (k + 1 + Z.of_nat n) in * by lia.
    apply IH; [lia|done|intros j Hj; apply Hno; lia|lia].
Qed.

(** The number of buffers. *)
Lemma full_first s : 0 <= start_buffer s <= 0x90000 ->
  exists n, 1024 <= n <= 1664 /\ full s n = true /\ forall j, 0 <= j < n -> full s j = false.
Proof.
  intros Hs. destruct (scan (full s) 0 1665) as [n|] eqn:E.
  - apply scan_Some in E as (Hn & Hf & Hno). exists n. split; [|done]. split; [|lia].
    destruct (decide (n < 1024)); [|lia]. unfold full, block_at, BUFFER_END in Hf.
    rewrite (proj2 (Z.ltb_lt n 1024)) in Hf by done. ztest. lia.
  - rewrite scan_None in E. specialize (E 1664 ltac:(lia)). unfold full, block_at in E.
    cbn [Z.ltb Z.compare Pos.compare Pos.compare_cont] in E. ztest. lia.
Qed.

Lemma blocks_apart i j : 0 <= i < j -> block_at j + 1024 <= block_at i.
Proof.
  intros. unfold block_at, BUFFER_END. destruct (i <? 1024) eqn:E, (j <? 1024) eqn:E'; ztest; lia.
Qed.

(** The list that the loop leaves, closed to a ring. *)
Lemma seg_seqZ nx pv a n z :
  (forall i, a <= i < a + Z.of_nat n -> nx i = Some (i + 1) /\ pv (i + 1) = Some i) ->
  nx (a + Z.of_nat n) = Some z -> pv z = Some (a + Z.of_nat n) ->
  seg nx pv a (seqZ (a + 1) (Z.of_nat n)) z.
Proof.
  revert a. induction n as [|n IH]; intros a Hi Hn Hp; simpl.
  - rewrite Z.add_0_r in *. done.
  - rewrite seqZ_cons by lia. simpl. destruct (Hi a ltac:(lia)) as [-> ->].
    split; [done|]. split; [done|]. replace (Z.pred (Z.of_nat (S n))) with (Z.of_nat n) by lia.
    rewrite <- Z.add_1_r. apply IH.
    + intros i ?. apply Hi. lia.
    + by replace (a + 1 + Z.of_nat n) with (a + Z.of_nat (S n)) by lia.
    + by replace (a + 1 + Z.of_nat n) with (a + Z.of_nat (S n)) by lia.
Qed.

(** The state [buffer_init] leaves with [n] buffers. *)
Definition initialised (n : Z) (s : kstate) : kstate :=
  upd_buf (n - 1) (fun b => b <| b_next_free := Some 0 |>)
    (upd_buf 0 (fun b => b <| b_prev_free := Some (n - 1) |>)
      ((after_rounds n s) <| free_list := Some 0 |>)).

Lemma clear_hash_run s : (forall k, ~ 0 <= k < NR_HASH -> hash_table s k = None) ->
  for_ 0 (Z.to_nat NR_HASH) (fun i => modify (fun s => s <| hash_table ::= <[i := None]> |>)) s =
  Ret tt (s <| hash_table := fun _ => None |>).
Proof.
  intros Hk.
  destruct (for_inv (fun i t => exists ht, t = s <| hash_table := ht |> /\
      forall k, 0 <= k < i \/ ~ 0 <= k < NR_HASH -> ht k = None) 0 (Z.to_nat NR_HASH)
    (fun i => modify (fun s => s <| hash_table ::= <[i := None]> |>)) s) as (s' & Hr & ht & -> & Hht).
  - exists (hash_table s). split; [by destruct s|]. intros k [?|?]; [lia|by apply Hk].
  - intros j t Hj (ht & -> & Hht). eexists. split; [reflexivity|].
    exists (<[j := None]> ht). split; [reflexivity|]. intros k Hkj. rewrite arr_dec.
    case_decide; [done|]. apply Hht. lia.
  - rewrite Hr. f_equal. f_equal. apply functional_extensionality. intros _.
    apply functional_extensionality. intros k. apply Hht.
    rewrite Z2Nat.id by (unfold NR_HASH; lia). lia.
Qed.

Lemma initialised_buf n s i : 0 <= i < n -> 1 < n ->
  payload (bufs (initialised n s) i) = payload (fresh i (bufs s i)) /\
  b_next (bufs (initialised n s) i) = None /\ b_prev (bufs (initialised n s) i) = None /\
  b_next_free (bufs (initialised n s) i) = Some (if i =? n - 1 then 0 else i + 1) /\
  b_prev_free (bufs (initialised n s) i) = Some (if i =? 0 then n - 1 else i - 1).
Proof.
  intros Hi Hn. unfold initialised.
  assert (Ha : bufs (after_rounds n s) i = fresh i (bufs s i)).
  { unfold after_rounds. simpl. by replace ((0 <=? i) && (i <? n)) with true by lia. }
  destruct (Z.eq_dec i (n - 1)) as [E|E], (Z.eq_dec i 0) as [E'|E']; [lia|..].
  - subst i. rewrite upd_buf_eq, upd_buf_ne by lia.
    change (bufs ((after_rounds n s) <| free_list := Some 0 |>) (n - 1)) with (bufs (after_rounds n s) (n - 1)).
    rewrite Ha, Z.eqb_refl, (proj2 (Z.eqb_neq _ 0)) by lia. done.
  - subst i. rewrite upd_buf_ne, upd_buf_eq by lia.
    change (bufs ((after_rounds n s) <| free_list := Some 0 |>) 0) with (bufs (after_rounds n s) 0).
    rewrite Ha, (proj2 (Z.eqb_neq 0 (n - 1))) by lia. done.
  - rewrite !upd_buf_ne by lia.
    change (bufs ((after_rounds n s) <| free_list := Some 0 |>) i) with (bufs (after_rounds n s) i).
    rewrite Ha, (proj2 (Z.eqb_neq i (n - 1))), (proj2 (Z.eqb_neq i 0)) by lia. done.
Qed.

Lemma buffer_init_run s n :
  (Z.to_nat n < fuel)%nat -> 1024 <= n -> full s n = true -> (forall j, 0 <= j < n -> full s j = false) ->
  (forall k, ~ 0 <= k < NR_HASH -> hash_table s k = None) ->
  exists s', buffer_init s = Ret tt s' /\ bufs s' = bufs (initialised n s) /\
    free_list s' = Some 0 /\ hash_table s' = (fun _ => None) /\ nr_buffers s' = nr_buffers s + n.
Proof.
  intros Hf Hn Hfull Hno Hht. unfold buffer_init.
  pose proof (init_loop (Z.to_nat n) fuel s 0 ltac:(lia)) as Hl.
  rewrite Z2Nat.id, Z.add_0_l in Hl by lia. specialize (Hl Hfull Hno Hf).
  change (block_above 0) with BUFFER_END in Hl.
  assert (E0 : after_rounds 0 s = s).
  { unfold after_rounds, set_field. destruct s; simpl. rewrite Z.add_0_r. f_equal.
    apply functional_extensionality. intros i. by replace ((0 <=? i) && (i <? 0)) with false by lia. }
  rewrite E0 in Hl. mcall Hl. mrun.
  change (upd_buf (n - 1) _ _) with (initialised n s).
  mcall clear_hash_run; [|exact Hht]. mrun. eexists. split; [reflexivity|]. done.
Qed.

Lemma ring_seqZ nx pv n :
  1 < n ->
  (forall i, 0 <= i < n -> nx i = Some (if i =? n - 1 then 0 else i + 1) /\
     pv i = Some (if i =? 0 then n - 1 else i - 1)) ->
  ring nx pv (seqZ 0 n).
Proof.
  intros Hn Hi. rewrite seqZ_cons by lia. simpl.
  replace (Z.pred n) with (Z.of_nat (Z.to_nat (n - 1))) by lia.
  apply (seg_seqZ nx pv 0 (Z.to_nat (n - 1))).
  - intros i ?. split.
    + destruct (Hi i ltac:(lia)) as [-> _]. by rewrite (proj2 (Z.eqb_neq i (n - 1))) by lia.
    + destruct (Hi (i + 1) ltac:(lia)) as [_ ->]. rewrite (proj2 (Z.eqb_neq (i + 1) 0)) by lia.
      f_equal. lia.
  - rewrite Z.add_0_l, Z2Nat.id by lia. destruct (Hi (n - 1) ltac:(lia)) as [-> _]. by rewrite Z.eqb_refl.
  - rewrite Z.add_0_l, Z2Nat.id by lia. by destruct (Hi 0 ltac:(lia)) as [_ ->].
Qed.

Lemma fresh_queues s n :
  1 < n -> free_list s = Some 0 -> hash_table s = (fun _ => None) ->
  (forall i, 0 <= i < n -> b_dev (bufs s i) = 0 /\ b_next (bufs s i) = None /\ b_prev (bufs s i) = None /\
     b_next_free (bufs s i) = Some (if i =? n - 1 then 0 else i + 1) /\
     b_prev_free (bufs s i) = Some (if i =? 0 then n - 1 else i - 1)) ->
  queues s (seqZ 0 n) (fun _ => []).
Proof.
  intros Hn Hfl Hh Hb. split.
  - apply ring_seqZ; [done|]. intros i Hi. apply Hb, Hi.
  - by rewrite Hfl, seqZ_cons by lia.
  - apply NoDup_seqZ.
  - intros k. by rewrite Hh.
  - intros k. constructor.
  - intros k i. rewrite elem_of_nil, elem_of_seqZ. split; [done|]. intros (Hi & Hd & _).
    destruct (Hb i ltac:(lia)) as [? _]. done.
  - intros i Hi%elem_of_seqZ _. destruct (Hb i ltac:(lia)) as (_ & ? & ? & _). done.
Qed.

(** C15: buffer_init always ends, with 1024 to 1664 buffers for a kernel that
    ends below 576 KB, and establishes the invariant of the cache: all buffers
    unused on one circular free list, all hash chains empty; the data blocks do
    not overlap one another, the headers, or the video memory between 640 KB and
    1 MB. *)
Theorem buffer_init_spec s :
  0 <= start_buffer s <= 0x90000 -> nr_buffers s = 0 -> (1664 < fuel)%nat ->
  (forall k, ~ 0 <= k < NR_HASH -> hash_table s k = None) ->
  exists s' n, buffer_init s = Ret tt s' /\ 1024 <= n <= 1664 /\ nr_buffers s' = n /\
    queues s' (seqZ 0 n) (fun _ => []) /\
    forall i, 0 <= i < n ->
      let b := bufs s' i in
      b_dev b = 0 /\ b_count b = 0 /\ b_dirt b = 0 /\ b_uptodate b = 0 /\ b_lock b = 0 /\
      start_buffer s + 32 * n <= b_addr b /\ b_addr b + 1024 <= BUFFER_END /\
      (b_addr b + 1024 <= 0xA0000 \/ 0x100000 <= b_addr b) /\
      forall j, i < j < n -> b_addr (bufs s' j) + 1024 <= b_addr b.
Proof.
  intros Hs Hnr Hf Hht. destruct (full_first s Hs) as (n & Hn & Hfull & Hno).
  destruct (buffer_init_run s n) as (s' & Hrun & Hb & Hfl & Hh & Hcount); [lia|lia|done..|].
  exists s', n. split; [done|]. split; [done|]. split; [lia|].
  assert (Hbuf := fun i Hi => initialised_buf n s i Hi ltac:(lia)). rewrite <- Hb in Hbuf.
  assert (Hpay : forall i, 0 <= i < n -> payload (bufs s' i) = payload (fresh i (bufs s i)))
    by (intros i Hi; apply Hbuf, Hi).
  assert (Haddr : forall i, 0 <= i < n -> b_addr (bufs s' i) = block_at i)
    by (intros i Hi; apply (f_equal b_addr (Hpay i Hi))).
  split.
  - apply fresh_queues; [lia|done|done|]. intros i Hi. destruct (Hbuf i Hi) as (Hp & Hrest).
    split; [|done]. apply payload_fields in Hp. by destruct Hp as (-> & _).
  - intros i Hi. cbv zeta. destruct (payload_fields _ _ (Hpay i Hi)) as (-> & _ & -> & -> & -> & -> & _).
    split_and!; try reflexivity; rewrite ?Haddr by lia.
    + pose proof (Hno (n - 1) ltac:(lia)) as Hl. unfold full in Hl. ztest.
      destruct (decide (i = n - 1)) as [->|]; [lia|].
      pose proof (blocks_apart i (n - 1) ltac:(lia)). lia.
    + unfold block_at, BUFFER_END. destruct (i <? 1024) eqn:E; ztest; lia.
    + unfold block_at, BUFFER_END. destruct (i <? 1024) eqn:E; ztest; lia.
    + intros j Hj. rewrite Haddr by lia. apply blocks_apart. lia.
Qed.
End init.

Definition patient_machine : Machine := {| fuel := 2000; dev_in _ _ _ := 0x50;
  stack_junk _ := 0; below_ctype _ := 0; address_of _ := 0x12345678 |}.

Lemma buffer_init_spec_witness :
  exists s' n, @buffer_init patient_machine zero_kstate = Ret tt s' /\ 1024 <= n <= 1664 /\
    queues s' (seqZ 0 n) (fun _ => []).
Proof.
  destruct (@buffer_init_spec patient_machine zero_kstate) as (s' & n & Hr & Hn & _ & Hq & _).
  - split; discriminate.
  - reflexivity.
  - apply Nat.ltb_lt. vm_compute. reflexivity.
  - reflexivity.
  - exists s', n. split; [exact Hr|]. split; [exact Hn|exact Hq].
Defined.
