(* ===== verification/Bitmap.v ===== *)
(** The block and inode bitmaps, fs/bitmap.c: finding, setting and clearing
    bits, and the allocation of blocks on top of them. *)
From S2P Require Export Buffer.
#[local] Open Scope bool_scope.

(** ** Bits of a block *)

(** Bit [nr] of a bitmap: the processor counts bits from the low end of each
    byte on. *)
Definition test_bit (d : Z -> Z) (nr : Z) : bool := Z.testbit (d (nr / 8)) (nr mod 8).

(** fs/bitmap.c:22-25: the old bit and the new bitmap. *)
Definition set_bit (nr : Z) (d : Z -> Z) : bool * (Z -> Z) :=
  (test_bit d nr, <[nr / 8 := Z.setbit (d (nr / 8)) (nr mod 8)]> d).
(** fs/bitmap.c:27-30: whether the bit was clear, and the new bitmap. *)
Definition clear_bit (nr : Z) (d : Z -> Z) : bool * (Z -> Z) :=
  (negb (test_bit d nr), <[nr / 8 := Z.clearbit (d (nr / 8)) (nr mod 8)]> d).

(** The lowest bit set in a word, [bsfl]. *)
Definition bsf (x : Z) : ptr := scan (Z.testbit x) 0 32.

(** fs/bitmap.c:32-46: word after word until one has a zero bit. *)
Fixpoint find_zero_from (d : Z -> Z) (ecx : Z) (n : nat) : Z :=
  match n with
  | O => ecx
  | S n =>
      match bsf (u32 (Z.lnot (le32 d (ecx / 8)))) with
      | Some edx => ecx + edx
      | None => find_zero_from d (ecx + 32) n
      end
  end.
(** fs/bitmap.c:32-46: 8192 bits are 256 words. *)
Definition find_first_zero (d : Z -> Z) : Z := find_zero_from d 0 256.

(** include/linux/fs.h:175-183 *)
Definition get_super (dev : Z) : K ptr :=
  gets (fun s => scan (fun i => s_dev (supers s i) =? dev) 0 (Z.to_nat NR_SUPER)).

Section bitmap.
Context `{Machine}.

(** fs/bitmap.c:16-20 *)
Definition clear_block (bh : Z) : K unit :=
  setb bh (fun b => b <| b_data ::= fun d a => if (0 <=? a) && (a <? BLOCK_SIZE) then 0 else d a |>).

(** fs/bitmap.c:52-78 *)
Definition free_block (dev block : Z) : K unit :=
  p ← get_super dev;
  match p with
  | None => panic "trying to free block on nonexistent device"
  | Some sbi =>
      sb ← getsb sbi;
      if (block <? s_firstdatazone sb) || (block >=? s_nzones sb)
      then panic "trying to free block not in datazone"
      else
        r ← get_hash_table dev block;
        b ← match r with Some bh => getb bh | None => mret zero_buffer_head end;
        if negb (null r) && negb (b_count b =? 1) then
          printk " [FS] Warn: freeing busy block (%04x:%d), count=%d\n\r" [dev; block; b_count b]
        else
          match r with
          | Some bh =>
              setb bh (fun b => b <| b_dirt := 0 |>);;
              setb bh (fun b => b <| b_uptodate := 0 |>);;
              brelse (Some bh)
          | None => mret tt
          end;;
          sb ← getsb sbi;
          let block := block - (s_firstdatazone sb - 1) in
          zm ← deref (s_zmap sb (block / 8192));
          zb ← getb zm;
          let '(was_clear, d) := clear_bit (Z.land block 8191) (b_data zb) in
          setb zm (fun b => b <| b_data := d |>);;
          if was_clear then
            printk "block (%04x:%d) " [dev; block + s_firstdatazone sb - 1];;
            panic "free_block: bit already cleared"
          else setb zm (fun b => b <| b_dirt := 1 |>)
  end.

(** The search of [new_block] and [new_inode] through the eight blocks of a
    bitmap: the block, its buffer and the bit (fs/bitmap.c:92-96). *)
Definition find_in_map (s : kstate) (m : Z -> ptr) : option (Z * Z * Z) :=
  let zero bh := find_first_zero (b_data (bufs s bh)) in
  match scan (fun i => match m i with Some bh => zero bh <? 8192 | None => false end) 0 8 with
  | None => None
  | Some i => match m i with Some bh => Some (i, bh, zero bh) | None => None end
  end.

(** fs/bitmap.c:84-115 *)
Definition new_block (dev : Z) : K Z :=
  p ← get_super dev;
  match p with
  | None => panic "trying to get new block from nonexistant device"
  | Some sbi =>
      sb ← getsb sbi;
      s ← get;
      match find_in_map s (s_zmap sb) with
      | None => mret 0
      | Some (i, bh, j) =>
          setsb sbi (fun p => p <| s_rd_only := 0 |>);;
          let '(was_set, d) := set_bit j (b_data (bufs s bh)) in
          setb bh (fun b => b <| b_data := d |>);;
          if was_set then panic "new_block: bit already set"
          else
            setb bh (fun b => b <| b_dirt := 1 |>);;
            let j := j + i * 8192 + s_firstdatazone sb - 1 in
            if j >=? s_nzones sb then mret 0
            else
              r ← getblk dev j;
              match r with
              | None => panic "new_block: cannot get block"
              | Some bh =>
                  b ← getb bh;
                  if negb (b_count b =? 1) then panic "new block: count is != 1"
                  else
                    clear_block bh;;
                    setb bh (fun b => b <| b_uptodate := 1 |>);;
                    setb bh (fun b => b <| b_dirt := 1 |>);;
                    brelse (Some bh);;
                    mret j
              end
      end
  end.

(** fs/bitmap.c:121-148 *)
Definition free_inode (inode : ptr) : K unit :=
  match inode with
  | None => mret tt
  | Some i =>
      n ← geti i;
      if negb (nz (i_dev n)) then seti i (fun _ => zero_m_inode)
      else if i_count n >? 1 then
        printk "trying to free inode with count=%d\n" [i_count n];;
        panic "free_inode"
      else if nz (i_nlinks n) then panic "trying to free inode with links"
      else
        p ← get_super (i_dev n);
        match p with
        | None => panic "trying to free inode on nonexistent device"
        | Some sbi =>
            sb ← getsb sbi;
            if (i_num n <? 1) || (i_num n >? s_ninodes sb)
            then panic "trying to free inode 0 or nonexistant inode"
            else
              match s_imap sb (Z.shiftr (i_num n) 13) with
              | None => panic "nonexistent imap in superblock"
              | Some bh =>
                  b ← getb bh;
                  let '(was_clear, d) := clear_bit (Z.land (i_num n) 8191) (b_data b) in
                  setb bh (fun b => b <| b_data := d |>);;
                  if was_clear then panic "free_inode: bit already cleared"
                  else
                    setb bh (fun b => b <| b_dirt := 1 |>);;
                    seti i (fun _ => zero_m_inode)
              end
        end
  end.
End bitmap.

(** ** The bits *)

Lemma test_set_bit d nr k : 0 <= nr -> 0 <= k ->
  test_bit (snd (set_bit nr d)) k = if decide (k = nr) then true else test_bit d k.
Proof.
  intros Hn Hk. unfold test_bit, set_bit; simpl. rewrite arr_dec.
  destruct (decide (nr / 8 = k / 8)) as [He|He].
  - destruct (decide (k = nr)) as [->|Hkn]; [apply Z.setbit_eq; dlia|].
    rewrite Z.setbit_neq, He by dlia. done.
  - rewrite decide_False by (intros ->; done). done.
Qed.
Lemma test_clear_bit d nr k : 0 <= nr -> 0 <= k ->
  test_bit (snd (clear_bit nr d)) k = if decide (k = nr) then false else test_bit d k.
Proof.
  intros Hn Hk. unfold test_bit, clear_bit; simpl. rewrite arr_dec.
  destruct (decide (nr / 8 = k / 8)) as [He|He].
  - destruct (decide (k = nr)) as [->|Hkn]; [apply Z.clearbit_eq|].
    rewrite Z.clearbit_neq, He by dlia. done.
  - rewrite decide_False by (intros ->; done). done.
Qed.

(** A bit of a little-endian word is a bit of one of its bytes. *)
Lemma testbit_byte b i : 0 <= b < 256 -> 8 <= i -> Z.testbit b i = false.
Proof.
  intros Hb Hi. rewrite <- (Z.mod_small b (2 ^ 8)) by lia. by apply Z.mod_pow2_bits_high.
Qed.
Lemma testbit_join a b k i : 0 <= k -> 0 <= a < 2 ^ k -> 0 <= i ->
  Z.testbit (a + 2 ^ k * b) i = if decide (i < k) then Z.testbit a i else Z.testbit b (i - k).
Proof.
  intros Hk Ha Hi. assert (0 < 2 ^ k) by (apply Z.pow_pos_nonneg; lia). destruct (decide (i < k)).
  - rewrite <- (Z.mod_pow2_bits_low (a + 2 ^ k * b) k) by lia.
    rewrite Z.mul_comm, Z_mod_plus_full, Z.mod_small by lia. done.
  - replace i with (i - k + k) at 1 by lia. rewrite <- Z.div_pow2_bits by lia.
    f_equal. rewrite Z.mul_comm, Z.div_add, Z.div_small by lia. done.
Qed.
Lemma testbit_le32 d o i : bytes d -> 0 <= i < 32 ->
  Z.testbit (le32 d o) i = Z.testbit (d (o + i / 8)) (i mod 8).
Proof.
  intros Hb Hi. unfold le32.
  pose proof (Hb o). pose proof (Hb (o + 1)). pose proof (Hb (o + 2)). pose proof (Hb (o + 3)).
  replace (d o + 256 * d (o + 1) + 65536 * d (o + 2) + 16777216 * d (o + 3)) with
    (d o + 2 ^ 8 * (d (o + 1) + 2 ^ 8 * (d (o + 2) + 2 ^ 8 * d (o + 3)))) by lia.
  rewrite (testbit_join (d o)) by lia. destruct (decide (i < 8)).
  { replace (i / 8) with 0 by dlia. rewrite Z.add_0_r. f_equal. dlia. }
  rewrite (testbit_join (d (o + 1))) by lia. destruct (decide (i - 8 < 8)).
  { replace (i / 8) with 1 by dlia. f_equal. dlia. }
  rewrite (testbit_join (d (o + 2))) by lia. destruct (decide (i - 8 - 8 < 8)).
  { replace (i / 8) with 2 by dlia. f_equal. dlia. }
  replace (i / 8) with 3 by dlia. f_equal. dlia.
Qed.

(** The bits of the inverted word the search looks at. *)
Lemma testbit_inverted d o i : bytes d -> 0 <= i < 32 ->
  Z.testbit (u32 (Z.lnot (le32 d o))) i = negb (Z.testbit (d (o + i / 8)) (i mod 8)).
Proof.
  intros Hb Hi. unfold u32. change 4294967296 with (2 ^ 32).
  rewrite Z.mod_pow2_bits_low, Z.lnot_spec, testbit_le32 by (done || lia). done.
Qed.

(** The search finds the first zero bit. *)
Lemma find_zero_run d w n : bytes d -> 0 <= w ->
  find_zero_from d (32 * w) n =
    match scan (fun k => negb (test_bit d k)) (32 * w) (32 * n) with
    | Some k => k
    | None => 32 * w + 32 * Z.of_nat n
    end.
Proof.
  intros Hb. revert w. induction n as [|n IH]; intros w Hw; [simpl; lia|].
  cbn [find_zero_from]. replace (32 * S n)%nat with (32 + 32 * n)%nat by lia. rewrite scan_app.
  replace (32 * w / 8) with (4 * w) by dlia.
  assert (Hscan : bsf (u32 (Z.lnot (le32 d (4 * w)))) =
    option_map (fun k => k - 32 * w) (scan (fun k => negb (test_bit d k)) (32 * w) 32)).
  { unfold bsf. pose proof (scan_shift (fun k => negb (test_bit d k)) (32 * w) 0 32) as Hs.
    rewrite Z.add_0_r in Hs. rewrite Hs. apply scan_ext. intros i Hi.
    rewrite testbit_inverted by (done || lia). unfold test_bit.
    do 2 f_equal; [f_equal|]; dlia. }
  rewrite Hscan. destruct (scan _ (32 * w) 32) as [k|]; simpl; [lia|].
  replace (32 * w + 32) with (32 * (w + 1)) by lia. rewrite IH by lia.
  replace (32 * w + Z.of_nat 32) with (32 * (w + 1)) by lia.
  destruct (scan _ (32 * (w + 1)) _); lia.
Qed.

(** C21: find_first_zero, which scans a 1024-byte bitmap block by 32-bit words,
    gives the least clear bit of the block, or 8192 when every bit is set. *)
Theorem find_first_zero_spec d :
  bytes d ->
  (0 <= find_first_zero d < 8192 /\ test_bit d (find_first_zero d) = false /\
   forall k, 0 <= k < find_first_zero d -> test_bit d k = true) \/
  (find_first_zero d = 8192 /\ forall k, 0 <= k < 8192 -> test_bit d k = true).
Proof.
  intros Hb. unfold find_first_zero. pose proof (find_zero_run d 0 256 Hb ltac:(lia)) as H.
  rewrite Z.mul_0_r in H. rewrite H.
  destruct (scan _ 0 (32 * 256)) as [k|] eqn:E; [left|right].
  - apply scan_Some in E as (Hk & Ht & Hall). split; [lia|]. split; [by apply negb_true_iff|].
    intros j Hj. by apply negb_false_iff, Hall.
  - rewrite scan_None in E. split; [lia|]. intros k Hk. apply negb_false_iff, E. lia.
Qed.

(** ** Blocks *)

Section blocks.
Context `{Machine}.

(** The buffer and the bit that stand for a block of a mounted device. *)
Record zone_bit (s : kstate) (dev block sbi bh nr : Z) : Prop := {
  zb_super : scan (fun i => s_dev (supers s i) =? dev) 0 8 = Some sbi;
  zb_range : s_firstdatazone (supers s sbi) <= block < s_nzones (supers s sbi);
  zb_first : 0 < s_firstdatazone (supers s sbi);
  zb_map : s_zmap (supers s sbi) ((block - (s_firstdatazone (supers s sbi) - 1)) / 8192) = Some bh;
  zb_nr : nr = (block - (s_firstdatazone (supers s sbi) - 1)) mod 8192;
}.

Lemma land_8191 x : Z.land x 8191 = x mod 8192.
Proof.
  change 8191 with (Z.shiftl (Z.ones 13) 0). rewrite land_field by lia.
  change (2 ^ 0) with 1. change (2 ^ 13) with 8192. rewrite Z.div_1_r. lia.
Qed.

(** C22: free_block of a block that is in no buffer clears the block's bit of
    the zone map, marks the map's buffer dirty and changes no other buffer; a
    bit that is already clear is a panic. *)
Theorem free_block_spec dev block sbi bh nr s l h :
  queues s l h -> cache_fits l h -> (forall i, i ∈ l -> ~ holds s dev block i) ->
  zone_bit s dev block sbi bh nr ->
  exists s', free_block dev block s =
      (if test_bit (b_data (bufs s bh)) nr then Ret tt s'
       else Panic "free_block: bit already cleared" s') /\
    (forall k, 0 <= k -> test_bit (b_data (bufs s' bh)) k =
       if decide (k = nr) then false else test_bit (b_data (bufs s bh)) k) /\
    (test_bit (b_data (bufs s bh)) nr = true -> b_dirt (bufs s' bh) = 1) /\
    (forall i, i <> bh -> bufs s' i = bufs s i).
Proof.
  intros Hq Hf Hno [Hsb Hr Hfirst Hm Hnr]. unfold free_block, get_super. mrun.
  change (Z.to_nat NR_SUPER) with 8%nat. rewrite Hsb. mrun. set (sb := supers s sbi) in *.
  replace (block <? s_firstdatazone sb) with false by (symmetry; apply Z.ltb_ge; lia).
  replace (block >=? s_nzones sb) with false by (symmetry; rewrite Z.geb_leb; apply Z.leb_gt; lia).
  cbn [orb]. rewrite (bind_Ret _ _ _ _ _ (get_hash_table_none dev block s l h Hq Hf Hno)).
  cbn [null negb andb]. mrun. fold sb. rewrite Hm. mrun. rewrite land_8191, <- Hnr.
  unfold clear_bit. mrun. destruct (test_bit (b_data (bufs s bh)) nr) eqn:Hbit; simpl negb; cbv iota.
  - eexists. split; [reflexivity|]. split; [|split].
    + intros k Hk. rewrite upd_buf_fuse, upd_buf_eq. simpl.
      rewrite <- (test_clear_bit _ nr k) by (done || (subst nr; apply Z.mod_pos_bound; lia)). done.
    + intros _. by rewrite upd_buf_fuse, upd_buf_eq.
    + intros i Hi. by rewrite !upd_buf_ne.
  - mrun. eexists. split; [reflexivity|]. split; [|split; [done|]].
    + intros k Hk. simpl. rewrite arr_eq. simpl.
      rewrite <- (test_clear_bit _ nr k) by (done || (subst nr; apply Z.mod_pos_bound; lia)). done.
    + intros i Hi. simpl. by rewrite arr_ne.
Qed.

(** When the first clear bit of the zone map is past the last zone of the
    file system, new_block returns 0 but leaves that bit set; when no map block
    has a clear bit it returns 0 and changes nothing. *)
Theorem new_block_full dev sbi s :
  scan (fun i => s_dev (supers s i) =? dev) 0 8 = Some sbi ->
  match find_in_map s (s_zmap (supers s sbi)) with
  | None => new_block dev s = Ret 0 s
  | Some (i, bh, j) =>
      j + i * 8192 + s_firstdatazone (supers s sbi) - 1 >= s_nzones (supers s sbi) ->
      test_bit (b_data (bufs s bh)) j = false -> 0 <= j ->
      exists s', new_block dev s = Ret 0 s' /\ test_bit (b_data (bufs s' bh)) j = true
  end.
Proof.
  intros Hsb. destruct (find_in_map s _) as [[[i bh] j]|] eqn:Hfind.
  - intros Hend Hbit Hj. unfold new_block, get_super. mrun. change (Z.to_nat NR_SUPER) with 8%nat.
    rewrite Hsb. mrun. rewrite Hfind. mrun. unfold set_bit. rewrite Hbit. mrun.
    rewrite (proj2 (Z.geb_le _ _)) by lia. eexists. split; [reflexivity|].
    rewrite upd_buf_eq. simpl. rewrite arr_eq. simpl. pose proof (test_set_bit (b_data (bufs s bh)) j j Hj Hj) as Ht.
    rewrite decide_True in Ht by done. exact Ht.
  - unfold new_block, get_super. mrun. change (Z.to_nat NR_SUPER) with 8%nat. rewrite Hsb. mrun.
    by rewrite Hfind.
Qed.
End blocks.

(** ** Examples *)

Definition half_full : Z -> Z := fun a => if a <? 512 then 255 else 0.

Lemma find_first_zero_spec_witness :
  0 <= find_first_zero half_full < 8192 /\ test_bit half_full (find_first_zero half_full) = false.
Proof.
  destruct (find_first_zero_spec half_full) as [(Hr & Ht & _)|(He & _)].
  - intros a. unfold half_full. case_match; lia.
  - exact (conj Hr Ht).
  - exfalso. assert (Hv : find_first_zero half_full = 4096) by (vm_compute; reflexivity). lia.
Defined.

(** A mounted device 0x301 whose zone bitmap is in buffer 1: the data zones
    are 5 to 99, and bits 1 to 4 of the map are set. *)
Definition mounted : kstate := two_buffers
  <| supers := fun i => if i =? 0
       then zero_super_block <| s_dev := 0x301 |> <| s_nzones := 100 |> <| s_firstdatazone := 5 |>
              <| s_zmap := fun k => if k =? 0 then Some 1 else None |>
       else zero_super_block |>
  <| bufs ::= fun t => <[1 := (t 1) <| b_data := fun a => if a =? 0 then 31 else 0 |>]> t |>.

Lemma mounted_queues : queues mounted [0; 1] two_buffers_hash.
Proof.
  refine (queues_upd 1 (fun b => b <| b_data := fun a => if a =? 0 then 31 else 0 |>)
    (two_buffers <| supers := supers mounted |>) [0; 1] two_buffers_hash _ _ _);
    [destruct two_buffers_queues; by constructor|done|right; done].
Qed.

Lemma free_block_spec_witness : exists s', @free_block quiet_machine 0x301 8 mounted = Ret tt s' /\
  test_bit (b_data (bufs s' 1)) 4 = false.
Proof.
  destruct (@free_block_spec quiet_machine 0x301 8 0 1 4 mounted [0; 1] two_buffers_hash)
    as (s' & Hrun & Hbits & _).
  - apply mounted_queues.
  - apply two_buffers_fit.
  - intros i Hi [_ Hb]. assert (i = 0 \/ i = 1) as [->| ->] by set_solver; discriminate Hb.
  - split; [reflexivity|cbn; lia|cbn; lia|reflexivity|reflexivity].
  - exists s'. split; [exact Hrun|]. exact (Hbits 4 ltac:(lia)).
Defined.

(** The same device with a single data zone, so that a free bit of the map
    stands for a zone past the end. *)
Definition tiny : kstate :=
  mounted <| supers ::= fun t => <[0 := (t 0) <| s_nzones := 9 |>]> t |>.

Lemma new_block_full_witness : exists s', @new_block quiet_machine 0x301 tiny = Ret 0 s' /\
  test_bit (b_data (bufs s' 1)) 5 = true.
Proof.
  pose proof (@new_block_full quiet_machine 0x301 0 tiny eq_refl) as H.
  assert (Hfind : find_in_map tiny (s_zmap (supers tiny 0)) = Some (0, 1, 5)) by (vm_compute; reflexivity).
  rewrite Hfind in H. apply H; [vm_compute; discriminate|reflexivity|lia].
Defined.
