(* ===== verification/Inode.v ===== *)
(** Inodes, fs/inode.c, and what is entangled with them: fs/truncate.c and
    the allocation of inodes of fs/bitmap.c.  The inode table, the layout of
    inodes on the disk and the mapping of file blocks to disk blocks. *)
From S2P Require Export Bitmap Memory.
#[local] Open Scope bool_scope.

(** ** The layout of an inode on the disk *)

(** include/linux/fs.h:71-79: the structure read from the bytes at [o]. *)
Definition get_d_inode (d : Z -> Z) (o : Z) : d_inode := {|
  di_mode := le16 d o; di_uid := le16 d (o + 2); di_size := le32 d (o + 4);
  di_time := le32 d (o + 8); di_gid := d (o + 12); di_nlinks := d (o + 13);
  di_zone k := le16 d (o + 14 + 2 * k);
|}.

(** include/linux/fs.h:71-79: the structure stored at [o]. *)
Definition put_d_inode (d : Z -> Z) (o : Z) (n : d_inode) : Z -> Z := fun a =>
  let r := a - o in
  let byte v k := u8 (v / 256 ^ k) in
  if (r <? 0) || (r >=? 32) then d a
  else if r <? 2 then byte (di_mode n) r
  else if r <? 4 then byte (di_uid n) (r - 2)
  else if r <? 8 then byte (di_size n) (r - 4)
  else if r <? 12 then byte (di_time n) (r - 8)
  else if r =? 12 then u8 (di_gid n)
  else if r =? 13 then u8 (di_nlinks n)
  else byte (di_zone n ((r - 14) / 2)) ((r - 14) mod 2).

(** The part of an inode in memory that is stored on the disk. *)
Definition as_d_inode (n : m_inode) : d_inode := {|
  di_mode := i_mode n; di_uid := i_uid n; di_size := i_size n; di_time := i_mtime n;
  di_gid := i_gid n; di_nlinks := i_nlinks n; di_zone := i_zone n;
|}.
Definition of_d_inode (d : d_inode) (n : m_inode) : m_inode :=
  n <| i_mode := di_mode d |> <| i_uid := di_uid d |> <| i_size := di_size d |>
    <| i_mtime := di_time d |> <| i_gid := di_gid d |> <| i_nlinks := di_nlinks d |>
    <| i_zone := di_zone d |>.

(** include/linux/fs.h:104: the read and write offsets of a pipe overlay
    the first four zone numbers. *)
Definition PIPE_HEAD (n : m_inode) : Z := s32 (i_zone n 0 + 65536 * i_zone n 1).
(** include/linux/fs.h:105 *)
Definition PIPE_TAIL (n : m_inode) : Z := s32 (i_zone n 2 + 65536 * i_zone n 3).
Definition set_pipe_head (v : Z) (n : m_inode) : m_inode :=
  n <| i_zone ::= fun z => <[1 := u16 (v / 65536)]> (<[0 := u16 v]> z) |>.
Definition set_pipe_tail (v : Z) (n : m_inode) : m_inode :=
  n <| i_zone ::= fun z => <[3 := u16 (v / 65536)]> (<[2 := u16 v]> z) |>.

Section inode.
Context `{Machine}.

(** fs/inode.c:24-30 *)
Definition wait_on_inode (inode : Z) : K unit :=
  while fuel (n ← geti inode; mret (nz (i_lock n))) (sleep_on fuel (wq_i_wait inode)).

(** fs/inode.c:36-43 *)
Definition lock_inode (inode : Z) : K unit :=
  while fuel (n ← geti inode; mret (nz (i_lock n))) (sleep_on fuel (wq_i_wait inode));;
  seti inode (fun n => n <| i_lock := 1 |>).

(** fs/inode.c:49-53 *)
Definition unlock_inode (inode : Z) : K unit :=
  seti inode (fun n => n <| i_lock := 0 |>);;
  wake_up (wq_i_wait inode).

(** fs/inode.c:305-306: the block of the inode table that holds an inode; also 328-329. *)
Definition inode_block (sb : super_block) (nr : Z) : Z :=
  2 + s_imap_blocks sb + s_zmap_blocks sb + u32 (nr - 1) / INODES_PER_BLOCK.
(** fs/inode.c:309-310: its place in the block, in bytes; also 331-332. *)
Definition inode_offset (nr : Z) : Z := 32 * (u32 (nr - 1) mod INODES_PER_BLOCK).

(** fs/inode.c:297-314 *)
Definition read_inode (inode : Z) : K unit :=
  lock_inode inode;;
  n ← geti inode;
  p ← get_super (i_dev n);
  sbi ← deref p;
  sb ← getsb sbi;
  r ← bread (i_dev n) (inode_block sb (i_num n));
  match r with
  | None => panic "unable to read i-node block"
  | Some bh =>
      b ← getb bh;
      n ← geti inode;
      seti inode (of_d_inode (get_d_inode (b_data b) (inode_offset (i_num n))));;
      brelse (Some bh);;
      unlock_inode inode
  end.

(** fs/inode.c:320-339 *)
Definition write_inode (inode : Z) : K unit :=
  lock_inode inode;;
  n ← geti inode;
  p ← get_super (i_dev n);
  sbi ← deref p;
  sb ← getsb sbi;
  r ← bread (i_dev n) (inode_block sb (i_num n));
  match r with
  | None => panic "unable to read i-node block"
  | Some bh =>
      n ← geti inode;
      setb bh (fun b => b <| b_data ::=
        fun d => put_d_inode d (inode_offset (i_num n)) (as_d_inode n) |>);;
      setb bh (fun b => b <| b_dirt := 1 |>);;
      seti inode (fun n => n <| i_dirt := 0 |>);;
      brelse (Some bh);;
      unlock_inode inode
  end.

(** fs/inode.c:59-70 *)
Definition sync_inodes : K unit :=
  for_ 0 (Z.to_nat NR_INODE) (fun inode =>
    wait_on_inode inode;;
    n ← geti inode;
    when (nz (i_dirt n) && negb (nz (i_pipe n))) (write_inode inode)).

(** A zone number of the inode, allocated when [create] is set and there is
    none: fs/inode.c:86-91, 95-99 and 114-118. *)
Definition zone_of (inode k : Z) (create : bool) : K Z :=
  n ← geti inode;
  when (create && negb (nz (i_zone n k)))
    (b ← new_block (i_dev n);
     seti inode (fun n => n <| i_zone ::= <[k := u16 b]> |>);;
     when (nz (u16 b))
       (t ← CURRENT_TIME;
        seti inode (fun n => n <| i_ctime := u32 t |>);;
        seti inode (fun n => n <| i_dirt := 1 |>)));;
  n ← geti inode;
  mret (i_zone n k).

(** An entry of an indirect block: fs/inode.c:102-111, 121-129 and 132-141. *)
Definition indirect (dev zone k : Z) (create : bool) : K Z :=
  r ← bread dev zone;
  match r with
  | None => mret 0
  | Some bh =>
      b ← getb bh;
      let i := le16 (b_data b) (2 * k) in
      i ← (if create && negb (nz i) then
             i ← new_block dev;
             when (nz i)
               (setb bh (fun b => b <| b_data ::= fun d => put16 d (2 * k) i |>);;
                setb bh (fun b => b <| b_dirt := 1 |>));;
             mret i
           else mret i);
      brelse (Some bh);;
      mret i
  end.

(** fs/inode.c:76-142 *)
Definition _bmap (inode block : Z) (create : bool) : K Z :=
  if block <? 0 then panic "_bmap: block<0"
  else if block >=? 7 + 512 + 512 * 512 then panic "_bmap: block>big"
  else if block <? 7 then zone_of inode block create
  else
    let block := block - 7 in
    if block <? 512 then
      z ← zone_of inode 7 create;
      if negb (nz z) then mret 0
      else n ← geti inode; indirect (i_dev n) z block create
    else
      let block := block - 512 in
      z ← zone_of inode 8 create;
      if negb (nz z) then mret 0
      else
        n ← geti inode;
        i ← indirect (i_dev n) z (Z.shiftr block 9) create;
        if negb (nz i) then mret 0
        else n ← geti inode; indirect (i_dev n) i (Z.land block 511) create.

(** fs/inode.c:144-147 *)
Definition bmap (inode block : Z) : K Z := _bmap inode block false.
(** fs/inode.c:149-152 *)
Definition create_block (inode block : Z) : K Z := _bmap inode block true.

(** fs/truncate.c:5-21 *)
Definition free_ind (dev block : Z) : K unit :=
  if negb (nz block) then mret tt
  else
    r ← bread dev block;
    match r with
    | Some bh =>
        for_ 0 512 (fun i =>
          b ← getb bh;
          let p := le16 (b_data b) (2 * i) in
          when (nz p) (free_block dev p));;
        brelse (Some bh)
    | None => mret tt
    end;;
    free_block dev block.

(** fs/truncate.c:23-39 *)
Definition free_dind (dev block : Z) : K unit :=
  if negb (nz block) then mret tt
  else
    r ← bread dev block;
    match r with
    | Some bh =>
        for_ 0 512 (fun i =>
          b ← getb bh;
          let p := le16 (b_data b) (2 * i) in
          when (nz p) (free_ind dev p));;
        brelse (Some bh)
    | None => mret tt
    end;;
    free_block dev block.

(** fs/truncate.c:41-58 *)
Definition truncate (inode : Z) : K unit :=
  n ← geti inode;
  if negb (S_ISREG (i_mode n) || S_ISDIR (i_mode n)) then mret tt
  else
    for_ 0 7 (fun i =>
      n ← geti inode;
      when (nz (i_zone n i))
        (free_block (i_dev n) (i_zone n i);;
         seti inode (fun n => n <| i_zone ::= <[i := 0]> |>)));;
    n ← geti inode;
    free_ind (i_dev n) (i_zone n 7);;
    n ← geti inode;
    free_dind (i_dev n) (i_zone n 8);;
    seti inode (fun n => n <| i_zone ::= fun z => <[7 := 0]> (<[8 := 0]> z) |>);;
    seti inode (fun n => n <| i_size := 0 |>);;
    seti inode (fun n => n <| i_dirt := 1 |>);;
    t ← CURRENT_TIME;
    seti inode (fun n => n <| i_ctime := u32 t |> <| i_mtime := u32 t |>).

(** fs/inode.c:179-191, one round of the loop [repeat]. *)
Definition iput_step (i : Z) (_ : unit) : K (unit + unit) :=
  n ← geti i;
  if negb (nz (i_nlinks n)) then
    truncate i;;
    free_inode (Some i);;
    mret (inr tt)
  else if nz (i_dirt n) then
    write_inode i;;
    wait_on_inode i;;
    mret (inl tt)
  else
    seti i (fun n => n <| i_count ::= fun c => u16 (c - 1) |>);;
    mret (inr tt).

(** fs/inode.c:158-192 *)
Definition iput (inode : ptr) : K unit :=
  match inode with
  | None => mret tt
  | Some i =>
      wait_on_inode i;;
      n ← geti i;
      if negb (nz (i_count n)) then panic "iput: trying to free free inode"
      else if nz (i_pipe n) then
        wake_up (wq_i_wait i);;
        seti i (fun n => n <| i_count ::= fun c => u16 (c - 1) |>);;
        n ← geti i;
        if nz (i_count n) then mret tt
        else
          free_page (i_size n);;
          seti i (fun n => n <| i_count := 0 |>);;
          seti i (fun n => n <| i_dirt := 0 |>);;
          seti i (fun n => n <| i_pipe := 0 |>)
      else if negb (nz (i_dev n)) || (i_count n >? 1) then
        seti i (fun n => n <| i_count ::= fun c => u16 (c - 1) |>)
      else loop fuel (iput_step i) tt
  end.

(** The search of [get_empty_inode] (fs/inode.c:206-216): round the table
    from [last_allocated_inode] on. *)
Definition find_empty (s : kstate) : ptr :=
  let at_ k := (last_allocated_inode s + k) mod NR_INODE in
  option_map at_ (scan (fun k => i_count (inode_table s (at_ k)) =? 0) 0 (Z.to_nat NR_INODE)).

(** fs/inode.c:205-231, one round of the outer loop. *)
Definition empty_step (_ : unit) : K (unit + Z) :=
  s ← get;
  match find_empty s with
  | None =>
      for_ 0 (Z.to_nat NR_INODE) (fun inr =>
        n ← geti inr;
        printk "%04x: %6d\t" [i_dev n; i_num n]);;
      panic "No free inodes in mem"
  | Some i =>
      modify (fun s => s <| last_allocated_inode := i |>);;
      wait_on_inode i;;
      while fuel (n ← geti i; mret (nz (i_dirt n))) (write_inode i;; wait_on_inode i);;
      n ← geti i;
      if negb (nz (i_count n)) then mret (inr i) else mret (inl tt)
  end.

(** fs/inode.c:200-235 *)
Definition get_empty_inode : K ptr :=
  i ← loop fuel empty_step tt;
  seti i (fun _ => zero_m_inode);;
  seti i (fun n => n <| i_count := 1 |>);;
  mret (Some i).

(** fs/inode.c:241-255 *)
Definition get_pipe_inode : K ptr :=
  r ← get_empty_inode;
  match r with
  | None => mret None
  | Some i =>
      p ← get_free_page;
      seti i (fun n => n <| i_size := p |>);;
      if negb (nz p) then
        seti i (fun n => n <| i_count := 0 |>);;
        mret None
      else
        seti i (fun n => n <| i_count := 2 |>);;
        seti i (fun n => set_pipe_head 0 (set_pipe_tail 0 n));;
        seti i (fun n => n <| i_pipe := 1 |>);;
        mret (Some i)
  end.

(** fs/inode.c:269-283, one round of the loop, at [inode]. *)
Definition iget_step (dev nr : Z) (inode : Z) : K (Z + ptr) :=
  if negb (inode <? NR_INODE) then mret (inr None)
  else
    n ← geti inode;
    if negb (i_dev n =? dev) || negb (i_num n =? nr) then mret (inl (inode + 1))
    else
      wait_on_inode inode;;
      n ← geti inode;
      if negb (i_dev n =? dev) || negb (i_num n =? nr) then mret (inl 0)
      else mret (inr (Some inode)).

(** fs/inode.c:261-291 *)
Definition iget (dev nr : Z) : K ptr :=
  if negb (nz dev) then panic "iget with dev==0"
  else
    empty ← get_empty_inode;
    r ← loop fuel (iget_step dev nr) 0;
    match r with
    | Some inode =>
        seti inode (fun n => n <| i_count ::= fun c => u16 (c + 1) |>);;
        iput empty;;
        mret (Some inode)
    | None =>
        match empty with
        | None => mret None
        | Some inode =>
            seti inode (fun n => n <| i_dev := u16 dev |>);;
            seti inode (fun n => n <| i_num := u16 nr |>);;
            read_inode inode;;
            mret (Some inode)
        end
    end.

(** fs/bitmap.c:154-184 *)
Definition new_inode (dev : Z) : K ptr :=
  r ← get_empty_inode;
  match r with
  | None => mret None
  | Some inode =>
      p ← get_super dev;
      match p with
      | None => panic "new_inode with unknown device"
      | Some sbi =>
          sb ← getsb sbi;
          s ← get;
          match find_in_map s (s_imap sb) with
          | None => iput (Some inode);; mret None
          | Some (i, bh, j) =>
              if j + i * 8192 >? s_ninodes sb then iput (Some inode);; mret None
              else
                let '(was_set, d) := set_bit j (b_data (bufs s bh)) in
                setb bh (fun b => b <| b_data := d |>);;
                if was_set then panic "new_inode: bit already set"
                else
                  setb bh (fun b => b <| b_dirt := 1 |>);;
                  t ← CURRENT_TIME;
                  seti inode (fun n => n <| i_count := 1 |> <| i_nlinks := 1 |>
                    <| i_dev := u16 dev |> <| i_dirt := 1 |> <| i_num := u16 (j + i * 8192) |>
                    <| i_ctime := u32 t |> <| i_atime := u32 t |> <| i_mtime := u32 t |>);;
                  mret (Some inode)
          end
      end
  end.
End inode.

(** ** The layout is faithful *)

(** The bytes of a field of [put_d_inode]. *)
Lemma put_at d o n r : 0 <= r < 32 ->
  put_d_inode d o n (o + r) =
    (let byte v k := u8 (v / 256 ^ k) in
     if r <? 2 then byte (di_mode n) r
     else if r <? 4 then byte (di_uid n) (r - 2)
     else if r <? 8 then byte (di_size n) (r - 4)
     else if r <? 12 then byte (di_time n) (r - 8)
     else if r =? 12 then u8 (di_gid n)
     else if r =? 13 then u8 (di_nlinks n)
     else byte (di_zone n ((r - 14) / 2)) ((r - 14) mod 2)).
Proof.
  intros Hr. unfold put_d_inode. replace (o + r - o) with r by lia.
  replace (r <? 0) with false by (symmetry; apply Z.ltb_ge; lia).
  replace (r >=? 32) with false by (symmetry; rewrite Z.geb_leb; apply Z.leb_gt; lia). done.
Qed.

Lemma le16_bytes v : 0 <= v < 65536 -> u8 (v / 256 ^ 0) + 256 * u8 (v / 256 ^ 1) = v.
Proof. intros. change (256 ^ 0) with 1. change (256 ^ 1) with 256. unfold u8. dlia. Qed.
Lemma le32_bytes v : 0 <= v < 4294967296 ->
  u8 (v / 256 ^ 0) +
    (256 * u8 (v / 256 ^ 1) + (65536 * u8 (v / 256 ^ 2) + 16777216 * u8 (v / 256 ^ 3))) = v.
Proof.
  intros. change (256 ^ 0) with 1. change (256 ^ 1) with 256. change (256 ^ 2) with 65536.
  change (256 ^ 3) with 16777216. unfold u8. dlia.
Qed.

(** Field ranges of an inode. *)
Record d_inode_ok (n : d_inode) : Prop := {
  dk_mode : 0 <= di_mode n < 65536;
  dk_uid : 0 <= di_uid n < 65536;
  dk_size : 0 <= di_size n < 4294967296;
  dk_time : 0 <= di_time n < 4294967296;
  dk_gid : 0 <= di_gid n < 256;
  dk_nlinks : 0 <= di_nlinks n < 256;
  dk_zone : forall k, 0 <= k < 9 -> 0 <= di_zone n k < 65536;
}.

(** An inode written into an inode block and read back has the same mode, owner,
    size, time, links and zones, and no byte of the block outside its 32 changes. *)
Lemma d_inode_roundtrip d o n :
  d_inode_ok n ->
  let m := get_d_inode (put_d_inode d o n) o in
  di_mode m = di_mode n /\ di_uid m = di_uid n /\ di_size m = di_size n /\
  di_time m = di_time n /\ di_gid m = di_gid n /\ di_nlinks m = di_nlinks n /\
  (forall k, 0 <= k < 9 -> di_zone m k = di_zone n k) /\
  (forall a, a < o \/ o + 32 <= a -> put_d_inode d o n a = d a).
Proof.
  intros [Hm Hu Hs Ht Hg Hl Hz] m. unfold m, get_d_inode, le16, le32. cbn [di_mode di_uid di_size di_time di_gid di_nlinks di_zone].
  assert (H0 : put_d_inode d o n o = u8 (di_mode n / 256 ^ 0)).
  { rewrite <- (Z.add_0_r o) at 2. by rewrite put_at by lia. }
  rewrite H0, <- !Z.add_assoc, !put_at by lia. cbn -[u8 Z.pow].
  split; [by apply le16_bytes|]. split; [by apply le16_bytes|].
  split; [by apply le32_bytes|]. split; [by apply le32_bytes|].
  split; [by apply u8_small|]. split; [by apply u8_small|]. split.
  - intros k Hk. rewrite <- !Z.add_assoc, !put_at by lia.
    assert (E : forall r, 14 <= r < 32 -> (r <? 2) = false /\ (r <? 4) = false /\ (r <? 8) = false /\
      (r <? 12) = false /\ (r =? 12) = false /\ (r =? 13) = false).
    { intros r Hr. repeat split; (apply Z.ltb_ge || apply Z.eqb_neq); lia. }
    cbv zeta. destruct (E (14 + 2 * k) ltac:(lia)) as (-> & -> & -> & -> & -> & ->).
    destruct (E (14 + (2 * k + 1)) ltac:(lia)) as (-> & -> & -> & -> & -> & ->).
    replace ((14 + 2 * k - 14) / 2) with k by dlia. replace ((14 + (2 * k + 1) - 14) / 2) with k by dlia.
    replace ((14 + 2 * k - 14) mod 2) with 0 by dlia. replace ((14 + (2 * k + 1) - 14) mod 2) with 1 by dlia.
    apply le16_bytes. by apply Hz.
  - intros a Ha. unfold put_d_inode.
    destruct (a - o <? 0) eqn:E1; [done|]. destruct (a - o >=? 32) eqn:E2; [done|]. ztest. lia.
Qed.

(** ** Inodes on the disk *)

(** The bytes at [o] are the inode as the Minix file system lays it out: mode and
    owner in 16 bits, size and time in 32, group and links in 8, nine zone numbers in
    16 bits. *)
Record stored_inode (d : Z -> Z) (o : Z) (n : m_inode) : Prop := {
  sn_mode : le16 d o = i_mode n;
  sn_uid : le16 d (o + 2) = i_uid n;
  sn_size : le32 d (o + 4) = i_size n;
  sn_time : le32 d (o + 8) = i_mtime n;
  sn_gid : d (o + 12) = i_gid n;
  sn_nlinks : d (o + 13) = i_nlinks n;
  sn_zone : forall k, 0 <= k < 9 -> le16 d (o + 14 + 2 * k) = i_zone n k;
}.
(** Two inodes in memory have the same contents. *)
Record same_file (m n : m_inode) : Prop := {
  sf_mode : i_mode m = i_mode n;
  sf_uid : i_uid m = i_uid n;
  sf_size : i_size m = i_size n;
  sf_time : i_mtime m = i_mtime n;
  sf_gid : i_gid m = i_gid n;
  sf_nlinks : i_nlinks m = i_nlinks n;
  sf_zone : forall k, 0 <= k < 9 -> i_zone m k = i_zone n k;
}.

Section disk.
Context `{Machine}.

Lemma lock_inode_run i s : i_lock (inode_table s i) = 0 ->
  lock_inode i s = Ret tt (upd_inode i (fun n => n <| i_lock := 1 |>) s).
Proof.
  intros Hl. unfold lock_inode.
  rewrite (bind_Ret _ _ s tt s); [done|]. apply while_false. mrun. by rewrite Hl.
Qed.
Lemma unlock_inode_run i s : i_wait (inode_table s i) = None ->
  unlock_inode i s = Ret tt (upd_inode i (fun n => n <| i_lock := 0 |>) s).
Proof. intros Hw. unfold unlock_inode, wake_up, wq_i_wait. mrun. simpl. rewrite arr_eq. simpl. by rewrite Hw. Qed.

(** Where the inode lies: inode [nr] of the table that follows the two bitmaps. *)
Definition lies_at (sb : super_block) (nr block o : Z) : Prop :=
  0 <= o < 1024 /\ 1024 * (block - (2 + s_imap_blocks sb + s_zmap_blocks sb)) + o = 32 * (nr - 1).

Lemma lies_at_run sb nr block o : 1 <= nr < 65536 -> lies_at sb nr block o ->
  inode_block sb nr = block /\ inode_offset nr = o.
Proof.
  intros Hn [Ho Hb]. unfold inode_block, inode_offset. rewrite u32_small by lia. change INODES_PER_BLOCK with 32. dlia.
Qed.

(** The inode [i] is free to be read or written: its block is in the buffer [bh]. *)
Record at_hand (s : kstate) (i sbi bh block o : Z) : Prop := {
  ah_lock : i_lock (inode_table s i) = 0;
  ah_wait : i_wait (inode_table s i) = None;
  ah_num : 1 <= i_num (inode_table s i) < 65536;
  ah_super : scan (fun k => s_dev (supers s k) =? i_dev (inode_table s i)) 0 (Z.to_nat NR_SUPER) = Some sbi;
  ah_lies : lies_at (supers s sbi) (i_num (inode_table s i)) block o;
  ah_cached : cached s (i_dev (inode_table s i)) block bh;
  ah_quiet : buffer_wait s = None;
}.

Lemma inode_block_run {A} i sbi bh block o s (k : Z -> K A) : at_hand s i sbi bh block o ->
  (n ← geti i;
   p ← get_super (i_dev n);
   sbi ← deref p;
   sb ← getsb sbi;
   r ← bread (i_dev n) (inode_block sb (i_num n));
   match r with None => panic "unable to read i-node block" | Some bh => k bh end)
    (upd_inode i (fun n => n <| i_lock := 1 |>) s) =
  k bh (held bh (upd_inode i (fun n => n <| i_lock := 1 |>) s)).
Proof.
  intros [Hl Hw Hn Hsb Hlies Hc _]. set (s1 := upd_inode i _ s). unfold get_super. mrun.
  assert (E : i_dev (inode_table s1 i) = i_dev (inode_table s i) /\ i_num (inode_table s1 i) = i_num (inode_table s i)).
  { unfold s1. by rewrite upd_inode_eq. }
  destruct E as [-> ->]. change (supers s1) with (supers s). rewrite Hsb. mrun. change (supers s1) with (supers s).
  destruct (lies_at_run _ _ _ _ Hn Hlies) as [-> _].
  by rewrite (bind_Ret _ _ _ _ _ (bread_cached _ _ _ _ (Hc : cached s1 _ _ _))).
Qed.

(** Held, changed by [f], released. *)
Lemma release_run i bh f g s : b_lock (bufs s bh) = 0 -> 0 <= b_count (bufs s bh) < 255 -> buffer_wait s = None ->
  i_lock (inode_table s i) = 0 -> i_wait (inode_table s i) = None ->
  (forall b, b_count (f b) = b_count b /\ b_lock (f b) = b_lock b /\
             (f (b <| b_count := b_count b + 1 |>)) <| b_count := b_count b |> = f b) ->
  (forall n, i_wait (g n) = i_wait n /\ i_lock (g n) = i_lock n /\ (g (n <| i_lock := 1 |>)) <| i_lock := i_lock n |> = g n) ->
  (brelse (Some bh);; unlock_inode i)
    (upd_inode i g (upd_buf bh f (held bh (upd_inode i (fun n => n <| i_lock := 1 |>) s)))) =
  Ret tt (upd_inode i g (upd_buf bh f s)).
Proof.
  intros Hl Hc Hq Hil Hiw Hf Hg. set (s1 := upd_inode i g _).
  assert (Hb : bufs s1 bh = f ((bufs s bh) <| b_count := b_count (bufs s bh) + 1 |>)).
  { unfold s1. change (bufs (upd_inode i g ?t)) with (bufs t). unfold held. rewrite upd_buf_fuse, upd_buf_eq. done. }
  rewrite (bind_Ret _ _ _ tt (dropped bh s1)); cycle 1.
  { destruct (Hf ((bufs s bh) <| b_count := b_count (bufs s bh) + 1 |>)) as (E1 & E2 & _).
    apply brelse_run; [by rewrite Hb, E2|rewrite Hb, E1; simpl; lia|exact Hq]. }
  rewrite unlock_inode_run; cycle 1.
  { change (inode_table (dropped bh s1)) with (inode_table s1). unfold s1. rewrite upd_inode_eq.
    destruct (Hg (inode_table (upd_buf bh f (held bh (upd_inode i (fun n => n <| i_lock := 1 |>) s))) i)) as (-> & _).
    change (i_wait (inode_table (upd_inode i (fun n => n <| i_lock := 1 |>) s) i) = None). rewrite upd_inode_eq. exact Hiw. }
  f_equal. unfold s1, dropped, held.
  change (upd_inode i (fun n => n <| i_lock := 0 |>) (upd_inode i g (upd_inode i (fun n => n <| i_lock := 1 |>)
    (upd_buf bh (fun b => b <| b_count := b_count b - 1 |>) (upd_buf bh f
      (upd_buf bh (fun b => b <| b_count := b_count b + 1 |>) s)))) ) = upd_inode i g (upd_buf bh f s)).
  rewrite !upd_inode_fuse, !upd_buf_fuse.
  rewrite (upd_buf_ext bh _ f); cycle 1.
  { destruct (Hf ((bufs s bh) <| b_count := b_count (bufs s bh) + 1 |>)) as (-> & _ & _). simpl.
    replace (b_count (bufs s bh) + 1 - 1) with (b_count (bufs s bh)) by lia. apply Hf. }
  apply upd_inode_ext. change (inode_table (upd_buf bh f s)) with (inode_table s).
  pose proof (proj2 (proj2 (Hg (inode_table s i)))) as E. by rewrite Hil in E.
Qed.

Lemma write_inode_run i sbi bh block o s : at_hand s i sbi bh block o ->
  write_inode i s = Ret tt (upd_inode i (fun n => n <| i_dirt := 0 |>)
    (upd_buf bh (fun b => b <| b_data ::= fun d => put_d_inode d o (as_d_inode (inode_table s i)) |> <| b_dirt := 1 |>) s)).
Proof.
  intros Ha. pose proof Ha as [Hl Hw Hn Hsb Hlies Hc Hq]. destruct (lies_at_run _ _ _ _ Hn Hlies) as [_ Ho].
  pose proof Hc as (_ & _ & _ & _ & _ & _ & Hbl & _ & Hbc).
  unfold write_inode. rewrite (bind_Ret _ _ _ _ _ (lock_inode_run i s Hl)). rewrite (inode_block_run i sbi bh block o s _ Ha).
  mrun. rewrite upd_buf_fuse.
  match goal with |- context [upd_buf bh ?f (held bh ?u)] => set (f1 := f); set (s1 := u) end.
  assert (Hi : inode_table (held bh s1) i = (inode_table s i) <| i_lock := 1 |>) by (unfold s1; apply upd_inode_eq).
  assert (Hf1 : f1 = fun b => b <| b_data ::= fun d => put_d_inode d o (as_d_inode (inode_table s i)) |> <| b_dirt := 1 |>).
  { unfold f1. fold s1. rewrite Hi. simpl. by rewrite Ho. }
  rewrite Hf1. by apply release_run.
Qed.

Lemma read_inode_run i sbi bh block o s : at_hand s i sbi bh block o ->
  read_inode i s = Ret tt (upd_inode i (of_d_inode (get_d_inode (b_data (bufs s bh)) o)) s).
Proof.
  intros Ha. pose proof Ha as [Hl Hw Hn Hsb Hlies Hc Hq]. destruct (lies_at_run _ _ _ _ Hn Hlies) as [_ Ho].
  pose proof Hc as (_ & _ & _ & _ & _ & _ & Hbl & _ & Hbc).
  unfold read_inode. rewrite (bind_Ret _ _ _ _ _ (lock_inode_run i s Hl)). rewrite (inode_block_run i sbi bh block o s _ Ha).
  mrun. set (s1 := upd_inode i (fun n => n <| i_lock := 1 |>) s).
  assert (Hi : i_num (inode_table (held bh s1) i) = i_num (inode_table s i)) by (unfold s1; unfold held; simpl; by rewrite arr_eq).
  assert (Hd : b_data (bufs (held bh s1) bh) = b_data (bufs s bh)) by (unfold held; by rewrite upd_buf_eq).
  rewrite Hi, Hd, Ho. set (g := of_d_inode _).
  rewrite <- (upd_buf_id bh (fun b => b) (held bh s1)) by done.
  rewrite <- (upd_buf_id bh (fun b => b) s) by done.
  apply release_run; try done. intros b. repeat split. by destruct b.
Qed.

(** A change of the contents of a buffer leaves it in the cache. *)
Lemma at_hand_written f g i j sbi bh block o s : j <> i -> at_hand s j sbi bh block o ->
  (forall b, b_next (f b) = b_next b /\ b_prev (f b) = b_prev b /\ b_dev (f b) = b_dev b /\ b_blocknr (f b) = b_blocknr b /\
     b_lock (f b) = b_lock b /\ b_uptodate (f b) = b_uptodate b /\ b_count (f b) = b_count b) ->
  at_hand (upd_inode i g (upd_buf bh f s)) j sbi bh block o.
Proof.
  intros Hj [A1 A2 A3 A4 A5 (l1 & l2 & Hd & Hlen & Hno & Hh & Hl & Hu & Hc) A7] Hf. set (s' := upd_inode i g _).
  assert (Hi : inode_table s' j = inode_table s j) by (unfold s'; by rewrite upd_inode_ne).
  split; rewrite ?Hi; try done. change (hash s') with (hash s).
  assert (Hhold : forall k, holds s' (i_dev (inode_table s j)) block k <-> holds s (i_dev (inode_table s j)) block k).
  { intros k. unfold holds. change (bufs s') with (bufs (upd_buf bh f s)).
    destruct (decide (k = bh)) as [->|Hk]; [|by rewrite upd_buf_ne]. rewrite upd_buf_eq.
    destruct (Hf (bufs s bh)) as (_ & _ & -> & -> & _). done. }
  exists l1, l2. split; [|split; [done|split; [|split; [by apply Hhold|]]]].
  - change (hnext s') with (hnext (upd_buf bh f s)). change (hprev s') with (hprev (upd_buf bh f s)).
    rewrite hnext_keep, hprev_keep by (intros b; apply (Hf b)). exact Hd.
  - intros k Hk Hh'. by apply (Hno k Hk), Hhold.
  - change (bufs s') with (bufs (upd_buf bh f s)). rewrite upd_buf_eq.
    destruct (Hf (bufs s bh)) as (_ & _ & _ & _ & -> & -> & ->). done.
Qed.

(** The inode as the bytes of its block tell it. *)
Lemma put_stored d o n : d_inode_ok (as_d_inode n) -> stored_inode (put_d_inode d o (as_d_inode n)) o n.
Proof. intros Hn. destruct (d_inode_roundtrip d o _ Hn) as (? & ? & ? & ? & ? & ? & ? & _). by split. Qed.
Lemma stored_same d o m n : stored_inode d o n -> same_file (of_d_inode (get_d_inode d o) m) n.
Proof. intros []. by split. Qed.

(** C20: An inode whose block is in the cache is stored by write_inode in that
    block at its place - the place of its number in the table behind the two
    bitmaps - field by field in the layout of the disk, touching no other byte,
    buffer or inode, and is no longer dirty while the block is; read_inode of
    the same number into another entry of the table then finds the same mode,
    owner, size, time, links and zones. *)
Theorem write_read_inode i sbi bh block o s :
  at_hand s i sbi bh block o -> d_inode_ok (as_d_inode (inode_table s i)) ->
  exists s', write_inode i s = Ret tt s' /\
    stored_inode (b_data (bufs s' bh)) o (inode_table s i) /\
    (forall a, a < o \/ o + 32 <= a -> b_data (bufs s' bh) a = b_data (bufs s bh) a) /\
    b_dirt (bufs s' bh) = 1 /\ i_dirt (inode_table s' i) = 0 /\ same_file (inode_table s' i) (inode_table s i) /\
    (forall b, b <> bh -> bufs s' b = bufs s b) /\ (forall j, j <> i -> inode_table s' j = inode_table s j) /\
    forall j, j <> i -> at_hand s j sbi bh block o ->
      exists s'', read_inode j s' = Ret tt s'' /\ same_file (inode_table s'' j) (inode_table s i) /\
        i_dev (inode_table s'' j) = i_dev (inode_table s j) /\ i_num (inode_table s'' j) = i_num (inode_table s j) /\
        bufs s'' = bufs s' /\ forall k, k <> j -> inode_table s'' k = inode_table s' k.
Proof.
  intros Ha Hok. rewrite (write_inode_run _ _ _ _ _ _ Ha). eexists. split; [reflexivity|].
  set (s' := upd_inode i _ _).
  assert (Hb : bufs s' bh = (bufs s bh) <| b_data ::= fun d => put_d_inode d o (as_d_inode (inode_table s i)) |> <| b_dirt := 1 |>).
  { unfold s'. change (bufs (upd_inode i ?f ?t)) with (bufs t). by rewrite upd_buf_eq. }
  assert (Hi : inode_table s' i = (inode_table s i) <| i_dirt := 0 |>) by (unfold s'; by rewrite upd_inode_eq).
  assert (Hst : stored_inode (b_data (bufs s' bh)) o (inode_table s i)) by (rewrite Hb; by apply put_stored).
  split; [exact Hst|]. split; [rewrite Hb; apply (d_inode_roundtrip _ o _ Hok)|]. rewrite Hb, Hi.
  split; [done|]. split; [done|]. split; [by split|].
  split; [intros b Hne; unfold s'; change (bufs (upd_inode i ?f ?t)) with (bufs t); by apply upd_buf_ne|].
  split; [intros j Hj; unfold s'; by rewrite upd_inode_ne|].
  intros j Hj Hat. apply (at_hand_written (fun b => b <| b_data ::= fun d => put_d_inode d o (as_d_inode (inode_table s i)) |> <| b_dirt := 1 |>)
    (fun n => n <| i_dirt := 0 |>) i) in Hat; [|done|by repeat split]. fold s' in Hat. rewrite (read_inode_run _ _ _ _ _ _ Hat). eexists. split; [reflexivity|]. rewrite upd_inode_eq.
  split; [by apply stored_same|].
  assert (Hij : inode_table s' j = inode_table s j) by (unfold s'; by rewrite upd_inode_ne). rewrite Hij.
  split; [done|]. split; [done|]. split; [done|]. intros k Hk. by apply upd_inode_ne.
Qed.
End disk.

(** ** The map from file blocks to disk blocks *)

Section bmap.
Context `{Machine}.

(** [indirect_entry s dev zone k z]: the block [zone], which is in the cache,
    has [z] as its entry [k]. *)
Definition indirect_entry (s : kstate) (dev zone k z : Z) : Prop :=
  exists bh, cached s dev zone bh /\ z = le16 (b_data (bufs s bh)) (2 * k).

(** What the inode says: block [block] of the file is block [z] of the disk,
    0 where the file has a hole. *)
Inductive maps_to (s : kstate) (n : m_inode) : Z -> Z -> Prop :=
| map_direct block : 0 <= block < 7 -> maps_to s n block (i_zone n block)
| map_hole1 k : 0 <= k < 512 -> i_zone n 7 = 0 -> maps_to s n (7 + k) 0
| map_single k z : 0 <= k < 512 -> i_zone n 7 <> 0 ->
    indirect_entry s (i_dev n) (i_zone n 7) k z -> maps_to s n (7 + k) z
| map_hole2 k : 0 <= k < 262144 -> i_zone n 8 = 0 -> maps_to s n (519 + k) 0
| map_hole3 k : 0 <= k < 262144 -> i_zone n 8 <> 0 ->
    indirect_entry s (i_dev n) (i_zone n 8) (k / 512) 0 -> maps_to s n (519 + k) 0
| map_double k y z : 0 <= k < 262144 -> i_zone n 8 <> 0 -> y <> 0 ->
    indirect_entry s (i_dev n) (i_zone n 8) (k / 512) y ->
    indirect_entry s (i_dev n) y (k mod 512) z -> maps_to s n (519 + k) z.

Lemma zone_of_run inode k s : zone_of inode k false s = Ret (i_zone (inode_table s inode) k) s.
Proof. done. Qed.

Lemma indirect_run dev zone k z s :
  indirect_entry s dev zone k z -> buffer_wait s = None ->
  indirect dev zone k false s = Ret z s.
Proof.
  intros (bh & Hc & ->) Hw. unfold indirect. rewrite (bind_Ret _ _ _ _ _ (bread_cached _ _ _ _ Hc)). mrun.
  cbn [andb]. mrun. destruct Hc as (_ & _ & _ & _ & _ & _ & Hl & _ & Hcount).
  rewrite (bind_Ret _ _ _ tt s); cycle 1.
  { rewrite brelse_run; [by rewrite dropped_held|..]; unfold held.
    - rewrite upd_buf_eq. done.
    - rewrite upd_buf_eq. simpl. lia.
    - done. }
  unfold held. by rewrite upd_buf_eq.
Qed.

Lemma bmap_run inode block z s :
  maps_to s (inode_table s inode) block z -> buffer_wait s = None -> bmap inode block s = Ret z s.
Proof.
  intros Hm Hw. unfold bmap, _bmap.
  assert (Hlt : forall a b, a < b -> (a <? b) = true) by (intros; by apply Z.ltb_lt).
  assert (Hge : forall a b, b <= a -> (a <? b) = false) by (intros; by apply Z.ltb_ge).
  assert (Hbig : forall a, a < 262663 -> (a >=? 7 + 512 + 512 * 512) = false).
  { intros a Ha. rewrite Z.geb_leb. apply Z.leb_gt. lia. }
  destruct Hm as [b Hb|k Hk Hz|k z Hk Hz He|k Hk Hz|k Hk Hz He|k y z Hk Hz Hy He1 He2];
    rewrite Hge, Hbig by lia.
  - by rewrite Hlt by lia.
  - rewrite Hge by lia. cbv zeta. replace (7 + k - 7) with k by lia. rewrite Hlt by lia.
    rewrite (bind_Ret _ _ _ _ _ (zone_of_run inode 7 s)), Hz. done.
  - rewrite Hge by lia. cbv zeta. replace (7 + k - 7) with k by lia. rewrite Hlt by lia.
    rewrite (bind_Ret _ _ _ _ _ (zone_of_run inode 7 s)), (proj2 (nz_true _) Hz). cbn [negb]. mrun.
    by apply indirect_run.
  - rewrite Hge by lia. cbv zeta. rewrite Hge by lia.
    rewrite (bind_Ret _ _ _ _ _ (zone_of_run inode 8 s)), Hz. done.
  - rewrite Hge by lia. cbv zeta. rewrite Hge by lia. replace (519 + k - 7 - 512) with k by lia.
    rewrite (bind_Ret _ _ _ _ _ (zone_of_run inode 8 s)), (proj2 (nz_true _) Hz). cbn [negb]. mrun.
    rewrite Z.shiftr_div_pow2 by lia. change (2 ^ 9) with 512.
    by rewrite (bind_Ret _ _ _ _ _ (indirect_run _ _ _ _ _ He Hw)).
  - rewrite Hge by lia. cbv zeta. rewrite Hge by lia. replace (519 + k - 7 - 512) with k by lia.
    rewrite (bind_Ret _ _ _ _ _ (zone_of_run inode 8 s)), (proj2 (nz_true _) Hz). cbn [negb]. mrun.
    rewrite Z.shiftr_div_pow2 by lia. change (2 ^ 9) with 512.
    rewrite (bind_Ret _ _ _ _ _ (indirect_run _ _ _ _ _ He1 Hw)), (proj2 (nz_true _) Hy). cbn [negb]. mrun.
    replace (Z.land k 511) with (k mod 512); [by apply indirect_run|].
    change 511 with (Z.shiftl (Z.ones 9) 0). rewrite land_field by lia.
    change (2 ^ 0) with 1. change (2 ^ 9) with 512. rewrite Z.div_1_r. lia.
Qed.

(** For a block of a file that the zones of the inode, or its indirect or
    doubly indirect block, map to zone z, bmap returns z and changes nothing
    when the buffers it reads are in the cache and unlocked. *)
Theorem bmap_spec inode block z s :
  maps_to s (inode_table s inode) block z -> buffer_wait s = None ->
  bmap inode block s = Ret z s /\ forall z', maps_to s (inode_table s inode) block z' -> z' = z.
Proof.
  intros Hm Hw. pose proof (bmap_run inode block z s Hm Hw) as Hrun. split; [done|].
  intros z' Hm'. pose proof (bmap_run inode block z' s Hm' Hw) as Hrun'. congruence.
Qed.
End bmap.

(** ** The inode table *)

Section table.
Context `{Machine}.

Lemma wait_inode_unlocked i s : i_lock (inode_table s i) = 0 -> wait_on_inode i s = Ret tt s.
Proof. intros Hl. unfold wait_on_inode. apply while_false. mrun. by rewrite Hl. Qed.

Lemma find_empty_Some s e : 0 <= last_allocated_inode s < 32 -> find_empty s = Some e ->
  0 <= e < 32 /\ i_count (inode_table s e) = 0.
Proof.
  unfold find_empty. intros Hl. destruct (scan _ 0 _) as [k|] eqn:E; [|done]. intros [= <-].
  apply scan_Some in E as (Hk & Hc & _). ztest. split; [apply Z.mod_pos_bound; done|done].
Qed.

Lemma find_empty_None s : 0 <= last_allocated_inode s < 32 -> find_empty s = None ->
  forall i, 0 <= i < 32 -> i_count (inode_table s i) <> 0.
Proof.
  unfold find_empty. intros Hl. destruct (scan _ 0 _) eqn:E; [done|]. intros _ i Hi.
  rewrite scan_None in E. specialize (E ((i - last_allocated_inode s) mod 32)).
  cbv beta in E. change (Z.to_nat NR_INODE) with 32%nat in E. change NR_INODE with 32 in E.
  replace ((last_allocated_inode s + (i - last_allocated_inode s) mod 32) mod 32) with i in E by dlia.
  assert (Hc := E ltac:(dlia)). by apply Z.eqb_neq in Hc.
Qed.

(** The state after the free entry [e] was taken. *)
Definition empty_taken (e : Z) (s : kstate) : kstate :=
  upd_inode e (fun _ => zero_m_inode <| i_count := 1 |>) (s <| last_allocated_inode := e |>).

Lemma get_empty_inode_run e s :
  (0 < fuel)%nat -> 0 <= last_allocated_inode s < 32 -> find_empty s = Some e ->
  i_lock (inode_table s e) = 0 -> i_dirt (inode_table s e) = 0 ->
  get_empty_inode s = Ret (Some e) (empty_taken e s).
Proof.
  intros Hf Hl He Hlock Hdirt. destruct (find_empty_Some s e Hl He) as [_ Hc].
  assert (Hstep : empty_step tt s = Ret (inr e) (s <| last_allocated_inode := e |>)).
  { unfold empty_step. mrun. rewrite He. mrun. set (s1 := s <| last_allocated_inode := e |>).
    rewrite (bind_Ret _ _ s1 tt s1); [|by apply wait_inode_unlocked].
    rewrite (bind_Ret _ _ s1 tt s1); cycle 1.
    { apply while_false. mrun. change (inode_table s1) with (inode_table s). by rewrite Hdirt. }
    mrun. change (inode_table s1) with (inode_table s). by rewrite Hc. }
  unfold get_empty_inode. destruct fuel as [|n]; [lia|]. cbn [loop]. mrun.
  rewrite (bind_Ret _ _ _ _ _ Hstep). mrun. rewrite upd_inode_fuse. done.
Qed.

Lemma iget_loop dev nr n k s i :
  scan (fun i => (i_dev (inode_table s i) =? dev) && (i_num (inode_table s i) =? nr)) k (Z.to_nat (32 - k)) = Some i ->
  0 <= k <= 32 -> (Z.to_nat (32 - k) < n)%nat -> i_lock (inode_table s i) = 0 ->
  loop n (iget_step dev nr) k s = Ret (Some i) s.
Proof.
  intros Hs Hk Hn Hl. remember (Z.to_nat (32 - k)) as m eqn:Em. revert k n Em Hs Hk Hn.
  induction m as [|m IH]; intros k n Em Hs Hk Hn; [done|]. destruct n as [|n]; [lia|].
  cbn [loop scan] in *.
  assert (Hstep : iget_step dev nr k s =
    Ret (if (i_dev (inode_table s k) =? dev) && (i_num (inode_table s k) =? nr) then inr (Some k)
         else inl (k + 1)) s \/ i_lock (inode_table s k) <> 0).
  { destruct (decide (i_lock (inode_table s k) = 0)) as [Hlk|]; [left|by right].
    unfold iget_step. replace (k <? NR_INODE) with true by (symmetry; apply Z.ltb_lt; unfold NR_INODE; lia).
    cbn [negb]. mrun. destruct (i_dev (inode_table s k) =? dev) eqn:E1; cbn [negb orb andb]; [|done].
    destruct (i_num (inode_table s k) =? nr) eqn:E2; cbn [negb]; [|done].
    rewrite (bind_Ret _ _ _ _ _ (wait_inode_unlocked k s Hlk)). mrun. by rewrite E1, E2. }
  destruct ((i_dev (inode_table s k) =? dev) && (i_num (inode_table s k) =? nr)) eqn:Em2.
  - injection Hs as <-. destruct Hstep as [Hstep|]; [|done]. by rewrite (bind_Ret _ _ _ _ _ Hstep).
  - assert (Hstep' : iget_step dev nr k s = Ret (inl (k + 1)) s).
    { unfold iget_step. replace (k <? NR_INODE) with true by (symmetry; apply Z.ltb_lt; unfold NR_INODE; lia).
      cbn [negb]. mrun. rewrite <- negb_andb, Em2. done. }
    rewrite (bind_Ret _ _ _ _ _ Hstep'). apply IH; [lia|done|lia|lia].
Qed.

(** iget finds an inode that is in the table and in use: it returns its
    entry with one more reference, cleans the empty entry it had reserved and
    changes no other inode. *)
Theorem iget_hit dev nr s e i :
  (32 < fuel)%nat -> dev <> 0 -> 0 <= last_allocated_inode s < 32 ->
  find_empty s = Some e -> i_lock (inode_table s e) = 0 -> i_dirt (inode_table s e) = 0 ->
  scan (fun i => (i_dev (inode_table s i) =? dev) && (i_num (inode_table s i) =? nr)) 0 32 = Some i ->
  i_lock (inode_table s i) = 0 -> 0 < i_count (inode_table s i) < 65535 ->
  exists s', iget dev nr s = Ret (Some i) s' /\
    inode_table s' i = (inode_table s i) <| i_count ::= Z.succ |> /\
    inode_table s' e = zero_m_inode /\
    (forall j, j <> i -> j <> e -> inode_table s' j = inode_table s j) /\
    s' = s <| inode_table := inode_table s' |> <| last_allocated_inode := e |>.
Proof.
  intros Hf Hdev Hlast He Helock Hedirt Hi Hilock Hicount.
  destruct (find_empty_Some s e Hlast He) as [Her Hec].
  assert (Hei : e <> i) by (intros ->; lia).
  set (s1 := empty_taken e s).
  assert (Htab : forall j, j <> e -> inode_table s1 j = inode_table s j).
  { intros j Hj. unfold s1, empty_taken. by rewrite upd_inode_ne. }
  assert (Hloop : loop fuel (iget_step dev nr) 0 s1 = Ret (Some i) s1).
  { apply iget_loop; [|lia|done|by rewrite Htab by done].
    apply scan_Some in Hi as (Hir & Him & Hbefore). change (Z.to_nat (32 - 0)) with 32%nat.
    apply scan_is; [done|by rewrite Htab by done|].
    intros k Hk. destruct (decide (k = e)) as [->|].
    - unfold s1, empty_taken. rewrite upd_inode_eq. simpl. by destruct dev.
    - rewrite Htab by done. by apply Hbefore. }
  unfold iget. rewrite (proj2 (nz_true dev) Hdev). cbn [negb].
  rewrite (bind_Ret _ _ _ _ _ (get_empty_inode_run e s ltac:(lia) Hlast He Helock Hedirt)). fold s1.
  rewrite (bind_Ret _ _ _ _ _ Hloop). mrun.
  set (s2 := upd_inode i _ s1).
  assert (H2e : inode_table s2 e = zero_m_inode <| i_count := 1 |>).
  { unfold s2. rewrite upd_inode_ne by done. unfold s1, empty_taken. by rewrite upd_inode_eq. }
  assert (Hput : iput (Some e) s2 = Ret tt (upd_inode e (fun n => n <| i_count ::= fun c => u16 (c - 1) |>) s2)).
  { unfold iput. rewrite (bind_Ret _ _ s2 tt s2); [|apply wait_inode_unlocked; by rewrite H2e].
    mrun. rewrite H2e. done. }
  rewrite (bind_Ret _ _ _ _ _ Hput). eexists. split; [reflexivity|].
  assert (Hi2 : inode_table s2 i = (inode_table s i) <| i_count ::= Z.succ |>).
  { unfold s2. rewrite upd_inode_eq, Htab by done. unfold set_field; simpl.
    by rewrite u16_small by lia. }
  split; [by rewrite upd_inode_ne|]. split; [rewrite upd_inode_eq, H2e; done|]. split.
  - intros j Hji Hje. rewrite upd_inode_ne by done. unfold s2. rewrite upd_inode_ne by done. by apply Htab.
  - done.
Qed.
End table.

(** ** Examples *)

(** Inode 3 of device 0x301, whose zone 7, the indirect block, is block 7,
    held by buffer 0: entry 2 of it is block 40. *)
Definition one_file : kstate := two_buffers
  <| bufs ::= fun t => <[0 := (t 0) <| b_data := fun a => if a =? 4 then 40 else 0 |>]> t |>
  <| inode_table := fun i => if i =? 3
       then zero_m_inode <| i_dev := 0x301 |> <| i_num := 12 |> <| i_count := 1 |>
              <| i_zone := fun k => if k =? 7 then 7 else 0 |>
       else zero_m_inode |>.

Lemma one_file_cached : @cached quiet_machine one_file 0x301 7 0.
Proof.
  exists [], []. split; [repeat split; reflexivity|]. split; [cbn; lia|]. split; [set_solver|].
  split; [split; reflexivity|]. split; [reflexivity|]. split; [discriminate|]. change (b_count (bufs one_file 0)) with 1. lia.
Qed.

(** The same inode in another slot, where its contents are not yet known. *)
Definition one_file_again : kstate := one_file
  <| supers := fun k => if k =? 0 then zero_super_block <| s_dev := 0x301 |> <| s_imap_blocks := 2 |> <| s_zmap_blocks := 3 |>
                        else zero_super_block |>
  <| inode_table := fun i => if i =? 3
       then zero_m_inode <| i_dev := 0x301 |> <| i_num := 12 |> <| i_count := 1 |> <| i_size := 700 |> <| i_dirt := 1 |>
       else zero_m_inode <| i_dev := 0x301 |> <| i_num := 12 |> |>.

Lemma one_file_at_hand i : @at_hand quiet_machine one_file_again i 0 0 7 352.
Proof.
  assert (E : i_dev (inode_table one_file_again i) = 0x301 /\ i_num (inode_table one_file_again i) = 12 /\
    i_lock (inode_table one_file_again i) = 0 /\ i_wait (inode_table one_file_again i) = None).
  { unfold one_file_again. simpl. by destruct (i =? 3). }
  destruct E as (E1 & E2 & E3 & E4). split; rewrite ?E1, ?E2; try done.
  exact one_file_cached.
Qed.

Lemma write_read_inode_witness : exists s' s'', @write_inode quiet_machine 3 one_file_again = Ret tt s' /\
  @read_inode quiet_machine 4 s' = Ret tt s'' /\ i_size (inode_table s'' 4) = 700.
Proof.
  destruct (@write_read_inode quiet_machine 3 0 0 7 352 one_file_again) as (s' & Hw & _ & _ & _ & _ & _ & _ & _ & Hr).
  - apply one_file_at_hand.
  - split; intros; split; by vm_compute.
  - destruct (Hr 4 ltac:(lia) (one_file_at_hand 4)) as (s'' & Hrun & Hs & _).
    exists s', s''. split; [exact Hw|]. split; [exact Hrun|]. exact (sf_size _ _ Hs).
Defined.

Lemma bmap_spec_witness : @bmap quiet_machine 3 9 one_file = Ret 40 one_file.
Proof.
  refine (proj1 (@bmap_spec quiet_machine 3 9 40 one_file _ eq_refl)).
  apply (@map_single quiet_machine one_file (inode_table one_file 3) 2 40); [lia|discriminate|].
  exists 0. split; [apply one_file_cached|reflexivity].
Defined.

Lemma iget_hit_witness : exists s', @iget quiet_machine 0x301 12 one_file = Ret (Some 3) s' /\
  i_count (inode_table s' 3) = 2.
Proof.
  destruct (@iget_hit quiet_machine 0x301 12 one_file 0 3) as (s' & Hrun & Hi & _).
  - cbn; lia.
  - lia.
  - change (last_allocated_inode one_file) with 0. lia.
  - vm_compute; reflexivity.
  - reflexivity.
  - reflexivity.
  - vm_compute; reflexivity.
  - reflexivity.
  - change (i_count (inode_table one_file 3)) with 1. lia.
  - exists s'. split; [exact Hrun|]. rewrite Hi. reflexivity.
Defined.
