(* ===== verification/Super.v ===== *)
(** Mounting a file system, fs/super.c. *)
From S2P Require Export Inode.
#[local] Open Scope bool_scope.

(** include/linux/fs.h:120-138: the structure read from the first bytes of a
    block.  The pointers of the structure in memory have no meaning on the
    disk; they are read as [NULL]. *)
Definition get_super_block (d : Z -> Z) : super_block := {|
  s_ninodes := le16 d 0; s_nzones := le16 d 2; s_imap_blocks := le16 d 4;
  s_zmap_blocks := le16 d 6; s_firstdatazone := le16 d 8; s_log_zone_size := le16 d 10;
  s_max_size := le32 d 12; s_magic := le16 d 16;
  s_imap := fun _ => None; s_zmap := fun _ => None; s_dev := le16 d 84;
  s_isup := None; s_imount := None; s_time := le32 d 96; s_rd_only := d 100; s_dirt := d 101;
|}.

Section super.
Context `{Machine}.

(** fs/super.c:53-57 and 58-62: the blocks of a bitmap, read into the slots
    [set] stores to; the next block number comes back. *)
Definition read_map (dev sbi n block : Z) (set : Z -> ptr -> super_block -> super_block) : K Z :=
  loop fuel (fun '(i, block) =>
    if negb (i <? n) then mret (inr block)
    else
      r ← bread dev block;
      setsb sbi (set i r);;
      match r with
      | Some _ => mret (inl (i + 1, block + 1))
      | None => mret (inr block)
      end) (0, block).

(** fs/super.c:28-80.  When the table is full the mark goes into the slot
    past its end. *)
Definition do_mount (dev : Z) : K ptr :=
  s ← get;
  let free := scan (fun i => negb (nz (s_dev (supers s i)))) 0 (Z.to_nat NR_SUPER) in
  let p := match free with Some p => p | None => NR_SUPER end in
  setsb p (fun b => b <| s_dev := u16 (-1) |>);;
  if null free then mret None
  else
    r ← bread dev 1;
    match r with
    | None => mret None
    | Some bh =>
        b ← getb bh;
        setsb p (fun _ => get_super_block (b_data b));;
        brelse (Some bh);;
        sb ← getsb p;
        if negb (s_magic sb =? SUPER_MAGIC) then
          setsb p (fun b => b <| s_dev := 0 |>);;
          mret None
        else
          setsb p (fun b => b <| s_imap := fun _ => None |>);;
          setsb p (fun b => b <| s_zmap := fun _ => None |>);;
          block ← read_map dev p (s_imap_blocks sb) 2 (fun i v b => b <| s_imap ::= <[i := v]> |>);
          block ← read_map dev p (s_zmap_blocks sb) block (fun i v b => b <| s_zmap ::= <[i := v]> |>);
          if negb (block =? 2 + s_imap_blocks sb + s_zmap_blocks sb) then
            for_ 0 (Z.to_nat I_MAP_SLOTS) (fun i => sb ← getsb p; brelse (s_imap sb i));;
            for_ 0 (Z.to_nat Z_MAP_SLOTS) (fun i => sb ← getsb p; brelse (s_zmap sb i));;
            setsb p (fun b => b <| s_dev := 0 |>);;
            mret None
          else
            sb ← getsb p;
            im ← deref (s_imap sb 0);
            setb im (fun b => b <| b_data ::= fun d => <[0 := Z.lor (d 0) 1]> d |>);;
            zm ← deref (s_zmap sb 0);
            setb zm (fun b => b <| b_data ::= fun d => <[0 := Z.lor (d 0) 1]> d |>);;
            setsb p (fun b => b <| s_dev := u16 dev |> <| s_isup := None |> <| s_imount := None |>
              <| s_time := 0 |> <| s_rd_only := 0 |> <| s_dirt := 0 |>);;
            mret (Some p)
    end.

(** fs/super.c:107-110 and 114-117: the bits below [n] that are clear. *)
Fixpoint count_clear (m : Z -> ptr) (n : nat) : K Z :=
  match n with
  | O => mret 0
  | S n =>
      let i := Z.of_nat n in
      bh ← deref (m (Z.shiftr i 13));
      b ← getb bh;
      free ← count_clear m n;
      mret (free + b2z (negb (test_bit (b_data b) (Z.land i 8191))))
  end.

(** fs/super.c:86-120 *)
Definition mount_root : K unit :=
  for_ 0 (Z.to_nat NR_FILE) (fun i => setf i (fun f => f <| f_count := 0 |>));;
  for_ 0 (Z.to_nat NR_SUPER) (fun p => setsb p (fun b => b <| s_dev := 0 |>));;
  r ← do_mount ROOT_DEV;
  match r with
  | None => panic "Unable to mount root"
  | Some p =>
      r ← iget ROOT_DEV 1;
      match r with
      | None => panic "Unable to read root i-node"
      | Some mi =>
          seti mi (fun n => n <| i_count ::= fun c => u16 (c + 3) |>);;
          setsb p (fun b => b <| s_imount := Some mi |> <| s_isup := Some mi |>);;
          setme (fun t => t <| t_pwd := Some mi |>);;
          setme (fun t => t <| t_root := Some mi |>);;
          sb ← getsb p;
          free ← count_clear (s_zmap sb) (Z.to_nat (s_nzones sb));
          printk " [FS] Root Mounted: %d/%d blocks free\n\r" [free; s_nzones sb];;
          free ← count_clear (s_imap sb) (Z.to_nat (s_ninodes sb + 1));
          printk " [FS] Integrity Check: %d/%d inodes free\n\r" [free; s_ninodes sb]
      end
  end.
End super.
