(* ===== verification/Namei.v ===== *)
(** Path names and directories, fs/namei.c: permissions, directory entries,
    the walk along a path and the system calls that change directories. *)
From S2P Require Export Super.
#[local] Open Scope bool_scope.

(** fs/namei.c:28-30 *)
Definition MAY_EXEC : Z := 1.
Definition MAY_WRITE : Z := 2.
Definition MAY_READ : Z := 4.

(** fs/namei.c:18: the characters of the string, as signed chars. *)
Definition ACC_MODE (x : Z) : Z := nth (Z.to_nat (Z.land x O_ACCMODE)) [4; 2; 6; -1] 0.

(** fs/namei.c:42-57 *)
Definition permission (inode mask : Z) : K Z :=
  n ← geti inode;
  if nz (i_dev n) && negb (nz (i_nlinks n)) then mret 0
  else
    t ← me;
    let mode :=
      if negb (nz (t_uid t) && nz (t_euid t)) then 511
      else if (t_uid t =? i_uid n) || (t_euid t =? i_uid n) then Z.shiftr (i_mode n) 6
      else if (t_gid t =? i_gid n) || (t_egid t =? i_gid n) then Z.shiftr (i_mode n) 3
      else i_mode n in
    mret (Z.land (Z.land mode mask) 7).

(** ** Directory entries: 16 bytes, a number and a name of up to 14 *)

(** include/linux/fs.h:140-143: entry [k] of a block. *)
Definition de_inode (d : Z -> Z) (k : Z) : Z := le16 d (16 * k).
(** include/linux/fs.h:140-143 *)
Definition de_name (d : Z -> Z) (k j : Z) : Z := d (16 * k + 2 + j).
Definition set_de_inode (k v : Z) (d : Z -> Z) : Z -> Z := put16 d (16 * k) v.
Definition set_de_name (k j v : Z) (d : Z -> Z) : Z -> Z := <[16 * k + 2 + j := u8 v]> d.

(** [strcpy] of a string into the name of an entry, and [strcmp] with one. *)
Definition copy_name (k : Z) (l : list Z) (d : Z -> Z) : Z -> Z :=
  snd (fold_left (fun '(j, d) c => (j + 1, set_de_name k j c d)) (l ++ [0]) (0, d)).
Definition name_is (d : Z -> Z) (k : Z) (l : list Z) : bool :=
  forallb (fun j => de_name d k (Z.of_nat j) =? nth j (l ++ [0]) 0) (seq 0 (S (length l))).

(** fs/namei.c:71-86: entry [k] of the block [d] against the name of [len]
    characters at [name] in user space.  [len] is not zero. *)
Definition match_ (len : Z) (user : Z -> Z) (name : Z) (d : Z -> Z) (k : Z) : bool :=
  if negb (nz (de_inode d k)) || (len >? NAME_LEN) then false
  else if (len <? NAME_LEN) && nz (de_name d k len) then false
  else null (scan (fun j => negb (user (name + j) =? de_name d k j)) 0 (Z.to_nat len)).

Section namei.
Context `{Machine}.

(** fs/namei.c:125-142, one round of the loop: the buffer, the entry in it
    and the number of the entry in the directory.  After a block that cannot
    be read, [bh] is [NULL] and the next round goes through it. *)
Definition find_entry_step (dir name namelen entries : Z) (x : ptr * Z * Z)
    : K (ptr * Z * Z + option (Z * Z)) :=
  let '(bh, de, i) := x in
  if negb (i <? entries) then brelse bh;; mret (inr None)
  else
    b ← deref bh;
    let try_ b de :=
      buf ← getb b;
      s ← get;
      if match_ namelen (user s) name (b_data buf) de then mret (inr (Some (b, de)))
      else mret (inl (Some b, de + 1, i + 1)) in
    if de >=? DIR_ENTRIES_PER_BLOCK then
      brelse (Some b);;
      block ← bmap dir (i / DIR_ENTRIES_PER_BLOCK);
      if negb (nz block) then mret (inl (None, de, i + DIR_ENTRIES_PER_BLOCK))
      else
        n ← geti dir;
        r ← bread (i_dev n) block;
        match r with
        | None => mret (inl (None, de, i + DIR_ENTRIES_PER_BLOCK))
        | Some b => try_ b 0
        end
    else try_ b de.

(** fs/namei.c:100-145 *)
Definition find_entry (dir name namelen : Z) : K (option (Z * Z)) :=
  let namelen := if namelen >? NAME_LEN then NAME_LEN else namelen in
  n ← geti dir;
  let entries := i_size n / 16 in
  if negb (nz namelen) then mret None
  else
    let block := i_zone n 0 in
    if negb (nz block) then mret None
    else
      r ← bread (i_dev n) block;
      match r with
      | None => mret None
      | Some b => loop fuel (find_entry_step dir name namelen entries) (Some b, 0, 0)
      end.

(** fs/namei.c:187-216, one round of the loop. *)
Definition add_entry_step (dir name namelen : Z) (x : ptr * Z * Z)
    : K (ptr * Z * Z + option (Z * Z)) :=
  let '(bh, de, i) := x in
  b ← deref bh;
  let use b de :=
    n ← geti dir;
    when (u32 (i * 16) >=? i_size n)
      (setb b (fun b => b <| b_data ::= set_de_inode de 0 |>);;
       seti dir (fun n => n <| i_size := u32 ((i + 1) * 16) |>);;
       seti dir (fun n => n <| i_dirt := 1 |>);;
       t ← CURRENT_TIME;
       seti dir (fun n => n <| i_ctime := u32 t |>));;
    buf ← getb b;
    if negb (nz (de_inode (b_data buf) de)) then
      t ← CURRENT_TIME;
      seti dir (fun n => n <| i_mtime := u32 t |>);;
      for_ 0 (Z.to_nat NAME_LEN) (fun j =>
        c ← (if j <? namelen then get_fs_byte (name + j) else mret 0);
        setb b (fun b => b <| b_data ::= set_de_name de j c |>));;
      setb b (fun b => b <| b_dirt := 1 |>);;
      mret (inr (Some (b, de)))
    else mret (inl (Some b, de + 1, i + 1)) in
  if de >=? DIR_ENTRIES_PER_BLOCK then
    brelse (Some b);;
    block ← create_block dir (i / DIR_ENTRIES_PER_BLOCK);
    if negb (nz block) then mret (inr None)
    else
      n ← geti dir;
      r ← bread (i_dev n) block;
      match r with
      | None => mret (inl (None, de, i + DIR_ENTRIES_PER_BLOCK))
      | Some b => use b 0
      end
  else use b de.

(** fs/namei.c:164-219 *)
Definition add_entry (dir name namelen : Z) : K (option (Z * Z)) :=
  let namelen := if namelen >? NAME_LEN then NAME_LEN else namelen in
  if negb (nz namelen) then mret None
  else
    n ← geti dir;
    let block := i_zone n 0 in
    if negb (nz block) then mret None
    else
      r ← bread (i_dev n) block;
      match r with
      | None => mret None
      | Some b => loop fuel (add_entry_step dir name namelen) (Some b, 0, 0)
      end.

(** fs/namei.c:257-258: the length of the next part of a path, and the
    character that ends it. *)
Definition next_name (pathname : Z) : K (Z * Z) := fun s =>
  match scan (fun k => (user s (pathname + k) =? 0) || (user s (pathname + k) =? 47)) 0 fuel with
  | Some k => Ret (k, user s (pathname + k)) s
  | None => NoFuel
  end.

(** fs/namei.c:251-271, one round of the loop: the directory and the rest of
    the path. *)
Definition get_dir_step (x : Z * Z) : K (Z * Z + ptr) :=
  let '(inode, pathname) := x in
  let thisname := pathname in
  n ← geti inode;
  ok ← (if S_ISDIR (i_mode n) then p ← permission inode MAY_EXEC; mret (nz p) else mret false);
  if negb ok then
    iput (Some inode);;
    mret (inr None)
  else
    '(namelen, c) ← next_name pathname;
    if negb (nz c) then mret (inr (Some inode))
    else
      r ← find_entry inode thisname namelen;
      match r with
      | None =>
          iput (Some inode);;
          mret (inr None)
      | Some (bh, de) =>
          b ← getb bh;
          let inr_ := de_inode (b_data b) de in
          n ← geti inode;
          let idev := i_dev n in
          brelse (Some bh);;
          iput (Some inode);;
          r ← iget idev inr_;
          match r with
          | None => mret (inr None)
          | Some inode => mret (inl (inode, pathname + namelen + 1))
          end
      end.

(** fs/namei.c:230-272 *)
Definition get_dir (pathname : Z) : K ptr :=
  t ← me;
  s ← get;
  let live p := match p with Some i => nz (i_count (inode_table s i)) | None => false end in
  if negb (live (t_root t)) then panic "No root inode"
  else if negb (live (t_pwd t)) then panic "No cwd inode"
  else
    c ← get_fs_byte pathname;
    if c =? 47 then
      inode ← deref (t_root t);
      seti inode (fun n => n <| i_count ::= fun x => u16 (x + 1) |>);;
      loop fuel get_dir_step (inode, pathname + 1)
    else if nz c then
      inode ← deref (t_pwd t);
      seti inode (fun n => n <| i_count ::= fun x => u16 (x + 1) |>);;
      loop fuel get_dir_step (inode, pathname)
    else mret None.

(** fs/namei.c:291-296: the last part of a path and its length. *)
Definition base_name (pathname : Z) : K (Z * Z) :=
  loop fuel (fun '(p, basename) =>
    c ← get_fs_byte p;
    if nz c then mret (inl (p + 1, if c =? 47 then p + 1 else basename))
    else mret (inr (p + 1 - basename - 1, basename))) (pathname, pathname).

(** fs/namei.c:282-298: the directory, the length and the place of the name. *)
Definition dir_namei (pathname : Z) : K (option (Z * Z * Z)) :=
  r ← get_dir pathname;
  match r with
  | None => mret None
  | Some dir =>
      '(namelen, name) ← base_name pathname;
      mret (Some (dir, namelen, name))
  end.

(** fs/namei.c:310-337 *)
Definition namei (pathname : Z) : K ptr :=
  r ← dir_namei pathname;
  match r with
  | None => mret None
  | Some (dir, namelen, basename) =>
      if negb (nz namelen) then mret (Some dir)
      else
        r ← find_entry dir basename namelen;
        match r with
        | None =>
            iput (Some dir);;
            mret None
        | Some (bh, de) =>
            b ← getb bh;
            let inr_ := de_inode (b_data b) de in
            n ← geti dir;
            let dev := i_dev n in
            brelse (Some bh);;
            iput (Some dir);;
            r ← iget dev inr_;
            match r with
            | None => mret None
            | Some dir =>
                t ← CURRENT_TIME;
                seti dir (fun n => n <| i_atime := u32 t |>);;
                seti dir (fun n => n <| i_dirt := 1 |>);;
                mret (Some dir)
            end
        end
  end.

(** The number of the inode written into an entry: fs/namei.c:392-394,
    486-487 and 708-709. *)
Definition fill_entry (bh de num : Z) : K unit :=
  setb bh (fun b => b <| b_data ::= set_de_inode de num |>);;
  setb bh (fun b => b <| b_dirt := 1 |>).

Definition drop_link (inode : Z) : K unit :=
  seti inode (fun n => n <| i_nlinks ::= fun x => u8 (x - 1) |>).

(** fs/namei.c:345-417: the result and the inode. *)
Definition open_namei (pathname flag mode : Z) : K (Z * ptr) :=
  let flag := if hasbit flag O_TRUNC && negb (hasbit flag O_ACCMODE)
              then Z.lor flag O_WRONLY else flag in
  me_ ← me;
  let mode := Z.lor (Z.land mode (Z.land 511 (Z.lnot (t_umask me_)))) I_REGULAR in
  r ← dir_namei pathname;
  match r with
  | None => mret (- ENOENT, None)
  | Some (dir, namelen, basename) =>
      if negb (nz namelen) then
        if negb (hasbit flag (Z.lor O_ACCMODE (Z.lor O_CREAT O_TRUNC))) then mret (0, Some dir)
        else
          iput (Some dir);;
          mret (- EISDIR, None)
      else
        r ← find_entry dir basename namelen;
        match r with
        | None =>
            if negb (hasbit flag O_CREAT) then
              iput (Some dir);;
              mret (- ENOENT, None)
            else
              p ← permission dir MAY_WRITE;
              if negb (nz p) then
                iput (Some dir);;
                mret (- EACCES, None)
              else
                n ← geti dir;
                r ← new_inode (i_dev n);
                match r with
                | None =>
                    iput (Some dir);;
                    mret (- ENOSPC, None)
                | Some inode =>
                    seti inode (fun n => n <| i_mode := u16 mode |>);;
                    seti inode (fun n => n <| i_dirt := 1 |>);;
                    r ← add_entry dir basename namelen;
                    match r with
                    | None =>
                        drop_link inode;;
                        iput (Some inode);;
                        iput (Some dir);;
                        mret (- ENOSPC, None)
                    | Some (bh, de) =>
                        n ← geti inode;
                        fill_entry bh de (i_num n);;
                        brelse (Some bh);;
                        iput (Some dir);;
                        mret (0, Some inode)
                    end
                end
        | Some (bh, de) =>
            b ← getb bh;
            let inr_ := de_inode (b_data b) de in
            n ← geti dir;
            let dev := i_dev n in
            brelse (Some bh);;
            iput (Some dir);;
            if hasbit flag O_EXCL then mret (- EEXIST, None)
            else
              r ← iget dev inr_;
              match r with
              | None => mret (- EACCES, None)
              | Some inode =>
                  n ← geti inode;
                  denied ← (if S_ISDIR (i_mode n) && hasbit flag O_ACCMODE then mret true
                            else p ← permission inode (ACC_MODE flag);
                                 mret (negb (p =? ACC_MODE flag)));
                  if denied : bool then
                    iput (Some inode);;
                    mret (- EPERM, None)
                  else
                    t ← CURRENT_TIME;
                    seti inode (fun n => n <| i_atime := u32 t |>);;
                    when (hasbit flag O_TRUNC) (truncate inode);;
                    mret (0, Some inode)
              end
        end
  end.

(** fs/namei.c:419-494 *)
Definition sys_mkdir (pathname mode : Z) : K Z :=
  me_ ← me;
  if nz (t_euid me_) && nz (t_uid me_) then mret (- EPERM)
  else
    r ← dir_namei pathname;
    match r with
    | None => mret (- ENOENT)
    | Some (dir, namelen, basename) =>
        if negb (nz namelen) then
          iput (Some dir);;
          mret (- ENOENT)
        else
          p ← permission dir MAY_WRITE;
          if negb (nz p) then
            iput (Some dir);;
            mret (- EPERM)
          else
            r ← find_entry dir basename namelen;
            match r with
            | Some (bh, _) =>
                brelse (Some bh);;
                iput (Some dir);;
                mret (- EEXIST)
            | None =>
                n ← geti dir;
                r ← new_inode (i_dev n);
                match r with
                | None =>
                    iput (Some dir);;
                    mret (- ENOSPC)
                | Some inode =>
                    seti inode (fun n => n <| i_size := 32 |>);;
                    seti inode (fun n => n <| i_dirt := 1 |>);;
                    t ← CURRENT_TIME;
                    seti inode (fun n => n <| i_atime := u32 t |> <| i_mtime := u32 t |>);;
                    n ← geti inode;
                    z ← new_block (i_dev n);
                    seti inode (fun n => n <| i_zone ::= <[0 := u16 z]> |>);;
                    if negb (nz (u16 z)) then
                      iput (Some dir);;
                      drop_link inode;;
                      iput (Some inode);;
                      mret (- ENOSPC)
                    else
                      seti inode (fun n => n <| i_dirt := 1 |>);;
                      n ← geti inode;
                      r ← bread (i_dev n) (i_zone n 0);
                      match r with
                      | None =>
                          iput (Some dir);;
                          n ← geti inode;
                          free_block (i_dev n) (i_zone n 0);;
                          drop_link inode;;
                          iput (Some inode);;
                          mret (- ERROR)
                      | Some dir_block =>
                          n ← geti inode;
                          d ← geti dir;
                          setb dir_block (fun b => b <| b_data ::= fun m =>
                            copy_name 1 [46; 46] (set_de_inode 1 (i_num d)
                              (copy_name 0 [46] (set_de_inode 0 (i_num n) m))) |>);;
                          seti inode (fun n => n <| i_nlinks := 2 |>);;
                          setb dir_block (fun b => b <| b_dirt := 1 |>);;
                          brelse (Some dir_block);;
                          me_ ← me;
                          seti inode (fun n => n <| i_mode := u16 (Z.lor I_DIRECTORY
                            (Z.land mode (Z.land 511 (Z.lnot (t_umask me_))))) |>);;
                          seti inode (fun n => n <| i_dirt := 1 |>);;
                          r ← add_entry dir basename namelen;
                          match r with
                          | None =>
                              iput (Some dir);;
                              n ← geti inode;
                              free_block (i_dev n) (i_zone n 0);;
                              seti inode (fun n => n <| i_nlinks := 0 |>);;
                              iput (Some inode);;
                              mret (- ENOSPC)
                          | Some (bh, de) =>
                              n ← geti inode;
                              fill_entry bh de (i_num n);;
                              seti dir (fun n => n <| i_nlinks ::= fun x => u8 (x + 1) |>);;
                              seti dir (fun n => n <| i_dirt := 1 |>);;
                              iput (Some dir);;
                              iput (Some inode);;
                              brelse (Some bh);;
                              mret 0
                          end
                      end
                end
            end
    end.

(** fs/namei.c:521-539, one round of the loop.  A hole in the directory
    leaves the buffer released and still in [bh]. *)
Definition empty_dir_step (inode len : Z) (x : Z * Z * Z) : K (Z * Z * Z + Z) :=
  let '(bh, de, nr) := x in
  if negb (nr <? len) then
    brelse (Some bh);;
    mret (inr 1)
  else
    let check bh de :=
      b ← getb bh;
      if nz (de_inode (b_data b) de) then
        brelse (Some bh);;
        mret (inr 0)
      else mret (inl (bh, de + 1, nr + 1)) in
    if de >=? DIR_ENTRIES_PER_BLOCK then
      brelse (Some bh);;
      block ← bmap inode (nr / DIR_ENTRIES_PER_BLOCK);
      if negb (nz block) then mret (inl (bh, de, nr + DIR_ENTRIES_PER_BLOCK))
      else
        n ← geti inode;
        r ← bread (i_dev n) block;
        match r with
        | None => mret (inr 0)
        | Some bh => check bh 0
        end
    else check bh de.

(** fs/namei.c:500-542 *)
Definition empty_dir (inode : Z) : K Z :=
  n ← geti inode;
  let len := i_size n / 16 in
  let bad :=
    n ← geti inode;
    printk "warning - bad directory on dev %04x\n" [i_dev n];;
    mret 0 in
  if (len <? 2) || negb (nz (i_zone n 0)) then bad
  else
    r ← bread (i_dev n) (i_zone n 0);
    match r with
    | None => bad
    | Some bh =>
        b ← getb bh;
        n ← geti inode;
        let d := b_data b in
        if negb (de_inode d 0 =? i_num n) || negb (nz (de_inode d 1)) ||
           negb (name_is d 0 [46]) || negb (name_is d 1 [46; 46])
        then bad
        else loop fuel (empty_dir_step inode len) (bh, 2, 2)
    end.

(** fs/namei.c:544-606 *)
Definition sys_rmdir (name : Z) : K Z :=
  me_ ← me;
  if nz (t_euid me_) && nz (t_uid me_) then mret (- EPERM)
  else
    r ← dir_namei name;
    match r with
    | None => mret (- ENOENT)
    | Some (dir, namelen, basename) =>
        if negb (nz namelen) then
          iput (Some dir);;
          mret (- ENOENT)
        else
          r ← find_entry dir basename namelen;
          match r with
          | None =>
              iput (Some dir);;
              mret (- ENOENT)
          | Some (bh, de) =>
              p ← permission dir MAY_WRITE;
              if negb (nz p) then
                iput (Some dir);;
                brelse (Some bh);;
                mret (- EPERM)
              else
                b ← getb bh;
                n ← geti dir;
                r ← iget (i_dev n) (de_inode (b_data b) de);
                match r with
                | None =>
                    iput (Some dir);;
                    brelse (Some bh);;
                    mret (- EPERM)
                | Some inode =>
                    let leave err :=
                      iput (Some inode);;
                      iput (Some dir);;
                      brelse (Some bh);;
                      mret (- err) in
                    n ← geti inode;
                    if inode =? dir then leave EPERM
                    else if negb (S_ISDIR (i_mode n)) then leave ENOTDIR
                    else
                      e ← empty_dir inode;
                      if negb (nz e) then leave ENOTEMPTY
                      else
                        n ← geti inode;
                        when (negb (i_nlinks n =? 2))
                          (printk "empty directory has nlink!=2 (%d)" [i_nlinks n]);;
                        fill_entry bh de 0;;
                        brelse (Some bh);;
                        seti inode (fun n => n <| i_nlinks := 0 |>);;
                        seti inode (fun n => n <| i_dirt := 1 |>);;
                        drop_link dir;;
                        t ← CURRENT_TIME;
                        seti dir (fun n => n <| i_mtime := u32 t |> <| i_ctime := u32 t |>);;
                        seti dir (fun n => n <| i_dirt := 1 |>);;
                        iput (Some dir);;
                        iput (Some inode);;
                        mret 0
                end
          end
    end.

(** fs/namei.c:608-658 *)
Definition sys_unlink (name : Z) : K Z :=
  r ← dir_namei name;
  match r with
  | None => mret (- ENOENT)
  | Some (dir, namelen, basename) =>
      if negb (nz namelen) then
        iput (Some dir);;
        mret (- ENOENT)
      else
        p ← permission dir MAY_WRITE;
        if negb (nz p) then
          iput (Some dir);;
          mret (- EPERM)
        else
          r ← find_entry dir basename namelen;
          match r with
          | None =>
              iput (Some dir);;
              mret (- ENOENT)
          | Some (bh, de) =>
              b ← getb bh;
              n ← geti dir;
              r ← iget (i_dev n) (de_inode (b_data b) de);
              match r with
              | None =>
                  n ← geti dir;
                  b ← getb bh;
                  printk "iget failed in delete (%04x:%d)" [i_dev n; de_inode (b_data b) de];;
                  iput (Some dir);;
                  brelse (Some bh);;
                  mret (- ENOENT)
              | Some inode =>
                  n ← geti inode;
                  if negb (S_ISREG (i_mode n)) then
                    iput (Some inode);;
                    iput (Some dir);;
                    brelse (Some bh);;
                    mret (- EPERM)
                  else
                    when (negb (nz (i_nlinks n)))
                      (printk "Deleting nonexistent file (%04x:%d), %d\n" [i_dev n; i_num n; i_nlinks n];;
                       seti inode (fun n => n <| i_nlinks := 1 |>));;
                    fill_entry bh de 0;;
                    brelse (Some bh);;
                    drop_link inode;;
                    seti inode (fun n => n <| i_dirt := 1 |>);;
                    t ← CURRENT_TIME;
                    seti inode (fun n => n <| i_ctime := u32 t |>);;
                    iput (Some inode);;
                    iput (Some dir);;
                    mret 0
              end
          end
  end.

(** fs/namei.c:660-717 *)
Definition sys_link (oldname newname : Z) : K Z :=
  r ← namei oldname;
  match r with
  | None => mret (- ENOENT)
  | Some oldinode =>
      n ← geti oldinode;
      if negb (S_ISREG (i_mode n)) then
        iput (Some oldinode);;
        mret (- EPERM)
      else
        r ← dir_namei newname;
        match r with
        | None =>
            iput (Some oldinode);;
            mret (- EACCES)
        | Some (dir, namelen, basename) =>
            let leave err :=
              iput (Some dir);;
              iput (Some oldinode);;
              mret (- err) in
            if negb (nz namelen) then
              iput (Some oldinode);;
              iput (Some dir);;
              mret (- EPERM)
            else
              d ← geti dir;
              o ← geti oldinode;
              if negb (i_dev d =? i_dev o) then leave EXDEV
              else
                p ← permission dir MAY_WRITE;
                if negb (nz p) then leave EACCES
                else
                  r ← find_entry dir basename namelen;
                  match r with
                  | Some (bh, _) =>
                      brelse (Some bh);;
                      leave EEXIST
                  | None =>
                      r ← add_entry dir basename namelen;
                      match r with
                      | None => leave ENOSPC
                      | Some (bh, de) =>
                          o ← geti oldinode;
                          fill_entry bh de (i_num o);;
                          brelse (Some bh);;
                          iput (Some dir);;
                          seti oldinode (fun n => n <| i_nlinks ::= fun x => u8 (x + 1) |>);;
                          t ← CURRENT_TIME;
                          seti oldinode (fun n => n <| i_ctime := u32 t |>);;
                          seti oldinode (fun n => n <| i_dirt := 1 |>);;
                          iput (Some oldinode);;
                          mret 0
                      end
                  end
        end
  end.
End namei.
