(* ===== verification/Files.v ===== *)
(** Open files, fs/open.c and fs/fcntl.c: the descriptors of a process, the
    table of open files they lead to, and the calls that change either. *)
From S2P Require Export Namei.
#[local] Open Scope bool_scope.

(** One descriptor of a process. *)
Definition set_filp (fd : Z) (p : ptr) (t : task_struct) : task_struct :=
  t <| t_filp ::= <[fd := p]> |>.
(** [current->close_on_exec &= ~(1<<fd)], as in fs/open.c:146 and 197 and
    fs/fcntl.c:25 and 56. *)
Definition clear_cloexec (fd : Z) (t : task_struct) : task_struct :=
  t <| t_close_on_exec ::= fun x => u32 (Z.land x (Z.lnot (Z.shiftl 1 fd))) |>.
(** [f_count++] *)
Definition add_ref (f : Z) : K unit := setf f (fun x => x <| f_count ::= fun c => u16 (c + 1) |>).

(** The user is the super-user: [!(current->euid && current->uid)]. *)
Definition suser (t : task_struct) : bool := negb (nz (t_euid t) && nz (t_uid t)).

(** fs/fcntl.c:18-22: the first free descriptor from [arg] on. *)
Definition free_fd (t : task_struct) (arg : Z) : ptr :=
  scan (fun fd => null (t_filp t fd)) arg (Z.to_nat (NR_OPEN - arg)).
(** fs/open.c:147-151: the first free entry of the table of open files. *)
Definition free_file (s : kstate) : ptr :=
  scan (fun i => negb (nz (f_count (file_table s i)))) 0 (Z.to_nat NR_FILE).

Section files.
Context `{Machine}.

(** fs/open.c:20-37 *)
Definition sys_utime (filename times : Z) : K Z :=
  r ← namei filename;
  match r with
  | None => mret (- ENOENT)
  | Some inode =>
      '(actime, modtime) ← (if nz times then
          actime ← get_fs_long times;
          modtime ← get_fs_long (times + 4);
          mret (actime, modtime)
        else
          t ← CURRENT_TIME;
          mret (t, t));
      seti inode (fun n => n <| i_atime := u32 actime |> <| i_mtime := u32 modtime |>
                             <| i_dirt := 1 |>);;
      iput (Some inode);;
      mret 0
  end.

(** fs/open.c:39-62 *)
Definition sys_access (filename mode : Z) : K Z :=
  let mode := Z.land mode 7 in
  r ← namei filename;
  match r with
  | None => mret (- EACCES)
  | Some inode =>
      n ← geti inode;
      let res := Z.land (i_mode n) 511 in
      iput (Some inode);;
      t ← me;
      let res :=
        if suser t then (if hasbit res 73 then 511 else 438) else res in
      n ← geti inode;
      let res :=
        if t_euid t =? i_uid n then Z.shiftr res 6
        else if t_egid t =? i_gid n then Z.shiftr res 6
        else res in
      if Z.land (Z.land res 7) mode =? mode then mret 0 else mret (- EACCES)
  end.

(** fs/open.c:64-77 *)
Definition sys_chdir (filename : Z) : K Z :=
  r ← namei filename;
  match r with
  | None => mret (- ENOENT)
  | Some inode =>
      n ← geti inode;
      if negb (S_ISDIR (i_mode n)) then
        iput (Some inode);;
        mret (- ENOTDIR)
      else
        t ← me;
        iput (t_pwd t);;
        setme (fun t => t <| t_pwd := Some inode |>);;
        mret 0
  end.

(** fs/open.c:79-92 *)
Definition sys_chroot (filename : Z) : K Z :=
  r ← namei filename;
  match r with
  | None => mret (- ENOENT)
  | Some inode =>
      n ← geti inode;
      if negb (S_ISDIR (i_mode n)) then
        iput (Some inode);;
        mret (- ENOTDIR)
      else
        t ← me;
        iput (t_root t);;
        setme (fun t => t <| t_root := Some inode |>);;
        mret 0
  end.

(** fs/open.c:94-111 *)
Definition sys_chmod (filename mode : Z) : K Z :=
  r ← namei filename;
  match r with
  | None => mret (- ENOENT)
  | Some inode =>
      t ← me;
      n ← geti inode;
      let plain := nz (t_uid t) && nz (t_euid t) in
      if plain && negb (t_uid t =? i_uid n) && negb (t_euid t =? i_uid n) then
        iput (Some inode);;
        mret (- EACCES)
      else
        let mode := if plain then Z.lor (Z.land mode 511) (Z.land (i_mode n) 3584) else mode in
        seti inode (fun n => n <| i_mode :=
          u16 (Z.lor (Z.land mode 4095) (Z.land (i_mode n) (Z.lnot 4095))) |>);;
        seti inode (fun n => n <| i_dirt := 1 |>);;
        iput (Some inode);;
        mret 0
  end.

(** fs/open.c:113-128 *)
Definition sys_chown (filename uid gid : Z) : K Z :=
  r ← namei filename;
  match r with
  | None => mret (- ENOENT)
  | Some inode =>
      t ← me;
      if nz (t_uid t) && nz (t_euid t) then
        iput (Some inode);;
        mret (- EACCES)
      else
        seti inode (fun n => n <| i_uid := u16 uid |> <| i_gid := u8 gid |> <| i_dirt := 1 |>);;
        iput (Some inode);;
        mret 0
  end.

(** fs/open.c:154-156 and 168-171: the descriptor and the entry are given up. *)
Definition undo_open (fd f err : Z) : K Z :=
  setme (set_filp fd None);;
  setf f (fun x => x <| f_count := 0 |>);;
  mret err.

(** fs/open.c:134-180 *)
Definition sys_open (filename flag mode : Z) : K Z :=
  t ← me;
  let mode := Z.land mode (Z.land 511 (Z.lnot (t_umask t))) in
  match free_fd t 0 with
  | None => mret (- EINVAL)
  | Some fd =>
      setme (clear_cloexec fd);;
      s ← get;
      match free_file s with
      | None => mret (- EINVAL)
      | Some f =>
          setme (set_filp fd (Some f));;
          add_ref f;;
          '(i, p) ← open_namei filename flag mode;
          if i <? 0 then undo_open fd f i
          else
            inode ← deref p;
            let finish :=
              n ← geti inode;
              setf f (fun x => x <| f_mode := i_mode n |> <| f_flags := u16 flag |>
                <| f_count := 1 |> <| f_inode := Some inode |> <| f_pos := 0 |>);;
              mret fd in
            n ← geti inode;
            t ← me;
            if S_ISCHR (i_mode n) then
              if MAJOR (i_zone n 0) =? 4 then
                when (nz (t_leader t) && (t_tty t <? 0))
                  (let tty := MINOR (i_zone n 0) in
                   setme (fun t => t <| t_tty := tty |>);;
                   modify (fun s => s <| tty_table ::= fun tt =>
                     <[tty := (tt tty) <| tt_pgrp := t_pgrp t |>]> tt |>));;
                finish
              else if (MAJOR (i_zone n 0) =? 5) && (t_tty t <? 0) then
                iput (Some inode);;
                undo_open fd f (- EPERM)
              else finish
            else finish
      end
  end.

(** fs/open.c:182-185 *)
Definition sys_creat (pathname mode : Z) : K Z := sys_open pathname (Z.lor O_CREAT O_TRUNC) mode.

(** fs/open.c:191-207 *)
Definition sys_close (fd : Z) : K Z :=
  if fd >=? NR_OPEN then mret (- EINVAL)
  else
    setme (clear_cloexec fd);;
    t ← me;
    match t_filp t fd with
    | None => mret (- EINVAL)
    | Some filp =>
        setme (set_filp fd None);;
        f ← getf filp;
        if f_count f =? 0 then panic "Close: file count is 0"
        else
          setf filp (fun x => x <| f_count ::= fun c => u16 (c - 1) |>);;
          f ← getf filp;
          if nz (f_count f) then mret 0
          else
            iput (f_inode f);;
            mret 0
    end.

(** The open file behind a descriptor: the test with which the calls that take
    a descriptor begin, fs/fcntl.c:45 and 76 and elsewhere. *)
Definition get_filp (fd : Z) : K ptr :=
  if fd >=? NR_OPEN then mret None
  else t ← me; mret (t_filp t fd).

(** fs/fcntl.c:12-28 *)
Definition dupfd (fd arg : Z) : K Z :=
  r ← get_filp fd;
  match r with
  | None => mret (- EBADF)
  | Some f =>
      if arg >=? NR_OPEN then mret (- EINVAL)
      else
        t ← me;
        match free_fd t arg with
        | None => mret (- EMFILE)
        | Some arg =>
            setme (clear_cloexec arg);;
            setme (set_filp arg (Some f));;
            add_ref f;;
            mret arg
        end
  end.

(** fs/fcntl.c:30-34 *)
Definition sys_dup2 (oldfd newfd : Z) : K Z :=
  sys_close newfd;;
  dupfd oldfd newfd.

(** fs/fcntl.c:36-39 *)
Definition sys_dup (fildes : Z) : K Z := dupfd fildes 0.

(** fs/fcntl.c:41-69 *)
Definition sys_fcntl (fd cmd arg : Z) : K Z :=
  r ← get_filp fd;
  match r with
  | None => mret (- EBADF)
  | Some filp =>
      t ← me;
      f ← getf filp;
      let flags := Z.lor O_APPEND O_NONBLOCK in
      if cmd =? F_DUPFD then dupfd fd arg
      else if cmd =? F_GETFD then mret (Z.land (Z.shiftr (t_close_on_exec t) fd) 1)
      else if cmd =? F_SETFD then
        (if hasbit arg 1
         then setme (fun t => t <| t_close_on_exec ::= fun x => Z.lor x (Z.shiftl 1 fd) |>)
         else setme (clear_cloexec fd));;
        mret 0
      else if cmd =? F_GETFL then mret (f_flags f)
      else if cmd =? F_SETFL then
        setf filp (fun x => x <| f_flags ::= fun g => Z.land g (Z.lnot flags) |>);;
        setf filp (fun x => x <| f_flags ::= fun g => Z.lor g (Z.land arg flags) |>);;
        mret 0
      else mret (-1)
  end.

(** fs/fcntl.c:72-90 *)
Definition sys_fcntl64 (fd cmd arg : Z) : K Z :=
  r ← get_filp fd;
  match r with
  | None => mret (- EBADF)
  | Some _ =>
      if (cmd =? F_GETLK64) || (cmd =? F_SETLK64) || (cmd =? F_SETLKW64) then mret (- ENOSYS)
      else sys_fcntl fd cmd arg
  end.

(** fs/read_write.c:30-58.  The sum of a position and an offset is a [long];
    the size of a file is an [unsigned long], and so is its sum with the
    offset, which is stored in an [int]. *)
Definition sys_lseek (fd offset origin : Z) : K Z :=
  r ← get_filp fd;
  match r with
  | None => mret (- EBADF)
  | Some file =>
      f ← getf file;
      match f_inode f with
      | None => mret (- EBADF)
      | Some inode =>
          n ← geti inode;
          if negb (IS_BLOCKDEV (MAJOR (i_dev n))) then mret (- EBADF)
          else if nz (i_pipe n) then mret (- ESPIPE)
          else
            let set p := setf file (fun x => x <| f_pos := p |>);; mret p in
            if origin =? 0 then
              if offset <? 0 then mret (- EINVAL) else set offset
            else if origin =? 1 then
              if s32 (f_pos f + offset) <? 0 then mret (- EINVAL) else set (s32 (f_pos f + offset))
            else if origin =? 2 then
              if s32 (i_size n + offset) <? 0 then mret (- EINVAL) else set (s32 (i_size n + offset))
            else mret (- EINVAL)
      end
  end.
End files.

(** ** Reference counts of open files *)

(** How many descriptors of a process, and of all processes, lead to [f]. *)
Definition fd_refs (t : task_struct) (f : Z) : Z :=
  zsum (fun fd => b2z (ptr_eqb (t_filp t fd) (Some f))) 0 (Z.to_nat NR_OPEN).
Definition slot_refs (s : kstate) (f i : Z) : Z :=
  match task s i with Some p => fd_refs (tsk s p) f | None => 0 end.
Definition file_refs (s : kstate) (f : Z) : Z := zsum (slot_refs s f) 0 (Z.to_nat NR_TASKS).

(** The table of open files agrees with the descriptors of the processes. *)
Record files_ok (s : kstate) : Prop := {
  fo_slots : forall i j p, 0 <= i < NR_TASKS -> 0 <= j < NR_TASKS ->
    task s i = Some p -> task s j = Some p -> i = j;
  fo_current : exists i c, 0 <= i < NR_TASKS /\ task s i = Some c /\ current s = Some c;
  fo_range : forall i p fd f, 0 <= i < NR_TASKS -> task s i = Some p -> 0 <= fd < NR_OPEN ->
    t_filp (tsk s p) fd = Some f -> 0 <= f < NR_FILE;
  fo_counts : forall f, 0 <= f < NR_FILE -> f_count (file_table s f) = file_refs s f;
}.

Lemma b2z_range b : 0 <= b2z b <= 1.
Proof. destruct b; simpl; lia. Qed.
Lemma fd_refs_range t f : 0 <= fd_refs t f <= 20.
Proof. apply (zsum_bound _ 0 20 1). intros. apply b2z_range. Qed.
Lemma slot_refs_range s f i : 0 <= slot_refs s f i <= 20.
Proof. unfold slot_refs. destruct (task s i); [apply fd_refs_range|lia]. Qed.
Lemma file_refs_range s f : 0 <= file_refs s f <= 1280.
Proof. apply (zsum_bound _ 0 64 20). intros. apply slot_refs_range. Qed.

(** A descriptor that leads to a file counts. *)
Lemma file_refs_pos s i p fd f : 0 <= i < NR_TASKS -> task s i = Some p -> 0 <= fd < NR_OPEN ->
  t_filp (tsk s p) fd = Some f -> 0 < file_refs s f.
Proof.
  intros Hi Hp Hfd Hf. apply Z.lt_le_trans with (slot_refs s f i).
  - unfold slot_refs. rewrite Hp. apply Z.lt_le_trans with 1; [lia|].
    replace 1 with (b2z (ptr_eqb (t_filp (tsk s p) fd) (Some f)))
      by (rewrite Hf, ptr_eqb_refl; done).
    apply (zsum_ge (fun fd => b2z (ptr_eqb (t_filp (tsk s p) fd) (Some f))) 0 20);
      [unfold NR_OPEN in *; lia|]. intros. apply b2z_range.
  - apply (zsum_ge (slot_refs s f) 0 64); [unfold NR_TASKS in *; lia|].
    intros. apply slot_refs_range.
Qed.

Lemma fd_refs_set t fd p f : 0 <= fd < NR_OPEN ->
  fd_refs (set_filp fd p t) f =
    fd_refs t f + (b2z (ptr_eqb p (Some f)) - b2z (ptr_eqb (t_filp t fd) (Some f))).
Proof.
  intros Hfd. unfold fd_refs.
  rewrite (zsum_change _ (fun k => b2z (ptr_eqb (t_filp t k) (Some f))) 0 _ fd).
  - simpl. by rewrite arr_eq.
  - unfold NR_OPEN in *. lia.
  - intros j Hj Hne. simpl. by rewrite arr_ne by done.
Qed.

Lemma file_refs_upd s g i c f : files_ok s -> 0 <= i < NR_TASKS -> task s i = Some c ->
  file_refs (upd_task c g s) f = file_refs s f + (fd_refs (g (tsk s c)) f - fd_refs (tsk s c) f).
Proof.
  intros Hok Hi Hc. unfold file_refs. rewrite (zsum_change _ (slot_refs s f) 0 _ i).
  - unfold slot_refs at 2 3. change (task (upd_task c g s)) with (task s).
    rewrite Hc, upd_task_eq. done.
  - unfold NR_TASKS in *. lia.
  - intros j Hj Hne. unfold slot_refs. change (task (upd_task c g s)) with (task s).
    destruct (task s j) as [p|] eqn:Hp; [|done]. rewrite upd_task_ne; [done|].
    intros <-. apply Hne. apply (fo_slots s Hok j i c); unfold NR_TASKS in *; auto with lia.
Qed.

(** A step that changes the descriptors of the current process only, and
    keeps the counts in agreement, keeps the invariant. *)
Lemma files_ok_upd s c g ft : files_ok s -> current s = Some c ->
  (forall fd f, 0 <= fd < NR_OPEN -> t_filp (g (tsk s c)) fd = Some f -> 0 <= f < NR_FILE) ->
  (forall f, 0 <= f < NR_FILE -> f_count (ft f) =
     f_count (file_table s f) + (fd_refs (g (tsk s c)) f - fd_refs (tsk s c) f)) ->
  files_ok ((upd_task c g s) <| file_table := ft |>).
Proof.
  intros Hok Hc Hr Hf. destruct (fo_current s Hok) as (i & c' & Hi & Hti & Hci).
  assert (c' = c) as -> by congruence.
  split.
  - apply (fo_slots s Hok).
  - exists i, c. done.
  - intros j p fd f Hj Hp Hfd. simpl in Hp |- *. destruct (decide (p = c)) as [->|Hne].
    + rewrite arr_eq. by apply Hr.
    + rewrite arr_ne by done. by apply (fo_range s Hok j).
  - intros f Hf'. simpl. rewrite (Hf f Hf'), (fo_counts s Hok f Hf').
    symmetry. apply (file_refs_upd s g i c f Hok Hi Hti).
Qed.

Lemma cur_run s c : current s = Some c -> cur s = Ret c s.
Proof. intros H. unfold cur. by rewrite bind_gets, H. Qed.
Lemma me_run s c : current s = Some c -> me s = Ret (tsk s c) s.
Proof. intros H. unfold me. by rewrite (bind_Ret _ _ _ _ _ (cur_run s c H)). Qed.
Lemma setme_run s c f : current s = Some c -> setme f s = Ret tt (upd_task c f s).
Proof. intros H. unfold setme. by rewrite (bind_Ret _ _ _ _ _ (cur_run s c H)). Qed.

(** The open file behind a descriptor. *)
Definition filp_of (s : kstate) (c fd : Z) : ptr :=
  if fd >=? NR_OPEN then None else t_filp (tsk s c) fd.

Lemma get_filp_run s c fd : current s = Some c -> get_filp fd s = Ret (filp_of s c fd) s.
Proof.
  intros H. unfold get_filp, filp_of. destruct (fd >=? NR_OPEN); [done|].
  by rewrite (bind_Ret _ _ _ _ _ (me_run s c H)).
Qed.

(** What [dupfd] leaves: descriptor [n] leads to [f]. *)
Definition dupped (c n f : Z) (s : kstate) : kstate :=
  (upd_task c (fun t => set_filp n (Some f) (clear_cloexec n t)) s)
    <| file_table ::= fun t => <[f := (t f) <| f_count ::= fun x => u16 (x + 1) |>]> t |>.

Lemma cloexec_clear n t k : 0 <= n < 32 -> 0 <= k < 32 ->
  Z.testbit (t_close_on_exec (clear_cloexec n t)) k =
    if decide (k = n) then false else Z.testbit (t_close_on_exec t) k.
Proof.
  intros Hn Hk. simpl. unfold u32. change 4294967296 with (2 ^ 32).
  rewrite Z.mod_pow2_bits_low, Z.land_spec, Z.lnot_spec by lia.
  rewrite Z.shiftl_spec by lia. destruct (decide (k = n)) as [->|Hne].
  - rewrite Z.sub_diag. simpl. apply andb_false_r.
  - destruct (decide (k < n)).
    + rewrite (Z.testbit_neg_r 1 (k - n)) by lia. apply andb_true_r.
    + rewrite (Z.bits_above_log2 1 (k - n)) by (rewrite ?Z.log2_1; lia). apply andb_true_r.
Qed.

Lemma dupped_ok c n f s fd : files_ok s -> current s = Some c -> 0 <= fd < NR_OPEN ->
  t_filp (tsk s c) fd = Some f -> 0 <= n < NR_OPEN -> t_filp (tsk s c) n = None ->
  files_ok (dupped c n f s).
Proof.
  intros Hok Hc Hfd Hf Hn Hnone. destruct (fo_current s Hok) as (i & c' & Hi & Hti & Hci).
  assert (c' = c) as -> by congruence.
  assert (Hfr : 0 <= f < NR_FILE) by (by apply (fo_range s Hok i c fd f)).
  change (dupped c n f s) with
    ((upd_task c (fun t => set_filp n (Some f) (clear_cloexec n t)) s)
       <| file_table := <[f := (file_table s f) <| f_count ::= fun x => u16 (x + 1) |>]>
                          (file_table s) |>).
  apply files_ok_upd; [done|done| |].
  - intros k g Hk. simpl. rewrite arr_dec. case_decide; [congruence|].
    by apply (fo_range s Hok i c).
  - intros g Hg. rewrite fd_refs_set by done.
    change (t_filp (clear_cloexec n (tsk s c)) n) with (t_filp (tsk s c) n). rewrite Hnone.
    change (fd_refs (clear_cloexec n (tsk s c)) g) with (fd_refs (tsk s c) g).
    assert (ptr_eqb None (Some g) = false) as -> by done.
    rewrite arr_dec. case_decide as Hfg.
    + subst g. rewrite ptr_eqb_refl. simpl. rewrite (fo_counts s Hok f Hfr), u16_small; [lia|].
      pose proof (file_refs_range s f). lia.
    + replace (ptr_eqb (Some f) (Some g)) with false; [simpl; lia|].
      symmetry. apply bool_decide_eq_false. congruence.
Qed.

(** C25: dupfd fails with EBADF for a descriptor that is not open, with EINVAL
    for a start past the table and with EMFILE when no descriptor is free from
    the start on; otherwise it gives the least free descriptor from there, which
    then denotes the same open file and is kept over exec, and the sharing
    counts of files stay right. *)
Theorem dupfd_spec fd arg s c :
  current s = Some c -> 0 <= fd -> 0 <= arg ->
  match filp_of s c fd with
  | None => dupfd fd arg s = Ret (- EBADF) s
  | Some f =>
      if arg >=? NR_OPEN then dupfd fd arg s = Ret (- EINVAL) s
      else
        (dupfd fd arg s = Ret (- EMFILE) s /\
         forall k, arg <= k < NR_OPEN -> t_filp (tsk s c) k <> None) \/
        exists n s', dupfd fd arg s = Ret n s' /\
          arg <= n < NR_OPEN /\ t_filp (tsk s c) n = None /\
          (forall k, arg <= k < n -> t_filp (tsk s c) k <> None) /\
          (forall k, t_filp (tsk s' c) k = if decide (k = n) then Some f else t_filp (tsk s c) k) /\
          (forall k, 0 <= k < 32 -> Z.testbit (t_close_on_exec (tsk s' c)) k =
             if decide (k = n) then false else Z.testbit (t_close_on_exec (tsk s c)) k) /\
          (files_ok s -> files_ok s')
  end.
Proof.
  intros Hc Hfd0 Harg0. unfold dupfd. rewrite (bind_Ret _ _ _ _ _ (get_filp_run s c fd Hc)).
  destruct (filp_of s c fd) as [f|] eqn:Hf; [|done].
  assert (Hfd : 0 <= fd < NR_OPEN /\ t_filp (tsk s c) fd = Some f).
  { unfold filp_of in Hf. destruct (fd >=? NR_OPEN) eqn:E; [done|]. ztest. done. }
  destruct (arg >=? NR_OPEN) eqn:Harg; [done|]. ztest.
  rewrite (bind_Ret _ _ _ _ _ (me_run s c Hc)). unfold free_fd.
  destruct (scan _ arg _) as [n|] eqn:Hscan.
  - right. apply scan_Some in Hscan as (Hn & Hnone & Hall). unfold NR_OPEN in *.
    assert (Hn' : t_filp (tsk s c) n = None) by (by destruct (t_filp (tsk s c) n)).
    exists n, (dupped c n f s). split_and!; [|lia|lia|done| | | |].
    + rewrite (bind_Ret _ _ _ _ _ (setme_run s c _ Hc)).
      rewrite (bind_Ret _ _ _ tt _ (setme_run (upd_task c (clear_cloexec n) s) c _ Hc)), upd_task_fuse. done.
    + intros k Hk Hn0. specialize (Hall k Hk). by rewrite Hn0 in Hall.
    + intros k. unfold dupped. simpl. rewrite arr_eq. simpl. rewrite arr_dec.
      repeat case_decide; congruence.
    + intros k Hk. unfold dupped. simpl. rewrite arr_eq. apply cloexec_clear; lia.
    + intros Hok. destruct Hfd as [??]. apply (dupped_ok c n f s fd); done || (unfold NR_OPEN; lia).
  - left. split; [done|]. rewrite scan_None in Hscan. intros k Hk Hn0.
    specialize (Hscan k). rewrite Hn0 in Hscan. discriminate Hscan. unfold NR_OPEN in *. lia.
Qed.

(** What [sys_close] leaves before the inode is given back. *)
Definition closed (c fd f : Z) (s : kstate) : kstate :=
  (upd_task c (fun t => set_filp fd None (clear_cloexec fd t)) s)
    <| file_table ::= fun t => <[f := (t f) <| f_count ::= fun x => u16 (x - 1) |>]> t |>.

Lemma closed_ok c fd f s : files_ok s -> current s = Some c -> 0 <= fd < NR_OPEN ->
  t_filp (tsk s c) fd = Some f ->
  files_ok (closed c fd f s) /\ f_count (file_table s f) = file_refs s f /\ 0 < file_refs s f.
Proof.
  intros Hok Hc Hfd Hf. destruct (fo_current s Hok) as (i & c' & Hi & Hti & Hci).
  assert (c' = c) as -> by congruence.
  assert (Hfr : 0 <= f < NR_FILE) by (by apply (fo_range s Hok i c fd f)).
  pose proof (fo_counts s Hok f Hfr) as Hcount.
  pose proof (file_refs_pos s i c fd f Hi Hti Hfd Hf) as Hpos.
  split; [|done].
  change (closed c fd f s) with
    ((upd_task c (fun t => set_filp fd None (clear_cloexec fd t)) s)
       <| file_table := <[f := (file_table s f) <| f_count ::= fun x => u16 (x - 1) |>]>
                          (file_table s) |>).
  apply files_ok_upd; [done|done| |].
  - intros k g Hk. simpl. rewrite arr_dec. case_decide; [done|]. by apply (fo_range s Hok i c).
  - intros g Hg. rewrite fd_refs_set by done.
    change (t_filp (clear_cloexec fd (tsk s c)) fd) with (t_filp (tsk s c) fd). rewrite Hf.
    change (fd_refs (clear_cloexec fd (tsk s c)) g) with (fd_refs (tsk s c) g).
    assert (ptr_eqb None (Some g) = false) as -> by done.
    rewrite arr_dec. case_decide as Hfg.
    + subst g. rewrite ptr_eqb_refl. simpl. rewrite Hcount, u16_small; [lia|].
      pose proof (file_refs_range s f). lia.
    + replace (ptr_eqb (Some f) (Some g)) with false; [simpl; lia|].
      symmetry. apply bool_decide_eq_false. congruence.
Qed.

(** C26: sys_close gives EINVAL for a descriptor that is not open; otherwise it
    frees that descriptor and no other, releases the inode just when no
    descriptor shared the open file, and keeps the invariant that every open
    file's count is the number of descriptors that denote it. *)
Theorem sys_close_spec `{Machine} fd s c :
  current s = Some c -> 0 <= fd -> files_ok s ->
  match filp_of s c fd with
  | None => exists s', sys_close fd s = Ret (- EINVAL) s' /\ files_ok s' /\
      forall k, t_filp (tsk s' c) k = t_filp (tsk s c) k
  | Some f => exists s', files_ok s' /\
      (forall k, t_filp (tsk s' c) k = if decide (k = fd) then None else t_filp (tsk s c) k) /\
      sys_close fd s =
        (if file_refs s f =? 1 then (iput (f_inode (file_table s f));; mret 0) s' else Ret 0 s')
  end.
Proof.
  intros Hc Hfd0 Hok. unfold sys_close, filp_of.
  destruct (fd >=? NR_OPEN) eqn:Hfd; [by exists s|]. ztest. set (s1 := upd_task c (clear_cloexec fd) s).
  assert (Hc1 : current s1 = Some c) by done.
  rewrite (bind_Ret _ _ _ _ _ (setme_run s c _ Hc)). fold s1.
  rewrite (bind_Ret _ _ _ _ _ (me_run s1 c Hc1)).
  assert (Hfl : forall k, t_filp (tsk s1 c) k = t_filp (tsk s c) k).
  { intros k. unfold s1. by rewrite upd_task_eq. }
  rewrite Hfl. destruct (t_filp (tsk s c) fd) as [f|] eqn:Hf.
  - destruct (closed_ok c fd f s Hok Hc ltac:(done) Hf) as (Hok' & Hcount & Hpos).
    exists (closed c fd f s). split; [done|]. split.
    { intros k. unfold closed. simpl. rewrite arr_eq. simpl. rewrite arr_dec.
      repeat case_decide; congruence. }
    rewrite (bind_Ret _ _ _ _ _ (setme_run s1 c _ Hc1)). unfold s1. rewrite upd_task_fuse. mrun.
    change (file_table (upd_task _ _ _) f) with (file_table s f). rewrite Hcount.
    replace (file_refs s f =? 0) with false by (symmetry; apply Z.eqb_neq; lia). mrun.
    rewrite upd_file_eq. cbn [f_count f_inode set_field].
    change (file_table (upd_task _ _ _) f) with (file_table s f). simpl. rewrite Hcount.
    pose proof (file_refs_range s f). rewrite u16_small by lia.
    destruct (file_refs s f =? 1) eqn:E; ztest.
    + rewrite E. done.
    + replace (nz (file_refs s f - 1)) with true by (symmetry; apply nz_true; lia). done.
  - exists s1. split; [done|]. split; [|done].
    change s1 with (s1 <| file_table := file_table s |>). apply files_ok_upd; [done|done| |].
    + destruct (fo_current s Hok) as (i & c' & Hi & Hti & Hci). assert (c' = c) as -> by congruence.
      intros k g Hk. by apply (fo_range s Hok i c).
    + intros g Hg. change (fd_refs (clear_cloexec fd (tsk s c)) g) with (fd_refs (tsk s c) g). lia.
Qed.

(** Two processes that share one open file. *)
Definition sharing : kstate := zero_kstate
  <| task := fun i => if i =? 0 then Some 4096 else if i =? 1 then Some 8192 else None |>
  <| tsk := fun _ => zero_task <| t_filp := fun fd => if fd =? 0 then Some 3 else None |> |>
  <| file_table := fun f => zero_file <| f_count := if f =? 3 then 2 else 0 |> |>.

Lemma sharing_ok : files_ok sharing.
Proof.
  split.
  - intros i j p Hi Hj. simpl. repeat case_match; ztest; intros; simplify_eq; lia.
  - exists 0, 4096. done.
  - intros i p fd f Hi Hp Hfd. simpl. case_match; intros; simplify_eq. unfold NR_FILE. lia.
  - intros f Hf. destruct (decide (f = 3)) as [->|Hne]; [reflexivity|].
    transitivity 0; [simpl; by rewrite (proj2 (Z.eqb_neq f 3) Hne)|].
    symmetry. unfold file_refs. rewrite (zsum_ext _ (fun _ => 0)); [reflexivity|].
    intros i Hi. unfold slot_refs. destruct (task sharing i) as [p|]; [|done].
    unfold fd_refs. rewrite (zsum_ext _ (fun _ => 0)); [reflexivity|].
    intros fd Hfd. simpl. replace (ptr_eqb _ _) with false; [done|].
    symmetry. apply bool_decide_eq_false. case_match; congruence.
Qed.

Lemma dupfd_spec_witness : exists s', dupfd 0 0 sharing = Ret 1 s' /\ files_ok s'.
Proof.
  destruct (dupfd_spec 0 0 sharing 4096 eq_refl ltac:(done) ltac:(done))
    as [[_ Hall]|(n & s' & Hrun & Hn & Hnone & Hall & _ & _ & Hok)].
  - destruct (Hall 1); [unfold NR_OPEN; lia|done].
  - exists s'. split; [|apply Hok, sharing_ok]. rewrite Hrun. f_equal.
    destruct (decide (n = 0)) as [->|]; [done|]. destruct (decide (n = 1)) as [|]; [done|].
    destruct (Hall 1); [lia|done].
Defined.

Lemma sys_close_spec_witness :
  exists s', @sys_close quiet_machine 0 sharing = Ret 0 s' /\ files_ok s'.
Proof.
  destruct (@sys_close_spec quiet_machine 0 sharing 4096 eq_refl ltac:(done) sharing_ok)
    as (s' & Hok & _ & Hrun).
  exists s'. split; [|done]. exact Hrun.
Defined.
