(* ===== verification/Process.v ===== *)
(** Processes, kernel/fork.c and kernel/exit.c: how they are made, how they
    end, signals sent to them and the wait for a child. *)
From S2P Require Export Files.
#[local] Open Scope bool_scope.

(** ** Segment descriptors *)

(** include/linux/sched.h:226: the base address in a descriptor [{a, b}]. *)
Definition get_base (d : Z * Z) : Z :=
  16777216 * (snd d / 16777216 mod 256) + 65536 * (snd d mod 256) + fst d / 65536 mod 65536.
(** include/linux/sched.h:210 *)
Definition set_base (base : Z) (d : Z * Z) : Z * Z :=
  (fst d mod 65536 + 65536 * (base mod 65536),
   base / 65536 mod 256 + 256 * (snd d / 256 mod 65536) + 16777216 * (base / 16777216 mod 256)).
(** include/linux/sched.h:228-231: the [lsl] instruction gives the limit in
    bytes; a set granularity bit means that it is counted in pages. *)
Definition get_limit (d : Z * Z) : Z :=
  let limit := fst d mod 65536 + 65536 * (snd d / 65536 mod 16) in
  u32 ((if Z.testbit (snd d) 23 then limit * 4096 + 4095 else limit) + 1).

(** include/linux/sched.h:148-149 *)
Definition FIRST_TSS_ENTRY : Z := 4.
(** include/linux/sched.h:149 *)
Definition FIRST_LDT_ENTRY : Z := FIRST_TSS_ENTRY + 1.
(** include/linux/sched.h:153 *)
Definition _LDT (n : Z) : Z := u32 (Z.shiftl n 4 + Z.shiftl FIRST_LDT_ENTRY 3).

(** include/asm/system.h:52-63 *)
Definition _set_tssldt_desc (n addr type : Z) : K unit :=
  modify (fun s => s <| gdt ::= <[n :=
    (104 + 65536 * (addr mod 65536),
     addr / 65536 mod 256 + 256 * type + 16777216 * (addr / 16777216 mod 256))]> |>).
(** include/asm/system.h:65 *)
Definition set_tss_desc (n addr : Z) : K unit := _set_tssldt_desc n addr 0x89.
(** include/asm/system.h:66 *)
Definition set_ldt_desc (n addr : Z) : K unit := _set_tssldt_desc n addr 0x82.

(** The places of [ldt] and [tss] in a [task_struct]. *)
Definition ldt_offset : Z := 328.
Definition tss_offset : Z := 352.

Section process.
Context `{Machine}.

(** kernel/exit.c:26-40 *)
Definition release (p : ptr) : K unit :=
  match p with
  | None => mret tt
  | Some p =>
      s ← get;
      match scan (fun i => ptr_eqb (task s i) (Some p)) 1 63 with
      | None => panic "trying to release non-existent task"
      | Some i =>
          modify (fun s => s <| task ::= <[i := None]> |>);;
          free_page p;;
          schedule fuel
      end
  end.

(** kernel/exit.c:46-56 *)
Definition send_sig (sig : Z) (p : ptr) (priv : bool) : K unit :=
  match p with
  | None => mret tt
  | Some p =>
      if (sig <? 1) || (sig >? 32) then mret tt
      else
        c ← me;
        t ← gett p;
        when (priv || (t_uid c =? t_uid t) || (t_euid c =? t_uid t) ||
              (t_uid c =? t_euid t) || (t_euid c =? t_euid t))
          (sett p (fun t => t <| t_signal ::= fun g => Z.lor g (s32 (Z.shiftl 1 (sig - 1))) |>))
  end.

(** kernel/exit.c:62-77 *)
Definition do_kill (pid sig : Z) (priv : bool) : K unit :=
  let each (p : task_struct -> K bool) :=
    for_down 1 63 (fun i =>
      s ← get;
      match task s i with
      | None => mret tt
      | Some q => b ← p (tsk s q); when b (send_sig sig (Some q) priv)
      end) in
  if negb (nz pid) then each (fun t => c ← me; mret (t_pgrp t =? t_pid c))
  else if pid >? 0 then each (fun t => mret (t_pid t =? pid))
  else if pid =? -1 then
    for_down 1 63 (fun i => s ← get; send_sig sig (task s i) priv)
  else each (fun t => mret (t_pgrp t =? - pid)).

(** kernel/exit.c:79-83 *)
Definition sys_kill (pid sig : Z) : K Z :=
  c ← me;
  do_kill pid sig (negb (nz (t_uid c) || nz (t_euid c)));;
  mret 0.

(** kernel/exit.c:91-93, the body of the loop. *)
Definition orphan (i : Z) : K unit :=
  s ← get;
  match task s i with
  | None => mret tt
  | Some p =>
      c ← me;
      when (t_father (tsk s p) =? t_pid c) (sett p (fun t => t <| t_father := 0 |>))
  end.

(** kernel/exit.c:85-113 *)
Definition do_exit (code : Z) : K Z :=
  c ← me;
  free_page_tables (get_base (t_ldt c 1)) (get_limit (t_ldt c 1));;
  c ← me;
  free_page_tables (get_base (t_ldt c 2)) (get_limit (t_ldt c 2));;
  for_ 0 (Z.to_nat NR_TASKS) orphan;;
  for_ 0 (Z.to_nat NR_OPEN) (fun i =>
    c ← me;
    match t_filp c i with
    | None => mret tt
    | Some _ => sys_close i;; mret tt
    end);;
  c ← me;
  iput (t_pwd c);;
  setme (fun t => t <| t_pwd := None |>);;
  c ← me;
  iput (t_root c);;
  setme (fun t => t <| t_root := None |>);;
  c ← me;
  when (nz (t_leader c) && (t_tty c >=? 0))
    (modify (fun s => s <| tty_table ::= fun tt =>
       <[t_tty c := (tt (t_tty c)) <| tt_pgrp := 0 |>]> tt |>));;
  s ← get;
  when (ptr_eqb (last_task_used_math s) (current s))
    (modify (fun s => s <| last_task_used_math := None |>));;
  c ← me;
  (if nz (t_father c) then
     setme (fun t => t <| t_state := TASK_ZOMBIE |>);;
     c ← me;
     do_kill (t_father c) SIGCHLD true;;
     setme (fun t => t <| t_exit_code := code |>)
   else
     s ← get;
     release (current s));;
  schedule fuel;;
  mret (-1).

(** kernel/exit.c:115-118 *)
Definition sys_exit (error_code : Z) : K Z := do_exit (Z.shiftl (Z.land error_code 255) 8).

(** kernel/fork.c:35-48: one page after the other, [(size + 4095) / 4096] of
    them once [size] counts from the start of the first page. *)
Definition verify_area (addr size : Z) : K unit :=
  let start := u32 addr in
  let size := s32 (size + Z.land start 0xfff) in
  let start := Z.land start 0xfffff000 in
  c ← me;
  let start := start + get_base (t_ldt c 2) in
  for_ 0 (Z.to_nat ((size + 4095) / 4096)) (fun i =>
    write_verify do_exit (u32 (start + 4096 * i))).

(** kernel/fork.c:50-71 *)
Definition copy_mem (nr p : Z) : K Z :=
  c ← me;
  let code_limit := get_limit (t_ldt c 1) in
  let data_limit := get_limit (t_ldt c 2) in
  let old_code_base := get_base (t_ldt c 1) in
  let old_data_base := get_base (t_ldt c 2) in
  if negb (old_data_base =? old_code_base) then panic "We don't support separate I&D"
  else if data_limit <? code_limit then panic "Bad data_limit"
  else
    let new_data_base := u32 (nr * 0x4000000) in
    sett p (fun t => t <| t_ldt ::= fun l => <[1 := set_base new_data_base (l 1)]> l |>);;
    sett p (fun t => t <| t_ldt ::= fun l => <[2 := set_base new_data_base (l 2)]> l |>);;
    r ← copy_page_tables old_data_base new_data_base data_limit;
    if nz r then
      free_page_tables new_data_base data_limit;;
      mret (- ENOMEM)
    else mret 0.

(** The registers of the caller that [copy_process] finds on the stack. *)
Record fork_regs : Type := mk_fork_regs {
  k_ebp : Z; k_edi : Z; k_esi : Z; k_gs : Z; k_ebx : Z; k_ecx : Z; k_edx : Z; k_fs : Z;
  k_es : Z; k_ds : Z; k_eip : Z; k_cs : Z; k_eflags : Z; k_esp : Z; k_ss : Z;
}.

(** kernel/fork.c:98-128 *)
Definition child_tss (p nr : Z) (r : fork_regs) (t : tss_struct) : tss_struct :=
  t <| back_link := 0 |> <| esp0 := s32 (PAGE_SIZE + p) |> <| ss0 := 0x10 |>
    <| eip := k_eip r |> <| eflags := k_eflags r |> <| eax := 0 |> <| ecx := k_ecx r |>
    <| edx := k_edx r |> <| ebx := k_ebx r |> <| esp := k_esp r |> <| ebp := k_ebp r |>
    <| esi := k_esi r |> <| edi := k_edi r |> <| es := Z.land (k_es r) 0xffff |>
    <| cs := Z.land (k_cs r) 0xffff |> <| ss := Z.land (k_ss r) 0xffff |>
    <| ds := Z.land (k_ds r) 0xffff |> <| fs := Z.land (k_fs r) 0xffff |>
    <| gs := Z.land (k_gs r) 0xffff |> <| ldtr := s32 (_LDT nr) |>
    <| trace_bitmap := s32 0x80000000 |>.

(** kernel/fork.c:96-128: the copy of the parent [c] in the new page [p]. *)
Definition child_of (s : kstate) (c : task_struct) (p nr : Z) (r : fork_regs) : task_struct :=
  c <| t_state := TASK_RUNNING |> <| t_pid := last_pid s |> <| t_father := t_pid c |>
    <| t_counter := t_priority c |> <| t_signal := 0 |> <| t_alarm := 0 |> <| t_leader := 0 |>
    <| t_utime := 0 |> <| t_stime := 0 |> <| t_cutime := 0 |> <| t_cstime := 0 |>
    <| t_start_time := jiffies s |> <| t_tss ::= child_tss p nr r |>.

(** kernel/fork.c:138-141: one more user of an inode, when there is one. *)
Definition share_inode (p : ptr) : K unit :=
  match p with
  | Some i => seti i (fun n => n <| i_count ::= fun x => u16 (x + 1) |>)
  | None => mret tt
  end.

(** kernel/fork.c:135-145: the files and directories are shared, the
    descriptors set up, and the new task [p] is put in the table. *)
Definition install_child (nr p : Z) : K Z :=
  for_ 0 (Z.to_nat NR_OPEN) (fun i =>
    t ← gett p;
    match t_filp t i with
    | Some f => add_ref f
    | None => mret tt
    end);;
  c ← me;
  share_inode (t_pwd c);;
  c ← me;
  share_inode (t_root c);;
  set_tss_desc (2 * nr + FIRST_TSS_ENTRY) (p + tss_offset);;
  set_ldt_desc (2 * nr + FIRST_LDT_ENTRY) (p + ldt_offset);;
  modify (fun s => s <| task ::= <[nr := Some p]> |>);;
  gets last_pid.

(** kernel/fork.c:81-146.  [fninit] is what [fnsave] leaves in the
    floating-point unit. *)
Definition copy_process (fninit : Z -> Z) (nr : Z) (r : fork_regs) : K Z :=
  p ← get_free_page;
  if negb (nz p) then mret (- EAGAIN)
  else
    c ← me;
    s ← get;
    sett p (fun _ => child_of s c p nr r);;
    when (ptr_eqb (last_task_used_math s) (current s))
      (sett p (fun t => t <| t_tss ::= fun x => x <| i387 := fpu s |> |>);;
       modify (fun s => s <| fpu := fninit |>));;
    e ← copy_mem nr p;
    if nz e then
      free_page p;;
      mret (- EAGAIN)
    else
      install_child nr p.

(** kernel/fork.c:154-155: some task has the number [pid]. *)
Definition pid_used (s : kstate) (pid : Z) : bool :=
  match scan (fun i => match task s i with Some p => t_pid (tsk s p) =? pid | None => false end)
             0 (Z.to_nat NR_TASKS) with
  | Some _ => true
  | None => false
  end.

(** kernel/fork.c:148-160 *)
Definition find_empty_process : K Z :=
  loop fuel (fun _ : unit =>
    modify (fun s => s <| last_pid ::= fun x => s32 (x + 1) |>);;
    l ← gets last_pid;
    when (l <? 0) (modify (fun s => s <| last_pid := 1 |>));;
    s ← get;
    mret (if pid_used s (last_pid s) then inl tt else inr tt)) tt;;
  s ← get;
  match scan (fun i => null (task s i)) 1 63 with
  | Some i => mret i
  | None => mret (- EAGAIN)
  end.

(** kernel/exit.c:128-132: the tasks [waitpid] waits for. *)
Definition waited (s : kstate) (c : Z) (pid i : Z) : bool :=
  match task s i with
  | None => false
  | Some p =>
      let t := tsk s p in
      negb (p =? c) &&
      ((pid =? -1) || (t_pid t =? pid) ||
       ((pid =? 0) && (t_pgrp t =? t_pgrp (tsk s c))) || ((pid <? 0) && (t_pgrp t =? - pid))) &&
      (t_father t =? t_pid (tsk s c))
  end.
(** kernel/exit.c:134 *)
Definition zombie (s : kstate) (i : Z) : bool :=
  match task s i with Some p => t_state (tsk s p) =? TASK_ZOMBIE | None => false end.

(** kernel/exit.c:120-154.  The search goes down from the last task; it
    changes nothing but [flag] until it meets a child that has ended.  The
    source sets [flag] before [repeat], so it stays set from round to round. *)
Definition sys_waitpid (pid stat_addr options : Z) : K Z :=
  verify_area stat_addr 4;;
  loop fuel (fun flag : bool =>
    s ← get;
    c ← cur;
    match scan (fun k => waited s c pid (63 - k) && zombie s (63 - k)) 0 63 with
    | Some k =>
        p ← deref (task s (63 - k));
        t ← gett p;
        put_fs_long (t_exit_code t) stat_addr;;
        setme (fun x => x <| t_cutime ::= fun u => s32 (u + t_utime t) |>);;
        setme (fun x => x <| t_cstime ::= fun u => s32 (u + t_stime t) |>);;
        let flag := t_pid t in
        release (Some p);;
        mret (inr flag)
    | None =>
        let flag := flag || negb (null (scan (waited s c pid) 1 63)) in
        if negb flag then mret (inr (- ECHILD))
        else if hasbit options WNOHANG then mret (inr 0)
        else
          sys_pause fuel;;
          setme (fun t => t <| t_signal ::= fun g =>
            Z.land g (Z.lnot (Z.shiftl 1 (SIGCHLD - 1))) |>);;
          t ← me;
          if negb (nz (t_signal t)) then mret (inl flag) else mret (inr (- EINTR))
    end) false.
End process.

(** ** Descriptors *)

Lemma split_byte v : 0 <= v < 4294967296 ->
  v = v mod 65536 + 65536 * (v / 65536 mod 256) + 16777216 * (v / 16777216 mod 256).
Proof. intros. dlia. Qed.

(** A descriptor as a pair of 32-bit words. *)
Definition desc_ok (d : Z * Z) : Prop := 0 <= fst d < 4294967296 /\ 0 <= snd d < 4294967296.

(** set_base on a segment descriptor and get_base are inverse, and the
    limit of the descriptor stays as it was. *)
Theorem set_base_spec base d :
  0 <= base < 4294967296 -> desc_ok d ->
  get_base (set_base base d) = base /\ get_limit (set_base base d) = get_limit d /\
  desc_ok (set_base base d).
Proof.
  intros Hb [Ha Hd]. destruct d as [a b]. unfold set_base, get_base, get_limit, desc_ok in *.
  cbn [fst snd] in *.
  set (b' := base / 65536 mod 256 + 256 * (b / 256 mod 65536) + 16777216 * (base / 16777216 mod 256)).
  assert (Hlow : 0 <= base / 65536 mod 256 < 256) by (apply Z.mod_pos_bound; lia).
  assert (Hmid : 0 <= b / 256 mod 65536 < 65536) by (apply Z.mod_pos_bound; lia).
  assert (Hhigh : 0 <= base / 16777216 mod 256 < 256) by (apply Z.mod_pos_bound; lia).
  assert (Hb24 : b' / 16777216 mod 256 = base / 16777216 mod 256) by (unfold b' in *; clear -Hlow Hmid Hhigh; dlia).
  assert (Hb0 : b' mod 256 = base / 65536 mod 256) by (unfold b' in *; clear -Hlow Hmid Hhigh; dlia).
  assert (Hb8 : b' / 256 mod 65536 = b / 256 mod 65536) by (unfold b' in *; clear -Hlow Hmid Hhigh; dlia).
  assert (Hb16 : b' / 65536 mod 16 = b / 65536 mod 16) by (clear -Hb8; dlia).
  assert (Hbit : Z.testbit b' 23 = Z.testbit b 23).
  { rewrite !Z.testbit_eqb by lia. f_equal. change (2 ^ 23) with 8388608. clear -Hb8; dlia. }
  rewrite Hb24, Hb0, Hb16, Hbit. split; [|split; [|split]].
  - rewrite (split_byte base) at 4 by done. clear; dlia.
  - replace ((a mod 65536 + 65536 * (base mod 65536)) mod 65536) with (a mod 65536); [done|]. clear; dlia.
  - clear; dlia.
  - unfold b'. lia.
Qed.

Lemma set_base_spec_witness :
  get_base (set_base 0x4000000 (0x9f, 0xc0fa00)) = 0x4000000.
Proof.
  apply (set_base_spec 0x4000000 (0x9f, 0xc0fa00)); [lia|].
  unfold desc_ok. simpl. lia.
Defined.

(** ** Process numbers *)

(** The number after [l], and the [k]-th after it. *)
Definition next_pid (l : Z) : Z := let x := s32 (l + 1) in if x <? 0 then 1 else x.
Fixpoint pid_after (k : nat) (l : Z) : Z :=
  match k with O => l | S k => pid_after k (next_pid l) end.

Lemma next_pid_range l : 0 <= l < 2147483648 -> 0 < next_pid l < 2147483648.
Proof.
  intros Hl. unfold next_pid. destruct (decide (l = 2147483647)) as [->|]; [vm_compute; split; reflexivity|].
  rewrite s32_small by lia. destruct (l + 1 <? 0) eqn:E; ztest; lia.
Qed.

Lemma pid_after_eq k l : 0 <= l < 2147483648 -> Z.of_nat k < 2147483647 ->
  pid_after k l = if l + Z.of_nat k <=? 2147483647 then l + Z.of_nat k
                  else l + Z.of_nat k - 2147483647.
Proof.
  revert l. induction k as [|k IH]; intros l Hl Hk.
  { simpl. rewrite Z.add_0_r. destruct (l <=? 2147483647) eqn:E; ztest; lia. }
  cbn [pid_after]. rewrite IH; [|pose proof (next_pid_range l Hl); lia|lia].
  unfold next_pid. destruct (decide (l = 2147483647)) as [->|Hne].
  - change (s32 (2147483647 + 1)) with (-2147483648).
    cbn [Z.ltb Z.compare Z.opp]. repeat case_match; ztest; lia.
  - rewrite s32_small by lia. replace (l + 1 <? 0) with false by (symmetry; apply Z.ltb_ge; lia).
    repeat case_match; ztest; lia.
Qed.

Lemma pid_after_inj j k l : 0 <= l < 2147483648 -> (j <= 65)%nat -> (k <= 65)%nat ->
  pid_after j l = pid_after k l -> j = k.
Proof.
  intros Hl Hj Hk. rewrite !pid_after_eq by lia. repeat case_match; ztest; lia.
Qed.

(** The numbers in use. *)
Definition pids (s : kstate) : list Z :=
  map (fun i => match task s (Z.of_nat i) with Some p => t_pid (tsk s p) | None => 0 end) (seq 0 64).

Lemma pid_used_in s pid : pid_used s pid = true -> In pid (pids s).
Proof.
  unfold pid_used. destruct (scan _ 0 _) as [i|] eqn:E; [intros _|done].
  apply scan_Some in E as (Hi & Hp & _). apply in_map_iff. exists (Z.to_nat i).
  change (Z.of_nat (Z.to_nat NR_TASKS)) with 64 in Hi.
  rewrite Z2Nat.id by lia. split; [|apply in_seq; lia].
  destruct (task s i); [|done]. by apply Z.eqb_eq.
Qed.

(** One of the next 65 numbers is not in use. *)
Lemma unused_pid s l : 0 <= l < 2147483648 ->
  exists k, (k < 65)%nat /\ pid_used s (pid_after (S k) l) = false /\
    forall j, (j < k)%nat -> pid_used s (pid_after (S j) l) = true.
Proof.
  intros Hl.
  destruct (scan (fun j => negb (pid_used s (pid_after (S (Z.to_nat j)) l))) 0 65) as [k|] eqn:E.
  - apply scan_Some in E as (Hk & Hp & Hall). exists (Z.to_nat k). split; [lia|].
    apply negb_true_iff in Hp. split; [done|]. intros j Hj.
    specialize (Hall (Z.of_nat j) ltac:(lia)). apply negb_false_iff in Hall.
    by rewrite Nat2Z.id in Hall.
  - exfalso. rewrite scan_None in E.
    set (cands := map (fun j => pid_after (S j) l) (seq 0 65)).
    assert (Hnd : NoDup cands).
    { apply NoDup_ListNoDup, (List.NoDup_map_NoDup_ForallPairs (fun j => pid_after (S j) l));
        [|apply seq_NoDup].
      intros j k Hj Hk H. apply in_seq in Hj, Hk.
      assert (S j = S k) by (apply (pid_after_inj _ _ l); [done|lia|lia|done]). lia. }
    assert (Hincl : incl cands (pids s)).
    { intros x Hx. apply in_map_iff in Hx as (j & <- & Hj). apply in_seq in Hj.
      apply pid_used_in. specialize (E (Z.of_nat j) ltac:(lia)).
      apply negb_false_iff in E. by rewrite Nat2Z.id in E. }
    apply NoDup_ListNoDup in Hnd. pose proof (NoDup_incl_length Hnd Hincl) as Hlen.
    unfold cands, pids in Hlen. rewrite !length_map, !length_seq in Hlen. lia.
Qed.

Lemma last_pid_id s : s <| last_pid := last_pid s |> = s.
Proof. destruct s; reflexivity. Qed.

Lemma last_pid_set s m f : s <| last_pid := m |> <| last_pid ::= f |> = s <| last_pid := f m |>.
Proof. reflexivity. Qed.
Lemma pid_used_last s m pid : pid_used (s <| last_pid := m |>) pid = pid_used s pid.
Proof. unfold pid_used. by erewrite scan_ext. Qed.

Lemma find_pid_loop (body : unit -> K (unit + unit)) s k l :
  (forall m, body tt (s <| last_pid := m |>) =
     Ret (if pid_used s (next_pid m) then inl tt else inr tt) (s <| last_pid := next_pid m |>)) ->
  (forall j, (j < k)%nat -> pid_used s (pid_after (S j) l) = true) ->
  pid_used s (pid_after (S k) l) = false ->
  forall n, (k < n)%nat ->
  loop n body tt (s <| last_pid := l |>) = Ret tt (s <| last_pid := pid_after (S k) l |>).
Proof.
  intros Hbody. revert l. induction k as [|k IH]; intros l Hall Hk [|n] Hn; try lia;
    cbn [loop]; rewrite (bind_Ret _ _ _ _ _ (Hbody l)).
  - cbn [pid_after] in Hk |- *. by rewrite Hk.
  - pose proof (Hall 0%nat ltac:(lia)) as H0. cbn [pid_after] in H0. rewrite H0.
    apply IH; [|done|lia]. intros j Hj. apply (Hall (S j)). lia.
Qed.

(** find_empty_process always ends, in at most 65 rounds of its search,
    with a positive pid that no process has, and gives the first free slot after
    0, or EAGAIN when there is none. *)
Theorem find_empty_process_spec `{Machine} s :
  0 <= last_pid s < 2147483648 -> (65 <= fuel)%nat ->
  exists r pid, find_empty_process s = Ret r (s <| last_pid := pid |>) /\
    0 < pid < 2147483648 /\
    (forall i p, 0 <= i < NR_TASKS -> task s i = Some p -> t_pid (tsk s p) <> pid) /\
    (r = - EAGAIN /\ (forall i, 1 <= i < NR_TASKS -> task s i <> None) \/
     1 <= r < NR_TASKS /\ task s r = None /\ forall i, 1 <= i < r -> task s i <> None).
Proof.
  intros Hl Hfuel. destruct (unused_pid s (last_pid s) Hl) as (k & Hk & Hfree & Hused).
  set (pid := pid_after (S k) (last_pid s)) in *.
  unfold find_empty_process.
  match goal with |- context [loop fuel ?b tt] => set (body := b) end.
  assert (Hbody : forall m, body tt (s <| last_pid := m |>) =
     Ret (if pid_used s (next_pid m) then inl tt else inr tt) (s <| last_pid := next_pid m |>)).
  { intros m. unfold body, next_pid. mrun. rewrite !last_pid_set. cbv beta.
    change (last_pid (s <| last_pid := ?x |>)) with x.
    destruct (s32 (m + 1) <? 0) eqn:E; mrun; rewrite ?last_pid_set; cbv beta;
      rewrite pid_used_last; reflexivity. }
  pose proof (find_pid_loop body s k (last_pid s) Hbody Hused Hfree fuel ltac:(lia)) as Hrun.
  rewrite last_pid_id in Hrun. rewrite (bind_Ret _ _ _ _ _ Hrun). fold pid. mrun.
  assert (Hpos : 0 < pid < 2147483648).
  { unfold pid. rewrite pid_after_eq by lia. case_match; ztest; lia. }
  assert (Hfresh : forall i p, 0 <= i < NR_TASKS -> task s i = Some p -> t_pid (tsk s p) <> pid).
  { intros j p Hj Hp Heq. unfold pid_used in Hfree.
    destruct (scan _ 0 _) eqn:Es in Hfree; [done|]. rewrite scan_None in Es.
    change (Z.of_nat (Z.to_nat NR_TASKS)) with 64 in Es. unfold NR_TASKS in Hj.
    specialize (Es j ltac:(lia)). simpl in Es. rewrite Hp in Es. by apply Z.eqb_neq in Es. }
  change (task (s <| last_pid := pid |>)) with (task s). unfold NR_TASKS in *.
  destruct (scan _ 1 63) as [i|] eqn:E.
  - exists i, pid. split; [done|]. split; [done|]. split; [done|]. right.
    apply scan_Some in E as (Hi & Hn & Hall). split; [lia|]. split; [by destruct (task s i)|].
    intros j Hj Hn'. specialize (Hall j ltac:(lia)). simpl in Hall. by rewrite Hn' in Hall.
  - exists (- EAGAIN), pid. split; [done|]. split; [done|]. split; [done|]. left.
    split; [done|]. rewrite scan_None in E. intros i Hi Hn.
    specialize (E i ltac:(lia)). simpl in E. by rewrite Hn in E.
Qed.

Lemma find_empty_process_spec_witness : exists r pid,
  @find_empty_process quiet_machine one_process = Ret r (one_process <| last_pid := pid |>) /\
  0 < pid < 2147483648.
Proof.
  destruct (@find_empty_process_spec quiet_machine one_process) as (r & pid & Hrun & Hpid & _).
  - simpl. lia.
  - simpl. lia.
  - exists r, pid. done.
Defined.

(** ** Signals *)

(** The tasks [kill(pid, ...)] is meant for, and those the caller may signal. *)
Definition kill_target (pid : Z) (caller t : task_struct) : bool :=
  if pid =? 0 then t_pgrp t =? t_pid caller
  else if pid >? 0 then t_pid t =? pid
  else if pid =? -1 then true
  else t_pgrp t =? - pid.
Definition may_signal (priv : bool) (caller t : task_struct) : bool :=
  priv || (t_uid caller =? t_uid t) || (t_euid caller =? t_uid t) ||
  (t_uid caller =? t_euid t) || (t_euid caller =? t_euid t).
Definition signalled (sig : Z) (t : task_struct) : task_struct :=
  t <| t_signal ::= fun g => Z.lor g (s32 (Z.shiftl 1 (sig - 1))) |>.
Definition kill_task (pid sig : Z) (priv : bool) (caller t : task_struct) : task_struct :=
  if (1 <=? sig) && (sig <=? 32) && kill_target pid caller t && may_signal priv caller t
  then signalled sig t else t.

Section kill.
Context `{Machine}.

(** The identity of a task does not change while signals are sent. *)
Definition same_id (t u : task_struct) : Prop :=
  t_uid t = t_uid u /\ t_euid t = t_euid u /\ t_pid t = t_pid u /\ t_pgrp t = t_pgrp u.

Lemma kill_task_id pid sig priv a t : same_id (kill_task pid sig priv a t) t.
Proof. unfold kill_task. by case_match. Qed.

Lemma on_tasks_from_id g s j c : (forall t, same_id (g t) t) ->
  same_id (tsk (on_tasks_from g j s) c) (tsk s c).
Proof. intros Hg. simpl. case_match; [apply Hg|done]. Qed.

Lemma send_sig_run sig p priv c s : current s = Some c ->
  send_sig sig (Some p) priv s =
    Ret tt (upd_task p (fun t => if (1 <=? sig) && (sig <=? 32) && may_signal priv (tsk s c) t
                                 then signalled sig t else t) s).
Proof.
  intros Hc. unfold send_sig.
  replace ((sig <? 1) || (sig >? 32)) with (negb ((1 <=? sig) && (sig <=? 32)))
    by (destruct (sig <? 1) eqn:?, (sig >? 32) eqn:?, (1 <=? sig) eqn:?, (sig <=? 32) eqn:?;
        ztest; first [done|lia]).
  destruct ((1 <=? sig) && (sig <=? 32)); cbn [negb andb].
  - rewrite (bind_Ret _ _ _ _ _ (me_run s c Hc)). mrun. rewrite when_run.
    fold (may_signal priv (tsk s c) (tsk s p)).
    destruct (may_signal priv (tsk s c) (tsk s p)) eqn:E.
    + unfold sett, modify. f_equal. apply upd_task_ext. by rewrite E.
    + f_equal. symmetry. apply upd_task_id. by rewrite E.
  - f_equal. symmetry. by apply upd_task_id.
Qed.

(** One task of a walk that signals the tasks [sel] selects. *)
Lemma kill_step pid sig priv s c (sel : task_struct -> K bool) i t p :
  current s = Some c -> t = on_tasks_from (kill_task pid sig priv (tsk s c)) (i + 1) s ->
  sel (tsk t p) t = Ret (kill_target pid (tsk s c) (tsk t p)) t ->
  (b ← sel (tsk t p); when b (send_sig sig (Some p) priv)) t =
    Ret tt (upd_task p (kill_task pid sig priv (tsk s c)) t).
Proof.
  intros Hc Ht Hsel. rewrite (bind_Ret _ _ _ _ _ Hsel), when_run.
  assert (Hct : current t = Some c) by (by subst t).
  destruct (on_tasks_from_id (kill_task pid sig priv (tsk s c)) s (i + 1) c (kill_task_id _ _ _ _))
    as (Hu & He & _). rewrite <- Ht in Hu, He.
  destruct (kill_target pid (tsk s c) (tsk t p)) eqn:Hk.
  - rewrite (send_sig_run _ _ _ c t Hct). f_equal. apply upd_task_ext.
    unfold kill_task. rewrite Hk. unfold may_signal. rewrite Hu, He.
    destruct (1 <=? sig), (sig <=? 32); done.
  - f_equal. symmetry. apply upd_task_id. unfold kill_task. by rewrite Hk, andb_false_r.
Qed.

Lemma kill_walk pid sig priv s c (sel : task_struct -> K bool) :
  sched_ok s -> current s = Some c ->
  (forall i t p, t = on_tasks_from (kill_task pid sig priv (tsk s c)) (i + 1) s ->
     sel (tsk t p) t = Ret (kill_target pid (tsk s c) (tsk t p)) t) ->
  for_down 1 63 (fun i => s ← get;
    match task s i with
    | None => mret tt
    | Some q => b ← sel (tsk s q); when b (send_sig sig (Some q) priv)
    end) s = Ret tt (on_tasks (kill_task pid sig priv (tsk s c)) s).
Proof.
  intros Hok Hc Hsel. apply walk_tasks_from; [done|]. intros i Hi t Ht. mrun.
  assert (task t = task s) as -> by (by subst t).
  destruct (task s i) as [p|] eqn:Hp; [|done]. eapply kill_step; eauto.
Qed.

Lemma do_kill_run pid sig priv s c : sched_ok s -> current s = Some c ->
  do_kill pid sig priv s = Ret tt (on_tasks (kill_task pid sig priv (tsk s c)) s).
Proof.
  intros Hok Hc. unfold do_kill.
  destruct (pid =? 0) eqn:E0; ztest; subst.
  - cbn [nz Z.eqb negb].
    apply (kill_walk 0 sig priv s c (fun t => c ← me; mret (t_pgrp t =? t_pid c)) Hok Hc).
    intros i t p Ht. assert (Hct : current t = Some c) by (by subst t).
    rewrite (bind_Ret _ _ _ _ _ (me_run t c Hct)).
    destruct (on_tasks_from_id (kill_task 0 sig priv (tsk s c)) s (i + 1) c (kill_task_id _ _ _ _))
      as (_ & _ & Hp & _). rewrite <- Ht in Hp. by rewrite Hp.
  - replace (nz pid) with true by (symmetry; by apply nz_true). cbn [negb].
    assert (Hsel : forall a t, kill_target pid a t =
      if pid >? 0 then t_pid t =? pid else if pid =? -1 then true else t_pgrp t =? - pid).
    { intros a t. unfold kill_target. by rewrite (proj2 (Z.eqb_neq pid 0) E0). }
    destruct (pid >? 0) eqn:E1.
    { apply (kill_walk pid sig priv s c (fun t => mret (t_pid t =? pid)) Hok Hc).
      intros. by rewrite Hsel. }
    destruct (pid =? -1) eqn:E2; cycle 1.
    { apply (kill_walk pid sig priv s c (fun t => mret (t_pgrp t =? - pid)) Hok Hc).
      intros. by rewrite Hsel. }
    apply walk_tasks_from; [done|]. intros i Hi t Ht. mrun.
    assert (task t = task s) as -> by (by subst t).
    destruct (task s i) as [p|] eqn:Hp; [|done].
    refine (kill_step pid sig priv s c (fun _ => mret true) i t p Hc Ht _). by rewrite Hsel.
Qed.

(** C24: do_kill sends the signal to exactly the processes that pid selects - 0
    the processes whose group is the sender's own pid (the code compares with
    pid and not with the sender's group, a finding), a positive pid that
    process, -1 all but process 0, another negative number that group - in each
    case with send_sig's rule of permission, and changes no other process. *)
Theorem do_kill_spec pid sig priv s c :
  sched_ok s -> current s = Some c ->
  exists s', do_kill pid sig priv s = Ret tt s' /\
    (forall i p, 1 <= i <= 63 -> task s i = Some p ->
       tsk s' p = kill_task pid sig priv (tsk s c) (tsk s p)) /\
    (forall p, (forall i, 1 <= i <= 63 -> task s i <> Some p) -> tsk s' p = tsk s p) /\
    s' = s <| tsk := tsk s' |>.
Proof.
  intros Hok Hc. exists (on_tasks (kill_task pid sig priv (tsk s c)) s).
  split; [by apply do_kill_run|]. split; [|split; [|done]].
  - intros i p Hi Hp. by apply (on_tasks_lookup _ s i).
  - intros p Hp. by apply on_tasks_other.
Qed.
End kill.

(** ** Fork *)

Section fork.
Context (fninit : Z -> Z).

(** Every process lies in a page that is in use. *)
Definition tasks_placed (s : kstate) : Prop := forall i q k,
  0 <= i < NR_TASKS -> task s i = Some q -> frame_ok k -> mem_map s k = 0 -> q <> frame k.

(** All of the state but memory, the task structures and the unit [fpu]. *)
Definition others_same (p : Z) (s s' : kstate) : Prop :=
  task s' = task s /\ current s' = current s /\ file_table s' = file_table s /\
  inode_table s' = inode_table s /\ last_pid s' = last_pid s /\
  setup_callable s' = setup_callable s /\
  (forall q, q <> p -> tsk s' q = tsk s q).

Lemma others_same_refl p s : others_same p s s.
Proof. done. Qed.
Lemma others_same_trans p s1 s2 s3 : others_same p s1 s2 -> others_same p s2 s3 -> others_same p s1 s3.
Proof.
  intros (H1 & H2 & H3 & H4 & H5 & H6 & H7) (J1 & J2 & J3 & J4 & J5 & J6 & J7).
  split_and!; try congruence. intros q Hq. rewrite J7 by done. by apply H7.
Qed.
Lemma others_same_mem p s s' : mem_only s s' -> others_same p s s'.
Proof. intros ->. done. Qed.
Lemma others_same_upd p f s : others_same p s (upd_task p f s).
Proof. split_and!; try done. intros q Hq. by apply upd_task_ne. Qed.

(** The result of the part of fork that fails before the process exists. *)
Lemma copy_mem_frame nr p s c : current s = Some c -> c <> p ->
  match copy_mem nr p s with
  | Ret r s' => others_same p s s' /\
      (r = 0 \/ r = - ENOMEM) /\
      tsk s' p = (tsk s p) <| t_ldt ::= fun l =>
        <[2 := set_base (u32 (nr * 0x4000000)) (l 2)]> (<[1 := set_base (u32 (nr * 0x4000000)) (l 1)]> l) |>
  | Panic _ _ => True
  | _ => False
  end.
Proof.
  intros Hc Hp. unfold copy_mem. rewrite (bind_Ret _ _ _ _ _ (me_run s c Hc)).
  cbv zeta. destruct (negb _); [done|]. destruct (_ <? _); [done|]. mrun. rewrite upd_task_fuse.
  set (b := u32 (nr * 67108864)). match goal with |- context [upd_task p ?f s] => set (s1 := upd_task p f s) end.
  set (l := get_limit (t_ldt (tsk s c) 2)). set (o := get_base (t_ldt (tsk s c) 2)).
  assert (Hs1 : others_same p s s1) by apply others_same_upd.
  assert (Ht1 : tsk s1 p = (tsk s p) <| t_ldt ::= fun l => <[2 := set_base b (l 2)]> (<[1 := set_base b (l 1)]> l) |>).
  { unfold s1. rewrite upd_task_eq. unfold set_field. cbn. by rewrite arr_ne. }
  pose proof (mem_code_copy_page_tables o b l s1) as Hcopy.
  unfold mbind, M_bind. destruct (copy_page_tables o b l s1) as [r s2|?|?|?|]; simpl; try done.
  assert (Hs2 : others_same p s s2) by (eapply others_same_trans; [done|by apply others_same_mem]).
  assert (Ht2 : tsk s2 p = tsk s1 p) by (by rewrite Hcopy).
  destruct (nz r); [|cbn; rewrite Ht2; auto].
  pose proof (mem_code_free_page_tables b l s2) as Hfree.
  destruct (free_page_tables b l s2) as [r' s3|?|?|?|]; simpl; try done.
  split; [eapply others_same_trans; [done|by apply others_same_mem]|].
  split; [by right|]. rewrite Hfree. cbn [tsk set_field]. by rewrite Ht2.
Qed.

(** The open files of the parent are shared with the child [p]. *)
Lemma share_files p s :
  (forall f, 0 <= f_count (file_table s f) <= 1280 \/ forall fd, 0 <= fd < 20 -> t_filp (tsk s p) fd <> Some f) ->
  exists ft,
    for_ 0 (Z.to_nat NR_OPEN) (fun i =>
      t ← gett p;
      match t_filp t i with
      | Some f => add_ref f
      | None => mret tt
      end) s = Ret tt (s <| file_table := ft |>) /\
    forall f, f_count (ft f) = f_count (file_table s f) + fd_refs (tsk s p) f.
Proof.
  intros Hsmall.
  set (g f fd := b2z (ptr_eqb (t_filp (tsk s p) fd) (Some f))).
  destruct (for_inv (fun j t => 0 <= j /\ exists ft, t = s <| file_table := ft |> /\
    forall f, f_count (ft f) = f_count (file_table s f) + zsum (g f) 0 (Z.to_nat j))
    0 (Z.to_nat NR_OPEN) (fun i =>
      t ← gett p;
      match t_filp t i with
      | Some f => add_ref f
      | None => mret tt
      end) s) as (s' & Hrun & _ & ft & -> & Hft).
  - split; [lia|]. exists (file_table s). split; [by destruct s|]. intros f. simpl. lia.
  - intros j t Hj (Hj0 & ft & -> & Hft). mrun. cbn [tsk set_field].
    change (Z.of_nat (Z.to_nat NR_OPEN)) with 20 in Hj.
    assert (Hsum : forall f, zsum (g f) 0 (Z.to_nat (j + 1)) = zsum (g f) 0 (Z.to_nat j) + g f j).
    { intros f. replace (Z.to_nat (j + 1)) with (S (Z.to_nat j)) by lia.
      rewrite zsum_snoc. by rewrite Z2Nat.id. }
    destruct (t_filp (tsk s p) j) as [f0|] eqn:Hf0.
    + eexists. split; [reflexivity|]. split; [lia|].
      exists (<[f0 := (ft f0) <| f_count ::= fun c => u16 (c + 1) |>]> ft). split; [done|].
      intros f. rewrite Hsum. assert (g f j = b2z (ptr_eqb (Some f0) (Some f))) as -> by (unfold g; by rewrite Hf0).
      rewrite arr_dec. case_decide as Hf.
      * subst f0. rewrite ptr_eqb_refl. simpl. rewrite Hft.
        pose proof (zsum_bound (g f) 0 (Z.to_nat j) 1 ltac:(intros; apply b2z_range)).
        destruct (Hsmall f) as [?|Hno]; [|by destruct (Hno j)]. rewrite u16_small; lia.
      * replace (ptr_eqb (Some f0) (Some f)) with false; [simpl; rewrite Hft; lia|].
        symmetry. apply bool_decide_eq_false. congruence.
    + eexists. split; [reflexivity|]. split; [lia|]. exists ft. split; [done|].
      intros f. rewrite Hsum, Hft. assert (g f j = 0) as -> by (unfold g; by rewrite Hf0). lia.
  - exists ft. split; [done|]. exact Hft.
Qed.

(** The inode table with one more user of [p]. *)
Definition shared_inode (p : ptr) (t : Z -> m_inode) : Z -> m_inode :=
  match p with
  | Some i => <[i := (t i) <| i_count ::= fun x => u16 (x + 1) |>]> t
  | None => t
  end.

Lemma share_inode_run p s : share_inode p s = Ret tt (s <| inode_table ::= shared_inode p |>).
Proof. destruct p as [i|]; [done|]. simpl. by destruct s. Qed.

(** What is known of the new task before it is put in the table. *)
Record newborn (s : kstate) (c nr p : Z) : Prop := {
  nb_current : current s = Some c;
  nb_slot : 1 <= nr < NR_TASKS;
  nb_free : task s nr = None;
  nb_new : forall i q, 0 <= i < NR_TASKS -> task s i = Some q -> q <> p;
  nb_filp : t_filp (tsk s p) = t_filp (tsk s c);
}.

Lemma files_ok_child s c nr p s' : files_ok s -> newborn s c nr p ->
  task s' = <[nr := Some p]> (task s) -> tsk s' = tsk s -> current s' = current s ->
  (forall f, f_count (file_table s' f) = f_count (file_table s f) + fd_refs (tsk s p) f) ->
  files_ok s'.
Proof.
  intros Hok [Hc Hnr Hfree Hnew Hfilp] Ht Hk Hcur Hcount.
  destruct (fo_current s Hok) as (ic & c' & Hi & Hti & Hci). assert (c' = c) as -> by congruence.
  assert (Hslot : forall i q, 0 <= i < NR_TASKS -> task s' i = Some q ->
    (i = nr /\ q = p) \/ (i <> nr /\ task s i = Some q)).
  { intros i q Hi' Hq. rewrite Ht, arr_dec in Hq. case_decide as Hin; [left|right; auto].
    split; congruence. }
  split.
  - intros i j q Hi1 Hj1 Hqi Hqj.
    destruct (Hslot i q Hi1 Hqi) as [[-> ->]|[? Hi2]], (Hslot j _ Hj1 Hqj) as [[-> ?]|[? Hj2]]; try done.
    + by destruct (Hnew j p Hj1 Hj2).
    + subst q. by destruct (Hnew i p Hi1 Hi2).
    + by apply (fo_slots s Hok i j q).
  - exists ic, c. split; [done|]. rewrite Hcur, Ht. split; [|done].
    rewrite arr_ne; [done|]. intros ->. congruence.
  - intros i q fd f Hi1 Hq Hfd Hf. rewrite Hk in Hf.
    destruct (Hslot i q Hi1 Hq) as [[-> ->]|[? Hi2]].
    + rewrite Hfilp in Hf. by apply (fo_range s Hok ic c fd).
    + by apply (fo_range s Hok i q fd).
  - intros f Hf. rewrite Hcount, (fo_counts s Hok f Hf). unfold file_refs.
    rewrite (zsum_change (slot_refs s' f) (slot_refs s f) 0 _ nr).
    + unfold slot_refs at 3 4. rewrite Ht, arr_eq, Hfree, Hk. lia.
    + unfold NR_TASKS in *. lia.
    + intros j Hj Hne. unfold slot_refs. rewrite Ht, arr_ne by done. by rewrite Hk.
Qed.

Lemma install_child_run s c nr p : files_ok s -> newborn s c nr p ->
  exists s', install_child nr p s = Ret (last_pid s) s' /\ files_ok s' /\
    task s' = <[nr := Some p]> (task s) /\ tsk s' = tsk s /\
    inode_table s' = shared_inode (t_root (tsk s c)) (shared_inode (t_pwd (tsk s c)) (inode_table s)) /\
    current s' = current s /\ setup_callable s' = setup_callable s /\
    phys s' = phys s /\ mem_map s' = mem_map s.
Proof.
  intros Hok Hnb. destruct (share_files p s) as (ft & Hrun & Hft).
  { intros f. destruct (decide (0 <= f < NR_FILE)) as [Hf|Hf].
    - left. rewrite (fo_counts s Hok f Hf). apply file_refs_range.
    - right. intros fd Hfd Heq. apply Hf. rewrite (nb_filp _ _ _ _ Hnb) in Heq.
      destruct (fo_current s Hok) as (ic & c' & Hi & Hti & Hci).
      assert (c' = c) as -> by (pose proof (nb_current _ _ _ _ Hnb); congruence).
      by apply (fo_range s Hok ic c fd). }
  unfold install_child. rewrite (bind_Ret _ _ _ _ _ Hrun).
  set (s1 := s <| file_table := ft |>). assert (Hc1 : current s1 = Some c) by apply Hnb.
  rewrite (bind_Ret _ _ _ _ _ (me_run s1 c Hc1)), (bind_Ret _ _ _ _ _ (share_inode_run _ s1)).
  set (s2 := s1 <| inode_table ::= shared_inode (t_pwd (tsk s1 c)) |>).
  assert (Hc2 : current s2 = Some c) by apply Hnb.
  rewrite (bind_Ret _ _ _ _ _ (me_run s2 c Hc2)), (bind_Ret _ _ _ _ _ (share_inode_run _ s2)).
  unfold set_tss_desc, set_ldt_desc, _set_tssldt_desc. mrun.
  eexists. split; [reflexivity|]. split; [|done].
  eapply (files_ok_child s c nr p _ Hok Hnb); done.
Qed.

(** A child of [c]: what [copy_process] promises of the new task. *)
Record is_child (s : kstate) (c nr p : Z) (r : fork_regs) (t : task_struct) : Prop := {
  ch_pid : t_pid t = last_pid s;
  ch_father : t_father t = t_pid (tsk s c);
  ch_state : t_state t = TASK_RUNNING;
  ch_fresh : t_signal t = 0 /\ t_alarm t = 0 /\ t_leader t = 0 /\
    t_counter t = t_priority (tsk s c) /\ t_priority t = t_priority (tsk s c);
  ch_files : t_filp t = t_filp (tsk s c) /\ t_pwd t = t_pwd (tsk s c) /\
    t_root t = t_root (tsk s c) /\ t_close_on_exec t = t_close_on_exec (tsk s c);
  ch_regs : eax (t_tss t) = 0 /\ eip (t_tss t) = k_eip r /\ esp (t_tss t) = k_esp r;
  ch_segs : forall k, k = 1 \/ k = 2 ->
    t_ldt t k = set_base (u32 (nr * 0x4000000)) (t_ldt (tsk s c) k);
}.

(** The two parts of the new task before [copy_mem]. *)
Definition born (c nr p : Z) (r : fork_regs) (s : kstate) : kstate :=
  let s1 := upd_task p (fun _ => child_of s (tsk s c) p nr r) s in
  if ptr_eqb (last_task_used_math s) (current s)
  then (upd_task p (fun t => t <| t_tss ::= fun x => x <| i387 := fpu s |> |>) s1) <| fpu := fninit |>
  else s1.

Lemma born_same c nr p r s : others_same p s (born c nr p r s).
Proof.
  unfold born. case_match; [|apply others_same_upd].
  eapply others_same_trans; [apply others_same_upd|].
  eapply others_same_trans; [apply others_same_upd|]. done.
Qed.

Lemma born_task c nr p r s t :
  t = (tsk (born c nr p r s) p) <| t_ldt ::= fun l =>
    <[2 := set_base (u32 (nr * 0x4000000)) (l 2)]> (<[1 := set_base (u32 (nr * 0x4000000)) (l 1)]> l) |> ->
  is_child s c nr p r t.
Proof.
  intros ->. unfold born. case_match; simpl; rewrite ?arr_eq;
    (split; try done; intros k [-> | ->]; simpl; by rewrite ?arr_eq, ?arr_ne, ?arr_eq by done).
Qed.

(** The new task survives what [copy_mem] does. *)
Lemma newborn_after s s' c nr p r : files_ok s -> current s = Some c -> 1 <= nr < NR_TASKS ->
  task s nr = None -> (forall i q, 0 <= i < NR_TASKS -> task s i = Some q -> q <> p) ->
  others_same p s s' -> is_child s c nr p r (tsk s' p) -> files_ok s' /\ newborn s' c nr p.
Proof.
  intros Hok Hc Hnr Hfree Hnew (Ht & Hcur & Hft & _ & _ & _ & Htsk) Hch.
  destruct (fo_current s Hok) as (ic & c' & Hi & Hti & Hci). assert (c' = c) as -> by congruence.
  split; [split|split].
  - rewrite Ht. apply (fo_slots s Hok).
  - exists ic, c. rewrite Ht, Hcur. done.
  - intros i q fd f Hi1 Hq Hfd. rewrite Ht in Hq. rewrite Htsk by (by eapply Hnew).
    by apply (fo_range s Hok i q fd).
  - intros f Hf. rewrite Hft, (fo_counts s Hok f Hf). apply zsum_ext. intros j Hj.
    unfold slot_refs. rewrite Ht. destruct (task s j) as [q|] eqn:Hq; [|done].
    rewrite Htsk; [done|]. apply (Hnew j); [unfold NR_TASKS in *; lia|done].
  - by rewrite Hcur.
  - done.
  - by rewrite Ht.
  - intros i q Hi1 Hq. rewrite Ht in Hq. by eapply Hnew.
  - rewrite (Htsk c) by (by eapply Hnew). apply Hch.
Qed.

(** copy_process keeps the table of files right, makes one new process at most
    and comes back to its caller. *)
Lemma copy_process_run nr r s c :
  files_ok s -> tasks_placed s -> current s = Some c -> 1 <= nr < NR_TASKS -> task s nr = None ->
  match copy_process fninit nr r s with
  | Ret v s' => files_ok s' /\ current s' = current s /\ setup_callable s' = setup_callable s /\
      (v = last_pid s /\
       (exists p, task s' = <[nr := Some p]> (task s) /\ is_child s c nr p r (tsk s' p) /\
          (forall q, q <> p -> tsk s' q = tsk s q) /\
          (forall i q, 0 <= i < NR_TASKS -> task s i = Some q -> q <> p)) /\
       inode_table s' = shared_inode (t_root (tsk s c)) (shared_inode (t_pwd (tsk s c)) (inode_table s)) \/
       v = - EAGAIN /\ task s' = task s /\ file_table s' = file_table s /\
       inode_table s' = inode_table s /\
       forall i q, 0 <= i < NR_TASKS -> task s i = Some q -> tsk s' q = tsk s q)
  | Panic _ _ => True
  | _ => False
  end.
Proof.
  intros Hok Hplaced Hc Hnr Hfree. unfold copy_process.
  destruct (get_free_page_cases s) as [[Hrun _]|(k & Hk & Hz & _ & Hrun)];
    rewrite (bind_Ret _ _ _ _ _ Hrun).
  { split; [done|]. split; [done|]. split; [done|]. right. done. }
  rewrite frame_nz by done. cbn [negb]. set (p := frame k).
  assert (Hnew : forall i q, 0 <= i < NR_TASKS -> task s i = Some q -> q <> p).
  { intros i q Hi Hq. by apply (Hplaced i q k). }
  assert (Hcp : c <> p).
  { destruct (fo_current s Hok) as (ic & c' & Hi & Hti & Hci).
    apply (Hnew ic); [done|congruence]. }
  assert (Hct : current (taken k s) = Some c) by done.
  rewrite (bind_Ret _ _ _ _ _ (me_run _ c Hct)). mrun.
  rewrite (bind_Ret _ _ _ tt (born c nr p r (taken k s))); cycle 1.
  { rewrite when_run. unfold born. case_match; done. }
  set (s1 := born c nr p r (taken k s)).
  assert (Hs1 : others_same p s s1) by (unfold s1; eapply others_same_trans; [|apply born_same]; done).
  assert (Hc1 : current s1 = Some c) by (destruct Hs1 as (_ & -> & _); done).
  pose proof (copy_mem_frame nr p s1 c Hc1 Hcp) as Hmem.
  unfold mbind at 1, M_bind at 1. destruct (copy_mem nr p s1) as [e s2|?|?|?|]; simpl res_bind; try done.
  destruct Hmem as (Hs2 & He & Ht2). apply (others_same_trans _ _ _ _ Hs1) in Hs2.
  apply (born_task c nr p r (taken k s)) in Ht2.
  destruct (newborn_after s s2 c nr p r) as [Hok2 Hnb2]; try done.
  { destruct Ht2. by split. }
  destruct He as [-> | ->].
  - simpl. destruct (install_child_run s2 c nr p Hok2 Hnb2) as (s3 & Hrun3 & Hok3 & Ht3 & Hk3 & Hi3 & Hc3 & Hs3 & _).
    rewrite Hrun3. destruct Hs2 as (E1 & E2 & E3 & E4 & E5 & Es & E6).
    split; [done|]. split; [by rewrite Hc3|]. split; [by rewrite Hs3|]. left. split; [done|]. split.
    + exists p. rewrite Ht3, Hk3, E1. split; [done|]. split; [destruct Ht2; by split|]. done.
    + by rewrite Hi3, E4, (E6 c Hcp).
  - change (nz (- ENOMEM)) with true. cbn match. pose proof (mem_code_free_page p s2) as Hfp.
    unfold mbind, M_bind. destruct (free_page p s2) as [u s3|?|?|?|]; cbn; try done.
    assert (Ht3 : tsk s3 p = tsk s2 p) by (by rewrite Hfp).
    apply (others_same_mem p), (others_same_trans _ _ _ _ Hs2) in Hfp.
    destruct (newborn_after s s3 c nr p r) as [Hok3 _]; try done.
    { rewrite Ht3. destruct Ht2. by split. }
    destruct Hfp as (E1 & E2 & E3 & E4 & E5 & Es & E6).
    do 3 (split; [done|]). right. do 4 (split; [done|]). intros i q Hi Hq. apply E6. by eapply Hnew.
Qed.

(** copy_process either fails with EAGAIN and changes no existing process,
    open file or inode, or installs in the empty slot a child of the current
    process: a copy with the new pid, its own registers and counters and a fresh
    page; it shares the open files and the directories of its parent, every
    sharing count agrees again with the descriptors, and every other process is
    as before. *)
Theorem copy_process_spec nr r s c :
  files_ok s -> tasks_placed s -> current s = Some c -> 1 <= nr < NR_TASKS -> task s nr = None ->
  match copy_process fninit nr r s with
  | Ret v s' => files_ok s' /\
      (v = last_pid s /\
       (exists p, task s' = <[nr := Some p]> (task s) /\ is_child s c nr p r (tsk s' p) /\
          (forall q, q <> p -> tsk s' q = tsk s q) /\
          (forall i q, 0 <= i < NR_TASKS -> task s i = Some q -> q <> p)) /\
       inode_table s' = shared_inode (t_root (tsk s c)) (shared_inode (t_pwd (tsk s c)) (inode_table s)) \/
       v = - EAGAIN /\ task s' = task s /\ file_table s' = file_table s /\
       inode_table s' = inode_table s /\
       forall i q, 0 <= i < NR_TASKS -> task s i = Some q -> tsk s' q = tsk s q)
  | Panic _ _ => True
  | _ => False
  end.
Proof.
  intros Hok Hpl Hc Hnr Hfree. pose proof (copy_process_run nr r s c Hok Hpl Hc Hnr Hfree) as Hrun.
  destruct (copy_process fninit nr r s); try done. destruct Hrun as (? & _ & _ & ?). done.
Qed.
End fork.

Lemma do_kill_spec_witness : exists s',
  do_kill 5 SIGALRM true (one_process <| tsk := fun _ => zero_task <| t_pid := 5 |>
                            <| t_priority := 15 |> |>) = Ret tt s' /\
  t_signal (tsk s' 8192) = 8192.
Proof.
  destruct (do_kill_spec 5 SIGALRM true (one_process <| tsk := fun _ => zero_task <| t_pid := 5 |>
                            <| t_priority := 15 |> |>) 8192)
    as (s' & Hrun & Hsig & _).
  - split.
    + intros i j p Hi Hj Hpi Hpj. apply one_process_task in Hpi as [-> _], Hpj as [-> _]; lia.
    + intros i p _ _. simpl. lia.
    + intros i p _ _. simpl. lia.
  - done.
  - exists s'. split; [done|]. rewrite (Hsig 1 8192); [reflexivity|lia|done].
Defined.

(** The run of a computation ends normally. *)
Definition is_ret {S A} (r : res S A) : bool := match r with Ret _ _ => true | _ => false end.

Definition some_regs : fork_regs := mk_fork_regs 0 0 0 0 0 0 0 0 0 0 0x1000 0 0 0x8000 0.

Lemma copy_process_spec_witness : exists v s',
  copy_process zero_arr 2 some_regs sharing = Ret v s' /\ files_ok s'.
Proof.
  assert (Hret : is_ret (copy_process zero_arr 2 some_regs sharing) = true) by (vm_compute; reflexivity).
  pose proof (copy_process_spec zero_arr 2 some_regs sharing 4096 sharing_ok) as H.
  destruct (copy_process zero_arr 2 some_regs sharing) as [v s'|?|?|?|]; try discriminate.
  exists v, s'. split; [reflexivity|]. apply H.
  - intros i q k Hi Hq Hk _. pose proof (frame_range k Hk). simpl in Hq.
    repeat case_match; simplify_eq; lia.
  - reflexivity.
  - unfold NR_TASKS. lia.
  - reflexivity.
Defined.
