(* ===== verification/Queue.v ===== *)
(** The character queues of the terminals, include/linux/tty.h: rings of 1024
    bytes, of which 1023 can be in use. *)
From S2P Require Export Sched.
#[local] Open Scope bool_scope.

(** include/linux/tty.h:24 *)
Definition INC (a : Z) : Z := Z.land (u32 (a + 1)) (TTY_BUF_SIZE - 1).
(** include/linux/tty.h:25 *)
Definition DEC (a : Z) : Z := Z.land (u32 (a - 1)) (TTY_BUF_SIZE - 1).
(** include/linux/tty.h:26 *)
Definition EMPTY (q : tty_queue) : bool := q_head q =? q_tail q.
(** include/linux/tty.h:27 *)
Definition LEFT (q : tty_queue) : Z := Z.land (u32 (q_tail q - q_head q - 1)) (TTY_BUF_SIZE - 1).
(** include/linux/tty.h:28 *)
Definition LAST (q : tty_queue) : Z := s8 (q_buf q (Z.land (TTY_BUF_SIZE - 1) (u32 (q_head q - 1)))).
(** include/linux/tty.h:29 *)
Definition FULL (q : tty_queue) : bool := negb (nz (LEFT q)).
(** include/linux/tty.h:30 *)
Definition CHARS (q : tty_queue) : Z := Z.land (u32 (q_head q - q_tail q)) (TTY_BUF_SIZE - 1).
(** include/linux/tty.h:31-32: the character, and the queue without it. *)
Definition GETCH (q : tty_queue) : Z * tty_queue :=
  (s8 (q_buf q (q_tail q)), q <| q_tail ::= INC |>).
(** include/linux/tty.h:33-34 *)
Definition PUTCH (c : Z) (q : tty_queue) : tty_queue :=
  q <| q_buf ::= <[q_head q := u8 c]> |> <| q_head ::= INC |>.

(** Access to the table of terminals. *)
Definition gettty (i : Z) : K tty_struct := gets (fun s => tty_table s i).
Definition settty (i : Z) (f : tty_struct -> tty_struct) : K unit :=
  modify (fun s => s <| tty_table ::= fun t => <[i := f (t i)]> t |>).

(** ** The queues are queues *)

(** The characters in the queue, oldest first. *)
Definition q_list (q : tty_queue) : list Z :=
  ring (fun i => s8 (q_buf q i)) 1024 (q_tail q) (Z.to_nat (CHARS q)).

Record queue_ok (q : tty_queue) : Prop := {
  qo_head : 0 <= q_head q < 1024;
  qo_tail : 0 <= q_tail q < 1024;
}.

Lemma land_1023 x : Z.land (u32 x) (TTY_BUF_SIZE - 1) = x mod 1024.
Proof.
  change (TTY_BUF_SIZE - 1) with (Z.ones 10). rewrite Z.land_ones by lia.
  unfold u32. change (2 ^ 10) with 1024. dlia.
Qed.
Lemma INC_eq a : INC a = (a + 1) mod 1024.
Proof. apply land_1023. Qed.
Lemma DEC_eq a : DEC a = (a - 1) mod 1024.
Proof. apply land_1023. Qed.
Lemma CHARS_eq q : CHARS q = (q_head q - q_tail q) mod 1024.
Proof. apply land_1023. Qed.
Lemma LEFT_eq q : LEFT q = (q_tail q - q_head q - 1) mod 1024.
Proof. apply land_1023. Qed.

Lemma left_chars q : LEFT q = 1023 - CHARS q.
Proof. rewrite LEFT_eq, CHARS_eq. dlia. Qed.
Lemma chars_range q : 0 <= CHARS q < 1024.
Proof. rewrite CHARS_eq. apply Z.mod_pos_bound. lia. Qed.
Lemma empty_chars q : queue_ok q -> EMPTY q = true <-> CHARS q = 0.
Proof.
  intros [H1 H2]. unfold EMPTY. rewrite CHARS_eq, Z.eqb_eq. split; intros H; dlia.
Qed.
Lemma full_chars q : FULL q = true <-> CHARS q = 1023.
Proof.
  unfold FULL. rewrite negb_true_iff, nz_false, left_chars. lia.
Qed.
Lemma length_q_list q : Z.of_nat (length (q_list q)) = CHARS q.
Proof. unfold q_list. rewrite length_ring. pose proof (chars_range q). lia. Qed.

Lemma queue_ok_put c q : queue_ok q -> queue_ok (PUTCH c q).
Proof. intros [? ?]. split; simpl; rewrite ?INC_eq; [apply Z.mod_pos_bound; lia|done]. Qed.
Lemma queue_ok_get q : queue_ok q -> queue_ok (snd (GETCH q)).
Proof. intros [? ?]. split; simpl; rewrite ?INC_eq; [done|apply Z.mod_pos_bound; lia]. Qed.

Lemma s8_u8 c : s8 (u8 c) = s8 c.
Proof. unfold s8, u8. dlia. Qed.

Lemma q_list_put c q : queue_ok q -> FULL q = false -> q_list (PUTCH c q) = q_list q ++ [s8 c].
Proof.
  intros [Hh Ht] Hf.
  assert (Hn : CHARS q <> 1023) by (rewrite <- full_chars; congruence).
  pose proof (chars_range q) as Hr.
  assert (Hc : CHARS (PUTCH c q) = CHARS q + 1).
  { rewrite !CHARS_eq in *. simpl. rewrite INC_eq. 
    dlia. }
  unfold q_list. rewrite Hc. replace (Z.to_nat (CHARS q + 1)) with (S (Z.to_nat (CHARS q))) by lia.
  rewrite ring_snoc. simpl. f_equal.
  - apply ring_ext. intros k Hk. rewrite arr_ne; [done|]. rewrite !CHARS_eq in *. dlia.
  - f_equal. rewrite Z2Nat.id by lia. rewrite arr_dec, decide_True; [apply s8_u8|].
    rewrite CHARS_eq. dlia.
Qed.

Lemma q_list_get q : queue_ok q -> EMPTY q = false ->
  q_list q = fst (GETCH q) :: q_list (snd (GETCH q)).
Proof.
  intros [Hh Ht] He.
  assert (Hn : CHARS q <> 0) by (rewrite <- empty_chars; [congruence|done]).
  pose proof (chars_range q) as Hr.
  assert (Hc : CHARS (snd (GETCH q)) = CHARS q - 1).
  { rewrite !CHARS_eq in *. simpl. rewrite INC_eq. dlia. }
  unfold q_list at 1. replace (Z.to_nat (CHARS q)) with (S (Z.to_nat (CHARS q - 1))) by lia.
  rewrite ring_cons by done. unfold q_list. rewrite Hc. simpl. by rewrite INC_eq.
Qed.

(** ** Several characters at once *)

Definition puts (bs : list Z) (q : tty_queue) : tty_queue := foldl (fun q c => PUTCH c q) q bs.

Lemma puts_cons c bs q : puts (c :: bs) q = puts bs (PUTCH c q).
Proof. done. Qed.
Lemma puts_tail bs q : q_tail (puts bs q) = q_tail q.
Proof. revert q. induction bs as [|c bs IH]; intros q; [done|]. by rewrite puts_cons, IH. Qed.
Lemma puts_ok bs q : queue_ok q -> queue_ok (puts bs q).
Proof. revert q. induction bs as [|c bs IH]; intros q Hq; [done|]. by apply IH, queue_ok_put. Qed.
Lemma puts_head bs q : queue_ok q -> q_head (puts bs q) = (q_head q + Z.of_nat (length bs)) mod 1024.
Proof.
  revert q. induction bs as [|c bs IH]; intros q Hq; simpl length.
  - destruct Hq. simpl. dlia.
  - rewrite puts_cons, IH by (by apply queue_ok_put). simpl. rewrite INC_eq. dlia.
Qed.

Lemma chars_put c q : queue_ok q -> CHARS q < 1023 -> CHARS (PUTCH c q) = CHARS q + 1.
Proof. intros [? ?] Hc. rewrite !CHARS_eq in *. simpl. rewrite INC_eq. dlia. Qed.

Lemma q_list_puts bs q : queue_ok q -> CHARS q + Z.of_nat (length bs) <= 1023 ->
  q_list (puts bs q) = q_list q ++ map s8 bs.
Proof.
  revert q. induction bs as [|c bs IH]; intros q Hq Hc; simpl length in Hc; simpl map.
  - by rewrite app_nil_r.
  - rewrite puts_cons, IH, q_list_put, <- app_assoc; try done.
    + apply not_true_iff_false. rewrite full_chars. lia.
    + by apply queue_ok_put.
    + rewrite chars_put by (try done; lia). lia.
Qed.

(** The bytes of [bs] stored behind the last character, and the head not moved. *)
Definition stored (bs : list Z) (q : tty_queue) : tty_queue := q <| q_buf := q_buf (puts bs q) |>.

Lemma stored_outside bs q i : queue_ok q ->
  (forall j, 0 <= j < Z.of_nat (length bs) -> i <> (q_head q + j) mod 1024) ->
  q_buf (puts bs q) i = q_buf q i.
Proof.
  revert q. induction bs as [|c bs IH]; intros q Hq Hi; [done|]. simpl length in Hi.
  rewrite puts_cons, IH; [|by apply queue_ok_put|].
  - simpl. apply arr_ne. specialize (Hi 0). destruct Hq. rewrite Z.add_0_r, Z.mod_small in Hi by lia.
    intros E. apply Hi; lia.
  - intros j Hj. simpl. rewrite INC_eq. rewrite Zplus_mod_idemp_l, <- Z.add_assoc. apply Hi. lia.
Qed.

Lemma q_list_stored bs q : queue_ok q -> CHARS q + Z.of_nat (length bs) <= 1024 ->
  q_list (stored bs q) = q_list q.
Proof.
  intros Hq Hc. unfold q_list. change (CHARS (stored bs q)) with (CHARS q). simpl.
  apply ring_ext. intros k Hk. pose proof (chars_range q). f_equal. apply stored_outside; [done|].
  intros j Hj. destruct Hq. rewrite CHARS_eq in *. dlia.
Qed.

(** The ring buffer of a terminal implements a bounded FIFO queue of
    characters: CHARS, LEFT, EMPTY, FULL and LAST read it, PUTCH on a queue that
    is not full appends and GETCH on one that is not empty takes the oldest
    character. *)
Theorem queue_fifo c q :
  queue_ok q ->
  Z.of_nat (length (q_list q)) = CHARS q /\ LEFT q = 1023 - CHARS q /\
  (EMPTY q = true <-> q_list q = []) /\ (FULL q = true <-> length (q_list q) = 1023%nat) /\
  (FULL q = false -> queue_ok (PUTCH c q) /\ q_list (PUTCH c q) = q_list q ++ [s8 c] /\
     LAST (PUTCH c q) = s8 c) /\
  (EMPTY q = false -> queue_ok (snd (GETCH q)) /\
     q_list q = fst (GETCH q) :: q_list (snd (GETCH q))).
Proof.
  intros Hq. pose proof (length_q_list q) as Hlen. split_and!.
  - done.
  - apply left_chars.
  - rewrite (empty_chars q Hq). rewrite <- Hlen. destruct (q_list q); simpl; split; try done; lia.
  - rewrite full_chars. lia.
  - intros Hf. split_and!; [by apply queue_ok_put|by apply q_list_put|].
    unfold LAST. simpl. rewrite Z.land_comm, land_1023, INC_eq. rewrite arr_dec, decide_True; [apply s8_u8|].
    destruct Hq. dlia.
  - intros He. split; [by apply queue_ok_get|by apply q_list_get].
Qed.

Lemma queue_fifo_witness : q_list (PUTCH 65 zero_queue) = [65].
Proof.
  assert (Hq : queue_ok zero_queue) by (split; simpl; lia).
  destruct (queue_fifo 65 zero_queue Hq) as (_ & _ & _ & _ & Hput & _).
  destruct Hput as (_ & Hl & _); [reflexivity|]. rewrite Hl. reflexivity.
Defined.
