(* ===== verification/Console.v ===== *)
(** The console driver, kernel/console.c: a VT102 on the 80x25 text screen.
    The driver keeps a window of 25 lines in the video memory, a cursor in
    it, a scrolling region and the state of the escape sequence it is in. *)
From S2P Require Export Queue.
#[local] Open Scope bool_scope.

(** kernel/console.c:36 *)
Definition SCREEN_START : Z := 0xb8000.
(** kernel/console.c:37 *)
Definition SCREEN_END : Z := 0xc0000.
(** kernel/console.c:38 and 49: [lines] is never assigned. *)
Definition LINES : Z := 25.
(** kernel/console.c:39 and 49: [columns] is never assigned. *)
Definition COLUMNS : Z := 80.
(** kernel/console.c:40 *)
Definition NPAR : Z := 16.
(** kernel/console.c:61: the characters of the string. *)
Definition RESPONSE : list Z := [27; 91; 63; 49; 59; 50; 99].

(** ** Video memory: 16-bit cells, by address *)

Definition BLANK : Z := 0x0720.
(** [rep stosw]: [n] cells from [a] on, upwards or downwards. *)
Fixpoint fill_up (a : Z) (n : nat) (m : Z -> Z) : Z -> Z :=
  match n with O => m | S n => fill_up (a + 2) n (<[a := BLANK]> m) end.
Fixpoint fill_down (a : Z) (n : nat) (m : Z -> Z) : Z -> Z :=
  match n with O => m | S n => fill_down (a - 2) n (<[a := BLANK]> m) end.
(** [rep movs]: [n] cells, one after the other. *)
Fixpoint move_up (dst src : Z) (n : nat) (m : Z -> Z) : Z -> Z :=
  match n with O => m | S n => move_up (dst + 2) (src + 2) n (<[dst := m src]> m) end.
Fixpoint move_down (dst src : Z) (n : nat) (m : Z -> Z) : Z -> Z :=
  match n with O => m | S n => move_down (dst - 2) (src - 2) n (<[dst := m src]> m) end.

(** The address of a position of the screen. *)
Definition cell (c : console) (x y : Z) : Z := u32 (origin c + 2 * (y * COLUMNS + x)).

(** kernel/console.c:63-70 *)
Definition gotoxy (new_x new_y : Z) (c : console) : console :=
  if (u32 new_x >=? COLUMNS) || (u32 new_y >=? LINES) then c
  else c <| con_x := u32 new_x |> <| con_y := u32 new_y |>
         <| pos := cell c (u32 new_x) (u32 new_y) |>.

(** kernel/console.c:84-118: the window moves down one line in video memory;
    at the end of it the lines are copied back to the start. *)
Definition scroll_window (c : console) : console :=
  let c := c <| origin ::= fun a => u32 (a + 2 * COLUMNS) |>
             <| pos ::= fun a => u32 (a + 2 * COLUMNS) |>
             <| scr_end ::= fun a => u32 (a + 2 * COLUMNS) |> in
  if scr_end c >? SCREEN_END then
    let n := Z.shiftr ((LINES - 1) * COLUMNS) 1 in
    let m := move_up SCREEN_START (origin c) (Z.to_nat (2 * n)) (vmem c) in
    let m := fill_up (SCREEN_START + 4 * n) (Z.to_nat COLUMNS) m in
    c <| vmem := m |>
      <| scr_end ::= fun a => u32 (a - (origin c - SCREEN_START)) |>
      <| pos ::= fun a => u32 (a - (origin c - SCREEN_START)) |>
      <| origin := SCREEN_START |>
  else
    c <| vmem ::= fill_up (u32 (scr_end c - 2 * COLUMNS)) (Z.to_nat (2 * Z.shiftr COLUMNS 1)) |>.

(** kernel/console.c:120-135: only the lines of the region move. *)
Definition scroll_region (c : console) : console :=
  let n := Z.shiftr (u32 ((con_bottom c - con_top c - 1) * COLUMNS)) 1 in
  let dst := u32 (origin c + 2 * COLUMNS * con_top c) in
  let m := move_up dst (u32 (origin c + 2 * COLUMNS * (con_top c + 1))) (Z.to_nat (2 * n)) (vmem c) in
  c <| vmem := fill_up (dst + 4 * n) (Z.to_nat COLUMNS) m |>.

(** kernel/console.c:138-155.  The longs are moved downwards, each as its
    upper and its lower cell. *)
Definition scrdown (c : console) : console :=
  let n := Z.shiftr (u32 ((con_bottom c - con_top c - 1) * COLUMNS)) 1 in
  let dst := u32 (origin c + 2 * COLUMNS * con_bottom c - 4) in
  let src := u32 (origin c + 2 * COLUMNS * (con_bottom c - 1) - 4) in
  let m := move_down (dst + 2) (src + 2) (Z.to_nat (2 * n)) (vmem c) in
  c <| vmem := fill_down (dst - 4 * n + 2) (Z.to_nat COLUMNS) m |>.

(** kernel/console.c:167-175 *)
Definition ri (c : console) : console :=
  if con_y c >? con_top c
  then c <| con_y ::= fun y => u32 (y - 1) |> <| pos ::= fun a => u32 (a - 2 * COLUMNS) |>
  else scrdown c.

(** kernel/console.c:177-181 *)
Definition cr (c : console) : console :=
  c <| pos ::= fun a => u32 (a - 2 * con_x c) |> <| con_x := 0 |>.

(** kernel/console.c:183-190 *)
Definition del (c : console) : console :=
  if nz (con_x c) then
    let c := c <| pos ::= fun a => u32 (a - 2) |> <| con_x ::= fun x => u32 (x - 1) |> in
    c <| vmem ::= <[pos c := BLANK]> |>
  else c.

(** kernel/console.c:192-220 *)
Definition csi_J (par : Z) (c : console) : console :=
  let erase start count := c <| vmem ::= fill_up start (Z.to_nat count) |> in
  if par =? 0 then erase (pos c) (Z.shiftr (u32 (scr_end c - pos c)) 1)
  else if par =? 1 then erase (origin c) (Z.shiftr (u32 (pos c - origin c)) 1)
  else if par =? 2 then erase (origin c) (COLUMNS * LINES)
  else c.

(** kernel/console.c:222-252 *)
Definition csi_K (par : Z) (c : console) : console :=
  let erase start count := c <| vmem ::= fill_up start (Z.to_nat count) |> in
  let line := u32 (pos c - 2 * con_x c) in
  if par =? 0 then
    if con_x c >=? COLUMNS then c else erase (pos c) (COLUMNS - con_x c)
  else if par =? 1 then erase line (if con_x c <? COLUMNS then con_x c else COLUMNS)
  else if par =? 2 then erase line COLUMNS
  else c.

(** kernel/console.c:259-265 *)
Definition attr_of (p a : Z) : Z :=
  if p =? 0 then 0x07 else if p =? 1 then 0x0f else if p =? 4 then 0x0f
  else if p =? 7 then 0x70 else if p =? 27 then 0x07 else a.
(** kernel/console.c:254-266 *)
Definition csi_m (c : console) : console :=
  c <| attr ::= fun a => fold_left (fun a i => attr_of (par c (Z.of_nat i)) a)
                           (seq 0 (S (Z.to_nat (npar c)))) a |>.

(** kernel/console.c:291-303 *)
Definition insert_char (c : console) : console :=
  let '(m, _, _) := Nat.iter (Z.to_nat (COLUMNS - con_x c))
    (fun '(m, p, old) => (<[p := old]> m, p + 2, m p)) (vmem c, pos c, BLANK) in
  c <| vmem := m |>.

(** kernel/console.c:305-316 *)
Definition insert_line (c : console) : console :=
  (scrdown (c <| con_top := con_y c |> <| con_bottom := LINES |>))
    <| con_top := con_top c |> <| con_bottom := con_bottom c |>.

(** kernel/console.c:318-331 *)
Definition delete_char (c : console) : console :=
  if con_x c >=? COLUMNS then c
  else
    let n := COLUMNS - con_x c - 1 in
    c <| vmem ::= fun m => <[pos c + 2 * n := BLANK]> (move_up (pos c) (pos c + 2) (Z.to_nat n) m) |>.

(** kernel/console.c:389-393 *)
Definition save_cur (c : console) : console :=
  c <| saved_x := s32 (con_x c) |> <| saved_y := s32 (con_y c) |>.

(** kernel/console.c:395-400 *)
Definition restore_cur (c : console) : console :=
  c <| con_x := u32 (saved_x c) |> <| con_y := u32 (saved_y c) |>
    <| pos := cell c (u32 (saved_x c)) (u32 (saved_y c)) |>.

(** The repeat counts of [csi_at], [csi_L], [csi_P] and [csi_M]:
    kernel/console.c:348-351, 358-361, 368-371 and 378-381.  [nr] is compared
    as an unsigned number. *)
Definition times (nr limit : Z) : nat :=
  Z.to_nat (if u32 nr >? limit then limit else if negb (nz (u32 nr)) then 1 else u32 nr).

(** kernel/console.c:346-354 *)
Definition csi_at (nr : Z) : console -> console := Nat.iter (times nr COLUMNS) insert_char.
(** kernel/console.c:356-364 *)
Definition csi_L (nr : Z) : console -> console := Nat.iter (times nr LINES) insert_line.
(** kernel/console.c:366-374 *)
Definition csi_P (nr : Z) : console -> console := Nat.iter (times nr COLUMNS) delete_char.

(** kernel/console.c:418-423: the character and the attribute are stored. *)
Definition put_char (ch : Z) (c : console) : console :=
  c <| vmem ::= <[pos c := u8 ch + 256 * attr c]> |>
    <| pos ::= fun a => u32 (a + 2) |> <| con_x ::= fun x => u32 (x + 1) |>.

(** The cursor goes back to the first column: kernel/console.c:414-415 and
    442-443. *)
Definition wrap (c : console) : console :=
  c <| con_x ::= fun x => u32 (x - COLUMNS) |> <| pos ::= fun a => u32 (a - 2 * COLUMNS) |>.

(** kernel/console.c:542-550 *)
Definition set_region (c : console) : console :=
  let t := if nz (par c 0) then u32 (par c 0 - 1) else par c 0 in
  let b := if nz (par c 1) then par c 1 else LINES in
  let c := c <| par ::= fun p => <[1 := b]> (<[0 := t]> p) |> in
  if (t <? b) && (b <=? LINES) then c <| con_top := t |> <| con_bottom := b |> else c.

(** A change of one parameter of the sequence. *)
Definition set_par (i : Z) (v : Z) (c : console) : console := c <| par ::= <[i := v]> |>.
(** [if (!par[0]) par[0]++] *)
Definition at_least_1 (c : console) : console :=
  if nz (par c 0) then c else set_par 0 (u32 (par c 0 + 1)) c.
(** [if (par[i]) par[i]--] *)
Definition less_1 (i : Z) (c : console) : console :=
  if nz (par c i) then set_par i (u32 (par c i - 1)) c else c.

(** ** The driver *)

Definition setc (f : console -> console) : K unit := modify (fun s => s <| con ::= f |>).

(** kernel/console.c:72-80, with the register of the first byte: 12 for the
    origin; kernel/console.c:268-276: 14 for the cursor. *)
Definition set_register (r a : Z) : K unit :=
  outb_p r 0x3d4;;
  outb_p (Z.land 0xff (Z.shiftr (u32 (a - SCREEN_START)) 9)) 0x3d5;;
  outb_p (r + 1) 0x3d4;;
  outb_p (Z.land 0xff (Z.shiftr (u32 (a - SCREEN_START)) 1)) 0x3d5.
(** kernel/console.c:72-80 *)
Definition set_origin : K unit := c ← gets con; set_register 12 (origin c).
(** kernel/console.c:268-276 *)
Definition set_cursor : K unit := c ← gets con; set_register 14 (pos c).

(** kernel/console.c:82-136 *)
Definition scrup : K unit :=
  c ← gets con;
  if negb (nz (con_top c)) && (con_bottom c =? LINES)
  then setc scroll_window;; set_origin
  else setc scroll_region.

(** kernel/console.c:157-165 *)
Definition lf : K unit :=
  c ← gets con;
  if u32 (con_y c + 1) <? con_bottom c
  then setc (fun c => c <| con_y ::= fun y => u32 (y + 1) |>
                        <| pos ::= fun a => u32 (a + 2 * COLUMNS) |>)
  else scrup.

(** kernel/console.c:333-344 *)
Definition delete_line : K unit :=
  c ← gets con;
  setc (fun c => c <| con_top := con_y c |> <| con_bottom := LINES |>);;
  scrup;;
  setc (fun d => d <| con_top := con_top c |> <| con_bottom := con_bottom c |>).

(** kernel/console.c:376-384 *)
Definition csi_M (nr : Z) : K unit := for_ 0 (times nr LINES) (fun _ => delete_line).

Section write.
(** [copy_to_cooked], kernel/tty_io.c. *)
Context (copy_to_cooked : Z -> K unit).

(** kernel/console.c:278-289 *)
Definition respond (tty : Z) : K unit :=
  settty tty (fun t => t <| tt_read_q ::= fun q => fold_left (fun q c => PUTCH c q) RESPONSE q |>);;
  copy_to_cooked tty.

(** kernel/console.c:412-447: a character outside of escape sequences. *)
Definition plain_char (tty ch : Z) : K unit :=
  c ← gets con;
  t ← gettty tty;
  if (ch >? 31) && (ch <? 127) then
    when (con_x c >=? COLUMNS) (setc wrap;; lf);;
    setc (put_char ch)
  else if ch =? 27 then setc (fun c => c <| con_state := 1 |>)
  else if (ch =? 10) || (ch =? 11) || (ch =? 12) then lf
  else if ch =? 13 then setc cr
  else if ch =? c_cc (tt_termios t) 2 then setc del
  else if ch =? 8 then
    setc (fun c => if nz (con_x c) then
      c <| con_x ::= fun x => u32 (x - 1) |> <| pos ::= fun a => u32 (a - 2) |> else c)
  else if ch =? 9 then
    let n := 8 - Z.land (con_x c) 7 in
    setc (fun c => c <| con_x ::= fun x => u32 (x + n) |> <| pos ::= fun a => u32 (a + 2 * n) |>);;
    c ← gets con;
    when (con_x c >? COLUMNS) (setc wrap;; lf)
  else mret tt.

(** kernel/console.c:450-465: the character after an escape.  The last two
    tests look at the column, not at the character. *)
Definition escape_char (tty ch : Z) : K unit :=
  setc (fun c => c <| con_state := 0 |>);;
  c ← gets con;
  if ch =? 91 then setc (fun c => c <| con_state := 2 |>)
  else if ch =? 69 then setc (fun c => gotoxy 0 (con_y c + 1) c)
  else if ch =? 77 then setc ri
  else if ch =? 68 then lf
  else if ch =? 90 then respond tty
  else if con_x c =? 55 then setc save_cur
  else if con_x c =? 56 then setc restore_cur
  else mret tt.

(** kernel/console.c:483-557: the character that ends a control sequence. *)
Definition csi_final (ch : Z) : K unit :=
  setc (fun c => c <| con_state := 0 |>);;
  p ← gets (fun s => par (con s) 0);
  if (ch =? 71) || (ch =? 96) then
    setc (less_1 0);; setc (fun c => gotoxy (par c 0) (con_y c) c)
  else if ch =? 65 then
    setc at_least_1;; setc (fun c => gotoxy (con_x c) (con_y c - par c 0) c)
  else if (ch =? 66) || (ch =? 101) then
    setc at_least_1;; setc (fun c => gotoxy (con_x c) (con_y c + par c 0) c)
  else if (ch =? 67) || (ch =? 97) then
    setc at_least_1;; setc (fun c => gotoxy (con_x c + par c 0) (con_y c) c)
  else if ch =? 68 then
    setc at_least_1;; setc (fun c => gotoxy (con_x c - par c 0) (con_y c) c)
  else if ch =? 69 then
    setc at_least_1;; setc (fun c => gotoxy 0 (con_y c + par c 0) c)
  else if ch =? 70 then
    setc at_least_1;; setc (fun c => gotoxy 0 (con_y c - par c 0) c)
  else if ch =? 100 then
    setc (less_1 0);; setc (fun c => gotoxy (con_x c) (par c 0) c)
  else if (ch =? 72) || (ch =? 102) then
    setc (less_1 0);; setc (less_1 1);; setc (fun c => gotoxy (par c 1) (par c 0) c)
  else if ch =? 74 then setc (csi_J p)
  else if ch =? 75 then setc (csi_K p)
  else if ch =? 76 then setc (csi_L p)
  else if ch =? 77 then csi_M p
  else if ch =? 80 then setc (csi_P p)
  else if ch =? 64 then setc (csi_at p)
  else if ch =? 109 then setc csi_m
  else if ch =? 114 then setc set_region
  else if ch =? 115 then setc save_cur
  else if ch =? 117 then setc restore_cur
  else mret tt.

(** kernel/console.c:473-480: a character of the parameters. *)
Definition csi_param (ch : Z) : K unit :=
  c ← gets con;
  if (ch =? 59) && (npar c <? NPAR - 1) then setc (fun c => c <| npar ::= fun n => u32 (n + 1) |>)
  else if (ch >=? 48) && (ch <=? 57) then
    setc (set_par (npar c) (u32 (10 * par c (npar c) + ch - 48)))
  else
    setc (fun c => c <| con_state := 4 |>);;
    csi_final ch.

(** kernel/console.c:466-472: the first character of a control sequence. *)
Definition csi_first (ch : Z) : K unit :=
  setc (fun c => c <| par ::= fun p i => if (0 <=? i) && (i <? NPAR) then 0 else p i |>
                   <| npar := 0 |> <| con_state := 3 |> <| ques := b2z (ch =? 63) |>);;
  if ch =? 63 then mret tt else csi_param ch.

(** kernel/console.c:409-558, one round of the loop. *)
Definition con_char (tty : Z) : K unit :=
  t ← gettty tty;
  let '(ch, q) := GETCH (tt_write_q t) in
  settty tty (fun t => t <| tt_write_q := q |>);;
  c ← gets con;
  if con_state c =? 0 then plain_char tty ch
  else if con_state c =? 1 then escape_char tty ch
  else if con_state c =? 2 then csi_first ch
  else if con_state c =? 3 then csi_param ch
  else if con_state c =? 4 then csi_final ch
  else mret tt.

(** kernel/console.c:402-561 *)
Definition con_write (tty : Z) : K unit :=
  t ← gettty tty;
  for_ 0 (Z.to_nat (CHARS (tt_write_q t))) (fun _ => con_char tty);;
  set_cursor.
End write.

(** kernel/console.c:573-586.  [x] and [y] are the two bytes the boot code
    left at 0x901fe. *)
Definition con_init `{Machine} (x y : Z) : K unit :=
  setc (gotoxy x y);;
  set_trap_gate 0x21 (address_of at_keyboard_interrupt);;
  v ← inb_p 0x21;
  outb_p (Z.land v 0xfd) 0x21;;
  a ← inb_p 0x61;
  outb_p (Z.lor a 0x80) 0x61;;
  outb a 0x61;;
  printk " [OK] Console: VT102 Ready (80x25 Text Mode Active)\n\r" [].

(** ** The driver stays inside video memory *)

(** The address of a cell of video memory. *)
Definition video (a : Z) : Prop := SCREEN_START <= a <= SCREEN_END - 2.

(** The window lies in video memory, the cursor in the window (or just after
    the last column), and the scrolling region is not empty. *)
Record con_ok (c : console) : Prop := {
  co_origin : SCREEN_START <= origin c;
  co_end : scr_end c = origin c + 4000;
  co_max : scr_end c <= SCREEN_END;
  co_x : 0 <= con_x c <= 80;
  co_y : 0 <= con_y c < 25;
  co_pos : pos c = origin c + 2 * (con_y c * 80 + con_x c);
  co_region : 0 <= con_top c < con_bottom c /\ con_bottom c <= 25;
  co_saved : 0 <= saved_x c <= 80 /\ 0 <= saved_y c < 25;
  co_npar : 0 <= npar c < 16;
  co_par : forall i, 0 <= i < 16 -> 0 <= par c i < 4294967296;
}.

(** [c'] is again sound, and differs from [c] only in video memory. *)
Definition con_step (c c' : console) : Prop :=
  con_ok c' /\ forall a, ~ video a -> vmem c' a = vmem c a.

Lemma con_step_refl c : con_ok c -> con_step c c.
Proof. done. Qed.
Lemma con_step_trans c1 c2 c3 : con_step c1 c2 -> con_step c2 c3 -> con_step c1 c3.
Proof. intros [? H1] [? H2]. split; [done|]. intros a Ha. by rewrite H2, H1. Qed.

Lemma fill_up_frame a n m b : (forall k, 0 <= k < Z.of_nat n -> video (a + 2 * k)) -> ~ video b ->
  fill_up a n m b = m b.
Proof.
  revert a m. induction n as [|n IH]; intros a m Hv Hb; [done|]. cbn [fill_up].
  rewrite IH; [|intros k Hk; replace (a + 2 + 2 * k) with (a + 2 * (k + 1)) by lia; apply Hv; lia|done].
  rewrite arr_ne; [done|]. intros <-. apply Hb. specialize (Hv 0). rewrite Z.add_0_r in Hv. apply Hv. lia.
Qed.
Lemma fill_down_frame a n m b : (forall k, 0 <= k < Z.of_nat n -> video (a - 2 * k)) -> ~ video b ->
  fill_down a n m b = m b.
Proof.
  revert a m. induction n as [|n IH]; intros a m Hv Hb; [done|]. cbn [fill_down].
  rewrite IH; [|intros k Hk; replace (a - 2 - 2 * k) with (a - 2 * (k + 1)) by lia; apply Hv; lia|done].
  rewrite arr_ne; [done|]. intros <-. apply Hb. specialize (Hv 0). rewrite Z.sub_0_r in Hv. apply Hv. lia.
Qed.
Lemma move_up_frame d s n m b : (forall k, 0 <= k < Z.of_nat n -> video (d + 2 * k)) -> ~ video b ->
  move_up d s n m b = m b.
Proof.
  revert d s m. induction n as [|n IH]; intros d s m Hv Hb; [done|]. cbn [move_up].
  rewrite IH; [|intros k Hk; replace (d + 2 + 2 * k) with (d + 2 * (k + 1)) by lia; apply Hv; lia|done].
  rewrite arr_ne; [done|]. intros <-. apply Hb. specialize (Hv 0). rewrite Z.add_0_r in Hv. apply Hv. lia.
Qed.
Lemma move_down_frame d s n m b : (forall k, 0 <= k < Z.of_nat n -> video (d - 2 * k)) -> ~ video b ->
  move_down d s n m b = m b.
Proof.
  revert d s m. induction n as [|n IH]; intros d s m Hv Hb; [done|]. cbn [move_down].
  rewrite IH; [|intros k Hk; replace (d - 2 - 2 * k) with (d - 2 * (k + 1)) by lia; apply Hv; lia|done].
  rewrite arr_ne; [done|]. intros <-. apply Hb. specialize (Hv 0). rewrite Z.sub_0_r in Hv. apply Hv. lia.
Qed.

(** The numbers of the screen written out, and the wrap-arounds removed. *)
Ltac con_nums := unfold video, cell, LINES, COLUMNS, SCREEN_START, SCREEN_END, NPAR in *.
Ltac con_u32 := repeat match goal with
  | |- context [u32 ?x] => rewrite (u32_small x) by (con_nums; lia)
  end.
Ltac con_start c := intros []; unfold con_step; con_nums.

(** A change that leaves video memory alone. *)
Lemma con_step_same c c' : con_ok c' -> vmem c' = vmem c -> con_step c c'.
Proof. intros H Hm. split; [done|]. intros a _. by rewrite Hm. Qed.

(** A change of video memory only. *)
Lemma con_step_vmem c m : con_ok c -> (forall a, ~ video a -> m a = vmem c a) ->
  con_step c (c <| vmem := m |>).
Proof. intros [] Hm. split; [by constructor|done]. Qed.

Ltac con_ok_tac :=
  match goal with H : con_ok _ |- _ => destruct H end;
  constructor; cbn; con_nums; con_u32; auto; lia.

Lemma gotoxy_step x y c : con_ok c -> con_step c (gotoxy x y c).
Proof.
  intros Hc. unfold gotoxy. destruct (_ || _) eqn:E; [done|]. ztest.
  pose proof (u32_range x). pose proof (u32_range y).
  apply con_step_same; [|done]. con_nums. con_ok_tac.
Qed.
Lemma cr_step c : con_ok c -> con_step c (cr c).
Proof. intros Hc. apply con_step_same; [|done]. con_ok_tac. Qed.
Lemma wrap_ok_x c : con_ok c -> con_x c = 80 -> con_step c (wrap c).
Proof. intros Hc Hx. apply con_step_same; [|done]. con_ok_tac. Qed.
Lemma save_cur_step c : con_ok c -> con_step c (save_cur c).
Proof.
  intros Hc. apply con_step_same; [|done]. destruct Hc. constructor; cbn; auto.
  rewrite !s32_small by lia. lia.
Qed.
Lemma restore_cur_step c : con_ok c -> con_step c (restore_cur c).
Proof. intros Hc. apply con_step_same; [|done]. con_ok_tac. Qed.
Lemma set_par_step i v c : con_ok c -> con_step c (set_par i (u32 v) c).
Proof.
  intros Hc. apply con_step_same; [|done]. destruct Hc. constructor; cbn; auto.
  intros j Hj. rewrite arr_dec. case_decide; [apply u32_range|auto].
Qed.
Lemma at_least_1_step c : con_ok c -> con_step c (at_least_1 c).
Proof. intros Hc. unfold at_least_1. case_match; [done|by apply set_par_step]. Qed.
Lemma less_1_step i c : con_ok c -> con_step c (less_1 i c).
Proof. intros Hc. unfold less_1. case_match; [by apply set_par_step|done]. Qed.
Lemma csi_m_step c : con_ok c -> con_step c (csi_m c).
Proof. intros Hc. apply con_step_same; [|done]. destruct Hc. by constructor. Qed.
Lemma set_region_step c : con_ok c -> con_step c (set_region c).
Proof.
  intros Hc. unfold set_region. destruct Hc.
  pose proof (co_par0 0 ltac:(lia)). pose proof (co_par0 1 ltac:(lia)). pose proof (u32_range (par c 0 - 1)).
  set (t := if nz (par c 0) then _ else _). set (b := if nz (par c 1) then _ else _).
  assert (0 <= t < 4294967296) by (unfold t; case_match; lia).
  assert (0 <= b < 4294967296) by (unfold b, LINES; case_match; lia).
  destruct (_ && _) eqn:E; ztest; con_nums; (apply con_step_same; [|done]); constructor; cbn; auto;
    try lia; intros j Hj; rewrite !arr_dec; repeat case_decide; auto.
Qed.

(** Cells of the window. *)
Lemma window_video c k : con_ok c -> 0 <= k < 2000 -> video (origin c + 2 * k).
Proof. intros [] Hk. con_nums. lia. Qed.

Lemma fill_step c a k n : con_ok c -> a = origin c + 2 * k -> 0 <= k -> k + Z.of_nat n <= 2000 ->
  con_step c (c <| vmem ::= fill_up a n |>).
Proof.
  intros Hc -> Hk Hn.
  refine (con_step_vmem c (fill_up (origin c + 2 * k) n (vmem c)) Hc _). intros b Hb.
  apply fill_up_frame; [|done]. intros j Hj.
  replace (origin c + 2 * k + 2 * j) with (origin c + 2 * (k + j)) by lia.
  apply window_video; [done|lia].
Qed.

Lemma csi_J_step p c : con_ok c -> con_step c (csi_J p c).
Proof.
  intros Hc. pose proof Hc as []. unfold csi_J. con_nums.
  repeat match goal with |- con_step c (if ?b then _ else _) => destruct b end; try done.
  - apply (fill_step c _ (con_y c * 80 + con_x c)); [done|lia|lia|].
    rewrite Z.shiftr_div_pow2, u32_small by lia. change (2 ^ 1) with 2. dlia.
  - apply (fill_step c _ 0); [done|lia|lia|].
    rewrite Z.shiftr_div_pow2, u32_small by lia. change (2 ^ 1) with 2. dlia.
  - apply (fill_step c _ 0); [done|lia|lia|lia].
Qed.

Lemma csi_K_step p c : con_ok c -> con_step c (csi_K p c).
Proof.
  intros Hc. pose proof Hc as []. unfold csi_K. con_nums.
  assert (Hline : u32 (pos c - 2 * con_x c) = origin c + 2 * (con_y c * 80)) by (con_u32; lia).
  destruct (p =? 0); [|destruct (p =? 1); [|destruct (p =? 2)]]; try done.
  - destruct (con_x c >=? 80) eqn:E; ztest; [done|].
    apply (fill_step c _ (con_y c * 80 + con_x c)); [done|lia|lia|lia].
  - apply (fill_step c _ (con_y c * 80)); [done|done|lia|]. case_match; ztest; lia.
  - apply (fill_step c _ (con_y c * 80)); [done|done|lia|lia].
Qed.

Lemma half_lines x : 0 <= x <= 25 -> Z.shiftr (u32 (x * 80)) 1 = 40 * x.
Proof.
  intros. rewrite Z.shiftr_div_pow2, u32_small by lia. change (2 ^ 1) with 2.
  replace (x * 80) with (40 * x * 2) by lia. apply Z.div_mul. lia.
Qed.

Lemma scroll_region_vmem c : con_ok c -> forall a, ~ video a ->
  vmem (scroll_region c) a = vmem c a.
Proof.
  intros Hc a Ha. pose proof Hc as []. unfold scroll_region. con_nums. cbn [vmem set_field].
  rewrite half_lines by lia. con_u32.
  rewrite fill_up_frame; [apply move_up_frame; [|done]|..|done]; intros k Hk; con_nums; lia.
Qed.
Lemma scrdown_vmem c : con_ok c -> forall a, ~ video a -> vmem (scrdown c) a = vmem c a.
Proof.
  intros Hc a Ha. pose proof Hc as []. unfold scrdown. con_nums. cbn [vmem set_field].
  rewrite half_lines by lia. con_u32.
  rewrite fill_down_frame; [apply move_down_frame; [|done]|..|done]; intros k Hk; con_nums; lia.
Qed.

Lemma scroll_region_step c : con_ok c -> con_step c (scroll_region c).
Proof. intros Hc. split; [destruct Hc; by constructor|]. by apply scroll_region_vmem. Qed.
Lemma scrdown_step c : con_ok c -> con_step c (scrdown c).
Proof. intros Hc. split; [destruct Hc; by constructor|]. by apply scrdown_vmem. Qed.

Lemma ri_step c : con_ok c -> con_step c (ri c).
Proof.
  intros Hc. unfold ri. destruct (con_y c >? con_top c) eqn:E; [|by apply scrdown_step].
  ztest. apply con_step_same; [|done]. pose proof (co_region c Hc). con_ok_tac.
Qed.

Lemma scroll_window_step c : con_ok c -> con_step c (scroll_window c).
Proof.
  intros Hc. unfold scroll_window. cbv zeta. cbn [scr_end origin vmem pos set_field].
  pose proof Hc as []. destruct (u32 (scr_end c + 2 * COLUMNS) >? SCREEN_END) eqn:E; con_nums;
    rewrite u32_small in E by lia; ztest.
  - split.
    + constructor; cbn; con_nums; con_u32; auto; lia.
    + intros a Ha. cbn [vmem set_field]. con_u32.
      change (Z.shiftr ((25 - 1) * 80) 1) with 960.
      rewrite fill_up_frame; [apply move_up_frame; [|done]|..|done]; intros k Hk; con_nums; lia.
  - split.
    + constructor; cbn; con_nums; con_u32; auto; lia.
    + intros a Ha. cbn [vmem set_field]. con_u32. change (2 * Z.shiftr 80 1) with 80.
      apply fill_up_frame; [|done]. intros k Hk. con_nums. lia.
Qed.

Lemma del_step c : con_ok c -> con_step c (del c).
Proof.
  intros Hc. unfold del. destruct (nz (con_x c)) eqn:E; [|done]. ztest. split.
  - con_ok_tac.
  - intros a Ha. cbn. pose proof Hc as []. con_nums. con_u32. apply arr_ne. intros <-. apply Ha. lia.
Qed.

Lemma put_char_step ch c : con_ok c -> con_x c < 80 -> con_step c (put_char ch c).
Proof.
  intros Hc Hx. split.
  - con_ok_tac.
  - intros a Ha. cbn. pose proof Hc as []. con_nums. apply arr_ne. intros <-. apply Ha. lia.
Qed.

Lemma insert_char_step c : con_ok c -> con_step c (insert_char c).
Proof.
  intros Hc. pose proof Hc as []. unfold insert_char. con_nums.
  match goal with |- context [Nat.iter _ ?f _] => set (g := f) end.
  assert (H : forall n, (n <= Z.to_nat (80 - con_x c))%nat ->
    let '(m, p, _) := Nat.iter n g (vmem c, pos c, BLANK) in
    p = pos c + 2 * Z.of_nat n /\ forall a, ~ video a -> m a = vmem c a).
  { induction n as [|n IH]; intros Hn; [split; [lia|done]|].
    specialize (IH ltac:(lia)). rewrite Nat.iter_succ.
    destruct (Nat.iter n g _) as [[m p] old]. destruct IH as [-> Hm]. unfold g. split; [lia|].
    intros a Ha. rewrite arr_ne; [by apply Hm|]. intros <-. apply Ha. con_nums. lia. }
  specialize (H _ (le_n _)). destruct (Nat.iter _ _ _) as [[m p] old]. destruct H as [_ Hm].
  by apply con_step_vmem.
Qed.
Lemma delete_char_step c : con_ok c -> con_step c (delete_char c).
Proof.
  intros Hc. pose proof Hc as []. unfold delete_char. destruct (con_x c >=? COLUMNS) eqn:E; [done|]. ztest.
  con_nums. apply con_step_vmem; [done|]. intros a Ha. rewrite arr_ne.
  - apply move_up_frame; [|done]. intros k Hk. con_nums. lia.
  - intros <-. apply Ha. con_nums. lia.
Qed.

(** The scrolling region is set for one operation and restored. *)
Lemma with_region_ok c : con_ok c -> con_ok (c <| con_top := con_y c |> <| con_bottom := LINES |>).
Proof. intros Hc. con_ok_tac. Qed.
Lemma region_back_step c d : con_ok c ->
  con_step (c <| con_top := con_y c |> <| con_bottom := LINES |>) d ->
  con_step c (d <| con_top := con_top c |> <| con_bottom := con_bottom c |>).
Proof. intros [] [[] Hm]. split; [by constructor|]. intros a Ha. by apply Hm. Qed.
Lemma insert_line_step c : con_ok c -> con_step c (insert_line c).
Proof. intros Hc. apply region_back_step; [done|]. by apply scrdown_step, with_region_ok. Qed.

Lemma iter_step (f : console -> console) n c : (forall d, con_ok d -> con_step d (f d)) ->
  con_ok c -> con_step c (Nat.iter n f c).
Proof.
  intros Hf Hc. induction n as [|n IH]; [done|]. cbn. eapply con_step_trans; [done|].
  apply Hf, IH.
Qed.

(** ** The driver as a whole *)

(** What a run of driver code may do to a sound console [c]: it never faults
    and never gives up the processor, and it ends in a sound console that
    differs from [c] in video memory only. *)
Definition con_safe {A} (c : console) (r : res kstate A) : Prop :=
  match r with
  | Ret _ s' => con_step c (con s')
  | Panic _ _ | NoFuel => True
  | _ => False
  end.
Definition con_code {A} (m : K A) : Prop := forall s, con_ok (con s) -> con_safe (con s) (m s).

Create HintDb con_code.

Lemma con_safe_bind {A B} (m : K A) (f : A -> K B) c s :
  con_safe c (m s) ->
  (forall a s', con_step c (con s') -> con_safe (con s') (f a s')) ->
  con_safe c ((m ≫= f) s).
Proof.
  intros Hm Hf. unfold mbind, M_bind. destruct (m s) as [a s1|?|?|?|]; simpl; try done.
  specialize (Hf a s1 Hm). destruct (f a s1); simpl in *; try done. by eapply con_step_trans.
Qed.
Lemma con_code_bind {A B} (m : K A) (f : A -> K B) :
  con_code m -> (forall a, con_code (f a)) -> con_code (m ≫= f).
Proof. intros Hm Hf s Hc. apply con_safe_bind; [by apply Hm|]. intros a s' [Hs' _]. by apply Hf. Qed.
Lemma con_code_ret {A} (a : A) : con_code (mret a).
Proof. intros s Hc. by apply con_step_refl. Qed.
Lemma con_code_gets {A} (f : kstate -> A) : con_code (gets f).
Proof. intros s Hc. by apply con_step_refl. Qed.
Lemma con_code_setc f : (forall c, con_ok c -> con_step c (f c)) -> con_code (setc f).
Proof. intros Hf s Hc. by apply Hf. Qed.
Lemma con_code_settty i f : con_code (settty i f).
Proof. intros s Hc. by apply con_step_refl. Qed.
Lemma con_code_outb v p : con_code (outb_p v p).
Proof. intros s Hc. by apply con_step_refl. Qed.
Lemma con_code_when b m : con_code m -> con_code (when b m).
Proof. intros Hm. destruct b; [done|apply con_code_ret]. Qed.
Lemma con_code_if {A} (b : bool) (m n : K A) : con_code m -> con_code n -> con_code (if b then m else n).
Proof. by destruct b. Qed.
Lemma con_code_for i n body : (forall j, con_code (body j)) -> con_code (for_ i n body).
Proof.
  intros Hb. revert i. induction n as [|n IH]; intros i; [apply con_code_ret|].
  apply con_code_bind; [apply Hb|intros _; apply IH].
Qed.
Lemma con_code_register r a : con_code (set_register r a).
Proof. repeat (apply con_code_bind; [apply con_code_outb|intros _]). apply con_code_outb. Qed.
#[export] Hint Resolve con_code_ret con_code_gets con_code_settty con_code_outb con_code_when
  con_code_if con_code_for con_code_register : con_code.

Lemma scrup_code : con_code scrup.
Proof.
  apply con_code_bind; [apply con_code_gets|]. intros c. apply con_code_if.
  - apply con_code_bind; [apply con_code_setc, scroll_window_step|]. intros _.
    apply con_code_bind; [apply con_code_gets|]. intros d. apply con_code_register.
  - apply con_code_setc, scroll_region_step.
Qed.

(** A line feed keeps the column. *)
Lemma scrup_x s : match scrup s with Ret _ s' => con_x (con s') = con_x (con s) | _ => True end.
Proof.
  unfold scrup. mrun. destruct (_ && _); [|done].
  unfold setc, set_origin, set_register, outb_p, outb. mrun. unfold modify. cbn [con set_field].
  unfold scroll_window. cbv zeta. by case_match.
Qed.

Lemma lf_spec s : con_ok (con s) ->
  match lf s with
  | Ret _ s' => con_step (con s) (con s') /\ con_x (con s') = con_x (con s)
  | Panic _ _ | NoFuel => True
  | _ => False
  end.
Proof.
  intros Hc. unfold lf. mrun. destruct (_ <? _) eqn:E.
  - cbn. split; [|done]. apply con_step_same; [|done]. ztest. pose proof Hc as [].
    rewrite u32_small in E by lia. con_ok_tac.
  - pose proof (scrup_code s Hc) as H. pose proof (scrup_x s) as Hx.
    destruct (scrup s); simpl in *; try done.
Qed.
Lemma lf_code : con_code lf.
Proof. intros s Hc. pose proof (lf_spec s Hc) as H. destruct (lf s); simpl; try done. apply H. Qed.

Lemma delete_line_code : con_code delete_line.
Proof.
  intros s Hc. unfold delete_line, setc. mrun. cbn [con set_field].
  set (s1 := s <| con ::= _ |>).
  pose proof (scrup_code s1 (with_region_ok _ Hc)) as H.
  unfold mbind, M_bind. destruct (scrup s1) as [u s2|?|?|?|]; simpl in *; try done.
  by apply region_back_step.
Qed.
Lemma csi_M_code p : con_code (csi_M p).
Proof. apply con_code_for. intros _. apply delete_line_code. Qed.
#[export] Hint Resolve lf_code csi_M_code : con_code.
#[export] Hint Extern 1 (con_code (setc _)) =>
  (apply con_code_setc; intros; first
    [ by apply gotoxy_step | by apply csi_J_step | by apply csi_K_step | by apply set_region_step
    | by apply save_cur_step | by apply restore_cur_step | by apply csi_m_step | by apply ri_step
    | by apply cr_step | by apply del_step | by apply at_least_1_step | by apply less_1_step
    | by apply iter_step; [intros; by apply insert_line_step|]
    | by apply iter_step; [intros; by apply insert_char_step|]
    | by apply iter_step; [intros; by apply delete_char_step|] ]) : con_code.

Lemma csi_final_code ch : con_code (csi_final ch).
Proof.
  unfold csi_final. apply con_code_bind.
  { apply con_code_setc. intros c Hc. apply con_step_same; [con_ok_tac|done]. }
  intros _. apply con_code_bind; [apply con_code_gets|]. intros p.
  repeat (apply con_code_if; [eauto 6 using con_code_bind with con_code|]).
  apply con_code_ret.
Qed.

(** A change of the state of the escape sequence only. *)
Lemma set_state_step n c : con_ok c -> con_step c (c <| con_state := n |>).
Proof. intros Hc. apply con_step_same; [con_ok_tac|done]. Qed.

Lemma csi_param_code ch : con_code (csi_param ch).
Proof.
  intros s Hc. unfold csi_param. mrun.
  destruct ((ch =? 59) && (npar (con s) <? NPAR - 1)) eqn:E.
  { ztest. unfold setc, modify. cbn [con_safe con set_field]. apply con_step_same; [|done].
    con_ok_tac. }
  destruct ((ch >=? 48) && _); [by apply set_par_step|].
  eapply con_code_bind; [apply con_code_setc; intros; by apply set_state_step| |done].
  intros _. apply csi_final_code.
Qed.

Lemma csi_first_code ch : con_code (csi_first ch).
Proof.
  unfold csi_first. apply con_code_bind.
  - apply con_code_setc. intros c []. apply con_step_same; [|done]. constructor; cbn; auto; try lia.
    intros i Hi. case_match; [lia|auto].
  - intros _. apply con_code_if; [apply con_code_ret|apply csi_param_code].
Qed.

(** The cursor that stands after the last column goes to the next line. *)
Lemma wrap_lf_spec s : con_ok (con s) ->
  match when (con_x (con s) >=? COLUMNS) (setc wrap;; lf) s with
  | Ret _ s' => con_step (con s) (con s') /\ con_x (con s') < 80
  | Panic _ _ | NoFuel => True
  | _ => False
  end.
Proof.
  intros Hc. rewrite when_run. destruct (con_x (con s) >=? COLUMNS) eqn:E; ztest; con_nums; [|done].
  pose proof (co_x _ Hc).
  unfold setc. mrun. set (s1 := s <| con ::= wrap |>).
  assert (Hw : con_step (con s) (con s1)) by (apply wrap_ok_x; [done|lia]).
  pose proof (lf_spec s1 (proj1 Hw)) as Hlf.
  destruct (lf s1) as [u s2|?|?|?|]; simpl; try done. destruct Hlf as [Hs2 Hx].
  split; [exact (con_step_trans _ _ _ Hw Hs2)|]. rewrite Hx. unfold s1. cbn. con_nums.
  rewrite u32_small by lia. lia.
Qed.

(** A tab moves the cursor to the next multiple of eight. *)
Lemma tab_code : con_code (
  c ← gets con;
  let n := 8 - Z.land (con_x c) 7 in
  setc (fun c => c <| con_x ::= fun x => u32 (x + n) |> <| pos ::= fun a => u32 (a + 2 * n) |>);;
  c ← gets con;
  when (con_x c >? COLUMNS) (setc wrap;; lf)).
Proof.
  intros s Hc. pose proof Hc as []. unfold setc. mrun. cbn [con con_x set_field].
  change 7 with (Z.ones 3). rewrite Z.land_ones by lia. change (2 ^ 3) with 8.
  set (n := 8 - con_x (con s) mod 8). assert (Hn : 1 <= n <= 8) by (unfold n; dlia).
  assert (Hx : con_x (con s) + n <= 80 \/ con_x (con s) = 80 /\ n = 8) by (unfold n; dlia).
  rewrite when_run. con_nums. rewrite (u32_small (con_x (con s) + n)) by lia.
  destruct (con_x (con s) + n >? 80) eqn:E; ztest.
  - destruct Hx as [?|[Hx ->]]; [lia|]. mrun.
    match goal with |- con_safe _ (lf ?t) => set (s1 := t) end.
    assert (Hs1 : con_step (con s) (con s1)).
    { apply con_step_same; [|done]. unfold s1. constructor; cbn; con_nums; con_u32; auto; lia. }
    pose proof (lf_code s1 (proj1 Hs1)) as Hlf. unfold con_safe in *.
    destruct (lf s1); try done.
  - cbn. apply con_step_same; [|done]. constructor; cbn; con_nums; con_u32; auto; lia.
Qed.

Section con_write.
Context (copy_to_cooked : Z -> K unit).
Hypothesis Hcooked : forall tty, con_code (copy_to_cooked tty).

Lemma plain_char_code tty ch : con_code (plain_char tty ch).
Proof.
  intros s Hc. unfold plain_char. mrun. unfold gettty. mrun.
  repeat match goal with |- con_safe _ ((if ?b then _ else _) s) => destruct b eqn:? end.
  - pose proof (wrap_lf_spec s Hc) as H. unfold mbind, M_bind.
    destruct (when _ _ s) as [u s1|?|?|?|]; simpl; try done. destruct H as [Hs1 Hx].
    eapply con_step_trans; [done|]. apply put_char_step; [apply Hs1|done].
  - by apply set_state_step.
  - by apply lf_code.
  - by apply cr_step.
  - by apply del_step.
  - cbn. destruct (nz (con_x (con s))) eqn:Hx; [|done]. ztest.
    apply con_step_same; [con_ok_tac|done].
  - exact (tab_code s Hc).
  - done.
Qed.

Lemma escape_char_code tty ch : con_code (escape_char copy_to_cooked tty ch).
Proof.
  unfold escape_char. apply con_code_bind.
  { apply con_code_setc. intros. by apply set_state_step. }
  intros _ s Hc. mrun.
  repeat match goal with |- con_safe _ ((if ?b then _ else _) s) => destruct b end.
  - by apply set_state_step.
  - by apply gotoxy_step.
  - by apply ri_step.
  - by apply lf_code.
  - apply con_code_bind; [apply con_code_settty|intros _; apply Hcooked|done].
  - by apply save_cur_step.
  - by apply restore_cur_step.
  - done.
Qed.

Lemma con_char_code tty : con_code (con_char copy_to_cooked tty).
Proof.
  unfold con_char. apply con_code_bind; [apply con_code_gets|]. intros t.
  destruct (GETCH _) as [ch q]. apply con_code_bind; [apply con_code_settty|]. intros _.
  apply con_code_bind; [apply con_code_gets|]. intros c.
  repeat apply con_code_if; auto using plain_char_code, escape_char_code, csi_first_code,
    csi_param_code, csi_final_code, con_code_ret.
Qed.

Lemma con_write_code tty : con_code (con_write copy_to_cooked tty).
Proof.
  unfold con_write. apply con_code_bind; [apply con_code_gets|]. intros t.
  apply con_code_bind; [apply con_code_for; intros; apply con_char_code|]. intros _.
  apply con_code_bind; [apply con_code_gets|]. intros c. apply con_code_register.
Qed.
End con_write.
