(* ===== verification/Tty.v ===== *)
(** Terminals, kernel/tty_io.c, kernel/serial.c, fs/tty_ioctl.c and
    fs/ioctl.c: the line discipline between the driver's queues and the
    processes. *)
From S2P Require Export Console Process.
#[local] Open Scope bool_scope.

(** ** Character classes, lib/ctype.c and include/ctype.h *)

Definition _U : Z := 0x01.
Definition _L : Z := 0x02.
Definition _D : Z := 0x04.
Definition _C : Z := 0x08.
Definition _P : Z := 0x10.
Definition _S : Z := 0x20.
Definition _X : Z := 0x40.
Definition _SP : Z := 0x80.

(** lib/ctype.c:4-28: the 257 entries, the first for [EOF]. *)
Definition _ctype : list Z :=
  [0] ++ repeat _C 9 ++ repeat (Z.lor _C _S) 5 ++ repeat _C 18 ++ [Z.lor _S _SP] ++
  repeat _P 15 ++ repeat _D 10 ++ repeat _P 7 ++ repeat (Z.lor _U _X) 6 ++ repeat _U 20 ++
  repeat _P 6 ++ repeat (Z.lor _L _X) 6 ++ repeat _L 20 ++ repeat _P 4 ++ [_C] ++ repeat 0 128.

(** Indices of [c_cc] and bits of the flags, include/termios.h:63-152. *)
Definition VINTR : Z := 0.
Definition VERASE : Z := 2.
Definition VEOF : Z := 4.
Definition VTIME : Z := 5.
Definition VMIN : Z := 6.
Definition VSTART : Z := 8.
Definition VSTOP : Z := 9.
Definition INLCR : Z := 64.
Definition IGNCR : Z := 128.
Definition ICRNL : Z := 256.
Definition IUCLC : Z := 512.
Definition OPOST : Z := 1.
Definition OLCUC : Z := 2.
Definition ONLCR : Z := 4.
Definition OCRNL : Z := 8.
Definition ONLRET : Z := 32.
Definition B2400 : Z := 11.
Definition CS8 : Z := 48.
Definition ISIG : Z := 1.
Definition ICANON : Z := 2.
Definition ECHO : Z := 8.
Definition ECHOCTL : Z := 512.
Definition ECHOKE : Z := 2048.

(** kernel/tty_io.c:24 *)
Definition _L_FLAG (t : tty_struct) (f : Z) : bool := hasbit (c_lflag (tt_termios t)) f.
(** kernel/tty_io.c:25 *)
Definition _I_FLAG (t : tty_struct) (f : Z) : bool := hasbit (c_iflag (tt_termios t)) f.
(** kernel/tty_io.c:26 *)
Definition _O_FLAG (t : tty_struct) (f : Z) : bool := hasbit (c_oflag (tt_termios t)) f.
(** include/linux/tty.h:36-40 *)
Definition cc (t : tty_struct) (i : Z) : Z := c_cc (tt_termios t) i.

(** include/linux/tty.h:60: the characters of the string, and the two bytes
    that follow the field. *)
Definition INIT_C_CC : list Z := [3; 28; 127; 21; 4; 0; 1; 0; 17; 19; 25; 0; 18; 15; 23; 22; 0].

(** kernel/tty_io.c:47-88 *)
Definition initial_tty (i : Z) : tty_struct :=
  let line o c l := {| c_iflag := 0; c_oflag := o; c_cflag := c; c_lflag := l; c_line := 0;
                       c_cc k := nth (Z.to_nat k) INIT_C_CC 0 |} in
  let queue port := zero_queue <| q_data := port |> in
  if i =? 0 then
    mk_tty_struct (line (Z.lor OPOST ONLCR) 0 (Z.lor ICANON (Z.lor ECHO (Z.lor ECHOCTL ECHOKE))))
      0 0 con_writer (queue 0) (queue 0) (queue 0)
  else
    let port := if i =? 1 then 0x3f8 else 0x2f8 in
    mk_tty_struct (line (Z.lor OPOST ONLRET) (Z.lor B2400 CS8) 0)
      0 0 rs_writer (queue port) (queue port) (queue 0).

(** The wait queues of a terminal's queues. *)
Definition wq_secondary (i : Z) : option wqueue := Some
  {| wq_get s := q_proc_list (tt_secondary (tty_table s i));
     wq_set p s := s <| tty_table ::= fun t =>
       <[i := (t i) <| tt_secondary ::= fun q => q <| q_proc_list := p |> |>]> t |> |}.
Definition wq_write_q (i : Z) : option wqueue := Some
  {| wq_get s := q_proc_list (tt_write_q (tty_table s i));
     wq_set p s := s <| tty_table ::= fun t =>
       <[i := (t i) <| tt_write_q ::= fun q => q <| q_proc_list := p |> |>]> t |> |}.

(** A character put into, or taken from, a queue of a terminal. *)
Definition put_write (i c : Z) : K unit := settty i (fun t => t <| tt_write_q ::= PUTCH c |>).
Definition put_secondary (i c : Z) : K unit := settty i (fun t => t <| tt_secondary ::= PUTCH c |>).
Definition get_secondary (i : Z) : K Z :=
  t ← gettty i;
  settty i (fun t => t <| tt_secondary := snd (GETCH (tt_secondary t)) |>);;
  mret (fst (GETCH (tt_secondary t))).
Definition get_read (i : Z) : K Z :=
  t ← gettty i;
  settty i (fun t => t <| tt_read_q := snd (GETCH (tt_read_q t)) |>);;
  mret (fst (GETCH (tt_read_q t))).

(** kernel/tty_io.c:112-121 *)
Definition tty_intr (tty signal : Z) : K unit :=
  t ← gettty tty;
  if tt_pgrp t <=? 0 then mret tt
  else for_ 0 (Z.to_nat NR_TASKS) (fun i =>
    s ← get;
    match task s i with
    | None => mret tt
    | Some p =>
        when (t_pgrp (tsk s p) =? tt_pgrp t)
          (sett p (fun x => x <| t_signal ::= fun g => Z.lor g (s32 (Z.shiftl 1 (signal - 1))) |>))
    end).

Section tty.
Context `{Machine}.

(** The table [_ctype + 1], indexed with a signed character. *)
Definition ctype_at (c : Z) : Z :=
  if c + 1 <? 0 then below_ctype (c + 1) else nth (Z.to_nat (c + 1)) _ctype 0.
(** include/ctype.h:25 *)
Definition isupper (c : Z) : bool := hasbit (ctype_at c) _U.
(** include/ctype.h:21 *)
Definition islower (c : Z) : bool := hasbit (ctype_at c) _L.
(** include/ctype.h:31 *)
Definition tolower (c : Z) : Z := if isupper (s8 c) then s8 c + (97 + 65) else s8 c.
(** include/ctype.h:32 *)
Definition toupper (c : Z) : Z := if islower (s8 c) then s8 c + (65 - 97) else s8 c.

(** kernel/serial.c:47-53 *)
Definition rs_write (tty : Z) : K unit :=
  t ← gettty tty;
  when (negb (EMPTY (tt_write_q t)))
    (let port := q_data (tt_write_q t) + 1 in
     v ← inb_p port;
     outb (Z.lor v 0x02) port).

(** kernel/serial.c:20-29 *)
Definition init (port : Z) : K unit :=
  outb_p 0x80 (port + 3);;
  outb_p 0x30 port;;
  outb_p 0x00 (port + 1);;
  outb_p 0x03 (port + 3);;
  outb_p 0x0b (port + 4);;
  outb_p 0x0d (port + 1);;
  inb port;;
  mret tt.

(** kernel/serial.c:31-38 *)
Definition rs_init : K unit :=
  set_intr_gate 0x24 (address_of at_rs1_interrupt);;
  set_intr_gate 0x23 (address_of at_rs2_interrupt);;
  t ← gettty 1;
  init (q_data (tt_read_q t));;
  t ← gettty 2;
  init (q_data (tt_read_q t));;
  v ← inb_p 0x21;
  outb (Z.land v 0xE7) 0x21.

(** kernel/tty_io.c:104-110 *)
Definition tty_init (x y : Z) : K unit := rs_init;; con_init x y.

(** kernel/tty_io.c:123-129 *)
Definition sleep_if_empty (tty : Z) : K unit :=
  while fuel (c ← me; t ← gettty tty; mret (negb (nz (t_signal c)) && EMPTY (tt_secondary t)))
    (interruptible_sleep_on fuel (wq_secondary tty)).

(** kernel/tty_io.c:131-139 *)
Definition sleep_if_full (tty : Z) : K unit :=
  t ← gettty tty;
  when (FULL (tt_write_q t))
    (while fuel (c ← me; t ← gettty tty; mret (negb (nz (t_signal c)) && (LEFT (tt_write_q t) <? 128)))
       (interruptible_sleep_on fuel (wq_write_q tty))).

Section cooked.
(** [tty->write(tty)] *)
Context (write : Z -> K unit).

(** kernel/tty_io.c:191-206: the character is echoed and stored. *)
Definition store_cooked (tty c : Z) : K unit :=
  t ← gettty tty;
  when ((c =? 10) || (c =? cc t VEOF))
    (settty tty (fun t => t <| tt_secondary ::= fun q => q <| q_data ::= fun d => u32 (d + 1) |> |>));;
  when (_L_FLAG t ECHO)
    ((if c =? 10 then put_write tty 10;; put_write tty 13
      else if c <? 32 then
        when (_L_FLAG t ECHOCTL) (put_write tty 94;; put_write tty (c + 64))
      else put_write tty c);;
     write tty);;
  put_secondary tty c.

(** kernel/tty_io.c:162-175: the last character is erased. *)
Definition erase_cooked (tty : Z) : K unit :=
  t ← gettty tty;
  let c := LAST (tt_secondary t) in
  if EMPTY (tt_secondary t) || (c =? 10) || (c =? cc t VEOF) then mret tt
  else
    when (_L_FLAG t ECHO)
      (when (c <? 32) (put_write tty 127);;
       put_write tty 127;;
       write tty);;
    settty tty (fun t => t <| tt_secondary ::= fun q => q <| q_head ::= DEC |> |>).

(** kernel/tty_io.c:149-207, one round of the loop. *)
Definition cooked_step (tty : Z) (_ : unit) : K (unit + unit) :=
  t ← gettty tty;
  if EMPTY (tt_read_q t) || FULL (tt_secondary t) then mret (inr tt)
  else
    c ← get_read tty;
    let c' :=
      if c =? 13 then
        if _I_FLAG t ICRNL then Some 10 else if _I_FLAG t IGNCR then None else Some c
      else if (c =? 10) && _I_FLAG t INLCR then Some 13
      else Some c in
    match c' with
    | None => mret (inl tt)
    | Some c =>
        let c := if _I_FLAG t IUCLC then s8 (tolower c) else c in
        (if _L_FLAG t ICANON && (c =? cc t VERASE) then erase_cooked tty
         else if _L_FLAG t ICANON && (c =? cc t VSTOP) then settty tty (fun t => t <| tt_stopped := 1 |>)
         else if _L_FLAG t ICANON && (c =? cc t VSTART) then settty tty (fun t => t <| tt_stopped := 0 |>)
         else if negb (_L_FLAG t ISIG) && (c =? cc t VINTR) then tty_intr tty SIGINT
         else store_cooked tty c);;
        mret (inl tt)
    end.

(** kernel/tty_io.c:145-209 *)
Definition cook (tty : Z) : K unit :=
  loop fuel (cooked_step tty) tt;;
  wake_up (wq_secondary tty).
End cooked.

(** The call through the [write] pointer of a terminal. *)
Definition tty_out (cooked : Z -> K unit) (tty : Z) : K unit :=
  t ← gettty tty;
  match tt_write t with
  | con_writer => con_write cooked tty
  | rs_writer => rs_write tty
  end.

(** [copy_to_cooked] echoes through the driver, and the console driver calls
    it back to answer a query; [n] bounds the depth of these calls. *)
Fixpoint cook_at (n : nat) (tty : Z) : K unit :=
  match n with
  | O => nofuel
  | S n => cook (tty_out (cook_at n)) tty
  end.

(** kernel/tty_io.c:145-209 *)
Definition copy_to_cooked (tty : Z) : K unit := cook_at fuel tty.
Definition write_tty (tty : Z) : K unit := tty_out copy_to_cooked tty.

(** kernel/tty_io.c:314-317 *)
Definition do_tty_interrupt (tty : Z) : K unit := copy_to_cooked tty.

(** kernel/tty_io.c:242-253: characters are taken until a line or the queue
    ends.  [inr] is the return on an end-of-file character. *)
Definition read_chars (tty nr b : Z) : K ((Z * Z) + Z) :=
  r ← loop fuel (fun '(nr, b) =>
    t ← gettty tty;
    c ← get_secondary tty;
    when ((c =? cc t VEOF) || (c =? 10))
      (settty tty (fun t => t <| tt_secondary ::= fun q => q <| q_data ::= fun d => u32 (d - 1) |> |>));;
    if (c =? cc t VEOF) && _L_FLAG t ICANON then mret (inr (inr b))
    else
      put_fs_byte c b;;
      let nr := nr - 1 in
      let b := b + 1 in
      t ← gettty tty;
      if (nr >? 0) && negb (EMPTY (tt_secondary t)) then mret (inl (nr, b))
      else mret (inr (inl (nr, b)))) (nr, b);
  mret r.

Definition ALRMMASK : Z := Z.shiftl 1 (SIGALRM - 1).

(** kernel/tty_io.c:225-226 and 255-258 *)
Definition sooner (time oldalarm now : Z) : bool :=
  negb (nz oldalarm) || (s32 (time + now) <? oldalarm).

(** kernel/tty_io.c:230-265, one round of the loop: [nr] characters are still
    wanted, the next goes to [b].  [inr (Some v)] returns [v]; [inr None]
    leaves the loop. *)
Definition read_step (tty buf minimum time oldalarm : Z) (x : Z * Z * bool)
    : K ((Z * Z * bool) + (Z * option Z)) :=
  let '(nr, b, flag) := x in
  if negb (nr >? 0) then mret (inr (b, None))
  else
    c ← me;
    if flag && hasbit (t_signal c) ALRMMASK then
      setme (fun t => t <| t_signal ::= fun g => Z.land g (Z.lnot ALRMMASK) |>);;
      mret (inr (b, None))
    else if nz (t_signal c) then mret (inr (b, None))
    else
      t ← gettty tty;
      let q := tt_secondary t in
      if EMPTY q || (_L_FLAG t ICANON && negb (nz (q_data q)) && (LEFT q >? 20)) then
        sleep_if_empty tty;;
        mret (inl (nr, b, flag))
      else
        r ← read_chars tty nr b;
        match r with
        | inr b => mret (inr (b, Some (b - buf)))
        | inl (nr, b) =>
            t ← gettty tty;
            s ← get;
            let canon := _L_FLAG t ICANON in
            let timed := nz time && negb canon in
            let flag := if timed then sooner time oldalarm (jiffies s) else flag in
            when timed
              (setme (fun t => t <| t_alarm := if flag then s32 (time + jiffies s) else oldalarm |>));;
            if (if canon then nz (b - buf) else b - buf >=? minimum) then mret (inr (b, None))
            else mret (inl (nr, b, flag))
        end.

(** kernel/tty_io.c:211-270 *)
Definition tty_read (channel buf nr : Z) : K Z :=
  if (channel >? 2) || (nr <? 0) then mret (-1)
  else
    c ← me;
    t ← gettty channel;
    s ← get;
    let oldalarm := t_alarm c in
    let time := 10 * cc t VTIME in
    let minimum := cc t VMIN in
    let timed := nz time && negb (nz minimum) in
    let minimum := if timed then 1 else minimum in
    let flag := timed && sooner time oldalarm (jiffies s) in
    when flag (setme (fun t => t <| t_alarm := s32 (time + jiffies s) |>));;
    let minimum := if minimum >? nr then nr else minimum in
    '(b, r) ← loop fuel (read_step channel buf minimum time oldalarm) (nr, buf, flag);
    match r with
    | Some v => mret v
    | None =>
        setme (fun t => t <| t_alarm := oldalarm |>);;
        c ← me;
        if nz (t_signal c) && negb (nz (b - buf)) then mret (- EINTR) else mret (b - buf)
    end.

(** kernel/tty_io.c:284-302, one round of the loop: output processing of the
    character at [b].  A carriage return is put before a line feed. *)
Definition write_step (tty : Z) (x : Z * Z) : K ((Z * Z) + (Z * Z)) :=
  let '(nr, b) := x in
  t ← gettty tty;
  if negb (nr >? 0) || FULL (tt_write_q t) then mret (inr (nr, b))
  else
    c ← get_fs_byte b;
    let c := s8 c in
    s ← get;
    let c :=
      if _O_FLAG t OPOST then
        if (c =? 13) && _O_FLAG t OCRNL then 10
        else if (c =? 10) && _O_FLAG t ONLRET then 13 else c
      else c in
    if _O_FLAG t OPOST && (c =? 10) && negb (nz (cr_flag s)) && _O_FLAG t ONLCR then
      modify (fun s => s <| cr_flag := 1 |>);;
      put_write tty 13;;
      mret (inl (nr, b))
    else
      let c := if _O_FLAG t OPOST && _O_FLAG t OLCUC then s8 (toupper c) else c in
      modify (fun s => s <| cr_flag := 0 |>);;
      put_write tty c;;
      mret (inl (nr - 1, b + 1)).

(** kernel/tty_io.c:272-308 *)
Definition tty_write (channel buf nr : Z) : K Z :=
  if (channel >? 2) || (nr <? 0) then mret (-1)
  else
    loop fuel (fun '(nr, b) =>
      if negb (nr >? 0) then mret (inr (b - buf))
      else
        sleep_if_full channel;;
        c ← me;
        if nz (t_signal c) then mret (inr (b - buf))
        else
          '(nr, b) ← loop fuel (write_step channel) (nr, b);
          write_tty channel;;
          when (nr >? 0) (schedule fuel);;
          mret (inl (nr, b))) (nr, buf).

(** ** Control, fs/tty_ioctl.c *)

(** fs/tty_ioctl.c:11-16 *)
Definition flush (q : tty_queue) : tty_queue := q <| q_head := q_tail q |>.

(** Byte [i] of a [struct termios]: 36 bytes, of which the last two are
    padding, kept behind the 17 control characters. *)
Definition termios_byte (t : termios) (i : Z) : Z :=
  let of_long v k := u8 (v / 256 ^ k) in
  if i <? 4 then of_long (c_iflag t) i
  else if i <? 8 then of_long (c_oflag t) (i - 4)
  else if i <? 12 then of_long (c_cflag t) (i - 8)
  else if i <? 16 then of_long (c_lflag t) (i - 12)
  else if i =? 16 then u8 (c_line t)
  else u8 (c_cc t (i - 17)).

(** fs/tty_ioctl.c:28-36 *)
Definition get_termios (tty arg : Z) : K Z :=
  verify_area arg 36;;
  for_ 0 36 (fun i => t ← gettty tty; put_fs_byte (termios_byte (tt_termios t) i) (arg + i));;
  mret 0.

(** fs/tty_ioctl.c:38-45 *)
Definition set_termios (tty arg : Z) : K Z :=
  s ← get;
  let u := user s in
  settty tty (fun t => t <| tt_termios :=
    {| c_iflag := le32 u arg; c_oflag := le32 u (arg + 4); c_cflag := le32 u (arg + 8);
       c_lflag := le32 u (arg + 12); c_line := u (arg + 16);
       c_cc := fun k => u (arg + 17 + k) |} |>);;
  mret 0.

(** Byte [i] of the [struct termio] that [get_termio] fills in: 18 bytes, of
    which the last is padding. *)
Definition termio_byte (t : termios) (i : Z) : Z :=
  let of_short v k := u8 (v / 256 ^ k) in
  if i <? 2 then of_short (c_iflag t) i
  else if i <? 4 then of_short (c_oflag t) (i - 2)
  else if i <? 6 then of_short (c_cflag t) (i - 4)
  else if i <? 8 then of_short (c_lflag t) (i - 6)
  else if i =? 8 then u8 (c_line t)
  else if i <? 17 then u8 (c_cc t (i - 9))
  else u8 (stack_junk i).

(** fs/tty_ioctl.c:47-63 *)
Definition get_termio (tty arg : Z) : K Z :=
  verify_area arg 18;;
  t ← gettty tty;
  for_ 0 18 (fun i => put_fs_byte (termio_byte (tt_termios t) i) (arg + i));;
  mret 0.

(** fs/tty_ioctl.c:65-80: only the lower halves of the flags change. *)
Definition set_termio (tty arg : Z) : K Z :=
  s ← get;
  let u := user s in
  let low v o := 65536 * (v / 65536) + le16 u o in
  settty tty (fun t => t <| tt_termios ::= fun m =>
    {| c_iflag := low (c_iflag m) arg; c_oflag := low (c_oflag m) (arg + 2);
       c_cflag := low (c_cflag m) (arg + 4); c_lflag := low (c_lflag m) (arg + 6);
       c_line := u (arg + 8);
       c_cc := fun k => if (0 <=? k) && (k <? 8) then u (arg + 9 + k) else c_cc m k |} |>);;
  mret 0.

(** The commands that do something, include/termios.h:8-24. *)
Definition TCGETS : Z := 0x5401.
Definition TCSETS : Z := 0x5402.
Definition TCSETSW : Z := 0x5403.
Definition TCSETSF : Z := 0x5404.
Definition TCGETA : Z := 0x5405.
Definition TCSETA : Z := 0x5406.
Definition TCSETAW : Z := 0x5407.
Definition TCSETAF : Z := 0x5408.
Definition TCSBRK : Z := 0x5409.
Definition TCFLSH : Z := 0x540B.
Definition TIOCGPGRP : Z := 0x540F.
Definition TIOCSPGRP : Z := 0x5410.
Definition TIOCOUTQ : Z := 0x5411.

(** fs/tty_ioctl.c:82-166 *)
Definition tty_ioctl (dev cmd arg : Z) : K Z :=
  c ← me;
  let flush_read := fun dev => settty dev (fun t => t <| tt_read_q ::= flush |>) in
  let flush_write := fun dev => settty dev (fun t => t <| tt_write_q ::= flush |>) in
  let run dev :=
    if cmd =? TCGETS then get_termios dev arg
    else if cmd =? TCSETSF then flush_read dev;; set_termios dev arg
    else if (cmd =? TCSETSW) || (cmd =? TCSETS) then set_termios dev arg
    else if cmd =? TCGETA then get_termio dev arg
    else if cmd =? TCSETAF then flush_read dev;; set_termio dev arg
    else if (cmd =? TCSETAW) || (cmd =? TCSETA) then set_termio dev arg
    else if cmd =? TCSBRK then mret 0
    else if cmd =? TCFLSH then
      if arg =? 0 then flush_read dev;; mret 0
      else if arg =? 1 then flush_write dev;; mret 0
      else if arg =? 2 then flush_read dev;; flush_write dev;; mret 0
      else mret (- EINVAL)
    else if cmd =? TIOCGPGRP then
      verify_area arg 4;;
      t ← gettty dev;
      put_fs_long (tt_pgrp t) arg;;
      mret 0
    else if cmd =? TIOCSPGRP then
      v ← get_fs_long arg;
      settty dev (fun t => t <| tt_pgrp := s32 v |>);;
      mret 0
    else if cmd =? TIOCOUTQ then
      verify_area arg 4;;
      t ← gettty dev;
      put_fs_long (CHARS (tt_write_q t)) arg;;
      mret 0
    else mret (- EINVAL) in
  if MAJOR dev =? 5 then
    if t_tty c <? 0 then panic "tty_ioctl: dev<0" else run (t_tty c)
  else run (MINOR dev).

(** fs/ioctl.c:24-40; of the eight entries of the table only 4 and 5 have a
    function. *)
Definition sys_ioctl (fd cmd arg : Z) : K Z :=
  r ← get_filp fd;
  match r with
  | None => mret (- EBADF)
  | Some filp =>
      f ← getf filp;
      inode ← deref (f_inode f);
      n ← geti inode;
      if negb (S_ISCHR (i_mode n)) && negb (S_ISBLK (i_mode n)) then mret (- EINVAL)
      else
        let dev := i_zone n 0 in
        if MAJOR dev >=? 8 then panic "unknown device for ioctl"
        else if (MAJOR dev =? 4) || (MAJOR dev =? 5) then tty_ioctl dev cmd arg
        else mret (- ENOTTY)
  end.

(** fs/char_dev.c:26-30 *)
Definition rw_ttyx (rw minor buf count : Z) : K Z :=
  if rw =? READ then tty_read minor buf count else tty_write minor buf count.

(** fs/char_dev.c:32-37 *)
Definition rw_tty (rw buf count : Z) : K Z :=
  c ← me;
  if t_tty c <? 0 then mret (- EPERM) else rw_ttyx rw (t_tty c) buf count.

(** fs/char_dev.c:39-50, with the table of lines 16-24. *)
Definition rw_char (rw dev buf count : Z) : K Z :=
  if MAJOR dev >=? 8 then panic "rw_char: dev>NRDEV"
  else if MAJOR dev =? 4 then rw_ttyx rw (MINOR dev) buf count
  else if MAJOR dev =? 5 then rw_tty rw buf count
  else
    printk "dev: %04x\n" [dev];;
    panic "Trying to r/w from/to nonexistent character device".
End tty.

(** ** Output never leaves the screen

    The console driver and the line discipline call each other; whatever the
    queues hold, and however deep these calls go, the console stays sound and
    only cells of video memory are written. *)

Section safe.
Context `{Machine}.

Lemma con_code_modify f : (forall s, con (f s) = con s) -> con_code (modify f).
Proof. intros Hf s Hc. simpl. rewrite Hf. by apply con_step_refl. Qed.
Lemma con_code_sett p f : con_code (sett p f).
Proof. by apply con_code_modify. Qed.
Lemma con_code_inb p : con_code (inb_p p).
Proof. intros s Hc. by apply con_step_refl. Qed.
Lemma con_code_loop {B A} n (body : B -> K (B + A)) b :
  (forall b, con_code (body b)) -> con_code (loop n body b).
Proof.
  intros Hb. revert b. induction n as [|n IH]; intros b; [done|].
  apply con_code_bind; [apply Hb|]. intros [b'|a]; [apply IH|apply con_code_ret].
Qed.
Lemma con_code_match {A} (p : option A) (m : A -> K unit) n :
  (forall a, con_code (m a)) -> con_code n ->
  con_code (match p with Some a => m a | None => n end).
Proof. intros. by destruct p. Qed.
#[local] Hint Resolve con_code_sett con_code_inb con_code_bind con_code_modify : con_code.

Lemma wake_up_code tty : con_code (wake_up (wq_secondary tty)).
Proof.
  unfold wake_up, wq_secondary. apply con_code_bind; [apply con_code_gets|].
  intros [t|]; eauto with con_code.
Qed.
Lemma tty_intr_code tty sig : con_code (tty_intr tty sig).
Proof.
  unfold tty_intr. apply con_code_bind; [apply con_code_gets|]. intros t.
  apply con_code_if; [apply con_code_ret|]. apply con_code_for. intros i.
  apply con_code_bind; [intros s Hc; by apply con_step_refl|]. intros s.
  apply con_code_match; eauto with con_code.
Qed.
Lemma rs_write_code tty : con_code (rs_write tty).
Proof.
  unfold rs_write, gettty, outb. apply con_code_bind; [apply con_code_gets|]. intros t.
  apply con_code_when. cbv zeta. eauto with con_code.
Qed.

Section cook.
Context (write : Z -> K unit) (Hwrite : forall tty, con_code (write tty)).

Lemma put_write_code tty c : con_code (put_write tty c).
Proof. apply con_code_settty. Qed.
Lemma put_secondary_code tty c : con_code (put_secondary tty c).
Proof. apply con_code_settty. Qed.
#[local] Hint Resolve put_write_code put_secondary_code Hwrite : con_code.

Lemma store_cooked_code tty c : con_code (store_cooked write tty c).
Proof.
  unfold store_cooked, gettty. apply con_code_bind; [apply con_code_gets|]. intros t.
  apply con_code_bind; [eauto with con_code|]. intros _.
  apply con_code_bind; [|eauto with con_code]. apply con_code_when, con_code_bind; [|eauto with con_code].
  apply con_code_if; [eauto with con_code|]. apply con_code_if; eauto with con_code.
Qed.
Lemma erase_cooked_code tty : con_code (erase_cooked write tty).
Proof.
  unfold erase_cooked, gettty. apply con_code_bind; [apply con_code_gets|]. intros t. cbv zeta.
  apply con_code_if; [apply con_code_ret|]. apply con_code_bind; [|eauto with con_code].
  apply con_code_when, con_code_bind; eauto with con_code.
Qed.
Lemma cooked_step_code tty u : con_code (cooked_step write tty u).
Proof.
  unfold cooked_step, gettty, get_read, gettty. apply con_code_bind; [apply con_code_gets|]. intros t.
  apply con_code_if; [apply con_code_ret|].
  apply con_code_bind.
  { apply con_code_bind; [apply con_code_gets|]. intros q. eauto with con_code. }
  intros c. cbv zeta.
  match goal with |- con_code (match ?c with Some _ => _ | None => _ end) => destruct c as [d|] end;
    [|apply con_code_ret].
  apply con_code_bind; [|eauto with con_code].
  repeat apply con_code_if; auto using erase_cooked_code, con_code_settty, tty_intr_code, store_cooked_code.
Qed.
Lemma cook_code tty : con_code (cook write tty).
Proof.
  apply con_code_bind; [|intros _; apply wake_up_code].
  apply con_code_loop. intros u. apply cooked_step_code.
Qed.
End cook.

Lemma tty_out_code cooked tty : (forall t, con_code (cooked t)) -> con_code (tty_out cooked tty).
Proof.
  intros Hcooked. unfold tty_out, gettty. apply con_code_bind; [apply con_code_gets|]. intros t.
  destruct (tt_write t); [by apply con_write_code|apply rs_write_code].
Qed.

Lemma cook_at_code n tty : con_code (cook_at n tty).
Proof.
  revert tty. induction n as [|n IH]; intros tty; [done|].
  apply cook_code. intros t. by apply tty_out_code.
Qed.

(** C27: Whatever a process writes to the console and whatever is typed on it,
    with every escape sequence and the echo, the console driver keeps the
    cursor, the scroll region, the saved position and the parameters in range
    and stores nowhere but in video memory. *)
Theorem console_safe tty s :
  con_ok (con s) ->
  con_safe (con s) (copy_to_cooked tty s) /\ con_safe (con s) (write_tty tty s).
Proof.
  intros Hc. split; [by apply cook_at_code|].
  apply tty_out_code; [|done]. intros t. apply cook_at_code.
Qed.
End safe.

(** The console as the boot leaves it, with [ESC Z] - the query the terminal
    answers - and a letter in its write queue. *)
Definition booted_console : console := zero_console
  <| origin := SCREEN_START |> <| scr_end := SCREEN_START + 4000 |> <| pos := SCREEN_START |>
  <| con_bottom := LINES |> <| attr := 7 |>.
Definition querying : kstate := zero_kstate
  <| con := booted_console |>
  <| tty_table := fun i => (initial_tty i) <| tt_write_q ::=
       fun q => PUTCH 65 (PUTCH 90 (PUTCH 27 q)) |> |>.

Lemma booted_ok : con_ok booted_console.
Proof.
  split; cbn -[Z.add Z.mul Z.div]; con_nums; try (vm_compute; intuition discriminate).
Qed.

Lemma console_safe_witness : @con_safe unit booted_console (@write_tty quiet_machine 0 querying).
Proof. exact (proj2 (@console_safe quiet_machine 0 querying booted_ok)). Defined.
