(* ===== verification/ReadWrite.v ===== *)
(** Reading and writing open files: pipes (fs/pipe.c), regular files
    (fs/file_dev.c) and the dispatch of sys_read and sys_write
    (fs/read_write.c). *)
From S2P Require Export Tty.
#[local] Open Scope bool_scope.

(** include/linux/fs.h:106 *)
Definition PIPE_SIZE (n : m_inode) : Z := Z.land (PIPE_HEAD n - PIPE_TAIL n) (PAGE_SIZE - 1).
(** include/linux/fs.h:107 *)
Definition PIPE_EMPTY (n : m_inode) : bool := PIPE_HEAD n =? PIPE_TAIL n.
(** include/linux/fs.h:108 *)
Definition PIPE_FULL (n : m_inode) : bool := PIPE_SIZE n =? PAGE_SIZE - 1.
(** include/linux/fs.h:109-110 *)
Definition INC_PIPE (head : Z) : Z := Z.land (u32 (head + 1)) 4095.

(** The address of the byte of the pipe at offset [o]: [i_size] holds the
    address of the page of a pipe. *)
Definition pipe_at (n : m_inode) (o : Z) : Z := u32 (i_size n + o).

Section rw.
Context `{Machine}.

(** fs/pipe.c:22-27: [false] when no writer is left. *)
Definition wait_readable (inode : Z) : K bool :=
  loop fuel (fun _ : unit =>
    n ← geti inode;
    if negb (PIPE_EMPTY n) then mret (inr true)
    else
      wake_up (wq_i_wait inode);;
      n ← geti inode;
      if negb (i_count n =? 2) then mret (inr false)
      else sleep_on fuel (wq_i_wait inode);; mret (inl tt)) tt.

(** fs/pipe.c:28-32: the number of bytes taken; [count] rounds at most. *)
Definition take_bytes (inode buf count : Z) : K Z :=
  loop (S (Z.to_nat count)) (fun b =>
    n ← geti inode;
    if (count - (b - buf) >? 0) && negb (PIPE_EMPTY n) then
      c ← gets (fun s => phys s (pipe_at n (PIPE_TAIL n)));
      put_fs_byte c b;;
      seti inode (fun n => set_pipe_tail (INC_PIPE (PIPE_TAIL n)) n);;
      mret (inl (b + 1))
    else mret (inr (b - buf))) buf.

(** fs/pipe.c:18-35 *)
Definition read_pipe (inode buf count : Z) : K Z :=
  ok ← wait_readable inode;
  if negb ok then mret 0
  else
    n ← take_bytes inode buf count;
    wake_up (wq_i_wait inode);;
    mret n.

(** fs/pipe.c:46,53 *)
Definition sigpipe : K unit :=
  setme (fun t => t <| t_signal ::= fun g => Z.lor g (Z.shiftl 1 (SIGPIPE - 1)) |>).

(** fs/pipe.c:50-57: [false] when no reader is left. *)
Definition wait_writable (inode : Z) : K bool :=
  loop fuel (fun _ : unit =>
    n ← geti inode;
    if negb (PIPE_FULL n) then mret (inr true)
    else
      wake_up (wq_i_wait inode);;
      n ← geti inode;
      if negb (i_count n =? 2) then sigpipe;; mret (inr false)
      else sleep_on fuel (wq_i_wait inode);; mret (inl tt)) tt.

(** fs/pipe.c:58-60 *)
Definition put_pipe (inode b : Z) : K unit :=
  n ← geti inode;
  c ← get_fs_byte b;
  modify (fun s => s <| phys ::= <[pipe_at n (PIPE_HEAD n) := c]> |>);;
  seti inode (fun n => set_pipe_head (INC_PIPE (PIPE_HEAD n)) n);;
  wake_up (wq_i_wait inode).

(** fs/pipe.c:41-65 *)
Definition write_pipe (inode buf count : Z) : K Z :=
  wake_up (wq_i_wait inode);;
  n ← geti inode;
  if negb (i_count n =? 2) then sigpipe;; mret (-1)
  else
    '(ok, r) ← loop (S (Z.to_nat count)) (fun b =>
      if negb (count - (b - buf) >? 0) then mret (inr (true, b - buf))
      else
        ok ← wait_writable inode;
        if negb ok then mret (inr (false, b - buf))
        else put_pipe inode b;; mret (inl (b + 1))) buf;
    if negb ok then mret r
    else wake_up (wq_i_wait inode);; mret r.

(** fs/pipe.c:78-80 and 86-90: the next free entry from [i] on. *)
Definition free_file_from (s : kstate) (i : Z) : ptr :=
  scan (fun k => negb (nz (f_count (file_table s k)))) i (Z.to_nat (NR_FILE - i)).

(** fs/pipe.c:95-115, once there are two files and two descriptors. *)
Definition make_pipe (fildes f0 f1 fd0 fd1 : Z) : K Z :=
  r ← get_pipe_inode;
  match r with
  | None =>
      setme (set_filp fd1 None);;
      setme (set_filp fd0 None);;
      setf f1 (fun x => x <| f_count := 0 |>);;
      setf f0 (fun x => x <| f_count := 0 |>);;
      mret (-1)
  | Some inode =>
      setf f1 (fun x => x <| f_inode := Some inode |>);;
      setf f0 (fun x => x <| f_inode := Some inode |>);;
      setf f1 (fun x => x <| f_pos := 0 |>);;
      setf f0 (fun x => x <| f_pos := 0 |>);;
      setf f0 (fun x => x <| f_mode := 1 |>);;
      setf f1 (fun x => x <| f_mode := 2 |>);;
      put_fs_long fd0 fildes;;
      put_fs_long fd1 (fildes + 4);;
      mret 0
  end.

(** fs/pipe.c:71-115 *)
Definition sys_pipe (fildes : Z) : K Z :=
  r0 ← gets (fun s => free_file_from s 0);
  match r0 with
  | None => mret (-1)
  | Some f0 =>
      setf f0 (fun x => x <| f_count ::= fun c => u16 (c + 1) |>);;
      r1 ← gets (fun s => free_file_from s (f0 + 1));
      match r1 with
      | None => setf f0 (fun x => x <| f_count := 0 |>);; mret (-1)
      | Some f1 =>
          setf f1 (fun x => x <| f_count ::= fun c => u16 (c + 1) |>);;
          let abandon :=
            setf f1 (fun x => x <| f_count := 0 |>);;
            setf f0 (fun x => x <| f_count := 0 |>);;
            mret (-1) in
          t ← me;
          match free_fd t 0 with
          | None => abandon
          | Some fd0 =>
              setme (set_filp fd0 (Some f0));;
              t ← me;
              match free_fd t (fd0 + 1) with
              | None => setme (set_filp fd0 None);; abandon
              | Some fd1 =>
                  setme (set_filp fd1 (Some f1));;
                  make_pipe fildes f0 f1 fd0 fd1
              end
          end
      end
  end.

(** fs/file_dev.c:22-41, one round of the loop, with [more] bytes to go to
    [buf]. *)
Definition read_round (inode filp : Z) (x : Z * Z) : K ((Z * Z) + Z) :=
  let '(more, buf) := x in
  if negb (nz more) then mret (inr more)
  else
    f ← getf filp;
    nr ← bmap inode (Z.quot (f_pos f) BLOCK_SIZE);
    n ← geti inode;
    r ← (if nz nr then
           bh ← bread (i_dev n) nr;
           mret (option_map Some bh)
         else mret (Some None));
    match r with
    | None => mret (inr more)
    | Some bh =>
        f ← getf filp;
        let nr := Z.rem (f_pos f) BLOCK_SIZE in
        let chars := if BLOCK_SIZE - nr <? more then BLOCK_SIZE - nr else more in
        setf filp (fun x => x <| f_pos ::= fun p => s32 (p + chars) |>);;
        match bh with
        | Some bh =>
            for_ 0 (Z.to_nat chars) (fun i =>
              b ← getb bh; put_fs_byte (b_data b (nr + i)) (buf + i));;
            brelse (Some bh)
        | None => for_ 0 (Z.to_nat chars) (fun i => put_fs_byte 0 (buf + i))
        end;;
        mret (inl (more - chars, buf + chars))
    end.

(** fs/file_dev.c:11-40.  A round takes at least one byte. *)
Definition file_read (inode filp buf count : Z) : K Z :=
  if count <=? 0 then mret 0
  else
    more ← loop (S (Z.to_nat count)) (read_round inode filp) (count, buf);
    t ← CURRENT_TIME;
    seti inode (fun n => n <| i_atime := u32 t |>);;
    mret (if nz (count - more) then count - more else - ERROR).

(** fs/file_dev.c:63-81, one round of the loop, with [i] bytes done; the next
    comes from [buf] and goes to [pos]. *)
Definition write_round (inode count : Z) (x : Z * Z * Z) : K ((Z * Z * Z) + (Z * Z)) :=
  let '(i, pos, buf) := x in
  if negb (i <? count) then mret (inr (i, pos))
  else
    block ← create_block inode (Z.quot pos BLOCK_SIZE);
    if negb (nz block) then mret (inr (i, pos))
    else
      n ← geti inode;
      r ← bread (i_dev n) block;
      match r with
      | None => mret (inr (i, pos))
      | Some bh =>
          let p := Z.rem pos BLOCK_SIZE in
          setb bh (fun b => b <| b_dirt := 1 |>);;
          let c := BLOCK_SIZE - p in
          let c := if c >? count - i then count - i else c in
          let pos := s32 (pos + c) in
          n ← geti inode;
          when (u32 pos >? i_size n)
            (seti inode (fun n => n <| i_size := u32 pos |>);;
             seti inode (fun n => n <| i_dirt := 1 |>));;
          for_ 0 (Z.to_nat c) (fun k =>
            x ← get_fs_byte (buf + k);
            setb bh (fun b => b <| b_data ::= <[p + k := x]> |>));;
          brelse (Some bh);;
          mret (inl (i + c, pos, buf + c))
      end.

(** fs/file_dev.c:42-84 *)
Definition file_write (inode filp buf count : Z) : K Z :=
  f ← getf filp;
  n ← geti inode;
  let append := hasbit (f_flags f) O_APPEND in
  '(i, pos) ← loop (S (Z.to_nat count)) (write_round inode count)
                   (0, if append then s32 (i_size n) else f_pos f, buf);
  t ← CURRENT_TIME;
  seti inode (fun n => n <| i_mtime := u32 t |>);;
  f ← getf filp;
  when (negb (hasbit (f_flags f) O_APPEND))
    (setf filp (fun x => x <| f_pos := pos |>);;
     t ← CURRENT_TIME;
     seti inode (fun n => n <| i_ctime := u32 t |>));;
  mret (if nz i then i else -1).

(** fs/read_write.c:64-91 *)
Definition sys_read (fd buf count : Z) : K Z :=
  r ← get_filp fd;
  match r with
  | None => mret (- EINVAL)
  | Some file =>
      if count <? 0 then mret (- EINVAL)
      else if negb (nz count) then mret 0
      else
        verify_area buf count;;
        f ← getf file;
        inode ← deref (f_inode f);
        n ← geti inode;
        if nz (i_pipe n) then
          if hasbit (f_mode f) 1 then read_pipe inode buf count else mret (-1)
        else if S_ISCHR (i_mode n) then rw_char READ (i_zone n 0) buf count
        else if S_ISBLK (i_mode n) then
          block_read (i_zone n 0) file buf count
        else if S_ISDIR (i_mode n) || S_ISREG (i_mode n) then
          let count :=
            if u32 (count + f_pos f) >? i_size n then s32 (i_size n - f_pos f) else count in
          if count <=? 0 then mret 0 else file_read inode file buf count
        else
          printk " [FS] Error: Unsupported read mode (inode->i_mode=%06o)\n\r" [i_mode n];;
          mret (- EINVAL)
  end.

(** fs/read_write.c:97-118 *)
Definition sys_write (fd buf count : Z) : K Z :=
  r ← get_filp fd;
  match r with
  | None => mret (- EINVAL)
  | Some file =>
      if count <? 0 then mret (- EINVAL)
      else if negb (nz count) then mret 0
      else
        f ← getf file;
        inode ← deref (f_inode f);
        n ← geti inode;
        if nz (i_pipe n) then
          if hasbit (f_mode f) 2 then write_pipe inode buf count else mret (-1)
        else if S_ISCHR (i_mode n) then rw_char WRITE (i_zone n 0) buf count
        else if S_ISBLK (i_mode n) then
          block_write (i_zone n 0) file buf count
        else if S_ISREG (i_mode n) then file_write inode file buf count
        else
          printk " [FS] Error: Unsupported write mode (inode->i_mode=%06o)\n\r" [i_mode n];;
          mret (- EINVAL)
  end.
End rw.

(** ** A pipe is a queue of bytes *)

Record pipe_ok (n : m_inode) : Prop := {
  po_head : 0 <= PIPE_HEAD n < 4096;
  po_tail : 0 <= PIPE_TAIL n < 4096;
  po_page : 0 <= i_size n <= 4294967296 - 4096;
}.
(** The bytes in a pipe, oldest first. *)
Definition pipe_list (s : kstate) (inode : Z) : list Z :=
  let n := inode_table s inode in
  ring (fun o => phys s (i_size n + o)) 4096 (PIPE_TAIL n) (Z.to_nat (PIPE_SIZE n)).

Lemma land_4095 x : Z.land x 4095 = x mod 4096.
Proof. change 4095 with (Z.ones 12). by rewrite Z.land_ones by lia. Qed.
Lemma PIPE_SIZE_eq n : PIPE_SIZE n = (PIPE_HEAD n - PIPE_TAIL n) mod 4096.
Proof. apply land_4095. Qed.
Lemma pipe_size_range n : 0 <= PIPE_SIZE n < 4096.
Proof. rewrite PIPE_SIZE_eq. apply Z.mod_pos_bound. lia. Qed.
Lemma INC_PIPE_eq x : INC_PIPE x = (x + 1) mod 4096.
Proof. unfold INC_PIPE, u32. rewrite land_4095. dlia. Qed.
Lemma INC_PIPE_range x : 0 <= INC_PIPE x < 4096.
Proof. rewrite INC_PIPE_eq. apply Z.mod_pos_bound. lia. Qed.
Lemma pipe_empty_size n : pipe_ok n -> PIPE_EMPTY n = (PIPE_SIZE n =? 0).
Proof.
  intros [Hh Ht _]. unfold PIPE_EMPTY. rewrite PIPE_SIZE_eq.
  generalize dependent (PIPE_HEAD n). generalize dependent (PIPE_TAIL n). clear n. intros t Ht h Hh.
  apply eq_true_iff_eq. rewrite !Z.eqb_eq. split; intros H; dlia.
Qed.

Lemma head_of_words x n : 0 <= x < 4096 -> PIPE_HEAD (set_pipe_head x n) = x.
Proof.
  intros. unfold PIPE_HEAD, set_pipe_head. simpl. arr_decide. unfold u16.
  replace (x mod 65536 + 65536 * ((x / 65536) mod 65536)) with x by dlia. apply s32_small. lia.
Qed.
Lemma tail_of_words x n : 0 <= x < 4096 -> PIPE_TAIL (set_pipe_tail x n) = x.
Proof.
  intros. unfold PIPE_TAIL, set_pipe_tail. simpl. arr_decide. unfold u16.
  replace (x mod 65536 + 65536 * ((x / 65536) mod 65536)) with x by dlia. apply s32_small. lia.
Qed.
Lemma tail_keeps_head x n : PIPE_HEAD (set_pipe_tail x n) = PIPE_HEAD n.
Proof. unfold PIPE_HEAD, set_pipe_tail. simpl. by arr_decide. Qed.
Lemma head_keeps_tail x n : PIPE_TAIL (set_pipe_head x n) = PIPE_TAIL n.
Proof. unfold PIPE_TAIL, set_pipe_head. simpl. by arr_decide. Qed.
#[local] Hint Rewrite tail_keeps_head head_keeps_tail : kern.

Lemma length_pipe_list s inode : Z.of_nat (length (pipe_list s inode)) = PIPE_SIZE (inode_table s inode).
Proof. unfold pipe_list. rewrite length_ring. pose proof (pipe_size_range (inode_table s inode)). lia. Qed.

(** The state once the sleepers on an inode have been woken. *)
Definition woken (inode : Z) (s : kstate) : kstate :=
  match i_wait (inode_table s inode) with
  | None => s
  | Some t => upd_inode inode (fun n => n <| i_wait := None |>)
                (upd_task t (fun x => x <| t_state := TASK_RUNNING |>) s)
  end.

Lemma wake_inode_run inode s : wake_up (wq_i_wait inode) s = Ret tt (woken inode s).
Proof. unfold wake_up, wq_i_wait, woken. mrun. simpl. by destruct (i_wait _). Qed.
Lemma woken_inode inode s :
  inode_table (woken inode s) inode = (inode_table s inode) <| i_wait := None |>.
Proof.
  unfold woken. destruct (i_wait _) eqn:E; [by rewrite upd_inode_eq|].
  destruct (inode_table s inode). simpl in *. by subst.
Qed.
Lemma woken_list inode s : pipe_list (woken inode s) inode = pipe_list s inode.
Proof. unfold pipe_list. rewrite woken_inode. unfold woken. by destruct (i_wait _). Qed.
Lemma woken_ok inode s : pipe_ok (inode_table s inode) -> pipe_ok (inode_table (woken inode s) inode).
Proof. rewrite woken_inode. intros []. by split. Qed.
Lemma woken_user inode s : user (woken inode s) = user s.
Proof. unfold woken. by destruct (i_wait _). Qed.
Lemma woken_phys inode s : phys (woken inode s) = phys s.
Proof. unfold woken. by destruct (i_wait _). Qed.
Lemma woken_idle inode s : i_wait (inode_table s inode) = None -> woken inode s = s.
Proof. unfold woken. by intros ->. Qed.
#[local] Hint Rewrite woken_list woken_user woken_phys : kern.

(** One byte out of a pipe, one byte into it. *)
Definition pipe_taken (inode b : Z) (s : kstate) : kstate :=
  let n := inode_table s inode in
  upd_inode inode (set_pipe_tail (INC_PIPE (PIPE_TAIL n)))
    (s <| user ::= <[b := u8 (phys s (pipe_at n (PIPE_TAIL n)))]> |>).
Definition pipe_given (inode c : Z) (s : kstate) : kstate :=
  let n := inode_table s inode in
  upd_inode inode (set_pipe_head (INC_PIPE (PIPE_HEAD n)))
    (s <| phys ::= <[pipe_at n (PIPE_HEAD n) := c]> |>).

Lemma pipe_at_eq n o : pipe_ok n -> 0 <= o < 4096 -> pipe_at n o = i_size n + o.
Proof. intros [] ?. apply u32_small. lia. Qed.

Lemma pipe_taken_spec inode b s : pipe_ok (inode_table s inode) -> PIPE_SIZE (inode_table s inode) <> 0 ->
  bytes (phys s) ->
  let s' := pipe_taken inode b s in
  pipe_ok (inode_table s' inode) /\
  PIPE_SIZE (inode_table s' inode) = PIPE_SIZE (inode_table s inode) - 1 /\
  exists c, pipe_list s inode = c :: pipe_list s' inode /\ user s' = <[b := c]> (user s).
Proof.
  intros Hok Hne Hb. set (n := inode_table s inode) in *. unfold pipe_taken. fold n. cbv zeta.
  assert (Hn : inode_table (upd_inode inode (set_pipe_tail (INC_PIPE (PIPE_TAIL n)))
      (s <| user ::= <[b := u8 (phys s (pipe_at n (PIPE_TAIL n)))]> |>)) inode
    = set_pipe_tail (INC_PIPE (PIPE_TAIL n)) n) by apply upd_inode_eq.
  pose proof (INC_PIPE_range (PIPE_TAIL n)) as Hi. pose proof (pipe_size_range n) as Hr.
  destruct Hok as [Hh Ht Hp].
  assert (Hs : PIPE_SIZE (set_pipe_tail (INC_PIPE (PIPE_TAIL n)) n) = PIPE_SIZE n - 1).
  { rewrite !PIPE_SIZE_eq in *. rewrite tail_of_words, tail_keeps_head, INC_PIPE_eq by done. dlia. }
  rewrite Hn. split_and!.
  - split; [by rewrite tail_keeps_head|by rewrite tail_of_words|done].
  - done.
  - exists (phys s (i_size n + PIPE_TAIL n)). split.
    + unfold pipe_list at 1. fold n.
      replace (Z.to_nat (PIPE_SIZE n)) with (S (Z.to_nat (PIPE_SIZE n - 1))) by lia.
      rewrite ring_cons by done. f_equal. unfold pipe_list. rewrite Hn, Hs.
      rewrite tail_of_words, INC_PIPE_eq by done. done.
    + simpl. rewrite pipe_at_eq by (done || split; done). by rewrite u8_small by apply Hb.
Qed.

Lemma pipe_given_spec inode c s : pipe_ok (inode_table s inode) ->
  PIPE_SIZE (inode_table s inode) <> 4095 ->
  let s' := pipe_given inode c s in
  pipe_ok (inode_table s' inode) /\
  PIPE_SIZE (inode_table s' inode) = PIPE_SIZE (inode_table s inode) + 1 /\
  pipe_list s' inode = pipe_list s inode ++ [c] /\
  (forall a, a < i_size (inode_table s inode) \/ i_size (inode_table s inode) + 4096 <= a ->
     phys s' a = phys s a).
Proof.
  intros Hok Hne. set (n := inode_table s inode) in *. unfold pipe_given. fold n. cbv zeta.
  assert (Hat := pipe_at_eq n (PIPE_HEAD n) Hok ltac:(apply Hok)). rewrite Hat.
  assert (Hn : inode_table (upd_inode inode (set_pipe_head (INC_PIPE (PIPE_HEAD n)))
      (s <| phys ::= <[i_size n + PIPE_HEAD n := c]> |>)) inode
    = set_pipe_head (INC_PIPE (PIPE_HEAD n)) n) by apply upd_inode_eq.
  pose proof (INC_PIPE_range (PIPE_HEAD n)) as Hi. pose proof (pipe_size_range n) as Hr.
  destruct Hok as [Hh Ht Hp].
  assert (Hs : PIPE_SIZE (set_pipe_head (INC_PIPE (PIPE_HEAD n)) n) = PIPE_SIZE n + 1).
  { rewrite !PIPE_SIZE_eq in *. rewrite head_of_words, head_keeps_tail, INC_PIPE_eq by done. dlia. }
  rewrite Hn. split_and!.
  - split; [by rewrite head_of_words|by rewrite head_keeps_tail|done].
  - done.
  - unfold pipe_list. rewrite Hn, Hs. fold n. rewrite head_keeps_tail.
    replace (Z.to_nat (PIPE_SIZE n + 1)) with (S (Z.to_nat (PIPE_SIZE n))) by lia.
    rewrite ring_snoc. simpl. f_equal.
    + apply ring_ext. intros k Hk. rewrite arr_ne; [done|]. rewrite !PIPE_SIZE_eq in *.
      intros E. dlia.
    + f_equal. rewrite Z2Nat.id by lia. rewrite arr_dec, decide_True; [done|].
      f_equal. rewrite PIPE_SIZE_eq. dlia.
  - intros a Ha. simpl. rewrite arr_ne; [done|lia].
Qed.

(** Nothing but the zone words of the inode, user memory and the pages of
    pipes differ. *)
Definition only_pipe (inode : Z) (s s' : kstate) : Prop :=
  exists z u m, s' = upd_inode inode (fun n => n <| i_zone := z |>) (s <| user := u |> <| phys := m |>).

Lemma only_pipe_refl inode s : only_pipe inode s s.
Proof.
  exists (i_zone (inode_table s inode)), (user s), (phys s). symmetry.
  transitivity (upd_inode inode (fun n => n) s); [|by apply upd_inode_id].
  destruct s. unfold upd_inode, set_field. simpl. do 2 f_equal. by destruct (inode_table inode).
Qed.
Lemma only_pipe_trans inode s1 s2 s3 :
  only_pipe inode s1 s2 -> only_pipe inode s2 s3 -> only_pipe inode s1 s3.
Proof.
  intros (z & u & m & ->) (z' & u' & m' & ->). exists z', u', m'.
  set (t := s1 <| user := u |> <| phys := m |>).
  change (upd_inode inode (fun n => n <| i_zone := z' |>)
    (upd_inode inode (fun n => n <| i_zone := z |>) (t <| user := u' |> <| phys := m' |>)) =
    upd_inode inode (fun n => n <| i_zone := z' |>) (t <| user := u' |> <| phys := m' |>)).
  rewrite upd_inode_fuse. by apply upd_inode_ext.
Qed.
Lemma pipe_taken_only inode b s : only_pipe inode s (pipe_taken inode b s).
Proof.
  exists (i_zone (inode_table (pipe_taken inode b s) inode)), (user (pipe_taken inode b s)), (phys s).
  transitivity (upd_inode inode (set_pipe_tail (INC_PIPE (PIPE_TAIL (inode_table s inode))))
    (s <| user := user (pipe_taken inode b s) |> <| phys := phys s |>)); [by destruct s|].
  apply upd_inode_ext. unfold pipe_taken. by rewrite upd_inode_eq.
Qed.
Lemma pipe_given_only inode c s : only_pipe inode s (pipe_given inode c s).
Proof.
  exists (i_zone (inode_table (pipe_given inode c s) inode)), (user s), (phys (pipe_given inode c s)).
  transitivity (upd_inode inode (set_pipe_head (INC_PIPE (PIPE_HEAD (inode_table s inode))))
    (s <| user := user s |> <| phys := phys (pipe_given inode c s) |>)); [by destruct s|].
  apply upd_inode_ext. unfold pipe_given. by rewrite upd_inode_eq.
Qed.
Lemma only_pipe_inode inode s s' : only_pipe inode s s' ->
  i_wait (inode_table s' inode) = i_wait (inode_table s inode) /\
  i_count (inode_table s' inode) = i_count (inode_table s inode) /\
  i_size (inode_table s' inode) = i_size (inode_table s inode) /\ tsk s' = tsk s.
Proof. intros (z & u & m & ->). by rewrite upd_inode_eq. Qed.

Section pipe.
Context `{Machine}.

Lemma take_loop inode buf count s k b :
  pipe_ok (inode_table s inode) -> bytes (phys s) -> count - (b - buf) = Z.of_nat k ->
  exists s', loop (S k) (fun b =>
      n ← geti inode;
      if (count - (b - buf) >? 0) && negb (PIPE_EMPTY n) then
        c ← gets (fun s => phys s (pipe_at n (PIPE_TAIL n)));
        put_fs_byte c b;;
        seti inode (fun n => set_pipe_tail (INC_PIPE (PIPE_TAIL n)) n);;
        mret (inl (b + 1))
      else mret (inr (b - buf))) b s
    = Ret (b - buf + Z.of_nat (length (take k (pipe_list s inode)))) s' /\
    only_pipe inode s s' /\ phys s' = phys s /\ pipe_ok (inode_table s' inode) /\
    pipe_list s' inode = drop k (pipe_list s inode) /\
    user s' = store_bytes (user s) b (take k (pipe_list s inode)).
Proof.
  revert s b. induction k as [|k IH]; intros s b Hok Hb Hk.
  - exists s. cbn [loop]. mrun. replace (count - (b - buf) >? 0) with false by lia.
    simpl. rewrite Z.add_0_r. split_and!; try done. apply only_pipe_refl.
  - cbn [loop]. mrun. replace (count - (b - buf) >? 0) with true by lia.
    rewrite pipe_empty_size by done. pose proof (length_pipe_list s inode) as Hl.
    destruct (Z.eqb_spec (PIPE_SIZE (inode_table s inode)) 0) as [E|E]; cbn [andb negb].
    + exists s. rewrite E in Hl. destruct (pipe_list s inode); [|done].
      simpl. rewrite Z.add_0_r. split_and!; try done. apply only_pipe_refl.
    + destruct (pipe_taken_spec inode b s Hok E Hb) as (Hok' & Hs & c & Hc & Hu).
      destruct (IH (pipe_taken inode b s) (b + 1) Hok') as (s' & Hrun & Ho & Hp & Hok2 & Hl2 & Hu2).
      { done. } { lia. }
      exists s'. mrun. rewrite Hc. cbn [take drop length].
      split_and!; try done.
      * replace (b - buf + Z.of_nat (S _))
          with (b + 1 - buf + Z.of_nat (length (take k (pipe_list (pipe_taken inode b s) inode)))) by lia.
        exact Hrun.
      * eapply only_pipe_trans; [apply pipe_taken_only|exact Ho].
      * by rewrite Hu2, Hu.
Qed.

Hypothesis Hfuel : (0 < fuel)%nat.

Lemma loop_fuel {S B A} (body : B -> M S (B + A)) b :
  loop fuel body b = (x ← body b; match x with inl b' => loop (pred fuel) body b' | inr a => mret a end).
Proof. destruct fuel; [lia|done]. Qed.

Lemma wait_readable_run inode s : PIPE_EMPTY (inode_table s inode) = false ->
  wait_readable inode s = Ret true s.
Proof. intros E. unfold wait_readable. rewrite loop_fuel. mrun. by rewrite E. Qed.
Lemma wait_writable_run inode s : PIPE_FULL (inode_table s inode) = false ->
  wait_writable inode s = Ret true s.
Proof. intros E. unfold wait_writable. rewrite loop_fuel. mrun. by rewrite E. Qed.

Lemma put_pipe_run inode b s : i_wait (inode_table s inode) = None ->
  put_pipe inode b s = Ret tt (pipe_given inode (user s b) s).
Proof.
  intros Hw. unfold put_pipe, get_fs_byte. mrun. rewrite wake_inode_run. f_equal.
  apply woken_idle. unfold pipe_given. by rewrite upd_inode_eq.
Qed.

(** C29: A pipe is a queue of bytes: read_pipe on a pipe that holds some takes
    the oldest, as many as asked for or all there are, gives them to the process
    in order, leaves the rest, and wakes the process that waits for room; on an
    empty pipe with no writer left it returns 0. *)
Theorem read_pipe_spec inode buf count s :
  let l := pipe_list s inode in
  pipe_ok (inode_table s inode) -> bytes (phys s) -> 0 < count ->
  (l <> [] -> exists s' k, read_pipe inode buf count s = Ret k s' /\
     k = Z.min count (Z.of_nat (length l)) /\
     pipe_list s' inode = drop (Z.to_nat k) l /\
     user s' = store_bytes (user s) buf (take (Z.to_nat k) l) /\
     pipe_ok (inode_table s' inode) /\ i_wait (inode_table s' inode) = None /\ phys s' = phys s /\
     forall t, tsk s' t = if decide (i_wait (inode_table s inode) = Some t)
                          then (tsk s t) <| t_state := TASK_RUNNING |> else tsk s t) /\
  (l = [] -> i_count (inode_table s inode) <> 2 -> read_pipe inode buf count s = Ret 0 (woken inode s)).
Proof.
  intros l Hok Hb Hc. pose proof (length_pipe_list s inode) as Hlen. fold l in Hlen.
  assert (He := pipe_empty_size _ Hok). unfold read_pipe. split; intros Hl.
  - rewrite (bind_Ret _ _ _ _ _ (wait_readable_run inode s ltac:(rewrite He; destruct l; [done|simpl in Hlen; lia]))).
    mrun. cbn [negb].
    destruct (take_loop inode buf count s (Z.to_nat count) buf Hok Hb ltac:(lia))
      as (s' & Hrun & Ho & Hp & Hok' & Hl' & Hu).
    rewrite (bind_Ret _ _ _ _ _ Hrun), (bind_Ret _ _ _ _ _ (wake_inode_run inode s')).
    destruct (only_pipe_inode _ _ _ Ho) as (Hw & _ & _ & Ht). fold l in Hl', Hu |- *.
    exists (woken inode s'), (Z.of_nat (length (take (Z.to_nat count) l))).
    rewrite length_take, woken_list, woken_user, woken_phys, Hl', Hu, woken_inode.
    rewrite Nat2Z.id. split_and!; try done.
    + f_equal. lia.
    + lia.
    + destruct (decide (Z.to_nat count <= length l)%nat).
      * by rewrite Nat.min_l by done.
      * rewrite Nat.min_r, !drop_ge by lia. done.
    + destruct (decide (Z.to_nat count <= length l)%nat).
      * by rewrite Nat.min_l by done.
      * rewrite Nat.min_r, !take_ge by lia. done.
    + destruct Hok'. by split.
    + intros t. unfold woken. rewrite Hw. destruct (i_wait (inode_table s inode)) as [p|]; simpl.
      * rewrite Ht, arr_dec. repeat case_decide; congruence.
      * by rewrite Ht.
  - intros Hn. unfold wait_readable. rewrite loop_fuel. mrun.
    rewrite Hl in Hlen. rewrite He, <- Hlen. change (Z.of_nat (length (@nil Z)) =? 0) with true. cbn [negb]. mrun.
    rewrite (bind_Ret _ _ _ _ _ (wake_inode_run inode s)). mrun. rewrite woken_inode. simpl.
    by rewrite (proj2 (Z.eqb_neq _ _) Hn).
Qed.

Lemma give_loop inode buf count s k b :
  pipe_ok (inode_table s inode) -> i_wait (inode_table s inode) = None ->
  count - (b - buf) = Z.of_nat k -> Z.of_nat (length (pipe_list s inode)) + Z.of_nat k <= 4095 ->
  exists s', loop (S k) (fun b =>
      if negb (count - (b - buf) >? 0) then mret (inr (true, b - buf))
      else
        ok ← wait_writable inode;
        if negb ok then mret (inr (false, b - buf))
        else put_pipe inode b;; mret (inl (b + 1))) b s
    = Ret (true, count) s' /\
    only_pipe inode s s' /\ user s' = user s /\ pipe_ok (inode_table s' inode) /\
    pipe_list s' inode = pipe_list s inode ++ load_bytes (user s) b k /\
    (forall a, a < i_size (inode_table s inode) \/ i_size (inode_table s inode) + 4096 <= a ->
       phys s' a = phys s a).
Proof.
  revert s b. induction k as [|k IH]; intros s b Hok Hw Hk Hroom.
  - exists s. cbn [loop]. mrun. replace (count - (b - buf) >? 0) with false by lia.
    replace (b - buf) with count by lia. simpl. rewrite app_nil_r.
    split_and!; try done. apply only_pipe_refl.
  - cbn [loop]. mrun. replace (count - (b - buf) >? 0) with true by lia. cbn [negb]. mrun.
    pose proof (length_pipe_list s inode) as Hl.
    rewrite (bind_Ret _ _ _ _ _ (wait_writable_run inode s ltac:(unfold PIPE_FULL, PAGE_SIZE; lia))).
    cbn [negb]. mrun. rewrite (bind_Ret _ _ _ _ _ (put_pipe_run inode b s Hw)). mrun.
    destruct (pipe_given_spec inode (user s b) s Hok ltac:(lia)) as (Hok' & Hs & Hc & Hp).
    pose proof (pipe_given_only inode (user s b) s) as Ho.
    destruct (only_pipe_inode _ _ _ Ho) as (Hw' & _ & Hsz & _).
    destruct (IH (pipe_given inode (user s b) s) (b + 1) Hok') as (s' & Hrun & Ho2 & Hu2 & Hok2 & Hl2 & Hp2).
    { congruence. } { lia. } { rewrite Hc, length_app. simpl. lia. }
    exists s'. split_and!; try done.
    + eapply only_pipe_trans; [exact Ho|exact Ho2].
    + by rewrite Hl2, Hc, <- app_assoc.
    + intros a Ha. rewrite Hp2 by (by rewrite Hsz). by apply Hp.
Qed.

(** C30: write_pipe of bytes that fit in a pipe with a reader appends them to
    the queue, in order, stores nowhere outside the pipe's page and wakes the
    process that waits for data; with no reader it returns -1, sends SIGPIPE to
    the writer and changes nothing in the pipe. *)
Theorem write_pipe_spec inode buf count s c :
  let l := pipe_list s inode in
  pipe_ok (inode_table s inode) -> 0 < count -> current s = Some c ->
  (i_count (inode_table s inode) = 2 -> Z.of_nat (length l) + count <= 4095 ->
     exists s', write_pipe inode buf count s = Ret count s' /\
       pipe_list s' inode = l ++ load_bytes (user s) buf (Z.to_nat count) /\
       pipe_ok (inode_table s' inode) /\ i_wait (inode_table s' inode) = None /\ user s' = user s /\
       (forall a, a < i_size (inode_table s inode) \/ i_size (inode_table s inode) + 4096 <= a ->
          phys s' a = phys s a) /\
       forall t, tsk s' t = if decide (i_wait (inode_table s inode) = Some t)
                            then (tsk s t) <| t_state := TASK_RUNNING |> else tsk s t) /\
  (i_count (inode_table s inode) <> 2 ->
     exists s', write_pipe inode buf count s = Ret (-1) s' /\
       Z.testbit (t_signal (tsk s' c)) 12 = true /\ pipe_list s' inode = l /\ user s' = user s).
Proof.
  intros l Hok Hc Hcur. unfold write_pipe. rewrite (bind_Ret _ _ _ _ _ (wake_inode_run inode s)). mrun.
  rewrite woken_inode. cbn [i_count]. split.
  - intros Hn Hroom. change (i_count (set_field i_wait _ (inode_table s inode))) with (i_count (inode_table s inode)).
    rewrite Hn. cbn [Z.eqb negb Pos.eqb].
    destruct (give_loop inode buf count (woken inode s) (Z.to_nat count) buf)
      as (s' & Hrun & Ho & Hu & Hok' & Hl & Hp).
    { by apply woken_ok. } { by rewrite woken_inode. } { lia. } { rewrite woken_list. fold l. lia. }
    rewrite (bind_Ret _ _ _ _ _ Hrun). cbn [negb].
    destruct (only_pipe_inode _ _ _ Ho) as (Hw & _ & Hsz & Ht). rewrite woken_inode in Hw, Hp. simpl in Hw.
    rewrite (bind_Ret _ _ _ _ _ (wake_inode_run inode s')), woken_idle by done.
    exists s'. rewrite woken_list, woken_user in *. rewrite Hl. split_and!; try done.
    + intros a Ha. rewrite Hp, woken_phys; done.
    + intros t. rewrite Ht. unfold woken. destruct (i_wait (inode_table s inode)) as [p|]; [|done].
      simpl. rewrite arr_dec. repeat case_decide; congruence.
  - intros Hn. change (i_count (set_field i_wait _ (inode_table s inode))) with (i_count (inode_table s inode)).
    rewrite (proj2 (Z.eqb_neq _ _) Hn). cbn [negb]. unfold sigpipe, setme, cur. mrun.
    assert (Hcur' : current (woken inode s) = Some c) by (unfold woken; by destruct (i_wait _)).
    rewrite Hcur'. mrun. eexists. split; [done|]. rewrite upd_task_eq. split_and!.
    + change (Z.testbit (Z.lor (t_signal (tsk (woken inode s) c)) (Z.shiftl 1 (SIGPIPE - 1))) 12 = true).
      rewrite Z.lor_spec. by rewrite orb_true_r.
    + apply woken_list.
    + apply woken_user.
Qed.
End pipe.

(** ** Making a pipe *)

Lemma files_ok_same s s' : files_ok s -> task s' = task s -> current s' = current s ->
  (forall p k, t_filp (tsk s' p) k = t_filp (tsk s p) k) ->
  (forall f, f_count (file_table s' f) = f_count (file_table s f)) -> files_ok s'.
Proof.
  intros Hok Ht Hc Hfd Hn.
  assert (Hr : forall f, file_refs s' f = file_refs s f).
  { intros f. apply zsum_ext. intros i _. unfold slot_refs. rewrite Ht.
    destruct (task s i); [|done]. apply zsum_ext. intros k _. by rewrite Hfd. }
  split.
  - rewrite Ht. apply Hok.
  - rewrite Ht, Hc. apply Hok.
  - intros i p fd f. rewrite Ht, Hfd. by apply Hok.
  - intros f Hf. rewrite Hn, Hr. by apply Hok.
Qed.

(** A step that keeps processes, open files and user memory. *)
Record keeps_files (s s' : kstate) : Prop := {
  kf_task : task s' = task s;
  kf_tsk : tsk s' = tsk s;
  kf_current : current s' = current s;
  kf_table : file_table s' = file_table s;
  kf_user : user s' = user s;
}.

Section make.
Context `{Machine}.

(** A fresh pipe: empty, with a reader and a writer. *)
Definition new_pipe (s : kstate) (e : Z) : Prop :=
  i_pipe (inode_table s e) = 1 /\ i_count (inode_table s e) = 2 /\
  pipe_ok (inode_table s e) /\ pipe_list s e = [].

Lemma get_pipe_inode_run s e :
  (0 < fuel)%nat -> 0 <= last_allocated_inode s < 32 -> find_empty s = Some e ->
  i_lock (inode_table s e) = 0 -> i_dirt (inode_table s e) = 0 ->
  exists r s', get_pipe_inode s = Ret r s' /\ keeps_files s s' /\
    (r = None \/ r = Some e /\ new_pipe s' e).
Proof.
  intros Hf Hl He Hlock Hdirt. unfold get_pipe_inode.
  rewrite (bind_Ret _ _ _ _ _ (get_empty_inode_run e s Hf Hl He Hlock Hdirt)).
  set (s1 := empty_taken e s). assert (K1 : keeps_files s s1) by done. clearbody s1.
  destruct (get_free_page_cases s1) as [[Hrun _]|(i & Hi & _ & _ & Hrun)];
    rewrite (bind_Ret _ _ _ _ _ Hrun); mrun.
  - cbn [negb nz Z.eqb]. mrun. eexists _, _. split; [done|]. destruct K1. split; [|by left].
    split; done.
  - assert (Hfr : 0 < frame i <= 4294967296 - 4096).
    { unfold frame, frame_ok in *. change PAGING_PAGES with 1536 in Hi. change LOW_MEM with 0x200000. lia. }
    replace (nz (frame i)) with true by (symmetry; apply nz_true; lia). cbn [negb]. mrun.
    eexists _, _. split; [done|]. destruct K1. split; [split; done|]. right. split; [done|].
    unfold new_pipe, pipe_list. rewrite !upd_inode_fuse, upd_inode_eq.
    set (n := inode_table (taken i s1) e).
    assert (Hh : forall x, PIPE_HEAD (set_pipe_head 0 x) = 0) by (intros; by apply head_of_words).
    assert (Ht : forall x, PIPE_TAIL (set_pipe_tail 0 x) = 0) by (intros; by apply tail_of_words).
    split_and!; [done|done| |].
    + split; cbn [i_size]; try done; simpl; lia.
    + done.
Qed.

Lemma free_file_from_Some s i f : 0 <= i -> free_file_from s i = Some f ->
  i <= f < NR_FILE /\ f_count (file_table s f) = 0.
Proof.
  unfold free_file_from, NR_FILE. intros Hi E. apply scan_Some in E as (? & Hc & _). ztest.
  split; [lia|done].
Qed.
Lemma free_fd_Some t i fd : 0 <= i -> free_fd t i = Some fd -> i <= fd < NR_OPEN /\ t_filp t fd = None.
Proof.
  unfold free_fd, NR_OPEN. intros Hi E. apply scan_Some in E as (? & Hc & _).
  split; [lia|]. by destruct (t_filp t fd).
Qed.

Lemma keep_count i h s f : (forall x, f_count (h x) = f_count x) ->
  f_count (file_table (upd_file i h s) f) = f_count (file_table s f).
Proof. intros Hh. simpl. rewrite arr_dec. case_decide; subst; auto. Qed.

(** Two files and two descriptors taken, in the order of the code. *)
Definition files_taken (f0 f1 : Z) (s : kstate) : kstate :=
  upd_file f1 (fun x => x <| f_count ::= fun c => u16 (c + 1) |>)
    (upd_file f0 (fun x => x <| f_count ::= fun c => u16 (c + 1) |>) s).
Lemma taken_first f0 f1 s : f0 < f1 -> f_count (file_table s f0) = 0 ->
  file_table (files_taken f0 f1 s) f0 = (file_table s f0) <| f_count := 1 |>.
Proof.
  intros. unfold files_taken. rewrite upd_file_ne, upd_file_eq by lia.
  destruct (file_table s f0). simpl in *. by subst.
Qed.
Lemma taken_second f0 f1 s : f0 < f1 -> f_count (file_table s f1) = 0 ->
  file_table (files_taken f0 f1 s) f1 = (file_table s f1) <| f_count := 1 |>.
Proof.
  intros. unfold files_taken. rewrite upd_file_eq, upd_file_ne by lia.
  destruct (file_table s f1). simpl in *. by subst.
Qed.
Definition fds_taken (c fd0 fd1 f0 f1 : Z) (s : kstate) : kstate :=
  upd_task c (set_filp fd1 (Some f1)) (upd_task c (set_filp fd0 (Some f0)) (files_taken f0 f1 s)).

Lemma files_given_back f0 f1 s f : f_count (file_table s f0) = 0 -> f_count (file_table s f1) = 0 ->
  f_count (file_table (upd_file f0 (fun x => x <| f_count := 0 |>)
    (upd_file f1 (fun x => x <| f_count := 0 |>) (files_taken f0 f1 s))) f) = f_count (file_table s f).
Proof.
  intros H0 H1. unfold files_taken. simpl. rewrite !arr_dec.
  repeat case_decide; subst; simpl; congruence.
Qed.

Lemma fds_taken_ok c fd0 fd1 f0 f1 s :
  files_ok s -> current s = Some c -> 0 <= fd0 < fd1 -> fd1 < NR_OPEN ->
  t_filp (tsk s c) fd0 = None -> t_filp (tsk s c) fd1 = None ->
  0 <= f0 < f1 -> f1 < NR_FILE -> f_count (file_table s f0) = 0 -> f_count (file_table s f1) = 0 ->
  files_ok (fds_taken c fd0 fd1 f0 f1 s).
Proof.
  intros Hok Hc Hfd Hfd1 Hn0 Hn1 Hf Hf1 Hz0 Hz1.
  set (g := fun t => set_filp fd1 (Some f1) (set_filp fd0 (Some f0) t)).
  set (t := (upd_task c g s) <| file_table := file_table (fds_taken c fd0 fd1 f0 f1 s) |>).
  assert (Hg : forall k, t_filp (g (tsk s c)) k =
    if decide (fd1 = k) then Some f1 else if decide (fd0 = k) then Some f0 else t_filp (tsk s c) k).
  { intros k. unfold g. simpl. by rewrite !arr_dec. }
  assert (Ht : files_ok t).
  { apply files_ok_upd; [done|done| |].
    - intros k f Hk. rewrite Hg. repeat case_decide; [intros [= <-]; lia..|].
      destruct (fo_current s Hok) as (i & c' & Hi & Hti & Hci).
      assert (c' = c) as -> by congruence. by apply (fo_range s Hok i c).
    - intros f Hf'. unfold g. rewrite fd_refs_set by lia. rewrite fd_refs_set by lia. simpl.
      rewrite !arr_dec, Hn0. rewrite (decide_False (P := fd0 = fd1)), Hn1 by lia.
      assert (Hp : forall a, b2z (ptr_eqb (Some a) (Some f)) = if decide (a = f) then 1 else 0).
      { intros a. case_decide; [subst; by rewrite ptr_eqb_refl|].
        replace (ptr_eqb (Some a) (Some f)) with false; [done|].
        symmetry. apply bool_decide_eq_false. congruence. }
      rewrite !Hp. assert (ptr_eqb None (Some f) = false) as -> by done.
      repeat case_decide; subst; simpl; rewrite ?Hz0, ?Hz1; simpl;
        try change (u16 (0 + 1)) with 1; lia. }
  apply (files_ok_same t); [done|done|done| |done].
  intros p k. unfold t, fds_taken. simpl. rewrite !arr_dec. repeat case_decide; subst; try done;
    rewrite ?arr_eq; simpl; rewrite !arr_dec; repeat case_decide; congruence.
Qed.

(** [sys_pipe] fails: every descriptor and user memory are as before. *)
Definition no_pipe (s s' : kstate) : Prop :=
  (forall p k, t_filp (tsk s' p) k = t_filp (tsk s p) k) /\ user s' = user s.
(** [sys_pipe] succeeds: two descriptors that were free, [fd0] and [fd1],
    stored at [fildes], lead to two new open files, one to read and one to
    write, of the new empty pipe [e]. *)
Definition pipe_made (fildes c e : Z) (s s' : kstate) : Prop :=
  exists fd0 fd1 f0 f1,
    0 <= fd0 < fd1 /\ fd1 < NR_OPEN /\
    t_filp (tsk s c) fd0 = None /\ t_filp (tsk s c) fd1 = None /\
    (forall p k, t_filp (tsk s' p) k = if decide (p = c /\ k = fd0) then Some f0
       else if decide (p = c /\ k = fd1) then Some f1 else t_filp (tsk s p) k) /\
    file_table s' f0 = (file_table s f0) <| f_count := 1 |> <| f_inode := Some e |>
                         <| f_pos := 0 |> <| f_mode := 1 |> /\
    file_table s' f1 = (file_table s f1) <| f_count := 1 |> <| f_inode := Some e |>
                         <| f_pos := 0 |> <| f_mode := 2 |> /\
    (forall f, f <> f0 -> f <> f1 -> file_table s' f = file_table s f) /\
    new_pipe s' e /\ le32 (user s') fildes = fd0 /\ le32 (user s') (fildes + 4) = fd1.

(** What [make_pipe] makes of an open file, once it has the inode [e]. *)
Definition opened_file (e mode : Z) (x : file) : file :=
  x <| f_inode := Some e |> <| f_pos := 0 |> <| f_mode := mode |>.
Lemma table_user g s : file_table (s <| user ::= g |>) = file_table s.
Proof. done. Qed.
Lemma interleaved f0 f1 g1 g2 g3 g4 g5 g6 s f : f0 <> f1 ->
  file_table (upd_file f1 g6 (upd_file f0 g5 (upd_file f0 g4 (upd_file f1 g3
    (upd_file f0 g2 (upd_file f1 g1 s)))))) f =
    if decide (f = f1) then g6 (g3 (g1 (file_table s f1)))
    else if decide (f = f0) then g5 (g4 (g2 (file_table s f0))) else file_table s f.
Proof. intros. simpl. rewrite !arr_dec. repeat case_decide; subst; congruence. Qed.

Lemma make_pipe_some fildes f0 f1 fd0 fd1 s e s4 : f0 <> f1 ->
  get_pipe_inode s = Ret (Some e) s4 ->
  exists s', make_pipe fildes f0 f1 fd0 fd1 s = Ret 0 s' /\
    task s' = task s4 /\ tsk s' = tsk s4 /\ current s' = current s4 /\
    inode_table s' = inode_table s4 /\ phys s' = phys s4 /\
    user s' = put32 (put32 (user s4) fildes fd0) (fildes + 4) fd1 /\
    forall f, file_table s' f = if decide (f = f1) then opened_file e 2 (file_table s4 f1)
      else if decide (f = f0) then opened_file e 1 (file_table s4 f0) else file_table s4 f.
Proof.
  intros Hne Hrun. unfold make_pipe. rewrite (bind_Ret _ _ _ _ _ Hrun). mrun. unfold put_fs_long. mrun.
  set (t := upd_file f1 _ (upd_file f0 _ _)). eexists. split; [done|].
  split_and!; [done|done|done|done|done|done|]. intros f.
  rewrite !table_user.
  by apply interleaved.
Qed.

Lemma make_pipe_none fildes f0 f1 fd0 fd1 s s4 c :
  get_pipe_inode s = Ret None s4 -> current s4 = Some c ->
  exists s', make_pipe fildes f0 f1 fd0 fd1 s = Ret (-1) s' /\
    task s' = task s4 /\ current s' = current s4 /\ user s' = user s4 /\
    (forall p k, t_filp (tsk s' p) k =
       if decide (p = c /\ (k = fd0 \/ k = fd1)) then None else t_filp (tsk s4 p) k) /\
    (forall f, f_count (file_table s' f) =
       if decide (f = f0 \/ f = f1) then 0 else f_count (file_table s4 f)).
Proof.
  intros Hrun Hc. unfold make_pipe. rewrite (bind_Ret _ _ _ _ _ Hrun).
  rewrite (bind_Ret _ _ _ _ _ (setme_run s4 c _ Hc)).
  rewrite (bind_Ret _ _ _ tt _ (setme_run (upd_task c (set_filp fd1 None) s4) c (set_filp fd0 None) Hc)). mrun.
  eexists. split; [done|]. split_and!; [done|done|done| |].
  - intros p k. simpl. rewrite !arr_same, ?arr_eq, arr_dec. destruct (decide (c = p)) as [<-|Hp].
    + simpl. rewrite !arr_dec. repeat case_decide; intuition congruence.
    + rewrite decide_False by intuition congruence. done.
  - intros f. simpl. rewrite !arr_dec. repeat case_decide; subst; simpl; intuition congruence.
Qed.

Lemma fds_taken_filp c fd0 fd1 f0 f1 s p k : fd0 <> fd1 ->
  t_filp (tsk (fds_taken c fd0 fd1 f0 f1 s) p) k =
    if decide (p = c /\ k = fd0) then Some f0
    else if decide (p = c /\ k = fd1) then Some f1 else t_filp (tsk s p) k.
Proof.
  intros Hne. unfold fds_taken, files_taken. simpl. rewrite !arr_same, ?arr_eq, arr_dec.
  destruct (decide (c = p)) as [<-|Hp].
  - simpl. rewrite !arr_dec. repeat case_decide; intuition congruence.
  - rewrite !decide_False by intuition congruence. done.
Qed.

Lemma make_pipe_spec fildes c e fd0 fd1 f0 f1 s :
  (0 < fuel)%nat -> files_ok s -> current s = Some c ->
  0 <= last_allocated_inode s < 32 -> find_empty s = Some e ->
  i_lock (inode_table s e) = 0 -> i_dirt (inode_table s e) = 0 ->
  0 <= fd0 < fd1 -> fd1 < NR_OPEN -> t_filp (tsk s c) fd0 = None -> t_filp (tsk s c) fd1 = None ->
  0 <= f0 < f1 -> f_count (file_table s f0) = 0 -> f_count (file_table s f1) = 0 ->
  files_ok (fds_taken c fd0 fd1 f0 f1 s) ->
  exists r s', make_pipe fildes f0 f1 fd0 fd1 (fds_taken c fd0 fd1 f0 f1 s) = Ret r s' /\ files_ok s' /\
    (r = -1 /\ no_pipe s s' \/ r = 0 /\ pipe_made fildes c e s s').
Proof.
  intros Hf Hok Hc Hl He Hlock Hdirt Hfd Hfd1 Hn0 Hn1 Hff Hz0 Hz1 Hok3.
  destruct (get_pipe_inode_run (fds_taken c fd0 fd1 f0 f1 s) e Hf Hl He Hlock Hdirt)
    as (r & s4 & Hrun & [K1 K2 K3 K4 K5] & Hr).
  assert (Hc4 : current s4 = Some c) by (by rewrite K3).
  assert (Hfds := fun p k => fds_taken_filp c fd0 fd1 f0 f1 s p k ltac:(lia)).
  assert (Hcnt : forall f, f_count (file_table s4 f) = if decide (f = f0 \/ f = f1) then 1 else f_count (file_table s f)).
  { intros f. rewrite K4. change (file_table (fds_taken c fd0 fd1 f0 f1 s)) with (file_table (files_taken f0 f1 s)).
    case_decide as Hcase; [destruct Hcase; subst|].
    - by rewrite taken_first by (done || lia).
    - by rewrite taken_second by (done || lia).
    - unfold files_taken. by rewrite !upd_file_ne by intuition. }
  destruct Hr as [->|[-> Hnew]].
  - destruct (make_pipe_none fildes f0 f1 fd0 fd1 _ s4 c Hrun Hc4) as (s' & Hrun' & T1 & T2 & T3 & T4 & T5).
    assert (Hfd' : forall p k, t_filp (tsk s' p) k = t_filp (tsk s p) k).
    { intros p k. rewrite T4, K2, Hfds. repeat case_decide; intuition congruence. }
    exists (-1), s'. split; [done|]. split.
    + apply (files_ok_same s); [done|by rewrite T1, K1|by rewrite T2, K3|done|].
      intros f. rewrite T5, Hcnt. case_decide as Hcase; [destruct Hcase; congruence|done].
    + left. split; [done|]. split; [done|]. by rewrite T3, K5.
  - assert (Hft : forall f, file_table s4 f = file_table (files_taken f0 f1 s) f) by (intros; by rewrite K4).
    destruct (make_pipe_some fildes f0 f1 fd0 fd1 _ e s4 ltac:(lia) Hrun)
      as (s' & Hrun' & T1 & T2 & T3 & T4 & T5 & T6 & T7).
    exists 0, s'. split; [done|]. split.
    + apply (files_ok_same (fds_taken c fd0 fd1 f0 f1 s)); [done|by rewrite T1|by rewrite T3| |].
      * intros p k. by rewrite T2, K2.
      * intros f. rewrite <- K4, T7. repeat case_decide; by subst.
    + right. split; [done|]. exists fd0, fd1, f0, f1. split_and!; [lia|lia|done|done|done| | | | | | |].
      * intros p k. rewrite <- Hfds. by rewrite T2, K2.
      * rewrite T7, decide_False, decide_True by lia. by rewrite Hft, taken_first by (done || lia).
      * rewrite T7, decide_True by lia. by rewrite Hft, taken_second by (done || lia).
      * intros f Hne0 Hne1. rewrite T7, !decide_False, Hft by done.
        unfold files_taken. by rewrite !upd_file_ne by done.
      * unfold new_pipe, pipe_list. rewrite T4, T5. exact Hnew.
      * rewrite T6, le32_put32_ne, le32_put32 by lia. apply u32_small. unfold NR_OPEN in *. lia.
      * rewrite T6, le32_put32. apply u32_small. unfold NR_OPEN in *. lia.
Qed.

(** [sys_pipe] up to the point where it has two files and two descriptors. *)
Lemma sys_pipe_cases fildes s c : files_ok s -> current s = Some c ->
  (exists s', sys_pipe fildes s = Ret (-1) s' /\ files_ok s' /\ no_pipe s s') \/
  exists fd0 fd1 f0 f1, sys_pipe fildes s = make_pipe fildes f0 f1 fd0 fd1 (fds_taken c fd0 fd1 f0 f1 s) /\
    0 <= fd0 < fd1 /\ fd1 < NR_OPEN /\ t_filp (tsk s c) fd0 = None /\ t_filp (tsk s c) fd1 = None /\
    0 <= f0 < f1 /\ f_count (file_table s f0) = 0 /\ f_count (file_table s f1) = 0 /\
    files_ok (fds_taken c fd0 fd1 f0 f1 s).
Proof.
  intros Hok Hc. unfold sys_pipe. mrun.
  destruct (free_file_from s 0) as [f0|] eqn:E0; [|by left; eexists; split; [|split]].
  apply free_file_from_Some in E0 as [Hf0 Hz0]; [|done]. mrun.
  destruct (free_file_from _ (f0 + 1)) as [f1|] eqn:E1.
  2: { mrun. left. eexists. split; [reflexivity|]. split; [|done].
       apply (files_ok_same s); try done. intros f. simpl. rewrite !arr_dec.
       repeat case_decide; subst; done. }
  apply free_file_from_Some in E1 as [Hf1 Hz1]; [|lia]. rewrite upd_file_ne in Hz1 by lia. mrun.
  change (upd_file f1 _ (upd_file f0 _ s)) with (files_taken f0 f1 s).
  set (s1 := files_taken f0 f1 s).
  assert (Hback := files_given_back f0 f1 s). fold s1 in Hback.
  rewrite (bind_Ret _ _ _ _ _ (me_run s1 c Hc)).
  destruct (free_fd (tsk s1 c) 0) as [fd0|] eqn:E2.
  2: { mrun. left. eexists. split; [reflexivity|]. split; [|done].
       apply (files_ok_same s); try done. intros f. by apply Hback. }
  apply free_fd_Some in E2 as [Hfd0 Hn0]; [|done].
  rewrite (bind_Ret _ _ _ _ _ (setme_run s1 c _ Hc)).
  set (s2 := upd_task c (set_filp fd0 (Some f0)) s1).
  rewrite (bind_Ret _ _ _ _ _ (me_run s2 c Hc)).
  destruct (free_fd (tsk s2 c) (fd0 + 1)) as [fd1|] eqn:E3.
  2: { rewrite (bind_Ret _ _ _ _ _ (setme_run s2 c _ Hc)). mrun.
       assert (Hfd : forall p k, t_filp (tsk (upd_task c (set_filp fd0 None) s2) p) k = t_filp (tsk s p) k).
       { intros p k. unfold s2. simpl. rewrite !arr_dec. repeat case_decide; subst; simpl;
           rewrite ?arr_eq; simpl; rewrite ?arr_dec; repeat case_decide; subst; done. }
       left. eexists. split; [reflexivity|]. split; [|done].
       apply (files_ok_same s); [done|done|done|exact Hfd|]. intros f. by apply Hback. }
  apply free_fd_Some in E3 as [Hfd1 Hn1]; [|lia].
  assert (Hn1' : t_filp (tsk s c) fd1 = None).
  { unfold s2 in Hn1. rewrite upd_task_eq in Hn1. simpl in Hn1. rewrite arr_ne in Hn1 by lia. exact Hn1. }
  rewrite (bind_Ret _ _ _ _ _ (setme_run s2 c _ Hc)).
  change (upd_task c (set_filp fd1 (Some f1)) s2) with (fds_taken c fd0 fd1 f0 f1 s).
  assert (Hok3 := fds_taken_ok c fd0 fd1 f0 f1 s Hok Hc ltac:(lia) ltac:(lia) Hn0 Hn1'
    ltac:(lia) ltac:(lia) Hz0 Hz1).
  right. exists fd0, fd1, f0, f1. split; [reflexivity|]. split_and!; done || lia.
Qed.

(** Without an unused inode there is no pipe, and no kernel. *)
Lemma make_pipe_panic fildes fd0 fd1 f0 f1 s : (0 < fuel)%nat -> find_empty s = None ->
  exists s', make_pipe fildes f0 f1 fd0 fd1 s = Panic "No free inodes in mem" s'.
Proof.
  intros Hf He. assert (Hstep : exists s', empty_step tt s = Panic "No free inodes in mem" s').
  { unfold empty_step. mrun. rewrite He.
    destruct (for_inv (fun _ _ => True) 0 (Z.to_nat NR_INODE) (fun inr =>
        n ← geti inr;
        printk "%04x: %6d\t" [i_dev n; i_num n]) s) as (s1 & Hs1 & _); [done| |].
    { intros j t _ _. by eexists. }
    exists s1. rewrite (bind_Ret _ _ _ _ _ Hs1). done. }
  destruct Hstep as (s' & Hstep). exists s'. unfold make_pipe, get_pipe_inode, get_empty_inode.
  destruct fuel as [|n]; [lia|]. cbn [loop].
  repeat (exact Hstep || apply bind_Panic).
Qed.

(** C31: sys_pipe (when the free inode that would be taken, if there is one, is
    neither locked nor dirty) either fails with -1 and leaves every descriptor
    and user memory as they were, or gives two descriptors that were free,
    stored in order at its argument, which lead to two new open files, one to
    read and one to write, of a new empty pipe; in both cases every open file's
    count is again the number of its descriptors. It panics only when every
    inode of the table is in use. *)
Theorem sys_pipe_spec fildes s c :
  (0 < fuel)%nat -> files_ok s -> current s = Some c -> 0 <= last_allocated_inode s < 32 ->
  (forall e, find_empty s = Some e -> i_lock (inode_table s e) = 0 /\ i_dirt (inode_table s e) = 0) ->
  match sys_pipe fildes s with
  | Ret r s' => files_ok s' /\
      (r = -1 /\ no_pipe s s' \/ r = 0 /\ exists e, find_empty s = Some e /\ pipe_made fildes c e s s')
  | Panic m _ => m = "No free inodes in mem" /\ forall i, 0 <= i < NR_INODE -> i_count (inode_table s i) <> 0
  | _ => False
  end.
Proof.
  intros Hf Hok Hc Hl Hidle.
  destruct (sys_pipe_cases fildes s c Hok Hc) as [(s' & -> & Hok' & Hno)|(fd0 & fd1 & f0 & f1 & -> & ? & ? & ? & ? & ? & ? & ? & ?)].
  - split; [done|by left].
  - destruct (find_empty s) as [e|] eqn:He.
    + destruct (Hidle e eq_refl) as [Hlock Hdirt].
      destruct (make_pipe_spec fildes c e fd0 fd1 f0 f1 s) as (r & s' & -> & Hok' & Hr); try done.
      split; [done|]. destruct Hr as [?|[? ?]]; [by left|right]. split; [done|]. by exists e.
    + destruct (make_pipe_panic fildes fd0 fd1 f0 f1 (fds_taken c fd0 fd1 f0 f1 s)) as (s' & ->); [done|exact He|].
      split; [done|]. intros i Hi. by apply (find_empty_None s).
Qed.
End make.

(** ** Reading a file gives its bytes *)

Section file.
Context `{Machine}.

(** Block [b] of the file of inode [n] holds the bytes [g], numbered from the
    start of the file: it is a hole, or its disk block is in the cache. *)
Definition file_block (s : kstate) (n : m_inode) (g : Z -> Z) (b : Z) : Prop :=
  exists z, maps_to s n b z /\
    (z = 0 /\ (forall o, 0 <= o < 1024 -> g (1024 * b + o) = 0) \/
     z <> 0 /\ exists bh, cached s (i_dev n) z bh /\
       forall o, 0 <= o < 1024 -> g (1024 * b + o) = b_data (bufs s bh) o).

(** These depend on the cache only. *)
Definition same_cache (s s' : kstate) : Prop :=
  bufs s' = bufs s /\ hash_table s' = hash_table s /\ buffer_wait s' = buffer_wait s.
Lemma cached_same s s' dev z bh : same_cache s s' -> cached s dev z bh -> cached s' dev z bh.
Proof. intros (Hb & Hh & _). unfold cached, hnext, hprev, hash, holds. by rewrite Hb, Hh. Qed.
Lemma maps_same s s' n b z : same_cache s s' -> maps_to s n b z -> maps_to s' n b z.
Proof.
  intros Hs Hm.
  assert (He : forall dev zone k z, indirect_entry s dev zone k z -> indirect_entry s' dev zone k z).
  { intros dev zone k x (bh & Hc & ->). exists bh. split; [by apply (cached_same s)|].
    by destruct Hs as (-> & _). }
  destruct Hm; [apply map_direct|apply map_hole1|apply map_single|apply map_hole2|apply map_hole3|eapply map_double];
    eauto.
Qed.
Lemma file_block_same s s' n g b : same_cache s s' -> file_block s n g b -> file_block s' n g b.
Proof.
  intros Hs (z & Hm & Hz). exists z. split; [by apply (maps_same s)|].
  destruct Hz as [?|(? & bh & Hc & Hg)]; [by left|right]. split; [done|]. exists bh.
  split; [by apply (cached_same s)|]. by destruct Hs as (-> & _).
Qed.

Definition with_user (u : Z -> Z) (s : kstate) : kstate := s <| user := u |>.
(** What a round leaves: the bytes, and the position of the file moved. *)
Definition round_done (filp p : Z) (u : Z -> Z) (s : kstate) : kstate :=
  with_user u (upd_file filp (fun x => x <| f_pos := p |>) s).

Lemma with_user_id s : with_user (user s) s = s.
Proof. by destruct s. Qed.

(** The loops that copy to user space. *)
Lemma copy_out body buf g n i u s :
  (forall k u, i <= k < i + Z.of_nat n ->
     body k (with_user u s) = Ret tt (with_user (<[buf + k := g k]> u) s)) ->
  for_ i n body (with_user u s) =
    Ret tt (with_user (store_bytes u (buf + i) (load_bytes g i n)) s).
Proof.
  revert i u. induction n as [|n IH]; intros i u Hb; [done|]. cbn [for_].
  rewrite (bind_Ret _ _ _ _ _ (Hb i u ltac:(lia))). rewrite IH by (intros; apply Hb; lia).
  cbn [store_bytes load_bytes]. by rewrite Z.add_assoc.
Qed.

Lemma load_shift g h a b n : (forall k, 0 <= k < Z.of_nat n -> g (a + k) = h (b + k)) ->
  load_bytes g a n = load_bytes h b n.
Proof.
  revert a b. induction n as [|n IH]; intros a b Hg; simpl; [done|]. f_equal.
  - specialize (Hg 0). rewrite !Z.add_0_r in Hg. apply Hg. lia.
  - apply IH. intros k Hk. rewrite <- !Z.add_assoc. apply Hg. lia.
Qed.

Lemma drop_around bh filp p u s :
  b_lock (bufs s bh) = 0 -> 0 <= b_count (bufs s bh) < 255 -> buffer_wait s = None ->
  brelse (Some bh) (round_done filp p u (held bh s)) = Ret tt (round_done filp p u s).
Proof.
  intros Hl Hc Hw. rewrite brelse_run.
  - f_equal. transitivity (round_done filp p u (dropped bh (held bh s))); [|by rewrite dropped_held].
    generalize (held bh s). intros t. by destruct t.
  - change (b_lock (bufs (held bh s) bh) = 0). unfold held. by rewrite upd_buf_eq.
  - change (0 < b_count (bufs (held bh s) bh) < 256). unfold held. rewrite upd_buf_eq. simpl. lia.
  - exact Hw.
Qed.

Lemma read_round_run inode filp more buf s g :
  let p := f_pos (file_table s filp) in
  let chars := Z.min (1024 - p mod 1024) more in
  0 <= p -> 0 < more -> p + more < 2147483648 -> bytes g -> buffer_wait s = None ->
  file_block s (inode_table s inode) g (p / 1024) ->
  read_round inode filp (more, buf) s =
    Ret (inl (more - chars, buf + chars))
        (round_done filp (p + chars) (store_bytes (user s) buf (load_bytes g p (Z.to_nat chars))) s).
Proof.
  intros p chars Hp Hm Hmax Hg Hw (z & Hmap & Hz). unfold read_round.
  replace (nz more) with true by (symmetry; apply nz_true; lia). cbn [negb]. mrun. fold p.
  assert (Hq : Z.quot p BLOCK_SIZE = p / 1024) by (unfold BLOCK_SIZE; dlia).
  assert (Hr : Z.rem p BLOCK_SIZE = p mod 1024) by (unfold BLOCK_SIZE; dlia).
  rewrite Hq, (bind_Ret _ _ _ _ _ (bmap_run inode _ z s Hmap Hw)). mrun.
  assert (Hch : (if BLOCK_SIZE - p mod 1024 <? more then BLOCK_SIZE - p mod 1024 else more) = chars).
  { unfold chars, BLOCK_SIZE. destruct (Z.ltb_spec (1024 - p mod 1024) more); lia. }
  assert (Hchars : 0 < chars <= 1024 - p mod 1024) by (unfold chars; dlia).
  assert (Hpos : s32 (p + chars) = p + chars) by (apply s32_small; lia).
  assert (Hmove : (file_table s filp) <| f_pos ::= fun x => s32 (x + chars) |> =
    (file_table s filp) <| f_pos := p + chars |>).
  { transitivity ((file_table s filp) <| f_pos := s32 (p + chars) |>); [done|]. by rewrite Hpos. }
  assert (Hload : forall h, (forall o, 0 <= o < 1024 -> g (1024 * (p / 1024) + o) = h o) ->
    load_bytes g p (Z.to_nat chars) = load_bytes (fun i => h (p mod 1024 + i)) 0 (Z.to_nat chars)).
  { intros h Hh. apply load_shift. intros k Hk. rewrite Z.add_0_l, <- Hh by dlia. f_equal. dlia. }
  destruct Hz as [[-> Hhole]|(Hnz & bh & Hc & Hdata)].
  - cbn [nz negb Z.eqb]. mrun. fold p. rewrite Hr. cbv zeta. rewrite Hch. mrun.
    erewrite (bind_Ret _ _ _ tt); [rewrite mret_run; reflexivity|].
    rewrite (upd_file_ext _ _ (fun x => x <| f_pos := p + chars |>)) by exact Hmove.
    rewrite <- (with_user_id (upd_file _ _ s)).
    rewrite (copy_out _ buf (fun _ => 0)) by done. unfold round_done. do 2 f_equal.
    rewrite (Hload (fun _ => 0)) by done. by rewrite Z.add_0_r.
  - rewrite (proj2 (nz_true _) Hnz). mrun.
    rewrite (bind_Ret _ _ _ _ _ (bread_cached _ _ _ _ Hc)). mrun. cbn [option_map]. mrun.
    change (file_table (held bh s)) with (file_table s). fold p. rewrite Hr. cbv zeta. rewrite Hch. mrun.
    destruct Hc as (_ & _ & _ & _ & _ & _ & Hl & _ & Hcount).
    rewrite (upd_file_ext _ _ (fun x => x <| f_pos := p + chars |>)) by exact Hmove.
    set (t := upd_file filp _ (held bh s)).
    assert (Hb : bufs t bh = bufs (held bh s) bh) by done.
    assert (Hcopy : for_ 0 (Z.to_nat chars) (fun i =>
        b ← getb bh; put_fs_byte (b_data b (p mod 1024 + i)) (buf + i)) (with_user (user s) t) =
      Ret tt (with_user (store_bytes (user s) (buf + 0)
        (load_bytes (fun i => b_data (bufs s bh) (p mod 1024 + i)) 0 (Z.to_nat chars))) t)).
    { apply copy_out. intros k u Hk. rewrite bind_getb. change (bufs (with_user u t) bh) with (bufs t bh).
      rewrite Hb. unfold held. rewrite upd_buf_eq. unfold put_fs_byte, modify. f_equal.
      change (b_data ((bufs s bh) <| b_count := b_count (bufs s bh) + 1 |>)) with (b_data (bufs s bh)).
      rewrite <- (Hdata (p mod 1024 + k)), u8_small by (dlia || apply Hg). by destruct t. }
    change t with (with_user (user s) t) at 1.
    rewrite (bind_Ret _ _ _ _ _ Hcopy), Z.add_0_r, <- (Hload _ Hdata).
    unfold t at 1. fold (round_done filp (p + chars) (store_bytes (user s) buf (load_bytes g p (Z.to_nat chars))) (held bh s)).
    by rewrite (bind_Ret _ _ _ _ _ (drop_around bh filp _ _ s Hl Hcount Hw)).
Qed.

Lemma round_done_twice filp p q u v s :
  round_done filp q v (round_done filp p u s) = round_done filp q v s.
Proof.
  unfold round_done. transitivity (with_user v (upd_file filp (fun x => x <| f_pos := q |>)
    (upd_file filp (fun x => x <| f_pos := p |>) s))); [by destruct s|].
  rewrite upd_file_fuse. f_equal.
Qed.

Lemma read_rounds inode filp buf more m s g :
  let p := f_pos (file_table s filp) in
  0 <= p -> 0 <= more -> (Z.to_nat more < m)%nat -> p + more < 2147483648 -> bytes g ->
  buffer_wait s = None ->
  (forall b, p / 1024 <= b <= (p + more - 1) / 1024 -> file_block s (inode_table s inode) g b) ->
  loop m (read_round inode filp) (more, buf) s =
    Ret 0 (round_done filp (p + more) (store_bytes (user s) buf (load_bytes g p (Z.to_nat more))) s).
Proof.
  revert more buf s. induction m as [|m IH]; intros more buf s p Hp Hm Hlt Hmax Hg Hw Hblk; [lia|].
  cbn [loop]. destruct (decide (more = 0)) as [->|Hne].
  - change (read_round inode filp (0, buf) s) with (Ret (inr 0) s : res kstate ((Z * Z) + Z)).
    rewrite (bind_Ret _ _ s (inr 0) s) by done. rewrite mret_run. f_equal. rewrite Z.add_0_r.
    cbn [Z.to_nat load_bytes store_bytes]. unfold round_done.
    rewrite upd_file_id; [symmetry; apply with_user_id|]. unfold p. by destruct (file_table s filp).
  - set (chars := Z.min (1024 - p mod 1024) more).
    assert (Hchars : 0 < chars <= more) by (unfold chars; dlia).
    set (u1 := store_bytes (user s) buf (load_bytes g p (Z.to_nat chars))).
    assert (Hround := read_round_run inode filp more buf s g Hp ltac:(lia) Hmax Hg Hw
      ltac:(apply Hblk; split; [done|]; apply Z.div_le_mono; lia)).
    fold p chars u1 in Hround. cbv zeta in Hround. fold p chars u1 in Hround.
    rewrite (bind_Ret _ _ _ _ _ Hround). cbv iota.
    set (s1 := round_done filp (p + chars) u1 s).
    assert (Hp1 : f_pos (file_table s1 filp) = p + chars).
    { change (f_pos (file_table (upd_file filp (fun x => x <| f_pos := p + chars |>) s) filp) = p + chars).
      by rewrite upd_file_eq. }
    rewrite (IH (more - chars) (buf + chars) s1); rewrite ?Hp1; try lia; try done.
    + unfold s1 at 2. rewrite round_done_twice. replace (p + chars + (more - chars)) with (p + more) by lia.
      f_equal. unfold round_done. f_equal. change (user s1) with u1. unfold u1.
      replace (Z.to_nat more) with (Z.to_nat chars + Z.to_nat (more - chars))%nat by lia.
      rewrite load_app, store_bytes_app, length_load. by rewrite Z2Nat.id by lia.
    + intros b Hb. apply (file_block_same s); [done|]. apply Hblk.
      replace (p + chars + (more - chars) - 1) with (p + more - 1) in Hb by lia. split; [|lia].
      etransitivity; [|apply Hb]. apply Z.div_le_mono; lia.
Qed.

(** C32: Seen as a sequence of bytes, holes read as zeros, a file whose blocks
    are in the cache is what file_read returns: the process gets exactly the
    count bytes from the position on, the position moves by count, the access
    time is set and the cache is as before. The loop always ends, in at most one
    round for each byte. *)
Theorem file_read_spec inode filp buf count s g :
  let p := f_pos (file_table s filp) in
  0 <= p -> 0 < count -> p + count < 2147483648 -> bytes g -> buffer_wait s = None ->
  (forall b, p / 1024 <= b <= (p + count - 1) / 1024 -> file_block s (inode_table s inode) g b) ->
  exists s', file_read inode filp buf count s = Ret count s' /\
    user s' = store_bytes (user s) buf (load_bytes g p (Z.to_nat count)) /\
    f_pos (file_table s' filp) = p + count /\ same_cache s s' /\
    inode_table s' inode = (inode_table s inode)
      <| i_atime := u32 (s32 (startup_time s + Z.quot (jiffies s) HZ)) |>.
Proof.
  intros p Hp Hc Hmax Hg Hw Hblk. unfold file_read.
  destruct (Z.leb_spec count 0); [lia|].
  rewrite (bind_Ret _ _ _ _ _ (read_rounds inode filp buf count (S (Z.to_nat count)) s g
    Hp ltac:(lia) ltac:(lia) Hmax Hg Hw Hblk)).
  fold p. unfold CURRENT_TIME. mrun. rewrite Z.sub_0_r. replace (nz count) with true by (symmetry; apply nz_true; lia).
  eexists. split; [done|]. split_and!; try done.
  - change (f_pos (file_table (upd_file filp (fun x => x <| f_pos := p + count |>) s) filp) = p + count).
    by rewrite upd_file_eq.
  - by rewrite upd_inode_eq.
Qed.
End file.

(** ** Examples *)

(** Inode 5 is a pipe that holds three bytes. *)
Definition a_pipe : kstate := zero_kstate
  <| inode_table := fun i => if i =? 5
       then zero_m_inode <| i_size := 0x300000 |> <| i_count := 2 |> <| i_pipe := 1 |>
              <| i_zone := fun k => if k =? 0 then 3 else 0 |>
       else zero_m_inode |>
  <| phys := fun a => if a =? 0x300000 then 72 else if a =? 0x300001 then 105 else 0 |>.

Lemma a_pipe_ok : pipe_ok (inode_table a_pipe 5).
Proof. split; vm_compute; intuition discriminate. Qed.
Lemma a_pipe_bytes : bytes (phys a_pipe).
Proof. intros a. simpl. repeat case_match; lia. Qed.

Lemma read_pipe_spec_witness : exists s', @read_pipe quiet_machine 5 100 2 a_pipe = Ret 2 s' /\
  pipe_list s' 5 = [0] /\ load_bytes (user s') 100 2 = [72; 105].
Proof.
  destruct (proj1 (@read_pipe_spec quiet_machine ltac:(simpl; lia) 5 100 2 a_pipe
    a_pipe_ok a_pipe_bytes ltac:(lia))) as (s' & k & Hrun & Hk & Hl & Hu & _).
  - vm_compute. discriminate.
  - assert (k = 2) as -> by (rewrite Hk; vm_compute; reflexivity).
    exists s'. split; [exact Hrun|]. rewrite Hl, Hu. split; vm_compute; reflexivity.
Defined.

Lemma write_pipe_spec_witness : exists s', @write_pipe quiet_machine 5 0 2 a_pipe = Ret 2 s' /\
  pipe_list s' 5 = [72; 105; 0; 0; 0].
Proof.
  destruct (proj1 (@write_pipe_spec quiet_machine ltac:(simpl; lia) 5 0 2 a_pipe 4096
    a_pipe_ok ltac:(lia) eq_refl)) as (s' & Hrun & Hl & _).
  - reflexivity.
  - vm_compute. discriminate.
  - exists s'. split; [exact Hrun|]. rewrite Hl. vm_compute. reflexivity.
Defined.

Lemma sys_pipe_spec_witness :
  match @sys_pipe quiet_machine 100 sharing with Ret r s' => files_ok s' | _ => False end.
Proof.
  assert (He : find_empty sharing = Some 0) by (vm_compute; reflexivity).
  assert (H : (0 < @fuel quiet_machine)%nat) by (simpl; lia).
  pose proof (@sys_pipe_spec quiet_machine 100 sharing 4096 H sharing_ok eq_refl ltac:(split; [discriminate|reflexivity])
    ltac:(intros e E; rewrite He in E; injection E as <-; split; reflexivity)) as Hp.
  destruct (@sys_pipe quiet_machine 100 sharing) as [r s'| | | |]; try exact Hp.
  - exact (proj1 Hp).
  - destruct Hp as [_ Hn]. exact (Hn 0 ltac:(unfold NR_INODE; lia) eq_refl).
Defined.

(** Open file 4 is at byte 5 of inode 3, whose first block is in the cache. *)
Definition readable : kstate := two_buffers
  <| bufs ::= fun t => <[0 := (t 0) <| b_data := fun a => a mod 256 |>]> t |>
  <| inode_table := fun i => if i =? 3
       then zero_m_inode <| i_dev := 0x301 |> <| i_zone := fun k => if k =? 0 then 7 else 0 |>
       else zero_m_inode |>
  <| file_table := fun f => if f =? 4 then zero_file <| f_pos := 5 |> else zero_file |>.

Lemma readable_cached : @cached quiet_machine readable 0x301 7 0.
Proof.
  exists [], []. split; [repeat split; reflexivity|]. split; [cbn; lia|]. split; [set_solver|].
  split; [split; reflexivity|]. split; [reflexivity|]. split; [discriminate|].
  change (b_count (bufs readable 0)) with 1. lia.
Qed.

Lemma file_read_spec_witness : exists s', @file_read quiet_machine 3 4 100 3 readable = Ret 3 s' /\
  load_bytes (user s') 100 3 = [5; 6; 7].
Proof.
  destruct (@file_read_spec quiet_machine 3 4 100 3 readable (fun a => a mod 256))
    as (s' & Hrun & Hu & _).
  - change (f_pos (file_table readable 4)) with 5. lia.
  - lia.
  - change (f_pos (file_table readable 4)) with 5. lia.
  - intros a. apply Z.mod_pos_bound. lia.
  - reflexivity.
  - change (f_pos (file_table readable 4)) with 5. intros b Hb.
    assert (b = 0) as -> by (change (5 / 1024) with 0 in Hb; change ((5 + 3 - 1) / 1024) with 0 in Hb; lia).
    exists 7. split; [apply (@map_direct quiet_machine readable (inode_table readable 3) 0); lia|].
    right. split; [lia|]. exists 0. split; [apply readable_cached|]. intros o _. reflexivity.
  - exists s'. split; [exact Hrun|]. rewrite Hu. vm_compute. reflexivity.
Defined.
