(* ===== verification/Exec.v ===== *)
(** Running a program, fs/exec.c: the arguments are gathered in fresh pages,
    the sections of an ELF file are copied into the new address space and the
    pointer tables are built above the stack. *)
From S2P Require Export ReadWrite.
#[local] Open Scope bool_scope.

(** fs/exec.c:30 *)
Definition MAX_ARG_PAGES : Z := 32.

(** include/elf.h:68-84: the header of a file, as its first bytes give it. *)
Record Elf32_Ehdr : Type := {
  e_ident : Z -> Z;
  e_type : Z;
  e_machine : Z;
  e_entry : Z;
  e_shoff : Z;
  e_ehsize : Z;
  e_shentsize : Z;
  e_shnum : Z;
}.
(** include/elf.h:267-279: the header of a section. *)
Record Elf32_Shdr : Type := {
  sh_type : Z;
  sh_addr : Z;
  sh_offset : Z;
  sh_size : Z;
}.
(** fs/exec.c:46-50 *)
Record bin_section : Type := { b_entry : Z; b_size : Z }.

(** fs/exec.c:343: the structure read from the bytes of a block. *)
Definition get_ehdr (d : Z -> Z) : Elf32_Ehdr := {|
  e_ident := d; e_type := le16 d 16; e_machine := le16 d 18; e_entry := le32 d 24;
  e_shoff := le32 d 32; e_ehsize := le16 d 40; e_shentsize := le16 d 46; e_shnum := le16 d 48 |}.
(** fs/exec.c:373-374 *)
Definition get_shdr (d : Z -> Z) (o : Z) : Elf32_Shdr := {|
  sh_type := le32 d (o + 4); sh_addr := le32 d (o + 12); sh_offset := le32 d (o + 16);
  sh_size := le32 d (o + 20) |}.

(** include/elf.h:163 *)
Definition ET_EXEC : Z := 2.
(** include/elf.h:177 *)
Definition EM_386 : Z := 3.
(** include/elf.h:315 *)
Definition SHT_PROGBITS : Z := 1.
(** include/elf.h:322 *)
Definition SHT_NOBITS : Z := 8.

Section exec.
Context `{Machine}.

(** [if (bh) brelse(bh);] *)
Definition brelse_opt (bh : ptr) : K unit :=
  match bh with None => mret tt | Some bh => brelse (Some bh) end.

(** fs/exec.c:33-46: [size/4] words from the data of a buffer, at [from], to
    user memory. *)
Definition cp_block (bh from to size : Z) : K unit :=
  for_ 0 (Z.to_nat (4 * Z.quot size 4)) (fun i =>
    b ← getb bh; put_fs_byte (b_data b (from + i)) (to + i)).

(** [while (get_fs_byte(p++));]: the address past the string at [p]. *)
Definition skip_string (p : Z) : K Z :=
  loop fuel (fun p => c ← get_fs_byte p; mret (if nz c then inl (p + 1) else inr (p + 1))) p.

(** fs/exec.c:79-87: the pointers to [n] strings, the first at [p], are stored
    from [v] on, and a null pointer after them. *)
Definition put_pointers (n p v : Z) : K Z :=
  '(p, v) ← loop (S (Z.to_nat n)) (fun '(n, p, v) =>
    if n >? 0 then
      put_fs_long p v;;
      p ← skip_string p;
      mret (inl (n - 1, p, v + 4))
    else mret (inr (p, v))) (n, p, v);
  put_fs_long 0 v;;
  mret p.

(** fs/exec.c:66-90 *)
Definition create_tables (p argc envc : Z) : K Z :=
  let sp := Z.land 0xfffffffc p in
  let sp := u32 (sp - 4 * (envc + 1)) in
  let envp := sp in
  let sp := u32 (sp - 4 * (argc + 1)) in
  let argv := sp in
  let sp := u32 (sp - 4) in
  put_fs_long argc sp;;
  p ← put_pointers argc p argv;
  put_pointers envc p envp;;
  mret sp.

(** fs/exec.c:96-106 *)
Definition count (argv : Z) : K Z :=
  if nz argv then
    loop fuel (fun '(i, tmp) =>
      v ← get_fs_long tmp;
      mret (if nz v then inl (i + 1, tmp + 4) else inr i)) (0, argv)
  else mret 0.

(** fs/exec.c:132-137: the pages from [i] to the top that are not there yet;
    [None] when memory runs out. *)
Definition arg_pages (i : Z) (page : Z -> Z) : K ((Z -> Z) * bool) :=
  loop 33 (fun '(i, page) =>
    if (i <? MAX_ARG_PAGES) && negb (nz (page i)) then
      x ← get_free_page;
      let page := <[i := x]> page in
      if negb (nz x) then mret (inr (page, false)) else mret (inl (i + 1, page))
    else mret (inr (page, true))) (i, page).

(** fs/exec.c:138-144: [len] bytes, the last one just below [tmp], go below
    [p]. *)
Definition copy_down (page : Z -> Z) (p tmp len : Z) : K Z :=
  loop (S (Z.to_nat len)) (fun '(p, tmp, len) =>
    let p := u32 (p - 1) in
    if negb (nz (page (p / PAGE_SIZE))) then panic "nonexistent page in exec.c"
    else
      let tmp := tmp - 1 in
      c ← get_fs_byte tmp;
      modify (fun s => s <| phys ::= <[page (p / PAGE_SIZE) + p mod PAGE_SIZE := c]> |>);;
      if nz (len - 1) then mret (inl (p, tmp, len - 1)) else mret (inr p)) (p, tmp, len).

(** fs/exec.c:117-147.  The array of pages is passed in and returned; 0 is
    returned when memory runs out.  The test [p-len < 0] of line 130 compares
    an unsigned number and never holds. *)
Definition copy_strings (argc argv : Z) (page : Z -> Z) (p : Z) : K ((Z -> Z) * Z) :=
  loop (S (Z.to_nat argc)) (fun '(argc, page, p) =>
    if negb (argc >? 0) then mret (inr (page, p))
    else
      let argc := argc - 1 in
      tmp ← get_fs_long (argv + 4 * argc);
      if negb (nz tmp) then panic "argc is wrong"
      else
        tmp' ← skip_string tmp;
        let len := tmp' - tmp in
        '(page, ok) ← arg_pages (Z.shiftr (u32 (p - len)) 12) page;
        if negb ok then mret (inr (page, 0))
        else
          p ← copy_down page p tmp' len;
          mret (inl (argc, page, p))) (argc, page, p).

(** include/linux/sched.h:211: [_set_limit] of a limit in pages. *)
Definition set_limit (limit : Z) (d : Z * Z) : Z * Z :=
  let l := Z.shiftr (u32 (limit - 1)) 12 in
  let old := snd d / 65536 mod 256 in
  (65536 * (fst d / 65536) + l mod 65536,
   snd d - 65536 * old + 65536 * Z.lor (l / 65536 mod 256) (Z.land old 0xf0)).

(** fs/exec.c:149-173.  The pages of the arguments are put at the end of the
    data segment; from then on they are what [%fs] leads to there. *)
Definition change_ldt (text_size : Z) (page : Z -> Z) : K Z :=
  let code_limit := Z.land (u32 (text_size + PAGE_SIZE - 1)) 0xFFFFF000 in
  let data_limit := 0x4000000 in
  c ← me;
  let code_base := get_base (t_ldt c 1) in
  let data_base := code_base in
  setme (fun t => t <| t_ldt ::= fun l => <[1 := set_base code_base (l 1)]> l |>);;
  setme (fun t => t <| t_ldt ::= fun l => <[1 := set_limit code_limit (l 1)]> l |>);;
  setme (fun t => t <| t_ldt ::= fun l => <[2 := set_base data_base (l 2)]> l |>);;
  setme (fun t => t <| t_ldt ::= fun l => <[2 := set_limit data_limit (l 2)]> l |>);;
  let top := data_base + data_limit in
  for_down 0 (Z.to_nat MAX_ARG_PAGES) (fun i =>
    let a := u32 (top - PAGE_SIZE * (MAX_ARG_PAGES - i)) in
    when (nz (page i)) (put_page (page i) a;; mret tt));;
  modify (fun s => s <| user ::= fun u a =>
    let o := a - (data_limit - MAX_ARG_PAGES * PAGE_SIZE) in
    if (0 <=? o) && (o <? MAX_ARG_PAGES * PAGE_SIZE) && nz (page (o / PAGE_SIZE))
    then phys s (page (o / PAGE_SIZE) + o mod PAGE_SIZE) else u a |>);;
  mret data_limit.

(** fs/exec.c:179-195 *)
Definition is_valid_elf (ex : Elf32_Ehdr) : K bool :=
  if negb (e_ident ex 0 =? 0x7f) || negb (e_ident ex 1 =? 69)
     || negb (e_ident ex 2 =? 76) || negb (e_ident ex 3 =? 70) then
    printk " [ELF] Not ELF Format (Magic Mismatch)\n\r" [];; mret false
  else if negb (e_type ex =? ET_EXEC) || negb (e_machine ex =? EM_386) then
    printk " [ELF] Bad ELF Binary (Type/Machine Error)\n\r" [];; mret false
  else mret true.

(** fs/exec.c:201-225 *)
Definition read_file_block_ind (dev ind block_num : Z) : K ptr :=
  r ← bread dev ind;
  match r with
  | None => printk " [FS] Bad Block Table\n\r" [];; mret None
  | Some ih =>
      b ← getb ih;
      let block := le16 (b_data b) (2 * block_num) in
      if nz block then
        bh ← bread dev block;
        match bh with
        | None =>
            brelse (Some ih);;
            printk " [FS] Bad Block File\n\r" [];;
            mret None
        | Some bh => brelse (Some ih);; mret (Some bh)
        end
      else brelse (Some ih);; mret None
  end.

(** fs/exec.c:233-274 *)
Definition read_file_block (inode block_num : Z) : K ptr :=
  n ← geti inode;
  if block_num <=? 6 then bread (i_dev n) (i_zone n block_num)
  else
    let block_num := block_num - 7 in
    if block_num <? 512 then read_file_block_ind (i_dev n) (i_zone n 7) block_num
    else
      let block_num := block_num - 512 in
      if block_num >? 512 * 512 then panic "Impossibly long executable"
      else
        let i := i_zone n 8 in
        if negb (nz i) then mret None
        else
          r ← bread (i_dev n) i;
          match r with
          | None => mret None
          | Some dind =>
              b ← getb dind;
              let table := le16 (b_data b) (2 * Z.quot block_num 512) in
              brelse (Some dind);;
              let block_num :=
                if block_num >=? 512 then s32 (block_num - (block_num - 1) * 512) else block_num in
              n ← geti inode;
              read_file_block_ind (i_dev n) table block_num
          end.

(** fs/exec.c:281-314: 0, or -1 when a block cannot be read. *)
Definition copy_section (inode from dest size : Z) : K Z :=
  let block_num := from / BLOCK_SIZE in
  let block_offset := from mod BLOCK_SIZE in
  r ← read_file_block inode block_num;
  match r with
  | None => mret (-1)
  | Some bh =>
      let cp_size := if size <? BLOCK_SIZE - block_offset then size else BLOCK_SIZE - block_offset in
      cp_block bh block_offset dest (cp_size + 3);;
      brelse (Some bh);;
      loop (S (Z.to_nat size)) (fun '(dest, size, block_num) =>
        if negb (nz size) then mret (inr 0)
        else
          r ← read_file_block inode block_num;
          match r with
          | None => mret (inr (-1))
          | Some bh =>
              let cp_size := if size <? BLOCK_SIZE then size else BLOCK_SIZE in
              cp_block bh 0 dest (cp_size + 3);;
              brelse (Some bh);;
              mret (inl (dest + cp_size, size - cp_size, block_num + 1))
          end) (dest + cp_size, size - cp_size, block_num + 1)
  end.

(** fs/exec.c:316-321 *)
Definition create_bss_section (dest size : Z) : K Z :=
  for_ 0 (Z.to_nat size) (fun i => put_fs_byte 0 (dest + i));;
  mret 0.

(** fs/exec.c:360-402, one round of the loop: [nsect] sections are left, the
    buffer [bht] holds block [lb] of the file, and the program ends at
    [size].  A table in block 0 is looked up through the null [bht]. *)
Definition load_section (inode : Z) (ex : Elf32_Ehdr) (x : Z * Z * ptr * Z)
    : K ((Z * Z * ptr * Z) + option Z) :=
  let '(nsect, lb, bht, size) := x in
  if negb (nz nsect) then brelse_opt bht;; mret (inr (Some size))
  else
    let nsect := nsect - 1 in
    let at_ := u32 (e_shoff ex + nsect * e_shentsize ex) in
    r ← (if negb (at_ / BLOCK_SIZE =? lb) then
           printk "" [];;
           brelse_opt bht;;
           bht ← read_file_block inode (at_ / BLOCK_SIZE);
           mret (at_ / BLOCK_SIZE, bht, null bht)
         else mret (lb, bht, false));
    let '(lb, bht, failed) := r in
    if failed : bool then mret (inr None)
    else
      bh ← deref bht;
      b ← getb bh;
      let sect := get_shdr (b_data b) (at_ mod BLOCK_SIZE) in
      let fin := u32 (sh_addr sect + sh_size sect) in
      let next := mret (inl (nsect, lb, bht, if size <? fin then fin else size)) in
      if negb (nz (sh_size sect)) || negb (nz (sh_addr sect)) then mret (inl (nsect, lb, bht, size))
      else if sh_type sect =? SHT_PROGBITS then
        e ← copy_section inode (sh_offset sect) (sh_addr sect) (sh_size sect);
        if nz e then brelse_opt bht;; mret (inr None) else next
      else if sh_type sect =? SHT_NOBITS then
        create_bss_section (sh_addr sect) (sh_size sect);; next
      else mret (inl (nsect, lb, bht, size)).

(** fs/exec.c:334-404: the entry point and the size, or [None] for -1. *)
Definition load_elf_binary (inode bh : Z) : K (option bin_section) :=
  b ← getb bh;
  let ex := get_ehdr (b_data b) in
  valid ← is_valid_elf ex;
  if negb valid then mret None
  else
    let nsect := e_shnum ex in
    if nsect <=? 1 then
      printk " [ELF] Bad Nb of Sections: %d\n\r" [nsect];;
      mret None
    else
      r ← loop (S (Z.to_nat nsect)) (load_section inode ex)
            (nsect, 0, None, u32 (e_ehsize ex + nsect * e_shentsize ex));
      mret (option_map (fun size => {| b_entry := e_entry ex; b_size := size |}) r).

(** fs/exec.c:430-438: the user may run the file. *)
Definition may_exec (t : task_struct) (n : m_inode) : bool :=
  let i := i_mode n in
  let i :=
    if nz (t_uid t) && nz (t_euid t) then
      if t_euid t =? i_uid n then Z.shiftr i 6
      else if t_egid t =? i_gid n then Z.shiftr i 3
      else i
    else if hasbit i 73 then 1 else i in
  hasbit i 1.

(** fs/exec.c:462-470: what belongs to the old program is dropped.  Its pages
    are gone, and a fault would bring a page of zeros for each. *)
Definition drop_program : K unit :=
  for_ 0 32 (fun i => setme (fun t => t <| t_sig_fn ::= <[i := 0]> |>));;
  for_ 0 (Z.to_nat NR_OPEN) (fun i =>
    c ← me;
    when (hasbit (Z.shiftr (t_close_on_exec c) i) 1) (sys_close i;; mret tt));;
  setme (fun t => t <| t_close_on_exec := 0 |>);;
  c ← me;
  free_page_tables (get_base (t_ldt c 1)) (get_limit (t_ldt c 1));;
  c ← me;
  free_page_tables (get_base (t_ldt c 2)) (get_limit (t_ldt c 2));;
  modify (fun s => s <| user := fun _ => 0 |>).

(** fs/exec.c:479-492: the new program's stack, tables and sizes; the result
    is its stack pointer. *)
Definition set_program (inode : Z) (page : Z -> Z) (p argc envc : Z) (bs : bin_section) : K Z :=
  s ← get;
  when (ptr_eqb (last_task_used_math s) (current s))
    (modify (fun s => s <| last_task_used_math := None |>));;
  setme (fun t => t <| t_used_math := 0 |>);;
  limit ← change_ldt (b_size bs) page;
  p ← create_tables (u32 (p + limit - MAX_ARG_PAGES * PAGE_SIZE)) argc envc;
  setme (fun t => t <| t_brk := b_size bs |> <| t_end_data := b_size bs |>
                    <| t_end_code := b_size bs |> <| t_start_stack := Z.land p 0xfffff000 |>);;
  iput (Some inode);;
  for_ 0 (Z.to_nat ((- b_size bs) mod 4096)) (fun i => put_fs_byte 0 (b_size bs + i));;
  mret p.

(** fs/exec.c:447-497, once the first block [bh] is read.  The result comes
    with the entry point and stack pointer stored through [eip]. *)
Definition exec_file (filename argv envp inode bh : Z) : K (Z * option (Z * Z)) :=
  argc ← count argv;
  envc ← count envp;
  printk " [EXEC] Loading: %s (Args: %d, Envs: %d)\n\r" [filename; argc; envc];;
  let page := fun i => if (0 <=? i) && (i <? MAX_ARG_PAGES) then 0 else stack_junk i in
  '(page, p) ← copy_strings envc envp page (PAGE_SIZE * MAX_ARG_PAGES);
  '(page, p) ← copy_strings argc argv page p;
  if negb (nz p) then
    for_ 0 (Z.to_nat MAX_ARG_PAGES) (fun i => free_page (page i));;
    iput (Some inode);;
    mret (-1, None)
  else
    drop_program;;
    bs ← load_elf_binary inode bh;
    match bs with
    | None =>
        brelse (Some bh);;
        iput (Some inode);;
        mret (- EACCES, None)
    | Some bs =>
        brelse (Some bh);;
        p ← set_program inode page p argc envc bs;
        mret (0, Some (b_entry bs, p))
    end.

(** fs/exec.c:410-498.  [cs] is [eip[1]]. *)
Definition do_execve (cs filename argv envp : Z) : K (Z * option (Z * Z)) :=
  if negb (Z.land 0xffff cs =? 0x000f) then panic "execve called from supervisor mode"
  else
    r ← namei filename;
    match r with
    | None => mret (- ENOENT, None)
    | Some inode =>
        n ← geti inode;
        if negb (S_ISREG (i_mode n)) then iput (Some inode);; mret (- EACCES, None)
        else
          t ← me;
          if negb (may_exec t n) then iput (Some inode);; mret (- ENOEXEC, None)
          else
            bh ← bread (i_dev n) (i_zone n 0);
            match bh with
            | None => iput (Some inode);; mret (- EACCES, None)
            | Some bh => exec_file filename argv envp inode bh
            end
    end.
End exec.

(** ** Reading a program's blocks

    exec.c has its own walk of the block map.  It agrees with [bmap] of
    fs/inode.c on the blocks it can tell apart. *)

Section blocks.
Context `{Machine}.

Lemma upd_buf_swap i j f g s : i <> j -> upd_buf i f (upd_buf j g s) = upd_buf j g (upd_buf i f s).
Proof.
  intros Hne. destruct s. unfold upd_buf, set_field. simpl. f_equal.
  apply functional_extensionality. intros k. rewrite !arr_dec. repeat case_decide; congruence.
Qed.
Lemma dropped_held_between i j s : dropped i (held j (held i s)) = held j s.
Proof.
  destruct (decide (i = j)) as [->|Hne].
  - apply dropped_held.
  - unfold dropped at 1, held at 1. rewrite upd_buf_swap by done.
    change (upd_buf i _ (held i s)) with (dropped i (held i s)). by rewrite dropped_held.
Qed.

Lemma cached_held s dev z bh i : cached s dev z bh -> b_count (bufs s bh) < 254 ->
  cached (held i s) dev z bh.
Proof.
  intros (l1 & l2 & Hd & Hlen & Hl1 & Hh & Hl & Hu & Hc) Hmax.
  assert (Hkeep : forall k, exists c, bufs (held i s) k = (bufs s k) <| b_count := c |> /\
      (c = b_count (bufs s k) \/ c = b_count (bufs s k) + 1)).
  { intros k. unfold held. destruct (decide (i = k)) as [->|Hne].
    - rewrite upd_buf_eq. eauto.
    - rewrite upd_buf_ne by done. exists (b_count (bufs s k)). split; [by destruct (bufs s k)|by left]. }
  assert (Hholds : forall k, holds (held i s) dev z k <-> holds s dev z k).
  { intros k. unfold holds. destruct (Hkeep k) as (c & -> & _). done. }
  exists l1, l2. unfold held at 1 2. rewrite hnext_keep, hprev_keep by done.
  split; [done|]. split; [done|]. split; [by intros k Hk; rewrite Hholds; auto|]. split; [by apply Hholds|].
  destruct (Hkeep bh) as (c & -> & Hcc). simpl. lia.
Qed.

Lemma read_ind_run dev ind k z bh s :
  indirect_entry s dev ind k z -> z <> 0 -> cached s dev z bh -> b_count (bufs s bh) < 254 ->
  buffer_wait s = None ->
  read_file_block_ind dev ind k s = Ret (Some bh) (held bh s).
Proof.
  intros (ih & Hih & ->) Hz Hbh Hmax Hw. unfold read_file_block_ind.
  rewrite (bind_Ret _ _ _ _ _ (bread_cached _ _ _ _ Hih)). mrun.
  replace (b_data (bufs (held ih s) ih)) with (b_data (bufs s ih)) by (unfold held; by rewrite upd_buf_eq).
  rewrite (proj2 (nz_true _) Hz).
  rewrite (bind_Ret _ _ _ _ _ (bread_cached _ _ _ _ (cached_held s _ _ bh ih Hbh Hmax))).
  destruct Hih as (_ & _ & _ & _ & _ & _ & Hl & _ & Hc).
  rewrite (bind_Ret _ _ _ tt (held bh s)); [done|].
  rewrite brelse_run; [by rewrite dropped_held_between| | |done].
  - unfold held. destruct (decide (bh = ih)) as [->|Hne].
    + by rewrite !upd_buf_eq.
    + by rewrite upd_buf_ne, upd_buf_eq.
  - unfold held. destruct (decide (bh = ih)) as [->|Hne].
    + rewrite !upd_buf_eq. simpl. lia.
    + rewrite upd_buf_ne, upd_buf_eq by done. simpl. lia.
Qed.

Lemma read_file_block_run inode b z bh s :
  maps_to s (inode_table s inode) b z -> z <> 0 -> b < 7 + 512 + 512 ->
  cached s (i_dev (inode_table s inode)) z bh -> b_count (bufs s bh) < 254 -> buffer_wait s = None ->
  read_file_block inode b s = Ret (Some bh) (held bh s).
Proof.
  intros Hm Hz Hb Hbh Hmax Hw.
  unfold read_file_block. mrun.
  destruct Hm as [b Hb'|k Hk Hz'|k z Hk Hz' He|k Hk Hz'|k Hk Hz' He|k y z Hk Hz' Hy He1 He2]; try done.
  - replace (b <=? 6) with true by lia. by apply bread_cached.
  - replace (7 + k <=? 6) with false by lia. cbv zeta. replace (7 + k - 7) with k by lia.
    replace (k <? 512) with true by lia. by apply (read_ind_run _ _ _ z).
  - replace (519 + k <=? 6) with false by lia. cbv zeta.
    replace (519 + k - 7 <? 512) with false by lia. replace (519 + k - 7 - 512) with k by lia.
    replace (k >? 512 * 512) with false by lia. rewrite (proj2 (nz_true _) Hz'). cbn [negb].
    destruct He1 as (ih & Hih & Hy'). rewrite (bind_Ret _ _ _ _ _ (bread_cached _ _ _ _ Hih)). mrun.
    replace (b_data (bufs (held ih s) ih)) with (b_data (bufs s ih)) by (unfold held; by rewrite upd_buf_eq).
    destruct (Hih) as (_ & _ & _ & _ & _ & _ & Hl & _ & Hc).
    rewrite (bind_Ret _ _ _ tt s); cycle 1.
    { rewrite brelse_run; [by rewrite dropped_held|..]; unfold held; rewrite ?upd_buf_eq; simpl; done || lia. }
    mrun. replace (k >=? 512) with false by lia.
    replace (Z.quot k 512) with (k / 512) by dlia. rewrite <- Hy'.
    apply (read_ind_run _ _ _ z); try done. by rewrite Z.mod_small in He2 by lia.
Qed.

(** For the direct, the indirect and the first 512 doubly indirect blocks
    of a file, read_file_block of exec.c reads the block that bmap of inode.c
    gives. *)
Theorem read_file_block_bmap inode b z bh s :
  maps_to s (inode_table s inode) b z -> z <> 0 -> b < 7 + 512 + 512 ->
  cached s (i_dev (inode_table s inode)) z bh -> b_count (bufs s bh) < 254 -> buffer_wait s = None ->
  read_file_block inode b s = Ret (Some bh) (held bh s) /\
  read_file_block inode b s = (nr ← bmap inode b; bread (i_dev (inode_table s inode)) nr) s.
Proof.
  intros Hm Hz Hb Hbh Hmax Hw.
  pose proof (read_file_block_run inode b z bh s Hm Hz Hb Hbh Hmax Hw) as Hrun. split; [done|].
  by rewrite Hrun, (bind_Ret _ _ _ _ _ (bmap_run inode b z s Hm Hw)), (bread_cached _ _ _ _ Hbh).
Qed.
End blocks.

(** ** The tables of arguments *)

(** Strings in memory, each ended by a zero, and where each starts. *)
Definition flat (l : list (list Z)) : list Z := concat (map (fun x => x ++ [0]) l).
Fixpoint starts (p : Z) (l : list (list Z)) : list Z :=
  match l with
  | [] => []
  | x :: l => p :: starts (p + Z.of_nat (length x) + 1) l
  end.
(** Words stored from [a] on, and read from [a] on. *)
Fixpoint store_words (m : Z -> Z) (a : Z) (l : list Z) : Z -> Z :=
  match l with
  | [] => m
  | w :: l => store_words (put32 m a w) (a + 4) l
  end.
Fixpoint load_words (m : Z -> Z) (a : Z) (n : nat) : list Z :=
  match n with
  | O => []
  | S n => le32 m a :: load_words m (a + 4) n
  end.

Lemma store_words_app m a l k :
  store_words m a (l ++ k) = store_words (store_words m a l) (a + 4 * Z.of_nat (length l)) k.
Proof.
  revert m a. induction l as [|w l IH]; intros m a; simpl; [by rewrite Z.add_0_r|].
  rewrite IH. f_equal. lia.
Qed.
Lemma store_words_out m a l i : i < a \/ a + 4 * Z.of_nat (length l) <= i -> store_words m a l i = m i.
Proof.
  revert m a. induction l as [|w l IH]; intros m a Hi; simpl in *; [done|].
  rewrite IH by lia. apply put32_ne. lia.
Qed.
Lemma load_store_words m a l : Forall (fun w => 0 <= w < 4294967296) l ->
  load_words (store_words m a l) a (length l) = l.
Proof.
  intros Hl. revert m a. induction Hl as [|w l Hw Hl IH]; intros m a; simpl; [done|]. f_equal; [|apply IH].
  assert (Hle : forall m m' a, (forall i, a <= i < a + 4 -> m i = m' i) -> le32 m a = le32 m' a).
  { intros m1 m2 b Hm. unfold le32. by rewrite !Hm by lia. }
  rewrite (Hle _ (put32 m a w)); [rewrite le32_put32; by apply u32_small|].
  intros i Hi. apply store_words_out. lia.
Qed.
Lemma length_starts p l : length (starts p l) = length l.
Proof. revert p. induction l; intros; simpl; auto. Qed.
Lemma starts_app p l k :
  starts p (l ++ k) = starts p l ++ starts (p + Z.of_nat (length (flat l))) k.
Proof.
  revert p. induction l as [|x l IH]; intros p; simpl; [by rewrite Z.add_0_r|].
  rewrite IH. do 3 f_equal. unfold flat. simpl. rewrite !length_app. simpl. lia.
Qed.
Lemma starts_range p l :
  Forall (fun a => p <= a < p + Z.of_nat (length (flat l))) (starts p l).
Proof.
  revert p. induction l as [|x l IH]; intros p; simpl; [constructor|].
  assert (Hlen : Z.of_nat (length (flat (x :: l))) = Z.of_nat (length x) + 1 + Z.of_nat (length (flat l))).
  { unfold flat. simpl. rewrite !length_app. simpl. lia. }
  constructor; [lia|]. eapply Forall_impl; [|apply IH]. cbv beta. intros a Ha. lia.
Qed.

Section tables.
Context `{Machine}.

Lemma bind_get_fs {B} a (k : Z -> K B) s : (get_fs_byte a ≫= k) s = k (user s a) s.
Proof. done. Qed.
Lemma skip_string_run u s p x n : (length x < n)%nat -> Forall (fun c => c <> 0) x ->
  load_bytes u p (S (length x)) = x ++ [0] ->
  loop n (fun p => c ← get_fs_byte p; mret (if nz c then inl (p + 1) else inr (p + 1))) p
    (with_user u s) = Ret (p + Z.of_nat (length x) + 1) (with_user u s).
Proof.
  revert p x. induction n as [|n IH]; intros p x Hn Hx Hl; [lia|]. cbn [loop]. mrun.
  rewrite bind_get_fs. mrun.
  change (user (with_user u s) p) with (u p). destruct x as [|c x]; simpl in Hl.
  - injection Hl as Hl. rewrite Hl. cbn [nz negb Z.eqb]. mrun. simpl. by rewrite Z.add_0_r.
  - apply Forall_cons_iff in Hx as [Hc Hx]. injection Hl as Hup Hl. rewrite Hup, (proj2 (nz_true _) Hc). mrun.
    rewrite (IH (p + 1) x); [f_equal; simpl length; lia|simpl in Hn; lia|done|exact Hl].
Qed.

(** The strings [l] lie at [p]. *)
Definition strings_at (u : Z -> Z) (p : Z) (l : list (list Z)) : Prop :=
  load_bytes u p (length (flat l)) = flat l /\
  Forall (fun x => Forall (fun c => c <> 0) x /\ (length x < fuel)%nat) l.

Lemma strings_at_cons u p x l : strings_at u p (x :: l) ->
  load_bytes u p (S (length x)) = x ++ [0] /\ Forall (fun c => c <> 0) x /\ (length x < fuel)%nat /\
  strings_at u (p + Z.of_nat (length x) + 1) l.
Proof.
  intros [Hl Hf]. apply Forall_cons_iff in Hf as [[Hx Hn] Hf].
  assert (E : flat (x :: l) = (x ++ [0]) ++ flat l) by done.
  rewrite E, length_app, load_app in Hl.
  assert (Hlen : length (x ++ [0]) = S (length x)) by (rewrite length_app; simpl; lia).
  rewrite Hlen in Hl. apply app_inj_1 in Hl as [H1 H2]; [|by rewrite length_load, Hlen].
  split_and!; try done. split; [|done].
  replace (p + Z.of_nat (length x) + 1) with (p + Z.of_nat (S (length x))) by lia. done.
Qed.
Lemma strings_at_keep u u' p l : (forall a, p <= a -> u' a = u a) -> strings_at u p l -> strings_at u' p l.
Proof. intros Hu [Hl Hf]. split; [|done]. etransitivity; [|exact Hl]. apply load_ext. intros i Hi. apply Hu. lia. Qed.

Lemma with_user_twice u v s : with_user u (with_user v s) = with_user u s.
Proof. done. Qed.

Lemma bind_put_long {B} v a (k : unit -> K B) u s :
  (put_fs_long v a ≫= k) (with_user u s) = k tt (with_user (put32 u a v) s).
Proof. done. Qed.

Lemma bind_put_long' {B} v a (k : unit -> K B) s :
  (put_fs_long v a ≫= k) s = k tt (with_user (put32 (user s) a v) s).
Proof. done. Qed.

(** The loop of [put_pointers]. *)
Lemma pointers_loop l p v u s m : (length l < m)%nat -> strings_at u p l -> 0 <= v ->
  v + 4 * Z.of_nat (length l) <= p ->
  loop m (fun '(n, p, v) =>
    if n >? 0 then
      put_fs_long p v;;
      p ← skip_string p;
      mret (inl (n - 1, p, v + 4))
    else mret (inr (p, v))) (Z.of_nat (length l), p, v) (with_user u s) =
  Ret (p + Z.of_nat (length (flat l)), v + 4 * Z.of_nat (length l))
    (with_user (store_words u v (starts p l)) s).
Proof.
  revert p v u m. induction l as [|x l IH]; intros p v u m Hm Hs Hv Hp; (destruct m as [|m]; [simpl in Hm; lia|]); cbn [loop].
  - simpl. by rewrite !Z.add_0_r.
  - destruct (Z.gtb_spec (Z.of_nat (length (x :: l))) 0) as [_|Hbad]; [|cbn [length] in Hbad; lia].
    apply strings_at_cons in Hs as (Hx & Hnz & Hn & Hs).
    cbn [length] in *. mrun. rewrite bind_put_long. mrun.
    assert (Hkeep : forall a, p <= a -> put32 u v p a = u a) by (intros a Ha; apply put32_ne; lia).
    rewrite (bind_Ret (skip_string p) _ _ _ _ (skip_string_run (put32 u v p) s p x fuel Hn Hnz
      ltac:(rewrite <- Hx; apply load_ext; intros i Hi; apply Hkeep; lia))). mrun.
    replace (Z.of_nat (S (length l)) - 1) with (Z.of_nat (length l)) by lia.
    rewrite (IH (p + Z.of_nat (length x) + 1) (v + 4) (put32 u v p) m); [|lia| |lia|lia].
    + f_equal. f_equal; [|lia]. unfold flat. simpl. rewrite !length_app. simpl. lia.
    + apply (strings_at_keep u); [|done]. intros a Ha. apply Hkeep. lia.
Qed.

Lemma put_pointers_run l p v u s : strings_at u p l -> 0 <= v -> v + 4 * Z.of_nat (length l) + 4 <= p ->
  put_pointers (Z.of_nat (length l)) p v (with_user u s) =
    Ret (p + Z.of_nat (length (flat l))) (with_user (store_words u v (starts p l ++ [0])) s).
Proof.
  intros Hs Hv Hp. unfold put_pointers.
  rewrite (bind_Ret _ _ _ _ _ (pointers_loop l p v u s (S (Z.to_nat (Z.of_nat (length l)))) ltac:(lia) Hs Hv ltac:(lia))).
  rewrite bind_put_long, mret_run. f_equal.
  rewrite store_words_app, length_starts. done.
Qed.

(** C34: create_tables builds below the argument strings a word-aligned table:
    the number of arguments, a pointer to each argument and a null, a pointer to
    each environment string and a null; it returns the table's address and
    changes no byte at or above the strings. *)
Theorem create_tables_spec p la le s :
  let argc := Z.of_nat (length la) in
  let envc := Z.of_nat (length le) in
  let sp := 4 * (p / 4) - 4 * (argc + envc + 3) in
  let table := argc :: starts p la ++ [0] ++
               starts (p + Z.of_nat (length (flat la))) le ++ [0] in
  strings_at (user s) p (la ++ le) -> 0 <= sp -> p + Z.of_nat (length (flat (la ++ le))) < 4294967296 ->
  exists s', create_tables p argc envc s = Ret sp s' /\ s' = s <| user := user s' |> /\
    load_words (user s') sp (length table) = table /\
    forall a, a < sp \/ p <= a -> user s' a = user s a.
Proof.
  intros argc envc sp table Hs Hsp Hmax. unfold create_tables.
  assert (Hp4 : 4 * (p / 4) <= p) by dlia.
  assert (Hmask : Z.land 0xfffffffc p = 4 * (p / 4)).
  { rewrite Z.land_comm. change 0xfffffffc with (Z.shiftl (Z.ones 30) 2). rewrite land_field by lia.
    change (2 ^ 2) with 4. rewrite Z.mod_small; [done|]. change (2 ^ 30) with 1073741824. dlia. }
  rewrite Hmask. cbv zeta.
  rewrite (u32_small (4 * (p / 4) - 4 * (envc + 1))) by lia.
  rewrite (u32_small (_ - 4 * (argc + 1))) by lia. rewrite (u32_small (_ - 4)) by lia.
  replace (4 * (p / 4) - 4 * (envc + 1) - 4 * (argc + 1) - 4) with sp by lia.
  replace (4 * (p / 4) - 4 * (envc + 1) - 4 * (argc + 1)) with (sp + 4) by lia.
  replace (4 * (p / 4) - 4 * (envc + 1)) with (sp + 4 + 4 * (argc + 1)) by lia.
  rewrite (bind_put_long' argc sp _ s).
  assert (Hflat : flat (la ++ le) = flat la ++ flat le) by (unfold flat; by rewrite map_app, concat_app).
  destruct Hs as [Hl Hf]. rewrite Hflat, length_app, load_app in Hl.
  apply app_inj_1 in Hl as [Hla Hle]; [|by rewrite length_load].
  apply Forall_app in Hf as [Hfa Hfe].
  assert (Hs1 : strings_at (put32 (user s) sp argc) p la).
  { apply (strings_at_keep (user s)); [|by split]. intros a Ha. apply put32_ne. lia. }
  rewrite (bind_Ret _ _ _ _ _ (put_pointers_run la p (sp + 4) _ s Hs1 ltac:(lia) ltac:(lia))).
  set (u1 := store_words (put32 (user s) sp argc) (sp + 4) (starts p la ++ [0])).
  assert (Hu1 : forall a, a < sp \/ sp + 4 + 4 * (argc + 1) <= a -> u1 a = user s a).
  { intros a Ha. unfold u1. rewrite store_words_out, put32_ne; [done|lia|].
    rewrite length_app, length_starts. simpl. lia. }
  assert (Hs2 : strings_at u1 (p + Z.of_nat (length (flat la))) le).
  { apply (strings_at_keep (user s)); [|by split]. intros a Ha. apply Hu1. lia. }
  rewrite (bind_Ret _ _ _ _ _ (put_pointers_run le _ (sp + 4 + 4 * (argc + 1)) _ s Hs2 ltac:(lia) ltac:(lia))).
  rewrite mret_run. eexists. split; [done|]. split; [done|].
  change (user (with_user ?u s)) with u.
  assert (Hall : store_words u1 (sp + 4 + 4 * (argc + 1)) (starts (p + Z.of_nat (length (flat la))) le ++ [0]) =
    store_words (user s) sp table).
  { unfold table, u1. cbn [store_words].
    rewrite (app_assoc (starts p la) [0]), (store_words_app _ _ (starts p la ++ [0])). f_equal. rewrite length_app, length_starts. simpl. lia. }
  split.
  - rewrite Hall. apply load_store_words. unfold table.
    assert (Hlen : Z.of_nat (length (flat (la ++ le))) = Z.of_nat (length (flat la)) + Z.of_nat (length (flat le))).
    { rewrite Hflat, length_app. lia. }
    assert (Hr : forall q l, 0 <= q -> q + Z.of_nat (length (flat l)) < 4294967296 ->
      Forall (fun w => 0 <= w < 4294967296) (starts q l)).
    { intros q l Hq Hm. eapply Forall_impl; [|apply starts_range]. cbv beta. intros a Ha. lia. }
    constructor; [lia|]. rewrite !Forall_app. split_and!; try (apply Hr; lia); (constructor; [lia|constructor]).
  - intros a Ha. rewrite store_words_out; [apply Hu1; lia|].
    rewrite length_app, length_starts. simpl. lia.
Qed.
End tables.

(** ** Examples *)

Lemma read_file_block_bmap_witness :
  @read_file_block quiet_machine 3 0 readable = Ret (Some 0) (held 0 readable).
Proof.
  refine (proj1 (@read_file_block_bmap quiet_machine 3 0 7 0 readable _ _ _ _ _ _)).
  - apply (@map_direct quiet_machine readable (inode_table readable 3) 0). lia.
  - discriminate.
  - reflexivity.
  - apply readable_cached.
  - reflexivity.
  - reflexivity.
Defined.

(** Two strings, [ls] and [-l], at 4101, and no environment. *)
Definition two_strings : kstate := zero_kstate
  <| user := store_bytes zero_arr 4101 [108; 115; 0; 45; 108; 0] |>.

Lemma create_tables_spec_witness : exists s', @create_tables quiet_machine 4101 2 0 two_strings = Ret 4080 s' /\
  load_words (user s') 4080 5 = [2; 4101; 4104; 0; 0].
Proof.
  destruct (@create_tables_spec quiet_machine 4101 [[108; 115]; [45; 108]] [] two_strings) as (s' & Hrun & _ & Hw & _).
  - split; [vm_compute; reflexivity|]. repeat constructor; discriminate || (simpl; lia).
  - vm_compute. discriminate.
  - vm_compute. reflexivity.
  - exists s'. split; [exact Hrun|exact Hw].
Defined.
