(* ===== verification/Stat.v ===== *)
(** What a process can ask about files: fs/stat.c and fs/sys_getdents.c. *)
From S2P Require Export Exec.
#[local] Open Scope bool_scope.

(** include/sys/stat.h:7-28: the bytes of a [struct stat]; the fields the
    kernel does not set keep what the stack held. *)
Definition stat_bytes (junk : Z -> Z) (n : m_inode) : Z -> Z :=
  let t := put16 junk 0 (i_dev n) in
  let t := put32 t 4 (i_num n) in
  let t := put16 t 8 (i_mode n) in
  let t := put16 t 10 (i_nlinks n) in
  let t := put16 t 12 (i_uid n) in
  let t := put16 t 14 (i_gid n) in
  let t := put16 t 16 (i_zone n 0) in
  let t := put32 t 20 (i_size n) in
  let t := put32 t 32 (i_atime n) in
  let t := put32 t 40 (i_mtime n) in
  put32 t 48 (i_ctime n).
(** include/sys/stat.h:30-65: those of a [struct stat64]. *)
Definition stat64_bytes (junk : Z -> Z) (n : m_inode) : Z -> Z :=
  let t := put16 junk 0 (i_dev n) in
  let t := put32 (put32 t 88 (i_num n)) 92 0 in
  let t := put32 t 16 (i_mode n) in
  let t := put32 t 20 (i_nlinks n) in
  let t := put32 t 24 (i_uid n) in
  let t := put32 t 28 (i_gid n) in
  let t := put16 t 32 (i_zone n 0) in
  let t := put32 (put32 t 44 (i_size n)) 48 0 in
  let t := put32 t 64 (i_atime n) in
  let t := put32 t 72 (i_mtime n) in
  put32 t 80 (i_ctime n).
Definition stat_size : Z := 64.
Definition stat64_size : Z := 96.

Section stat.
Context `{Machine}.

(** fs/stat.c:28-29: a structure copied to user space. *)
Definition put_struct (tmp : Z -> Z) (size addr : Z) : K unit :=
  for_ 0 (Z.to_nat size) (fun i => put_fs_byte (tmp i) (addr + i)).

(** fs/stat.c:9-29 *)
Definition cp_stat (inode statbuf : Z) : K Z :=
  verify_area statbuf stat_size;;
  n ← geti inode;
  put_struct (stat_bytes stack_junk n) stat_size statbuf;;
  mret 0.

(** fs/stat.c:31-41 *)
Definition sys_stat (filename statbuf : Z) : K Z :=
  r ← namei filename;
  match r with
  | None => mret (- ENOENT)
  | Some inode => i ← cp_stat inode statbuf; iput (Some inode);; mret i
  end.

(** fs/stat.c:43-46 *)
Definition sys_lstat (filename statbuf : Z) : K Z := sys_stat filename statbuf.

(** The inode of a descriptor, or [None]: fs/stat.c:54 and 109 and
    fs/sys_getdents.c:104 and 117. *)
Definition fd_inode (fd : Z) : K (option (Z * Z)) :=
  r ← get_filp fd;
  match r with
  | None => mret None
  | Some file => f ← getf file; mret (option_map (fun i => (file, i)) (f_inode f))
  end.

(** fs/stat.c:48-56 *)
Definition sys_fstat (fd statbuf : Z) : K Z :=
  r ← fd_inode fd;
  match r with
  | None => mret (- ENOENT)
  | Some (_, inode) => cp_stat inode statbuf
  end.

(** fs/stat.c:59-79 *)
Definition cp_stat64 (inode statbuf : Z) : K Z :=
  verify_area statbuf stat64_size;;
  n ← geti inode;
  put_struct (stat64_bytes stack_junk n) stat64_size statbuf;;
  mret 0.

(** fs/stat.c:81-91 *)
Definition sys_stat64 (filename statbuf : Z) : K Z :=
  r ← namei filename;
  match r with
  | None => mret (- ENOENT)
  | Some inode => i ← cp_stat64 inode statbuf; iput (Some inode);; mret i
  end.

(** fs/stat.c:93-101 *)
Definition sys_fstat64 (fd statbuf : Z) : K Z :=
  r ← fd_inode fd;
  match r with
  | None => mret (- ENOENT)
  | Some (_, inode) => cp_stat64 inode statbuf
  end.

(** fs/stat.c:103-106 *)
Definition sys_lstat64 (filename statbuf : Z) : K Z := sys_stat64 filename statbuf.

(** fs/stat.c:108-112 *)
Definition sys_oldstat : K Z :=
  printk "calling obsolete system call oldstat\n" [];; mret 0.
(** fs/stat.c:114-118 *)
Definition sys_oldfstat : K Z :=
  printk "calling obsolete system call oldfstat\n" [];; mret 0.

(** ** Directory entries *)

(** fs/sys_getdents.c:38-42, one round: character [i] of the name at [de]. *)
Definition put_char_of (d : Z -> Z) (de d_name i : Z) : K (Z + Z) :=
  if i <? NAME_LEN then
    let c := d (de + 2 + i) in
    if nz c then put_fs_byte c (i + d_name);; mret (inl (i + 1)) else mret (inr i)
  else mret (inr i).
(** fs/sys_getdents.c:38-42: the characters of the name at [de], up to its
    end, go to [d_name]; their number comes back. *)
Definition put_name (d : Z -> Z) (de d_name : Z) : K Z := loop 15 (put_char_of d de d_name) 0.

Section dents.
(** What differs between the two versions: where the name and the length are
    in the structure.  Both store four bytes of the inode number, at its
    start. *)
Context (o_name o_reclen : Z).

(** fs/sys_getdents.c:33-51, one round: the entry at [offset] of the block in
    [bh]; [inr (Some i)] is returned from the function. *)
Definition dent_step (inode filp bh dirent offset : Z) : K (Z + option Z) :=
  f ← getf filp;
  n ← geti inode;
  if negb ((offset <? 1024) && (u32 (f_pos f) <? i_size n)) then mret (inr None)
  else
    b ← getb bh;
    setf filp (fun x => x <| f_pos ::= fun p => s32 (p + 16) |>);;
    let ino := le16 (b_data b) offset in
    if negb (nz ino) then mret (inl (offset + 16))
    else
      i ← put_name (b_data b) offset (dirent + o_name);
      if negb (nz i) then mret (inl (offset + 16))
      else
        put_fs_long ino dirent;;
        put_fs_byte 0 (i + (dirent + o_name));;
        put_fs_word i (dirent + o_reclen);;
        brelse (Some bh);;
        mret (inr (Some i)).
(** fs/sys_getdents.c:33-51: a block has 64 entries. *)
Definition scan_block (inode filp bh dirent offset : Z) : K (option Z) :=
  loop 66 (dent_step inode filp bh dirent) offset.

(** fs/sys_getdents.c:21-54 *)
Definition getdents (inode filp dirent : Z) : K Z :=
  n ← geti inode;
  if negb (S_ISDIR (i_mode n)) then mret (- EBADF)
  else
    loop fuel (fun _ : unit =>
      f ← getf filp;
      n ← geti inode;
      if negb (u32 (f_pos f) <? i_size n) then mret (inr 0)
      else
        let offset := Z.land (f_pos f) 1023 in
        bh ← read_file_block inode (Z.quot (f_pos f) BLOCK_SIZE);
        match bh with
        | None =>
            setf filp (fun x => x <| f_pos ::= fun p => s32 (p + 1024 - offset) |>);;
            mret (inl tt)
        | Some bh =>
            r ← scan_block inode filp bh dirent offset;
            match r with
            | Some i => mret (inr i)
            | None => brelse (Some bh);; mret (inl tt)
            end
        end) tt.
End dents.

(** fs/sys_getdents.c:13-55.  The size of the buffer, [count], is not used. *)
Definition minix_getdents (inode filp dirent count : Z) : K Z := getdents 10 8 inode filp dirent.
(** fs/sys_getdents.c:57-99 *)
Definition minix_getdents64 (inode filp dirent count : Z) : K Z := getdents 19 16 inode filp dirent.

(** fs/sys_getdents.c:101-111 *)
Definition sys_getdents (fd dirp count : Z) : K Z :=
  r ← fd_inode fd;
  match r with
  | None => mret (- EBADF)
  | Some (file, inode) => verify_area dirp 268;; minix_getdents inode file dirp count
  end.
(** fs/sys_getdents.c:113-123 *)
Definition sys_getdents64 (fd dirp count : Z) : K Z :=
  r ← fd_inode fd;
  match r with
  | None => mret (- EBADF)
  | Some (file, inode) => verify_area dirp 276;; minix_getdents64 inode file dirp count
  end.
End stat.

(** ** The next entry of a directory *)


Section dents.
Context `{Machine}.






Context (o_name o_reclen : Z).





End dents.

Section next.
Context `{Machine}.

End next.

(** ** Examples *)



