(* ===== verification/Sys.v ===== *)
(** Identity, time and sessions of a process, kernel/sys.c, and the clock at
    boot, kernel/mktime.c and init/main.c. *)
From S2P Require Export Stat.
#[local] Open Scope bool_scope.

(** ** Calls that do nothing *)

(** kernel/sys.c:19-22 *)
Definition sys_ftime : Z := - ENOSYS.
(** kernel/sys.c:24-27 *)
Definition sys_mknod : Z := - ENOSYS.
(** kernel/sys.c:29-32 *)
Definition sys_break : Z := - ENOSYS.
(** kernel/sys.c:34-37 *)
Definition sys_mount : Z := - ENOSYS.
(** kernel/sys.c:39-42 *)
Definition sys_umount : Z := - ENOSYS.
(** kernel/sys.c:44-47 *)
Definition sys_ustat (dev : Z) (ubuf : Z) : Z := -1.
(** kernel/sys.c:49-52 *)
Definition sys_ptrace : Z := - ENOSYS.
(** kernel/sys.c:54-57 *)
Definition sys_stty : Z := - ENOSYS.
(** kernel/sys.c:59-62 *)
Definition sys_gtty : Z := - ENOSYS.
(** kernel/sys.c:64-67 *)
Definition sys_rename : Z := - ENOSYS.
(** kernel/sys.c:69-72 *)
Definition sys_prof : Z := - ENOSYS.
(** kernel/sys.c:86-89 *)
Definition sys_acct : Z := - ENOSYS.
(** kernel/sys.c:91-94 *)
Definition sys_phys : Z := - ENOSYS.
(** kernel/sys.c:96-99 *)
Definition sys_lock : Z := - ENOSYS.
(** kernel/sys.c:101-104 *)
Definition sys_mpx : Z := - ENOSYS.
(** kernel/sys.c:106-109 *)
Definition sys_ulimit : Z := - ENOSYS.

(** ** Identity *)

(** kernel/sys.c:74-84 *)
Definition sys_setgid (gid : Z) : K Z :=
  c ← me;
  if nz (t_euid c) && nz (t_uid c) then
    if (t_gid c =? gid) || (t_sgid c =? gid) then
      setme (fun t => t <| t_egid := u16 gid |>);; mret 0
    else mret (- EPERM)
  else
    setme (fun t => t <| t_egid := u16 gid |> <| t_gid := u16 gid |>);; mret 0.

(** kernel/sys.c:123-133 *)
Definition sys_setuid (uid : Z) : K Z :=
  c ← me;
  if nz (t_euid c) && nz (t_uid c) then
    if (uid =? t_uid c) || (t_suid c =? t_uid c) then
      setme (fun t => t <| t_euid := u16 uid |>);; mret 0
    else mret (- EPERM)
  else
    setme (fun t => t <| t_uid := u16 uid |> <| t_euid := u16 uid |>);; mret 0.

Section sys.
Context `{Machine}.

(** kernel/sys.c:111-121 *)
Definition sys_time (tloc : Z) : K Z :=
  i ← CURRENT_TIME;
  when (nz tloc) (verify_area tloc 4;; put_fs_long i tloc);;
  mret i.

(** kernel/sys.c:135-141 *)
Definition sys_stime (tptr : Z) : K Z :=
  c ← me;
  if nz (t_euid c) && nz (t_uid c) then mret (-1)
  else
    t ← get_fs_long tptr;
    modify (fun s => s <| startup_time := s32 (t - Z.quot (jiffies s) HZ) |>);;
    mret 0.

(** kernel/sys.c:143-153 *)
Definition sys_times (tbuf : Z) : K Z :=
  if negb (nz tbuf) then gets jiffies
  else
    verify_area tbuf 16;;
    c ← me; put_fs_long (t_utime c) tbuf;;
    c ← me; put_fs_long (t_stime c) (tbuf + 4);;
    c ← me; put_fs_long (t_cutime c) (tbuf + 8);;
    c ← me; put_fs_long (t_cstime c) (tbuf + 12);;
    gets jiffies.

(** kernel/sys.c:155-161 *)
Definition sys_brk (end_data_seg : Z) : K Z :=
  c ← me;
  when ((end_data_seg >=? t_end_code c) && (end_data_seg <? u32 (t_start_stack c - 16384)))
    (setme (fun t => t <| t_brk := end_data_seg |>));;
  c ← me;
  mret (t_brk c).

(** ** Process groups and sessions *)

(** kernel/sys.c:172-190 *)
Definition sys_setpgid (pid pgid : Z) : K Z :=
  c ← me;
  let pid := if nz pid then pid else t_pid c in
  let pgid := if nz pgid then pgid else pid in
  r ← for_ret 0 (Z.to_nat NR_TASKS) (fun i =>
    s ← get;
    match task s i with
    | None => mret None
    | Some p =>
        t ← gett p;
        if negb (t_pid t =? pid) then mret None
        else if nz (t_leader t) then mret (Some (- EPERM))
        else
          c ← me;
          if negb (t_session t =? t_session c) then mret (Some (- EPERM))
          else sett p (fun t => t <| t_pgrp := pgid |>);; mret (Some 0)
    end);
  mret (match r with Some v => v | None => - ESRCH end).

(** kernel/sys.c:192-195 *)
Definition sys_getpgrp : K Z := c ← me; mret (t_pgrp c).

(** kernel/sys.c:197-207 *)
Definition sys_setsid : K Z :=
  c ← me;
  if nz (t_uid c) && nz (t_euid c) then mret (- EPERM)
  else if nz (t_leader c) then mret (- EPERM)
  else
    setme (fun t => t <| t_leader := 1 |> <| t_pgrp := t_pid t |> <| t_session := t_pid t |>
                      <| t_tty := -1 |>);;
    c ← me;
    mret (t_pgrp c).

(** kernel/sys.c:209-214 *)
Definition sys_oldolduname : K Z :=
  printk "calling obsolete system call oldolduname\n" [];; mret (- ENOSYS).

(** A field of [struct utsname], include/sys/utsname.h: 65 bytes. *)
Definition uts_field (x : string) : list Z :=
  let l := map (fun a => Z.of_N (Ascii.N_of_ascii a)) (String.list_ascii_of_string x) in
  l ++ replicate (65 - length l) 0.
(** kernel/sys.c:218-220; the last field, the domain name, is empty. *)
Definition thisname : list Z :=
  concat (map uts_field ["Rhee Creatives Linux v1.0"; "Extreme Performance"; "1.0-RHEE"; "20260125"; "i386"; ""]%string).

(** kernel/sys.c:216-228 *)
Definition sys_uname (name : Z) : K Z :=
  if negb (nz name) then mret (-1)
  else
    verify_area name 390;;
    for_ 0 390 (fun i => put_fs_byte (nth (Z.to_nat i) thisname 0) (i + name));;
    mret 0.

(** kernel/sys.c:230-236 *)
Definition sys_umask (mask : Z) : K Z :=
  c ← me;
  let old := t_umask c in
  setme (fun t => t <| t_umask := Z.land mask 511 |>);;
  mret old.

(** kernel/sys.c:238-249: the result, and the new value of the static
    [prev_nr], which nothing else reads. *)
Definition sys_null (nr prev_nr : Z) : Z * Z :=
  if (nr =? 174) || (nr =? 175) then (- ENOSYS, prev_nr)
  else (- ENOSYS, if negb (prev_nr =? nr) then nr else prev_nr).

(** ** The clock at boot *)

(** include/time.h:17-27: the fields that are used. *)
Record tm : Type := mk_tm { tm_sec : Z; tm_min : Z; tm_hour : Z; tm_mday : Z; tm_mon : Z; tm_year : Z }.
#[export] Instance eta_tm : Eta tm := fun r =>
  mk_tm (tm_sec r) (tm_min r) (tm_hour r) (tm_mday r) (tm_mon r) (tm_year r).

(** kernel/mktime.c:14 *)
Definition MINUTE : Z := 60.
(** kernel/mktime.c:15 *)
Definition HOUR : Z := 60 * MINUTE.
(** kernel/mktime.c:16 *)
Definition DAY : Z := 24 * HOUR.
(** kernel/mktime.c:17 *)
Definition YEAR : Z := 365 * DAY.

(** kernel/mktime.c:20-33.  What lies past the table is not known: [None]. *)
Definition month (k : Z) : option Z :=
  if k <? 0 then None
  else nth_error
    [0; DAY * 31; DAY * (31 + 29); DAY * (31 + 29 + 31); DAY * (31 + 29 + 31 + 30);
     DAY * (31 + 29 + 31 + 30 + 31); DAY * (31 + 29 + 31 + 30 + 31 + 30);
     DAY * (31 + 29 + 31 + 30 + 31 + 30 + 31); DAY * (31 + 29 + 31 + 30 + 31 + 30 + 31 + 31);
     DAY * (31 + 29 + 31 + 30 + 31 + 30 + 31 + 31 + 30);
     DAY * (31 + 29 + 31 + 30 + 31 + 30 + 31 + 31 + 30 + 31);
     DAY * (31 + 29 + 31 + 30 + 31 + 30 + 31 + 31 + 30 + 31 + 30)] (Z.to_nat k).

(** kernel/mktime.c:35-52: [None] when the month is not one of the table's. *)
Definition kernel_mktime (tm : tm) : option Z :=
  let year := tm_year tm - 70 in
  let res := s32 (YEAR * year + DAY * Z.quot (year + 1) 4) in
  match month (tm_mon tm) with
  | None => None
  | Some m =>
      let res := s32 (res + m) in
      let res := if (tm_mon tm >? 1) && nz (Z.rem (year + 2) 4) then s32 (res - DAY) else res in
      let res := s32 (res + DAY * (tm_mday tm - 1)) in
      let res := s32 (res + HOUR * tm_hour tm) in
      let res := s32 (res + MINUTE * tm_min tm) in
      Some (s32 (res + tm_sec tm))
  end.

(** init/main.c:59-62 *)
Definition CMOS_READ (addr : Z) : K Z := outb_p (Z.lor 0x80 addr) 0x70;; inb_p 0x71.
(** init/main.c:64 *)
Definition BCD_TO_BIN (val : Z) : Z := Z.land val 15 + Z.shiftr val 4 * 10.

(** init/main.c:70-77: the fields as the clock has them, read until the second
    stays the same. *)
Definition read_clock : K tm :=
  loop fuel (fun _ : unit =>
    sec ← CMOS_READ 0;
    min ← CMOS_READ 2;
    hour ← CMOS_READ 4;
    mday ← CMOS_READ 7;
    mon ← CMOS_READ 8;
    year ← CMOS_READ 9;
    again ← CMOS_READ 0;
    mret (if sec =? again then inr (mk_tm sec min hour mday (mon - 1) year) else inl tt)) tt.
(** init/main.c:78-83 *)
Definition from_bcd (t : tm) : tm :=
  mk_tm (BCD_TO_BIN (tm_sec t)) (BCD_TO_BIN (tm_min t)) (BCD_TO_BIN (tm_hour t))
    (BCD_TO_BIN (tm_mday t)) (BCD_TO_BIN (tm_mon t)) (BCD_TO_BIN (tm_year t)).
(** init/main.c:66-85.  A month past the table stores an unknown time, here
    the word the stack holds. *)
Definition time_init : K unit :=
  t ← read_clock;
  let v := match kernel_mktime (from_bcd t) with Some v => v | None => s32 (stack_junk 0) end in
  modify (fun s => s <| startup_time := v |>).
End sys.

(** ** The time of a date *)

(** The Gregorian calendar. *)
Definition leap (y : Z) : bool :=
  (y mod 4 =? 0) && (negb (y mod 100 =? 0) || (y mod 400 =? 0)).
Definition year_days (y : Z) : Z := if leap y then 366 else 365.
Definition month_days (y m : Z) : Z :=
  if m =? 1 then (if leap y then 29 else 28)
  else if (m =? 3) || (m =? 5) || (m =? 8) || (m =? 10) then 30 else 31.
(** Days from 1 January 1970 to day [d] (from 1) of month [m] (from 0). *)
Definition days (y m d : Z) : Z :=
  zsum year_days 1970 (Z.to_nat (y - 1970)) + zsum (month_days y) 0 (Z.to_nat m) + (d - 1).

(** A statement about the integers of a small range is decided by looking at
    each. *)
Lemma range_ind (P : Z -> bool) n k : forallb (fun i => P (Z.of_nat i)) (seq 0 n) = true ->
  0 <= k < Z.of_nat n -> P k = true.
Proof.
  intros H Hk. rewrite forallb_forall in H. rewrite <- (Z2Nat.id k) by lia. apply H. apply in_seq. lia.
Qed.

Lemma years_sum k : 0 <= k < 68 ->
  zsum year_days 1970 (Z.to_nat k) = 365 * k + (k + 1) / 4 /\ leap (1970 + k) = ((k + 2) mod 4 =? 0).
Proof.
  intros Hk.
  pose proof (range_ind (fun k => (zsum year_days 1970 (Z.to_nat k) =? 365 * k + (k + 1) / 4)
    && Bool.eqb (leap (1970 + k)) ((k + 2) mod 4 =? 0)) 68 k ltac:(vm_compute; reflexivity) Hk) as H.
  apply andb_true_iff in H as [H1 H2]. ztest. split; [done|]. by apply Bool.eqb_prop.
Qed.

Lemma months_sum y m : 0 <= m < 12 ->
  month m = Some (86400 * (zsum (month_days y) 0 (Z.to_nat m) + (if (m >? 1) && negb (leap y) then 1 else 0))).
Proof.
  intros Hm. unfold month_days. destruct (leap y);
  assert (m = 0 \/ m = 1 \/ m = 2 \/ m = 3 \/ m = 4 \/ m = 5 \/ m = 6 \/ m = 7 \/ m = 8 \/ m = 9 \/ m = 10 \/ m = 11)
    as Hc by lia; destruct_or! Hc; subst; reflexivity.
Qed.

(** Drop the conversions of sums that fit, the innermost first. *)
Ltac s32_inner := repeat match goal with
  | |- context [s32 ?x] =>
      lazymatch x with context [s32 _] => fail | _ => rewrite (s32_small x) by lia end
  end.

(** C36: For every date from 1970 to 2037 kernel_mktime gives the seconds since
    1 January 1970 by the Gregorian calendar, with no overflow of 32 bits. *)
Theorem kernel_mktime_spec t :
  70 <= tm_year t < 138 -> 0 <= tm_mon t < 12 -> 1 <= tm_mday t <= 31 ->
  0 <= tm_hour t < 24 -> 0 <= tm_min t < 60 -> 0 <= tm_sec t < 60 ->
  kernel_mktime t = Some (86400 * days (1900 + tm_year t) (tm_mon t) (tm_mday t)
                          + 3600 * tm_hour t + 60 * tm_min t + tm_sec t).
Proof.
  intros Hy Hm Hd Hh Hmi Hs. unfold kernel_mktime, days.
  set (k := tm_year t - 70). assert (Hk : 0 <= k < 68) by lia.
  replace (1900 + tm_year t) with (1970 + k) by lia. replace (1970 + k - 1970) with k by lia.
  destruct (years_sum k Hk) as [Hyears Hleap]. rewrite (months_sum (1970 + k)), Hyears, Hleap by done.
  assert (Hms : 0 <= zsum (month_days (1970 + k)) 0 (Z.to_nat (tm_mon t)) <= 341).
  { enough (0 <= zsum (month_days (1970 + k)) 0 (Z.to_nat (tm_mon t)) <= Z.of_nat (Z.to_nat (tm_mon t)) * 31) by lia.
    apply zsum_bound. intros j _. unfold month_days. repeat case_match; lia. }
  revert Hms. generalize (zsum (month_days (1970 + k)) 0 (Z.to_nat (tm_mon t))). intros ms Hms.
  unfold YEAR, DAY, HOUR, MINUTE.
  replace (Z.quot (k + 1) 4) with ((k + 1) / 4) by (symmetry; apply Z.quot_div_nonneg; lia).
  replace (Z.rem (k + 2) 4) with ((k + 2) mod 4) by (symmetry; apply Z.rem_mod_nonneg; lia).
  assert (Hq : 0 <= (k + 1) / 4 <= 17) by dlia.
  destruct (Z.gtb_spec (tm_mon t) 1), (Z.eqb_spec ((k + 2) mod 4) 0) as [E|E];
    cbn [andb negb]; rewrite ?E; unfold nz; cbn [Z.eqb negb];
    rewrite ?(proj2 (Z.eqb_neq _ _) E); cbn [negb];
    s32_inner; f_equal; lia.
Qed.

(** time_init takes one off the month before it decodes it from BCD: the
    months other than October come out right, October becomes month 15, which
    lies past the table of kernel_mktime. *)
Theorem clock_month m sec min hour mday year :
  1 <= m <= 12 ->
  let t := from_bcd (mk_tm sec min hour mday (16 * (m / 10) + m mod 10 - 1) year) in
  if decide (m = 10) then tm_mon t = 15 /\ kernel_mktime t = None
  else tm_mon t = m - 1 /\ kernel_mktime t <> None.
Proof.
  intros Hm.
  assert (m = 1 \/ m = 2 \/ m = 3 \/ m = 4 \/ m = 5 \/ m = 6 \/ m = 7 \/ m = 8 \/ m = 9 \/ m = 10 \/ m = 11 \/ m = 12)
    as Hc by lia. destruct_or! Hc; subst; cbv zeta; (split; [reflexivity|]);
    unfold kernel_mktime; done.
Qed.

(** ** Who may become whom *)

(** A process that is not the super-user can set its effective group only
    to its real or saved group; but sys_setuid, which compares the saved user
    with the real one and not with the argument, lets a process whose saved and
    real users are the same take any effective user, and become super-user with
    0. *)
Theorem set_ids_spec id s c :
  current s = Some c -> 0 <= id < 65536 -> suser (tsk s c) = false ->
  (exists s', sys_setgid id s = Ret (if (t_gid (tsk s c) =? id) || (t_sgid (tsk s c) =? id) then 0 else - EPERM) s' /\
     tsk s' c = (tsk s c) <| t_egid := if (t_gid (tsk s c) =? id) || (t_sgid (tsk s c) =? id)
                                       then id else t_egid (tsk s c) |> /\
     forall p, p <> c -> tsk s' p = tsk s p) /\
  (t_suid (tsk s c) = t_uid (tsk s c) ->
   exists s', sys_setuid id s = Ret 0 s' /\ tsk s' c = (tsk s c) <| t_euid := id |> /\
     suser (tsk s' c) = (id =? 0) /\ forall p, p <> c -> tsk s' p = tsk s p).
Proof.
  intros Hc Hid Hsu. unfold suser in Hsu. ztest. split.
  - unfold sys_setgid. rewrite (bind_Ret _ _ _ _ _ (me_run s c Hc)).
    rewrite !(proj2 (nz_true _)) by done. cbn [andb]. destruct (_ || _).
    + rewrite (bind_Ret _ _ _ _ _ (setme_run s c _ Hc)). eexists. split; [done|].
      rewrite upd_task_eq, u16_small by done. split; [done|]. intros p Hp. by rewrite upd_task_ne.
    + eexists. split; [done|]. split; [|done]. by destruct (tsk s c).
  - intros Hs. unfold sys_setuid. rewrite (bind_Ret _ _ _ _ _ (me_run s c Hc)).
    rewrite !(proj2 (nz_true _)) by done. cbn [andb].
    replace (t_suid (tsk s c) =? t_uid (tsk s c)) with true by (symmetry; by apply Z.eqb_eq).
    rewrite orb_true_r. rewrite (bind_Ret _ _ _ _ _ (setme_run s c _ Hc)). eexists. split; [done|].
    rewrite upd_task_eq, u16_small by done. split; [done|]. split.
    + unfold suser. simpl. rewrite (proj2 (nz_true (t_uid _))) by done. unfold nz. by destruct (id =? 0).
    + intros p Hp. by rewrite upd_task_ne.
Qed.

(** ** Examples *)

Lemma kernel_mktime_spec_witness : kernel_mktime (mk_tm 30 20 10 25 0 126) = Some 1769336430.
Proof.
  rewrite (kernel_mktime_spec (mk_tm 30 20 10 25 0 126)) by (cbn; lia). vm_compute. reflexivity.
Defined.

Lemma clock_month_witness :
  tm_mon (from_bcd (mk_tm 0 0 0 0 (16 * (10 / 10) + 10 mod 10 - 1) 0)) = 15.
Proof. exact (proj1 (clock_month 10 0 0 0 0 0 ltac:(lia))). Defined.

Definition a_user : kstate := zero_kstate
  <| tsk := fun _ => zero_task <| t_uid := 100 |> <| t_euid := 100 |> <| t_suid := 100 |> <| t_gid := 5 |> |>.
Lemma set_ids_spec_witness : exists s', sys_setuid 0 a_user = Ret 0 s' /\ suser (tsk s' 4096) = true.
Proof.
  destruct (proj2 (set_ids_spec 0 a_user 4096 eq_refl ltac:(lia) eq_refl) eq_refl) as (s' & Hrun & _ & Hs & _).
  exists s'. split; [exact Hrun|exact Hs].
Defined.
