(* ===== verification/Entry.v ===== *)
(** The entry points of the kernel: the system call, the timer interrupt, the
    page fault and the delivery of signals (kernel/system_call.s, mm/page.s), the
    table of system calls (include/linux/sys.h), the fault handlers
    (kernel/traps.c), and the initialisation that installs them (kernel/sched.c,
    init/main.c). *)
From S2P Require Export Sys.
#[local] Open Scope bool_scope.

(** ** The frame *)

(** kernel/system_call.s:28-39: what the processor and the entry code leave on the
    kernel stack, and the registers that stay in the processor until [sys_fork]
    pushes them.  All are 32-bit values. *)
Record frame := mk_frame {
  fr_eax : Z; fr_ebx : Z; fr_ecx : Z; fr_edx : Z; fr_fs : Z; fr_es : Z; fr_ds : Z;
  fr_eip : Z; fr_cs : Z; fr_eflags : Z; fr_oldesp : Z; fr_oldss : Z;
  fr_gs : Z; fr_esi : Z; fr_edi : Z; fr_ebp : Z
}.
#[export] Instance frame_eta : Eta frame := fun r =>
  mk_frame (fr_eax r) (fr_ebx r) (fr_ecx r) (fr_edx r) (fr_fs r) (fr_es r) (fr_ds r)
    (fr_eip r) (fr_cs r) (fr_eflags r) (fr_oldesp r) (fr_oldss r)
    (fr_gs r) (fr_esi r) (fr_edi r) (fr_ebp r).

(** A system call as the table has it: it gets the frame, from which C takes its
    arguments, and gives its result; [execve] also changes the frame. *)
Definition handler `{Machine} : Type := frame -> K (Z * frame).

(** The type of a parameter: [int] and [long], or unsigned and pointer. *)
Inductive cty := int | uns.
Definition arg (t : cty) (z : Z) : Z := match t with int => s32 z | uns => z end.

Section entry.
Context `{Machine}.
(** What [fninit] leaves in the floating-point unit. *)
Context (fninit : Z -> Z).

Definition call0 (m : K Z) : handler := fun r => z ← m; mret (z, r).
Definition call1 (t : cty) (f : Z -> K Z) : handler := fun r => call0 (f (arg t (fr_ebx r))) r.
Definition call2 (t u : cty) (f : Z -> Z -> K Z) : handler := fun r =>
  call0 (f (arg t (fr_ebx r)) (arg u (fr_ecx r))) r.
Definition call3 (t u v : cty) (f : Z -> Z -> Z -> K Z) : handler := fun r =>
  call0 (f (arg t (fr_ebx r)) (arg u (fr_ecx r)) (arg v (fr_edx r))) r.
(** A call that only returns a number. *)
Definition const (z : Z) : handler := call0 (mret z).

(** kernel/system_call.s:177-182 *)
Definition sys_execve : handler := fun r =>
  '(z, e) ← do_execve (fr_cs r) (fr_ebx r) (fr_ecx r) (fr_edx r);
  mret (z, match e with
           | Some (ip, sp) => r <| fr_eip := u32 ip |> <| fr_oldesp := u32 sp |>
           | None => r
           end).

(** The stack [copy_process] finds. *)
Definition regs_of (r : frame) : fork_regs :=
  mk_fork_regs (fr_ebp r) (fr_edi r) (fr_esi r) (fr_gs r) (fr_ebx r) (fr_ecx r) (fr_edx r)
    (fr_fs r) (fr_es r) (fr_ds r) (fr_eip r) (fr_cs r) (fr_eflags r) (fr_oldesp r) (fr_oldss r).

(** kernel/system_call.s:185-196 *)
Definition sys_fork : handler := fun r =>
  nr ← find_empty_process;
  if nr <? 0 then mret (nr, r)
  else z ← copy_process fninit nr (regs_of r); mret (z, r).

(** include/linux/sys.h:80-143; [None] is [sys_null]. *)
Definition sys_call_table : list (option handler) :=
  map Some [
    call0 (sys_setup mount_root); call1 int sys_exit; sys_fork; call3 uns uns int sys_read;
    call3 uns uns int sys_write; call3 uns int int sys_open; call1 uns sys_close;
    call3 int uns int sys_waitpid; call2 uns int sys_creat; call2 uns uns sys_link;
    call1 uns sys_unlink; sys_execve; call1 uns sys_chdir; call1 uns sys_time; const sys_mknod;
    call2 uns int sys_chmod; call3 uns int int sys_chown; const sys_break; call0 sys_oldstat;
    call3 uns int int sys_lseek; call0 sys_getpid; const sys_mount; const sys_umount;
    call1 int sys_setuid; call0 sys_getuid; call1 uns sys_stime; const sys_ptrace;
    call1 int sys_alarm; call0 sys_oldfstat; call0 (sys_pause fuel); call2 uns uns sys_utime;
    const sys_stty; const sys_gtty; call2 uns int sys_access; call1 int sys_nice;
    const sys_ftime; call0 (sys_sync sync_inodes); call2 int int sys_kill; const sys_rename;
    call2 uns int sys_mkdir; call1 uns sys_rmdir; call1 uns sys_dup; call1 uns sys_pipe;
    call1 uns sys_times; const sys_prof; call1 uns sys_brk; call1 int sys_setgid;
    call0 sys_getgid; call3 int uns uns sys_signal; call0 sys_geteuid; call0 sys_getegid;
    const sys_acct; const sys_phys; const sys_lock; call3 uns uns uns sys_ioctl;
    call3 uns uns uns sys_fcntl; const sys_mpx; call2 int int sys_setpgid; const sys_ulimit;
    call0 sys_oldolduname; call1 int sys_umask; call1 uns sys_chroot;
    (fun r => const (sys_ustat (arg int (fr_ebx r)) (fr_ecx r)) r); call2 uns uns sys_dup2;
    call0 sys_getppid; call0 sys_getpgrp; call0 sys_setsid]
  ++ replicate 39 None ++
  map Some [call2 uns uns sys_stat; call2 uns uns sys_lstat; call2 uns uns sys_fstat]
  ++ replicate 13 None ++ [Some (call1 uns sys_uname)]
  ++ replicate 18 None ++ [Some (call3 uns uns uns sys_getdents)]
  ++ replicate 53 None ++
  map Some [call2 uns uns sys_stat64; call2 uns uns sys_lstat64; call2 uns uns sys_fstat64]
  ++ replicate 22 None ++
  map Some [call3 uns uns uns sys_getdents64; call3 uns uns uns sys_fcntl64]
  ++ replicate 98 None.

(** ** Signals *)

(** kernel/system_call.s:99-107, and 143-146: one round of the search for a signal
    to act on.  The lowest pending signal is taken off the pending ones; it is
    ignored, ends the process (address 0) or has a handler. *)
Definition signal_step : K (unit + option (Z * Z)) :=
  c ← me;
  match scan (Z.testbit (t_signal c)) 0 32 with
  | None => mret (inr None)
  | Some i =>
      setme (fun t => t <| t_signal := s32 (Z.clearbit (t_signal t) i) |>);;
      let h := u32 (t_sig_fn c i) in
      if h <? 1 then
        if i + 1 =? SIGCHLD then mret (inl tt) else mret (inr (Some (i, 0)))
      else if h =? 1 then mret (inl tt)
      else mret (inr (Some (i, h)))
  end.

(** kernel/system_call.s:108-133: the handler [h] of signal [i + 1] is made the
    place the process returns to, with a frame on its stack. *)
Definition deliver (r : frame) (i h : Z) : K frame :=
  setme (fun t => t <| t_sig_fn ::= <[i := 0]> |>);;
  let old := fr_eip r in
  let edx := u32 (fr_oldesp r - 28) in
  verify_area edx 28;;
  c ← me;
  put_fs_long (t_sig_restorer c) edx;;
  put_fs_long (i + 1) (u32 (edx + 4));;
  put_fs_long (fr_eax r) (u32 (edx + 8));;
  put_fs_long (fr_ecx r) (u32 (edx + 12));;
  put_fs_long (fr_edx r) (u32 (edx + 16));;
  put_fs_long (fr_eflags r) (u32 (edx + 20));;
  put_fs_long old (u32 (edx + 24));;
  mret (r <| fr_eip := h |> <| fr_oldesp := edx |>).

(** kernel/system_call.s:90-150.  A signal is taken off in each round, so 33
    rounds are enough. *)
Definition ret_from_sys_call (r : frame) : K frame :=
  s ← get;
  if ptr_eqb (current s) (task s 0) then mret r
  else if Z.land (fr_cs r) 3 =? 0 then mret r
  else if negb (u16 (fr_oldss r) =? 0x17) then mret r
  else
    x ← loop 33 (fun _ : unit => signal_step) tt;
    match x with
    | None => mret r
    | Some (i, h) =>
        if h =? 0 then do_exit (i + 1);; mret r
        else deliver r i h
    end.

(** ** Entries *)

(** kernel/system_call.s:48 *)
Definition nr_system_calls : Z := 319.

(** kernel/system_call.s:76-78: the function of call [nr] if the table has one. *)
Definition service (nr : Z) : option handler :=
  match sys_call_table !! Z.to_nat nr with Some (Some h) => Some h | _ => None end.

(** kernel/system_call.s:75-83: the call of the function.  For [sys_null] the
    number of the call replaces the first argument on the stack, where it stays. *)
Definition dispatch : handler := fun r =>
  match service (fr_eax r) with
  | Some h => h r
  | None => mret (fst (sys_null (s32 (fr_eax r)) 0), r <| fr_ebx := fr_eax r |>)
  end.

(** kernel/system_call.s:53-90 *)
Definition system_call (r : frame) : K frame :=
  if fr_eax r >? nr_system_calls - 1 then mret (r <| fr_eax := u32 (-1) |>)
  else
    '(z, r) ← dispatch r;
    let r := r <| fr_eax := u32 z |> in
    c ← me;
    when (nz (t_state c) || (t_counter c =? 0)) (schedule fuel);;
    ret_from_sys_call r.

(** kernel/system_call.s:153-174 *)
Definition timer_interrupt (r : frame) : K frame :=
  modify (fun s => s <| jiffies ::= fun x => s32 (x + 1) |>);;
  outb 0x20 0x20;;
  do_timer fuel (Z.land (fr_cs r) 3);;
  ret_from_sys_call r.

(** mm/page.s:8-34; [cr2] is the address of the access. *)
Definition page_fault (error_code cr2 : Z) : K unit :=
  if hasbit error_code 1 then do_wp_page do_exit error_code cr2
  else do_no_page do_exit error_code cr2.

(** ** Faults

    [esp] is the stack of the fault: [eip], [cs], the flags, [esp] and [ss]. *)

(** kernel/traps.c:23-27: a byte of the segment [seg], a process's own or the
    kernel's. *)
Definition get_seg_byte (seg addr : Z) : K Z :=
  gets (fun s => if hasbit seg 4 then user s (u32 addr) else phys s (u32 addr)).
(** kernel/traps.c:29-33 *)
Definition get_seg_long (seg addr : Z) : K Z :=
  gets (fun s => le32 (if hasbit seg 4 then user s else phys s) (u32 addr)).
(** kernel/traps.c:35-38: asm.s has set the register. *)
Definition _fs : Z := 0x10.
(** include/linux/sched.h:156-161: the task register holds the slot of the
    current task. *)
Definition str (s : kstate) : Z :=
  match scan (fun i => ptr_eqb (task s i) (current s)) 0 (Z.to_nat NR_TASKS) with
  | Some i => i
  | None => 0
  end.

(** kernel/traps.c:62-85 *)
Definition die (what : string) (esp : Z -> Z) (nr : Z) : K unit :=
  printk (" [TRAP] System Halted: " +:+ what +:+ " (%04x)\n\r") [Z.land nr 0xffff];;
  printk "EIP:\t%04x:%p\nEFLAGS:\t%p\nESP:\t%04x:%p\n" [esp 1; esp 0; esp 2; esp 4; esp 3];;
  printk "fs: %04x\n" [_fs];;
  c ← me;
  printk "base: %p, limit: %p\n" [get_base (t_ldt c 1); get_limit (t_ldt c 2)];;
  when (esp 4 =? 0x17)
    (printk "Stack: " [];;
     for_ 0 4 (fun i => v ← get_seg_long 0x17 (esp 3 + 4 * i); printk "%p " [v]);;
     printk "\n" []);;
  i ← gets str;
  c ← me;
  printk "Pid: %d, process nr: %d\n\r" [t_pid c; Z.land 0xffff i];;
  for_ 0 10 (fun i =>
    v ← get_seg_byte (esp 1) (i + esp 0);
    printk "%02x " [Z.land 0xff v]);;
  printk "\n\r" [];;
  do_exit 11;;
  mret tt.

(** kernel/traps.c:87-90 *)
Definition do_double_fault := die "double fault".
(** kernel/traps.c:92-95 *)
Definition do_general_protection := die "general protection".
(** kernel/traps.c:97-100 *)
Definition do_divide_error := die "divide error".
(** kernel/traps.c:102-117; [esp] is also printed, and [tr] is the task register. *)
Definition do_int3 (esp_ptr : Z) (esp : Z -> Z) (fs es ds ebp esi edi edx ecx ebx eax : Z) : K unit :=
  n ← gets str;
  let tr := 32 + 16 * n in
  printk "eax\t\tebx\t\tecx\t\tedx\n\r%8x\t%8x\t%8x\t%8x\n\r" [eax; ebx; ecx; edx];;
  printk "esi\t\tedi\t\tebp\t\tesp\n\r%8x\t%8x\t%8x\t%8x\n\r" [esi; edi; ebp; esp_ptr];;
  printk "\n\rds\tes\tfs\ttr\n\r%4x\t%4x\t%4x\t%4x\n\r" [ds; es; fs; tr];;
  printk "EIP: %8x   CS: %4x  EFLAGS: %8x\n\r" [esp 0; esp 1; esp 2].
(** kernel/traps.c:119-122 *)
Definition do_nmi := die "nmi".
(** kernel/traps.c:124-127 *)
Definition do_debug := die "debug".
(** kernel/traps.c:129-132 *)
Definition do_overflow := die "overflow".
(** kernel/traps.c:134-137 *)
Definition do_bounds := die "bounds".
(** kernel/traps.c:139-142 *)
Definition do_invalid_op := die "invalid operand".
(** kernel/traps.c:144-147 *)
Definition do_device_not_available := die "device not available".
(** kernel/traps.c:149-152 *)
Definition do_coprocessor_segment_overrun := die "coprocessor segment overrun".
(** kernel/traps.c:154-157 *)
Definition do_invalid_TSS := die "invalid TSS".
(** kernel/traps.c:159-162 *)
Definition do_segment_not_present := die "segment not present".
(** kernel/traps.c:164-167 *)
Definition do_stack_segment := die "stack segment".
(** kernel/traps.c:169-172 *)
Definition do_coprocessor_error := die "coprocessor error".
(** kernel/traps.c:174-177 *)
Definition do_reserved := die "reserved (15,17-31) error".

(** ** Initialisation *)

(** kernel/traps.c:179-202 *)
Definition trap_init : K unit :=
  set_trap_gate 0 (address_of at_divide_error);;
  set_trap_gate 1 (address_of at_debug);;
  set_trap_gate 2 (address_of at_nmi);;
  set_system_gate 3 (address_of at_int3);;
  set_system_gate 4 (address_of at_overflow);;
  set_system_gate 5 (address_of at_bounds);;
  set_trap_gate 6 (address_of at_invalid_op);;
  set_trap_gate 7 (address_of at_device_not_available);;
  set_trap_gate 8 (address_of at_double_fault);;
  set_trap_gate 9 (address_of at_coprocessor_segment_overrun);;
  set_trap_gate 10 (address_of at_invalid_TSS);;
  set_trap_gate 11 (address_of at_segment_not_present);;
  set_trap_gate 12 (address_of at_stack_segment);;
  set_trap_gate 13 (address_of at_general_protection);;
  set_trap_gate 14 (address_of at_page_fault);;
  set_trap_gate 15 (address_of at_reserved);;
  set_trap_gate 16 (address_of at_coprocessor_error);;
  for_ 17 15 (fun i => set_trap_gate i (address_of at_reserved)).

(** include/linux/sched.h:111-133: the first task, at address [a]; the page directory
    is at address 0. *)
Definition INIT_TASK (a : Z) : task_struct :=
  zero_task <| t_counter := 15 |> <| t_priority := 15 |> <| t_father := -1 |>
    <| t_tty := -1 |> <| t_umask := 91 |>
    <| t_ldt := fun i => if i =? 1 then (0x9f, 0xc0fa00) else if i =? 2 then (0x9f, 0xc0f200) else (0, 0) |>
    <| t_tss := zero_tss <| esp0 := PAGE_SIZE + a |> <| ss0 := 0x10 |> <| cr3 := 0 |>
         <| es := 0x17 |> <| cs := 0x17 |> <| ss := 0x17 |> <| ds := 0x17 |> <| fs := 0x17 |>
         <| gs := 0x17 |> <| ldtr := _LDT 0 |> <| trace_bitmap := s32 0x80000000 |> |>.

(** kernel/sched.c:67-89: the static data of the kernel as it is loaded. *)
Definition statics (a : Z) : kstate :=
  zero_kstate <| jiffies := 0 |> <| startup_time := 0 |> <| init_task := a |>
    <| tsk := fun _ => INIT_TASK a |> <| current := Some a |> <| last_task_used_math := None |>
    <| task := fun i => if i =? 0 then Some a else None |> <| tty_table := initial_tty |>.

(** kernel/sched.c:51 *)
Definition LATCH : Z := Z.quot 1193180 HZ.

(** kernel/sched.c:518-580; the loading of the task registers changes nothing in
    the state. *)
Definition sched_init : K unit :=
  (* the size of a task_struct: up to the tss, its 26 words, the i387 image *)
  if tss_offset + 4 * 26 + 4 * 27 >? PAGE_SIZE
  then panic "CRITICAL: Task Struct too large for Page alloc!"
  else
    s ← get;
    set_tss_desc FIRST_TSS_ENTRY (init_task s + tss_offset);;
    set_ldt_desc FIRST_LDT_ENTRY (init_task s + ldt_offset);;
    for_ 1 63 (fun i =>
      modify (fun s => s <| task ::= <[i := None]> |>);;
      modify (fun s => s <| gdt ::= <[2 * i + FIRST_TSS_ENTRY := (0, 0)]> |>);;
      modify (fun s => s <| gdt ::= <[2 * i + FIRST_TSS_ENTRY + 1 := (0, 0)]> |>));;
    outb_p 0x36 0x43;;
    outb_p (Z.land LATCH 0xff) 0x40;;
    outb (Z.shiftr LATCH 8) 0x40;;
    set_intr_gate 0x20 (address_of at_timer_interrupt);;
    v ← inb_p 0x21;
    outb (Z.land v (Z.lnot 0x01)) 0x21;;
    set_system_gate 0x80 (address_of at_system_call);;
    printk " [SCHED] Rhee Extreme Scheduler: Initialized (Preemptive Multitasking Enabled)\n\r" [];;
    printk " [SCHED] Logic Validity Check: PASS. Spider-Web Integrity: ACTIVE.\n\r" [].

(** boot/head.s:70-85: every gate leads to a handler that ignores the interrupt. *)
Definition setup_idt : K unit :=
  for_ 0 256 (fun n => set_intr_gate n (address_of at_ignore_int)).

(** init/main.c:87-98, up to the first fork; [x] and [y] are the position of
    the cursor the boot code left. *)
Definition start_kernel (x y : Z) : K unit :=
  time_init;;
  tty_init x y;;
  trap_init;;
  sched_init;;
  buffer_init;;
  hd_init.
End entry.

(** ** What a signal does *)

Lemma s32_bit x i : 0 <= i < 32 -> Z.testbit (s32 x) i = Z.testbit x i.
Proof.
  intros. unfold s32.
  assert (E : (x + 2147483648) mod 4294967296 - 2147483648 = x + (- ((x + 2147483648) / 4294967296)) * 2 ^ 32) by dlia.
  rewrite E. rewrite <- (Z.mod_pow2_bits_low _ 32) by lia. rewrite Z_mod_plus_full.
  apply Z.mod_pow2_bits_low. lia.
Qed.
Lemma s32_ext x y : (forall i, 0 <= i < 32 -> Z.testbit x i = Z.testbit y i) -> s32 x = s32 y.
Proof.
  intros Hb. assert (E : x mod 2 ^ 32 = y mod 2 ^ 32).
  { apply Z.bits_inj'. intros i Hi. destruct (decide (i < 32)).
    - rewrite !Z.mod_pow2_bits_low by lia. apply Hb. lia.
    - by rewrite !Z.mod_pow2_bits_high by lia. }
  unfold s32. change 4294967296 with (2 ^ 32). by rewrite <- (Zplus_mod_idemp_l x), E, Zplus_mod_idemp_l.
Qed.

(** The signals of [t] from [j] on that are pending. *)
Definition pending_from (j : Z) (t : task_struct) : Z := s32 (Z.ldiff (t_signal t) (Z.ones j)).
Lemma pending_from_bit j t i : 0 <= j -> 0 <= i < 32 ->
  Z.testbit (pending_from j t) i = Z.testbit (t_signal t) i && (j <=? i).
Proof.
  intros. unfold pending_from. rewrite s32_bit, Z.ldiff_spec by lia. f_equal.
  destruct (j <=? i) eqn:E; ztest.
  - by rewrite Z.ones_spec_high by lia.
  - by rewrite Z.ones_spec_low by lia.
Qed.

Lemma pending_clear t j i :
  0 <= j <= i -> i < 32 -> (forall k, j <= k < i -> Z.testbit (t_signal t) k = false) ->
  s32 (Z.clearbit (pending_from j t) i) = pending_from (i + 1) t.
Proof.
  intros Hj Hi Hno. apply s32_ext. intros k Hk.
  rewrite Z.clearbit_eqb, pending_from_bit, Z.ldiff_spec by lia.
  destruct (Z.lt_trichotomy k i) as [Hlt|[->|Hgt]].
  - rewrite Z.ones_spec_low by lia. destruct (decide (j <= k)).
    + by rewrite (Hno k) by lia.
    + replace (j <=? k) with false by lia. by destruct (Z.testbit (t_signal t) k).
  - rewrite Z.ones_spec_low, Z.eqb_refl by lia. by destruct (Z.testbit (t_signal t) i), (j <=? i).
  - rewrite Z.ones_spec_high by lia. replace (j <=? k) with true by lia.
    replace (i =? k) with false by lia. by destruct (Z.testbit (t_signal t) k).
Qed.
Lemma pending_none t j :
  0 <= j -> (forall k, j <= k < 32 -> Z.testbit (t_signal t) k = false) -> pending_from j t = 0.
Proof.
  intros Hj Hno. change 0 with (s32 0). apply s32_ext. intros k Hk. rewrite Z.bits_0.
  rewrite <- (s32_bit (Z.ldiff _ _)) by lia.
  change (s32 (Z.ldiff (t_signal t) (Z.ones j))) with (pending_from j t).
  rewrite pending_from_bit by lia. destruct (j <=? k) eqn:E; ztest.
  - by rewrite Hno by lia.
  - by rewrite andb_false_r.
Qed.

(** A signal without effect: the process ignores it, or it is the death of a
    child and the process has not asked for it. *)
Definition ignored (t : task_struct) (i : Z) : bool :=
  (u32 (t_sig_fn t i) =? 1) || ((u32 (t_sig_fn t i) =? 0) && (i + 1 =? SIGCHLD)).
(** The signal the process acts on: the lowest one that has an effect. *)
Definition next_signal (t : task_struct) : ptr :=
  scan (fun i => Z.testbit (t_signal t) i && negb (ignored t i)) 0 32.

Definition with_signal (v : Z) (t : task_struct) : task_struct := t <| t_signal := v |>.

Lemma signal_step_run s c : current s = Some c ->
  signal_step s =
  match scan (Z.testbit (t_signal (tsk s c))) 0 32 with
  | None => Ret (inr None) s
  | Some i =>
      Ret (if ignored (tsk s c) i then inl tt else inr (Some (i, u32 (t_sig_fn (tsk s c) i))))
        (upd_task c (with_signal (s32 (Z.clearbit (t_signal (tsk s c)) i))) s)
  end.
Proof.
  intros Hc. unfold signal_step. rewrite (bind_Ret _ _ _ _ _ (me_run s c Hc)).
  destruct (scan _ 0 32) as [i|]; [|done].
  rewrite (bind_Ret _ _ _ _ _ (setme_run s c _ Hc)). unfold ignored.
  pose proof (u32_range (t_sig_fn (tsk s c) i)).
  destruct (u32 (t_sig_fn (tsk s c) i) <? 1) eqn:E0, (u32 (t_sig_fn (tsk s c) i) =? 1) eqn:E1,
    (u32 (t_sig_fn (tsk s c) i) =? 0) eqn:E2; ztest; try lia; simpl;
    try (by destruct (i + 1 =? SIGCHLD); rewrite ?E2); done.
Qed.

Lemma signal_loop s c t j n :
  current s = Some c -> 0 <= j <= 32 -> 32 - j < Z.of_nat n ->
  tsk s c = with_signal (pending_from j t) t ->
  loop n (fun _ : unit => signal_step) tt s =
  match scan (fun i => Z.testbit (t_signal t) i && negb (ignored t i)) j (Z.to_nat (32 - j)) with
  | None => Ret None (upd_task c (with_signal 0) s)
  | Some i => Ret (Some (i, u32 (t_sig_fn t i))) (upd_task c (with_signal (pending_from (i + 1) t)) s)
  end.
Proof.
  revert j s. induction n as [|n IH]; intros j s Hc Hj Hn Ht; [lia|].
  pose proof (signal_step_run s c Hc) as Hr. rewrite Ht in Hr. cbn [with_signal t_signal] in Hr.
  change (t_signal (with_signal (pending_from j t) t)) with (pending_from j t) in Hr.
  destruct (scan (Z.testbit (pending_from j t)) 0 32) as [i|] eqn:E.
  - apply scan_Some in E as (Hi & Hbit & Hlow). change (0 + Z.of_nat 32) with 32 in Hi.
    rewrite pending_from_bit in Hbit by lia. apply andb_true_iff in Hbit as [Hbit Hji]. ztest.
    assert (Hno : forall k, j <= k < i -> Z.testbit (t_signal t) k = false).
    { intros k Hk. pose proof (Hlow k ltac:(lia)) as Hf. rewrite pending_from_bit in Hf by lia.
      apply andb_false_iff in Hf as [?|?]; [done|ztest; lia]. }
    rewrite pending_clear in Hr by (done || lia).
    rewrite (scan_skip _ j (i - j)) by (lia || (intros k Hk; by rewrite Hno by lia)).
    replace (j + (i - j)) with i by lia.
    replace (Z.to_nat (32 - j) - Z.to_nat (i - j))%nat with (S (Z.to_nat (32 - (i + 1)))) by lia.
    cbn [scan]. rewrite Hbit. cbn [andb].
    change (ignored (with_signal (pending_from j t) t) i) with (ignored t i) in Hr.
    destruct (ignored t i) eqn:Eg; cbn [negb].
    + rewrite (loop_again _ _ _ _ _ _ Hr).
      rewrite (IH (i + 1)) by (done || lia || (rewrite upd_task_eq, Ht; done)).
      destruct (scan _ (i + 1) _); rewrite upd_task_fuse; f_equal; by apply upd_task_ext.
    + by rewrite (loop_leave _ _ _ _ _ _ Hr).
  - rewrite (loop_leave _ _ _ _ _ _ Hr). rewrite scan_None in E.
    assert (Hno : forall k, j <= k < 32 -> Z.testbit (t_signal t) k = false).
    { intros k Hk. pose proof (E k ltac:(lia)) as Hf. rewrite pending_from_bit in Hf by lia.
      apply andb_false_iff in Hf as [?|?]; [done|ztest; lia]. }
    rewrite (proj2 (scan_None _ j _)) by (intros k Hk; by rewrite Hno by lia).
    by rewrite upd_task_id by (rewrite Ht, pending_none; done || lia).
Qed.

(** C13: On the way back to a user process, pending signals that it ignores, or
    SIGCHLD left to its default, are taken off; if another is pending, the
    lowest one is acted on and no higher one is touched: without a handler the
    process exits with its number, with one the handler is reset, the process
    returns to the handler, and below its old stack pointer lie, in this order,
    the restorer, the signal number, eax, ecx, edx, the flags and the old return
    address. The search always ends. *)
Theorem ret_from_sys_call_spec `{Machine} r s c :
  let t := tsk s c in
  current s = Some c -> task s 0 <> Some c -> Z.land (fr_cs r) 3 <> 0 -> u16 (fr_oldss r) = 0x17 ->
  -2147483648 <= t_signal t < 2147483648 ->
  match next_signal t with
  | None => ret_from_sys_call r s = Ret r (upd_task c (with_signal 0) s)
  | Some i =>
      let h := u32 (t_sig_fn t i) in
      let s1 := upd_task c (with_signal (pending_from (i + 1) t)) s in
      let sp := u32 (fr_oldesp r - 28) in
      if h =? 0 then ret_from_sys_call r s = (do_exit (i + 1);; mret r) s1
      else
        forall s2, verify_area sp 28 (upd_task c (fun t => t <| t_sig_fn ::= <[i := 0]> |>) s1) = Ret tt s2 ->
        current s2 = Some c -> sp + 28 <= 4294967296 ->
        ret_from_sys_call r s =
          Ret (r <| fr_eip := h |> <| fr_oldesp := sp |>)
            (with_user (store_words (user s2) sp
               [t_sig_restorer (tsk s2 c); i + 1; fr_eax r; fr_ecx r; fr_edx r; fr_eflags r; fr_eip r]) s2)
  end.
Proof.
  intros t Hc H0 Hcs Hss Hrange. unfold ret_from_sys_call. mrun.
  assert (Hne : ptr_eqb (current s) (task s 0) = false) by (apply bool_decide_eq_false; congruence).
  rewrite Hne, (proj2 (Z.eqb_neq _ _) Hcs), Hss. cbn [Z.eqb Pos.eqb negb].
  assert (Hl : loop 33 (fun _ : unit => signal_step) tt s =
    match next_signal t with
    | None => Ret None (upd_task c (with_signal 0) s)
    | Some i => Ret (Some (i, u32 (t_sig_fn t i))) (upd_task c (with_signal (pending_from (i + 1) t)) s)
    end).
  { apply signal_loop; [done|lia|lia|]. unfold pending_from. rewrite Z.ldiff_0_r, s32_small by done.
    subst t. by destruct (tsk s c). }
  destruct (next_signal t) as [i|]; mcall Hl; [|done].
  cbv beta iota zeta. destruct (u32 (t_sig_fn t i) =? 0); [reflexivity|].
  intros s2 Hv Hc2 Hsp. pose proof (u32_range (fr_oldesp r - 28)).
  unfold deliver. mcall setme_run; [|exact Hc]. cbv zeta. mcall Hv.
  rewrite (bind_Ret _ _ _ _ _ (me_run s2 c Hc2)).
  rewrite bind_put_long', !bind_put_long, !(u32_small (u32 _ + _)) by lia.
  simpl store_words. rewrite <- !Z.add_assoc. done.
Qed.

(** ** The interrupt table *)

(** The fields of a gate. *)
Definition gate_selector (g : Z * Z) : Z := fst g / 65536.
Definition gate_offset (g : Z * Z) : Z := fst g mod 65536 + 65536 * (snd g / 65536).
Definition gate_present (g : Z * Z) : bool := Z.testbit (snd g) 15.
Definition gate_dpl (g : Z * Z) : Z := snd g / 8192 mod 4.
Definition gate_type (g : Z * Z) : Z := snd g / 256 mod 32.

(** What [_set_gate] writes. *)
Definition gate (type dpl addr : Z) : Z * Z :=
  (0x00080000 + addr mod 65536,
   65536 * (addr / 65536 mod 65536) + u16 (0x8000 + Z.shiftl dpl 13 + Z.shiftl type 8)).

Lemma gate_fields type dpl addr :
  0 <= addr < 4294967296 -> (type = 14 \/ type = 15) -> (dpl = 0 \/ dpl = 3) ->
  let g := gate type dpl addr in
  gate_selector g = 8 /\ gate_offset g = addr /\ gate_present g = true /\
  gate_type g = type /\ gate_dpl g = dpl.
Proof.
  intros Ha Ht Hd. unfold gate_selector, gate_offset, gate_present, gate_type, gate_dpl, gate.
  cbn [fst snd]. rewrite Z.testbit_eqb by lia. change (2 ^ 15) with 32768.
  destruct Ht as [->| ->], Hd as [->| ->];
    match goal with |- context [u16 ?x] => let v := eval vm_compute in (u16 x) in change (u16 x) with v end;
    rewrite Z.eqb_eq; dlia.
Qed.

(** [m] returns, and changes the interrupt table by [f] and nothing else of it. *)
Definition gates {A} (m : K A) (f : (Z -> Z * Z) -> Z -> Z * Z) : Prop :=
  forall s, exists a s', m s = Ret a s' /\ idt s' = f (idt s).

Lemma gates_bind {A B} (m : K A) (k : A -> K B) f g :
  gates m f -> (forall a, gates (k a) g) -> gates (m ≫= k) (fun t => g (f t)).
Proof.
  intros Hm Hk s. destruct (Hm s) as (a & s1 & Hr & Hi). destruct (Hk a s1) as (b & s2 & Hr2 & Hi2).
  exists b, s2. rewrite (bind_Ret _ _ _ _ _ Hr), Hi2, Hi. done.
Qed.
Lemma gates_modify h f : (forall s, idt (h s) = f (idt s)) -> gates (modify h) f.
Proof. intros Hh s. exists tt, (h s). done. Qed.
Lemma gates_modify_id h : (forall s, idt (h s) = idt s) -> gates (modify h) (fun t => t).
Proof. intros Hh s. exists tt, (h s). by rewrite Hh. Qed.
Lemma gates_pure {A} (m : K A) : (forall s, exists a, m s = Ret a s) -> gates m (fun t => t).
Proof. intros Hm s. destruct (Hm s) as [a Ha]. by exists a, s. Qed.
Lemma gates_for i n body F :
  (forall j, gates (body j) (F j)) ->
  gates (for_ i n body) (fun t => fold_left (fun t k => F (i + Z.of_nat k) t) (seq 0 n) t).
Proof.
  intros Hb. revert i. induction n as [|n IH]; intros i; [intros s; by exists tt, s|].
  simpl. intros s. destruct (Hb i s) as (a & s1 & Hr & Hi). destruct (IH (i + 1) s1) as (b & s2 & Hr2 & Hi2).
  exists b, s2. rewrite (bind_Ret _ _ _ _ _ Hr). split; [done|].
  rewrite Hi2, Hi, Z.add_0_r, <- seq_shift. clear.
  generalize (F i (idt s)). generalize (seq 0 n). induction l as [|k l IH]; intros t; [done|].
  simpl. rewrite <- IH. do 2 f_equal. lia.
Qed.

Lemma gates_for_id i n body :
  (forall j, gates (body j) (fun t => t)) -> gates (for_ i n body) (fun t => t).
Proof.
  intros Hb. revert i. induction n as [|n IH]; intros i; [intros s; by exists tt, s|].
  simpl. apply (gates_bind _ _ (fun t => t) (fun t => t)); [apply Hb|intros; apply IH].
Qed.
Lemma gates_set type dpl n addr : gates (_set_gate n type dpl addr) (fun t => <[n := gate type dpl addr]> t).
Proof. by apply gates_modify. Qed.
Lemma gates_inb `{Machine} p : gates (inb p) (fun t => t).
Proof. intros s. by eexists _, _. Qed.

Lemma fold_set i n (v : Z * Z) t j :
  fold_left (fun t k => <[i + Z.of_nat k := v]> t) (seq 0 n) t j =
  if decide (i <= j < i + Z.of_nat n) then v else t j.
Proof.
  induction n as [|n IH]; [by rewrite decide_False by lia|].
  rewrite seq_S, fold_left_app. cbn [fold_left]. rewrite Nat.add_0_l, arr_dec, IH.
  repeat case_decide; (done || lia).
Qed.

Lemma fold_id {A B} (l : list A) (t : B) : fold_left (fun t _ => t) l t = t.
Proof. by induction l. Qed.

Ltac head_of m := lazymatch m with ?f _ => head_of f | _ => m end.
Ltac gates_tac :=
  lazymatch goal with
  | |- gates (_ ≫= _) _ => eapply gates_bind; [gates_tac|intros; gates_tac]
  | |- gates (if ?b then _ else _) _ => let v := eval vm_compute in b in change b with v; cbv iota; gates_tac
  | |- gates (modify _) _ => apply gates_modify_id; reflexivity
  | |- gates (_set_gate _ _ _ _) _ => apply gates_set
  | |- gates (inb _) _ => apply gates_inb
  | |- gates get _ => apply gates_pure; by eexists
  | |- gates (gets _) _ => apply gates_pure; by eexists
  | |- gates (mret _) _ => apply gates_pure; by eexists
  | |- gates (for_ _ _ _) _ => first [apply gates_for_id; intros; gates_tac | eapply gates_for; intros; gates_tac]
  | |- gates ?m _ => let h := head_of m in unfold h; gates_tac
  end.

Section table.
Context `{Machine}.

(** The vectors the kernel uses; 15 and 17 to 31 are reserved by the processor. *)
Definition vectors : list (Z * entry) :=
  [(0, at_divide_error); (1, at_debug); (2, at_nmi); (3, at_int3); (4, at_overflow);
   (5, at_bounds); (6, at_invalid_op); (7, at_device_not_available); (8, at_double_fault);
   (9, at_coprocessor_segment_overrun); (10, at_invalid_TSS); (11, at_segment_not_present);
   (12, at_stack_segment); (13, at_general_protection); (14, at_page_fault);
   (15, at_reserved); (16, at_coprocessor_error); (0x20, at_timer_interrupt);
   (0x21, at_keyboard_interrupt); (0x23, at_rs2_interrupt); (0x24, at_rs1_interrupt);
   (0x2E, at_hd_interrupt); (0x80, at_system_call)].
Fixpoint assoc (n : Z) (l : list (Z * entry)) : option entry :=
  match l with
  | [] => None
  | (k, e) :: l => if n =? k then Some e else assoc n l
  end.
Definition vector (n : Z) : entry :=
  match assoc n vectors with
  | Some e => e
  | None => if (17 <=? n) && (n <=? 31) then at_reserved else at_ignore_int
  end.

Lemma vector_reserved n : 17 <= n <= 31 -> vector n = at_reserved.
Proof.
  intros. unfold vector. cbn [assoc vectors].
  repeat (rewrite (proj2 (Z.eqb_neq n _)) by lia).
  by rewrite (proj2 (Z.leb_le 17 n)), (proj2 (Z.leb_le n 31)) by lia.
Qed.
Lemma vector_other n :
  ~ 17 <= n <= 31 -> n ∉ map fst vectors -> vector n = at_ignore_int.
Proof.
  intros H17. unfold vector. cbn [assoc vectors map fst]. rewrite !not_elem_of_cons. intros Hn.
  repeat (rewrite (proj2 (Z.eqb_neq n _)) by apply Hn).
  destruct (17 <=? n) eqn:E, (n <=? 31) eqn:E'; ztest; (done || lia).
Qed.

(** What a slot holds: the gate of its vector. *)
Definition slot (n : Z) (g : Z * Z) : Prop :=
  exists type dpl, (type = 14 \/ type = 15) /\ (dpl = 0 \/ dpl = 3) /\
    (dpl = 3 <-> n ∈ [3; 4; 5; 0x80]) /\ g = gate type dpl (address_of (vector n)).

Ltac slot_tac :=
  eexists _, _; split; [|split; [|split; [|reflexivity]]]; [by auto|by auto|];
  rewrite !elem_of_cons, elem_of_nil; lia.
Ltac slots_tac :=
  repeat (rewrite ?fold_id, arr_dec; case_decide; [match goal with E : _ = _ |- _ => rewrite <- E end; slot_tac|]).

(** C12: After the initialisers have run, every one of the 256 interrupt vectors
    has a present gate in the kernel's code segment that leads to its own entry
    point, or to the handler that ignores the interrupt, and a user process can
    raise exactly the vectors 3, 4, 5 and 0x80. *)
Theorem interrupt_table s x y :
  (forall e, 0 <= address_of e < 4294967296) ->
  exists s', (setup_idt;; tty_init x y;; trap_init;; sched_init;; hd_init) s = Ret tt s' /\
  forall n, 0 <= n < 256 ->
    let g := idt s' n in
    gate_present g = true /\ gate_selector g = 8 /\ gate_offset g = address_of (vector n) /\
    (gate_dpl g = 3 <-> n ∈ [3; 4; 5; 0x80]).
Proof.
  intros Ha. eassert (Hg : gates (setup_idt;; tty_init x y;; trap_init;; sched_init;; hd_init) _) by gates_tac.
  destruct (Hg s) as ([] & s' & Hr & Hi). exists s'. split; [exact Hr|]. intros n Hn.
  assert (Hs : slot n (idt s' n)).
  { rewrite Hi. clear - Hn. slots_tac. rewrite ?fold_id, fold_set. case_decide.
    { rewrite <- (vector_reserved n) by lia. slot_tac. }
    slots_tac. rewrite fold_set, decide_True by lia. rewrite <- (vector_other n)
      by (cbn [vectors map fst]; rewrite ?elem_of_cons, ?elem_of_nil; lia).
    slot_tac. }
  destruct Hs as (type & dpl & Ht & Hd & Hin & ->).
  destruct (gate_fields type dpl (address_of (vector n)) (Ha _) Ht Hd) as (Hsel & Ho & Hp & _ & Hdpl).
  cbv zeta. split; [exact Hp|]. split; [exact Hsel|]. split; [exact Ho|]. rewrite Hdpl. exact Hin.
Qed.
End table.

(** C37: A system call with a number past the table returns -1 and changes
    nothing; one that the table leaves to sys_null returns -ENOSYS through the
    usual exit, but with the caller's ebx replaced by the number of the call. *)
Theorem system_call_errors `{Machine} fninit r s c :
  current s = Some c -> t_state (tsk s c) = TASK_RUNNING -> t_counter (tsk s c) <> 0 ->
  0 <= fr_eax r < 4294967296 ->
  (fr_eax r >= 319 -> system_call fninit r s = Ret (r <| fr_eax := 4294967295 |>) s) /\
  (fr_eax r < 319 -> service fninit (fr_eax r) = None ->
   system_call fninit r s =
     ret_from_sys_call (r <| fr_ebx := fr_eax r |> <| fr_eax := u32 (- ENOSYS) |>) s).
Proof.
  intros Hc Hst Hct Hr. unfold system_call. split; intros Hn.
  - replace (fr_eax r >? nr_system_calls - 1) with true; [done|]. symmetry. apply Z.gtb_lt.
    unfold nr_system_calls. lia.
  - intros Hnull. replace (fr_eax r >? nr_system_calls - 1) with false.
    2: { symmetry. rewrite Z.gtb_ltb. apply Z.ltb_ge. unfold nr_system_calls. lia. }
    unfold dispatch. rewrite Hnull.
    replace (fst (sys_null (s32 (fr_eax r)) 0)) with (- ENOSYS)
      by (unfold sys_null; by destruct (_ || _)).
    mrun. rewrite (bind_Ret _ _ _ _ _ (me_run s c Hc)).
    rewrite Hst, (proj2 (Z.eqb_neq _ _) Hct). cbn [nz Z.eqb negb orb TASK_RUNNING]. mrun.
    done.
Qed.

(** ** Witnesses *)

(** A process in slot 1 with a handler for SIGTERM, which is pending. *)
Definition signalled_task : task_struct := zero_task
  <| t_counter := 5 |> <| t_signal := 16384 |> <| t_sig_restorer := 0x900 |>
  <| t_sig_fn := fun i => if i =? 14 then 0x800 else 0 |>.
Definition signalled : kstate := zero_kstate
  <| task := fun i => if i =? 0 then Some 4096 else if i =? 1 then Some 8192 else None |>
  <| tsk := fun p => if p =? 8192 then signalled_task else zero_task |>
  <| current := Some 8192 |>.
Definition user_frame : frame :=
  mk_frame 7 1 2 3 0x17 0x17 0x17 0x1234 0x0f 0x202 0x8000 0x17 0x17 0 0 0.

Lemma verify_area_absent `{Machine} a n s c :
  current s = Some c -> (forall i, le32 (phys s) i = 0) -> verify_area a n s = Ret tt s.
Proof.
  intros Hc Hp. unfold verify_area. cbv zeta. rewrite (bind_Ret _ _ _ _ _ (me_run s c Hc)).
  destruct (for_inv (fun _ t => t = s) 0
    (Z.to_nat ((s32 (n + Z.land (u32 a) 0xfff) + 4095) / 4096))
    (fun i => write_verify do_exit (u32 (Z.land (u32 a) 0xfffff000 + get_base (t_ldt (tsk s c) 2) + 4096 * i))) s)
    as (s' & Hr & ->); [done| |done].
  intros j t _ ->. exists s. split; [|done]. unfold write_verify. mrun. by rewrite Hp.
Qed.

Lemma ret_from_sys_call_spec_witness :
  exists s', @ret_from_sys_call quiet_machine user_frame signalled =
      Ret (user_frame <| fr_eip := 0x800 |> <| fr_oldesp := 0x8000 - 28 |>) s' /\
    load_words (user s') (0x8000 - 28) 7 = [0x900; 15; 7; 2; 3; 0x202; 0x1234].
Proof.
  pose proof (@ret_from_sys_call_spec quiet_machine user_frame signalled 8192) as H.
  specialize (H eq_refl ltac:(discriminate) ltac:(discriminate) eq_refl
    ltac:(split; [discriminate|reflexivity])).
  change (next_signal (tsk signalled 8192)) with (Some 14) in H. cbv beta iota zeta in H.
  change (u32 (t_sig_fn (tsk signalled 8192) 14) =? 0) with false in H. cbv iota in H.
  eexists. split.
  - eapply H.
    + apply (@verify_area_absent quiet_machine _ _ _ 8192); reflexivity.
    + reflexivity.
    + discriminate.
  - reflexivity.
Defined.

Lemma system_call_errors_witness :
  @system_call quiet_machine zero_arr (user_frame <| fr_eax := 400 |>) signalled =
    Ret (user_frame <| fr_eax := 4294967295 |>) signalled /\
  @system_call quiet_machine zero_arr (user_frame <| fr_eax := 70 |>) signalled =
    @ret_from_sys_call quiet_machine (user_frame <| fr_ebx := 70 |> <| fr_eax := 4294967258 |>) signalled.
Proof.
  split.
  - refine (proj1 (@system_call_errors quiet_machine zero_arr (user_frame <| fr_eax := 400 |>) signalled 8192 _ _ _ _) _);
      first [reflexivity | discriminate | split; [discriminate|reflexivity]].
  - refine (proj2 (@system_call_errors quiet_machine zero_arr (user_frame <| fr_eax := 70 |>) signalled 8192 _ _ _ _) _ _);
      first [reflexivity | discriminate | split; [discriminate|reflexivity]].
Defined.

Lemma interrupt_table_witness :
  exists s', (@setup_idt quiet_machine;; @tty_init quiet_machine 0 0;; @trap_init quiet_machine;;
              @sched_init quiet_machine;; @hd_init quiet_machine) zero_kstate = Ret tt s' /\
  forall n, 0 <= n < 256 ->
    let g := idt s' n in
    gate_present g = true /\ gate_selector g = 8 /\ gate_offset g = @address_of quiet_machine (vector n) /\
    (gate_dpl g = 3 <-> n ∈ [3; 4; 5; 0x80]).
Proof. apply (@interrupt_table quiet_machine zero_kstate 0 0). intros e. split; [discriminate|reflexivity]. Defined.
