(* ===== verification/Fork.v ===== *)
(** The memory of a new process: the system call [fork] (Entry.v, Process.v) over the
    page tables of Share.v, joined with what Process.v says of the tables of processes
    and files. *)
From S2P Require Export Entry Share.
#[local] Open Scope bool_scope.

(** ** What the invariant depends on *)

Definition same_mem (s s' : kstate) : Prop := phys s' = phys s /\ mem_map s' = mem_map s.

Lemma same_mem_table s s' k : same_mem s s' -> table_of s' k = table_of s k.
Proof. intros [Hp _]. unfold table_of. by rewrite Hp. Qed.
Lemma same_mem_pte s s' k j : same_mem s s' -> pte s' k j = pte s k j.
Proof. intros Hs. unfold pte. rewrite (same_mem_table s s') by done. by rewrite (proj1 Hs). Qed.
Lemma same_mem_translate s s' a : same_mem s s' -> translate s' a = translate s a.
Proof. intros Hs. rewrite !translate_pte. by rewrite (same_mem_pte s s'). Qed.
Lemma same_mem_total s s' x : same_mem s s' -> total_refs s' x = total_refs s x.
Proof.
  intros Hs. apply zsum_ext. intros k _. unfold dir_refs, tab_ref. rewrite (same_mem_table s s') by done. f_equal.
  apply refs_to_ext. intros j _. by rewrite (same_mem_pte s s').
Qed.
Lemma same_mem_ok s s' : same_mem s s' -> mem_ok s -> mem_ok s'.
Proof.
  intros Hs [[M1 M1'] M2 M3 M4 M5]. split; [split| | | |].
  - intros k u Hk Hu. rewrite (same_mem_table s s') in Hu by done. destruct (M1 k u Hk Hu) as [? Hi].
    split; [done|]. intros i Hi1 Hi2. rewrite (proj2 Hs). by apply Hi.
  - intros k l u Hk Hl Hku Hlu. rewrite !(same_mem_table s s') in Hku, Hlu by done. by apply (M1' k l u).
  - intros x. rewrite (same_mem_total s s') by done. rewrite (proj2 Hs). apply M2.
  - intros k j Hk Hj. rewrite (same_mem_pte s s') by done. by apply M3.
  - intros k u Hk Hu. rewrite (same_mem_table s s') in Hu by done. by apply (M4 k).
  - intros k u Hk Hu. rewrite (same_mem_table s s') in Hu by done. by apply (M5 k).
Qed.

(** ** The segments of a process *)

(** The current process has code and data in one area, from block [fk] on, and the area
    of slot [nr] is unused. *)
Record forkable (s : kstate) (c nr fk : Z) : Prop := {
  fk_code : get_base (t_ldt (tsk s c) 1) = block_start fk;
  fk_data : get_base (t_ldt (tsk s c) 2) = block_start fk;
  fk_limits : 0 < get_limit (t_ldt (tsk s c) 1) <= get_limit (t_ldt (tsk s c) 2);
  fk_copyable : copyable s fk (16 * nr) (blocks (get_limit (t_ldt (tsk s c) 2)));
}.

Lemma child_base nr : 1 <= nr < 64 -> u32 (nr * 0x4000000) = block_start (16 * nr).
Proof. intros Hn. unfold block_start. rewrite u32_small by lia. lia. Qed.

Lemma same_mem_copyable s s' fk tk n : same_mem s s' -> copyable s fk tk n -> copyable s' fk tk n.
Proof.
  intros Hs [C1 C2 C3 C4 C5 C6]. split; try done.
  - by apply (same_mem_ok s).
  - intros k Hk. rewrite (same_mem_table s s') by done. by apply C5.
  - intros x. rewrite (proj2 Hs). apply C6.
Qed.
Lemma taken_copyable s k fk tk n : copyable s fk tk n -> frame_ok k -> mem_map s k = 0 -> copyable (taken k s) fk tk n.
Proof.
  intros [C1 C2 C3 C4 C5 C6] Hk Hz. split; try done.
  - by apply taken_ok.
  - intros l Hl. rewrite table_of_taken by (done || lia). by apply C5.
  - intros x. simpl. rewrite arr_dec. specialize (C6 x). case_decide; [|done]. subst. lia.
Qed.

(** Two translations that agree. *)
Definition same_paging (s s' : kstate) : Prop :=
  (forall a, linear a -> translate s' a = translate s a).

(** The child in slot [nr] shares the pages of its parent. *)
Definition shares (s s' : kstate) (fk tk n : Z) : Prop :=
  (forall d, 0 <= d < 4194304 * n ->
     translate s' (block_start tk + d) = read_only (translate s (block_start fk + d)) /\
     translate s' (block_start fk + d) = write_shared (translate s (block_start fk + d))) /\
  (forall a, linear a -> ~ in_blocks fk n a -> ~ in_blocks tk n a -> translate s' a = translate s a).

(** The area of the parent may have lost the leave to write to its first [i] blocks. *)
Definition unshared_from (s s' : kstate) (fk i : Z) : Prop := forall a, linear a ->
  translate s' a = if decide (in_blocks fk i a) then write_shared (translate s a) else translate s a.

Lemma shares_ext s s0 t t' fk tk n : same_paging s s0 -> same_mem t t' -> 0 <= fk -> fk + n <= 1024 ->
  shares s0 t fk tk n -> shares s t' fk tk n.
Proof.
  intros Hs Ht Hf Hf' [S1 S2]. split.
  - intros d Hd. rewrite !(same_mem_translate t t') by done. destruct (S1 d Hd) as [-> ->].
    rewrite Hs; [done|]. unfold linear, block_start. lia.
  - intros a Ha H1 H2. rewrite (same_mem_translate t t'), S2, Hs by done. done.
Qed.

(** [copy_mem] on a state with the segments [forkable] asks for. *)
Lemma copy_mem_run nr p s c fk : current s = Some c -> c <> p -> 1 <= nr < 64 -> forkable s c nr fk ->
  let n := blocks (get_limit (t_ldt (tsk s c) 2)) in
  exists r t, copy_mem nr p s = Ret r t /\ mem_ok t /\
    (r = 0 /\ shares s t fk (16 * nr) n \/
     r = - ENOMEM /\ (forall x, mem_map t x = mem_map s x) /\ (forall x, total_refs t x = total_refs s x) /\
       exists i, 0 <= i < n /\ unshared_from s t fk i).
Proof.
  intros Hc Hp Hnr [F1 F2 F3 F4] n. set (size := get_limit (t_ldt (tsk s c) 2)) in *.
  unfold copy_mem. rewrite (bind_Ret _ _ _ _ _ (me_run s c Hc)). cbv zeta. rewrite F1, F2, Z.eqb_refl. cbn [negb].
  fold size. rewrite (proj2 (Z.ltb_ge _ _)) by lia. rewrite child_base by done. mrun.
  match goal with |- context [(copy_page_tables _ _ _ ≫= _) ?u] => set (s1 := u) end.
  assert (Hs1 : same_mem s s1) by (split; reflexivity). pose proof (same_mem_copyable _ _ _ _ _ Hs1 F4) as Hcp.
  destruct (copy_page_tables_run fk (16 * nr) size s1) as (r & i & t & Hrun & HB & Hi & HQ); [lia|exact Hcp|].
  rewrite (bind_Ret _ _ _ _ _ Hrun). pose proof Hcp as [_ [Hf Hf'] [Ht Ht'] _ _ _].
  destruct HQ as [(-> & _ & Hlt)|[-> ->]].
  - change (nz (-1)) with true. cbn match.
    destruct (free_page_tables_run (16 * nr) size t) as (u & Hfree & HZ); [lia|apply HB|lia|lia|].
    rewrite (bind_Ret _ _ _ _ _ Hfree).
    destruct (copied_freed s1 fk (16 * nr) n i t u Hcp Hi HB HZ) as (Hu & _ & Hmap & Htot & _ & Htr).
    exists (- ENOMEM), u. split; [done|]. split; [done|]. right. split; [done|]. split; [done|]. split.
    + intros x. by rewrite Htot, (same_mem_total s s1).
    + exists i. split; [lia|]. intros a Ha. by rewrite Htr, (same_mem_translate s s1).
  - exists 0, t. split; [done|]. split; [by apply HB|]. left. split; [done|].
    apply (shares_ext s s1 t t); try lia; [intros a _; by apply same_mem_translate|done|].
    apply copied_translations; (done || lia).
Qed.

(** ** The whole of [fork] *)

(** Other counts that still cover the references. *)
Lemma mem_ok_counts s s' : phys s' = phys s -> mem_ok s ->
  (forall x, total_refs s x <= mem_map s' x < 65536) -> mem_ok s'.
Proof.
  intros Hp [[M1 M1'] M2 M3 M4 M5] Hc.
  assert (Ht : forall k, table_of s' k = table_of s k) by (intros k; unfold table_of; by rewrite Hp).
  assert (He : forall k j, pte s' k j = pte s k j) by (intros k j; unfold pte; by rewrite Ht, Hp).
  apply mem_ok_intro.
  - intros k u Hk Hu. rewrite Ht in Hu. by destruct (M1 k u Hk Hu).
  - intros k l u Hk Hl. rewrite !Ht. by apply M1'.
  - intros x. rewrite (total_ext s s') by done. apply Hc.
  - intros k j. rewrite He. apply M3.
  - intros k u. rewrite Ht. apply M4.
  - intros k u. rewrite Ht. apply M5.
Qed.

Lemma born_mem fninit c nr p r s : same_mem s (born fninit c nr p r s).
Proof. unfold born. case_match; split; reflexivity. Qed.

Section fork.
Context (fninit : Z -> Z) (nr c fk : Z) (r : fork_regs) (s : kstate).
Context (Hok : files_ok s) (Hplaced : tasks_placed s) (Hc : current s = Some c).
Context (Hnr : 1 <= nr < NR_TASKS) (Hfree : task s nr = None) (Hfk : forkable s c nr fk).
Let n := blocks (get_limit (t_ldt (tsk s c) 2)).

(** What becomes of memory: the child shares it, or everything is as it was. *)
Definition fork_memory (v : Z) (s' : kstate) : Prop :=
  mem_ok s' /\
  (v = last_pid s /\ shares s s' fk (16 * nr) n \/
   v = - EAGAIN /\ (forall x, mem_map s' x = mem_map s x) /\ exists i, 0 <= i <= n /\ unshared_from s s' fk i).

(** The frame of the task structure is given back. *)
Lemma give_back k s2 : frame_ok k -> mem_map s k = 0 -> mem_ok s2 ->
  (forall x, mem_map s2 x = mem_map (taken k s) x) -> (forall x, total_refs s2 x = total_refs s x) ->
  exists s3, free_page (frame k) s2 = Ret tt s3 /\ mem_ok s3 /\ phys s3 = phys s2 /\ forall x, mem_map s3 x = mem_map s x.
Proof.
  intros Hk Hz Hm2 Hmap Htot. pose proof (frame_range k Hk) as Hr.
  assert (Hat : forall x, at_frame (frame k) x = (k =? x)) by (intros x; apply at_frame_frame; destruct Hk; lia).
  destruct (free_page_run (frame k) s2) as (m & Hrun & Hm).
  { intros x Hx. rewrite Hat in Hx. apply Z.eqb_eq in Hx. subst x. rewrite Hmap. simpl. rewrite arr_eq. lia. }
  { unfold HIGH_MEMORY. lia. }
  assert (Hs : forall x, m x = mem_map s x).
  { intros x. rewrite Hm, Hmap, Hat. simpl. rewrite arr_dec. destruct (Z.eqb_spec k x); case_decide; subst; simpl; lia. }
  eexists. split; [exact Hrun|]. split; [|done]. apply (mem_ok_counts s2); [done|done|]. intros x. simpl.
  rewrite Hs, Htot. apply (mo_count s (cp_ok _ _ _ _ (fk_copyable _ _ _ _ Hfk))).
Qed.

Lemma copy_process_memory : exists v s', copy_process fninit nr r s = Ret v s' /\ fork_memory v s'.
Proof.
  pose proof (fk_copyable _ _ _ _ Hfk) as Hcp. pose proof (cp_ok _ _ _ _ Hcp) as Hm. pose proof (mo_tables s Hm) as Htok.
  unfold copy_process, fork_memory. destruct (get_free_page_cases s) as [[Hrun _]|(k & Hk & Hz & _ & Hrun)];
    rewrite (bind_Ret _ _ _ _ _ Hrun).
  { exists (- EAGAIN), s. split; [done|]. split; [done|]. right. split; [done|]. split; [done|]. exists 0.
    split; [split; [done|]|]; [unfold n, blocks; pose proof (fk_limits _ _ _ _ Hfk); dlia|].
    intros a Ha. rewrite decide_False; [done|]. unfold in_blocks. lia. }
  rewrite frame_nz by done. cbn [negb]. set (p := frame k).
  assert (Hnew : forall i q, 0 <= i < NR_TASKS -> task s i = Some q -> q <> p) by (intros i q Hi Hq; by apply (Hplaced i q k)).
  assert (Hcp' : c <> p).
  { destruct (fo_current s Hok) as (ic & c' & Hi & Hti & Hci). apply (Hnew ic); [done|congruence]. }
  assert (Hct : current (taken k s) = Some c) by done.
  rewrite (bind_Ret _ _ _ _ _ (me_run _ c Hct)). mrun.
  rewrite (bind_Ret _ _ _ tt (born fninit c nr p r (taken k s))); cycle 1.
  { rewrite when_run. unfold born. case_match; done. }
  set (s1 := born fninit c nr p r (taken k s)).
  assert (Hs1 : others_same p s s1) by (unfold s1; eapply others_same_trans; [|apply born_same]; done).
  assert (Hc1 : current s1 = Some c) by (destruct Hs1 as (_ & -> & _); done).
  assert (Htc : tsk s1 c = tsk s c) by (destruct Hs1 as (_ & _ & _ & _ & _ & _ & ->); done).
  pose proof (born_mem fninit c nr p r (taken k s)) as Hb. fold s1 in Hb.
  assert (Hfk1 : forkable s1 c nr fk).
  { destruct Hfk as [F1 F2 F3 F4]. split; rewrite Htc; try done.
    apply (same_mem_copyable (taken k s)); [done|]. by apply taken_copyable. }
  assert (Htr : same_paging s s1).
  { intros a _. rewrite (same_mem_translate (taken k s) s1) by done. by apply translate_taken. }
  destruct (copy_mem_run nr p s1 c fk Hc1 Hcp' Hnr Hfk1) as (e & s2 & Hrun2 & Hm2 & HQ).
  pose proof (copy_mem_frame nr p s1 c Hc1 Hcp') as Hframe. rewrite Hrun2 in Hframe. rewrite (bind_Ret _ _ _ _ _ Hrun2).
  rewrite Htc in HQ. fold n in HQ. destruct HQ as [[-> Hsh]|(-> & Hmap & Htot & i & Hi & Hun)].
  - cbn [nz Z.eqb negb]. destruct Hframe as (Hs2 & _ & Ht2). apply (others_same_trans _ _ _ _ Hs1) in Hs2.
    apply (born_task fninit c nr p r (taken k s)) in Ht2.
    destruct (newborn_after s s2 c nr p r) as [Hok2 Hnb2]; try done.
    { destruct Ht2. by split. }
    destruct (install_child_run s2 c nr p Hok2 Hnb2) as (s3 & Hrun3 & _ & _ & _ & _ & _ & _ & Hph & Hmm).
    assert (Hsm : same_mem s2 s3) by done. exists (last_pid s2), s3.
    change (nz 0) with false. cbn match. rewrite Hrun3. split; [done|]. split; [by apply (same_mem_ok s2)|].
    left. split; [by destruct Hs2 as (_ & _ & _ & _ & -> & _)|].
    pose proof (cp_from _ _ _ _ Hcp). apply (shares_ext s s1 s2 s3); (done || lia).
  - change (nz (- ENOMEM)) with true. cbn match.
    destruct (give_back k s2) as (s3 & Hrun3 & Hm3 & Hph & Hmap3); try done.
    { intros x. rewrite Hmap. by rewrite (proj2 Hb). }
    { intros x. rewrite Htot, (same_mem_total (taken k s) s1) by done. by apply total_taken. }
    fold p in Hrun3. rewrite (bind_Ret _ _ _ _ _ Hrun3). exists (- EAGAIN), s3. split; [done|]. split; [done|].
    right. split; [done|]. split; [done|]. exists i. split; [lia|]. intros a Ha.
    assert (E : translate s3 a = translate s2 a) by (unfold translate, dir_entry; by rewrite Hph).
    rewrite E, (Hun a Ha), (Htr a Ha). done.
Qed.
End fork.

(** What a failed fork leaves: all as it was, but that the first [i] blocks of the
    parent may have lost the leave to write of shared pages. *)
Record not_forked (s s' : kstate) (c fk : Z) : Prop := {
  nf_task : task s' = task s;
  nf_file : file_table s' = file_table s;
  nf_inode : inode_table s' = inode_table s;
  nf_tsk : forall i q, 0 <= i < NR_TASKS -> task s i = Some q -> tsk s' q = tsk s q;
  nf_map : forall x, mem_map s' x = mem_map s x;
  nf_memory : exists i, 0 <= i <= blocks (get_limit (t_ldt (tsk s c) 2)) /\ unshared_from s s' fk i;
}.
(** A new child [p] of [c] in slot [nr]. *)
Record forked (s s' : kstate) (c fk nr p : Z) (r : fork_regs) : Prop := {
  fd_task : task s' = <[nr := Some p]> (task s);
  fd_child : is_child s c nr p r (tsk s' p);
  fd_tsk : forall q, q <> p -> tsk s' q = tsk s q;
  fd_new : forall i q, 0 <= i < NR_TASKS -> task s i = Some q -> q <> p;
  fd_inode : inode_table s' = shared_inode (t_root (tsk s c)) (shared_inode (t_pwd (tsk s c)) (inode_table s));
  fd_memory : shares s s' fk (16 * nr) (blocks (get_limit (t_ldt (tsk s c) 2)));
}.

Lemma copy_process_shares fninit nr c fk r s :
  files_ok s -> tasks_placed s -> current s = Some c -> 1 <= nr < NR_TASKS -> task s nr = None ->
  forkable s c nr fk -> 0 <= last_pid s ->
  exists v s', copy_process fninit nr r s = Ret v s' /\ files_ok s' /\ mem_ok s' /\
    (v = last_pid s /\ (exists p, forked s s' c fk nr p r) \/ v = - EAGAIN /\ not_forked s s' c fk).
Proof.
  intros Hok Hpl Hc Hnr Hfree Hfk Hpid.
  destruct (copy_process_memory fninit nr c fk r s Hok Hpl Hc Hnr Hfree Hfk) as (v & s' & Hrun & Hm & Hmem).
  pose proof (copy_process_run fninit nr r s c Hok Hpl Hc Hnr Hfree) as Hproc. rewrite Hrun in Hproc.
  destruct Hproc as (Hok' & _ & _ & Hproc). exists v, s'. do 3 (split; [done|]).
  assert (- EAGAIN < 0) by done. destruct Hproc as [(Hv & (p & H1 & H2 & H3 & H4) & Hi)|(Hv & H1 & H2 & H3 & H4)],
    Hmem as [(Hv' & Hsh)|(Hv' & Hmap & Hun)]; try lia; [left|right]; (split; [done|]); [exists p|]; by split.
Qed.

Lemma blocks_nonneg d : 0 <= blocks (get_limit d).
Proof. unfold get_limit. match goal with |- context [u32 ?x] => pose proof (u32_range x) end. unfold blocks. dlia. Qed.

(** C23: Take a state where open files and frames are counted right, the task
    structures in use lie in frames of their own, last_pid is not negative, and
    the current process can be copied into any free slot: its code and data
    segments start together, its code is not empty and not longer than its data,
    nothing is mapped in a free slot's address range, and the counts of shared
    pages have room. Then sys_fork does not panic and always returns. Either it
    fails with EAGAIN, changing no process, open file, inode or count of a frame
    and no address but for the leave to write of shared pages; or it returns a
    positive pid that no task has and installs, in a slot that was free, a child
    of the current process with that pid, its own registers, counters and frame,
    which shares its parent's open files, directories and, read-only, every page
    of its memory, while no other address changes. Files and frames are counted
    right again. *)
Theorem fork_shares_memory `{Machine} fninit c fk r s :
  files_ok s -> mem_ok s -> tasks_placed s -> current s = Some c ->
  0 <= last_pid s < 2147483648 -> (65 <= fuel)%nat ->
  (forall nr, 1 <= nr < NR_TASKS -> task s nr = None -> forkable s c nr fk) ->
  exists v s', sys_fork fninit r s = Ret (v, r) s' /\ files_ok s' /\ mem_ok s' /\
    (0 < v /\ (forall i q, 0 <= i < NR_TASKS -> task s i = Some q -> t_pid (tsk s q) <> v) /\
       (exists nr p, 1 <= nr < NR_TASKS /\ task s nr = None /\
          forked (s <| last_pid := v |>) s' c fk nr p (regs_of r)) \/
     v = - EAGAIN /\ not_forked s s' c fk).
Proof.
  intros Hok Hm Hpl Hc Hpid Hfuel Hfk. unfold sys_fork.
  destruct (find_empty_process_spec s Hpid Hfuel) as (nr & pid & Hrun & Hpos & Hnew & Hnr).
  rewrite (bind_Ret _ _ _ _ _ Hrun). set (s1 := s <| last_pid := pid |>).
  assert (Hok1 : files_ok s1) by (destruct Hok as [F1 F2 F3 F4]; split; [exact F1|exact F2|exact F3|exact F4]).
  assert (Hm1 : mem_ok s1) by (by apply (same_mem_ok s)).
  destruct Hnr as [[-> _]|(Hnr & Hfree & _)].
  - change (- EAGAIN <? 0) with true. cbn match. rewrite mret_run. exists (- EAGAIN), s1.
    split; [done|]. split; [done|]. split; [done|]. right. split; [done|]. split; try done.
    exists 0. split; [pose proof (blocks_nonneg (t_ldt (tsk s c) 2)); lia|].
    intros a Ha. rewrite decide_False; [done|]. unfold in_blocks. lia.
  - rewrite (proj2 (Z.ltb_ge nr 0)) by lia.
    assert (Hfk1 : forkable s1 c nr fk).
    { destruct (Hfk nr Hnr Hfree) as [F1 F2 F3 F4]. split; [exact F1|exact F2|exact F3|].
      by apply (same_mem_copyable s). }
    destruct (copy_process_shares fninit nr c fk (regs_of r) s1 Hok1 Hpl Hc Hnr Hfree Hfk1 ltac:(simpl; lia))
      as (v & s' & Hcp & Hok' & Hm' & H').
    rewrite (bind_Ret _ _ _ _ _ Hcp), mret_run. exists v, s'. split; [done|]. split; [done|]. split; [done|].
    destruct H' as [(-> & p & Hf)|(-> & [])]; [left|right].
    + change (last_pid s1) with pid. split; [lia|]. split; [done|]. by exists nr, p.
    + split; [done|]. by split.
Qed.

(** ** An example: a task with one page makes a child *)

Definition parent_task : task_struct :=
  zero_task <| t_filp := fun fd => if fd =? 0 then Some 3 else None |>
    <| t_ldt := fun _ => set_base (block_start 16) (0x9f, 0xc0fa00) |>.
Definition parent : kstate := sharing <| phys := phys shared_page |> <| mem_map := mem_map shared_page |>
  <| tsk := fun _ => parent_task |>.

Lemma parent_ok : files_ok parent.
Proof.
  destruct sharing_ok as [S1 S2 S3 S4]. split; [exact S1|exact S2|exact S3|].
  intros f Hf. exact (S4 f Hf).
Qed.
Lemma parent_forkable nr : 1 <= nr < NR_TASKS -> task parent nr = None -> forkable parent 4096 nr 16.
Proof.
  intros Hnr Hfree. assert (2 <= nr < 64).
  { unfold NR_TASKS in *. assert (nr <> 1) by (intros ->; discriminate). lia. }
  split; [reflexivity|reflexivity|split; [reflexivity|discriminate]|].
  apply (same_mem_copyable shared_page); [split; reflexivity|]. apply shared_page_copyable_to. lia.
Qed.
Definition parent_frame : Entry.frame := mk_frame 2 0 0 0 0 0 0 0 0 0 0 0 0 0 0 0.

Lemma fork_shares_memory_witness : exists v s', @sys_fork quiet_machine zero_arr parent_frame parent = Ret (v, parent_frame) s' /\
  mem_ok s' /\
  (0 < v /\ (exists nr, translate s' (block_start (16 * nr) + 0x10) = Some (0x400010, false)) \/ v = - EAGAIN).
Proof.
  destruct (@fork_shares_memory quiet_machine zero_arr 4096 16 parent_frame parent) as (v & s' & Hr & _ & Hm & H).
  - exact parent_ok.
  - apply (same_mem_ok shared_page); [split; reflexivity|exact shared_page_ok].
  - intros i q k Hi Hq Hk _. pose proof (frame_range k Hk). simpl in Hq. repeat case_match; simplify_eq; lia.
  - reflexivity.
  - split; [discriminate|reflexivity].
  - cbn. lia.
  - exact parent_forkable.
  - exists v, s'. split; [exact Hr|]. split; [exact Hm|].
    destruct H as [(Hv & _ & nr & p & _ & _ & Hf)|(-> & _)]; [left|right; reflexivity].
    split; [exact Hv|]. exists nr. destruct (fd_memory _ _ _ _ _ _ _ Hf) as [Hin _].
    destruct (Hin 0x10) as [H _]; [split; [discriminate|reflexivity]|].
    etransitivity; [exact H|]. vm_compute. reflexivity.
Defined.
