(* ===== verification/Vsprintf.v ===== *)
(** Formatted output, kernel/vsprintf.c.  Characters are their codes, memory is
    bytes by address; the format is read and the text stored there, byte by byte.
    [render] says what the text of a format is, and [vsprintf_spec] that it is
    stored. *)
From S2P Require Export KState.
#[local] Open Scope bool_scope.

(** kernel/vsprintf.c:10 *)
Definition is_digit (c : Z) : bool := (c >=? 48) && (c <=? 57).

(** kernel/vsprintf.c:12-19: the number at [s], and where it ends. *)
Fixpoint skip_atoi_from (n : nat) (i : Z) (m : Z -> Z) (s : Z) : option (Z * Z) :=
  match n with
  | O => None
  | S n => if is_digit (m s) then skip_atoi_from n (s32 (i * 10 + m s - 48)) m (s + 1) else Some (i, s)
  end.
(** kernel/vsprintf.c:12-19 *)
Definition skip_atoi (n : nat) (m : Z -> Z) (s : Z) : option (Z * Z) := skip_atoi_from n 0 m s.

(** kernel/vsprintf.c:21 *)
Definition ZEROPAD : Z := 1.
(** kernel/vsprintf.c:22 *)
Definition SIGN : Z := 2.
(** kernel/vsprintf.c:23 *)
Definition PLUS : Z := 4.
(** kernel/vsprintf.c:24 *)
Definition SPACE : Z := 8.
(** kernel/vsprintf.c:25 *)
Definition LEFT : Z := 16.
(** kernel/vsprintf.c:26 *)
Definition SPECIAL : Z := 32.
(** kernel/vsprintf.c:27 *)
Definition SMALL : Z := 64.

(** kernel/vsprintf.c:38-41: character [d] of the table of digits. *)
Definition digit (small : bool) (d : Z) : Z :=
  if d <? 10 then 48 + d else (if small then 97 else 65) + (d - 10).

(** kernel/vsprintf.c:57-60: the digits of an unsigned number, the last one
    first.  A 32-bit number has 32 at most. *)
Fixpoint digits_of (n : nat) (small : bool) (base u : Z) : list Z :=
  match n with
  | O => []
  | S n => if u =? 0 then [] else digit small (u mod base) :: digits_of n small base (u / base)
  end.

(** [while (size-- > 0) *str++ = c;]: what is written, and [size] after. *)
Definition pad (c size : Z) : list Z * Z := (replicate (Z.to_nat size) c, Z.min size 0 - 1).

(** kernel/vsprintf.c:34-86.  [None] is the null pointer of line 44. *)
Definition number (num base size precision type : Z) : option (list Z) :=
  let small := hasbit type SMALL in
  let type := if hasbit type LEFT then Z.land type (Z.lnot ZEROPAD) else type in
  if (base <? 2) || (base >? 36) then None
  else
    let c := if hasbit type ZEROPAD then 48 else 32 in
    let negative := hasbit type SIGN && (num <? 0) in
    let num := if negative then s32 (- num) else num in
    let sign :=
      if negative then 45
      else if hasbit type PLUS then 43 else if hasbit type SPACE then 32 else 0 in
    let size := if nz sign then size - 1 else size in
    let size :=
      if hasbit type SPECIAL then
        if base =? 16 then size - 2 else if base =? 8 then size - 1 else size
      else size in
    let tmp := if num =? 0 then [48] else digits_of 32 small base (u32 num) in
    let i := Z.of_nat (length tmp) in
    let precision := if i >? precision then i else precision in
    let size := size - precision in
    let '(out1, size) := if hasbit type (ZEROPAD + LEFT) then ([], size) else pad 32 size in
    let out2 := if nz sign then [sign] else [] in
    let out3 :=
      if hasbit type SPECIAL then
        if base =? 8 then [48] else if base =? 16 then [48; digit small 33] else []
      else [] in
    let '(out4, size) := if hasbit type LEFT then ([], size) else pad c size in
    let out5 := replicate (Z.to_nat (precision - i)) 48 in
    Some (out1 ++ out2 ++ out3 ++ out4 ++ out5 ++ rev tmp ++ fst (pad 32 size)).

(** kernel/vsprintf.c:110-119: the flags, and where they end; [p] is before them. *)
Fixpoint skip_flags (n : nat) (flags : Z) (m : Z -> Z) (p : Z) : option (Z * Z) :=
  match n with
  | O => None
  | S n =>
      let p := p + 1 in
      if m p =? 45 then skip_flags n (Z.lor flags LEFT) m p
      else if m p =? 43 then skip_flags n (Z.lor flags PLUS) m p
      else if m p =? 32 then skip_flags n (Z.lor flags SPACE) m p
      else if m p =? 35 then skip_flags n (Z.lor flags SPECIAL) m p
      else if m p =? 48 then skip_flags n (Z.lor flags ZEROPAD) m p
      else Some (flags, p)
  end.

(** [strlen]; [None] when there is no zero among the first [n] bytes. *)
Fixpoint strlen (n : nat) (m : Z -> Z) (s : Z) : option Z :=
  match n with
  | O => None
  | S n => if m s =? 0 then Some 0 else option_map Z.succ (strlen n m (s + 1))
  end.

(** What [vsprintf] works on: the argument it is at, the pointers [fmt] and [str],
    and memory. *)
Record vstate : Type := mk_vstate { v_ap : Z; v_fmt : Z; v_str : Z; v_mem : Z -> Z }.
#[export] Instance eta_vstate : Eta vstate := fun r => mk_vstate (v_ap r) (v_fmt r) (v_str r) (v_mem r).

(** [*fmt] *)
Definition peek (v : vstate) : Z := v_mem v (v_fmt v).
(** [*str++ = c] for each of the characters. *)
Definition puts (l : list Z) (v : vstate) : vstate :=
  v <| v_mem ::= fun m => store_bytes m (v_str v) (map u8 l) |> <| v_str ::= fun p => p + Z.of_nat (length l) |>.
(** [for (i = 0; i < n; ++i) *str++ = *s++;] *)
Fixpoint copy_string (n : nat) (s : Z) (v : vstate) : vstate :=
  match n with O => v | S n => copy_string n (s + 1) (puts [v_mem v s] v) end.

Section vsprintf.
(** The words on the stack from the first argument on, how many characters a loop
    looks at, and [buf]. *)
Context (args : Z -> Z) (limit : nat) (buf : Z).

(** [va_arg] *)
Definition next_arg (v : vstate) : Z * vstate := (args (v_ap v), v <| v_ap ::= Z.succ |>).
Definition blanks (n : Z) : list Z := replicate (Z.to_nat n) 32.

(** kernel/vsprintf.c:156-163: [%c]. *)
Definition put_char_arg (flags width : Z) (v : vstate) : vstate :=
  let v := if hasbit flags LEFT then v else puts (blanks (width - 1)) v in
  let '(c, v) := next_arg v in
  let v := puts [c] v in
  if hasbit flags LEFT then puts (blanks (width - 1)) v else v.

(** kernel/vsprintf.c:165-180: [%s]. *)
Definition put_string_arg (flags width precision : Z) (v : vstate) : option vstate :=
  let '(s, v) := next_arg v in
  len ← strlen limit (v_mem v) s;
  let len := if precision <? 0 then len else if len >? precision then precision else len in
  let v := if hasbit flags LEFT then v else puts (blanks (width - len)) v in
  let v := copy_string (Z.to_nat len) s v in
  Some (if hasbit flags LEFT then puts (blanks (width - len)) v else v).

(** kernel/vsprintf.c:182-210: the conversions that print a number. *)
Definition put_number_arg (base width precision flags : Z) (v : vstate) : option vstate :=
  let '(num, v) := next_arg v in
  l ← number (s32 num) base width precision flags;
  Some (puts l v).

(** kernel/vsprintf.c:155-225: the conversion at [fmt].  At the end of the format the
    default case takes a step back. *)
Definition convert (flags width precision : Z) (v : vstate) : option vstate :=
  let c := peek v in
  if c =? 99 then Some (put_char_arg flags width v)
  else if c =? 115 then put_string_arg flags width precision v
  else if c =? 111 then put_number_arg 8 width precision flags v
  else if c =? 112 then
    if width =? -1 then put_number_arg 16 8 precision (Z.lor flags ZEROPAD) v
    else put_number_arg 16 width precision flags v
  else if c =? 120 then put_number_arg 16 width precision (Z.lor flags SMALL) v
  else if c =? 88 then put_number_arg 16 width precision flags v
  else if (c =? 100) || (c =? 105) then put_number_arg 10 width precision (Z.lor flags SIGN) v
  else if c =? 117 then put_number_arg 10 width precision flags v
  else if c =? 110 then
    let '(ip, v) := next_arg v in
    Some (v <| v_mem ::= fun m => put32 m ip (v_str v - buf) |>)
  else
    let v := if c =? 37 then v else puts [37] v in
    Some (if nz (peek v) then puts [peek v] v else v <| v_fmt ::= Z.pred |>).

(** kernel/vsprintf.c:121-132: the width and the flags; the width may be an argument,
    and the [*] is not skipped. *)
Definition field_width (flags : Z) (v : vstate) : option (Z * Z * vstate) :=
  if is_digit (peek v) then
    '(w, p) ← skip_atoi limit (v_mem v) (v_fmt v);
    Some (w, flags, v <| v_fmt := p |>)
  else if peek v =? 42 then
    let '(w, v) := next_arg v in
    if s32 w <? 0 then Some (s32 (- s32 w), Z.lor flags LEFT, v) else Some (s32 w, flags, v)
  else Some (-1, flags, v).

(** kernel/vsprintf.c:134-146 *)
Definition get_precision (v : vstate) : option (Z * vstate) :=
  if peek v =? 46 then
    let v := v <| v_fmt ::= Z.succ |> in
    '(p, v) ← (if is_digit (peek v) then
                '(p, q) ← skip_atoi limit (v_mem v) (v_fmt v);
                Some (p, v <| v_fmt := q |>)
              else if peek v =? 42 then let '(p, v) := next_arg v in Some (s32 p, v)
              else Some (-1, v));
    Some (if p <? 0 then 0 else p, v)
  else Some (-1, v).

(** kernel/vsprintf.c:148-153 *)
Definition skip_qualifier (v : vstate) : vstate :=
  if (peek v =? 104) || (peek v =? 108) || (peek v =? 76) then v <| v_fmt ::= Z.succ |> else v.

(** kernel/vsprintf.c:103-226: the loop. *)
Fixpoint vsprintf_from (n : nat) (v : vstate) : option vstate :=
  match n with
  | O => None
  | S n =>
      if peek v =? 0 then Some v
      else
        v ← (if negb (peek v =? 37) then Some (puts [peek v] v)
             else
               '(flags, p) ← skip_flags limit 0 (v_mem v) (v_fmt v);
               '(width, flags, v) ← field_width flags (v <| v_fmt := p |>);
               '(precision, v) ← get_precision v;
               convert flags width precision (skip_qualifier v));
        vsprintf_from n (v <| v_fmt ::= Z.succ |>)
  end.

(** kernel/vsprintf.c:88-229: the number of characters, and the memory after. *)
Definition vsprintf (fmt : Z) (mem : Z -> Z) : option (Z * (Z -> Z)) :=
  v ← vsprintf_from limit (mk_vstate 0 fmt buf mem);
  Some (v_str v - buf, <[v_str v := 0]> (v_mem v)).
End vsprintf.

(** A string constant at the address [p]. *)
Definition literal (p : Z) (l : list Z) (m : Z -> Z) : Z -> Z := store_bytes m p (l ++ [0]).

(** ** What a number is printed as *)

(** A digit, and the number a list of digits denotes. *)
Definition undigit (c : Z) : Z := if c <? 58 then c - 48 else if c <? 91 then c - 55 else c - 87.
Definition value_from (base v : Z) (l : list Z) : Z := fold_left (fun v c => v * base + undigit c) l v.
Definition value (base : Z) (l : list Z) : Z := value_from base 0 l.
(** The text of a digit below [base]. *)
Definition digit_below (base c : Z) : Prop :=
  0 <= undigit c < base /\ (48 <= c < 58 \/ 65 <= c < 91 \/ 97 <= c).

Lemma undigit_digit small d : 0 <= d < 36 -> undigit (digit small d) = d /\
  (48 <= digit small d < 58 \/ 65 <= digit small d < 91 \/ 97 <= digit small d).
Proof.
  intros Hd. unfold undigit, digit. destruct small, (Z.ltb_spec d 10); repeat case_match; ztest; lia.
Qed.

Lemma value_app base l k : value base (l ++ k) = value_from base (value base l) k.
Proof. apply fold_left_app. Qed.

Lemma digits_value n small base u : 2 <= base <= 36 -> 0 <= u < base ^ Z.of_nat n ->
  value base (rev (digits_of n small base u)) = u.
Proof.
  intros Hb. revert u. induction n as [|n IH]; intros u Hu.
  - change (base ^ Z.of_nat 0) with 1 in Hu. change (0 = u). lia.
  - cbn [digits_of]. destruct (Z.eqb_spec u 0) as [->|Hne]; [done|]. cbn [rev]. rewrite value_app, IH.
    + unfold value_from. cbn [fold_left].
      rewrite (proj1 (undigit_digit small (u mod base) ltac:(pose proof (Z.mod_pos_bound u base); lia))).
      rewrite (Z.div_mod u base) at 3 by lia. lia.
    + rewrite Nat2Z.inj_succ, Z.pow_succ_r in Hu by lia. split; [apply Z.div_pos; lia|].
      apply Z.div_lt_upper_bound; lia.
Qed.

Lemma digits_below n small base u : 2 <= base <= 36 -> 0 <= u ->
  Forall (digit_below base) (digits_of n small base u).
Proof.
  intros Hb. revert u. induction n as [|n IH]; intros u Hu; [constructor|]. cbn [digits_of].
  destruct (u =? 0); constructor; [|apply IH, Z.div_pos; lia].
  pose proof (Z.mod_pos_bound u base ltac:(lia)) as Hm.
  destruct (undigit_digit small (u mod base) ltac:(lia)) as [E ?]. split; [rewrite E; lia|done].
Qed.

Lemma value_zeros base n l : value base (replicate n 48 ++ l) = value base l.
Proof.
  rewrite value_app. f_equal. unfold value, value_from.
  induction n as [|n IH]; [done|]. cbn [replicate fold_left].
  change (0 * base + undigit 48) with 0. exact IH.
Qed.

Lemma hasbit_split x a b : hasbit x (Z.lor a b) = hasbit x a || hasbit x b.
Proof.
  unfold hasbit. rewrite Z.land_lor_distr_r. apply eq_true_iff_eq.
  rewrite orb_true_iff, !nz_true, Z.lor_eq_0_iff. lia.
Qed.
Lemma hasbit_clear x m a : hasbit (Z.land x a) m = hasbit x (Z.land a m).
Proof. unfold hasbit. by rewrite Z.land_assoc. Qed.

(** The last [n] digits of [u] in the base, the first one first. *)
Definition expand (n : nat) (base u : Z) : list Z := map (fun i => u / base ^ Z.of_nat i mod base) (rev (seq 0 n)).
(** Without the zeros in front. *)
Fixpoint strip (l : list Z) : list Z := match l with [] => [] | d :: r => if d =? 0 then strip r else l end.
Definition digit_char (small : bool) (d : Z) : Z :=
  nth (Z.to_nat d) (chars (if small then "0123456789abcdefghijklmnopqrstuvwxyz" else "0123456789ABCDEFGHIJKLMNOPQRSTUVWXYZ")) 0.
(** [u] below 2^32 as it is written. *)
Definition numeral (small : bool) (base u : Z) : list Z := map (digit_char small) (strip (expand 32 base u)).

Lemma digit_char_eq small d : 0 <= d < 36 -> digit_char small d = digit small d.
Proof.
  intros Hd. assert (Hall : forallb (fun d => digit_char small d =? digit small d) (seqZ 0 36) = true)
    by (destruct small; vm_compute; reflexivity).
  rewrite forallb_forall in Hall. apply Z.eqb_eq, Hall, list_elem_of_In, elem_of_seqZ. lia.
Qed.
Lemma expand_succ n base u : 2 <= base -> expand (S n) base u = expand n base (u / base) ++ [u mod base].
Proof.
  intros Hb. unfold expand. cbn [seq rev]. rewrite map_app. f_equal.
  - rewrite <- seq_shift, <- map_rev, map_map. apply map_ext. intros i.
    rewrite Nat2Z.inj_succ, Z.pow_succ_r, <- Z.div_div by lia. done.
  - simpl. by rewrite Z.div_1_r.
Qed.
Lemma strip_app l d : strip (l ++ [d]) = match strip l with [] => if d =? 0 then [] else [d] | _ => strip l ++ [d] end.
Proof. induction l as [|c l IH]; simpl; [done|]. by destruct (c =? 0). Qed.
Lemma digits_strip n small base u : 2 <= base <= 36 -> 0 <= u < base ^ Z.of_nat n ->
  rev (digits_of n small base u) = map (digit_char small) (strip (expand n base u)) /\
  (strip (expand n base u) = [] <-> u = 0).
Proof.
  intros Hb. revert u. induction n as [|n IH]; intros u Hu.
  { change (base ^ Z.of_nat 0) with 1 in Hu. split; [done|]. split; [lia|done]. }
  rewrite Nat2Z.inj_succ, Z.pow_succ_r in Hu by lia.
  destruct (IH (u / base)) as [IH1 IH2]; [split; [apply Z.div_pos; lia|apply Z.div_lt_upper_bound; lia]|].
  rewrite expand_succ, strip_app by lia. cbn [digits_of].
  pose proof (Z.mod_pos_bound u base ltac:(lia)) as Hm. pose proof (Z.div_mod u base ltac:(lia)) as Hd.
  pose proof (digit_char_eq small (u mod base) ltac:(lia)) as Hc.
  destruct (strip (expand n base (u / base))) as [|c l] eqn:E.
  - assert (E0 : u / base = 0) by (by apply IH2). rewrite E0 in *. replace (u mod base) with u in * by lia.
    destruct (Z.eqb_spec u 0) as [->|Hne]; [done|]. cbn [rev]. rewrite IH1. simpl. by rewrite Hc.
  - assert (u <> 0). { intros ->. rewrite Z.div_0_l in * by lia. discriminate (proj2 IH2 eq_refl). }
    rewrite (proj2 (Z.eqb_neq u 0)) by done. cbn [rev]. rewrite IH1, map_app. cbn [map]. rewrite Hc.
    split; [done|]. split; [by intros []%app_eq_nil|done].
Qed.

(** The sign and the prefix of a number. *)
Definition sign_of (num type : Z) : list Z :=
  if hasbit type SIGN && (num <? 0) then [45]
  else if hasbit type PLUS then [43] else if hasbit type SPACE then [32] else [].
Definition prefix_of (base type : Z) : list Z :=
  if hasbit type SPECIAL then
    if base =? 8 then [48] else if base =? 16 then (if hasbit type SMALL then chars "0x" else chars "0X") else []
  else [].
(** The number that is printed: a negative one only with [SIGN]. *)
Definition magnitude (num type : Z) : Z :=
  if hasbit type SIGN && (num <? 0) then - num else u32 num.

(** The digits of the magnitude, without padding. *)
Definition plain_digits (num base type : Z) : list Z :=
  if num =? 0 then [48] else numeral (hasbit type SMALL) base (magnitude num type).

(** A number in a field of the width: the sign and the prefix, the digits, at least as many
    as the precision says, and blanks before or behind them, or zeros before the digits. *)
Definition number_text (num base width precision type : Z) : list Z :=
  let ds := plain_digits num base type in
  let zeros := replicate (Z.to_nat (precision - Z.of_nat (length ds))) 48 in
  let body := sign_of num type ++ prefix_of base type in
  let room := Z.to_nat (width - Z.of_nat (length body) - Z.max precision (Z.of_nat (length ds))) in
  if hasbit type LEFT then body ++ zeros ++ ds ++ replicate room 32
  else if hasbit type ZEROPAD then body ++ replicate room 48 ++ zeros ++ ds
  else replicate room 32 ++ body ++ zeros ++ ds.

Lemma numeral_digits small base u : 2 <= base <= 36 -> 0 <= u < 4294967296 ->
  numeral small base u = rev (digits_of 32 small base u).
Proof. intros Hb Hu. symmetry. apply digits_strip; [done|]. change (Z.of_nat 32) with 32. pose proof (Z.pow_le_mono_l 2 base 32). lia. Qed.
Lemma magnitude_range num type : -2147483648 <= num < 2147483648 -> 0 <= magnitude num type < 4294967296.
Proof. intros Hn. unfold magnitude. destruct (_ && _) eqn:E; ztest; [lia|apply u32_range]. Qed.

Lemma pow32 base : 2 <= base -> 4294967296 <= base ^ 32.
Proof. intros. change 4294967296 with (2 ^ 32). apply Z.pow_le_mono_l. lia. Qed.

Lemma plain_digits_spec num base type : 2 <= base <= 36 -> -2147483648 <= num < 2147483648 ->
  value base (plain_digits num base type) = magnitude num type /\
  Forall (digit_below base) (plain_digits num base type) /\ plain_digits num base type <> [].
Proof.
  intros Hb Hn. unfold plain_digits. pose proof (pow32 base ltac:(lia)) as Hp.
  pose proof (magnitude_range num type Hn) as Hm. rewrite (numeral_digits _ _ _ Hb Hm).
  destruct (Z.eqb_spec num 0) as [->|Hne].
  - split_and!; [|repeat constructor; cbn; lia|done].
    unfold magnitude. by rewrite andb_false_r.
  - assert (Hv := digits_value 32 (hasbit type SMALL) base (magnitude num type) Hb ltac:(simpl Z.of_nat; lia)).
    split_and!; [done|apply Forall_rev, digits_below; lia|].
    intros E. rewrite E in Hv. unfold value, value_from in Hv. simpl in Hv.
    unfold magnitude, u32 in *. destruct (_ && _) eqn:F; ztest; [lia|]. dlia.
Qed.

(** [number] prints that text. *)
Lemma number_run num base size precision type :
  2 <= base <= 36 -> -2147483648 <= num < 2147483648 ->
  number num base size precision type = Some (number_text num base size precision type).
Proof.
  intros Hb Hn. unfold number_text. set (ds := plain_digits num base type).
  set (zeros := replicate (Z.to_nat (precision - Z.of_nat (length ds))) 48).
  set (body := sign_of num type ++ prefix_of base type). cbv zeta.
  set (room := Z.to_nat (size - Z.of_nat (length body) - Z.max precision (Z.of_nat (length ds)))). unfold number.
  replace (base <? 2) with false by lia. replace (base >? 36) with false by lia. cbn [orb].
  set (type' := if hasbit type LEFT then Z.land type (Z.lnot ZEROPAD) else type).
  assert (Hsame : forall m, Z.land (Z.lnot ZEROPAD) m = m -> hasbit type' m = hasbit type m).
  { intros m Hm. unfold type'. destruct (hasbit type LEFT); [|done]. by rewrite hasbit_clear, Hm. }
  rewrite !(Hsame SIGN), !(Hsame PLUS), !(Hsame SPACE), !(Hsame SPECIAL), !(Hsame LEFT) by done.
  assert (Hzl : hasbit type' (ZEROPAD + LEFT) = hasbit type' ZEROPAD || hasbit type LEFT).
  { change (ZEROPAD + LEFT) with (Z.lor ZEROPAD LEFT). by rewrite hasbit_split, (Hsame LEFT). }
  rewrite Hzl.
  assert (Hz : hasbit type' ZEROPAD = if hasbit type LEFT then false else hasbit type ZEROPAD).
  { unfold type'. destruct (hasbit type LEFT); [|done]. rewrite hasbit_clear. unfold hasbit.
    change (Z.land (Z.lnot ZEROPAD) ZEROPAD) with 0. by rewrite Z.land_0_r. }
  rewrite Hz. clear Hz Hzl Hsame type'.
  set (neg := hasbit type SIGN && (num <? 0)).
  set (num' := if neg then s32 (- num) else num).
  assert (Htmp : rev (if num' =? 0 then [48] else digits_of 32 (hasbit type SMALL) base (u32 num')) = ds).
  { unfold ds, plain_digits. rewrite (numeral_digits _ _ _ Hb (magnitude_range _ _ Hn)).
    unfold magnitude. fold neg. unfold num'. destruct neg eqn:E.
    - unfold neg in E. ztest. rewrite (proj2 (Z.eqb_neq num 0)) by lia.
      rewrite (proj2 (Z.eqb_neq (s32 (- num)) 0)) by (unfold s32; dlia). do 2 f_equal.
      unfold u32, s32. dlia.
    - by destruct (num =? 0). }
  assert (Hlen : length (if num' =? 0 then [48] else digits_of 32 (hasbit type SMALL) base (u32 num')) = length ds)
    by (by rewrite <- Htmp, length_rev).
  rewrite Htmp, Hlen.
  replace (if Z.of_nat (length ds) >? precision then Z.of_nat (length ds) else precision)
    with (Z.max precision (Z.of_nat (length ds))) by (destruct (Z.gtb_spec (Z.of_nat (length ds)) precision); lia).
  replace (Z.to_nat (Z.max precision (Z.of_nat (length ds)) - Z.of_nat (length ds)))
    with (Z.to_nat (precision - Z.of_nat (length ds))) by lia. fold zeros.
  set (sign := if neg then 45 else if hasbit type PLUS then 43 else if hasbit type SPACE then 32 else 0).
  assert (Hsign : (if nz sign then [sign] else []) = sign_of num type).
  { unfold sign, sign_of. fold neg. by destruct neg, (hasbit type PLUS), (hasbit type SPACE). }
  set (size1 := if nz sign then size - 1 else size).
  set (size2 := if hasbit type SPECIAL then _ else size1).
  assert (Hs1 : size1 = size - Z.of_nat (length (sign_of num type))).
  { rewrite <- Hsign. unfold size1. destruct (nz sign); simpl; lia. }
  assert (Hs2 : size2 = size - Z.of_nat (length body)).
  { unfold body. rewrite length_app. unfold size2, prefix_of.
    destruct (hasbit type SPECIAL); [|simpl; lia].
    destruct (Z.eqb_spec base 16) as [->|]; [destruct (hasbit type SMALL); simpl; lia|].
    destruct (Z.eqb_spec base 8) as [->|]; simpl; lia. }
  assert (Hpre : (if hasbit type SPECIAL then if base =? 8 then [48] else if base =? 16 then [48; digit (hasbit type SMALL) 33] else []
    else []) = prefix_of base type).
  { unfold prefix_of. by destruct (hasbit type SPECIAL), (base =? 8), (base =? 16), (hasbit type SMALL). }
  rewrite Hpre, Hsign, Hs2.
  set (room' := size - Z.of_nat (length body) - Z.max precision (Z.of_nat (length ds))).
  change room with (Z.to_nat room').
  unfold pad. unfold body.
  assert (H0 : Z.to_nat (Z.min room' 0 - 1) = 0%nat) by lia.
  assert (H1 : Z.to_nat (Z.min (Z.min room' 0 - 1) 0 - 1) = 0%nat) by lia.
  destruct (hasbit type LEFT); cbn [orb].
  - cbn [orb fst]. by rewrite !app_nil_l, <- !app_assoc.
  - rewrite orb_false_r. destruct (hasbit type ZEROPAD); cbn [fst]; rewrite ?H0, ?H1; cbn [replicate];
      rewrite ?app_nil_l, ?app_nil_r, <- !app_assoc; done.
Qed.

(** number prints, between blanks on one side at most, the sign, the prefix
    and digits that denote the number in the base; it writes at least precision
    digits and exactly as many characters as the field width, or as the number
    needs when that is more. *)
Theorem number_spec num base size precision type :
  2 <= base <= 36 -> -2147483648 <= num < 2147483648 ->
  exists blanks digits trail,
    let out := blanks ++ sign_of num type ++ prefix_of base type ++ digits ++ trail in
    number num base size precision type = Some out /\
    value base digits = magnitude num type /\ Forall (digit_below base) digits /\
    digits <> [] /\ precision <= Z.of_nat (length digits) /\
    Forall (fun c => c = 32) (blanks ++ trail) /\ (blanks = [] \/ trail = []) /\
    Z.of_nat (length out) =
      Z.max size (Z.of_nat (length (sign_of num type ++ prefix_of base type)) +
                  Z.max precision (Z.of_nat (length (plain_digits num base type)))).
Proof.
  intros Hb Hn. pose proof (number_run num base size precision type Hb Hn) as Hrun. unfold number_text in Hrun. cbv zeta in Hrun.
  destruct (plain_digits_spec num base type Hb Hn) as (Hv & Hd & Hne).
  set (ds := plain_digits num base type) in *. set (body := sign_of num type ++ prefix_of base type) in *.
  set (zeros := replicate (Z.to_nat (precision - Z.of_nat (length ds))) 48) in *.
  set (room := Z.to_nat (size - Z.of_nat (length body) - Z.max precision (Z.of_nat (length ds)))) in *.
  assert (H0 : forall k l, Forall (digit_below base) l -> Forall (digit_below base) (replicate k 48 ++ l)).
  { intros k l Hl. apply Forall_app. split; [|done]. apply Forall_replicate. split; cbn; lia. }
  assert (Hbody : length body = (length (sign_of num type) + length (prefix_of base type))%nat)
    by (unfold body; apply length_app).
  assert (HF : Forall (digit_below base) (zeros ++ ds)) by (by apply H0).
  assert (Hne0 : forall l, l ++ ds <> []) by (intros l E; apply app_eq_nil in E as [_ E]; by apply Hne).
  assert (H32 : Forall (fun c => c = 32) (replicate room 32)) by (by apply Forall_replicate).
  assert (Hlen : Z.of_nat (length zeros) + Z.of_nat (length ds) = Z.max precision (Z.of_nat (length ds)))
    by (unfold zeros; rewrite length_replicate; lia).
  assert (Hroom : Z.of_nat (length body) + Z.max precision (Z.of_nat (length ds)) + Z.of_nat room =
    Z.max size (Z.of_nat (length body) + Z.max precision (Z.of_nat (length ds)))) by (unfold room; lia).
  destruct (hasbit type LEFT); [|destruct (hasbit type ZEROPAD)].
  - exists [], (zeros ++ ds), (replicate room 32). split_and!; auto.
    + rewrite Hrun. unfold body. by rewrite <- !app_assoc.
    + unfold zeros. by rewrite value_zeros.
    + rewrite length_app. lia.
    + rewrite app_nil_l, !length_app, length_replicate. lia.
  - exists [], (replicate room 48 ++ zeros ++ ds), []. split_and!; auto.
    + rewrite Hrun. unfold body. by rewrite app_nil_r, <- !app_assoc.
    + unfold zeros. by rewrite !value_zeros.
    + rewrite app_assoc. apply Hne0.
    + rewrite !length_app. lia.
    + rewrite app_nil_l, app_nil_r, !length_app, length_replicate. lia.
  - exists (replicate room 32), (zeros ++ ds), []. split_and!; auto.
    + rewrite Hrun. unfold body. by rewrite app_nil_r, <- !app_assoc.
    + unfold zeros. by rewrite value_zeros.
    + rewrite length_app. lia.
    + by rewrite app_nil_r.
    + rewrite app_nil_r, !length_app, length_replicate. lia.
Qed.

(** ** What a format means

    A format is a list of characters to print and of directives; [parse] is the
    grammar, [render] the text. *)

(** A width or a precision: none, a number, or the next argument. *)
Inductive amount : Set := Default | Given (n : Z) | Argument.
(** The conversion is 0 when the format ends in the directive. *)
Record directive : Set := mk_directive { d_flags : Z; d_width : amount; d_prec : amount; d_conv : Z }.
Inductive item : Set := Char (c : Z) | Directive (d : directive).

Definition flag_of (c : Z) : option Z :=
  if c =? 45 then Some LEFT else if c =? 43 then Some PLUS else if c =? 32 then Some SPACE
  else if c =? 35 then Some SPECIAL else if c =? 48 then Some ZEROPAD else None.
Fixpoint read_flags (flags : Z) (l : list Z) : Z * list Z :=
  match l with
  | [] => (flags, [])
  | c :: r => match flag_of c with Some b => read_flags (Z.lor flags b) r | None => (flags, l) end
  end.
Definition decimal (c : Z) : bool := bool_decide (c ∈ chars "0123456789").
Fixpoint read_number (i : Z) (l : list Z) : Z * list Z :=
  match l with
  | [] => (i, [])
  | c :: r => if decimal c then read_number (s32 (i * 10 + c - 48)) r else (i, l)
  end.
(** A [*] stays where it is: the source does not skip it. *)
Definition read_width (l : list Z) : amount * list Z :=
  if decimal (hd 0 l) then let '(n, r) := read_number 0 l in (Given n, r)
  else if hd 0 l =? 42 then (Argument, l) else (Default, l).
Definition read_precision (l : list Z) : amount * list Z :=
  if hd 0 l =? 46 then
    match read_width (tl l) with (Default, r) => (Given 0, r) | q => q end
  else (Default, l).
Definition read_qualifier (l : list Z) : list Z :=
  if (hd 0 l =? 104) || (hd 0 l =? 108) || (hd 0 l =? 76) then tl l else l.
(** A directive after its [%], and the format after it. *)
Definition read_directive (l : list Z) : directive * list Z :=
  let '(flags, l) := read_flags 0 l in
  let '(width, l) := read_width l in
  let '(precision, l) := read_precision l in
  let l := read_qualifier l in
  (mk_directive flags width precision (hd 0 l), tl l).

Fixpoint parse (n : nat) (l : list Z) : list item :=
  match n, l with
  | S n, c :: r =>
      if c =? 37 then let '(d, r) := read_directive r in Directive d :: parse n r else Char c :: parse n r
  | _, _ => []
  end.

Lemma is_digit_decimal c : is_digit c = decimal c.
Proof.
  unfold is_digit, decimal. change (chars "0123456789") with (seqZ 48 10). apply eq_true_iff_eq.
  rewrite bool_decide_eq_true, elem_of_seqZ, andb_true_iff, Z.geb_le, Z.leb_le. lia.
Qed.

Section render.
Context (args : Z -> Z) (limit : nat) (mem : Z -> Z).

(** [text] in a field of the width. *)
Definition field (flags width : Z) (text : list Z) : list Z :=
  let room := blanks (width - Z.of_nat (length text)) in
  if hasbit flags LEFT then text ++ room else room ++ text.

(** The conversions of numbers: base and flags. *)
Definition number_conv (c : Z) : option (Z * Z) :=
  if c =? 111 then Some (8, 0) else if c =? 120 then Some (16, SMALL) else if (c =? 88) || (c =? 112) then Some (16, 0)
  else if (c =? 100) || (c =? 105) then Some (10, SIGN) else if c =? 117 then Some (10, 0) else None.

(** The text of the conversion [c] of the argument [arg]; none for [%n] and for a string
    that does not end. *)
Definition converted (flags width precision c arg : Z) : option (list Z) :=
  if c =? 99 then Some (field flags width [arg])
  else if c =? 115 then
    len ← strlen limit mem arg;
    let shown := if precision <? 0 then len else Z.min len precision in
    Some (field flags width (load_bytes mem arg (Z.to_nat shown)))
  else if c =? 110 then None
  else match number_conv c with
       | Some (base, more) =>
           let flags := Z.lor flags more in
           Some (if (c =? 112) && (width =? -1) then number_text (s32 arg) base 8 precision (Z.lor flags ZEROPAD)
                 else number_text (s32 arg) base width precision flags)
       | None => Some ((if c =? 37 then [] else [37]) ++ (if c =? 0 then [] else [c]))
       end.

(** The arguments that width and precision take, and the conversion. *)
Definition takes (a : amount) : Z := match a with Argument => 1 | _ => 0 end.
Definition value_at (d : directive) (k : Z) : Z := k + takes (d_width d) + takes (d_prec d).
Definition has_value (c : Z) : bool :=
  (c =? 99) || (c =? 115) || match number_conv c with Some _ => true | None => false end.
Definition next_at (d : directive) (k : Z) : Z := value_at d k + b2z (has_value (d_conv d)).

Definition width_of (d : directive) (k : Z) : Z * Z :=
  match d_width d with
  | Default => (-1, d_flags d)
  | Given n => (n, d_flags d)
  | Argument =>
      let w := s32 (args k) in
      if w <? 0 then (s32 (- w), Z.lor (d_flags d) LEFT) else (w, d_flags d)
  end.
Definition precision_of (d : directive) (k : Z) : Z :=
  match d_prec d with
  | Default => -1
  | Given n => Z.max 0 n
  | Argument => Z.max 0 (s32 (args (k + takes (d_width d))))
  end.

Fixpoint render (l : list item) (k : Z) : option (list Z) :=
  match l with
  | [] => Some []
  | Char c :: l => t ← render l k; Some (c :: t)
  | Directive d :: l =>
      let '(width, flags) := width_of d k in
      t ← converted flags width (precision_of d k) (d_conv d) (args (value_at d k));
      t' ← render l (next_at d k);
      Some (t ++ t')
  end.

(** The pointers that [%s] follows. *)
Fixpoint strings (l : list item) (k : Z) : list Z :=
  match l with
  | [] => []
  | Char _ :: l => strings l k
  | Directive d :: l => (if d_conv d =? 115 then [args (value_at d k)] else []) ++ strings l (next_at d k)
  end.
End render.

(** ** Reading a number back *)

Lemma value_from_mono l v : 0 <= v -> Forall (digit_below 10) l -> v <= value_from 10 v l.
Proof.
  intros Hv Hl. revert v Hv. induction Hl as [|c l [Hc _] Hl IH]; intros v Hv; [done|].
  unfold value_from in *. cbn [fold_left]. specialize (IH (v * 10 + undigit c)). lia.
Qed.
Lemma decimal_digit c : digit_below 10 c -> decimal c = true /\ undigit c = c - 48.
Proof.
  rewrite <- is_digit_decimal. unfold digit_below, undigit, is_digit. intros [Hc Hr].
  destruct (Z.ltb_spec c 58); [split; [|done]|repeat case_match; ztest; lia].
  apply andb_true_iff. split; lia.
Qed.
Lemma read_number_digits l rest v : 0 <= v -> Forall (digit_below 10) l -> value_from 10 v l < 2147483648 ->
  match rest with c :: _ => decimal c = false | [] => True end ->
  read_number v (l ++ rest) = (value_from 10 v l, rest).
Proof.
  intros Hv Hl Hmax Hrest. revert v Hv Hmax. induction Hl as [|c l Hc Hl IH]; intros v Hv Hmax.
  - simpl. destruct rest as [|c rest]; [done|]. simpl. by rewrite Hrest.
  - destruct (decimal_digit c Hc) as [Hd Hu]. destruct Hc as [Hc _].
    change ((c :: l) ++ rest) with (c :: (l ++ rest)). cbn [read_number]. rewrite Hd.
    unfold value_from in *. cbn [fold_left] in *.
    assert (Hm := value_from_mono l (v * 10 + undigit c) ltac:(lia) Hl). unfold value_from in Hm.
    rewrite s32_small by lia. replace (v * 10 + c - 48) with (v * 10 + undigit c) by lia.
    apply IH; lia.
Qed.

(** A non-negative number printed in decimal by number and read as a width is the
    same number, and what follows is left. *)
Theorem read_number_number n rest :
  0 <= n < 2147483648 -> match rest with c :: _ => decimal c = false | [] => True end ->
  exists ds, number n 10 (-1) (-1) SIGN = Some ds /\ read_number 0 (ds ++ rest) = (n, rest).
Proof.
  intros Hn Hrest. exists (plain_digits n 10 SIGN).
  destruct (plain_digits_spec n 10 SIGN ltac:(lia) ltac:(lia)) as (Hv & Hd & _).
  assert (Hm : magnitude n SIGN = n).
  { unfold magnitude. replace (n <? 0) with false by lia. rewrite andb_false_r. apply u32_small. lia. }
  split.
  - rewrite number_run by lia. unfold number_text. cbn [hasbit]. change (hasbit SIGN LEFT) with false.
    change (hasbit SIGN ZEROPAD) with false. cbv iota.
    replace (sign_of n SIGN) with (@nil Z).
    + change (prefix_of 10 SIGN) with (@nil Z). rewrite !app_nil_l. f_equal.
      destruct (plain_digits n 10 SIGN) as [|c l]; [done|].
      replace (Z.to_nat (-1 - _ - _)) with 0%nat by (simpl; lia).
      replace (Z.to_nat (-1 - _)) with 0%nat by lia. done.
    + unfold sign_of. replace (n <? 0) with false by lia. done.
  - rewrite read_number_digits; rewrite ?Hm in Hv; try done.
    + unfold value in Hv. by rewrite Hv.
    + unfold value in Hv. rewrite Hv. lia.
Qed.

(** ** [vsprintf] stores the text *)

Section stores.
Context (args : Z -> Z) (limit : nat) (buf : Z) (mem : Z -> Z).
(** The addresses that are stored to. *)
Context (area : Z -> Prop).

(** The format [l] lies at [p], ended by a zero, and is not stored to. *)
Fixpoint format_at (m : Z -> Z) (p : Z) (l : list Z) : Prop :=
  ~ area p /\ match l with [] => m p = 0 | c :: l => m p = c /\ c <> 0 /\ format_at m (p + 1) l end.

Lemma format_hd m p l : format_at m p l -> m p = hd 0 l.
Proof. destruct l; simpl; tauto. Qed.
Lemma format_tl m p l : format_at m p l -> l <> [] -> format_at m (p + 1) (tl l).
Proof. destruct l; simpl; tauto. Qed.
Lemma format_nil m p l : format_at m p l -> hd 0 l <> 0 -> l <> [].
Proof. by destruct l. Qed.
Lemma format_ext m m' p l : (forall a, ~ area a -> m' a = m a) -> format_at m p l -> format_at m' p l.
Proof.
  intros He. revert p. induction l as [|c l IH]; intros p; simpl; [intros [Ha <-]; auto|].
  intros (Ha & <- & Hc & Hl). repeat split; auto.
Qed.

(** A reader of memory does what a reader of lists does. *)
Lemma skip_flags_run m n flags p l : format_at m (p + 1) l -> (length l < n)%nat ->
  let '(f, r) := read_flags flags l in
  (length r <= length l)%nat /\ exists q, skip_flags n flags m p = Some (f, q) /\ format_at m q r.
Proof.
  revert n flags p. induction l as [|c l IH]; intros n flags p Hl Hn; (destruct n as [|n]; [simpl in Hn; lia|]); cbn [skip_flags].
  - rewrite (format_hd _ _ _ Hl). simpl. eauto.
  - rewrite (format_hd _ _ _ Hl). cbn [hd read_flags]. unfold flag_of.
    assert (Hr : forall b, let '(f, r) := read_flags (Z.lor flags b) l in
      (length r <= length (c :: l))%nat /\ exists q, skip_flags n (Z.lor flags b) m (p + 1) = Some (f, q) /\ format_at m q r).
    { intros b. specialize (IH n (Z.lor flags b) (p + 1) (format_tl _ _ _ Hl ltac:(done)) ltac:(simpl in Hn; lia)).
      destruct (read_flags _ l). simpl. destruct IH. split; [lia|done]. }
    destruct (c =? 45); [apply Hr|]. destruct (c =? 43); [apply Hr|]. destruct (c =? 32); [apply Hr|].
    destruct (c =? 35); [apply Hr|]. destruct (c =? 48); [apply Hr|]. eauto.
Qed.

Lemma skip_atoi_run m n i p l : format_at m p l -> (length l < n)%nat ->
  let '(v, r) := read_number i l in
  (length r <= length l)%nat /\ exists q, skip_atoi_from n i m p = Some (v, q) /\ format_at m q r.
Proof.
  revert n i p. induction l as [|c l IH]; intros n i p Hl Hn; (destruct n as [|n]; [simpl in Hn; lia|]); cbn [skip_atoi_from];
    rewrite (format_hd _ _ _ Hl); cbn [hd read_number].
  - change (is_digit 0) with false. eauto.
  - rewrite is_digit_decimal. destruct (decimal c); [|eauto].
    specialize (IH n (s32 (i * 10 + c - 48)) (p + 1) (format_tl _ _ _ Hl ltac:(done)) ltac:(simpl in Hn; lia)).
    destruct (read_number _ l). simpl. destruct IH. split; [lia|done].
Qed.

(** The state after the text [out]: argument [k], format at [p]. *)
Definition after (k p : Z) (out : list Z) : vstate :=
  mk_vstate k p (buf + Z.of_nat (length out)) (store_bytes mem buf (map u8 out)).

Lemma puts_after k p out l : puts l (after k p out) = after k p (out ++ l).
Proof.
  unfold puts, after, set_field. simpl. rewrite map_app, store_bytes_app, !length_map, length_app. f_equal. lia.
Qed.

Context (room : nat).
Hypothesis Harea : forall a, buf <= a < buf + Z.of_nat room -> area a.

Lemma after_mem k p out a : (length out <= room)%nat -> ~ area a -> v_mem (after k p out) a = mem a.
Proof.
  intros Hr Ha. unfold after. simpl. apply store_bytes_out. rewrite length_map.
  destruct (decide (buf <= a < buf + Z.of_nat (length out))); [|lia]. destruct Ha. apply Harea. lia.
Qed.
Lemma after_format k p q out l : (length out <= room)%nat -> format_at (v_mem (after k p out)) q l <-> format_at mem q l.
Proof. intros Hr. split; apply format_ext; intros a Ha; by rewrite after_mem. Qed.
Lemma peek_after k p out l : (length out <= room)%nat -> format_at mem p l -> peek (after k p out) = hd 0 l.
Proof. intros Hr Hl. unfold peek. eapply format_hd. by apply after_format. Qed.

(** The parts of a directive. *)
Lemma atoi_after k p out l : (length out <= room)%nat -> format_at mem p l -> (length l < limit)%nat ->
  let '(v, r) := read_number 0 l in
  (length r <= length l)%nat /\
  exists q, skip_atoi limit (v_mem (after k p out)) (v_fmt (after k p out)) = Some (v, q) /\ format_at mem q r.
Proof.
  intros Hr Hl Hn. pose proof (skip_atoi_run _ limit 0 p l (proj2 (after_format k p p out l Hr) Hl) Hn) as Hs.
  destruct (read_number 0 l) as [v r]. destruct Hs as (Hlen & q & Hs & Hq). split; [done|]. exists q.
  split; [exact Hs|]. by apply (after_format k p q out).
Qed.

Lemma field_width_run k p out l flags : (length out <= room)%nat -> format_at mem p l -> (length l < limit)%nat ->
  let '(a, r) := read_width l in
  let '(w, f) := width_of args (mk_directive flags a Default 0) k in
  (length r <= length l)%nat /\
  exists q, field_width args limit flags (after k p out) = Some (w, f, after (k + takes a) q out) /\ format_at mem q r.
Proof.
  intros Hr Hl Hn. unfold field_width, read_width. rewrite (peek_after _ _ _ _ Hr Hl).
  rewrite is_digit_decimal. destruct (decimal (hd 0 l)).
  - pose proof (atoi_after k p out l Hr Hl Hn) as Hs. destruct (read_number 0 l) as [v r]. destruct Hs as (Hlen & q & -> & Hq).
    split; [done|]. exists q. simpl. by rewrite Z.add_0_r.
  - destruct (hd 0 l =? 42); cbn; [|split; [done|]; exists p; by rewrite Z.add_0_r].
    destruct (s32 (args k) <? 0); (split; [done|]; exists p; done).
Qed.

Lemma get_precision_run k p out l : (length out <= room)%nat -> format_at mem p l -> (length l < limit)%nat ->
  let '(a, r) := read_precision l in
  (length r <= length l)%nat /\
  exists q, get_precision args limit (after k p out) =
    Some (match a with Default => -1 | Given n => Z.max 0 n | Argument => Z.max 0 (s32 (args k)) end, after (k + takes a) q out) /\
  format_at mem q r.
Proof.
  intros Hr Hl Hn. unfold get_precision, read_precision. rewrite (peek_after _ _ _ _ Hr Hl).
  destruct (Z.eqb_spec (hd 0 l) 46) as [H46|]; [|split; [done|]; exists p; cbn; by rewrite Z.add_0_r].
  assert (Hne : l <> []) by (intros ->; discriminate). pose proof (format_tl _ _ _ Hl Hne) as Ht.
  assert (Hlen : length l = S (length (tl l))) by (by destruct l). cbv zeta.
  change ((after k p out) <| v_fmt ::= Z.succ |>) with (after k (Z.succ p) out). rewrite <- Z.add_1_r.
  rewrite (peek_after _ _ _ _ Hr Ht). unfold read_width.
  assert (Hmax : forall x, (if x <? 0 then 0 else x) = Z.max 0 x) by (intros x; destruct (Z.ltb_spec x 0); lia).
  rewrite is_digit_decimal. destruct (decimal (hd 0 (tl l))).
  - pose proof (atoi_after k (p + 1) out (tl l) Hr Ht ltac:(lia)) as Hs. destruct (read_number 0 (tl l)) as [v r].
    destruct Hs as (Hlr & q & -> & Hq). split; [lia|]. exists q. cbn. by rewrite Z.add_0_r, Hmax.
  - destruct (hd 0 (tl l) =? 42); (split; [lia|]; exists (p + 1)); cbn; rewrite ?Z.add_0_r, ?Hmax; done.
Qed.

Lemma skip_qualifier_run k p out l : (length out <= room)%nat -> format_at mem p l ->
  (length (read_qualifier l) <= length l)%nat /\
  exists q, skip_qualifier (after k p out) = after k q out /\ format_at mem q (read_qualifier l).
Proof.
  intros Hr Hl. unfold skip_qualifier, read_qualifier. rewrite (peek_after _ _ _ _ Hr Hl).
  destruct (_ || _) eqn:E; [|eauto].
  assert (Hne : l <> []) by (intros ->; discriminate). pose proof (format_tl _ _ _ Hl Hne) as Ht.
  split; [destruct l; simpl; lia|]. exists (p + 1). by rewrite Z.add_1_r in *.
Qed.

(** Strings that are not stored to. *)
Definition string_safe (s : Z) : Prop := forall len, strlen limit mem s = Some len -> forall i, 0 <= i <= len -> ~ area (s + i).

Lemma strlen_same n m m' s len : strlen n m s = Some len -> (forall i, 0 <= i <= len -> m' (s + i) = m (s + i)) ->
  strlen n m' s = Some len.
Proof.
  revert s len. induction n as [|n IH]; intros s len; cbn [strlen]; [done|]. intros H He.
  destruct (m s =? 0) eqn:E0.
  - injection H as <-. specialize (He 0 ltac:(lia)). rewrite Z.add_0_r in He. by rewrite He, E0.
  - destruct (strlen n m (s + 1)) as [x|] eqn:Ex; [|done]. injection H as <-.
    assert (Hx : 0 <= x).
    { clear -Ex. revert s x Ex. induction n as [|n IH]; intros s x; cbn [strlen]; [done|]. destruct (_ =? 0); [intros [= <-]; lia|].
      destruct (strlen n m (s + 1 + 1)) eqn:E; [|done]. intros [= <-]. specialize (IH (s + 1) _ E). lia. }
    pose proof (He 0 ltac:(lia)) as H0. rewrite Z.add_0_r in H0. rewrite H0, E0.
    rewrite (IH _ _ Ex); [done|]. intros i Hi. replace (s + 1 + i) with (s + (i + 1)) by lia. apply He. lia.
Qed.

Lemma strlen_pos n m s len : strlen n m s = Some len -> 0 <= len.
Proof.
  revert s len. induction n as [|n IH]; intros s len; cbn [strlen]; [done|]. destruct (_ =? 0); [intros [= <-]; lia|].
  destruct (strlen n m (s + 1)) eqn:E; [|done]. intros [= <-]. specialize (IH _ _ E). lia.
Qed.

Lemma copy_string_run n s k p out : (length out + n <= room)%nat -> (forall i, 0 <= i < Z.of_nat n -> ~ area (s + i)) ->
  copy_string n s (after k p out) = after k p (out ++ load_bytes mem s n).
Proof.
  revert s out. induction n as [|n IH]; intros s out Hr Hs; cbn [copy_string load_bytes]; [by rewrite app_nil_r|].
  pose proof (Hs 0 ltac:(lia)) as H0. rewrite Z.add_0_r in H0.
  rewrite puts_after, after_mem by (done || lia). rewrite IH.
  - by rewrite <- app_assoc.
  - rewrite length_app. simpl. lia.
  - intros i Hi. replace (s + 1 + i) with (s + (i + 1)) by lia. apply Hs. lia.
Qed.

Lemma number_arg_run base w pr fl k p out : 2 <= base <= 36 ->
  put_number_arg args base w pr fl (after k p out) =
    Some (after (k + 1) p (out ++ number_text (s32 (args k)) base w pr fl)).
Proof.
  intros Hb. unfold put_number_arg, next_arg. change (v_ap (after k p out)) with k.
  rewrite number_run by (done || apply s32_range). cbn [mbind option_bind].
  rewrite <- (puts_after (k + 1)). by rewrite Z.add_1_r.
Qed.

Lemma string_arg_run fl w pr k p out len : let shown := if pr <? 0 then len else Z.min len pr in
  let t := field fl w (load_bytes mem (args k) (Z.to_nat shown)) in
  strlen limit mem (args k) = Some len -> string_safe (args k) -> (length out + length t <= room)%nat ->
  put_string_arg args limit fl w pr (after k p out) = Some (after (k + 1) p (out ++ t)).
Proof.
  intros shown t Hlen Hs Hr. pose proof (strlen_pos _ _ _ _ Hlen) as Hpos. specialize (Hs len Hlen).
  assert (Hshown : 0 <= shown <= len) by (unfold shown; destruct (Z.ltb_spec pr 0); lia).
  set (bytes := load_bytes mem (args k) (Z.to_nat shown)) in *.
  assert (Hbytes : Z.of_nat (length bytes) = shown) by (unfold bytes; rewrite length_load; lia).
  assert (Ht : t = if hasbit fl LEFT then bytes ++ blanks (w - shown) else blanks (w - shown) ++ bytes).
  { unfold t, field. by rewrite Hbytes. }
  assert (Hl : (length out + length (blanks (w - shown)) + length bytes <= room)%nat).
  { rewrite Ht in Hr. destruct (hasbit fl LEFT); rewrite length_app in Hr; lia. }
  unfold put_string_arg, next_arg. change (v_ap (after k p out)) with k.
  change ((after k p out) <| v_ap ::= Z.succ |>) with (after (Z.succ k) p out). rewrite <- Z.add_1_r.
  rewrite (strlen_same limit mem _ _ _ Hlen); [|intros i Hi; apply after_mem; [lia|by apply Hs]]. cbn [mbind option_bind].
  assert (E : (if pr <? 0 then len else if len >? pr then pr else len) = shown).
  { unfold shown. destruct (Z.ltb_spec pr 0); [done|]. rewrite Z.gtb_ltb. destruct (Z.ltb_spec pr len); lia. }
  cbv zeta. rewrite E. change (Z.of_nat (length (blanks (w - shown)))) with (Z.of_nat (length (blanks (w - shown)))).
  assert (Hcopy : forall o, (length o + length bytes <= room)%nat ->
    copy_string (Z.to_nat shown) (args k) (after (k + 1) p o) = after (k + 1) p (o ++ bytes)).
  { intros o Ho. apply copy_string_run; [lia|]. intros i Hi. apply Hs. lia. }
  rewrite Ht. destruct (hasbit fl LEFT); rewrite ?puts_after, Hcopy, ?puts_after, <- ?app_assoc;
    rewrite ?length_app; done || lia.
Qed.

Lemma char_arg_run fl w k p out :
  put_char_arg args fl w (after k p out) = after (k + 1) p (out ++ field fl w [args k]).
Proof.
  unfold put_char_arg, next_arg, field. cbn [length]. change (Z.of_nat 1) with 1.
  assert (E : forall o, v_ap (after k p o) = k /\ (after k p o) <| v_ap ::= Z.succ |> = after (k + 1) p o).
  { intros o. by rewrite Z.add_1_r. }
  destruct (hasbit fl LEFT).
  - destruct (E out) as [-> ->]. by rewrite !puts_after, <- app_assoc.
  - rewrite puts_after. destruct (E (out ++ blanks (w - 1))) as [-> ->]. by rewrite puts_after, <- app_assoc.
Qed.

#[local] Arguments number : simpl never.
#[local] Arguments number_text : simpl never.
(** A conversion stores its text; where it is the end of the format, [fmt] is left before it. *)
Lemma convert_run fl w pr k p out l t : format_at mem p l -> (length out + length t <= room)%nat ->
  converted limit mem fl w pr (hd 0 l) (args k) = Some t -> (hd 0 l = 115 -> string_safe (args k)) ->
  exists q, convert args limit buf fl w pr (after k p out) =
    Some (after (k + b2z (has_value (hd 0 l))) (q - 1) (out ++ t)) /\ format_at mem q (tl l).
Proof.
  intros Hl Hr Hc Hs. assert (Hro : (length out <= room)%nat) by lia. unfold convert. rewrite (peek_after _ _ _ _ Hro Hl).
  assert (Hq : exists q, format_at mem q (tl l) /\ (l = [] /\ q = p \/ l <> [] /\ q = p + 1)).
  { destruct l as [|c l]; [exists p; auto|]. exists (p + 1). split; [by eapply format_tl|]. by right. }
  destruct Hq as (q & Hq & Hcase). exists q. split; [|exact Hq].
  assert (Hne : hd 0 l <> 0 -> q - 1 = p) by (intros Hh; destruct Hcase as [[-> _]|[_ ->]]; [done|lia]).
  revert Hc Hs. unfold converted, has_value. destruct (hd 0 l =? 99) eqn:E99.
  { intros [= <-] _. apply Z.eqb_eq in E99. rewrite Hne by (rewrite E99; done). by rewrite char_arg_run. }
  destruct (hd 0 l =? 115) eqn:E115.
  { intros Hc Hs. apply Z.eqb_eq in E115. specialize (Hs E115). destruct (strlen limit mem (args k)) as [len|] eqn:Hlen; [|done].
    injection Hc as <-. rewrite Hne by (rewrite E115; done). by apply string_arg_run. }
  intros Hc _. destruct (hd 0 l =? 110) eqn:E110; [done|]. unfold number_conv in *. cbn [orb].
  assert (Hnum : forall b, (hd 0 l =? b) = true -> b <> 0 -> forall base w' f', 2 <= base <= 36 ->
    Some (number_text (s32 (args k)) base w' pr f') = Some t ->
    put_number_arg args base w' pr f' (after k p out) = Some (after (k + 1) (q - 1) (out ++ t))).
  { intros b Hb Hb0 base w' f' Hbase [= <-]. apply Z.eqb_eq in Hb. rewrite Hne by congruence. by apply number_arg_run. }
  destruct (hd 0 l =? 111) eqn:E1; [apply Z.eqb_eq in E1 as E1'; rewrite E1' in Hc; cbn [andb Z.eqb Pos.eqb] in Hc; rewrite Z.lor_0_r in Hc;
    apply (Hnum _ E1); [done|lia|done]|].
  destruct (hd 0 l =? 112) eqn:E2.
  { apply Z.eqb_eq in E2 as E2'. rewrite E2' in Hc |- *. cbn in Hc |- *. rewrite Z.lor_0_r in Hc.
    destruct (w =? -1); (apply (Hnum _ E2); [done|lia|done]). }
  cbn [andb] in Hc.
  destruct (hd 0 l =? 120) eqn:E3; [apply (Hnum _ E3); [done|lia|done]|].
  destruct (hd 0 l =? 88) eqn:E4; [cbn in Hc |- *; rewrite Z.lor_0_r in Hc; apply (Hnum _ E4); [done|lia|done]|]. cbn [orb] in *.
  destruct (hd 0 l =? 100) eqn:E5; [apply (Hnum _ E5); [done|lia|done]|].
  destruct (hd 0 l =? 105) eqn:E6; [apply (Hnum _ E6); [done|lia|done]|]. cbn [orb] in *.
  destruct (hd 0 l =? 117) eqn:E7; [rewrite Z.lor_0_r in Hc; apply (Hnum _ E7); [done|lia|done]|].
  injection Hc as <-. rewrite Z.add_0_r. destruct (Z.eqb_spec (hd 0 l) 37) as [E|N37].
  - rewrite (peek_after _ _ _ _ Hro Hl), E. cbn [nz Z.eqb negb app]. rewrite puts_after, Hne by (rewrite E; done). done.
  - rewrite puts_after. rewrite length_app in Hr.
    assert (Hro' : (length (out ++ [37%Z]) <= room)%nat) by (rewrite length_app; simpl in *; lia).
    rewrite (peek_after _ _ _ _ Hro' Hl). destruct (Z.eqb_spec (hd 0 l) 0) as [E|N0].
    + rewrite E. cbn [nz Z.eqb negb]. destruct Hcase as [[_ ->]|[Hnn ->]]; [done|]. destruct l as [|c l]; [done|].
      simpl in E, Hl. subst c. tauto.
    + rewrite (proj2 (nz_true _) N0), puts_after, Hne by done. by rewrite <- app_assoc.
Qed.

(** ** The whole format *)

(** One directive: from before its [%] to before the format that is left. *)
Lemma directive_run l k p out t : format_at mem (p + 1) l -> (length l < limit)%nat ->
  let '(d, r) := read_directive l in
  let '(width, flags) := width_of args d k in
  converted limit mem flags width (precision_of args d k) (d_conv d) (args (value_at d k)) = Some t ->
  (d_conv d = 115 -> string_safe (args (value_at d k))) -> (length out + length t <= room)%nat ->
  (length r <= length l)%nat /\
  exists q,
    ('(flags, p1) ← skip_flags limit 0 (v_mem (after k p out)) (v_fmt (after k p out));
     '(width, flags, v) ← (field_width args limit flags ((after k p out) <| v_fmt := p1 |>));
     '(precision, v) ← get_precision args limit v;
     convert args limit buf flags width precision (skip_qualifier v)) = Some (after (next_at d k) (q - 1) (out ++ t)) /\
    format_at mem q r.
Proof.
  intros Hl Hlim. unfold read_directive.
  destruct (read_flags 0 l) as [fl l1] eqn:Ef. destruct (read_width l1) as [aw l2] eqn:Ew.
  destruct (read_precision l2) as [ap l3] eqn:Ep.
  destruct (width_of args (mk_directive fl aw ap (hd 0 (read_qualifier l3))) k) as [w f] eqn:Ewf.
  intros Hc Hs Hr. assert (Hro : (length out <= room)%nat) by lia.
  pose proof (skip_flags_run (v_mem (after k p out)) limit 0 p l (proj2 (after_format k p _ out l Hro) Hl) Hlim) as Hf.
  rewrite Ef in Hf. destruct Hf as (Hlen1 & p1 & Hf & Hl1%after_format); [|done].
  pose proof (field_width_run k p1 out l1 fl Hro Hl1 ltac:(lia)) as Hw. rewrite Ew in Hw.
  change (width_of args (mk_directive fl aw Default 0) k)
    with (width_of args (mk_directive fl aw ap (hd 0 (read_qualifier l3))) k) in Hw. rewrite Ewf in Hw.
  destruct Hw as (Hlen2 & p2 & Hwr & Hl2).
  pose proof (get_precision_run (k + takes aw) p2 out l2 Hro Hl2 ltac:(lia)) as Hp. rewrite Ep in Hp.
  destruct Hp as (Hlen3 & p3 & Hpr & Hl3).
  destruct (skip_qualifier_run (k + takes aw + takes ap) p3 out l3 Hro Hl3) as (Hlen4 & p4 & Hqr & Hl4).
  destruct (convert_run f w _ (k + takes aw + takes ap) p4 out _ t Hl4 Hr Hc Hs) as (q & Hcr & Hq).
  split; [destruct (read_qualifier l3); simpl in *; lia|]. exists q. split; [|exact Hq].
  change (v_fmt (after k p out)) with p. rewrite Hf. cbn [mbind option_bind].
  change ((after k p out) <| v_fmt := p1 |>) with (after k p1 out). rewrite Hwr. cbn [mbind option_bind].
  rewrite Hpr. cbn [mbind option_bind]. rewrite Hqr. exact Hcr.
Qed.

Lemma vsprintf_from_run n l k p out N t : (length l <= n)%nat -> (length l < N)%nat -> (length l < limit)%nat ->
  format_at mem p l -> render args limit mem (parse n l) k = Some t -> (length out + length t <= room)%nat ->
  (forall s, s ∈ strings args (parse n l) k -> string_safe s) ->
  exists k' p', vsprintf_from args limit buf N (after k p out) = Some (after k' p' (out ++ t)).
Proof.
  revert l k p out N t. induction n as [|n IH]; intros l k p out N t Hn HN Hlim Hl Ht Hr Hs;
    (destruct N as [|N]; [lia|]); cbn [vsprintf_from]; assert (Hro : (length out <= room)%nat) by lia;
    rewrite (peek_after k p out l Hro Hl).
  { destruct l; [|simpl in Hn; lia]. injection Ht as <-. cbn. rewrite app_nil_r. by exists k, p. }
  destruct l as [|c l].
  { injection Ht as <-. rewrite app_nil_r. by exists k, p. }
  pose proof Hl as (_ & _ & Hc & Hl'). cbn [hd] in *. simpl length in Hn, HN, Hlim. rewrite (proj2 (Z.eqb_neq _ _) Hc).
  cbn [parse] in Ht, Hs. destruct (Z.eqb_spec c 37) as [->|N37]; cbn [negb].
  - pose proof (fun t => directive_run l k p out t Hl' ltac:(lia)) as Hd.
    destruct (read_directive l) as [d r]. cbn [render strings] in Ht, Hs.
    destruct (width_of args d k) as [w f]. destruct (converted _ _ _ _ _ _ _) as [t1|] eqn:E1; [|done].
    cbn [mbind option_bind] in Ht. destruct (render _ _ _ _ (next_at d k)) as [t2|] eqn:E2; [|done]. injection Ht as <-.
    rewrite length_app in Hr.
    destruct (Hd t1 eq_refl) as (Hlen & q & -> & Hq); [|lia|].
    { intros E. apply Hs. rewrite E. cbn. left. }
    cbn [mbind option_bind]. change ((after (next_at d k) (q - 1) (out ++ t1)) <| v_fmt ::= Z.succ |>)
      with (after (next_at d k) (Z.succ (q - 1)) (out ++ t1)). replace (Z.succ (q - 1)) with q by lia.
    rewrite app_assoc. apply (IH r); try (lia || done).
    + rewrite length_app. lia.
    + intros s Hin. apply Hs, elem_of_app. by right.
  - cbn [mbind option_bind]. rewrite puts_after.
    cbn [render] in Ht. destruct (render _ _ _ (parse n l) k) as [t'|] eqn:Et; [|done]. injection Ht as <-.
    destruct (IH l k (p + 1) (out ++ [c]) N t') as (k' & p' & Hrun); try (lia || done).
    { rewrite length_app. simpl in *. lia. }
    exists k', p'. rewrite Z.add_1_r in Hrun. rewrite <- app_assoc in Hrun. exact Hrun.
Qed.
End stores.

(** A format is rendered when it has no [%n] and the strings of its [%s] end. *)
Lemma render_some args limit mem l k :
  (forall d, Directive d ∈ l -> d_conv d <> 110) ->
  (forall s, s ∈ strings args l k -> is_Some (strlen limit mem s)) ->
  is_Some (render args limit mem l k).
Proof.
  revert k. induction l as [|[c|d] l IH]; intros k Hn Hs; cbn [render]; [done| |].
  - destruct (IH k) as [t ->]; [intros d Hd; apply Hn; by right|done|done].
  - cbn [strings] in Hs. destruct (width_of args d k) as [w f].
    assert (Hc : is_Some (converted limit mem f w (precision_of args d k) (d_conv d) (args (value_at d k)))).
    { unfold converted. destruct (_ =? 99); [done|]. destruct (d_conv d =? 115) eqn:E.
      - destruct (Hs (args (value_at d k))) as [len ->]; [cbn; left|done].
      - rewrite (proj2 (Z.eqb_neq _ 110)) by (apply Hn; left).
        by destruct (number_conv _) as [[]|]. }
    destruct Hc as [t ->]. cbn [mbind option_bind]. destruct (IH (next_at d k)) as [t' ->]; [| |done].
    + intros d' Hd. apply Hn. by right.
    + intros s Hin. apply Hs, elem_of_app. by right.
Qed.

(** The text and its zero are stored, nothing else. *)
Lemma vsprintf_run args limit buf mem (area : Z -> Prop) fmt f text :
  (forall a, buf <= a <= buf + Z.of_nat (length text) -> area a) ->
  format_at area mem fmt f -> (length f < limit)%nat ->
  render args limit mem (parse (length f) f) 0 = Some text ->
  (forall s, s ∈ strings args (parse (length f) f) 0 -> string_safe limit mem area s) ->
  vsprintf args limit buf fmt mem = Some (Z.of_nat (length text), store_bytes mem buf (map u8 text ++ [0])).
Proof.
  intros Harea Hf Hlim Hr Hs. unfold vsprintf.
  replace (mk_vstate 0 fmt buf mem) with (after buf mem 0 fmt []) by (unfold after; f_equal; simpl; lia).
  destruct (vsprintf_from_run args limit buf mem area (length text) ltac:(intros; apply Harea; lia)
    (length f) f 0 fmt [] limit text) as (k' & p' & ->); try (done || simpl; lia).
  cbn [mbind option_bind app]. unfold after. cbn [v_str v_mem].
  rewrite store_bytes_app, length_map. cbn [store_bytes]. do 2 f_equal. lia.
Qed.

(** C40: For a format without a %n directive whose %s arguments end, the text
    that the format denotes - by a grammar of directives and a meaning of each
    conversion, down to the digits, padding, sign and prefix of a number, given
    apart from the code - exists; and if neither the format nor those strings
    lie where the text and its final zero go, vsprintf returns, stores exactly
    that text and a zero at its buffer, changes no other byte, and gives the
    text's length. *)
Theorem vsprintf_spec args limit buf fmt mem f :
  let items := parse (length f) f in
  (length f < limit)%nat ->
  (forall d, Directive d ∈ items -> d_conv d <> 110) ->
  (forall s, s ∈ strings args items 0 -> is_Some (strlen limit mem s)) ->
  exists text, render args limit mem items 0 = Some text /\
    let area := fun a => buf <= a <= buf + Z.of_nat (length text) in
    (format_at area mem fmt f -> (forall s, s ∈ strings args items 0 -> string_safe limit mem area s) ->
     vsprintf args limit buf fmt mem =
       Some (Z.of_nat (length text), store_bytes mem buf (map u8 text ++ [0]))).
Proof.
  intros items Hlim Hn Hs. destruct (render_some args limit mem items 0 Hn Hs) as [text Ht].
  exists text. split; [exact Ht|]. intros area Hf Hsafe. by apply (vsprintf_run args limit buf mem area fmt f text).
Qed.

(** ** Examples *)

Lemma number_spec_witness : exists blanks digits trail,
  number (-42) 10 6 (-1) SIGN = Some (blanks ++ [45] ++ digits ++ trail) /\ value 10 digits = 42.
Proof.
  destruct (number_spec (-42) 10 6 (-1) SIGN ltac:(lia) ltac:(lia)) as (b & d & t & Hrun & Hv & _).
  exists b, d, t. split; [exact Hrun|exact Hv].
Defined.

Lemma read_number_number_witness : exists ds, number 1024 10 (-1) (-1) SIGN = Some ds /\
  read_number 0 (ds ++ [100]) = (1024, [100]).
Proof. exact (read_number_number 1024 [100] ltac:(lia) eq_refl). Defined.

(** [%5d|%-3c|%s|%] of -42, [A] and the string [hi], at 7. *)
Definition some_args (k : Z) : Z := if k =? 0 then 4294967254 else if k =? 1 then 65 else 7.
Definition some_format : list Z := [37; 53; 100; 124; 37; 45; 51; 99; 124; 37; 115; 124; 37].
Definition some_memory : Z -> Z := literal 7 [104; 105] (literal 100 some_format (fun _ => 0)).
Definition some_text : list Z := [32; 32; 45; 52; 50; 124; 65; 32; 32; 124; 104; 105; 124; 37].

Lemma vsprintf_spec_witness : exists m, vsprintf some_args 20 1000 100 some_memory = Some (14, m) /\
  load_bytes m 1000 15 = some_text ++ [0].
Proof.
  destruct (vsprintf_spec some_args 20 1000 100 some_memory some_format) as (text & Ht & Hrun).
  - cbn. lia.
  - intros d Hd%list_elem_of_In. cbn in Hd.
    repeat (destruct Hd as [Hd|Hd]; [by (discriminate || (injection Hd as <-))|]). destruct Hd.
  - cbn. intros s Hs. apply list_elem_of_singleton in Hs as ->. by eexists.
  - vm_compute in Ht. injection Ht as <-. eexists. split; [apply Hrun|reflexivity].
    + cbn. repeat split; lia.
    + intros s Hs. vm_compute in Hs. apply list_elem_of_singleton in Hs as ->. intros len Hlen i Hi.
      vm_compute in Hlen. injection Hlen as <-. lia.
Defined.
