(* ===== verification/Str.v ===== *)
(** * String routines: include/string.h

    The routines are inline assembler for the string instructions of the i386.
    The instructions they use are given their meaning on the registers, the
    flags and the memory, [cpu]; each routine is then its sequence of
    instructions, a backward jump a [loop] and a forward jump a test.  Memory
    is flat: the routines assume that all data segments are the same.  Addresses
    and counts are taken modulo 2^32, as the registers do. *)
From S2P Require Import Prelude.

(** ** The processor

    The general registers the routines use, the flags they test, the memory,
    and the variable [___strtok]. *)
Record cpu := mk_cpu {
  eax : Z; ebx : Z; ecx : Z; edx : Z; esi : Z; edi : Z;
  zf : bool; cf : bool; sf : bool; ovf : bool; df : bool;
  ram : Z -> Z;
  ___strtok : Z
}.
#[export] Instance cpu_eta : Eta cpu :=
  fun c => mk_cpu (eax c) (ebx c) (ecx c) (edx c) (esi c) (edi c)
             (zf c) (cf c) (sf c) (ovf c) (df c) (ram c) (___strtok c).

Abbreviation X := (M cpu).

Definition al (c : cpu) : Z := eax c mod 256.
Definition ah (c : cpu) : Z := (eax c / 256) mod 256.
Definition with_al (v : Z) (c : cpu) : cpu := c <| eax := eax c - al c + v |>.
Definition with_ah (v : Z) (c : cpu) : cpu := c <| eax := eax c - 256 * ah c + 256 * v |>.

(** A pointer moves by one byte, in the direction of the direction flag. *)
Definition bump (c : cpu) (a : Z) : Z := u32 (if df c then a - 1 else a + 1).

(** The flags after the 8-bit comparison [cmpb y,x], that is, of [x - y]. *)
Definition cmp8 (x y : Z) (c : cpu) : cpu :=
  c <| zf := x =? y |> <| cf := x <? y |> <| sf := u8 (x - y) >=? 128 |>
    <| ovf := negb (s8 x - s8 y =? s8 (x - y)) |>.
(** The flags after [test] or another logical instruction with result [x] of
    8 or 32 bits; [top] is the weight of its sign bit. *)
Definition logic_flags (top x : Z) (c : cpu) : cpu :=
  c <| zf := x =? 0 |> <| cf := false |> <| sf := x >=? top |> <| ovf := false |>.
(** The flags after [decl] or [incl] with result [x]; the carry is kept. *)
Definition dec_flags (x : Z) (c : cpu) : cpu :=
  c <| zf := x =? 0 |> <| sf := x >=? 2147483648 |> <| ovf := x =? 2147483647 |>.
Definition inc_flags (x : Z) (c : cpu) : cpu :=
  c <| zf := x =? 0 |> <| sf := x >=? 2147483648 |> <| ovf := x =? 2147483648 |>.

Definition cld : X unit := modify (fun c => c <| df := false |>).
Definition std : X unit := modify (fun c => c <| df := true |>).
Definition lodsb : X unit :=
  modify (fun c => with_al (ram c (esi c)) c <| esi := bump c (esi c) |>).
Definition stosb : X unit :=
  modify (fun c => c <| ram ::= <[edi c := al c]> |> <| edi := bump c (edi c) |>).
Definition movsb : X unit :=
  modify (fun c => c <| ram ::= <[edi c := ram c (esi c)]> |>
                     <| esi := bump c (esi c) |> <| edi := bump c (edi c) |>).
Definition scasb : X unit :=
  modify (fun c => cmp8 (al c) (ram c (edi c)) c <| edi := bump c (edi c) |>).
Definition cmpsb : X unit :=
  modify (fun c => cmp8 (ram c (esi c)) (ram c (edi c)) c
                     <| esi := bump c (esi c) |> <| edi := bump c (edi c) |>).
Definition testb_al : X unit := modify (fun c => logic_flags 128 (al c) c).
Definition dec_ecx : X unit := modify (fun c => dec_flags (u32 (ecx c - 1)) c <| ecx := u32 (ecx c - 1) |>).
Definition dec_esi : X unit := modify (fun c => dec_flags (u32 (esi c - 1)) c <| esi := u32 (esi c - 1) |>).
Definition dec_edi : X unit := modify (fun c => dec_flags (u32 (edi c - 1)) c <| edi := u32 (edi c - 1) |>).
Definition inc_esi : X unit := modify (fun c => inc_flags (u32 (esi c + 1)) c <| esi := u32 (esi c + 1) |>).
(** [notl] changes no flag. *)
Definition not_ecx : X unit := modify (fun c => c <| ecx := 4294967295 - ecx c |>).
Definition xor_eax : X unit := modify (fun c => logic_flags 2147483648 0 c <| eax := 0 |>).
Definition xor_ebx : X unit := modify (fun c => logic_flags 2147483648 0 c <| ebx := 0 |>).
Definition xor_esi : X unit := modify (fun c => logic_flags 2147483648 0 c <| esi := 0 |>).
(** [sbbl %eax,%eax; orb $1,%al]: minus one after a borrow, else one. *)
Definition sbb_or_1 : X unit :=
  modify (fun c => logic_flags 128 (if cf c then 255 else 1) c
                     <| eax := if cf c then 4294967295 else 1 |>).

(** [rep op]: [ecx] times.  [repne op], [repe op]: until [ecx] is 0 or the
    zero flag is set, clear.  [n] bounds the rounds. *)
Definition rep (n : nat) (op : X unit) : X unit :=
  loop n (fun _ : unit =>
    x ← gets ecx;
    if x =? 0 then mret (inr tt)
    else op;; modify (fun c => c <| ecx := x - 1 |>);; mret (inl tt)) tt.
Definition rep_while (z : bool) (n : nat) (op : X unit) : X unit :=
  loop n (fun _ : unit =>
    x ← gets ecx;
    if x =? 0 then mret (inr tt)
    else
      op;; modify (fun c => c <| ecx := x - 1 |>);;
      e ← gets zf;
      mret (if Bool.eqb e z then inl tt else inr tt)) tt.
Definition repe := rep_while true.
Definition repne := rep_while false.
(** A conditional jump. *)
Definition jz {A} (m m' : X A) : X A := z ← gets zf; if z : bool then m else m'.

(** ** The routines *)

Section routines.
(** The rounds given to each loop. *)
Variable n : nat.

(** include/string.h:31-34, the loop [1: lodsb; stosb; testb %al,%al; jne 1b]. *)
Definition copy_string : X unit :=
  loop n (fun _ : unit =>
    lodsb;; stosb;; testb_al;; jz (mret (inr tt)) (mret (inl tt))) tt.

(** include/string.h:27-38 *)
Definition strcpy (dest src : Z) : X Z :=
  modify (fun c => c <| esi := src |> <| edi := dest |>);;
  cld;;
  copy_string;;
  mret dest.

(** include/string.h:44-49: [decl %ecx; js 2f; lodsb; stosb; testb %al,%al; jne 1b];
    the loop's result tells whether it ended with the terminator. *)
Definition copy_step : X (unit + bool) :=
  dec_ecx;;
  js ← gets sf;
  if js : bool then mret (inr false)
  else lodsb;; stosb;; testb_al;; jz (mret (inr true)) (mret (inl tt)).
(** include/string.h:44-49: the loop. *)
Definition copy_counted : X bool := loop n (fun _ : unit => copy_step) tt.

(** include/string.h:40-56 *)
Definition strncpy (dest src count : Z) : X Z :=
  modify (fun c => c <| esi := src |> <| edi := dest |> <| ecx := u32 count |>);;
  cld;;
  ended ← copy_counted;
  when ended (rep n stosb);;
  mret dest.

(** include/string.h:58-72 *)
Definition strcat (dest src : Z) : X Z :=
  modify (fun c => c <| esi := src |> <| edi := dest |> <| eax := 0 |> <| ecx := 4294967295 |>);;
  cld;;
  repne n scasb;;
  dec_edi;;
  copy_string;;
  mret dest.

(** include/string.h:74-94 *)
Definition strncat (dest src count : Z) : X Z :=
  modify (fun c => c <| esi := src |> <| edi := dest |> <| eax := 0 |> <| ecx := 4294967295 |>);;
  cld;;
  repne n scasb;;
  dec_edi;;
  modify (fun c => c <| ecx := u32 count |>);;
  _ ← copy_counted;
  xor_eax;;
  stosb;;
  mret dest.

(** include/string.h:100-104: [lodsb; scasb; jne 2f; testb %al,%al; jne 1b]. *)
Definition compare_step : X (unit + bool) :=
  lodsb;; scasb;;
  jz (testb_al;; jz (mret (inr true)) (mret (inl tt))) (mret (inr false)).

(** include/string.h:96-115 *)
Definition strcmp (cs ct : Z) : X Z :=
  modify (fun c => c <| esi := cs |> <| edi := ct |>);;
  cld;;
  equal ← loop n (fun _ : unit => compare_step) tt;
  (if equal : bool then xor_eax else sbb_or_1);;
  gets (fun c => s32 (eax c)).

(** include/string.h:117-138 *)
Definition strncmp (cs ct count : Z) : X Z :=
  modify (fun c => c <| esi := cs |> <| edi := ct |> <| ecx := u32 count |>);;
  cld;;
  equal ← loop n (fun _ : unit =>
    dec_ecx;;
    js ← gets sf;
    if js : bool then mret (inr true)
    else compare_step) tt;
  (if equal : bool then xor_eax else sbb_or_1);;
  gets (fun c => s32 (eax c)).

(** include/string.h:140-158 *)
Definition strchr (s ch : Z) : X Z :=
  modify (fun c => c <| esi := s |> <| eax := u32 ch |>);;
  modify (fun c => with_ah (al c) c);;
  found ← loop n (fun _ : unit =>
    lodsb;;
    modify (fun c => cmp8 (al c) (ah c) c);;
    jz (mret (inr true))
       (testb_al;; jz (mret (inr false)) (mret (inl tt)))) tt;
  when (negb found) (modify (fun c => c <| esi := 1 |>));;
  gets (fun c => u32 (esi c - 1)).

(** include/string.h:160-176; [edx] is the register of the result. *)
Definition strrchr (s ch : Z) : X Z :=
  modify (fun c => c <| edx := 0 |> <| esi := s |> <| eax := u32 ch |>);;
  cld;;
  modify (fun c => with_ah (al c) c);;
  loop n (fun _ : unit =>
    lodsb;;
    modify (fun c => cmp8 (al c) (ah c) c);;
    jz (modify (fun c => c <| edx := u32 (esi c - 1) |>)) (mret tt);;
    testb_al;;
    jz (mret (inr tt)) (mret (inl tt))) tt;;
  gets edx.

(** include/string.h:286-289: [repne scasb; notl %ecx; decl %ecx]. *)
Definition scan_end : X unit :=
  repne n scasb;;
  not_ecx;;
  dec_ecx.

(** include/string.h:182-187: [movl ct,%edi], the same, [movl %ecx,%edx]: the
    length of the set [ct] goes to [edx]. *)
Definition set_length (ct : Z) : X unit :=
  modify (fun c => c <| edi := ct |>);;
  scan_end;;
  modify (fun c => c <| edx := ecx c |>).

(** include/string.h:191-194: [movl ct,%edi; movl %edx,%ecx; repne scasb]: is [al] in the set [ct]? *)
Definition in_set (ct : Z) : X unit :=
  modify (fun c => c <| edi := ct |> <| ecx := edx c |>);;
  repne n scasb.

(** include/string.h:188-195, and 212-219, one round: it leaves the loop with
    [true] at the end of the string, and with [false] at the first character
    that is in the set [ct], or for [stop = false] is not in it. *)
Definition span_step (stop : bool) (ct : Z) : X (unit + bool) :=
  lodsb;;
  testb_al;;
  jz (mret (inr true))
     (in_set ct;;
      z ← gets zf;
      mret (if Bool.eqb z stop then inr false else inl tt)).
(** include/string.h:188-195: the loop. *)
Definition span_set (stop : bool) (ct : Z) : X bool :=
  loop n (fun _ : unit => span_step stop ct) tt.

(** include/string.h:178-200 *)
Definition strspn (cs ct : Z) : X Z :=
  modify (fun c => c <| eax := 0 |> <| ecx := 4294967295 |> <| esi := cs |>);;
  cld;;
  set_length ct;;
  span_set false ct;;
  dec_esi;;
  gets (fun c => s32 (esi c - cs)).

(** include/string.h:202-224 *)
Definition strcspn (cs ct : Z) : X Z :=
  modify (fun c => c <| eax := 0 |> <| ecx := 4294967295 |> <| esi := cs |>);;
  cld;;
  set_length ct;;
  span_set true ct;;
  dec_esi;;
  gets (fun c => s32 (esi c - cs)).

(** include/string.h:226-251 *)
Definition strpbrk (cs ct : Z) : X Z :=
  modify (fun c => c <| eax := 0 |> <| ecx := 4294967295 |> <| esi := cs |>);;
  cld;;
  set_length ct;;
  ended ← span_set true ct;
  (if ended : bool then xor_esi else dec_esi);;
  gets esi.

(** include/string.h:253-278; the result is true when the loop is left with
    the zero flag of [cmpsb]. *)
Definition strstr (cs ct : Z) : X Z :=
  modify (fun c => c <| eax := 0 |> <| ecx := 4294967295 |> <| esi := cs |>);;
  cld;;
  set_length ct;;
  found ← loop n (fun _ : unit =>
    modify (fun c => c <| edi := ct |> <| eax := esi c |> <| ecx := edx c |>);;
    repe n cmpsb;;
    jz (mret (inr true))
       (modify (fun c => c <| eax := esi c |> <| esi := eax c |>);;
        inc_esi;;
        modify (fun c => cmp8 (ram c (u32 (eax c - 1))) 0 c);;
        jz (mret (inr false)) (mret (inl tt)))) tt;
  when (negb found) xor_eax;;
  gets eax.

(** include/string.h:280-293 *)
Definition strlen (s : Z) : X Z :=
  modify (fun c => c <| edi := s |> <| eax := 0 |> <| ecx := 4294967295 |>);;
  cld;;
  scan_end;;
  gets (fun c => s32 (ecx c)).

(** include/string.h:328-341, the end of a token, from label [3] on: a walk to
    the next delimiter, over which a terminator is written. *)
Definition strtok_end (ct : Z) : X unit :=
  ended ← span_set true ct;
  if ended : bool then xor_esi
  else
    dec_esi;;
    modify (fun c => cmp8 (ram c (esi c)) 0 c);;
    jz xor_esi
      (modify (fun c => c <| ram ::= <[esi c := 0]> |>);;
       inc_esi).

(** include/string.h:316-343, the labels of [strtok] from [2] on: [ebx] is the
    result and [esi] the position. *)
Definition strtok_token (ct : Z) : X unit :=
  ended ← span_set false ct;
  if ended : bool then mret tt
  else
    dec_esi;;
    modify (fun c => cmp8 (ram c (esi c)) 0 c);;
    jz (mret tt)
      (modify (fun c => c <| ebx := esi c |>);;
       strtok_end ct;;
       modify (fun c => cmp8 (ram c (ebx c)) 0 c);;
       jz xor_ebx (mret tt)).

(** include/string.h:304-346, from label [1] to label [8]. *)
Definition strtok_body (ct : Z) : X unit :=
  xor_ebx;;
  modify (fun c => c <| ecx := 4294967295 |>);;
  xor_eax;;
  cld;;
  modify (fun c => c <| edi := ct |>);;
  scan_end;;
  jz (mret tt)
    (modify (fun c => c <| edx := ecx c |>);;
     strtok_token ct);;
  r ← gets ebx;
  when (negb (nz r)) (modify (fun c => c <| esi := r |>)).

(** include/string.h:297-354 *)
Definition strtok (s ct : Z) : X Z :=
  modify (fun c => c <| ebx := ___strtok c |> <| esi := s |>);;
  start ← (if nz s then mret true
           else
             r ← gets ebx;
             if nz r then modify (fun c => c <| esi := r |>);; mret true
             else mret false);
  when start (strtok_body ct);;
  modify (fun c => c <| ___strtok := esi c |>);;
  gets ebx.

(** include/string.h:356-366 *)
Definition memcpy (dest src cnt : Z) : X Z :=
  modify (fun c => c <| ecx := u32 cnt |> <| esi := src |> <| edi := dest |>);;
  cld;;
  rep n movsb;;
  mret dest.

(** include/string.h:368-387 *)
Definition memmove (dest src cnt : Z) : X Z :=
  if dest <? src then memcpy dest src cnt;; mret dest
  else
    modify (fun c => c <| ecx := u32 cnt |> <| esi := u32 (cnt - 1 + src) |>
                       <| edi := u32 (cnt - 1 + dest) |>);;
    std;;
    rep n movsb;;
    cld;;
    mret dest.

(** include/string.h:389-403 *)
Definition memcmp (cs ct count : Z) : X Z :=
  modify (fun c => c <| eax := 0 |> <| edi := cs |> <| esi := ct |> <| ecx := u32 count |>);;
  cld;;
  repe n cmpsb;;
  jz (mret tt)
    (jl ← gets (fun c => xorb (sf c) (ovf c));
     modify (fun c => c <| eax := if jl : bool then 1 else 4294967295 |>));;
  gets (fun c => s32 (eax c)).

(** include/string.h:405-421 *)
Definition memchr (cs ch count : Z) : X Z :=
  if negb (nz count) then mret 0
  else
    modify (fun c => with_al (u8 ch) c <| edi := cs |> <| ecx := u32 count |>);;
    cld;;
    repne n scasb;;
    jz (mret tt) (modify (fun c => c <| edi := 1 |>));;
    gets (fun c => u32 (edi c - 1)).

(** include/string.h:423-433 *)
Definition memset (s ch count : Z) : X Z :=
  modify (fun c => c <| eax := u32 ch |> <| edi := s |> <| ecx := u32 count |>);;
  cld;;
  rep n stosb;;
  mret s.
End routines.

(** ** Copying *)

(** One round of [rep] and of [repne], [repe], for an instruction that only
    computes. *)
Lemma rep_step n f c k :
  ecx c = Z.of_nat (S k) ->
  rep (S n) (modify f) c = rep n (modify f) ((f c) <| ecx := Z.of_nat k |>).
Proof.
  intros Hk. unfold rep at 1. simpl. mrun. rewrite Hk.
  replace (Z.of_nat (S k) - 1) with (Z.of_nat k) by lia. by mrun.
Qed.
Lemma rep_stop n op c : ecx c = 0 -> rep (S n) op c = Ret tt c.
Proof. intros H. unfold rep. simpl. mrun. by rewrite H. Qed.

Lemma rep_while_step z n f c k :
  ecx c = Z.of_nat (S k) ->
  rep_while z (S n) (modify f) c =
  if Bool.eqb (zf (f c)) z then rep_while z n (modify f) ((f c) <| ecx := Z.of_nat k |>)
  else Ret tt ((f c) <| ecx := Z.of_nat k |>).
Proof.
  intros Hk. unfold rep_while at 1. simpl. mrun. rewrite Hk.
  replace (Z.of_nat (S k) - 1) with (Z.of_nat k) by lia. mrun.
  replace (Z.of_nat (S k) =? 0) with false by (symmetry; apply Z.eqb_neq; lia).
  mrun. simpl. by destruct (Bool.eqb (zf (f c)) z); mrun.
Qed.
Lemma rep_while_stop z n op c : ecx c = 0 -> rep_while z (S n) op c = Ret tt c.
Proof. intros H. unfold rep_while. simpl. mrun. by rewrite H. Qed.

Lemma bump_up c a : df c = false -> 0 <= a < 4294967295 -> bump c a = a + 1.
Proof. intros H ?. unfold bump. rewrite H. apply u32_small. lia. Qed.
Lemma bump_down c a : df c = true -> 0 < a < 4294967296 -> bump c a = a - 1.
Proof. intros H ?. unfold bump. rewrite H. apply u32_small. lia. Qed.

(** Forwards, a byte is read before the copy overwrites it when the
    destination is not inside the source above its start. *)
Lemma rep_movsb_up n k c :
  (k < n)%nat -> ecx c = Z.of_nat k -> df c = false ->
  0 <= edi c -> edi c <= esi c \/ esi c + Z.of_nat k <= edi c ->
  0 <= esi c -> esi c + Z.of_nat k < 4294967296 -> edi c + Z.of_nat k < 4294967296 ->
  exists c', rep n movsb c = Ret tt c' /\ df c' = false /\
    ram c' = store_bytes (ram c) (edi c) (load_bytes (ram c) (esi c) k).
Proof.
  revert n c. induction k as [|k IH]; intros [|n] c Hn Hk Hd Ho Hov Hs He He'; try lia.
  { exists c. by rewrite rep_stop. }
  unfold movsb. rewrite (rep_step _ _ _ k) by done. set (c1 := _ <| ecx := _ |>).
  assert (E1 : edi c1 = edi c + 1) by (apply bump_up; [done|lia]).
  assert (E2 : esi c1 = esi c + 1) by (apply bump_up; [done|lia]).
  destruct (IH n c1) as (c' & Hr & Hd' & Hm); rewrite ?E1, ?E2; (done || lia || idtac).
  exists c'. split; [exact Hr|]. split; [done|]. rewrite Hm, E1, E2. simpl.
  f_equal. apply load_ext. intros i Hi. apply arr_ne. lia.
Qed.

(** Backwards, when the destination is not below the source. *)
Lemma rep_movsb_down n k c :
  (k < n)%nat -> ecx c = Z.of_nat k -> df c = true ->
  0 <= esi c + 1 - Z.of_nat k <= edi c + 1 - Z.of_nat k ->
  esi c < 4294967296 -> edi c < 4294967296 -> esi c <= edi c ->
  exists c', rep n movsb c = Ret tt c' /\
    ram c' = store_bytes (ram c) (edi c + 1 - Z.of_nat k)
               (load_bytes (ram c) (esi c + 1 - Z.of_nat k) k).
Proof.
  revert n c. induction k as [|k IH]; intros [|n] c Hn Hk Hd Hov Hs He Hle; try lia.
  { exists c. by rewrite rep_stop. }
  unfold movsb. rewrite (rep_step _ _ _ k) by done. set (c1 := _ <| ecx := _ |>).
  destruct (decide (k = O)) as [->|Hk0].
  { exists c1. destruct n as [|n]; [lia|]. rewrite rep_stop by done. split; [done|].
    simpl. by rewrite !Z.add_simpl_r. }
  assert (E1 : edi c1 = edi c - 1) by (apply bump_down; [done|lia]).
  assert (E2 : esi c1 = esi c - 1) by (apply bump_down; [done|lia]).
  destruct (IH n c1) as (c' & Hr & Hm); rewrite ?E1, ?E2; (done || lia || idtac).
  exists c'. split; [exact Hr|]. rewrite Hm, E1, E2.
  replace (edi c - 1 + 1 - Z.of_nat k) with (edi c + 1 - Z.of_nat (S k)) by lia.
  replace (esi c - 1 + 1 - Z.of_nat k) with (esi c + 1 - Z.of_nat (S k)) by lia.
  rewrite load_snoc, store_bytes_app, length_load.
  simpl. replace (esi c + 1 - Z.of_nat (S k) + Z.of_nat k) with (esi c) by lia.
  replace (edi c + 1 - Z.of_nat (S k) + Z.of_nat k) with (edi c) by lia.
  rewrite (load_ext (<[edi c := _]> _) (ram c)) by (intros i Hi; apply arr_ne; lia).
  set (l := load_bytes _ _ k). apply functional_extensionality. intros i.
  destruct (decide (i = edi c)) as [->|Hne].
  - rewrite arr_eq, store_bytes_out, arr_eq; [done|]. unfold l. rewrite length_load. lia.
  - rewrite arr_ne by done. apply store_bytes_ext. by rewrite arr_ne.
Qed.

(** ** Strings in memory *)

(** The string [l] is stored from [a] on, with its terminator; it does not
    reach the last byte of the address space. *)
Fixpoint cstr (m : Z -> Z) (a : Z) (l : list Z) : Prop :=
  0 <= a < 4294967295 /\
  match l with
  | [] => m a = 0
  | x :: l => m a = x /\ 0 < x < 256 /\ cstr m (a + 1) l
  end.

Lemma cstr_bounds m a l : cstr m a l -> 0 <= a /\ a + Z.of_nat (length l) < 4294967295.
Proof.
  revert a. induction l as [|x l IH]; intros a; simpl; [lia|]. intros (? & ? & ? & H).
  apply IH in H. lia.
Qed.
Lemma cstr_ext m m' a l :
  (forall i, a <= i <= a + Z.of_nat (length l) -> m i = m' i) -> cstr m a l -> cstr m' a l.
Proof.
  revert a. induction l as [|x l IH]; intros a H; simpl in *.
  - rewrite (H a) by lia. done.
  - intros (? & ? & ? & Hl). rewrite <- (H a) by lia. split_and!; try lia.
    apply IH; [|done]. intros i ?. apply H. lia.
Qed.
Lemma cstr_app m a l k : cstr m a (l ++ k) -> cstr m (a + Z.of_nat (length l)) k.
Proof.
  revert a. induction l as [|x l IH]; intros a; simpl; [by rewrite Z.add_0_r|].
  intros (? & ? & ? & H). apply IH in H. by replace (a + Z.of_nat (S (length l))) with (a + 1 + Z.of_nat (length l)) by lia.
Qed.
(** Cutting a string short at a character. *)
Lemma cstr_cut m a l x k :
  cstr m a (l ++ x :: k) -> cstr (<[a + Z.of_nat (length l) := 0]> m) a l.
Proof.
  revert a. induction l as [|y l IH]; intros a; simpl.
  - intros (? & _). rewrite Z.add_0_r, arr_eq. done.
  - intros (? & ? & ? & H). rewrite arr_ne by lia. split_and!; try lia.
    replace (a + Z.of_nat (S (length l))) with (a + 1 + Z.of_nat (length l)) by lia. by apply IH.
Qed.
Lemma cstr_put m a l x k i : cstr m a (l ++ x :: k) -> a + Z.of_nat (length l) = i ->
  cstr (<[i := 0]> m) (i + 1) k.
Proof.
  intros H <-. apply cstr_app in H as (? & ? & ? & H). eapply cstr_ext, H.
  intros j ?. by rewrite arr_ne by lia.
Qed.

(** What [repne scasb] leaves alone. *)
Definition rest (c : cpu) := (eax c, ebx c, edx c, esi c, df c, ram c, ___strtok c).

(** [repne scasb] over a set: is the byte in it? *)
Lemma repne_mem n l c :
  (length l < n)%nat -> ecx c = Z.of_nat (length l) -> df c = false -> zf c = false ->
  cstr (ram c) (edi c) l ->
  exists c', repne n scasb c = Ret tt c' /\ zf c' = existsb (Z.eqb (al c)) l /\ rest c' = rest c.
Proof.
  unfold repne. revert n c. induction l as [|x l IH]; intros [|n] c Hn Hk Hd Hz Hs; simpl in Hn; try lia.
  { exists c. by rewrite rep_while_stop. }
  destruct Hs as (Ha & Hx & Hr & Hl). unfold scasb.
  rewrite (rep_while_step _ _ _ _ (length l)) by done.
  set (c1 := set_field ecx _ _). cbn [existsb].
  replace (zf _) with (al c =? x) by (simpl; by rewrite Hx).
  destruct (al c =? x) eqn:E; simpl Bool.eqb; cbv iota.
  { exists c1. split; [done|]. split; [|done]. simpl. by rewrite Hx. }
  assert (E1 : edi c1 = edi c + 1) by (apply bump_up; [done|lia]).
  destruct (IH n c1) as (c' & Hrun & Hz' & Hrest); [lia|done..| | |].
  { simpl. by rewrite Hx. }
  { rewrite E1. done. }
  exists c'. split; [exact Hrun|]. by rewrite Hz', Hrest.
Qed.

(** [repne scasb] for the terminator. *)
Lemma repne_end n l k c :
  (length l < n)%nat -> (length l < k)%nat -> ecx c = Z.of_nat k -> df c = false -> al c = 0 ->
  cstr (ram c) (edi c) l ->
  exists c', repne n scasb c = Ret tt c' /\ rest c' = rest c /\
    edi c' = edi c + Z.of_nat (length l) + 1 /\ ecx c' = Z.of_nat k - Z.of_nat (length l) - 1.
Proof.
  unfold repne. revert n k c.
  induction l as [|x l IH]; intros [|n] [|k] c Hn Hn' Hk Hd Ha Hs; simpl in Hn, Hn'; try lia;
    destruct Hs as (Hb & Hs); unfold scasb; rewrite (rep_while_step _ _ _ _ k) by done;
    set (c1 := set_field ecx _ _).
  - replace (zf _) with true by (simpl; by rewrite Ha, Hs). exists c1.
    split; [done|]. split; [done|]. unfold c1. split; simpl; [|lia].
    rewrite bump_up by (done || lia). lia.
  - destruct Hs as (Hx & Hr & Hl).
    replace (zf _) with false by (simpl; rewrite Ha, Hx; symmetry; apply Z.eqb_neq; lia).
    assert (E1 : edi c1 = edi c + 1) by (apply bump_up; [done|lia]).
    destruct (IH n k c1) as (c' & Hrun & Hrest & He & Hc); [lia|lia|done..| |].
    { by rewrite E1. }
    exists c'. split; [exact Hrun|]. rewrite Hrest, He, Hc, E1. split; [done|]. simpl. lia.
Qed.

Lemma scan_end_run n l c :
  (length l < n)%nat -> ecx c = 4294967295 -> df c = false -> al c = 0 ->
  cstr (ram c) (edi c) l ->
  exists c', scan_end n c = Ret tt c' /\ rest c' = rest c /\
    ecx c' = Z.of_nat (length l) /\ zf c' = (Z.of_nat (length l) =? 0).
Proof.
  intros Hn Hk Hd Ha Hs. pose proof (cstr_bounds _ _ _ Hs).
  destruct (Z_of_nat_complete 4294967295) as [k Hk']; [lia|].
  destruct (repne_end n l k c) as (c' & Hr & Hrest & _ & Hc); [done|lia|congruence|done..|].
  unfold scan_end. mcall Hr. unfold not_ecx, dec_ecx. mrun. eexists. split; [reflexivity|].
  split; [exact Hrest|]. simpl. rewrite Hc, <- Hk'.
  replace (4294967295 - (4294967295 - Z.of_nat (length l) - 1) - 1) with (Z.of_nat (length l)) by lia.
  rewrite u32_small by lia. done.
Qed.

(** The low byte of [eax] after it is loaded. *)
Lemma al_load e v : 0 <= v < 256 -> (e - e mod 256 + v) mod 256 = v.
Proof.
  intros. rewrite (Z_div_mod_eq_full e 256) at 1.
  replace (256 * (e / 256) + e mod 256 - e mod 256 + v) with (v + e / 256 * 256) by lia.
  rewrite Z_mod_plus_full. by apply Z.mod_small.
Qed.

(** ** Walking over a string *)

(** The longest prefix of characters that satisfy [p]. *)
Fixpoint span (p : Z -> bool) (l : list Z) : list Z * list Z :=
  match l with
  | [] => ([], [])
  | x :: l' => if p x then let '(a, b) := span p l' in (x :: a, b) else ([], l)
  end.
Lemma span_app p l a b : span p l = (a, b) -> a ++ b = l.
Proof.
  revert a b. induction l as [|x l IH]; intros a b; simpl; [by intros [= <- <-]|].
  destruct (p x); [|by intros [= <- <-]]. destruct (span p l) as [a' b'].
  intros [= <- <-]. simpl. by rewrite (IH a' b').
Qed.

Definition member (d : list Z) (x : Z) : bool := existsb (Z.eqb x) d.

(** What a walk over a string leaves alone. *)
Definition rest' (c : cpu) := (ebx c, edx c, df c, ram c, ___strtok c).

Lemma in_set_run n ct d c :
  (length d < n)%nat -> edx c = Z.of_nat (length d) -> df c = false -> zf c = false ->
  cstr (ram c) ct d ->
  exists c', in_set n ct c = Ret tt c' /\ zf c' = member d (al c) /\ rest c' = rest c.
Proof.
  intros Hn Hk Hd Hz Hs. unfold in_set. mrun.
  destruct (repne_mem n d (c <| edi := ct |> <| ecx := edx c |>)) as (c' & Hr & Hz' & Hrest); [done..|].
  exists c'. done.
Qed.

Lemma span_step_run n stop ct d c x l :
  (length d < n)%nat -> edx c = Z.of_nat (length d) -> df c = false -> cstr (ram c) ct d ->
  cstr (ram c) (esi c) (x :: l) ->
  exists c', span_step n stop ct c =
      Ret (if Bool.eqb (member d x) stop then inr false else inl tt) c' /\
    esi c' = esi c + 1 /\ rest' c' = rest' c.
Proof.
  intros Hn Hk Hd Hc (Ha & Hx & Hr & _).
  unfold span_step, lodsb, testb_al, jz. mrun. set (c1 := logic_flags _ _ _).
  assert (Hal : al c1 = x) by (unfold c1, al; simpl; rewrite Hx; by apply al_load; lia).
  assert (Hz : zf c1 = false).
  { change (zf c1) with (al c1 =? 0). rewrite Hal. apply Z.eqb_neq. lia. }
  rewrite Hz. destruct (in_set_run n ct d c1) as (c' & Hrun & Hz' & Hrest); [done..|].
  mcall Hrun. mrun. exists c'. rewrite Hz', Hal. split; [done|].
  injection Hrest as _ Hb Hdx Hsi Hdf Hram Hst. unfold rest'. rewrite Hb, Hdx, Hsi, Hdf, Hram, Hst.
  split; [|done]. simpl. rewrite bump_up by (done || lia). done.
Qed.

Lemma span_step_end n stop ct c :
  df c = false -> cstr (ram c) (esi c) [] ->
  exists c', span_step n stop ct c = Ret (inr true) c' /\
    esi c' = esi c + 1 /\ rest' c' = rest' c.
Proof.
  intros Hd (Ha & Hx). unfold span_step, lodsb, testb_al, jz. mrun. set (c1 := logic_flags _ _ _).
  assert (Hz : zf c1 = true) by (unfold c1; simpl; unfold al; simpl; rewrite Hx, al_load by lia; done).
  rewrite Hz. exists c1. split; [done|]. split; [|done]. simpl. rewrite bump_up by (done || lia). done.
Qed.

Lemma span_set_run n k stop ct d c l :
  (length d < n)%nat -> (length l < k)%nat ->
  edx c = Z.of_nat (length d) -> df c = false -> cstr (ram c) ct d -> cstr (ram c) (esi c) l ->
  exists c', loop k (fun _ : unit => span_step n stop ct) tt c =
      Ret (match (span (fun x => negb (Bool.eqb (member d x) stop)) l).2 with [] => true | _ => false end) c' /\
    esi c' = esi c + Z.of_nat (length (span (fun x => negb (Bool.eqb (member d x) stop)) l).1) + 1 /\
    rest' c' = rest' c.
Proof.
  revert k c. induction l as [|x l IH]; intros [|k] c Hn Hn' Hk Hd Hct Hs; simpl in Hn'; try lia.
  - destruct (span_step_end n stop ct c Hd Hs) as (c' & Hr & He & Hrest).
    exists c'. rewrite (loop_leave _ _ _ _ _ _ Hr). simpl. by rewrite Z.add_0_r.
  - destruct (span_step_run n stop ct d c x l) as (c1 & Hr & He & Hrest); [done..|].
    simpl span. destruct (Bool.eqb (member d x) stop) eqn:E; simpl negb; cbv iota.
    + exists c1. rewrite (loop_leave _ _ _ _ _ _ Hr). simpl. by rewrite Z.add_0_r.
    + rewrite (loop_again _ _ _ _ _ _ Hr). injection Hrest as Hb Hdx Hdf Hram Hst.
      destruct (IH k c1) as (c' & Hr' & He' & Hrest'); rewrite ?Hdx, ?Hdf, ?Hram, ?He; try done; [lia|..].
      { apply Hs. }
      exists c'. rewrite Hr'. destruct (span _ l) as [a b]. simpl in *.
      split; [done|]. split; [lia|]. rewrite Hrest'. unfold rest'. congruence.
Qed.

(** ** The theorems *)

(** C33: memmove, however its two areas overlap, leaves memory as if the source
    had first been copied aside, changes no other byte and leaves the direction
    flag clear. *)
Theorem memmove_spec n k dest src c :
  (k < n)%nat -> Z.of_nat k < 2147483648 ->
  0 <= src -> src + Z.of_nat k < 4294967296 -> 0 <= dest -> dest + Z.of_nat k < 4294967296 ->
  exists c', memmove n dest src (Z.of_nat k) c = Ret dest c' /\ df c' = false /\
    ram c' = store_bytes (ram c) dest (load_bytes (ram c) src k).
Proof.
  intros Hn Hk Hs Hs' Hd Hd'. unfold memmove. destruct (dest <? src) eqn:E; ztest.
  - unfold memcpy, cld. mrun. set (c1 := set_field df _ _).
    destruct (rep_movsb_up n k c1) as (c' & Hr & Hdf & Hm);
      [done|simpl; by rewrite u32_small by lia|done|simpl; lia..|].
    mcall Hr. mrun. by exists c'.
  - unfold std, cld. mrun. set (c1 := set_field df _ _).
    assert (Hc : ecx c1 = Z.of_nat k) by (simpl; by rewrite u32_small by lia).
    destruct k as [|k].
    { destruct n as [|n]; [lia|]. mcall (rep_stop n movsb c1 Hc). mrun. by eexists. }
    assert (Hsi : esi c1 + 1 - Z.of_nat (S k) = src).
    { change (esi c1) with (u32 (Z.of_nat (S k) - 1 + src)). rewrite u32_small; lia. }
    assert (Hdi : edi c1 + 1 - Z.of_nat (S k) = dest).
    { change (edi c1) with (u32 (Z.of_nat (S k) - 1 + dest)). rewrite u32_small; lia. }
    destruct (rep_movsb_down n (S k) c1) as (c' & Hr & Hm); [done|done|done|lia..|].
    mcall Hr. mrun. eexists. split; [done|]. split; [done|].
    change (ram c' = store_bytes (ram c1) dest (load_bytes (ram c1) src (S k))).
    by rewrite Hm, Hsi, Hdi.
Qed.

(** Comparison of strings as sequences of unsigned characters. *)
Fixpoint compare_strings (a b : list Z) : Z :=
  match a, b with
  | [], [] => 0
  | [], _ :: _ => -1
  | _ :: _, [] => 1
  | x :: a, y :: b => if x <? y then -1 else if y <? x then 1 else compare_strings a b
  end.

(** One round of the comparison of the characters [x] and [y]. *)
Lemma compare_step_run c x y :
  df c = false -> ram c (esi c) = x -> ram c (edi c) = y -> 0 <= x < 256 -> 0 <= y < 256 ->
  0 <= esi c < 4294967295 -> 0 <= edi c < 4294967295 ->
  exists c', compare_step c = Ret (if x =? y then if x =? 0 then inr true else inl tt else inr false) c' /\
    esi c' = esi c + 1 /\ edi c' = edi c + 1 /\ rest' c' = rest' c /\ ecx c' = ecx c /\
    (x <> y -> cf c' = (x <? y)).
Proof.
  intros Hd Hx Hy Hx' Hy' Hs He. unfold compare_step, lodsb, scasb, testb_al, jz. mrun.
  match goal with |- context [zf ?d] => set (c1 := d) end.
  assert (Hal : al c1 = x) by (unfold c1, al; simpl; rewrite Hx; by apply al_load).
  assert (Hz : zf c1 = (x =? y)) by (rewrite <- Hal, <- Hy; done).
  assert (Hc : cf c1 = (x <? y)) by (rewrite <- Hal, <- Hy; done).
  assert (Hsi : esi c1 = esi c + 1) by (rewrite <- (bump_up c) by done; done).
  assert (Hdi : edi c1 = edi c + 1) by (rewrite <- (bump_up c) by done; done).
  rewrite Hz. destruct (x =? y) eqn:E; ztest.
  - mrun. exists (logic_flags 128 (al c1) c1). split; [|split_and!; [exact Hsi|exact Hdi|done|done|by intros ?]].
    change (zf (logic_flags 128 (al c1) c1)) with (al c1 =? 0). rewrite Hal. by destruct (x =? 0).
  - exists c1. done.
Qed.

(** The first character of a string, 0 for its end. *)
Definition hd0 (l : list Z) : Z := match l with [] => 0 | x :: _ => x end.

Lemma cstr_head m a l : cstr m a l ->
  0 <= a < 4294967295 /\ m a = hd0 l /\ 0 <= hd0 l < 256 /\
  (hd0 l <> 0 -> cstr m (a + 1) (tail l) /\ l = hd0 l :: tail l) /\ (hd0 l = 0 -> l = []).
Proof.
  destruct l as [|x l]; simpl; intros (? & H); split_and!; try (done || lia).
  intros _. split; [apply H|done].
Qed.

Lemma compare_heads a b :
  Forall (fun x => 0 < x) a -> Forall (fun x => 0 < x) b -> hd0 a <> hd0 b ->
  compare_strings a b = if hd0 a <? hd0 b then -1 else 1.
Proof.
  intros Ha Hb. destruct Ha as [|x a Hx], Hb as [|y b Hy]; simpl; intros Hne; try done.
  - by rewrite (proj2 (Z.ltb_lt 0 y)).
  - by replace (x <? 0) with false by lia.
  - destruct (x <? y) eqn:E; [done|]. by replace (y <? x) with true by lia.
Qed.
Lemma cstr_pos m a l : cstr m a l -> Forall (fun x => 0 < x) l.
Proof.
  revert a. induction l as [|x l IH]; intros a; [constructor|].
  intros (? & ? & ? & H). constructor; [lia|by eapply IH].
Qed.

Lemma compare_loop k a b c :
  (Nat.min (length a) (length b) < k)%nat -> df c = false ->
  cstr (ram c) (esi c) a -> cstr (ram c) (edi c) b ->
  exists c', loop k (fun _ : unit => compare_step) tt c = Ret (compare_strings a b =? 0) c' /\
    ram c' = ram c /\ df c' = false /\
    (compare_strings a b <> 0 -> compare_strings a b = if cf c' then -1 else 1).
Proof.
  revert k b c. induction a as [a IH] using (induction_ltof1 _ (@length Z)).
  intros [|k] b c Hk Hd Ha Hb; [lia|].
  pose proof (cstr_pos _ _ _ Ha) as Pa. pose proof (cstr_pos _ _ _ Hb) as Pb.
  destruct (cstr_head _ _ _ Ha) as (Bs & Ms & Rs & Ns & Zs).
  destruct (cstr_head _ _ _ Hb) as (Bd & Md & Rd & Nd & Zd).
  destruct (compare_step_run c _ _ Hd Ms Md Rs Rd Bs Bd) as (c1 & Hr & Hs1 & He1 & Hrest & _ & Hcf).
  injection Hrest as Hb1 Hdx Hdf Hram Hst. rewrite Hd in Hdf.
  destruct (Z.eq_dec (hd0 a) (hd0 b)) as [E|Hne].
  - rewrite E, Z.eqb_refl in Hr. destruct (hd0 b =? 0) eqn:E0; ztest.
    + rewrite (Zs ltac:(lia)), (Zd E0). exists c1. by rewrite (loop_leave _ _ _ _ _ _ Hr).
    + rewrite (loop_again _ _ _ _ _ _ Hr).
      destruct (Ns ltac:(lia)) as [Ca La], (Nd ltac:(lia)) as [Cb Lb].
      destruct (IH (tail a)) with (k := k) (b := tail b) (c := c1) as (c' & Hr' & Hm & Hd' & Hc);
        rewrite ?Hs1, ?He1, ?Hram; try done.
      { unfold ltof. rewrite La. simpl. lia. }
      { rewrite La, Lb in Hk. simpl in Hk. lia. }
      rewrite La, Lb, E. simpl compare_strings. rewrite Z.ltb_irrefl.
      exists c'. rewrite Hm. done.
  - rewrite (proj2 (Z.eqb_neq _ _) Hne) in Hr. exists c1.
    rewrite (loop_leave _ _ _ _ _ _ Hr), Hcf, compare_heads by done.
    by destruct (hd0 a <? hd0 b).
Qed.

(** strcmp gives the sign of the comparison of the two strings, character by character
    as unsigned numbers, and changes no memory. *)
Theorem strcmp_spec n cs ct a b c :
  (Nat.min (length a) (length b) < n)%nat -> cstr (ram c) cs a -> cstr (ram c) ct b ->
  exists c', strcmp n cs ct c = Ret (compare_strings a b) c' /\ ram c' = ram c.
Proof.
  intros Hn Ha Hb. unfold strcmp, cld. mrun.
  destruct (compare_loop n a b (c <| esi := cs |> <| edi := ct |> <| df := false |>))
    as (c' & Hr & Hm & _ & Hc); [done..|].
  mcall Hr. destruct (compare_strings a b =? 0) eqn:E; ztest.
  - unfold xor_eax. mrun. rewrite E. by eexists.
  - unfold sbb_or_1. mrun. rewrite (Hc E). simpl. destruct (cf c'); by eexists.
Qed.

(** ** Tokens *)

Lemma span_stop p l x k : (span p l).2 = x :: k -> p x = false.
Proof.
  induction l as [|y l IH]; simpl; [done|]. destruct (p y) eqn:E.
  - destruct (span p l). simpl in *. done.
  - by intros [= -> _].
Qed.

(** A string as its leading delimiters, its first token and what follows. *)
Definition token (d l : list Z) : list Z * list Z * list Z :=
  let '(skipped, r) := span (member d) l in
  let '(tok, more) := span (fun x => negb (member d x)) r in
  (skipped, tok, more).

Lemma span_pred d stop :
  (fun x => negb (Bool.eqb (member d x) stop)) =
  if stop : bool then fun x => negb (member d x) else member d.
Proof. destruct stop; apply functional_extensionality; intros x; by destruct (member d x). Qed.

Lemma token_app d l : let '(skipped, tok, more) := token d l in skipped ++ tok ++ more = l.
Proof.
  unfold token. destruct (span (member d) l) as [skipped r] eqn:E.
  destruct (span _ r) as [tok more] eqn:E'.
  by rewrite (span_app _ _ _ _ E'), (span_app _ _ _ _ E).
Qed.

(** A walk over a string, when it ends at a character and when it ends with
    the string. *)
Lemma span_then {T} n stop ct d c l pre x k (E A B : X T) :
  (length d < n)%nat -> (length l < n)%nat -> edx c = Z.of_nat (length d) -> df c = false ->
  cstr (ram c) ct d -> cstr (ram c) (esi c) l ->
  span (if stop : bool then fun x => negb (member d x) else member d) l = (pre, x :: k) ->
  exists c', (ended ← span_set n stop ct;
     if ended : bool then E
     else dec_esi;; modify (fun c => cmp8 (ram c (esi c)) 0 c);; jz A B) c = B c' /\
    esi c' = esi c + Z.of_nat (length pre) /\ rest' c' = rest' c.
Proof.
  intros Hn Hn' Hk Hd Hct Hs Hsp.
  destruct (span_set_run n n stop ct d c l) as (c' & Hr & He & Hrest); [done..|].
  rewrite span_pred, Hsp in Hr, He. cbn [fst snd] in *.
  pose proof (span_app _ _ _ _ Hsp) as Happ.
  rewrite <- Happ in Hs. pose proof (cstr_bounds _ _ _ Hs) as Hbd. rewrite length_app in Hbd.
  apply cstr_app in Hs as (_ & Hx & Hx0 & _).
  mcall Hr. unfold dec_esi, jz. mrun. set (c1 := dec_flags _ _).
  assert (Hsi : esi c1 = esi c + Z.of_nat (length pre)).
  { change (esi c1) with (u32 (esi c' - 1)). rewrite He, u32_small; simpl in Hbd; lia. }
  injection Hrest as Hb Hdx Hdf Hram Hst.
  match goal with |- context [zf ?s] => replace (zf s) with false; [exists s|] end.
  - split; [done|]. split; [exact Hsi|]. unfold rest'. by rewrite <- Hb, <- Hdx, <- Hdf, <- Hram, <- Hst.
  - symmetry. apply Z.eqb_neq. change (ram c1) with (ram c'). rewrite Hsi, Hram. lia.
Qed.

Lemma span_ends {T} n stop ct d c l pre (E A : X T) :
  (length d < n)%nat -> (length l < n)%nat -> edx c = Z.of_nat (length d) -> df c = false ->
  cstr (ram c) ct d -> cstr (ram c) (esi c) l ->
  span (if stop : bool then fun x => negb (member d x) else member d) l = (pre, []) ->
  exists c', (ended ← span_set n stop ct; if ended : bool then E else A) c = E c' /\
    rest' c' = rest' c.
Proof.
  intros Hn Hn' Hk Hd Hct Hs Hsp.
  destruct (span_set_run n n stop ct d c l) as (c' & Hr & He & Hrest); [done..|].
  rewrite span_pred, Hsp in Hr. mcall Hr. by exists c'.
Qed.

(** The position after a token, and memory with the token cut off. *)
Definition after_token (a : Z) (tok more : list Z) : Z :=
  match more with [] => 0 | _ => a + Z.of_nat (length tok) + 1 end.
Definition cut_token (m : Z -> Z) (a : Z) (tok more : list Z) : Z -> Z :=
  match more with [] => m | _ => <[a + Z.of_nat (length tok) := 0]> m end.

Lemma strtok_end_run n ct d c l tok more :
  (length d < n)%nat -> (length l < n)%nat -> edx c = Z.of_nat (length d) -> df c = false ->
  cstr (ram c) ct d -> cstr (ram c) (esi c) l ->
  span (fun x => negb (member d x)) l = (tok, more) ->
  exists c', strtok_end n ct c = Ret tt c' /\ ebx c' = ebx c /\
    esi c' = after_token (esi c) tok more /\ ram c' = cut_token (ram c) (esi c) tok more.
Proof.
  intros Hn Hn' Hk Hd Hct Hs Hsp. destruct more as [|y more].
  - edestruct (span_ends (T := unit) n true ct d c l tok) as (c' & Hr & Hrest); [done..|].
    unfold strtok_end. rewrite Hr. injection Hrest as Hb Hdx Hdf Hram Hst. by eexists.
  - edestruct (span_then (T := unit) n true ct d c l tok y more) as (c' & Hr & He & Hrest); [done..|].
    unfold strtok_end. rewrite Hr. injection Hrest as Hb Hdx Hdf Hram Hst.
    rewrite <- (span_app _ _ _ _ Hsp) in Hs. apply cstr_bounds in Hs. rewrite length_app in Hs. simpl in Hs.
    unfold inc_esi. mrun. eexists. split; [reflexivity|]. split; [exact Hb|]. simpl.
    by rewrite He, Hram, u32_small by lia.
Qed.

Lemma strtok_token_run n ct d c l :
  (length d < n)%nat -> (length l < n)%nat -> edx c = Z.of_nat (length d) -> df c = false ->
  cstr (ram c) ct d -> cstr (ram c) (esi c) l -> ebx c = 0 ->
  let '(skipped, tok, more) := token d l in
  let a := esi c + Z.of_nat (length skipped) in
  exists c', strtok_token n ct c = Ret tt c' /\
    match tok with
    | [] => ebx c' = 0 /\ ram c' = ram c
    | _ => ebx c' = a /\ esi c' = after_token a tok more /\ ram c' = cut_token (ram c) a tok more
    end.
Proof.
  intros Hn Hn' Hk Hd Hct Hs Hb0. unfold token.
  destruct (span (member d) l) as [skipped r] eqn:Esp.
  pose proof (span_app _ _ _ _ Esp) as Happ.
  destruct r as [|x r].
  { edestruct (span_ends (T := unit) n false ct d c l skipped) as (c' & Hr & Hrest); [done..|].
    injection Hrest as Hb Hdx Hdf Hram Hst. simpl. unfold strtok_token. rewrite Hr. exists c'.
    split; [done|]. split; [congruence|done]. }
  pose proof (span_stop (member d) l x r ltac:(by rewrite Esp)) as Hx.
  edestruct (span_then (T := unit) n false ct d c l skipped x r) as (c' & Hr & He & Hrest); [done..|].
  unfold strtok_token. rewrite Hr. injection Hrest as Hb Hdx Hdf Hram Hst. mrun.
  rewrite <- Happ in Hs. apply cstr_app in Hs. rewrite <- Happ, length_app in Hn'.
  destruct (span (fun x => negb (member d x)) (x :: r)) as [tok more] eqn:Etok.
  assert (exists tok', tok = x :: tok') as [tok' ->].
  { simpl in Etok. rewrite Hx in Etok. simpl in Etok. destruct (span _ r).
    injection Etok as <- <-. by eexists. }
  rewrite <- Hram in Hct, Hs. rewrite <- He in Hs. rewrite <- Hdx in Hk. rewrite <- Hdf in Hd.
  destruct (strtok_end_run n ct d (c' <| ebx := esi c' |>) (x :: r) (x :: tok') more)
    as (c2 & Hr2 & Hb2 & He2 & Hm2); [done|lia|done..|].
  mcall Hr2. unfold jz. mrun. simpl in Hb2, He2, Hm2. rewrite He in Hb2, He2, Hm2. rewrite Hram in Hm2.
  match goal with |- context [zf ?s] => replace (zf s) with false; [exists s|] end.
  - split; [done|]. done.
  - symmetry. apply Z.eqb_neq. rewrite Hm2, Hb2. destruct Hs as (_ & Hxv & Hx0 & _).
    rewrite He, Hram in Hxv. unfold cut_token. destruct more; [lia|]. rewrite arr_ne by (simpl; lia). lia.
Qed.

(** [strtok] from label [1] on. *)
Lemma strtok_body_run n ct d c l :
  (length d < n)%nat -> (length l < n)%nat -> d <> [] -> cstr (ram c) ct d -> cstr (ram c) (esi c) l ->
  let '(skipped, tok, more) := token d l in
  let a := esi c + Z.of_nat (length skipped) in
  exists c', strtok_body n ct c = Ret tt c' /\
    match tok with
    | [] => ebx c' = 0 /\ esi c' = 0 /\ ram c' = ram c
    | _ => ebx c' = a /\ (a <> 0 -> esi c' = after_token a tok more) /\
           ram c' = cut_token (ram c) a tok more
    end.
Proof.
  intros Hn Hn' Hne Hct Hs. unfold strtok_body, xor_ebx, xor_eax, cld. mrun.
  set (c1 := set_field edi _ _).
  destruct (scan_end_run n d c1) as (c2 & Hr & Hrest & Hc & Hz); [done..|].
  mcall Hr. unfold jz. mrun. rewrite Hz. replace (_ =? 0) with false by (destruct d; [done|simpl; lia]).
  mrun. injection Hrest as Ha Hb Hdx Hsi Hdf Hram Hst.
  pose proof (strtok_token_run n ct d (c2 <| edx := ecx c2 |>) l) as Ht. simpl in Ht.
  rewrite Hdf, Hsi, Hb, Hram, Hc in Ht. specialize (Ht Hn Hn' eq_refl eq_refl Hct Hs eq_refl).
  destruct (token d l) as [[skipped tok] more]. destruct Ht as (c3 & Hr3 & H). rewrite Hc.
  mcall Hr3. mrun. destruct tok as [|x tok].
  - destruct H as [Hb3 Hm3]. rewrite Hb3. mrun. by eexists.
  - destruct H as (Hb3 & He3 & Hm3). destruct (nz (ebx c3)) eqn:E; ztest; mrun.
    + by exists c3.
    + eexists. split; [reflexivity|]. split; [exact Hb3|]. split; [|exact Hm3].
      intros Ha0. by rewrite E in Hb3.
Qed.

(** strtok skips leading delimiters and returns the first token of its
    string, or of what an earlier call left, as a string of its own, having
    written only the terminator after it; the next call continues just after
    that terminator; with no token left it returns null and changes no memory. *)
Theorem strtok_spec n s ct d l c :
  let p := if nz s then s else ___strtok c in
  (length d < n)%nat -> (length l < n)%nat -> d <> [] -> p <> 0 ->
  cstr (ram c) ct d -> cstr (ram c) p l ->
  let '(skipped, tok, more) := token d l in
  let a := p + Z.of_nat (length skipped) in
  exists r c', strtok n s ct c = Ret r c' /\
    match tok with
    | [] => r = 0 /\ ___strtok c' = 0 /\ ram c' = ram c
    | _ =>
        r = a /\ cstr (ram c') a tok /\ (forall i, i <> a + Z.of_nat (length tok) -> ram c' i = ram c i) /\
        match more with
        | [] => ___strtok c' = 0
        | _ :: k => ___strtok c' = a + Z.of_nat (length tok) + 1 /\ cstr (ram c') (___strtok c') k
        end
    end.
Proof.
  intros p Hn Hn' Hne Hp Hct Hs.
  pose proof (token_app d l) as Happ.
  assert (exists c0, strtok n s ct c = (strtok_body n ct;;
            modify (fun c => c <| ___strtok := esi c |>);; gets ebx) c0 /\
          esi c0 = p /\ ram c0 = ram c) as (c0 & Hrun & Hsi & Hram).
  { unfold strtok. mrun. subst p. destruct (nz s) eqn:E; mrun; [by eexists|]. ztest.
    match goal with |- context [nz (ebx ?x)] => replace (nz (ebx x)) with true end.
    - mrun. by eexists.
    - symmetry. by apply nz_true. }
  rewrite <- Hram in Hct, Hs. rewrite <- Hsi in Hs.
  pose proof (strtok_body_run n ct d c0 l Hn Hn' Hne Hct Hs) as Hb.
  destruct (token d l) as [[skipped tok] more]. destruct Hb as (c1 & Hr & H).
  assert (Hpos : 0 <= p) by (apply cstr_bounds in Hs; lia).
  rewrite Hrun. mcall Hr. mrun. eexists _, _. split; [reflexivity|].
  destruct tok as [|x tok].
  - destruct H as (Hb & He & Hm). split; [done|]. split; [done|]. simpl. congruence.
  - destruct H as (Hb & He & Hm). rewrite Hsi in Hb, He, Hm. rewrite Hram in Hm.
    specialize (He ltac:(lia)).
    rewrite <- Happ, Hsi, Hram in Hs. apply cstr_app in Hs. simpl ram. rewrite Hm.
    split; [exact Hb|]. destruct more as [|y k]; simpl cut_token.
    + rewrite app_nil_r in Hs. done.
    + split; [exact (cstr_cut _ _ _ _ _ Hs)|]. split; [intros i Hi; by apply arr_ne|].
      split; [exact He|].
      change (cstr (<[p + Z.of_nat (length skipped) + Z.of_nat (length (x :: tok)) := 0]> (ram c)) (esi c1) k).
      rewrite He. exact (cstr_put _ _ _ _ _ _ Hs eq_refl).
Qed.

(** ** Counted copies *)

(** One round that copies the character [x], and one that finds the count at 0. *)
Lemma copy_step_run c x k :
  df c = false -> ecx c = Z.of_nat (S k) -> Z.of_nat (S k) < 2147483648 ->
  ram c (esi c) = x -> 0 <= x < 256 -> 0 <= esi c < 4294967295 -> 0 <= edi c < 4294967295 ->
  exists c', copy_step c = Ret (if x =? 0 then inr true else inl tt) c' /\
    ecx c' = Z.of_nat k /\ esi c' = esi c + 1 /\ edi c' = edi c + 1 /\ al c' = x /\
    df c' = false /\ ram c' = <[edi c := x]> (ram c).
Proof.
  intros Hd Hk Hb Hx Hx' Hs He. unfold copy_step, dec_ecx, lodsb, stosb, testb_al, jz. mrun.
  assert (Hdec : u32 (ecx c - 1) = Z.of_nat k) by (rewrite u32_small; lia).
  match goal with |- context [sf ?s] => replace (sf s) with false end.
  2: { symmetry. change ((u32 (ecx c - 1) >=? 2147483648) = false). rewrite Hdec. lia. }
  mrun. set (c1 := logic_flags _ _ _).
  assert (Hal : al c1 = x) by (unfold c1, al; simpl; rewrite Hx; by apply al_load).
  change (zf c1) with (al c1 =? 0). rewrite Hal. exists c1.
  split; [by destruct (x =? 0)|]. split; [exact Hdec|].
  split; [rewrite <- (bump_up c) by done; done|]. split; [rewrite <- (bump_up c) by done; done|].
  split; [done|]. split; [exact Hd|]. rewrite <- Hal. done.
Qed.
Lemma copy_step_stop c :
  ecx c = 0 -> exists c', copy_step c = Ret (inr false) c' /\ edi c' = edi c /\ ram c' = ram c /\ df c' = df c.
Proof.
  intros Hk. unfold copy_step, dec_ecx. mrun.
  match goal with |- context [sf ?s] => replace (sf s) with true; [exists s|] end; [done|].
  symmetry. change ((u32 (ecx c - 1) >=? 2147483648) = true). by rewrite Hk.
Qed.

Lemma copy_loop n b k c :
  (length b < n)%nat -> ecx c = Z.of_nat k -> Z.of_nat k < 2147483648 -> df c = false ->
  cstr (ram c) (esi c) b -> 0 <= edi c -> edi c + Z.of_nat (length b) + 1 < 4294967295 ->
  esi c + Z.of_nat (length b) < edi c \/ edi c + Z.of_nat (length b) < esi c ->
  let out := take k (b ++ [0]) in
  exists c', loop n (fun _ : unit => copy_step) tt c = Ret (bool_decide (length b < k)%nat) c' /\
    edi c' = edi c + Z.of_nat (length out) /\ df c' = false /\
    ram c' = store_bytes (ram c) (edi c) out.
Proof.
  revert n k c. induction b as [|x b IH]; intros [|n] k c Hn Hk Hb Hd Hs He He' Hov; simpl in Hn; try lia.
  all: destruct k as [|k]; [destruct (copy_step_stop c Hk) as (c' & Hr & Hdi & Hm & Hdf);
    exists c'; rewrite (loop_leave _ _ _ _ _ _ Hr), Hdi, Hm, Hdf; simpl; rewrite Z.add_0_r; done|].
  - destruct Hs as (Ha & Hx).
    destruct (copy_step_run c 0 k) as (c' & Hr & _ & _ & Hdi & _ & Hdf & Hm); [done||lia..|].
    exists c'. rewrite (loop_leave _ _ _ _ _ _ Hr), Hdi, Hm. simpl. by rewrite take_nil.
  - destruct Hs as (Ha & Hx & Hx' & Hs). simpl length in *.
    destruct (copy_step_run c x k) as (c1 & Hr & Hc & Hsi & Hdi & _ & Hdf & Hm); [done||lia..|].
    replace (x =? 0) with false in Hr by lia. rewrite (loop_again _ _ _ _ _ _ Hr).
    destruct (IH n k c1) as (c' & Hr' & Hdi' & Hdf' & Hm'); rewrite ?Hsi, ?Hdi; try (done || lia).
    { rewrite Hm. eapply cstr_ext, Hs. intros i Hi. rewrite arr_ne by lia. done. }
    exists c'. rewrite Hr', Hdi', Hm', Hdi, Hm. simpl. split.
    { f_equal. apply bool_decide_ext. lia. }
    split; [lia|done].
Qed.

(** strncat appends at most count characters and a terminator; but when the
    source is shorter than count it writes a second zero, one byte past the
    terminated string. *)
Theorem strncat_spec n dest src k a b c :
  (length a < n)%nat -> (length b < n)%nat -> Z.of_nat k < 2147483648 ->
  cstr (ram c) dest a -> cstr (ram c) src b ->
  let e := dest + Z.of_nat (length a) in
  e + Z.of_nat (length b) + 1 < 4294967295 ->
  src + Z.of_nat (length b) < e \/ e + Z.of_nat (length b) < src ->
  exists c', strncat n dest src (Z.of_nat k) c = Ret dest c' /\
    ram c' = store_bytes (ram c) e (if decide (length b < k)%nat then b ++ [0; 0] else take k b ++ [0]).
Proof.
  intros Hn Hn' Hk Ha Hb e He Hov. unfold strncat, cld. mrun. set (c1 := set_field df _ _).
  destruct (Z_of_nat_complete 4294967295) as [m Hm]; [lia|].
  pose proof (cstr_bounds _ _ _ Ha) as Hba.
  destruct (repne_end n a m c1) as (c2 & Hr & Hrest & Hdi & _); [done|lia|done..|].
  injection Hrest as Hax Hbx Hdx Hsi Hdf Hram Hst.
  mcall Hr. unfold dec_edi. mrun. set (c3 := set_field ecx _ _).
  assert (Hdi3 : edi c3 = e).
  { change (edi c3) with (u32 (edi c2 - 1)). rewrite Hdi. change (edi c1) with dest. rewrite u32_small; lia. }
  assert (Hram3 : ram c3 = ram c) by exact Hram. assert (Hsi3 : esi c3 = src) by exact Hsi.
  destruct (copy_loop n b k c3) as (c4 & Hr4 & Hdi4 & Hdf4 & Hm4);
    rewrite ?Hdi3, ?Hram3, ?Hsi3; try (done || lia).
  { change (ecx c3) with (u32 (Z.of_nat k)). apply u32_small. lia. }
  unfold copy_counted. mcall Hr4. unfold xor_eax, stosb. mrun. eexists. split; [reflexivity|].
  change (<[edi c4 := 0]> (ram c4) = store_bytes (ram c) e (if decide (length b < k)%nat then b ++ [0; 0] else take k b ++ [0])).
  rewrite Hm4, Hdi4, Hdi3, Hram3.
  set (out := take k (b ++ [0])).
  change (<[_ := 0]> ?m) with (store_bytes m (e + Z.of_nat (length out)) [0]).
  rewrite <- store_bytes_app. f_equal. unfold out. case_decide.
  - rewrite take_ge by (rewrite length_app; simpl; lia). by rewrite <- app_assoc.
  - by rewrite take_app_le by lia.
Qed.

(** ** Comparison of memory *)

(** The order in which [memcmp] takes bytes: as signed characters. *)
Fixpoint compare_signed (a b : list Z) : Z :=
  match a, b with
  | x :: a, y :: b =>
      if x =? y then compare_signed a b else if s8 x <? s8 y then -1 else 1
  | _, _ => 0
  end.

Lemma s8_cases x : 0 <= x < 256 -> s8 x = if x <? 128 then x else x - 256.
Proof. intros. unfold s8. destruct (x <? 128) eqn:E; ztest; dlia. Qed.
Lemma s8_wrap x : s8 x = s8 (u8 x).
Proof. unfold s8, u8. by rewrite Zplus_mod_idemp_l. Qed.

Lemma less_flags x y c :
  0 <= x < 256 -> 0 <= y < 256 -> xorb (sf (cmp8 x y c)) (ovf (cmp8 x y c)) = (s8 x <? s8 y).
Proof.
  intros. change (xorb (u8 (x - y) >=? 128) (negb (s8 x - s8 y =? s8 (x - y))) = (s8 x <? s8 y)).
  assert (Eu : u8 (x - y) = if x <? y then x - y + 256 else x - y)
    by (unfold u8; destruct (x <? y) eqn:E; ztest; dlia).
  rewrite (s8_wrap (x - y)), !s8_cases by (try apply u8_range; lia). rewrite Eu.
  repeat match goal with |- context [if ?b then _ else _] => destruct b eqn:? end;
    destruct (_ >=? 128) eqn:?, (_ =? _) eqn:?; ztest; simpl; symmetry;
    rewrite ?Z.ltb_lt, ?Z.ltb_ge; lia.
Qed.

Lemma memcmp_loop n k c :
  (k < n)%nat -> (0 < k)%nat -> ecx c = Z.of_nat k -> df c = false -> bytes (ram c) ->
  0 <= esi c -> esi c + Z.of_nat k < 4294967296 -> 0 <= edi c -> edi c + Z.of_nat k < 4294967296 ->
  let r := compare_signed (load_bytes (ram c) (edi c) k) (load_bytes (ram c) (esi c) k) in
  exists c', repe n cmpsb c = Ret tt c' /\ zf c' = (r =? 0) /\ eax c' = eax c /\ ram c' = ram c /\
    (r <> 0 -> r = if xorb (sf c') (ovf c') then 1 else -1).
Proof.
  unfold repe. revert n c. induction k as [|k IH]; intros [|n] c Hn Hk0 Hk Hd Hm Hs Hs' He He'; try lia.
  unfold cmpsb. rewrite (rep_while_step _ _ _ _ k) by done. set (c1 := set_field ecx _ _).
  simpl load_bytes. cbn [compare_signed].
  set (x := ram c (edi c)). set (y := ram c (esi c)).
  replace (zf _) with (x =? y) by (rewrite Z.eqb_sym; done).
  assert (Hx : 0 <= x < 256) by apply Hm. assert (Hy : 0 <= y < 256) by apply Hm.
  destruct (x =? y) eqn:E; ztest; simpl Bool.eqb; cbv iota.
  - destruct k as [|k].
    { exists c1. destruct n as [|n]; [lia|]. rewrite rep_while_stop by done.
      split; [done|]. split; [|done]. change (zf c1) with (y =? x). by rewrite E, Z.eqb_refl. }
    assert (E1 : edi c1 = edi c + 1) by (rewrite <- (bump_up c) by (done || lia); done).
    assert (E2 : esi c1 = esi c + 1) by (rewrite <- (bump_up c) by (done || lia); done).
    destruct (IH n c1) as (c' & Hr & Hz & Ha & Hram & Hc); rewrite ?E1, ?E2; try (done || lia).
    rewrite E1, E2 in Hz, Hc. by exists c'.
  - exists c1. split; [done|].
    pose proof (less_flags y x c Hy Hx) as Hf.
    change (xorb (sf c1) (ovf c1)) with (xorb (sf (cmp8 y x c)) (ovf (cmp8 y x c))). rewrite Hf.
    assert (s8 x <> s8 y) by (unfold s8; dlia).
    destruct (s8 x <? s8 y) eqn:Hlt; ztest.
    + replace (s8 y <? s8 x) with false by lia. split_and!; try done. change (zf c1) with (y =? x). lia.
    + replace (s8 y <? s8 x) with true by lia. split_and!; try done. change (zf c1) with (y =? x). lia.
Qed.

(** memcmp compares two areas of memory byte by byte; but it takes the bytes as signed. *)
Theorem memcmp_spec n cs ct k c :
  (0 < k < n)%nat -> Z.of_nat k < 2147483648 -> bytes (ram c) ->
  0 <= cs -> cs + Z.of_nat k < 4294967296 -> 0 <= ct -> ct + Z.of_nat k < 4294967296 ->
  exists c', memcmp n cs ct (Z.of_nat k) c =
      Ret (compare_signed (load_bytes (ram c) cs k) (load_bytes (ram c) ct k)) c' /\
    ram c' = ram c.
Proof.
  intros Hn Hk Hm Hs Hs' Ht Ht'. unfold memcmp, cld. mrun. set (c1 := set_field df _ _).
  destruct (memcmp_loop n k c1) as (c' & Hr & Hz & Ha & Hram & Hc);
    [lia|lia|apply u32_small; lia|done..|].
  mcall Hr. unfold jz. mrun. rewrite Hz.
  change (load_bytes (ram c1) (edi c1) k) with (load_bytes (ram c) cs k) in *.
  change (load_bytes (ram c1) (esi c1) k) with (load_bytes (ram c) ct k) in *.
  destruct (compare_signed _ _ =? 0) eqn:E; ztest.
  - rewrite E. mrun. exists c'. unfold gets. by rewrite Ha.
  - rewrite (Hc E). mrun. simpl. destruct (xorb (sf c') (ovf c')); by eexists.
Qed.

(** ** Witnesses *)

Definition demo_ram : Z -> Z :=
  store_bytes (store_bytes (store_bytes (fun _ => 0) 100 [97; 98; 44; 99]) 200 [44; 32]) 300 [200; 98].
Definition demo_cpu : cpu := mk_cpu 0 0 0 0 0 0 false false false false false demo_ram 0.

Ltac in_demo := repeat split; vm_compute; (reflexivity || discriminate).

Lemma memmove_spec_witness :
  exists c', memmove 9 101 100 3 demo_cpu = Ret 101 c' /\ df c' = false /\
    ram c' = store_bytes demo_ram 101 [97; 98; 44].
Proof. apply (memmove_spec 9 3 101 100 demo_cpu); lia. Defined.
Lemma strcmp_spec_witness :
  exists c', strcmp 9 100 300 demo_cpu = Ret (-1) c' /\ ram c' = demo_ram.
Proof. apply (strcmp_spec 9 100 300 [97; 98; 44; 99] [200; 98] demo_cpu); [simpl; lia|in_demo..]. Defined.
Lemma strtok_spec_witness :
  exists r c', strtok 9 100 200 demo_cpu = Ret r c' /\
    r = 100 /\ cstr (ram c') 100 [97; 98] /\ (forall i, i <> 102 -> ram c' i = demo_ram i) /\
    ___strtok c' = 103 /\ cstr (ram c') (___strtok c') [99].
Proof.
  apply (strtok_spec 9 100 200 [44; 32] [97; 98; 44; 99] demo_cpu);
    [simpl; lia|simpl; lia|done|done|in_demo..].
Defined.
Lemma strncat_spec_witness :
  exists c', strncat 9 100 200 5 demo_cpu = Ret 100 c' /\
    ram c' = store_bytes demo_ram 104 [44; 32; 0; 0].
Proof.
  apply (strncat_spec 9 100 200 5 [97; 98; 44; 99] [44; 32] demo_cpu);
    [simpl; lia|simpl; lia|lia|in_demo|in_demo|simpl; lia|simpl; lia].
Defined.
Lemma memcmp_spec_witness :
  exists c', memcmp 9 100 300 2 demo_cpu = Ret 1 c' /\ ram c' = demo_ram.
Proof.
  apply (memcmp_spec 9 100 300 2 demo_cpu); [lia|lia| |lia..].
  intros a. simpl. unfold demo_ram. simpl. rewrite !arr_dec. repeat case_decide; lia.
Defined.
