(* ===== verification/Keyboard.v ===== *)
(** The keyboard interrupt, kernel/keyboard.s: scan codes, the state of the
    modifier keys, and the characters that go into the read queue of the
    console.  [kbd] holds the three bytes of the file's own; the handlers take
    it as an argument and return it.  A register argument that a routine of the
    table takes is an argument of its definition. *)
From S2P Require Export Tty.
#[local] Open Scope bool_scope.

(** ** Data *)

(** kernel/keyboard.s:18-20 *)
Record kbd : Type := mk_kbd { mode : Z; leds : Z; e0 : Z }.
#[export] Instance eta_kbd : Eta kbd := fun r => mk_kbd (mode r) (leds r) (e0 r).

(** kernel/keyboard.s:18-20: their values at boot. *)
Definition boot_kbd : kbd := mk_kbd 0 2 0.

(** kernel/keyboard.s:222-236 *)
Definition key_map : list Z :=
  [0; 27] ++ chars "1234567890-=" ++ [127; 9] ++ chars "qwertyuiop[]" ++ [10; 0] ++
  chars "asdfghjkl;'`" ++ [0] ++ chars "\zxcvbnm,./" ++ [0; 42; 0; 32] ++ replicate 16 0 ++
  [45; 0; 0; 0; 43] ++ replicate 7 0 ++ [60] ++ replicate 10 0.
(** kernel/keyboard.s:238-252 *)
Definition shift_map : list Z :=
  [0; 27] ++ chars "!@#$%^&*()_+" ++ [127; 9] ++ chars "QWERTYUIOP{}" ++ [10; 0] ++
  chars "ASDFGHJKL:" ++ [34] ++ chars "~" ++ [0] ++ chars "|ZXCVBNM<>?_" ++ [0; 42; 0; 32] ++
  replicate 16 0 ++ [45; 0; 0; 0; 43] ++ replicate 7 0 ++ [62] ++ replicate 10 0.
(** kernel/keyboard.s:254-266 *)
Definition alt_map : list Z :=
  [0; 0] ++ [0; 64; 0; 36; 0; 0; 123; 91; 93; 125; 92; 0] ++ [0; 0] ++ replicate 11 0 ++
  [126; 10; 0] ++ replicate 11 0 ++ [0; 0] ++ replicate 11 0 ++ replicate 4 0 ++ replicate 16 0 ++
  replicate 5 0 ++ replicate 7 0 ++ [124] ++ replicate 10 0.
(** kernel/keyboard.s:187-188 *)
Definition num_table : list Z := chars "789 456 1230,".
(** kernel/keyboard.s:189-190 *)
Definition cur_table : list Z := chars "HA5 DGC YB623".
(** kernel/keyboard.s:217-220 *)
Definition func_table : list Z :=
  [0x415b5b1b; 0x425b5b1b; 0x435b5b1b; 0x445b5b1b; 0x455b5b1b; 0x465b5b1b; 0x475b5b1b; 0x485b5b1b;
   0x495b5b1b; 0x4a5b5b1b; 0x4b5b5b1b; 0x4c5b5b1b].

(** kernel/keyboard.s:323-387: the routines of the table. *)
Inductive key : Set :=
  | k_none | k_do_self | k_ctrl | k_unctrl | k_alt | k_unalt | k_lshift | k_unlshift
  | k_rshift | k_unrshift | k_caps | k_uncaps | k_scroll | k_num | k_cursor | k_func | k_minus.

#[export] Instance key_eq : EqDecision key.
Proof. solve_decision. Defined.

(** kernel/keyboard.s:323-387 *)
Definition key_table : list key :=
  [
    k_none; k_do_self; k_do_self; k_do_self; k_do_self; k_do_self; k_do_self; k_do_self;
    k_do_self; k_do_self; k_do_self; k_do_self; k_do_self; k_do_self; k_do_self; k_do_self;
    k_do_self; k_do_self; k_do_self; k_do_self; k_do_self; k_do_self; k_do_self; k_do_self;
    k_do_self; k_do_self; k_do_self; k_do_self; k_do_self; k_ctrl; k_do_self; k_do_self;
    k_do_self; k_do_self; k_do_self; k_do_self; k_do_self; k_do_self; k_do_self; k_do_self;
    k_do_self; k_do_self; k_lshift; k_do_self; k_do_self; k_do_self; k_do_self; k_do_self;
    k_do_self; k_do_self; k_do_self; k_do_self; k_do_self; k_minus; k_rshift; k_do_self; k_alt;
    k_do_self; k_caps; k_func; k_func; k_func; k_func; k_func; k_func; k_func; k_func; k_func;
    k_func; k_num; k_scroll; k_cursor; k_cursor; k_cursor; k_do_self; k_cursor; k_cursor;
    k_cursor; k_do_self; k_cursor; k_cursor; k_cursor; k_cursor; k_cursor; k_none; k_none;
    k_do_self; k_func; k_func]
  ++ replicate 68 k_none ++ [k_unctrl] ++ replicate 12 k_none ++ [k_unlshift]
  ++ replicate 11 k_none ++ [k_unrshift; k_none; k_unalt; k_none; k_uncaps] ++ replicate 69 k_none.

(** ** Operations *)

(** [testb $m,mode] *)
Definition mode_has (kb : kbd) (m : Z) : bool := hasbit (mode kb) m.

(** The read queue of the console, the first entry of [table_list]. *)
Definition set_read_q (f : tty_queue -> tty_queue) : K unit := settty 0 (fun t => t <| tt_read_q ::= f |>).

(** kernel/keyboard.s:83-91: one byte.  [inr None] is the jump to 3, [inr (Some i)]
    the one to 2 with the new head [i]. *)
Definition put_round (r : Z * Z * Z) : K (Z * Z * Z + option Z) :=
  let '(eax, ebx, ecx) := r in
  set_read_q (fun q => q <| q_buf ::= <[ecx := u8 eax]> |>);;
  let ecx := INC ecx in
  t ← gettty 0;
  if ecx =? q_tail (tt_read_q t) then mret (inr None)
  else
    let eax := u32 (Z.lor (Z.shiftr eax 8) (Z.shiftl ebx 24)) in
    if eax =? 0 then mret (inr (Some ecx)) else mret (inl (eax, Z.shiftr ebx 8, ecx)).

(** kernel/keyboard.s:78-99 *)
Definition put_queue (eax ebx : Z) : K unit :=
  t ← gettty 0;
  r ← loop 8 put_round (eax, ebx, q_head (tt_read_q t));
  match r with
  | None => mret tt
  | Some ecx =>
      set_read_q (fun q => q <| q_head := ecx |>);;
      t ← gettty 0;
      match q_proc_list (tt_read_q t) with
      | None => mret tt
      | Some p => sett p (fun x => x <| t_state := TASK_RUNNING |>)
      end
  end.

(** kernel/keyboard.s:103-107: the bit for the left or the right key. *)
Definition side (kb : kbd) (al : Z) : Z := if e0 kb =? 0 then al else u8 (al + al).
(** kernel/keyboard.s:107-108 *)
Definition or_mode (m : Z) (kb : kbd) : kbd := kb <| mode ::= Z.lor m |>.
(** kernel/keyboard.s:115-117 *)
Definition and_mode (m : Z) (kb : kbd) : kbd := kb <| mode ::= Z.land m |>.

Section keyboard.
Context `{Machine}.

(** kernel/keyboard.s:393-399 *)
Definition kb_wait : K unit :=
  while fuel (v ← inb 0x64; mret (hasbit v 0x02)) (mret tt).

(** kernel/keyboard.s:137-144 *)
Definition set_leds (kb : kbd) : K kbd :=
  kb_wait;;
  outb 0xed 0x60;;
  kb_wait;;
  outb (leds kb) 0x60;;
  mret kb.

(** kernel/keyboard.s:132-144 *)
Definition caps (kb : kbd) : K kbd :=
  if mode_has kb 0x80 then mret kb
  else set_leds (kb <| leds ::= fun l => Z.lxor l 4 |>
                    <| mode ::= fun m => Z.lor (Z.lxor m 0x40) 0x80 |>).

(** kernel/keyboard.s:147-151 *)
Definition toggle_led (bit : Z) (kb : kbd) : K kbd :=
  set_leds (kb <| leds ::= fun l => Z.lxor l bit |>).

(** kernel/keyboard.s:404-409: the controller resets the machine; the run of
    the kernel ends. *)
Definition reboot : K kbd :=
  kb_wait;;
  modify (fun s => s <| phys ::= fun m => <[0x473 := 0x12]> (<[0x472 := 0x34]> m) |>);;
  outb 0xfc 0x64;;
  panic "reboot".

(** kernel/keyboard.s:178-185 *)
Definition cur (kb : kbd) (eax : Z) : K kbd :=
  let al := nth (Z.to_nat eax) cur_table 0 in
  let ax := if al >? 57 then al else al + 256 * 126 in
  put_queue (Z.lor (u32 (Z.shiftl ax 16)) 0x5b1b) 0;;
  mret kb.

(** kernel/keyboard.s:157-176 *)
Definition cursor (kb : kbd) (eax : Z) : K kbd :=
  if eax <? 0x47 then mret kb
  else
    let eax := eax - 0x47 in
    if eax >? 12 then mret kb
    else if (eax =? 12) && mode_has kb 0x0c && mode_has kb 0x30 then reboot
    else if (e0 kb =? 1) || negb (hasbit (leds kb) 0x02) || mode_has kb 0x03 then cur kb eax
    else put_queue (nth (Z.to_nat eax) num_table 0) 0;; mret kb.

(** kernel/keyboard.s:195-212; [%ecx] still has the value it had in the code that was
    interrupted. *)
Definition func (kb : kbd) (ecx eax : Z) : K kbd :=
  let ok_func al :=
    if s32 ecx <? 4 then mret kb
    else put_queue (nth (Z.to_nat al) func_table 0) 0;; mret kb in
  if eax <? 0x3B then mret kb
  else
    let al := eax - 0x3B in
    if al <=? 9 then ok_func al
    else
      let al := u8 (al - 18) in
      if al <? 10 then mret kb
      else if al >? 11 then mret kb
      else ok_func al.

(** kernel/keyboard.s:274-303: the character of a key, if it has one. *)
Definition self_char (kb : kbd) (eax : Z) : option Z :=
  let ebx := if mode_has kb 0x20 then alt_map else if mode_has kb 0x03 then shift_map else key_map in
  let al := nth (Z.to_nat eax) ebx 0 in
  if al =? 0 then None
  else
    let al := if mode_has kb 0x4c && (97 <=? al) && (al <=? 122) then al - 32 else al in
    let al := if mode_has kb 0x0c && (64 <=? al) && (al <? 64 + 32) then al - 64 else al in
    let al := if mode_has kb 0x10 then Z.lor al 0x80 else al in
    Some (Z.land al 0xff).

(** kernel/keyboard.s:274-305 *)
Definition do_self (kb : kbd) (eax : Z) : K kbd :=
  match self_char kb eax with
  | None => mret kb
  | Some al => put_queue al 0;; mret kb
  end.

(** kernel/keyboard.s:312-316 *)
Definition minus (kb : kbd) (eax : Z) : K kbd :=
  if e0 kb =? 1 then put_queue 47 0;; mret kb else do_self kb eax.

(** kernel/keyboard.s:101-151: the routine behind an entry of the table. *)
Definition routine (k : key) (kb : kbd) (ecx eax : Z) : K kbd :=
  match k with
  | k_none => mret kb
  | k_do_self => do_self kb eax
  | k_ctrl => mret (or_mode (side kb 0x04) kb)
  | k_unctrl => mret (and_mode (u8 (Z.lnot (side kb 0x04))) kb)
  | k_alt => mret (or_mode (side kb 0x10) kb)
  | k_unalt => mret (and_mode (u8 (Z.lnot (side kb 0x10))) kb)
  | k_lshift => mret (or_mode 0x01 kb)
  | k_unlshift => mret (and_mode 0xfe kb)
  | k_rshift => mret (or_mode 0x02 kb)
  | k_unrshift => mret (and_mode 0xfd kb)
  | k_caps => caps kb
  | k_uncaps => mret (and_mode 0x7f kb)
  | k_scroll => toggle_led 1 kb
  | k_num => toggle_led 2 kb
  | k_cursor => cursor kb eax
  | k_func => func kb ecx eax
  | k_minus => minus kb eax
  end.

(** kernel/keyboard.s:36-44, 68-71: what a scan code does before the controller is told
    that it was taken. *)
Definition scan_code (kb : kbd) (ecx code : Z) : K kbd :=
  if code =? 0xe0 then mret (kb <| e0 := 1 |>)
  else if code =? 0xe1 then mret (kb <| e0 := 2 |>)
  else
    kb ← routine (nth (Z.to_nat code) key_table k_none) kb ecx code;
    mret (kb <| e0 := 0 |>).

(** kernel/keyboard.s:27-71 *)
Definition keyboard_interrupt (kb : kbd) (ecx : Z) : K kbd :=
  code ← inb 0x60;
  kb ← scan_code kb ecx code;
  al ← inb 0x61;
  outb (Z.lor al 0x80) 0x61;;
  outb (Z.land (Z.lor al 0x80) 0x7F) 0x61;;
  outb 0x20 0x20;;
  do_tty_interrupt 0;;
  mret kb.
End keyboard.

(** ** What goes into the queue *)

(** The bytes of a register, the first in the lowest place. *)
Definition pack (bs : list Z) : Z := foldr (fun b r => b + 256 * r) 0 bs.

Lemma pack_range bs : Forall (fun b => 0 <= b < 256) bs -> 0 <= pack bs < 256 ^ Z.of_nat (length bs).
Proof.
  induction 1 as [|b bs Hb _ IH]; simpl length; [simpl; lia|].
  rewrite Nat2Z.inj_succ, Z.pow_succ_r by lia. change (pack (b :: bs)) with (b + 256 * pack bs). lia.
Qed.
Lemma pack_pos b bs : 0 < b -> Forall (fun b => 0 <= b < 256) bs -> 0 < pack (b :: bs).
Proof. intros Hb Hbs%pack_range. change (pack (b :: bs)) with (b + 256 * pack bs). lia. Qed.

(** [put_queue] stops at the first zero byte after the first byte. *)
Definition queueable (bs : list Z) : Prop :=
  Forall (fun b => 0 <= b < 256) bs /\ Forall (fun b => 0 < b) (tl bs) /\ (1 <= length bs <= 4)%nat.

Definition with_q (q : tty_queue) (s : kstate) : kstate :=
  s <| tty_table ::= fun t => <[0 := (t 0) <| tt_read_q := q |>]> t |>.

Lemma with_q_fuse q q' s : with_q q (with_q q' s) = with_q q s.
Proof. unfold with_q, set_field. simpl. by rewrite arr_same. Qed.
Lemma read_with_q q s : tt_read_q (tty_table (with_q q s) 0) = q.
Proof. unfold with_q. simpl. reflexivity. Qed.
Lemma set_read_q_run f q s : set_read_q f (with_q q s) = Ret tt (with_q (f q) s).
Proof. 
  unfold set_read_q, settty, modify, with_q, set_field. simpl. by rewrite arr_same.
Qed.
Lemma with_q_same s : with_q (tt_read_q (tty_table s 0)) s = s.
Proof.
  unfold with_q. destruct s as [? ? ? ? ? ? ? ? ? ? ? ? ? ? ? ? ? ? ? ? ? ? ? ? t]. unfold set_field. simpl.
  f_equal. assert (E : {| tt_termios := tt_termios (t 0); tt_pgrp := tt_pgrp (t 0);
    tt_stopped := tt_stopped (t 0); tt_write := tt_write (t 0); tt_read_q := tt_read_q (t 0);
    tt_write_q := tt_write_q (t 0); tt_secondary := tt_secondary (t 0) |} = t 0) by (by destruct (t 0)).
  rewrite E. apply arr_id.
Qed.

Lemma stored_snoc pre b q : stored (pre ++ [b]) q =
  (stored pre q) <| q_buf ::= <[q_head (puts pre q) := u8 b]> |>.
Proof. unfold stored, puts. rewrite foldl_app. reflexivity. Qed.

Lemma put_round_run b bs pre q s :
  queue_ok q -> queueable (b :: bs) -> CHARS q + Z.of_nat (length pre) <= 1023 ->
  put_round (pack (b :: bs), 0, q_head (puts pre q)) (with_q (stored pre q) s) =
    Ret (if CHARS q + Z.of_nat (length pre) =? 1023 then inr None
         else if decide (bs = []) then inr (Some (q_head (puts (pre ++ [b]) q)))
         else inl (pack bs, 0, q_head (puts (pre ++ [b]) q)))
        (with_q (stored (pre ++ [b]) q) s).
Proof.
  intros Hq (Hb & Hp & Hn) Hc. apply Forall_cons_1 in Hb as [Hb Hbs].
  unfold put_round. rewrite (bind_Ret _ _ _ _ _ (set_read_q_run (fun q => q <| q_buf ::= _ |>) _ _)).
  change (pack (b :: bs)) with (b + 256 * pack bs).
  replace (u8 (b + 256 * pack bs)) with (u8 b) by (unfold u8; dlia).
  rewrite <- stored_snoc. unfold gettty. rewrite bind_gets, read_with_q.
  replace (INC (q_head (puts pre q))) with (q_head (puts (pre ++ [b]) q))
    by (unfold puts; rewrite foldl_app; reflexivity).
  set (h := q_head (puts (pre ++ [b]) q)).
  assert (Hh : (h =? q_tail (stored (pre ++ [b]) q)) = (CHARS q + Z.of_nat (length pre) =? 1023)).
  { unfold h. rewrite puts_head, length_app by done. simpl. destruct Hq. rewrite CHARS_eq in *.
    apply eq_true_iff_eq. rewrite !Z.eqb_eq. split; intros; dlia. }
  rewrite Hh. destruct (_ =? 1023); [done|].
  pose proof (pack_range bs Hbs) as Hr.
  assert (256 ^ Z.of_nat (length bs) <= 256 ^ 3) by (apply Z.pow_le_mono_r; simpl in Hn; lia).
  replace (u32 (Z.lor (Z.shiftr (b + 256 * pack bs) 8) (Z.shiftl 0 24))) with (pack bs).
  2:{ rewrite Z.shiftl_0_l, Z.lor_0_r, Z.shiftr_div_pow2 by lia. unfold u32. change (2 ^ 8) with 256. dlia. }
  case_decide as E; [subst; done|]. destruct bs as [|b' bs]; [done|].
  simpl in Hp. apply Forall_cons_1 in Hp as [Hp _]. apply Forall_cons_1 in Hbs as [_ Hbs].
  pose proof (pack_pos b' bs Hp Hbs). destruct (Z.eqb_spec (pack (b' :: bs)) 0); [lia|done].
Qed.

Lemma queueable_tail b bs : queueable (b :: bs) -> bs <> [] -> queueable bs.
Proof.
  intros (Hb & Hp & Hn) Hne. apply Forall_cons_1 in Hb as [_ Hb]. split_and!; [done| | |].
  - destruct bs; [done|]. by apply Forall_cons_1 in Hp as [_ Hp].
  - destruct bs; simpl; [done|lia].
  - simpl in Hn. lia.
Qed.

Lemma put_loop bs : forall n pre q s,
  queue_ok q -> queueable bs -> (length bs <= n)%nat -> CHARS q + Z.of_nat (length pre) <= 1023 ->
  let room := Z.to_nat (1023 - CHARS q - Z.of_nat (length pre)) in
  loop n put_round (pack bs, 0, q_head (puts pre q)) (with_q (stored pre q) s) =
    Ret (if decide (length bs <= room)%nat then Some (q_head (puts (pre ++ bs) q)) else None)
        (with_q (stored (pre ++ take (S room) bs) q) s).
Proof.
  induction bs as [|b bs IH]; intros n pre q s Hq Hbs Hn Hc room.
  { destruct Hbs as (_ & _ & Hl). simpl in Hl. lia. }
  destruct n as [|n]; [simpl in Hn; lia|].
  pose proof (put_round_run b bs pre q s Hq Hbs Hc) as Hr. simpl take.
  destruct (Z.eqb_spec (CHARS q + Z.of_nat (length pre)) 1023) as [Hf|Hf].
  - rewrite (loop_leave _ _ _ _ _ _ Hr). assert (Hz : room = 0%nat) by lia. rewrite Hz.
    rewrite decide_False by (simpl; lia). by rewrite take_0.
  - assert (Hs : room = S (Z.to_nat (1023 - CHARS q - Z.of_nat (length (pre ++ [b]))))).
    { rewrite length_app. simpl. lia. }
    destruct (decide (bs = [])) as [->|Hne].
    + rewrite (loop_leave _ _ _ _ _ _ Hr), decide_True by (simpl; lia). by rewrite take_nil.
    + rewrite (loop_again _ _ _ _ _ _ Hr), IH; try done.
      * rewrite Hs, <- !app_assoc. simpl. do 2 case_decide; simpl in *; done || lia.
      * by apply (queueable_tail b).
      * simpl in Hn. lia.
      * rewrite length_app. simpl. lia.
Qed.

(** The bytes [bs] are taken into the read queue of the console if it has room for
    all of them; of the rest of the state only the ports and a process that waits
    on the queue may differ. *)
Definition read_q (s : kstate) : tty_queue := tt_read_q (tty_table s 0).

Record typed_into (bs : list Z) (s s' : kstate) : Prop := {
  ti_chars : q_list (read_q s') = q_list (read_q s) ++
    (if CHARS (read_q s) + Z.of_nat (length bs) <=? 1023 then map s8 bs else []);
  ti_ok : queue_ok (read_q s');
  ti_rest : s' = with_q (read_q s') (s <| tsk := tsk s' |> <| ports := ports s' |> <| inputs := inputs s' |>);
  ti_wake : forall p, tsk s' p = tsk s p \/
    q_proc_list (read_q s) = Some p /\ tsk s' p = (tsk s p) <| t_state := TASK_RUNNING |>;
}.

Lemma with_q_eq q s : q = tt_read_q (tty_table s 0) -> with_q q s = s.
Proof. intros ->. apply with_q_same. Qed.

Lemma typed_frame bs s q f po i : queue_ok q ->
  q_list q = q_list (read_q s) ++ (if CHARS (read_q s) + Z.of_nat (length bs) <=? 1023 then map s8 bs else []) ->
  (forall p, f p = tsk s p \/ q_proc_list (read_q s) = Some p /\ f p = (tsk s p) <| t_state := TASK_RUNNING |>) ->
  typed_into bs s (with_q q (s <| tsk := f |> <| ports := po |> <| inputs := i |>)).
Proof. intros Hq Hl Hf. split; try done; unfold read_q at 1; by rewrite read_with_q. Qed.

Lemma typed_nothing s po i : queue_ok (read_q s) -> typed_into [] s (s <| ports := po |> <| inputs := i |>).
Proof.
  intros Hq. assert (E : s <| ports := po |> <| inputs := i |> =
    with_q (read_q s) (s <| tsk := tsk s |> <| ports := po |> <| inputs := i |>)).
  { transitivity (s <| tsk := tsk s |> <| ports := po |> <| inputs := i |>); [by destruct s|].
    symmetry. by apply with_q_eq. }
  rewrite E. apply typed_frame; auto. case_match; by rewrite app_nil_r.
Qed.

Lemma puts_fields bs q : q_data (puts bs q) = q_data q /\ q_proc_list (puts bs q) = q_proc_list q.
Proof. revert q. induction bs as [|c bs IH]; intros q; [done|]. rewrite puts_cons. by destruct (IH (PUTCH c q)). Qed.

Lemma put_queue_run bs s : queue_ok (read_q s) -> queueable bs ->
  exists s', put_queue (pack bs) 0 s = Ret tt s' /\ typed_into bs s s'.
Proof.
  intros Hq Hbs. unfold put_queue, gettty. rewrite bind_gets. change (tt_read_q (tty_table s 0)) with (read_q s).
  set (q := read_q s) in *. pose proof (chars_range q) as Hr.
  pose proof (put_loop bs 8 [] q s Hq Hbs) as Hl. destruct Hbs as (_ & _ & Hn).
  specialize (Hl ltac:(lia) ltac:(simpl; lia)). simpl in Hl. rewrite Z.sub_0_r in Hl.
  assert (E0 : with_q (stored [] q) s = s) by (apply with_q_eq; unfold q, read_q; by destruct (tt_read_q _)).
  rewrite E0 in Hl.
  rewrite (bind_Ret _ _ _ _ _ Hl). fold q.
  destruct (decide (length bs <= _)%nat) as [Hf|Hf].
  - rewrite take_ge by lia.
    assert (Hs : set_read_q (fun q' => q' <| q_head := q_head (puts bs q) |>) (with_q (stored bs q) s) =
      Ret tt (with_q (puts bs q) s)).
    { rewrite set_read_q_run. f_equal. f_equal. destruct (puts_fields bs q) as [E1 E2]. unfold stored.
      pose proof (puts_tail bs q) as E3. destruct (puts bs q), q. simpl in *. by subst. }
    rewrite (bind_Ret _ _ _ _ _ Hs), bind_gets, read_with_q.
    assert (Hlist : q_list (puts bs q) = q_list q ++
      (if CHARS q + Z.of_nat (length bs) <=? 1023 then map s8 bs else [])).
    { destruct (Z.leb_spec (CHARS q + Z.of_nat (length bs)) 1023); [|lia]. by apply q_list_puts. }
    rewrite (proj2 (puts_fields bs q)). destruct (q_proc_list q) as [p|] eqn:Ep.
    + eexists. split; [reflexivity|].
      refine (typed_frame bs s (puts bs q) (<[p := (tsk s p) <| t_state := TASK_RUNNING |>]> (tsk s))
        (ports s) (inputs s) _ _ _); [by apply puts_ok|done|].
      intros p'. arr_decide; subst; auto.
    + eexists. split; [reflexivity|].
      refine (typed_frame bs s (puts bs q) (tsk s) (ports s) (inputs s) _ _ _); auto. by apply puts_ok.
  - eexists. split; [reflexivity|].
    refine (typed_frame bs s (stored (take _ bs) q) (tsk s) (ports s) (inputs s) _ _ _); auto.
    + destruct Hq. by split.
    + fold q. destruct (Z.leb_spec (CHARS q + Z.of_nat (length bs)) 1023); [lia|].
      rewrite app_nil_r. apply q_list_stored; [done|]. rewrite length_take. lia.
Qed.

(** ** The modifier keys

    What a user sees of the keyboard: which modifier keys are down, and the three
    locks.  A key that comes after the prefix E0 (or E1) is the one on the right. *)

Inductive mod_key : Set := Lshift | Rshift | Lctrl | Rctrl | Lalt | Ralt | Capslock.
#[export] Instance mod_key_eq : EqDecision mod_key.
Proof. solve_decision. Defined.

Record pad : Type := mk_pad {
  held : mod_key -> bool;
  caps_lock : bool; num_lock : bool; scroll_lock : bool;
  prefix : Z;
}.

Definition mod_of (prefix code : Z) : option mod_key :=
  if code =? 0x2a then Some Lshift
  else if code =? 0x36 then Some Rshift
  else if code =? 0x1d then Some (if prefix =? 0 then Lctrl else Rctrl)
  else if code =? 0x38 then Some (if prefix =? 0 then Lalt else Ralt)
  else if code =? 0x3a then Some Capslock
  else None.

(** A key goes down with a code below 128 and up with the code 128 above it. *)
Definition strike (code : Z) (p : pad) : pad :=
  if code =? 0xe0 then mk_pad (held p) (caps_lock p) (num_lock p) (scroll_lock p) 1
  else if code =? 0xe1 then mk_pad (held p) (caps_lock p) (num_lock p) (scroll_lock p) 2
  else
    let down := code <? 128 in
    let k := mod_of (prefix p) (if down then code else code - 128) in
    mk_pad
      (fun m => if decide (k = Some m) then down else held p m)
      (xorb (caps_lock p) (bool_decide (k = Some Capslock) && down && negb (held p Capslock)))
      (xorb (num_lock p) (code =? 0x45)) (xorb (scroll_lock p) (code =? 0x46)) 0.

Definition mod_bit (m : mod_key) : Z :=
  match m with Lshift => 0 | Rshift => 1 | Lctrl => 2 | Rctrl => 3 | Lalt => 4 | Ralt => 5 | Capslock => 7 end.

Definition pad_of (kb : kbd) : pad :=
  mk_pad (fun m => Z.testbit (mode kb) (mod_bit m))
    (Z.testbit (leds kb) 2) (Z.testbit (leds kb) 1) (Z.testbit (leds kb) 0) (e0 kb).

(** The three bytes are in range, and the copy of the caps lock in [mode] agrees
    with its light. *)
Record kbd_ok (kb : kbd) : Prop := {
  ko_mode : 0 <= mode kb < 256;
  ko_leds : 0 <= leds kb < 8;
  ko_e0 : 0 <= e0 kb <= 2;
  ko_caps : Z.testbit (mode kb) 6 = Z.testbit (leds kb) 2;
}.

(** The bytes after a key. *)
Definition next (k : key) (kb : kbd) : kbd :=
  match k with
  | k_ctrl => or_mode (side kb 0x04) kb
  | k_unctrl => and_mode (u8 (Z.lnot (side kb 0x04))) kb
  | k_alt => or_mode (side kb 0x10) kb
  | k_unalt => and_mode (u8 (Z.lnot (side kb 0x10))) kb
  | k_lshift => or_mode 0x01 kb
  | k_unlshift => and_mode 0xfe kb
  | k_rshift => or_mode 0x02 kb
  | k_unrshift => and_mode 0xfd kb
  | k_caps => if mode_has kb 0x80 then kb else kb <| leds ::= fun l => Z.lxor l 4 |>
      <| mode ::= fun m => Z.lor (Z.lxor m 0x40) 0x80 |>
  | k_uncaps => and_mode 0x7f kb
  | k_scroll => kb <| leds ::= fun l => Z.lxor l 1 |>
  | k_num => kb <| leds ::= fun l => Z.lxor l 2 |>
  | _ => kb
  end.

(** The bytes a scan code types. *)
Definition typed (kb : kbd) (ecx code : Z) : list Z :=
  match nth (Z.to_nat code) key_table k_none with
  | k_do_self => option_list (self_char kb code)
  | k_minus => if e0 kb =? 1 then [47] else option_list (self_char kb code)
  | k_func =>
      if s32 ecx <? 4 then []
      else [27; 91; 91; 65 + (if code <=? 0x44 then code - 0x3b else code - 0x57 + 10)]
  | k_cursor =>
      if (e0 kb =? 1) || negb (Z.testbit (leds kb) 1) || Z.testbit (mode kb) 0 || Z.testbit (mode kb) 1
      then let c := nth (Z.to_nat (code - 0x47)) cur_table 0 in
           [27; 91; c] ++ (if c <=? 57 then [126] else [])
      else [nth (Z.to_nat (code - 0x47)) num_table 0]
  | _ => []
  end.

(** ** What the keys type

    The keys as they are labelled: by its code, what each types alone and with a shift.
    With a shift four keys of the right half and the key < type nothing. *)
Definition legends (from : Z) (plain shifted : list Z) : list (Z * (Z * Z)) :=
  zip (seqZ from (Z.of_nat (length plain))) (zip plain shifted).
Definition layout : list (Z * (Z * Z)) :=
  legends 0x01 ([27] ++ chars "1234567890-=" ++ [127; 9]) ([27] ++ chars "!@#$%^&*()_+" ++ [127; 9]) ++
  legends 0x10 (chars "qwertyuiop[]" ++ [10]) (chars "QWERTYUIOP{}" ++ [10]) ++
  legends 0x1e (chars "asdfghjkl;'`") (chars "ASDFGHJKL:" ++ [34] ++ chars "~") ++
  legends 0x2b (chars "\zxcvbnm,./") (chars "|ZXCVBNM<>?") ++
  [(0x37, (42, 0)); (0x39, (32, 0)); (0x4a, (45, 0)); (0x4e, (43, 0)); (0x56, (60, 0))].
(** The keys that type something with the right alt key. *)
Definition third_level : list (Z * Z) :=
  [(0x03, 64); (0x05, 36); (0x08, 123); (0x09, 91); (0x0a, 93); (0x0b, 125); (0x0c, 92); (0x1b, 126); (0x1c, 10);
   (0x56, 124)].
(** The keypad: a key's digit and what it sends as a cursor key. *)
Definition keypad : list (Z * (string * string)) :=
  [(0x47, ("7", "H")); (0x48, ("8", "A")); (0x49, ("9", "5~")); (0x4b, ("4", "D")); (0x4c, ("5", "G"));
   (0x4d, ("6", "C")); (0x4f, ("1", "Y")); (0x50, ("2", "B")); (0x51, ("3", "6~")); (0x52, ("0", "2~"));
   (0x53, (",", "3~"))].
(** F1 to F12. *)
Definition function_keys : list Z := seqZ 0x3b 10 ++ [0x57; 0x58].

Fixpoint entry {A} (code : Z) (l : list (Z * A)) : option A :=
  match l with [] => None | (c, x) :: l => if c =? code then Some x else entry code l end.
Fixpoint index (code : Z) (l : list Z) : option Z :=
  match l with [] => None | c :: l => if c =? code then Some 0 else Z.succ <$> index code l end.

Definition shift_down (p : pad) : bool := held p Lshift || held p Rshift.
Definition ctrl_down (p : pad) : bool := held p Lctrl || held p Rctrl.
Definition alt_down (p : pad) : bool := held p Lalt || held p Ralt.

(** The character of an ordinary key: a letter is a capital with caps lock or ctrl, ctrl
    turns what lies between @ and _ into a control character, the left alt key adds 128. *)
Definition key_char (p : pad) (code : Z) : option Z :=
  c ← (if held p Ralt then entry code third_level
       else (if shift_down p then snd else fst) <$> entry code layout);
  if c =? 0 then None
  else
    let c := if (caps_lock p || ctrl_down p) && (97 <=? c) && (c <=? 122) then c - 32 else c in
    let c := if ctrl_down p && (64 <=? c) && (c <=? 95) then c - 64 else c in
    Some (if held p Lalt then c + 128 else c).

(** What a key types; a function key only if the register [ecx] of the interrupted code
    happens to be at least 4. *)
Definition types (p : pad) (ecx code : Z) : list Z :=
  match entry code keypad with
  | Some (digit, send) =>
      if (prefix p =? 1) || negb (num_lock p) || shift_down p then chars (String (Ascii.ascii_of_nat 27) "[") ++ chars send
      else chars digit
  | None =>
      match index code function_keys with
      | Some n => if 4 <=? s32 ecx then [27; 91; 91; 65 + n] else []
      | None => if (code =? 0x35) && (prefix p =? 1) then chars "/" else option_list (key_char p code)
      end
  end.

(** Ctrl, alt and Del are down. *)
Definition reboots (p : pad) (code : Z) : bool := (code =? 0x53) && ctrl_down p && alt_down p.

Definition mods : list mod_key := [Lshift; Rshift; Lctrl; Rctrl; Lalt; Ralt; Capslock].

Definition pad_eqb (p q : pad) : bool :=
  forallb (fun m => Bool.eqb (held p m) (held q m)) mods &&
  Bool.eqb (caps_lock p) (caps_lock q) && Bool.eqb (num_lock p) (num_lock q) &&
  Bool.eqb (scroll_lock p) (scroll_lock q) && (prefix p =? prefix q).

Lemma pad_eqb_eq p q : pad_eqb p q = true -> p = q.
Proof.
  unfold pad_eqb. rewrite !andb_true_iff, !Bool.eqb_true_iff, Z.eqb_eq, forallb_forall.
  intros ((((Hm & ?) & ?) & ?) & ?). destruct p as [h ? ? ? ?], q as [h' ? ? ? ?]. simpl in *. subst. f_equal.
  apply functional_extensionality. intros m. apply Bool.eqb_prop, Hm. destruct m; simpl; tauto.
Qed.

Definition kbd_okb (kb : kbd) : bool :=
  (0 <=? mode kb) && (mode kb <? 256) && (0 <=? leds kb) && (leds kb <? 8) && (0 <=? e0 kb) &&
  (e0 kb <=? 2) && Bool.eqb (Z.testbit (mode kb) 6) (Z.testbit (leds kb) 2).

Lemma kbd_okb_ok kb : kbd_okb kb = true <-> kbd_ok kb.
Proof.
  unfold kbd_okb. rewrite !andb_true_iff, Bool.eqb_true_iff, !Z.leb_le, !Z.ltb_lt.
  split; [intros H; split; try tauto; lia|intros [? ? ? ?]; split_and!; try done; lia].
Qed.

Definition all_kbd : list kbd :=
  m ← seqZ 0 256; l ← seqZ 0 8; e ← seqZ 0 3; [mk_kbd m l e].

Lemma in_all_kbd kb : kbd_ok kb -> kb ∈ all_kbd.
Proof.
  intros [? ? ? ?]. unfold all_kbd. apply list_elem_of_bind. exists (mode kb).
  split; [|apply elem_of_seqZ; lia]. apply list_elem_of_bind. exists (leds kb).
  split; [|apply elem_of_seqZ; lia]. apply list_elem_of_bind. exists (e0 kb).
  split; [|apply elem_of_seqZ; lia]. destruct kb. by apply list_elem_of_singleton.
Qed.

(** The keys that change the state. *)
Definition loud : list Z := [0x1d; 0x2a; 0x36; 0x38; 0x3a; 0x45; 0x46; 0x9d; 0xaa; 0xb6; 0xb8; 0xba].

Definition key_of (code : Z) : key := nth (Z.to_nat code) key_table k_none.

Definition loud_check (code : Z) : bool :=
  let k := key_of code in
  forallb (fun kb => let kb' := (next k kb) <| e0 := 0 |> in
    negb (kbd_okb kb) || pad_eqb (pad_of kb') (strike code (pad_of kb)) && kbd_okb kb') all_kbd.

Lemma loud_keys kb code : kbd_ok kb -> code ∈ loud ->
  let kb' := (next (key_of code) kb) <| e0 := 0 |> in
  pad_of kb' = strike code (pad_of kb) /\ kbd_ok kb'.
Proof.
  assert (E : forallb loud_check loud = true) by (vm_compute; reflexivity).
  rewrite forallb_forall in E. intros Hok Hc%list_elem_of_In kb'. specialize (E code Hc).
  unfold loud_check in E. rewrite forallb_forall in E.
  specialize (E kb (proj1 (list_elem_of_In _ _) (in_all_kbd kb Hok))). cbv zeta in E.
  apply orb_true_iff in E as [E|E].
  - apply kbd_okb_ok in Hok. by rewrite Hok in E.
  - apply andb_true_iff in E as [E1 E2]. split; [by apply pad_eqb_eq|by apply kbd_okb_ok].
Qed.

Definition quiet (k : key) : bool :=
  match k with k_none | k_do_self | k_cursor | k_func | k_minus => true | _ => false end.

Lemma quiet_keys code : 0 <= code < 256 -> code ∉ loud -> code <> 0xe0 -> code <> 0xe1 ->
  quiet (key_of code) = true /\ forall p, strike code p = mk_pad (held p) (caps_lock p) (num_lock p) (scroll_lock p) 0.
Proof.
  intros Hc Hl H0 H1.
  assert (E : forallb (fun code => bool_decide (code ∈ loud) || quiet (key_of code)) (seqZ 0 256) = true)
    by (vm_compute; reflexivity).
  rewrite forallb_forall in E. specialize (E code). rewrite <- list_elem_of_In, elem_of_seqZ in E.
  specialize (E ltac:(lia)). rewrite bool_decide_false in E by done. split; [done|]. intros p.
  unfold strike. rewrite !(proj2 (Z.eqb_neq _ _)) by done.
  assert (Hn : forall x, code <> x -> (code =? x) = false) by (intros; by apply Z.eqb_neq).
  unfold loud in Hl. rewrite !not_elem_of_cons in Hl.
  assert (Hm : mod_of (prefix p) (if code <? 128 then code else code - 128) = None).
  { unfold mod_of. destruct (Z.ltb_spec code 128); repeat (case_match; [lia|]); done. }
  rewrite Hm, (Hn 0x45), (Hn 0x46), !xorb_false_r by tauto. simpl.
  done.
Qed.

Lemma self_char_range kb c x : self_char kb c = Some x -> 0 <= x < 256.
Proof.
  unfold self_char. case_match; [done|]. intros [= <-]. change 0xff with (Z.ones 8).
  rewrite Z.land_ones by lia. apply Z.mod_pos_bound. lia.
Qed.

Lemma queueable_1 c : 0 <= c < 256 -> queueable [c].
Proof. intros. split; [constructor; [done|constructor]|]. split; [constructor|simpl; lia]. Qed.

Section routines.
Context `{Machine}.

Lemma kb_wait_run s :
  match kb_wait s with Ret _ s' => exists i, s' = s <| inputs := i |> | NoFuel => True | _ => False end.
Proof.
  unfold kb_wait. set (c := (v ← inb 0x64; mret (hasbit v 0x02)) : K bool).
  assert (Hc : forall s, exists b, c s = Ret b (s <| inputs ::= Z.succ |>)) by (intros; by eexists).
  generalize fuel. intros n. revert s. induction n as [|n IH]; intros s; simpl; destruct (Hc s) as [b Hb].
  - rewrite (bind_Ret _ _ _ _ _ Hb). destruct b; simpl; eauto.
  - rewrite (bind_Ret _ _ _ _ _ Hb). destruct b; [|simpl; eauto]. rewrite bind_mret.
    specialize (IH (s <| inputs ::= Z.succ |>)). destruct (while _ _ _ _); try done.
Qed.

(** Code that only talks to the controller, and may wait for it for ever. *)
Definition talks {A} (a : A) (r : res kstate A) (s : kstate) : Prop :=
  match r with
  | Ret a' s' => a' = a /\ exists po i, s' = s <| ports := po |> <| inputs := i |>
  | NoFuel => True
  | _ => False
  end.

Lemma talks_wait {A} (a : A) f s s0 :
  (forall i, talks a (f tt (s <| inputs := i |>)) s0) -> talks a ((kb_wait ≫= f) s) s0.
Proof.
  intros Hf. pose proof (kb_wait_run s) as H1. unfold mbind, M_bind.
  destruct (kb_wait s) as [[] s1| | | |]; try done. destruct H1 as [i ->]. apply Hf.
Qed.

Lemma set_leds_run kb s : talks kb (set_leds kb s) s.
Proof.
  apply talks_wait. intros i. erewrite bind_Ret by reflexivity. apply talks_wait. intros j.
  split; [done|]. eexists _, _. reflexivity.
Qed.
End routines.

(** A fact about every byte, decided. *)
Lemma bytes_forall (f : Z -> bool) x : forallb f (seqZ 0 256) = true -> 0 <= x < 256 -> f x = true.
Proof. intros Hf Hx. rewrite forallb_forall in Hf. apply Hf, list_elem_of_In, elem_of_seqZ. lia. Qed.

Definition code_check (code : Z) : bool :=
  match key_of code with
  | k_func => (0x3b <=? code) && (code <=? 0x44) || (code =? 0x57) || (code =? 0x58)
  | k_cursor => (0x47 <=? code) && (code <=? 0x53)
  | k_caps => code =? 0x3a | k_scroll => code =? 0x46 | k_num => code =? 0x45
  | _ => true
  end.
Lemma code_ok code : 0 <= code < 256 -> code_check code = true.
Proof. by apply bytes_forall. Qed.

Lemma mode_masks m : 0 <= m < 256 ->
  hasbit m 0x03 = Z.testbit m 0 || Z.testbit m 1 /\ hasbit m 0x0c = Z.testbit m 2 || Z.testbit m 3 /\
  hasbit m 0x30 = Z.testbit m 4 || Z.testbit m 5 /\ hasbit m 0x02 = Z.testbit m 1.
Proof.
  intros Hm. pose proof (bytes_forall (fun m => Bool.eqb (hasbit m 0x03) (Z.testbit m 0 || Z.testbit m 1) &&
    Bool.eqb (hasbit m 0x0c) (Z.testbit m 2 || Z.testbit m 3) &&
    Bool.eqb (hasbit m 0x30) (Z.testbit m 4 || Z.testbit m 5) &&
    Bool.eqb (hasbit m 0x02) (Z.testbit m 1)) m ltac:(by vm_compute) Hm) as E.
  simpl in E. rewrite !andb_true_iff, !Bool.eqb_true_iff in E. tauto.
Qed.

(** The words that [func] and [cur] put into the queue. *)
Lemma func_word al : 0 <= al <= 11 -> nth (Z.to_nat al) func_table 0 = pack [27; 91; 91; 65 + al].
Proof.
  intros Hal. assert (E : forallb (fun al => nth (Z.to_nat al) func_table 0 =? pack [27; 91; 91; 65 + al])
    (seqZ 0 12) = true) by reflexivity.
  rewrite forallb_forall in E. apply Z.eqb_eq, E, list_elem_of_In, elem_of_seqZ. lia.
Qed.
Lemma cur_word n : 0 <= n <= 12 ->
  let c := nth (Z.to_nat n) cur_table 0 in
  Z.lor (u32 (Z.shiftl (if c >? 57 then c else c + 256 * 126) 16)) 0x5b1b =
    pack ([27; 91; c] ++ if c <=? 57 then [126] else []) /\ 32 <= c < 127 /\
  0 <= nth (Z.to_nat n) num_table 0 < 127.
Proof.
  intros Hn. assert (E : forallb (fun n => let c := nth (Z.to_nat n) cur_table 0 in
    (Z.lor (u32 (Z.shiftl (if c >? 57 then c else c + 256 * 126) 16)) 0x5b1b =?
    pack ([27; 91; c] ++ if c <=? 57 then [126] else [])) && (32 <=? c) && (c <? 127) &&
    (0 <=? nth (Z.to_nat n) num_table 0) && (nth (Z.to_nat n) num_table 0 <? 127)) (seqZ 0 13) = true)
    by reflexivity.
  rewrite forallb_forall in E. specialize (E n). rewrite <- list_elem_of_In, elem_of_seqZ in E.
  specialize (E ltac:(lia)). cbv zeta in E. rewrite !andb_true_iff, Z.eqb_eq, !Z.leb_le, !Z.ltb_lt in E.
  cbv zeta. intuition.
Qed.

Section spec.
Context `{Machine}.

(** The machine is told to reset itself, with the mark of a warm start in memory. *)
Definition reset (s s' : kstate) : Prop :=
  ports s' = (0x64, 0xfc) :: ports s /\ phys s' = <[0x473 := 0x12]> (<[0x472 := 0x34]> (phys s)).

(** How a routine may end. *)
Definition answer (kb kb' : kbd) (bs : list Z) (code : Z) (s : kstate) (r : res kstate kbd) : Prop :=
  match r with
  | Ret k s' => k = kb' /\ typed_into bs s s'
  | Panic m s' => m = "reboot" /\ reboots (pad_of kb) code = true /\ reset s s'
  | NoFuel => code ∈ [0x3a; 0x45; 0x46; 0x53]
  | _ => False
  end.

Lemma put_answer bs w kb code s : queue_ok (read_q s) -> queueable bs -> w = pack bs ->
  answer kb kb bs code s ((put_queue w 0;; mret kb) s).
Proof.
  intros Hq Hbs ->. destruct (put_queue_run bs s Hq Hbs) as (s' & Hs & Ht).
  by rewrite (bind_Ret _ _ _ _ _ Hs).
Qed.

Lemma leds_answer kb0 kb code s : queue_ok (read_q s) -> code ∈ [0x3a; 0x45; 0x46; 0x53] ->
  answer kb0 kb [] code s (set_leds kb s).
Proof.
  intros Hq Hc. pose proof (set_leds_run kb s) as Hl. destruct (set_leds kb s); try done.
  destruct Hl as (-> & po & i & ->). split; [done|by apply typed_nothing].
Qed.

Lemma still_answer kb0 kb code s : queue_ok (read_q s) -> answer kb0 kb [] code s (Ret kb s).
Proof.
  intros Hq. split; [done|]. replace s with (s <| ports := ports s |> <| inputs := inputs s |>) at 2 by (by destruct s).
  by apply typed_nothing.
Qed.

Lemma do_self_answer kb code s : queue_ok (read_q s) ->
  answer kb kb (option_list (self_char kb code)) code s (do_self kb code s).
Proof.
  intros Hq. unfold do_self. destruct (self_char kb code) as [c|] eqn:Hc; [|by apply still_answer].
  apply self_char_range in Hc. apply put_answer; [done|by apply queueable_1|simpl; lia].
Qed.

Lemma func_answer kb ecx code s : queue_ok (read_q s) -> 0 <= code < 256 -> key_of code = k_func ->
  answer kb kb (typed kb ecx code) code s (func kb ecx code s).
Proof.
  intros Hq Hc Hk. pose proof (code_ok code Hc) as E. unfold code_check in E. unfold typed.
  change (nth (Z.to_nat code) key_table k_none) with (key_of code). rewrite Hk in *.
  rewrite !orb_true_iff, andb_true_iff, !Z.leb_le, !Z.eqb_eq in E.
  unfold func. destruct (Z.ltb_spec code 0x3B); [lia|].
  assert (Hok : forall al, 0 <= al <= 11 -> answer kb kb (if s32 ecx <? 4 then [] else [27; 91; 91; 65 + al]) code s
    ((if s32 ecx <? 4 then mret kb else put_queue (nth (Z.to_nat al) func_table 0) 0;; mret kb) s)).
  { intros al Hal. destruct (s32 ecx <? 4); [by apply still_answer|].
    apply put_answer; [done| |by apply func_word].
    split; [|split; [|simpl; lia]]; repeat (constructor; [lia|]); constructor. }
  destruct (Z.leb_spec (code - 0x3B) 9), (Z.leb_spec code 0x44); try lia; [apply Hok; lia|].
  replace (u8 (code - 0x3B - 18)) with (code - 0x57 + 10) by (unfold u8; destruct E as [[?| ->]| ->]; [lia|done|done]).
  destruct (Z.ltb_spec (code - 0x57 + 10) 10); [lia|]. rewrite Z.gtb_ltb.
  destruct (Z.ltb_spec 11 (code - 0x57 + 10)); [lia|]. apply Hok. lia.
Qed.

Lemma cursor_answer kb ecx code s : kbd_ok kb -> queue_ok (read_q s) -> 0 <= code < 256 -> key_of code = k_cursor ->
  answer kb kb (typed kb ecx code) code s (cursor kb code s).
Proof.
  intros [Hm Hl _ _] Hq Hc Hk. pose proof (code_ok code Hc) as E. unfold code_check in E. unfold typed.
  change (nth (Z.to_nat code) key_table k_none) with (key_of code). rewrite Hk in *.
  rewrite andb_true_iff, !Z.leb_le in E. unfold cursor, mode_has.
  destruct (Z.ltb_spec code 0x47); [lia|]. rewrite Z.gtb_ltb. destruct (Z.ltb_spec 12 (code - 0x47)); [lia|].
  destruct (mode_masks (mode kb) Hm) as (E1 & E2 & E3 & _). rewrite E1, E2, E3.
  destruct (mode_masks (leds kb) ltac:(lia)) as (_ & _ & _ & E4). rewrite E4, orb_assoc.
  destruct (_ && _) eqn:Hr.
  - rewrite !andb_true_iff, Z.eqb_eq in Hr. destruct Hr as [[? Hctrl] Halt].
    unfold reboot. pose proof (kb_wait_run s) as Hw. unfold mbind, M_bind.
    destruct (kb_wait s) as [[] s1| | | |]; try done; simpl; [|apply list_elem_of_In; simpl; lia].
    destruct Hw as [i ->]. split; [done|]. split; [|by split]. unfold reboots.
    rewrite !andb_true_iff, Z.eqb_eq. split; [split; [lia|exact Hctrl]|exact Halt].
  - pose proof (cur_word (code - 0x47) ltac:(lia)) as (Hw & Hc1 & Hc2).
    unfold cur. revert Hw Hc1 Hc2. cbv zeta. generalize (nth (Z.to_nat (code - 0x47)) cur_table 0).
    generalize (nth (Z.to_nat (code - 0x47)) num_table 0). intros d c Hw Hc1 Hc2.
    destruct (_ || _ || _); [apply put_answer; [done| |exact Hw]|apply put_answer; [done| |simpl; lia]].
    + destruct (_ <=? 57); (split; [|split; [|simpl; lia]]); simpl;
        repeat (constructor; [lia|]); constructor.
    + apply queueable_1. lia.
Qed.

Lemma routine_answer kb ecx code s : kbd_ok kb -> queue_ok (read_q s) -> 0 <= code < 256 ->
  answer kb (next (key_of code) kb) (typed kb ecx code) code s (routine (key_of code) kb ecx code s).
Proof.
  intros Hk Hq Hc. pose proof (code_ok code Hc) as E. unfold code_check in E. unfold typed.
  change (nth (Z.to_nat code) key_table k_none) with (key_of code).
  destruct (key_of code) eqn:Ek; try (by apply still_answer); simpl.
  - by apply do_self_answer.
  - unfold caps. apply Z.eqb_eq in E. destruct (mode_has kb 128); [by apply still_answer|].
    apply leds_answer; [done|apply list_elem_of_In; simpl; lia].
  - apply Z.eqb_eq in E. apply leds_answer; [done|apply list_elem_of_In; simpl; lia].
  - apply Z.eqb_eq in E. apply leds_answer; [done|apply list_elem_of_In; simpl; lia].
  - pose proof (cursor_answer kb ecx code s Hk Hq Hc Ek) as Ha. unfold typed in Ha.
    change (nth (Z.to_nat code) key_table k_none) with (key_of code) in Ha. by rewrite Ek in Ha.
  - pose proof (func_answer kb ecx code s Hq Hc Ek) as Ha. unfold typed in Ha.
    change (nth (Z.to_nat code) key_table k_none) with (key_of code) in Ha. by rewrite Ek in Ha.
  - unfold minus. destruct (e0 kb =? 1); [|by apply do_self_answer].
    apply put_answer; [done|apply queueable_1; lia|done].
Qed.

(** Three keys that are down make the machine start again, and nothing else is done. *)
Lemma reboot_answer kb ecx code s : kbd_ok kb -> reboots (pad_of kb) code = true ->
  match scan_code kb ecx code s with Ret _ _ => False | _ => True end.
Proof.
  intros [Hm _ _ _] Hr. unfold reboots in Hr. rewrite !andb_true_iff, Z.eqb_eq in Hr. destruct Hr as [[-> Hctrl] Halt].
  destruct (mode_masks (mode kb) Hm) as (_ & E2 & E3 & _).
  change (scan_code kb ecx 0x53) with (kb ← cursor kb 0x53; mret (kb <| e0 := 0 |>)). unfold cursor, mode_has.
  rewrite E2, E3. change (Z.testbit (mode kb) 2 || Z.testbit (mode kb) 3 = true) in Hctrl.
  change (Z.testbit (mode kb) 4 || Z.testbit (mode kb) 5 = true) in Halt. rewrite Hctrl, Halt.
  change (0x53 <? 0x47) with false. change (0x53 - 0x47 >? 12) with false. change (0x53 - 0x47 =? 12) with true. cbn [andb].
  unfold reboot. pose proof (kb_wait_run s) as Hw. unfold mbind, M_bind. by destruct (kb_wait s).
Qed.

Lemma scan_code_run kb ecx code s : kbd_ok kb -> queue_ok (read_q s) -> 0 <= code < 256 ->
  match scan_code kb ecx code s with
  | Ret kb' s' => pad_of kb' = strike code (pad_of kb) /\ kbd_ok kb' /\ typed_into (typed kb ecx code) s s'
  | Panic m s' => m = "reboot" /\ reboots (pad_of kb) code = true /\ reset s s'
  | NoFuel => code ∈ [0x3a; 0x45; 0x46; 0x53]
  | Fault _ | Yield _ _ => False
  end.
Proof.
  intros Hk Hq Hc. unfold scan_code.
  destruct (Z.eqb_spec code 0xe0) as [->|H0]; [|destruct (Z.eqb_spec code 0xe1) as [->|H1]].
  1-2: split; [done|]; split; [destruct Hk; by split|by apply (still_answer kb kb 0)].
  pose proof (routine_answer kb ecx code s Hk Hq Hc) as Ha. change (nth (Z.to_nat code) key_table k_none) with (key_of code).
  unfold mbind, M_bind. destruct (routine _ _ _ _ _) as [k s'| | | |]; try done. destruct Ha as [-> Ht]. simpl.
  cut (pad_of ((next (key_of code) kb) <| e0 := 0 |>) = strike code (pad_of kb) /\
    kbd_ok ((next (key_of code) kb) <| e0 := 0 |>)); [tauto|]. destruct (decide (code ∈ loud)) as [Hl|Hl]; [by apply loud_keys|].
  destruct (quiet_keys code Hc Hl H0 H1) as [Hqu Hst]. rewrite Hst.
  assert (E : next (key_of code) kb = kb) by (by destruct (key_of code)). rewrite E.
  split; [done|]. destruct Hk. by split.
Qed.

(** The pad that a mode byte shows. *)
Definition mode_pad (m : Z) : pad := mk_pad (fun k => Z.testbit m (mod_bit k)) (Z.testbit m 6) false false 0.
Definition char_check (m code : Z) : bool :=
  match key_of code with
  | k_do_self | k_minus => bool_decide (self_char (mk_kbd m 0 0) code = key_char (mode_pad m) code)
  | k_cursor | k_func => true
  | _ => bool_decide (key_char (mode_pad m) code = None)
  end.
Lemma char_checks m code : 0 <= m < 256 -> 0 <= code < 256 -> char_check m code = true.
Proof.
  intros Hm Hc. refine (bytes_forall (fun m => char_check m code) m _ Hm).
  refine (bytes_forall (fun code => forallb (fun m => char_check m code) (seqZ 0 256)) code _ Hc). by vm_compute.
Qed.
(** Which kind of key a code is, in the source and by its label. *)
Definition kind_check (code : Z) : bool :=
  match key_of code, entry code keypad, index code function_keys with
  | k_cursor, Some (digit, send), _ =>
      let c := nth (Z.to_nat (code - 0x47)) cur_table 0 in
      bool_decide (chars send = c :: (if c <=? 57 then [126] else [])) &&
      bool_decide (chars digit = [nth (Z.to_nat (code - 0x47)) num_table 0])
  | k_func, None, Some n => (if code <=? 0x44 then code - 0x3b else code - 0x57 + 10) =? n
  | k_minus, None, None => code =? 0x35
  | (k_cursor | k_func | k_minus), _, _ => false
  | _, None, None => negb (code =? 0x35)
  | _, _, _ => false
  end.
Lemma kind_checks code : 0 <= code < 256 -> kind_check code = true.
Proof. apply bytes_forall. by vm_compute. Qed.

Lemma typed_types kb ecx code : kbd_ok kb -> 0 <= code < 256 -> typed kb ecx code = types (pad_of kb) ecx code.
Proof.
  intros Hk Hc. pose proof (kind_checks code Hc) as Hkind. pose proof (char_checks (mode kb) code (ko_mode _ Hk) Hc) as Hch.
  assert (Hp : key_char (pad_of kb) code = key_char (mode_pad (mode kb)) code).
  { unfold key_char, pad_of, mode_pad, shift_down, ctrl_down. cbn [held caps_lock]. by rewrite <- (ko_caps _ Hk). }
  unfold typed, types, kind_check, char_check in *. change (nth (Z.to_nat code) key_table k_none) with (key_of code) in *.
  rewrite Hp. change (prefix (pad_of kb)) with (e0 kb). change (num_lock (pad_of kb)) with (Z.testbit (leds kb) 1).
  change (shift_down (pad_of kb)) with (Z.testbit (mode kb) 0 || Z.testbit (mode kb) 1).
  rewrite (orb_assoc (_ || _)). change (self_char kb code) with (self_char (mk_kbd (mode kb) 0 0) code).
  destruct (entry code keypad) as [[digit send]|], (index code function_keys) as [n|], (key_of code);
    try discriminate Hkind; try (apply bool_decide_eq_true in Hch; rewrite Hch); try apply negb_true_iff in Hkind.
  all: rewrite ?Hkind; try done.
  1-2: apply andb_true_iff in Hkind as [E1%bool_decide_eq_true E2%bool_decide_eq_true]; by rewrite E1, E2.
  apply Z.eqb_eq in Hkind. rewrite Hkind, Z.leb_antisym. by destruct (s32 ecx <? 4).
Qed.

(** C28: The keyboard interrupt implements a keyboard seen as a set of modifier
    keys held down, three locks and the prefix of the next code, with a layout
    given on its own: every scan code presses or releases exactly the key it
    names, turns caps lock once for each press and num and scroll lock at each
    make code, and appends to the console's read queue the characters of the key
    in that state, all of them or, when they do not all fit, none. A function
    key types its sequence only if the register ecx of the interrupted code is
    at least 4. The computer is reset, with the mark for a warm start, exactly
    for Del with ctrl and alt held; the only other way not to return is to wait
    for the keyboard controller for ever. *)
Theorem keyboard_types kb ecx code s :
  kbd_ok kb -> queue_ok (read_q s) -> 0 <= code < 256 ->
  match scan_code kb ecx code s with
  | Ret kb' s' =>
      pad_of kb' = strike code (pad_of kb) /\ kbd_ok kb' /\ typed_into (types (pad_of kb) ecx code) s s' /\
      reboots (pad_of kb) code = false
  | Panic m s' => m = "reboot" /\ reboots (pad_of kb) code = true /\ reset s s'
  | NoFuel => code ∈ [0x3a; 0x45; 0x46; 0x53]
  | Fault _ | Yield _ _ => False
  end.
Proof.
  intros Hk Hq Hc. pose proof (reboot_answer kb ecx code s Hk) as Hre.
  pose proof (scan_code_run kb ecx code s Hk Hq Hc) as Hrun. rewrite (typed_types kb ecx code Hk Hc) in Hrun.
  destruct (scan_code kb ecx code s) as [kb' s'| | | |]; try done.
  destruct Hrun as (H1 & H2 & H3). do 3 (split; [done|]). by destruct (reboots _ _); [destruct Hre|].
Qed.
End spec.

Lemma keyboard_types_witness :
  match @scan_code quiet_machine (mk_kbd 2 2 0) 0 30 zero_kstate with
  | Ret _ s' => typed_into [65] zero_kstate s'
  | _ => False
  end.
Proof.
  assert (Hk : kbd_ok (mk_kbd 2 2 0)) by (by apply kbd_okb_ok).
  assert (Hq : queue_ok (read_q zero_kstate)) by (split; simpl; lia).
  pose proof (@keyboard_types quiet_machine (mk_kbd 2 2 0) 0 30 zero_kstate Hk Hq ltac:(lia)) as H.
  destruct (@scan_code quiet_machine (mk_kbd 2 2 0) 0 30 zero_kstate) eqn:E; try done.
  - exact (proj1 (proj2 (proj2 H))).
Defined.

(** The letters: the key gives the small letter; with either shift, or with caps lock, the
    capital; with ctrl the control character. *)
Definition letters : list Z :=
  [30; 48; 46; 32; 18; 33; 34; 35; 23; 36; 37; 38; 50; 49; 24; 25; 16; 19; 31; 20; 22; 47; 17; 45; 21; 44].
Lemma letters_typed i kb ecx : 0 <= i < 26 -> kbd_ok kb ->
  held (pad_of kb) Ralt = false -> held (pad_of kb) Lalt = false ->
  let code := nth (Z.to_nat i) letters 0 in
  typed kb ecx code =
    [(if held (pad_of kb) Lctrl || held (pad_of kb) Rctrl then 1
      else if held (pad_of kb) Lshift || held (pad_of kb) Rshift || caps_lock (pad_of kb) then 65 else 97) + i].
Proof.
  intros Hi Hk Hr Hl code.
  set (f i m := bool_decide (key_of (nth (Z.to_nat i) letters 0) = k_do_self /\
    self_char (mk_kbd m 0 0) (nth (Z.to_nat i) letters 0) =
    Some ((if Z.testbit m 2 || Z.testbit m 3 then 1
      else if Z.testbit m 0 || Z.testbit m 1 || Z.testbit m 6 then 65 else 97) + i))).
  assert (E : forallb (fun i => forallb (fun m => Z.testbit m 4 || Z.testbit m 5 || f i m) (seqZ 0 256)) (seqZ 0 26) = true)
    by (vm_compute; reflexivity).
  rewrite forallb_forall in E. specialize (E i). rewrite <- list_elem_of_In, elem_of_seqZ in E. specialize (E ltac:(lia)).
  pose proof (bytes_forall _ (mode kb) E (ko_mode _ Hk)) as Hm. change (Z.testbit (mode kb) 5 = false) in Hr.
  change (Z.testbit (mode kb) 4 = false) in Hl. cbv beta in Hm. rewrite Hr, Hl in Hm. cbn [orb] in Hm.
  apply bool_decide_eq_true in Hm as [Hm1 Hm2]. fold code in Hm1, Hm2. unfold typed.
  change (nth (Z.to_nat code) key_table k_none) with (key_of code). rewrite Hm1.
  change (self_char kb code) with (self_char (mk_kbd (mode kb) 0 0) code). rewrite Hm2.
  unfold pad_of, held, caps_lock, mod_bit. by rewrite <- (ko_caps _ Hk).
Qed.

(** With a shift down the space bar types nothing: [shift_map] has one character too many
    before it. *)
Lemma shift_space kb ecx : kbd_ok kb -> held (pad_of kb) Ralt = false ->
  held (pad_of kb) Lshift || held (pad_of kb) Rshift = true -> typed kb ecx 0x39 = [].
Proof.
  intros Hk Hr Hs. unfold typed. simpl nth. unfold self_char, mode_has.
  destruct (mode_masks (mode kb) (ko_mode _ Hk)) as (E & _). rewrite E.
  change (Z.testbit (mode kb) 5 = false) in Hr. change (Z.testbit (mode kb) 0 || Z.testbit (mode kb) 1 = true) in Hs. rewrite Hs.
  assert (E5 : hasbit (mode kb) 0x20 = Z.testbit (mode kb) 5).
  { apply Bool.eqb_prop. by apply (bytes_forall (fun m => Bool.eqb (hasbit m 0x20) (Z.testbit m 5)) _ ltac:(done)), ko_mode. }
  by rewrite E5, Hr.
Qed.
