(* ===== verification/Rsio.v ===== *)
(** The interrupt of the serial lines, kernel/rs_io.s: received bytes go into the
    read queue of the line, and each time the line is free the next byte of its
    write queue is sent. *)
From S2P Require Export Tty.
#[local] Open Scope bool_scope.

(** kernel/rs_io.s:22 *)
Definition startup : Z := 256.

(** The process that waits on a queue, if there is one, is made runnable. *)
Definition wake_queue (q : tty_queue) : K unit :=
  match q_proc_list q with
  | None => mret tt
  | Some p => sett p (fun x => x <| t_state := TASK_RUNNING |>)
  end.

Section rs.
Context `{Machine}.

(** kernel/rs_io.s:77-80; [edx] is the first port of the line. *)
Definition modem_status (edx : Z) : K unit := inb (edx + 6);; mret tt.

(** kernel/rs_io.s:83-86 *)
Definition line_status (edx : Z) : K unit := inb (edx + 5);; mret tt.

(** kernel/rs_io.s:89-105 *)
Definition read_char (tty edx : Z) : K unit :=
  al ← inb edx;
  t ← gettty tty;
  let ebx := q_head (tt_read_q t) in
  settty tty (fun t => t <| tt_read_q ::= fun q => q <| q_buf ::= <[ebx := u8 al]> |> |>);;
  let ebx := INC ebx in
  if ebx =? q_tail (tt_read_q t) then mret tt
  else
    settty tty (fun t => t <| tt_read_q ::= fun q => q <| q_head := ebx |> |>);;
    do_tty_interrupt tty.

(** kernel/rs_io.s:130-141 *)
Definition write_buffer_empty (tty edx : Z) : K unit :=
  t ← gettty tty;
  wake_queue (tt_write_q t);;
  al ← inb (edx + 1);
  outb (Z.land al 0xd) (edx + 1).

(** kernel/rs_io.s:108-128 *)
Definition write_char (tty edx : Z) : K unit :=
  t ← gettty tty;
  let q := tt_write_q t in
  let n := CHARS q in
  if n =? 0 then write_buffer_empty tty edx
  else
    when (n <=? startup) (wake_queue q);;
    outb (q_buf q (q_tail q)) edx;;
    let ebx := INC (q_tail q) in
    settty tty (fun t => t <| tt_write_q ::= fun q => q <| q_tail := ebx |> |>);;
    when (ebx =? q_head q) (write_buffer_empty tty edx).

(** kernel/rs_io.s:49-61: one round; [inr] is the jump to [end]. *)
Definition rep_int (tty edx : Z) (_ : unit) : K (unit + unit) :=
  al ← inb (edx + 2);
  if hasbit al 1 then mret (inr tt)
  else if al >? 6 then mret (inr tt)
  else
    (if al =? 0 then modem_status edx
     else if al =? 2 then write_char tty edx
     else if al =? 4 then read_char tty edx
     else line_status edx);;
    mret (inl tt).

(** kernel/rs_io.s:28-71; line 1 is [rs1_interrupt], line 2 [rs2_interrupt]. *)
Definition rs_interrupt (tty : Z) : K unit :=
  t ← gettty tty;
  loop fuel (rep_int tty (q_data (tt_read_q t))) tt;;
  outb 0x20 0x20.
End rs.

(** ** What is sent and taken *)

Section laws.
Context `{Machine}.

Lemma wake_queue_run q s : exists f, wake_queue q s = Ret tt (s <| tsk := f |>) /\
  (forall p, f p = tsk s p \/ q_proc_list q = Some p /\ f p = (tsk s p) <| t_state := TASK_RUNNING |>) /\
  forall p, q_proc_list q = Some p -> t_state (f p) = TASK_RUNNING.
Proof.
  unfold wake_queue. destruct (q_proc_list q) as [p|].
  - eexists. split; [reflexivity|]. split; [intros p'; arr_decide; subst; auto|].
    intros p' [= <-]. by rewrite arr_eq.
  - exists (tsk s). split; [by destruct s|]. split; [auto|done].
Qed.

Lemma write_buffer_empty_run tty edx s : let q := tt_write_q (tty_table s tty) in
  exists f v i, write_buffer_empty tty edx s =
      Ret tt (s <| tsk := f |> <| ports ::= cons (edx + 1, u8 (Z.land v 0xd)) |> <| inputs := i |>) /\
    (forall p, f p = tsk s p \/ q_proc_list q = Some p /\ f p = (tsk s p) <| t_state := TASK_RUNNING |>) /\
    forall p, q_proc_list q = Some p -> t_state (f p) = TASK_RUNNING.
Proof.
  intros q. unfold write_buffer_empty, gettty. rewrite bind_gets. fold q.
  destruct (wake_queue_run q s) as (f & Hf & Hp). rewrite (bind_Ret _ _ _ _ _ Hf).
  eexists f, _, _. split; [reflexivity|done].
Qed.

(** The line sends the oldest character of its queue; when that was the last one it asks
    for no more interrupts.  A process that waits for room is woken when 256 characters or
    less are left, and the rest of the system is as before. *)
Lemma write_char_sends tty edx s : let q := tt_write_q (tty_table s tty) in
  queue_ok q -> EMPTY q = false ->
  exists f po i, write_char tty edx s =
      Ret tt (s <| tty_table ::= fun t => <[tty := (t tty) <| tt_write_q := snd (GETCH q) |>]> t |>
                <| tsk := f |> <| ports ::= app (po ++ [(edx, u8 (q_buf q (q_tail q)))]) |> <| inputs := i |>) /\
    (po = [] <-> CHARS q <> 1) /\
    (forall p, f p = tsk s p \/ q_proc_list q = Some p /\ f p = (tsk s p) <| t_state := TASK_RUNNING |>) /\
    (forall p, CHARS q <= startup -> q_proc_list q = Some p -> t_state (f p) = TASK_RUNNING).
Proof.
  intros q Hq He. unfold write_char, gettty. rewrite bind_gets. fold q.
  pose proof (chars_range q) as Hr.
  assert (Hn : CHARS q <> 0) by (rewrite <- empty_chars; congruence).
  destruct (Z.eqb_spec (CHARS q) 0); [done|].
  assert (Hw : exists f, when (CHARS q <=? startup) (wake_queue q) s = Ret tt (s <| tsk := f |>) /\
    (forall p, f p = tsk s p \/ q_proc_list q = Some p /\ f p = (tsk s p) <| t_state := TASK_RUNNING |>) /\
    (forall p, CHARS q <= startup -> q_proc_list q = Some p -> t_state (f p) = TASK_RUNNING)).
  { rewrite when_run. destruct (Z.leb_spec (CHARS q) startup).
    - destruct (wake_queue_run q s) as (f & ? & ? & ?). eauto.
    - exists (tsk s). split; [by destruct s|]. split; [auto|lia]. }
  destruct Hw as (f & Hf & Hp & Hs). rewrite (bind_Ret _ _ _ _ _ Hf).
  erewrite bind_Ret by reflexivity. erewrite bind_Ret by reflexivity.
  assert (Hl : (INC (q_tail q) =? q_head q) = (CHARS q =? 1)).
  { destruct Hq. rewrite INC_eq, CHARS_eq in *. apply eq_true_iff_eq. rewrite !Z.eqb_eq. split; intros; dlia. }
  rewrite when_run, Hl. destruct (Z.eqb_spec (CHARS q) 1) as [E|E].
  - match goal with |- context [write_buffer_empty _ _ ?t] => destruct (write_buffer_empty_run tty edx t) as (g & v & i & Hg & Hg1 & Hg2) end.
    rewrite Hg. simpl in Hg1, Hg2. rewrite arr_eq in Hg1, Hg2. simpl in Hg1, Hg2.
    exists g, [(edx + 1, u8 (Z.land v 0xd))], i. split; [reflexivity|]. split_and!; [done| |auto].
    intros p. destruct (Hg1 p) as [->|[Hpl ->]]; [auto|]. right. split; [done|].
    destruct (Hp p) as [->|[_ ->]]; [done|]. by destruct (tsk s p).
  - exists f, [], (inputs s). split; [|split_and!; auto; done]. f_equal.
Qed.

(** A byte that arrives is put at the end of the read queue if it is not full, and lost
    otherwise; then the line discipline runs. *)
Lemma read_char_takes tty edx s : queue_ok (tt_read_q (tty_table s tty)) ->
  exists v s', q_list (tt_read_q (tty_table s' tty)) = q_list (tt_read_q (tty_table s tty)) ++
      (if FULL (tt_read_q (tty_table s tty)) then [] else [s8 v]) /\
    read_char tty edx s = (if FULL (tt_read_q (tty_table s tty)) then Ret tt s' else do_tty_interrupt tty s').
Proof.
  intros Hq. set (q := tt_read_q (tty_table s tty)) in *. pose proof (chars_range q) as Hr.
  unfold read_char, gettty. erewrite bind_Ret by reflexivity. rewrite bind_gets. simpl. fold q.
  set (v := u8 (dev_in (ports s) (inputs s) edx)). exists v.
  assert (Hf : (INC (q_head q) =? q_tail q) = FULL q).
  { apply eq_true_iff_eq. rewrite full_chars. destruct Hq. rewrite INC_eq, CHARS_eq, Z.eqb_eq in *. split; intros; dlia. }
  erewrite bind_Ret by reflexivity. rewrite Hf. destruct (FULL q) eqn:E.
  - eexists. split; [|reflexivity]. simpl. rewrite arr_eq, app_nil_r.
    exact (q_list_stored [v] q Hq ltac:(simpl; apply full_chars in E; lia)).
  - erewrite bind_Ret by reflexivity. eexists. split; [|reflexivity].
    rewrite <- (q_list_put v q) by done. simpl. rewrite !arr_eq. done.
Qed.
End laws.
