(* ===== verification/Printk.v ===== *)
(** Messages of the kernel, kernel/printk.c and kernel/panic.c: [vsprintf] into a
    buffer, and [tty_write] of the buffer to the console with [%fs] on the data of
    the kernel.  Elsewhere in the library a message is the recorded call
    ([KState.printk]) and [panic] an outcome. *)
From S2P Require Export Vsprintf Tty.
#[local] Open Scope bool_scope.

Section printk.
Context `{Machine}.
(** The arguments of the call, and where [buf] is. *)
Context (args : Z -> Z) (limit : nat) (buf : Z).

(** The data of the kernel behind [%fs]. *)
Definition with_fs (mem : Z -> Z) (m : K Z) : K Z :=
  fs ← gets user;
  modify (fun s => s <| user := mem |>);;
  z ← m;
  modify (fun s => s <| user := fs |>);;
  mret z.

(** kernel/printk.c:24-46: the result, and the kernel's memory after.  Nothing keeps a
    text of 1024 characters or more inside the buffer. *)
Definition printk_tty (fmt : Z) (mem : Z -> Z) : K (Z * (Z -> Z)) :=
  match vsprintf args limit buf fmt mem with
  | None => nofuel
  | Some (i, mem) =>
      with_fs mem (tty_write 0 buf i);;
      mret (i, mem)
  end.
End printk.

Section panic.
Context `{Machine}.
(** Where [buf] and the string constants are. *)
Context (limit : nat) (buf : Z) (constant : list Z -> Z).

Definition bang : list Z := replicate 60 33.

(** kernel/panic.c:8-17; [s] is the address of the message in [mem]. *)
Definition panic_tty (mem : Z -> Z) (s : Z) : K unit :=
  let say fmt mem := r ← printk_tty (fun _ => s) limit buf (constant (fmt ++ [10; 13])) mem; mret (snd r) in
  mem ← say [] mem;
  mem ← say bang mem;
  mem ← say (chars "CRITICAL SYSTEM FAILURE: KERNEL PANIC!") mem;
  mem ← say (chars "System Integrity Compromised. Halting Operations Immediately.") mem;
  mem ← say (chars "Error Details: %s") mem;
  mem ← say bang mem;
  while fuel (mret true) (mret tt).
End panic.

(** ** What the console gets *)

(** Each line feed with a carriage return before it. *)
Definition crlf (cs : list Z) : list Z := cs ≫= fun c => if s8 c =? 10 then [13; s8 c] else [s8 c].

Section output.
Context `{Machine}.
Context (tty : Z) (s0 : kstate).

(** [s0] with another write queue and carriage-return flag. *)
Definition outst (q : tty_queue) (f : Z) : kstate :=
  s0 <| cr_flag := f |> <| tty_table ::= fun t => <[tty := (t tty) <| tt_write_q := q |>]> t |>.

(** The output flags of the console: line feeds get a carriage return. *)
Record console_out (t : tty_struct) : Prop := {
  co_post : _O_FLAG t OPOST = true;
  co_nlcr : _O_FLAG t ONLCR = true;
  co_crnl : _O_FLAG t OCRNL = false;
  co_nlret : _O_FLAG t ONLRET = false;
  co_lcuc : _O_FLAG t OLCUC = false;
}.
Context (Hout : console_out (tty_table s0 tty)).

Lemma outst_put c q f : put_write tty c (outst q f) = Ret tt (outst (PUTCH c q) f).
Proof. unfold put_write, settty, modify, outst, set_field. simpl. by rewrite arr_same, !arr_eq. Qed.

Lemma outst_tty q f : exists t, tty_table (outst q f) tty = t /\ tt_write_q t = q /\ console_out t.
Proof.
  exists ((tty_table s0 tty) <| tt_write_q := q |>). split; [unfold outst; simpl; by rewrite arr_eq|].
  split; [done|]. by destruct Hout.
Qed.

Lemma write_done q f b : write_step tty (0, b) (outst q f) = Ret (inr (0, b)) (outst q f).
Proof. done. Qed.

Lemma write_round nr b q f c : 0 < nr -> FULL q = false -> s8 (user s0 b) = c ->
  write_step tty (nr, b) (outst q f) =
    if (c =? 10) && negb (nz f) then Ret (inl (nr, b)) (outst (PUTCH 13 q) 1)
    else Ret (inl (nr - 1, b + 1)) (outst (PUTCH c q) 0).
Proof.
  intros Hnr Hf Hc. destruct (outst_tty q f) as (t & Ht & Hq & [Ho1 Ho2 Ho3 Ho4 Ho5]).
  unfold write_step, gettty. rewrite bind_gets, Ht, Hq, Hf, Z.gtb_ltb.
  destruct (Z.ltb_spec 0 nr); [|lia]. cbn [negb orb].
  unfold get_fs_byte. rewrite bind_gets, bind_get. change (user (outst q f) b) with (user s0 b).
  rewrite Hc, Ho1, Ho2, Ho3, Ho4, Ho5, !andb_true_r, !andb_false_r. cbn [andb].
  change (cr_flag (outst q f)) with f. destruct ((c =? 10) && negb (nz f)).
  - erewrite bind_Ret by reflexivity. etransitivity; [exact (bind_Ret _ _ _ _ _ (outst_put 13 q 1))|done].
  - erewrite bind_Ret by reflexivity. etransitivity; [exact (bind_Ret _ _ _ _ _ (outst_put c q 0))|done].
Qed.

Lemma crlf_cons c cs : crlf (c :: cs) = (if s8 c =? 10 then [13; s8 c] else [s8 c]) ++ crlf cs.
Proof. done. Qed.

(** The text at [b] in the user's memory. *)
Definition text_at (b : Z) (cs : list Z) : Prop :=
  forall i, 0 <= i < Z.of_nat (length cs) -> user s0 (b + i) = nth (Z.to_nat i) cs 0.

Lemma text_cons b c cs : text_at b (c :: cs) -> user s0 b = c /\ text_at (b + 1) cs.
Proof.
  intros Ht. split; [specialize (Ht 0); rewrite Z.add_0_r in Ht; apply Ht; simpl; lia|].
  intros i Hi. rewrite <- Z.add_assoc, Ht by (simpl; lia). rewrite Z2Nat.inj_add by lia. done.
Qed.

Lemma not_full q : CHARS q < 1023 -> FULL q = false.
Proof. intros Hc. apply not_true_iff_false. rewrite full_chars. lia. Qed.

Lemma write_text cs : forall n b q,
  queue_ok q -> text_at b cs -> CHARS q + Z.of_nat (length (crlf cs)) <= 1023 ->
  (length (crlf cs) < n)%nat ->
  loop n (write_step tty) (Z.of_nat (length cs), b) (outst q 0) =
    Ret (0, b + Z.of_nat (length cs)) (outst (puts (crlf cs) q) 0).
Proof.
  induction cs as [|c cs IH]; intros n b q Hq Ht Hr Hn.
  { destruct n as [|n]; [lia|]. rewrite (loop_leave _ _ _ _ _ _ (write_done q 0 b)).
    simpl length. by rewrite Z.add_0_r. }
  apply text_cons in Ht as [Hc Ht]. rewrite crlf_cons, length_app in *.
  assert (Hnr : 0 < Z.of_nat (length (c :: cs))) by (simpl; lia).
  replace (b + Z.of_nat (length (c :: cs))) with (b + 1 + Z.of_nat (length cs)) by (simpl; lia).
  assert (Hlast : forall m q' f, queue_ok q' -> (s8 c =? 10) && negb (nz f) = false ->
    CHARS q' + 1 + Z.of_nat (length (crlf cs)) <= 1023 -> (S (length (crlf cs)) < m)%nat ->
    loop m (write_step tty) (Z.of_nat (length (c :: cs)), b) (outst q' f) =
    Ret (0, b + 1 + Z.of_nat (length cs)) (outst (puts (s8 c :: crlf cs) q') 0)).
  { intros m q' f Hq' Hf Hr' Hm. destruct m as [|m]; [lia|].
    pose proof (write_round _ b q' f (s8 c) Hnr (not_full q' ltac:(lia)) ltac:(by rewrite Hc)) as Hw.
    rewrite Hf in Hw. rewrite (loop_again _ _ _ _ _ _ Hw).
    replace (Z.of_nat (length (c :: cs)) - 1) with (Z.of_nat (length cs)) by (simpl; lia).
    rewrite IH; [done|by apply queue_ok_put|done| |lia]. rewrite chars_put by (done || lia). lia. }
  destruct (s8 c =? 10) eqn:E; simpl length in Hr, Hn.
  - destruct n as [|n]; [lia|].
    pose proof (write_round _ b q 0 (s8 c) Hnr (not_full q ltac:(lia)) ltac:(by rewrite Hc)) as Hw.
    rewrite E in Hw. rewrite (loop_again _ _ _ _ _ _ Hw). apply Hlast; [by apply queue_ok_put|done| |lia].
    rewrite chars_put by (done || lia). lia.
  - apply Hlast; [done|done|lia|lia].
Qed.
End output.

Section write.
Context `{Machine}.

Lemma outst_id tty s : cr_flag s = 0 -> outst tty s (tt_write_q (tty_table s tty)) 0 = s.
Proof.
  unfold outst, set_field. destruct s as [? ? ? ? ? ? ? ? ? ? ? ? ? ? ? ? ? ? ? ? ? ? ? ? t]. simpl. intros ->.
  f_equal. assert (E : {| tt_termios := tt_termios (t tty); tt_pgrp := tt_pgrp (t tty);
    tt_stopped := tt_stopped (t tty); tt_write := tt_write (t tty); tt_read_q := tt_read_q (t tty);
    tt_write_q := tt_write_q (t tty); tt_secondary := tt_secondary (t tty) |} = t tty) by (by destruct (t tty)).
  rewrite E. apply arr_id.
Qed.

Lemma length_crlf cs : (length cs <= length (crlf cs))%nat.
Proof.
  induction cs as [|c cs IH]; [done|]. rewrite crlf_cons, length_app. destruct (_ =? 10); simpl; lia.
Qed.

(** A text for which the terminal has room goes to its driver in one piece, with a
    carriage return before each line feed. *)
Lemma tty_write_text tty cs buf s c :
  tty <= 2 -> current s = Some c -> t_signal (tsk s c) = 0 ->
  console_out (tty_table s tty) -> cr_flag s = 0 -> text_at s buf cs -> cs <> [] ->
  let q := tt_write_q (tty_table s tty) in
  queue_ok q -> CHARS q + Z.of_nat (length (crlf cs)) <= 1023 -> (length (crlf cs) + 1 < fuel)%nat ->
  tty_write tty buf (Z.of_nat (length cs)) s =
    (write_tty tty;; mret (Z.of_nat (length cs))) (outst tty s (puts (crlf cs) q) 0).
Proof.
  intros Htty Hcur Hsig Hout Hcr Ht Hne q Hq Hr Hfuel.
  assert (Hlen : 0 < Z.of_nat (length cs)) by (destruct cs; [done|simpl; lia]).
  pose proof (length_crlf cs) as Hlc.
  unfold tty_write. rewrite Z.gtb_ltb. destruct (Z.ltb_spec 2 tty); [lia|].
  destruct (Z.ltb_spec (Z.of_nat (length cs)) 0); [lia|]. cbn [orb].
  pose proof (write_text tty s Hout cs fuel buf q Hq Ht Hr ltac:(lia)) as Hw. unfold q in Hw at 1.
  rewrite (outst_id tty s Hcr) in Hw.
  remember (loop fuel (write_step tty)) as inner eqn:Hinner.
  destruct fuel as [|[|n]]; [lia|lia|]. cbn [loop].
  rewrite Z.gtb_ltb. destruct (Z.ltb_spec 0 (Z.of_nat (length cs))); [|lia]. cbn [negb].
  rewrite bind_assoc. erewrite bind_Ret.
  2:{ unfold sleep_if_full, gettty. rewrite bind_gets. fold q. rewrite (not_full q) by lia. done. }
  rewrite bind_assoc, (bind_Ret _ _ _ _ _ (me_run s c Hcur)), Hsig. cbn [nz negb Z.eqb].
  rewrite bind_assoc, (bind_Ret _ _ _ _ _ Hw), bind_assoc. unfold mbind, M_bind. f_equal.
  apply functional_extensionality. intros []. apply functional_extensionality. intros s'. simpl.
  f_equal. lia.
Qed.

Lemma crlf_s8 cs : map s8 (crlf cs) = crlf cs.
Proof.
  assert (Hs : forall x, s8 (s8 x) = s8 x) by (intros; unfold s8; dlia).
  induction cs as [|c cs IH]; [done|]. rewrite crlf_cons, map_app, IH. f_equal.
  case_match; simpl; by rewrite Hs.
Qed.

(** A message for which the console has room goes to the console's driver as it was printed,
    with a carriage return before each line feed; afterwards the process has its memory
    behind %fs again. *)
Lemma printk_output args limit buf mem fmt f text s c :
  let area := fun a => buf <= a <= buf + Z.of_nat (length text) in
  format_at area mem fmt f -> (length f < limit)%nat ->
  render args limit mem (parse (length f) f) 0 = Some text ->
  (forall p, p ∈ strings args (parse (length f) f) 0 -> string_safe limit mem area p) ->
  text <> [] ->
  current s = Some c -> t_signal (tsk s c) = 0 -> console_out (tty_table s 0) -> cr_flag s = 0 ->
  let q := tt_write_q (tty_table s 0) in
  let out := crlf (map u8 text) in
  queue_ok q -> CHARS q + Z.of_nat (length out) <= 1023 -> (length out + 1 < fuel)%nat ->
  exists s1 mem',
    printk_tty args limit buf fmt mem s =
      (write_tty 0;; modify (fun t => t <| user := user s |>);; mret (Z.of_nat (length text), mem')) s1 /\
    q_list (tt_write_q (tty_table s1 0)) = q_list q ++ out.
Proof.
  intros area Hf Hlim Hr Hsafe Hne Hcur Hsig Hout Hcr q out Hq Hroom Hfuel.
  pose proof (vsprintf_run args limit buf mem area fmt f text ltac:(done) Hf Hlim Hr Hsafe) as Hv.
  set (mem' := store_bytes mem buf (map u8 text ++ [0])) in *.
  set (s1 := s <| user := mem' |>).
  assert (Ht : text_at s1 buf (map u8 text)).
  { intros i Hi. simpl. unfold mem'. rewrite store_bytes_app, store_bytes_out by lia. apply store_nth. lia. }
  pose proof (tty_write_text 0 (map u8 text) buf s1 c ltac:(lia) Hcur Hsig Hout Hcr Ht ltac:(by destruct text) Hq Hroom Hfuel) as Hw.
  rewrite length_map in Hw.
  exists (outst 0 s1 (puts out q) 0), mem'. split.
  - unfold printk_tty. rewrite Hv. unfold with_fs. cbv zeta. rewrite bind_assoc, bind_gets, bind_assoc, bind_modify.
    fold s1. rewrite bind_assoc. unfold mbind at 1, M_bind. rewrite Hw.
    change (res_bind ((write_tty 0;; mret (Z.of_nat (length text))) ?t) ?f) with
      (((write_tty 0;; mret (Z.of_nat (length text))) ≫= f) t).
    rewrite bind_assoc. done.
  - unfold outst. simpl. etransitivity; [exact (q_list_puts out q Hq Hroom)|]. unfold out. by rewrite crlf_s8.
Qed.
End write.
