(* ===== verification/User.v ===== *)
(** The first user program, [init] of init/main.c, and the library it calls: the
    stubs of lib/ that raise the interrupt of a system call.  A user program is a
    tree of its interactions with the kernel; the numbers in the stubs are those
    under which the kernel's table has the calls. *)
From ITree Require ITree.
From S2P Require Export Vsprintf Entry.
#[local] Open Scope bool_scope.

(** ** Programs *)

(** The argument of a system call: a number, or a pointer to text, to a table of
    strings or to a variable of the program. *)
Inductive uarg : Type :=
  | Num (z : Z)
  | Text (s : list Z)
  | Strings (l : list (list Z))
  | Ref (x : string).

(** What a program does that others see: it raises the interrupt with registers
    loaded, of which eax comes back, as a signed number; it reads a variable that the
    kernel may have written; it sets [errno]. *)
Variant userE : Type -> Type :=
  | Int80 (eax : Z) (args : list uarg) : userE Z
  | Var (x : string) : userE Z
  | Set_errno (e : Z) : userE unit.

Definition prog : Type -> Type := ITree.Core.ITreeDefinition.itree userE.
#[export] Instance prog_ret : MRet prog := fun A a => ITree.Core.ITreeDefinition.go (ITree.Core.ITreeDefinition.RetF a).
#[export] Instance prog_bind : MBind prog := fun A B f m => ITree.Core.ITreeDefinition.ITree.bind m f.
Definition trap (eax : Z) (args : list uarg) : prog Z := ITree.Core.ITreeDefinition.ITree.trigger (Int80 eax args).
Definition var (x : string) : prog Z := ITree.Core.ITreeDefinition.ITree.trigger (Var x).
Definition set_errno (e : Z) : prog unit := ITree.Core.ITreeDefinition.ITree.trigger (Set_errno e).

(** ** The library *)

(** include/unistd.h:61-137: the numbers [__NR_name]. *)
Definition __NR : list (string * Z) :=
  [("setup", 0); ("exit", 1); ("fork", 2); ("read", 3); ("write", 4); ("open", 5); ("close", 6);
   ("waitpid", 7); ("creat", 8); ("link", 9); ("unlink", 10); ("execve", 11); ("chdir", 12);
   ("time", 13); ("mknod", 14); ("chmod", 15); ("chown", 16); ("break", 17); ("oldstat", 18);
   ("lseek", 19); ("getpid", 20); ("mount", 21); ("umount", 22); ("setuid", 23); ("getuid", 24);
   ("stime", 25); ("ptrace", 26); ("alarm", 27); ("oldfstat", 28); ("pause", 29); ("utime", 30);
   ("stty", 31); ("gtty", 32); ("access", 33); ("nice", 34); ("ftime", 35); ("sync", 36);
   ("kill", 37); ("rename", 38); ("mkdir", 39); ("rmdir", 40); ("dup", 41); ("pipe", 42);
   ("times", 43); ("prof", 44); ("brk", 45); ("setgid", 46); ("getgid", 47); ("signal", 48);
   ("geteuid", 49); ("getegid", 50); ("acct", 51); ("phys", 52); ("lock", 53); ("ioctl", 54);
   ("fcntl", 55); ("mpx", 56); ("setpgid", 57); ("ulimit", 58); ("oldolduname", 59);
   ("umask", 60); ("chroot", 61); ("ustat", 62); ("dup2", 63); ("getppid", 64); ("getpgrp", 65);
   ("setsid", 66); ("stat", 106); ("lstat", 107); ("fstat", 108); ("uname", 122);
   ("getdents", 141); ("stat64", 195); ("ltat64", 196); ("fstat64", 197); ("getdents64", 220);
   ("fcntl64", 221)].

(** The number of a call, as the macros paste it together. *)
Definition NR (name : string) : Z :=
  match list_find (fun p => fst p = name) __NR with Some (_, (_, n)) => n | None => -1 end.

(** include/unistd.h:146-149: what the macros do with the result of the call. *)
Definition result (__res : Z) : prog Z :=
  if __res >=? 0 then mret __res else set_errno (- __res);; mret (-1).

(** include/unistd.h:139-150 *)
Definition _syscall0 (name : string) : prog Z := r ← trap (NR name) []; result r.
(** include/unistd.h:152-163 *)
Definition _syscall1 (name : string) (a : uarg) : prog Z := r ← trap (NR name) [a]; result r.
(** include/unistd.h:165-176 *)
Definition _syscall2 (name : string) (a b : uarg) : prog Z := r ← trap (NR name) [a; b]; result r.
(** include/unistd.h:178-188 *)
Definition _syscall3 (name : string) (a b c : uarg) : prog Z := r ← trap (NR name) [a; b; c]; result r.

(** lib/close.c:4 *)
Definition close (fd : Z) : prog Z := _syscall1 "close" (Num fd).
(** lib/dup.c:4 *)
Definition dup (fd : Z) : prog Z := _syscall1 "dup" (Num fd).
(** lib/setsid.c:4 *)
Definition setsid : prog Z := _syscall0 "setsid".
(** lib/write.c:4 *)
Definition write (fd : Z) (buf : list Z) (count : Z) : prog Z :=
  _syscall3 "write" (Num fd) (Text buf) (Num count).
(** lib/execve.c:4 *)
Definition execve (file : list Z) (argv envp : list (list Z)) : prog Z :=
  _syscall3 "execve" (Text file) (Strings argv) (Strings envp).
(** lib/wait.c:5 *)
Definition waitpid (pid : Z) (wait_stat : uarg) (options : Z) : prog Z :=
  _syscall3 "waitpid" (Num pid) wait_stat (Num options).
(** lib/wait.c:7-10 *)
Definition wait (wait_stat : uarg) : prog Z := waitpid (-1) wait_stat 0.
(** lib/open.c:5-19: the third argument is taken whether the caller gave one or not. *)
Definition open (filename : list Z) (flag mode : Z) : prog Z :=
  r ← trap (NR "open") [Text filename; Num flag; Num mode];
  result r.
(** lib/_exit.c:4-7: returns when the call does. *)
Definition _exit (exit_code : Z) : prog unit := trap (NR "exit") [Num exit_code];; mret tt.
(** init/main.c:25 *)
Definition fork : prog Z := _syscall0 "fork".
(** init/main.c:26 *)
Definition pause : prog Z := _syscall0 "pause".
(** init/main.c:27 *)
Definition setup : prog Z := _syscall0 "setup".
(** init/main.c:28 *)
Definition sync : prog Z := _syscall0 "sync".

(** ** The first program *)

(** include/fcntl.h:10 *)
Definition O_RDWR : Z := 0x02.

(** init/main.c:44: where the 1024 bytes of the buffer are. *)
Definition printbuf : Z := 0.
(** Where the format is, behind them. *)
Definition format : Z := printbuf + 1024.

(** init/main.c:116-125.  The formats of [init] print numbers only. *)
Definition printf (fmt : list Z) (args : list Z) : prog Z :=
  match vsprintf (fun k => nth (Z.to_nat k) args 0) 1024 printbuf format (literal format fmt zero_arr) with
  | Some (i, m) => write 1 (load_bytes m printbuf (Z.to_nat i)) i;; mret i
  | None => mret 0
  end.

(** init/main.c:127 *)
Definition argv : list (list Z) := [chars "/bin/sh"].
(** init/main.c:128 *)
Definition envp : list (list Z) := [chars "HOME=/root"; chars "PATH=/bin"; chars "PWD=/"].

(** A line that ends in newline and carriage return. *)
Definition line (s : string) : list Z := chars s ++ [10; 13].
Definition say (s : string) : prog unit := printf (line s) [];; mret tt.

Definition rule : string := "==================================================================".

(** init/main.c:172-198 *)
Definition banner : prog unit :=
  say "";;
  say rule;;
  say "     Rhee Creatives Linux v1.0 - Extreme Performance Edition      ";;
  say rule;;
  say " [BOOT] System Core Initializing...";;
  say " [HARDWARE] CPU Mode: Protected 32-bit (Optimized i386)";;
  say " [HARDWARE] Memory Management: Paging Enabled (4KB/Page)";;
  n ← var "nr_buffers";
  let total_buffer_kb := Z.quot (s32 (n * BLOCK_SIZE)) 1024 in
  printf (line " [HARDWARE] Buffer Cache: %d KB allocated (%d buffers dedicated)") [total_buffer_kb; n];;
  j ← var "jiffies";
  printf (line " [SYSTEM] Boot Time: %d ticks (Hyper-Fast Boot Technology)") [j];;
  say " [SYSTEM] Optimization Level: MAXIMAL (Level 99 - Unlocked)";;
  say " [SECURITY] Running Spider-Web Integrity Check...";;
  say "    - Kernel Code Segment: VERIFIED";;
  say "    - Task Structures: SECURE";;
  say "    - Interrupt Descriptor Table: LOCKED";;
  say " [SECURITY] System Integrity: 100%% (No Anomalies)".

(** init/main.c:204-217: the loop between the two readings of the clock only spends time. *)
Definition benchmark : prog unit :=
  say " [PERF] Running CPU Integer Benchmark (Single Core Stress)...";;
  start_bench ← var "jiffies";
  j ← var "jiffies";
  printf (line " [PERF] Benchmark Score: %d ticks (LOWER IS BETTER - EXCELLENT)") [s32 (j - start_bench)];;
  say rule;;
  say "   SYSTEM READY. UNLEASH THE POWER.";;
  say rule.

(** init/main.c:161-163: the three standard descriptors. *)
Definition open_tty : prog unit :=
  open (chars "/dev/tty0") O_RDWR 0;;
  dup 0;;
  dup 0;;
  mret tt.

(** init/main.c:230-235: what the child of [init] does. *)
Definition shell : prog unit :=
  close 0;; close 1;; close 2;;
  setsid;;
  open_tty;;
  r ← execve (chars "/bin/sh") argv envp;
  _exit r.

(** init/main.c:242-250 *)
Definition reap : prog unit :=
  j ← wait (Ref "i");
  i ← var "i";
  printf (chars " [INFO] Child %d died with code %04x. Syncing filesystems..." ++ [10]) [j; i];;
  sync;;
  _exit 0.

(** init/main.c:143-251 *)
Definition init : prog unit :=
  setup;;
  open_tty;;
  banner;;
  benchmark;;
  i ← fork;
  (if i <? 0 then
     printf (chars "CRITICAL ERROR: Fork failed in init! System Halted." ++ [13; 10]) [];; mret tt
   else if i =? 0 then shell else mret tt);;
  reap.

(** init/main.c:101-111: after [move_to_user_mode], process 0 makes [init] and then pauses
    for ever. *)
Definition process0 : prog unit :=
  i ← fork;
  (if i =? 0 then init else mret tt);;
  ITree.Core.ITreeDefinition.ITree.iter (fun _ : unit => pause;; mret (inl tt)) tt.

(** ** The numbers of the library and the table of the kernel *)

Section numbers.
Context `{Machine}.
Context (fninit : Z -> Z).

(** Which function of the kernel each name should lead to. *)
Definition kernel_calls : list (string * handler) :=
  [("setup", call0 (sys_setup mount_root)); ("exit", call1 int sys_exit); ("fork", sys_fork fninit);
   ("read", call3 uns uns int sys_read); ("write", call3 uns uns int sys_write);
   ("open", call3 uns int int sys_open); ("close", call1 uns sys_close);
   ("waitpid", call3 int uns int sys_waitpid); ("creat", call2 uns int sys_creat);
   ("link", call2 uns uns sys_link); ("unlink", call1 uns sys_unlink); ("execve", sys_execve);
   ("chdir", call1 uns sys_chdir); ("time", call1 uns sys_time); ("mknod", const sys_mknod);
   ("chmod", call2 uns int sys_chmod); ("chown", call3 uns int int sys_chown);
   ("break", const sys_break); ("oldstat", call0 sys_oldstat);
   ("lseek", call3 uns int int sys_lseek); ("getpid", call0 sys_getpid);
   ("mount", const sys_mount); ("umount", const sys_umount); ("setuid", call1 int sys_setuid);
   ("getuid", call0 sys_getuid); ("stime", call1 uns sys_stime); ("ptrace", const sys_ptrace);
   ("alarm", call1 int sys_alarm); ("oldfstat", call0 sys_oldfstat);
   ("pause", call0 (sys_pause fuel)); ("utime", call2 uns uns sys_utime);
   ("stty", const sys_stty); ("gtty", const sys_gtty); ("access", call2 uns int sys_access);
   ("nice", call1 int sys_nice); ("ftime", const sys_ftime);
   ("sync", call0 (sys_sync sync_inodes)); ("kill", call2 int int sys_kill);
   ("rename", const sys_rename); ("mkdir", call2 uns int sys_mkdir);
   ("rmdir", call1 uns sys_rmdir); ("dup", call1 uns sys_dup); ("pipe", call1 uns sys_pipe);
   ("times", call1 uns sys_times); ("prof", const sys_prof); ("brk", call1 uns sys_brk);
   ("setgid", call1 int sys_setgid); ("getgid", call0 sys_getgid);
   ("signal", call3 int uns uns sys_signal); ("geteuid", call0 sys_geteuid);
   ("getegid", call0 sys_getegid); ("acct", const sys_acct); ("phys", const sys_phys);
   ("lock", const sys_lock); ("ioctl", call3 uns uns uns sys_ioctl);
   ("fcntl", call3 uns uns uns sys_fcntl); ("mpx", const sys_mpx);
   ("setpgid", call2 int int sys_setpgid); ("ulimit", const sys_ulimit);
   ("oldolduname", call0 sys_oldolduname); ("umask", call1 int sys_umask);
   ("chroot", call1 uns sys_chroot);
   ("ustat", (fun r => const (sys_ustat (arg int (fr_ebx r)) (fr_ecx r)) r));
   ("dup2", call2 uns uns sys_dup2); ("getppid", call0 sys_getppid);
   ("getpgrp", call0 sys_getpgrp); ("setsid", call0 sys_setsid);
   ("stat", call2 uns uns sys_stat); ("lstat", call2 uns uns sys_lstat);
   ("fstat", call2 uns uns sys_fstat); ("uname", call1 uns sys_uname);
   ("getdents", call3 uns uns uns sys_getdents); ("stat64", call2 uns uns sys_stat64);
   ("ltat64", call2 uns uns sys_lstat64); ("fstat64", call2 uns uns sys_fstat64);
   ("getdents64", call3 uns uns uns sys_getdents64); ("fcntl64", call3 uns uns uns sys_fcntl64)].

(** The numbers of the library and the table of the kernel agree: each name leads to the
    function of the kernel of that name, and every function in the table has a name. *)
Theorem user_calls :
  Forall (fun p => service fninit (NR (fst p)) = Some (snd p)) kernel_calls /\
  map fst kernel_calls = map fst __NR /\ NoDup (map fst __NR) /\
  forall nr, 0 <= nr -> is_Some (service fninit nr) <-> nr ∈ map snd __NR.
Proof.
  split_and!.
  - repeat constructor.
  - reflexivity.
  - by apply (bool_decide_unpack _).
  - intros nr Hn. set (has := fun nr => match service fninit nr with Some _ => true | None => false end).
    assert (E : is_Some (service fninit nr) <-> has nr = true).
    { unfold has. destruct (service fninit nr); split; done || by intros [??]. }
    rewrite E. destruct (Z.lt_ge_cases nr 320) as [Hl|Hl].
    + assert (Hall : forallb (fun nr => Bool.eqb (has nr) (bool_decide (nr ∈ map snd __NR))) (seqZ 0 320) = true)
        by (vm_compute; reflexivity).
      rewrite forallb_forall in Hall. specialize (Hall nr). rewrite <- list_elem_of_In, elem_of_seqZ in Hall.
      rewrite (Bool.eqb_prop _ _ (Hall ltac:(lia))). apply bool_decide_eq_true.
    + split; intros Hh.
      * exfalso. unfold has, service in Hh. rewrite (proj2 (lookup_ge_None _ _)) in Hh; [done|].
        change (length (sys_call_table fninit)) with 320%nat. lia.
      * exfalso. assert (Hb : Forall (fun n => n < 320) (map snd __NR)) by (by apply (bool_decide_unpack _)).
        rewrite Forall_forall in Hb. apply list_elem_of_In in Hh. specialize (Hb nr Hh). lia.
Qed.
End numbers.

(** ** The calls of the first process *)

(** The calls a program makes, the kernel answering with [ans]; the variables it reads are 0. *)
Fixpoint calls {A} (ans : Z -> list uarg -> Z) (n : nat) (t : prog A) : list (Z * list uarg) :=
  match n with
  | O => []
  | S n =>
      match ITree.Core.ITreeDefinition.observe t with
      | ITree.Core.ITreeDefinition.RetF _ => []
      | ITree.Core.ITreeDefinition.TauF t => calls ans n t
      | ITree.Core.ITreeDefinition.VisF e k =>
          match e in userE X return (X -> prog A) -> list (Z * list uarg) with
          | Int80 eax args => fun k => (eax, args) :: calls ans n (k (ans eax args))
          | Var _ => fun k => calls ans n (k 0)
          | Set_errno _ => fun k => calls ans n (k tt)
          end k
      end
  end.

Definition but_write (l : list (Z * list uarg)) : list (Z * list uarg) :=
  filter (fun c => fst c <> NR "write") l.

(** The child puts the terminal on the three standard descriptors again, in a session of its
    own, before it becomes the shell; if it cannot, it goes on as its parent does. *)
Lemma child_calls :
  but_write (calls (fun nr _ => if nr =? NR "fork" then 0 else -2) 200 init) =
  [(NR "setup", []); (NR "open", [Text (chars "/dev/tty0"); Num O_RDWR; Num 0]);
   (NR "dup", [Num 0]); (NR "dup", [Num 0]); (NR "fork", []);
   (NR "close", [Num 0]); (NR "close", [Num 1]); (NR "close", [Num 2]); (NR "setsid", []);
   (NR "open", [Text (chars "/dev/tty0"); Num O_RDWR; Num 0]); (NR "dup", [Num 0]); (NR "dup", [Num 0]);
   (NR "execve", [Text (chars "/bin/sh"); Strings argv; Strings envp]); (NR "exit", [Num (-1)]);
   (NR "waitpid", [Num (-1); Ref "i"; Num 0]); (NR "sync", []); (NR "exit", [Num 0])].
Proof. vm_compute. reflexivity. Qed.

Lemma parent_calls :
  but_write (calls (fun nr _ => if nr =? NR "fork" then 2 else 0) 200 init) =
  [(NR "setup", []); (NR "open", [Text (chars "/dev/tty0"); Num O_RDWR; Num 0]);
   (NR "dup", [Num 0]); (NR "dup", [Num 0]); (NR "fork", []);
   (NR "waitpid", [Num (-1); Ref "i"; Num 0]); (NR "sync", []); (NR "exit", [Num 0])].
Proof. vm_compute. reflexivity. Qed.
