(* ===== verification/Fair.v ===== *)
(** Fairness of the scheduler: kernel/sched.c seen over a whole execution.

    An execution is a sequence of kernel states.  Between two of them the timer
    ticks, in user or in kernel mode, the current task gives the processor up,
    or the current task and the interrupts do any other work that leaves the
    time slices alone.  A task that stays runnable gets the processor again and
    again ([no_starvation]).  The proof ranks states by the time slices that
    can still be spent before the task is chosen. *)
From S2P Require Export Entry.
#[local] Open Scope bool_scope.

(** The states in which a computation returns, or hands the processor over. *)
Definition after {A} (r : res kstate A) (s : kstate) : Prop :=
  match r with Ret _ s' | Yield s' _ => s = s' | _ => False end.

(** The time slices of all the tasks together. *)
Definition slices (s : kstate) : Z := zsum (counter_of s) 0 (Z.to_nat NR_TASKS).

(** The task table is sane, priorities are at most [P], the idle task has a slot
    of its own and the current task is in the table. *)
Record fair_ok (P : Z) (s : kstate) : Prop := {
  fk_sched : sched_ok s;
  fk_prio : forall i p, 1 <= i <= 63 -> task s i = Some p -> t_priority (tsk s p) <= P;
  fk_zero : forall p, task s 0 = Some p -> 0 <= t_counter (tsk s p) < 2147483648;
  fk_idle : forall i p, 1 <= i <= 63 -> task s i = Some p -> task s 0 <> Some p;
  fk_current : exists i c, 0 <= i <= 63 /\ task s i = Some c /\ current s = Some c;
}.

Inductive event : Type := user_tick | kernel_tick | block | other_work.
#[export] Instance event_eq_dec : EqDecision event.
Proof. solve_decision. Defined.

Section fairness.
Context `{Machine}.

(** kernel/system_call.s:166-173: the timer interrupt, up to the return from it. *)
Definition tick (cpl : Z) : K unit :=
  modify (fun s => s <| jiffies ::= fun x => s32 (x + 1) |>);;
  outb 0x20 0x20;;
  do_timer fuel cpl.

(** Work that starts no process, adds to no time slice and leaves the one of
    the task in slot [t] as it is.  Tasks may go to sleep, be woken, change
    their priority up to [P], end and be released. *)
Record works (P t : Z) (s s' : kstate) : Prop := {
  wk_ok : fair_ok P s';
  wk_current : current s' = current s;
  wk_task : forall i, 0 <= i <= 63 -> task s' i = task s i \/ task s' i = None;
  wk_count : forall i, 0 <= i <= 63 -> counter_of s' i <= counter_of s i;
  wk_same : task s' t = task s t;
  wk_slice : counter_of s' t = counter_of s t;
}.

Inductive step (P t : Z) : event -> kstate -> kstate -> Prop :=
| step_user s s' : after (tick 3 s) s' -> step P t user_tick s s'
| step_kernel s s' : after (tick 0 s) s' -> step P t kernel_tick s s'
| step_block s s' : after (schedule fuel s) s' -> step P t block s s'
| step_work s s' : works P t s s' -> step P t other_work s s'.

Definition user_ticks (ev : nat -> event) (n m : nat) : Z :=
  Z.of_nat (length (filter (fun k => ev k = user_tick) (seq n (m - n)))).

(** ** The rank of a state *)

Definition cur_spent (s : kstate) : Z :=
  match current s with Some c => b2z (t_counter (tsk s c) =? 0) | None => 1 end.

Definition rank (P t : Z) (s : kstate) : Z :=
  2 * slices s + cur_spent s + (if counter_of s t =? 0 then 126 * P + 1 else 0).

Lemma timer_interrupt_tick r s :
  timer_interrupt r s = (tick (Z.land (fr_cs r) 3);; ret_from_sys_call r) s.
Proof. unfold timer_interrupt, tick. mrun. reflexivity. Qed.

Lemma counter_of_nonneg P s i : fair_ok P s -> 0 <= i <= 63 -> 0 <= counter_of s i.
Proof.
  intros Hok Hi. unfold counter_of. destruct (task s i) as [p|] eqn:Hp; [|lia].
  destruct (decide (i = 0)) as [->|]; [by apply (fk_zero _ _ Hok)|].
  apply (so_count _ (fk_sched _ _ Hok) i p); [lia|done].
Qed.

Lemma slices_le b s s' : (forall i, 0 <= i <= 63 -> counter_of s' i <= counter_of s i + b) ->
  slices s' <= slices s + 64 * b.
Proof.
  intros Hle. unfold slices. change 64 with (Z.of_nat (Z.to_nat NR_TASKS)). apply zsum_le.
  intros j ?. apply Hle. change (Z.of_nat (Z.to_nat NR_TASKS)) with 64 in *. lia.
Qed.

(** The rank looks at the tasks and the table only. *)
Lemma rank_same P t s s' : task s' = task s -> tsk s' = tsk s -> current s' = current s ->
  rank P t s' = rank P t s.
Proof.
  intros Ht Hk Hc. unfold rank, slices, cur_spent. rewrite Hk, Hc.
  replace (counter_of s') with (counter_of s); [done|].
  apply functional_extensionality. intros i. unfold counter_of. by rewrite Ht, Hk.
Qed.
Lemma fair_ok_same P s s' : fair_ok P s -> task s' = task s -> tsk s' = tsk s ->
  current s' = current s -> fair_ok P s'.
Proof.
  intros [Hs Hp Hz Hi Hc] Ht Hk Hcu.
  constructor; rewrite ?Ht, ?Hk, ?Hcu; try done. by eapply sched_ok_same.
Qed.

(** ** The choice of a task *)

(** A walk over the slots above 0 that keeps the table sane. *)
Lemma fair_ok_on_tasks P g s :
  fair_ok P s ->
  (forall t, 0 < t_priority t < 1073741824 -> 0 <= t_counter t < 2147483648 ->
     0 < t_priority (g t) < 1073741824 /\ 0 <= t_counter (g t) < 2147483648) ->
  (forall t, t_priority (g t) = t_priority t) ->
  fair_ok P (on_tasks g s).
Proof.
  intros [Hs Hp Hz Hi Hc] Hg Hpr. constructor; [by apply sched_ok_on_tasks| | | |exact Hc].
  - intros i p Hr Ht. rewrite (on_tasks_lookup g s i p), Hpr by done. by eapply Hp.
  - intros p Ht. rewrite on_tasks_other; [by apply Hz|]. intros i Hr Hq. by apply (Hi i p Hr Hq).
  - intros i p Hr Ht. by apply (Hi i p).
Qed.

Lemma counter_check P s now i : fair_ok P s -> 0 <= i <= 63 ->
  counter_of (on_tasks (check_task now) s) i = counter_of s i.
Proof.
  intros Hok Hi. unfold counter_of. change (task (on_tasks (check_task now) s)) with (task s).
  destruct (task s i) as [p|] eqn:Hp; [|done].
  destruct (decide (i = 0)) as [->|].
  - rewrite on_tasks_other; [done|]. intros j Hj Hq. by apply (fk_idle _ _ Hok j p Hj Hq).
  - rewrite (on_tasks_lookup _ s i p) by (lia || done). apply check_task_keeps.
Qed.

Lemma counter_recharged_le P s i : fair_ok P s -> 0 <= i <= 63 -> 0 <= P ->
  counter_of (on_tasks recharged s) i <= counter_of s i + P.
Proof.
  intros Hok Hi HP. destruct (task s i) as [p|] eqn:Hp; cycle 1.
  { unfold counter_of. change (task (on_tasks recharged s)) with (task s). rewrite Hp. lia. }
  pose proof (counter_of_nonneg P s i Hok Hi). destruct (decide (i = 0)) as [->|].
  - unfold counter_of. change (task (on_tasks recharged s)) with (task s). rewrite Hp.
    rewrite on_tasks_other; [lia|]. intros j Hj Hq. by apply (fk_idle _ _ Hok j p Hj Hq).
  - rewrite (counter_recharged s i p); [|apply (fk_sched _ _ Hok)|lia|done].
    pose proof (fk_prio _ _ Hok i p ltac:(lia) Hp). dlia.
Qed.

Lemma runnable_checked now s t : 1 <= t <= 63 -> runnable s t ->
  runnable (on_tasks (check_task now) s) t.
Proof.
  intros Ht (p & Hp & Hr). exists p. split; [exact Hp|]. rewrite (on_tasks_lookup _ s t p) by done.
  unfold check_task. repeat case_match; done.
Qed.

(** What a task in slot [t] may have to wait for: the slices of all tasks, and
    those of one recharge when its own is spent. *)
Definition debt (P t : Z) (s : kstate) : Z :=
  2 * slices s + (if counter_of s t =? 0 then 126 * P + 1 else 0).

Lemma rank_debt P t s : rank P t s = debt P t s + cur_spent s.
Proof. unfold rank, debt. lia. Qed.

Lemma checked_debt P t now s : fair_ok P s -> 1 <= t <= 63 ->
  debt P t (on_tasks (check_task now) s) = debt P t s.
Proof.
  intros Hok Ht. unfold debt. rewrite (counter_check P) by (done || lia).
  replace (slices (on_tasks (check_task now) s)) with (slices s); [done|].
  apply zsum_ext. intros j ?. symmetry. apply (counter_check P); [done|].
  change (Z.of_nat (Z.to_nat NR_TASKS)) with 64 in *. lia.
Qed.

Lemma zero_recharged P s : fair_ok P s -> counter_of (on_tasks recharged s) 0 = counter_of s 0.
Proof.
  intros Hok. unfold counter_of. change (task (on_tasks recharged s)) with (task s).
  destruct (task s 0) as [p|] eqn:Hp; [|done].
  rewrite on_tasks_other; [done|]. intros j Hj Hq. by apply (fk_idle _ _ Hok j p Hj Hq).
Qed.

Lemma recharged_debt P t s : fair_ok P s -> 1 <= t <= 63 -> runnable s t -> all_spent s ->
  debt P t (on_tasks recharged s) < debt P t s.
Proof.
  intros Hok Ht (p & Hp & Hr) [_ Hz]. unfold debt.
  rewrite (Hz t) by (done || by exists p). rewrite Z.eqb_refl.
  pose proof (so_prio _ (fk_sched _ _ Hok) t p Ht Hp).
  pose proof (fk_prio _ _ Hok t p Ht Hp).
  pose proof (counter_of_nonneg P s t Hok ltac:(lia)).
  rewrite (counter_recharged s t p) by (done || apply (fk_sched _ _ Hok)).
  destruct (_ =? 0) eqn:E; ztest; [exfalso; dlia|].
  enough (slices (on_tasks recharged s) <= slices s + 63 * P) by lia.
  assert (Hs : forall s, slices s = counter_of s 0 + zsum (counter_of s) 1 63) by done.
  rewrite !Hs, (zero_recharged P s Hok).
  pose proof (zsum_le (counter_of (on_tasks recharged s)) (counter_of s) 1 63 P) as Hle.
  change (Z.of_nat 63) with 63 in Hle. lapply Hle; [lia|].
  intros j ?. apply counter_recharged_le; [done|lia|lia].
Qed.

Lemma fair_ok_switched P s s' n : fair_ok P s -> 1 <= n <= 63 -> runnable s n ->
  task s' = task s -> tsk s' = tsk s -> current s' = task s n -> fair_ok P s'.
Proof.
  intros [Hs Hp Hz Hi _] Hn (p & Hpn & _) Ht Hk Hc.
  constructor; rewrite ?Ht, ?Hk; try done; [by eapply sched_ok_same|].
  exists n, p. rewrite Hc. split; [lia|done].
Qed.

(** schedule, with a task to run, leaves no more debt and a current task that
    has something left of its slice. *)
Lemma schedule_debt P t s s' :
  (2 <= fuel)%nat -> 1 <= t <= 63 -> fair_ok P s -> runnable s t -> after (schedule fuel s) s' ->
  fair_ok P s' /\ runnable s' t /\ debt P t s' <= debt P t s /\ cur_spent s' = 0.
Proof.
  intros Hf Ht Hok Hr Ha. set (s0 := on_tasks (check_task (jiffies s)) s).
  assert (Hok0 : fair_ok P s0).
  { apply fair_ok_on_tasks; [done| |intros; apply check_task_keeps].
    intros x ? ?. destruct (check_task_keeps (jiffies s) x) as [-> ->]. done. }
  assert (Hr0 : runnable s0 t) by (by apply runnable_checked).
  destruct (choose_next_run fuel s0 Hf (fk_sched _ _ Hok0)) as (n & s1 & Hrun & Hbest & Hs1).
  assert (H1 : fair_ok P s1 /\ runnable s1 t /\ debt P t s1 <= debt P t s).
  { unfold s0 in *. rewrite <- (checked_debt P t (jiffies s) s) by done.
    destruct Hs1 as [->|[Hsp ->]]; [done|]. split; [|split].
    - by apply fair_ok_on_tasks; [|apply recharged_ok|].
    - by apply runnable_recharged.
    - apply Z.lt_le_incl. by apply recharged_debt. }
  destruct H1 as (Hok1 & Hr1 & Hd1).
  destruct Hbest as [[_ Hno]|(Hn & Hrn & Hcn & _)]; [by apply Hno in Hr1|].
  assert (Hs' : task s' = task s1 /\ tsk s' = tsk s1 /\ current s' = task s1 n).
  { revert Ha. unfold schedule. rewrite (bind_Ret _ _ _ _ _ (check_signals_run s (fk_sched _ _ Hok))).
    rewrite (bind_Ret _ _ _ _ _ Hrun). unfold switch_to, ptr_eqb.
    case_bool_decide as He; cbn [after]; intros ->; done. }
  destruct Hs' as (Hst & Hsk & Hsc). split; [by eapply fair_ok_switched|].
  assert (Hco : counter_of s' = counter_of s1).
  { apply functional_extensionality. intros i. unfold counter_of. by rewrite Hst, Hsk. }
  split; [|split].
  - unfold runnable. by rewrite Hst, Hsk.
  - unfold debt, slices. rewrite Hco. done.
  - unfold cur_spent. rewrite Hsc, Hsk. unfold counter_of in Hcn.
    destruct (task s1 n) as [q|]; [|lia]. destruct (_ =? 0) eqn:E; ztest; [lia|done].
Qed.

(** ** The tick *)

(** What a tick does to the task it interrupts. *)
Definition charged (cpl : Z) (x : task_struct) : task_struct :=
  (if nz cpl then x <| t_utime ::= fun u => s32 (u + 1) |>
   else x <| t_stime ::= fun u => s32 (u + 1) |>) <| t_counter := Z.max 0 (t_counter x - 1) |>.

Lemma set_counter_val (x : task_struct) g v : g (t_counter x) = v ->
  x <| t_counter ::= g |> = x <| t_counter := v |>.
Proof. by intros <-. Qed.

Lemma do_timer_run n cpl s c : current s = Some c -> 0 <= t_counter (tsk s c) < 2147483648 ->
  do_timer n cpl s =
  (if (t_counter (tsk s c) <=? 1) && nz cpl then schedule n else mret tt)
    (upd_task c (charged cpl) s).
Proof.
  intros Hc Hr. unfold do_timer. mrun. rewrite Hc.
  set (f := if nz cpl then (fun x : task_struct => x <| t_utime ::= fun u => s32 (u + 1) |>)
            else (fun x => x <| t_stime ::= fun u => s32 (u + 1) |>)).
  assert (Hcharge : (if nz cpl then sett c (fun x => x <| t_utime ::= fun u => s32 (u + 1) |>)
                else sett c (fun x => x <| t_stime ::= fun u => s32 (u + 1) |>)) = sett c f).
  { unfold f. by destruct (nz cpl). }
  rewrite Hcharge. mrun. rewrite !upd_task_fuse.
  assert (Hcf : t_counter (f (tsk s c)) = t_counter (tsk s c)) by (unfold f; by destruct (nz cpl)).
  assert (Hch : forall x, charged cpl x = (f x) <| t_counter := Z.max 0 (t_counter x - 1) |>).
  { intros x. unfold charged, f. by destruct (nz cpl). }
  clearbody f. rewrite upd_task_eq.
  change (t_counter ((f (tsk s c)) <| t_counter ::= fun x => s32 (x - 1) |>))
    with (s32 (t_counter (f (tsk s c)) - 1)).
  rewrite Hcf, s32_small by lia.
  rewrite (upd_task_ext c (charged cpl) (fun x => (f x) <| t_counter := Z.max 0 (t_counter x - 1) |>));
    [|apply Hch].
  destruct (_ >? 0) eqn:E; ztest.
  - replace (t_counter (tsk s c) <=? 1) with false by (symmetry; apply Z.leb_gt; lia). simpl.
    unfold mret, M_ret. f_equal. apply upd_task_ext, set_counter_val. rewrite Hcf, s32_small by lia. lia.
  - replace (t_counter (tsk s c) <=? 1) with true by (symmetry; apply Z.leb_le; lia). simpl.
    mrun. rewrite upd_task_fuse.
    rewrite (upd_task_ext c _ (fun x => (f x) <| t_counter := Z.max 0 (t_counter x - 1) |>)).
    + by destruct (nz cpl).
    + by rewrite Z.max_l by lia.
Qed.

Lemma charged_keeps cpl x :
  t_priority (charged cpl x) = t_priority x /\ t_state (charged cpl x) = t_state x /\
  t_counter (charged cpl x) = Z.max 0 (t_counter x - 1).
Proof. unfold charged. by destruct (nz cpl). Qed.

Lemma current_slice P s c : fair_ok P s -> current s = Some c ->
  0 <= t_counter (tsk s c) < 2147483648.
Proof.
  intros Hok Hc. destruct (fk_current _ _ Hok) as (i & c' & Hi & Ht & Hc').
  assert (c' = c) as -> by congruence. destruct (decide (i = 0)) as [->|].
  - by apply (fk_zero _ _ Hok).
  - apply (so_count _ (fk_sched _ _ Hok) i c); [lia|done].
Qed.

Lemma charged_task cpl s c p : tsk (upd_task c (charged cpl) s) p =
  if decide (p = c) then charged cpl (tsk s p) else tsk s p.
Proof. case_decide; [subst; apply upd_task_eq|by apply upd_task_ne]. Qed.

Lemma charged_ok P cpl s c : fair_ok P s -> fair_ok P (upd_task c (charged cpl) s).
Proof.
  intros [[Hin Hpr Hco] Hp Hz Hi Hcu].
  destruct (charged_keeps cpl (tsk s c)) as (Hkp & _ & Hkc).
  constructor; [constructor; [exact Hin| |]| | |exact Hi|exact Hcu].
  - intros i p Hr Ht. rewrite charged_task. case_decide; subst; rewrite ?Hkp; by eapply Hpr.
  - intros i p Hr Ht. rewrite charged_task. pose proof (Hco i p Hr Ht).
    case_decide; subst; rewrite ?Hkc; lia.
  - intros i p Hr Ht. rewrite charged_task. case_decide; subst; rewrite ?Hkp; by eapply Hp.
  - intros p Ht. rewrite charged_task. pose proof (Hz p Ht). case_decide; subst; rewrite ?Hkc; lia.
Qed.

Lemma slot_unique P s i j p : fair_ok P s -> 0 <= i <= 63 -> 0 <= j <= 63 ->
  task s i = Some p -> task s j = Some p -> i = j.
Proof.
  intros Hok Hi Hj Hpi Hpj. destruct (decide (i = 0)) as [->|], (decide (j = 0)) as [->|]; try done.
  - by destruct (fk_idle _ _ Hok j p ltac:(lia) Hpj).
  - by destruct (fk_idle _ _ Hok i p ltac:(lia) Hpi).
  - apply (so_inj _ (fk_sched _ _ Hok) i j p); [lia|lia|done|done].
Qed.

(** A tick takes one off the slices, unless the current task has spent its. *)
Lemma charged_debt P t cpl s c : fair_ok P s -> current s = Some c -> 0 <= t <= 63 ->
  task s t <> Some c ->
  debt P t (upd_task c (charged cpl) s) = debt P t s - 2 * (1 - cur_spent s).
Proof.
  intros Hok Hc Ht Hne. unfold debt. set (s' := upd_task c (charged cpl) s).
  destruct (fk_current _ _ Hok) as (k & c' & Hk & Htk & Hc'). assert (c' = c) as -> by congruence.
  assert (Hoth : forall i, 0 <= i <= 63 -> i <> k -> counter_of s' i = counter_of s i).
  { intros i Hi Hik. unfold counter_of, s'. change (task (upd_task c (charged cpl) s)) with (task s).
    destruct (task s i) as [p|] eqn:Hp; [|done]. rewrite charged_task. case_decide as Hpc; [|done].
    subst p. by destruct Hik; apply (slot_unique P s i k c). }
  rewrite (Hoth t) by (done || congruence).
  replace (slices s') with (slices s - (1 - cur_spent s)); [lia|].
  assert (Hsz : Z.of_nat (Z.to_nat NR_TASKS) = 64) by done.
  unfold slices. rewrite (zsum_change (counter_of s') (counter_of s) _ _ k);
    [|rewrite Hsz; lia|intros j; rewrite Hsz; intros; apply Hoth; [lia|done]].
  assert (Hks : counter_of s k = t_counter (tsk s c)) by (unfold counter_of; by rewrite Htk).
  assert (Hks' : counter_of s' k = Z.max 0 (t_counter (tsk s c) - 1)).
  { unfold counter_of. change (task s') with (task s). rewrite Htk. unfold s'.
    rewrite upd_task_eq. apply charged_keeps. }
  rewrite Hks, Hks'. generalize (zsum (counter_of s) 0 (Z.to_nat NR_TASKS)). intros z.
  pose proof (current_slice P s c Hok Hc).
  unfold cur_spent. rewrite Hc. destruct (_ =? 0) eqn:E; ztest; unfold b2z; lia.
Qed.

Lemma charged_cur_spent cpl s c : current s = Some c -> 0 <= t_counter (tsk s c) ->
  cur_spent (upd_task c (charged cpl) s) = b2z (t_counter (tsk s c) <=? 1).
Proof.
  intros Hc Hp. unfold cur_spent. change (current (upd_task c (charged cpl) s)) with (current s).
  rewrite Hc, upd_task_eq. destruct (charged_keeps cpl (tsk s c)) as (_ & _ & ->).
  f_equal. apply eq_true_iff_eq. rewrite Z.eqb_eq, Z.leb_le. lia.
Qed.

Lemma charged_runnable cpl s c t : runnable s t -> runnable (upd_task c (charged cpl) s) t.
Proof.
  intros (p & Hp & Hr). exists p. split; [exact Hp|]. rewrite charged_task.
  case_decide; [|done]. subst. by destruct (charged_keeps cpl (tsk s c)) as (_ & -> & _).
Qed.

Lemma cur_spent_range s : 0 <= cur_spent s <= 1.
Proof. unfold cur_spent. destruct (current s); [apply b2z_range|lia]. Qed.

(** The state in which a tick leaves the decision to the scheduler, if it does. *)
Lemma tick_after P cpl s s' c : fair_ok P s -> current s = Some c -> after (tick cpl s) s' ->
  exists s1, fair_ok P s1 /\ current s1 = current s /\ task s1 = task s /\ tsk s1 = tsk s /\
    after ((if (t_counter (tsk s c) <=? 1) && nz cpl then schedule fuel else mret tt)
             (upd_task c (charged cpl) s1)) s'.
Proof.
  intros Hok Hc Ha. unfold tick, outb in Ha. rewrite !bind_modify in Ha.
  match type of Ha with after (do_timer _ _ ?x) _ => exists x end.
  split; [by eapply fair_ok_same|]. split; [done|]. split; [done|]. split; [done|].
  rewrite (do_timer_run _ _ _ c) in Ha; [exact Ha|exact Hc|]. by apply (current_slice P s c).
Qed.

Lemma tick_rank P t cpl s s' c : (2 <= fuel)%nat -> 1 <= t <= 63 -> fair_ok P s -> runnable s t ->
  current s = Some c -> after (tick cpl s) s' ->
  fair_ok P s' /\ runnable s' t /\
  (task s t <> Some c -> rank P t s' + (if nz cpl then 1 else 0) <= rank P t s).
Proof.
  intros Hf Ht Hok Hr Hc Ha.
  destruct (tick_after P cpl s s' c Hok Hc Ha) as (s1 & Hok1 & Hc1 & Ht1 & Hk1 & Ha1).
  rewrite <- (rank_same P t s s1) by done.
  assert (Hr1 : runnable s1 t) by (unfold runnable; by rewrite Ht1, Hk1).
  rewrite <- Ht1. rewrite Hc in Hc1. rewrite <- Hk1 in Ha1.
  pose proof (current_slice P s1 c Hok1 Hc1) as Hcs.
  set (s2 := upd_task c (charged cpl) s1) in *.
  assert (Hok2 : fair_ok P s2) by (by apply charged_ok).
  assert (Hr2 : runnable s2 t) by (by apply charged_runnable).
  pose proof (charged_cur_spent cpl s1 c Hc1 (proj1 Hcs)) as Hsp. fold s2 in Hsp.
  assert (Hcur : cur_spent s1 = b2z (t_counter (tsk s1 c) =? 0)) by (unfold cur_spent; by rewrite Hc1).
  pose proof (cur_spent_range s1).
  assert (Hd : task s1 t <> Some c -> debt P t s2 = debt P t s1 - 2 * (1 - cur_spent s1)).
  { intros. apply charged_debt; [done|done|lia|done]. }
  rewrite !rank_debt.
  destruct (t_counter (tsk s1 c) <=? 1) eqn:E1, (nz cpl) eqn:Ecpl; ztest;
    cbn [andb] in Ha1.
  - destruct (schedule_debt P t s2 s' Hf Ht Hok2 Hr2 Ha1) as (? & ? & ? & ->).
    split; [done|]. split; [done|]. intros Hne. rewrite Hd in * by done. lia.
  - cbn in Ha1. subst s'. split; [done|]. split; [done|]. intros Hne. rewrite Hd by done.
    rewrite Hsp, Hcur in *. destruct (t_counter (tsk s1 c) =? 0) eqn:E0; ztest; simpl; lia.
  - cbn in Ha1. subst s'. split; [done|]. split; [done|]. intros Hne. rewrite Hd by done.
    rewrite Hsp, Hcur in *. destruct (t_counter (tsk s1 c) =? 0) eqn:E0; ztest; simpl; lia.
  - cbn in Ha1. subst s'. split; [done|]. split; [done|]. intros Hne. rewrite Hd by done.
    rewrite Hsp, Hcur in *. destruct (t_counter (tsk s1 c) =? 0) eqn:E0; ztest; simpl; lia.
Qed.

(** ** Steps *)

Lemma works_rank P t s s' : fair_ok P s -> works P t s s' -> rank P t s' <= rank P t s.
Proof.
  intros Hok [Hok' Hc Htk Hcnt Hsame Hsl]. unfold rank. rewrite Hsl.
  destruct (fk_current _ _ Hok') as (k & c & Hk & Htc & Hcc).
  assert (Hkc : task s k = Some c).
  { destruct (Htk k Hk) as [He|He]; congruence. }
  enough (2 * slices s' + cur_spent s' <= 2 * slices s + cur_spent s) by lia.
  pose proof (slices_le 0 s s' ltac:(intros; rewrite Z.add_0_r; by apply Hcnt)) as Hle.
  pose proof (cur_spent_range s). pose proof (cur_spent_range s').
  destruct (decide (counter_of s' k = counter_of s k)) as [He|Hne].
  - enough (cur_spent s' = cur_spent s) by lia. unfold cur_spent. rewrite <- Hc, Hcc.
    unfold counter_of in He. rewrite Htc, Hkc in He. by rewrite He.
  - enough (slices s' < slices s) by lia. unfold slices in *.
    set (h := fun i => if decide (i = k) then counter_of s' k else counter_of s i).
    assert (Hh : zsum (counter_of s') 0 (Z.to_nat NR_TASKS) <= zsum h 0 (Z.to_nat NR_TASKS) + Z.of_nat (Z.to_nat NR_TASKS) * 0).
    { apply zsum_le. change (Z.of_nat (Z.to_nat NR_TASKS)) with 64. intros j Hj. unfold h.
      specialize (Hcnt j ltac:(lia)). case_decide; subst; lia. }
    rewrite (zsum_change h (counter_of s) _ _ k) in Hh;
      [|change (Z.of_nat (Z.to_nat NR_TASKS)) with 64; lia|intros; unfold h; by rewrite decide_False].
    unfold h in Hh. rewrite decide_True in Hh by done. specialize (Hcnt k Hk). lia.
Qed.

Lemma step_rank P t e s s' : (2 <= fuel)%nat -> 1 <= t <= 63 -> fair_ok P s -> runnable s t ->
  step P t e s s' ->
  fair_ok P s' /\
  (current s <> task s t -> rank P t s' + (if decide (e = user_tick) then 1 else 0) <= rank P t s).
Proof.
  intros Hf Ht Hok Hr Hs. destruct (fk_current _ _ Hok) as (k & c & Hk & Hkc & Hc).
  pose proof (cur_spent_range s).
  destruct Hs as [s s' Ha|s s' Ha|s s' Ha|s s' Hw].
  - destruct (tick_rank P t 3 s s' c Hf Ht Hok Hr Hc Ha) as (? & _ & Hrk). split; [done|].
    intros Hne. rewrite decide_True by done. apply Hrk. congruence.
  - destruct (tick_rank P t 0 s s' c Hf Ht Hok Hr Hc Ha) as (? & _ & Hrk). split; [done|].
    intros Hne. rewrite decide_False by done. apply Hrk. congruence.
  - destruct (schedule_debt P t s s' Hf Ht Hok Hr Ha) as (? & _ & ? & Hz). split; [done|].
    intros _. rewrite decide_False by done. rewrite !rank_debt, Hz. lia.
  - split; [apply Hw|]. intros _. rewrite decide_False by done.
    pose proof (works_rank P t s s' Hok Hw). lia.
Qed.

Lemma user_ticks_next ev n m : (n < m)%nat ->
  user_ticks ev n m = (if decide (ev n = user_tick) then 1 else 0) + user_ticks ev (S n) m.
Proof.
  intros Hlt. unfold user_ticks. replace (m - n)%nat with (S (m - S n)) by lia.
  cbn [seq]. rewrite filter_cons. case_decide; cbn [length]; lia.
Qed.

(** An execution in which the task in slot [t] stays runnable. *)
Section execution.
Context (P t : Z) (σ : nat -> kstate) (ev : nat -> event).
Context (Hfuel : (2 <= fuel)%nat) (Ht : 1 <= t <= 63).
Context (H0 : fair_ok P (σ 0%nat)).
Context (Hstep : forall n, step P t (ev n) (σ n) (σ (S n))).
Context (Htick : forall n, exists m, (n <= m)%nat /\ ev m = user_tick).
Context (Hrun : forall n, runnable (σ n) t).

Lemma execution_ok n : fair_ok P (σ n).
Proof.
  induction n as [|n IH]; [done|]. by apply (step_rank P t (ev n) (σ n)).
Qed.

Lemma rank_nonneg n : 0 <= rank P t (σ n).
Proof.
  pose proof (execution_ok n) as Hok. unfold rank. pose proof (cur_spent_range (σ n)).
  assert (0 <= slices (σ n)).
  { apply zsum_nonneg. change (Z.of_nat (Z.to_nat NR_TASKS)) with 64. intros j ?.
    apply (counter_of_nonneg P); [done|lia]. }
  destruct (Hrun n) as (p & Hp & _). pose proof (fk_prio _ _ Hok t p Ht Hp).
  pose proof (so_prio _ (fk_sched _ _ Hok) t p Ht Hp). destruct (_ =? 0); lia.
Qed.

(** One step further from a state in which the task is not chosen. *)
Lemma chosen_later n : current (σ n) <> task (σ n) t ->
  (exists m, (S n <= m)%nat /\ current (σ m) = task (σ m) t /\
     user_ticks ev (S n) m <= rank P t (σ (S n))) ->
  exists m, (n <= m)%nat /\ current (σ m) = task (σ m) t /\ user_ticks ev n m <= rank P t (σ n).
Proof.
  intros Hne (m & Hm & Hc & Hu). exists m. split; [lia|]. split; [done|].
  pose proof (proj2 (step_rank P t _ _ _ Hfuel Ht (execution_ok n) (Hrun n) (Hstep n)) Hne).
  rewrite user_ticks_next by lia. lia.
Qed.

(** By induction on the rank, and on the distance [d] to the next tick. *)
Lemma chosen_within (r : nat) : forall d n,
  rank P t (σ n) <= Z.of_nat r -> ev (n + d)%nat = user_tick ->
  exists m, (n <= m)%nat /\ current (σ m) = task (σ m) t /\ user_ticks ev n m <= rank P t (σ n).
Proof.
  induction r as [r IHr] using lt_wf_ind. intros d. induction d as [|d IHd]; intros n Hrk Hd.
  all: destruct (decide (current (σ n) = task (σ n) t)) as [He|Hne];
    [exists n; split; [done|]; split; [done|]; unfold user_ticks; rewrite Nat.sub_diag;
     apply rank_nonneg|].
  all: apply (chosen_later n Hne);
    pose proof (proj2 (step_rank P t _ _ _ Hfuel Ht (execution_ok n) (Hrun n) (Hstep n)) Hne) as Hs.
  - rewrite Nat.add_0_r in Hd. rewrite decide_True in Hs by done. pose proof (rank_nonneg (S n)).
    destruct (Htick (S n)) as (k & Hk & Hek).
    apply (IHr (r - 1)%nat ltac:(lia) (k - S n)%nat (S n)); [lia|].
    by replace (S n + (k - S n))%nat with k by lia.
  - apply IHd; [destruct (decide _); lia|]. by replace (S n + d)%nat with (n + S d)%nat by lia.
Qed.

Lemma rank_bound n : rank P t (σ n) <= 2 * slices (σ n) + 126 * P + 2.
Proof.
  unfold rank. pose proof (cur_spent_range (σ n)).
  destruct (Hrun n) as (p & Hp & _). pose proof (fk_prio _ _ (execution_ok n) t p Ht Hp).
  pose proof (so_prio _ (fk_sched _ _ (execution_ok n)) t p Ht Hp). destruct (_ =? 0); lia.
Qed.
End execution.

(** C2: A task that stays runnable is chosen again and again: as long as timer
    interrupts keep arriving in user mode, and whatever the running tasks do
    between them short of making new tasks or raising priorities (sleep, wake
    others, block, call schedule), schedule gives the processor to it within
    twice the time slices outstanding, plus 126 times the largest priority, plus
    2 ticks. *)
Theorem no_starvation P t (σ : nat -> kstate) (ev : nat -> event) :
  (2 <= fuel)%nat -> 1 <= t <= 63 -> fair_ok P (σ 0%nat) ->
  (forall n, step P t (ev n) (σ n) (σ (S n))) ->
  (forall n, exists m, (n <= m)%nat /\ ev m = user_tick) ->
  (forall n, runnable (σ n) t) ->
  forall n, exists m, (n <= m)%nat /\ current (σ m) = task (σ m) t /\
    user_ticks ev n m <= 2 * slices (σ n) + 126 * P + 2.
Proof.
  intros Hf Ht H0 Hs Hk Hr n. destruct (Hk n) as (k & Hnk & Hek).
  destruct (chosen_within P t σ ev Hf Ht H0 Hs Hk Hr (Z.to_nat (rank P t (σ n))) (k - n)%nat n)
    as (m & Hm & Hc & Hu).
  { pose proof (rank_nonneg P t σ ev Hf Ht H0 Hs Hr n). lia. }
  { by replace (n + (k - n))%nat with k by lia. }
  exists m. split; [done|]. split; [done|]. etrans; [exact Hu|].
  by apply (rank_bound P t σ ev).
Qed.

(** ** Work *)

(** A change of the state of tasks is work, whoever is put to sleep or woken. *)
Lemma works_states P t s s' (g : Z -> task_struct -> task_struct) :
  fair_ok P s -> (forall p x, t_priority (g p x) = t_priority x /\ t_counter (g p x) = t_counter x) ->
  task s' = task s -> current s' = current s -> (forall p, tsk s' p = g p (tsk s p)) ->
  works P t s s'.
Proof.
  intros [[Hin Hpr Hco] Hp Hz Hi Hcu] Hg Ht Hc Hk.
  assert (Hcnt : forall i, counter_of s' i = counter_of s i).
  { intros i. unfold counter_of. rewrite Ht. destruct (task s i); [|done]. rewrite Hk. apply Hg. }
  constructor; rewrite ?Ht, ?Hc; auto; [|by intros; rewrite Hcnt].
  constructor; [constructor| | | |]; rewrite ?Ht, ?Hc; auto.
  - intros i p Hi' Hp'. rewrite Hk, (proj1 (Hg _ _)). eauto.
  - intros i p Hi' Hp'. rewrite Hk, (proj2 (Hg _ _)). eauto.
  - intros i p Hi' Hp'. rewrite Hk, (proj1 (Hg _ _)). eauto.
  - intros p Hp'. rewrite Hk, (proj2 (Hg _ _)). eauto.
Qed.

(** wake_up is work. *)
Lemma works_wake_up P t q s : fair_ok P s -> WaitQueue q ->
  exists s', wake_up (Some q) s = Ret tt s' /\ works P t s s'.
Proof.
  intros Hok Hq. unfold wake_up, sett. mrun. destruct (wq_get q s) as [h|] eqn:Eh.
  - mrun. eexists. split; [done|].
    apply (works_states P t s _ (fun p x => if decide (p = h) then x <| t_state := TASK_RUNNING |> else x));
      [done|by intros; case_decide|by rewrite wq_set_task|by rewrite wq_set_current|].
    intros p. rewrite wq_set_tsk. case_decide; [subst; by rewrite upd_task_eq|by rewrite upd_task_ne].
  - exists s. split; [done|]. by apply (works_states P t s s (fun _ x => x)).
Qed.

(** sys_pause is work followed by [block]. *)
Lemma works_pause P t s c : fair_ok P s -> current s = Some c ->
  exists s1, works P t s s1 /\ forall s', after (sys_pause fuel s) s' -> after (schedule fuel s1) s'.
Proof.
  intros Hok Hc. exists (upd_task c (fun x => x <| t_state := TASK_INTERRUPTIBLE |>) s). split.
  - apply (works_states P t s _ (fun p x => if decide (p = c) then x <| t_state := TASK_INTERRUPTIBLE |> else x));
      [done|by intros; case_decide|done|done|].
    intros p. case_decide; [subst; by rewrite upd_task_eq|by rewrite upd_task_ne].
  - intros s'. unfold sys_pause. rewrite bind_get, Hc. unfold sett. rewrite bind_modify.
    unfold mbind, M_bind. destruct (schedule fuel _); cbn; tauto.
Qed.

(** ** A tick always ends *)

Definition next_state (r : res kstate unit) (s : kstate) : kstate :=
  match r with Ret _ s' | Yield s' _ => s' | _ => s end.

Lemma schedule_ends s : (2 <= fuel)%nat -> sched_ok s ->
  after (schedule fuel s) (next_state (schedule fuel s) s).
Proof.
  intros Hf Hok. destruct (choose_next_run fuel (on_tasks (check_task (jiffies s)) s) Hf)
    as (n & s1 & Hrun & _); [by apply sched_ok_check|].
  unfold schedule. rewrite (bind_Ret _ _ _ _ _ (check_signals_run s Hok)), (bind_Ret _ _ _ _ _ Hrun).
  unfold switch_to. by destruct (ptr_eqb _ _).
Qed.

Lemma tick_ends P cpl s : (2 <= fuel)%nat -> fair_ok P s -> after (tick cpl s) (next_state (tick cpl s) s).
Proof.
  intros Hf Hok. destruct (fk_current _ _ Hok) as (i & c & Hi & Ht & Hc).
  unfold tick, outb. rewrite !bind_modify.
  match goal with |- context [do_timer _ _ ?x] => set (s1 := x) end.
  assert (Hok1 : fair_ok P s1) by (by eapply fair_ok_same).
  assert (Hc1 : current s1 = Some c) by done. clearbody s1.
  rewrite (do_timer_run _ _ _ c) by (done || by apply (current_slice P)).
  destruct (_ && _); [|done].
  pose proof (schedule_ends (upd_task c (charged cpl) s1) Hf
                (fk_sched _ _ (charged_ok P cpl s1 c Hok1))) as He.
  revert He. by destruct (schedule _ _).
Qed.
End fairness.

(** Two processes that compute for ever, while the timer ticks. *)
Definition two_running : kstate :=
  zero_kstate
    <| task := fun i => if i =? 0 then Some 4096 else if i =? 1 then Some 8192
                        else if i =? 2 then Some 12288 else None |>
    <| tsk := fun _ => zero_task <| t_priority := 15 |> <| t_counter := 3 |> |>
    <| current := Some 8192 |>.

Lemma two_running_task i p : task two_running i = Some p ->
  i = 0 /\ p = 4096 \/ i = 1 /\ p = 8192 \/ i = 2 /\ p = 12288.
Proof.
  unfold two_running. cbn [task set_field].
  destruct (i =? 0) eqn:E0; ztest; [intros [= <-]; auto|].
  destruct (i =? 1) eqn:E1; ztest; [intros [= <-]; auto|].
  destruct (i =? 2) eqn:E2; ztest; [intros [= <-]; auto|done].
Qed.

Lemma two_running_ok : fair_ok 15 two_running.
Proof.
  constructor; [constructor| | | |].
  - intros i j p _ _ Hi Hj. apply two_running_task in Hi, Hj. lia.
  - intros i p _ _. simpl. lia.
  - intros i p _ _. simpl. lia.
  - intros i p _ _. simpl. lia.
  - intros p _. simpl. lia.
  - intros i p Hi Hp Hq. apply two_running_task in Hp, Hq. lia.
  - exists 1, 8192. split; [lia|done].
Qed.

Definition computing (n : nat) : kstate :=
  Nat.iter n (fun s => next_state (@tick quiet_machine 3 s) s) two_running.

Lemma computing_ok n : fair_ok 15 (computing n) /\ runnable (computing n) 2.
Proof.
  induction n as [|n [IH Hr]].
  - split; [apply two_running_ok|]. exists 12288. done.
  - destruct (fk_current _ _ IH) as (i & c & _ & _ & Hc).
    destruct (@tick_rank quiet_machine 15 2 3 (computing n) (computing (S n)) c) as (? & ? & _); try done;
      [simpl; lia|]. apply (@tick_ends quiet_machine 15); [simpl; lia|done].
Qed.

Lemma no_starvation_witness :
  exists m, (100 <= m)%nat /\ current (computing m) = task (computing m) 2.
Proof.
  destruct (@no_starvation quiet_machine 15 2 computing (fun _ => user_tick)) with (n := 100%nat)
    as (m & Hm & Hc & _).
  - simpl; lia.
  - lia.
  - apply two_running_ok.
  - intros k. apply step_user. apply (@tick_ends quiet_machine 15); [simpl; lia|apply computing_ok].
  - intros k. exists k. split; [lia|reflexivity].
  - intros k. apply computing_ok.
  - exists m. split; [exact Hm|exact Hc].
Defined.
