(* ===== verification/Rely.v ===== *)
(** What a process relies on while it sleeps in the kernel, and what it
    guarantees to the others.

    Kernel code runs until it gives the processor up.  [keeps c I m] says that
    the code [m], run by process [c] from a state of [I], leaves the tables
    sane and the descriptors of every other process alone whenever it switches,
    and ends in a state of [I], however the other processes, bound by the same
    rule, change the system in between.  [plain m] says it for every [I] that
    speaks of the descriptors of [c]; Keeps.v proves it of the kernel's
    functions one by one, System.v of the calls that open and close files. *)
From S2P Require Export Entry.
#[local] Open Scope bool_scope.

(** ** The tables *)

Definition in_table (s : kstate) (p : Z) : Prop :=
  exists i, 0 <= i < NR_TASKS /\ task s i = Some p.
Lemma in_table_slots s p : in_slots s 0 p = true <-> in_table s p.
Proof. rewrite in_slots_true. unfold in_table, NR_TASKS. split; intros (i & ? & ?); exists i; auto with lia. Qed.
#[export] Instance in_table_dec s p : Decision (in_table s p).
Proof. refine (cast_if (decide (in_slots s 0 p = true))); by rewrite <- in_table_slots. Defined.
Definition live (s : kstate) (p : Z) : Prop := t_state (tsk s p) <> TASK_ZOMBIE.
Definition no_files (t : task_struct) : Prop :=
  forall fd, 0 <= fd < NR_OPEN -> t_filp t fd = None.
Definition holds (t : task_struct) (f : Z) : Prop :=
  exists fd, 0 <= fd < NR_OPEN /\ t_filp t fd = Some f.

(** Priority and time slice are in the range the scheduler counts on. *)
Definition slice_ok (t : task_struct) : Prop :=
  0 < t_priority t < 1073741824 /\ 0 <= t_counter t < 2147483648.

(** The tables are sane once the system has been set up: what [files_ok] says
    but for the current task, zombies have no open files, the idle task is in
    its slot, and every task has a proper time slice. *)
Record sys_ok (s : kstate) : Prop := {
  sy_slots : forall i j p, 0 <= i < NR_TASKS -> 0 <= j < NR_TASKS ->
    task s i = Some p -> task s j = Some p -> i = j;
  sy_range : forall p f, in_table s p -> holds (tsk s p) f -> 0 <= f < NR_FILE;
  sy_counts : forall f, 0 <= f < NR_FILE -> f_count (file_table s f) = file_refs s f;
  sy_zombie : forall p, in_table s p -> ~ live s p -> no_files (tsk s p);
  sy_idle : exists p, task s 0 = Some p /\ live s p;
  sy_slice : forall p, in_table s p -> slice_ok (tsk s p);
  sy_setup : setup_callable s = 0;
}.

(** No process but [d] has the file [f] open. *)
Definition only (s : kstate) (d f : Z) : Prop :=
  forall p, in_table s p -> p <> d -> ~ holds (tsk s p) f.

(** From [s] to [s'] process [d], unless it has been released, keeps its
    descriptors, and no other process gets one of the files only [d] has. *)
Record view (d : Z) (s s' : kstate) : Prop := {
  vw_idle : task s' 0 = task s 0;
  vw_table : in_table s' d -> in_table s d;
  vw_filp : in_table s' d -> forall fd, 0 <= fd < NR_OPEN ->
    t_filp (tsk s' d) fd = t_filp (tsk s d) fd;
  vw_only : in_table s' d -> forall f, holds (tsk s d) f -> only s d f -> only s' d f;
}.

(** What the code of [c] does to the others. *)
Definition guar (c : Z) (s s' : kstate) : Prop :=
  task s' 0 = task s 0 /\ forall d, d <> c -> view d s s'.

(** The state in which [c] gives the processor to a live process. *)
Definition yielded (c : Z) (s0 s : kstate) : Prop :=
  sys_ok s /\ guar c s0 s /\ exists d, current s = Some d /\ in_table s d /\ live s d.

(** The state in which [c], switched out in [s], is resumed. *)
Record resumed (c : Z) (s s' : kstate) : Prop := {
  re_sys : sys_ok s';
  re_current : current s' = Some c;
  re_table : in_table s' c;
  re_live : live s' c;
  re_view : view c s s';
}.

(** Every way of running [r] on behalf of [c], which was last resumed in [s0]. *)
Fixpoint rg {A} (c : Z) (s0 : kstate) (r : res kstate A) (Q : kstate -> A -> kstate -> Prop) : Prop :=
  match r with
  | Ret a s => Q s0 a s
  | Yield s k => yielded c s0 s /\ forall s', resumed c s s' -> rg c s' (k s') Q
  | _ => True
  end.

Definition keeps {A} (c : Z) (I : kstate -> Prop) (m : K A) : Prop := forall s0 s,
  I s -> guar c s0 s -> rg c s0 (m s) (fun s0' _ s' => I s' /\ guar c s0' s').

(** ** Steps that touch no descriptor *)

(** The step from [s] to [t] changes no descriptor, no count of an open file
    and no slot, ends no process and spoils no time slice. *)
Record inert (s t : kstate) : Prop := {
  in_task : task t = task s;
  in_current : current t = current s;
  in_setup : setup_callable t = setup_callable s;
  in_filp : forall p, t_filp (tsk t p) = t_filp (tsk s p);
  in_live : forall p, live s p -> live t p;
  in_slice : forall p, slice_ok (tsk s p) -> slice_ok (tsk t p);
  in_count : forall f, f_count (file_table t f) = f_count (file_table s f);
}.

#[export] Instance inert_preorder : PreOrder inert.
Proof.
  split.
  - intros s. by split.
  - intros s t u [E1 E2 E3 E4 E5 E7 E6] [F1 F2 F3 F4 F5 F7 F6].
    split; try congruence; intros; rewrite ?F4, ?F6; auto.
Qed.

(** An assertion about the descriptors of [c], which is running. *)
Class Stable (c : Z) (I : kstate -> Prop) : Prop := {
  st_sys : forall s, I s -> sys_ok s;
  st_current : forall s, I s -> current s = Some c;
  st_inert : forall s t, I s -> inert s t -> I t;
  st_resume : forall s s', I s -> resumed c s s' -> I s';
}.

(** Code that keeps every such assertion. *)
Definition plain {A} (m : K A) : Prop := forall c I, Stable c I -> keeps c I m.

Lemma in_table_same s t p : task t = task s -> in_table t p <-> in_table s p.
Proof. intros E. unfold in_table. by rewrite E. Qed.

Lemma holds_same t u f : t_filp u = t_filp t -> holds u f <-> holds t f.
Proof. intros E. unfold holds. by rewrite E. Qed.

Lemma only_same s t d f : task t = task s -> (forall p, t_filp (tsk t p) = t_filp (tsk s p)) ->
  only s d f -> only t d f.
Proof.
  intros Et Ef Ho p Hp Hne. rewrite (holds_same (tsk s p)) by done. apply Ho; [|done].
  by rewrite <- (in_table_same s t).
Qed.

Lemma view_same d s t : task t = task s -> (forall p, t_filp (tsk t p) = t_filp (tsk s p)) ->
  view d s t.
Proof.
  intros Et Ef. split; [by rewrite Et|by rewrite (in_table_same s t)|by intros; rewrite Ef|].
  intros _ f _. by apply only_same.
Qed.

#[export] Instance view_trans d : Transitive (view d).
Proof.
  intros s t u [A1 A2 A3 A4] [B1 B2 B3 B4]. split.
  - congruence.
  - auto.
  - intros Hu fd Hfd. rewrite B3, A3 by auto. done.
  - intros Hu f Hh Ho. apply B4; [done| |auto].
    destruct Hh as (fd & Hfd & Hf). exists fd. split; [done|]. by rewrite A3 by auto.
Qed.

#[export] Instance guar_trans c : Transitive (guar c).
Proof.
  intros s t u [A1 A2] [B1 B2]. split; [congruence|]. intros d Hd. etrans; [by apply A2|by apply B2].
Qed.

Lemma guar_inert c s t : inert s t -> guar c s t.
Proof. intros []. split; [congruence|]. intros d _. by apply view_same. Qed.
Lemma guar_refl c s : guar c s s.
Proof. apply guar_inert. reflexivity. Qed.

Lemma sys_ok_inert s t : sys_ok s -> inert s t -> sys_ok t.
Proof.
  intros [A1 A2 A3 A4 (p0 & A5 & A6) A8 A7] [E1 E2 E3 E4 E5 E7 E6]. split.
  - by rewrite E1.
  - intros p f. rewrite (in_table_same s t), (holds_same (tsk s p)) by done. apply A2.
  - intros f Hf. rewrite E6, A3 by done. apply zsum_ext. intros j _. unfold slot_refs, fd_refs.
    rewrite E1. destruct (task s j); [|done]. by rewrite E4.
  - intros p. rewrite (in_table_same s t) by done. intros Hp Hz fd Hfd. rewrite E4.
    apply A4; [done| |done]. intros Hl. by apply Hz, E5.
  - exists p0. rewrite E1. auto.
  - intros p. rewrite (in_table_same s t) by done. auto.
  - congruence.
Qed.

(** ** Rules *)

Lemma rg_mono {A} c s0 (r : res kstate A) (Q Q' : kstate -> A -> kstate -> Prop) :
  rg c s0 r Q -> (forall s0 a s, Q s0 a s -> Q' s0 a s) -> rg c s0 r Q'.
Proof.
  intros H HQ. revert s0 H. induction r as [| | |s k IH|]; simpl; auto.
  intros s0 [Hy Hk]. split; [done|]. intros s' Hs'. apply IH, Hk, Hs'.
Qed.

Lemma rg_bind {A B} c s0 (m : K A) (f : A -> K B) s Q :
  rg c s0 (m s) (fun s0' a s' => rg c s0' (f a s') Q) -> rg c s0 ((m ≫= f) s) Q.
Proof.
  unfold mbind, M_bind. revert s0. induction (m s) as [| | |s1 k IH|]; simpl; auto.
  intros s0 [Hy Hk]. split; [done|]. intros s' Hs'. apply IH, Hk, Hs'.
Qed.

Lemma rg_keeps {A} c (I : kstate -> Prop) (m : K A) s0 s (Q : kstate -> A -> kstate -> Prop) :
  keeps c I m -> I s -> guar c s0 s ->
  (forall s0' a s', I s' -> guar c s0' s' -> Q s0' a s') -> rg c s0 (m s) Q.
Proof. intros Hm HI Hg HQ. eapply rg_mono; [by apply Hm|]. intros s0' a s' []. auto. Qed.

Section keeps_rules.
Context (c : Z) (I : kstate -> Prop).

Lemma keeps_ret {A} (a : A) : keeps c I (mret a).
Proof. by intros s0 s HI Hg. Qed.
Lemma keeps_panic {A} msg : keeps c I (panic msg : K A).
Proof. by intros s0 s HI Hg. Qed.
Lemma keeps_fault {A} : keeps c I (fault : K A).
Proof. by intros s0 s HI Hg. Qed.
Lemma keeps_nofuel {A} : keeps c I (nofuel : K A).
Proof. by intros s0 s HI Hg. Qed.
Lemma keeps_gets {A} (g : kstate -> A) : keeps c I (gets g).
Proof. by intros s0 s HI Hg. Qed.
Lemma keeps_get : keeps c I get.
Proof. by intros s0 s HI Hg. Qed.
Lemma keeps_deref p : keeps c I (deref p).
Proof. destruct p; by intros s0 s HI Hg. Qed.

Lemma keeps_bind {A B} (m : K A) (f : A -> K B) :
  keeps c I m -> (forall a, keeps c I (f a)) -> keeps c I (m ≫= f).
Proof.
  intros Hm Hf s0 s HI Hg. apply rg_bind. eapply rg_mono; [by apply Hm|].
  intros s0' a s' [HI' Hg']. by apply Hf.
Qed.

Lemma keeps_when b (m : K unit) : keeps c I m -> keeps c I (when b m).
Proof. intros Hm. destruct b; [exact Hm|apply keeps_ret]. Qed.

Lemma keeps_loop {A B} n (body : B -> K (B + A)) b :
  (forall b, keeps c I (body b)) -> keeps c I (loop n body b).
Proof.
  intros Hb. revert b. induction n as [|n IH]; intros b; simpl; [apply keeps_nofuel|].
  apply keeps_bind; [apply Hb|]. intros [b'|a]; [apply IH|apply keeps_ret].
Qed.

Lemma keeps_while n (g : K bool) (b : K unit) : keeps c I g -> keeps c I b -> keeps c I (while n g b).
Proof.
  intros Hg Hb. induction n as [|n IH]; simpl; (apply keeps_bind; [exact Hg|]);
    intros []; try apply keeps_ret; try apply keeps_nofuel.
  apply keeps_bind; [exact Hb|]. intros _. exact IH.
Qed.

Lemma keeps_for i n (body : Z -> K unit) :
  (forall j, i <= j -> keeps c I (body j)) -> keeps c I (for_ i n body).
Proof.
  revert i. induction n as [|n IH]; intros i Hb; simpl; [apply keeps_ret|].
  apply keeps_bind; [by apply Hb|]. intros _. apply IH. intros j Hj. apply Hb. lia.
Qed.

Lemma keeps_for_down i n (body : Z -> K unit) :
  (forall i, keeps c I (body i)) -> keeps c I (for_down i n body).
Proof.
  intros Hb. induction n as [|n IH]; simpl; [apply keeps_ret|].
  apply keeps_bind; [apply Hb|]. intros _. apply IH.
Qed.

Lemma keeps_for_ret {A} i n (body : Z -> K (option A)) :
  (forall i, keeps c I (body i)) -> keeps c I (for_ret i n body).
Proof.
  intros Hb. revert i. induction n as [|n IH]; intros i; simpl; [apply keeps_ret|].
  apply keeps_bind; [apply Hb|]. intros [a|]; [apply keeps_ret|apply IH].
Qed.

Lemma keeps_modify `{!Stable c I} (g : kstate -> kstate) :
  (forall s, inert s (g s)) -> keeps c I (modify g).
Proof.
  intros Hi s0 s HI Hg. simpl. split; [by eapply st_inert|].
  etrans; [exact Hg|by apply guar_inert].
Qed.

Lemma keeps_plain `{!Stable c I} {A} (m : K A) : plain m -> keeps c I m.
Proof. intros Hm. by apply Hm. Qed.
End keeps_rules.

(** ** What a process may know of itself *)

(** [c], which is not the idle task, runs, is live and has the descriptors [F];
    no other process has the files of [X], which [c] has open. *)
Record own (c : Z) (F : Z -> ptr) (X : Z -> Prop) (s : kstate) : Prop := {
  ow_sys : sys_ok s;
  ow_current : current s = Some c;
  ow_table : in_table s c;
  ow_live : live s c;
  ow_idle : task s 0 <> Some c;
  ow_filp : forall fd, 0 <= fd < NR_OPEN -> t_filp (tsk s c) fd = F fd;
  ow_only : forall f, X f -> holds (tsk s c) f /\ only s c f;
}.

Definition none (_ : Z) : Prop := False.

Definition sane (c : Z) (s : kstate) : Prop := exists F, own c F none s.

(** [c] runs and is live. *)
Record running (c : Z) (s : kstate) : Prop := {
  ru_sys : sys_ok s;
  ru_current : current s = Some c;
  ru_table : in_table s c;
  ru_live : live s c;
}.

(** [c] runs, but has closed its files to end. *)
Record dying (c : Z) (s : kstate) : Prop := {
  dy_sys : sys_ok s;
  dy_current : current s = Some c;
  dy_idle : task s 0 <> Some c;
  dy_filp : no_files (tsk s c);
}.

#[export] Instance own_stable c F X : Stable c (own c F X).
Proof.
  split.
  - apply ow_sys.
  - apply ow_current.
  - intros s t [A1 A2 A3 A4 A0 A5 A6] Hi. pose proof Hi as [E1 E2 E3 E4 E5 E7 E6]. split.
    + by eapply sys_ok_inert.
    + congruence.
    + by rewrite (in_table_same s t).
    + auto.
    + congruence.
    + intros fd Hfd. rewrite E4. auto.
    + intros f Hf. destruct (A6 f Hf) as [Hh Ho]. rewrite (holds_same (tsk s c)) by done.
      split; [done|]. by apply (only_same s).
  - intros s s' [A1 A2 A3 A4 A0 A5 A6] [B1 B2 B3 B4 [V1 V2 V3 V4]]. split; auto.
    + congruence.
    + intros fd Hfd. rewrite V3 by done. auto.
    + intros f Hf. destruct (A6 f Hf) as [Hh Ho]. split; [|auto].
      destruct Hh as (fd & Hfd & He). exists fd. by rewrite V3.
Qed.

#[export] Instance sane_stable c : Stable c (sane c).
Proof.
  split.
  - intros s [F HF]. apply HF.
  - intros s [F HF]. apply HF.
  - intros s t [F HF] Hi. exists F. by eapply st_inert.
  - intros s s' [F HF] Hr. exists F. by eapply st_resume.
Qed.

#[export] Instance running_stable c : Stable c (running c).
Proof.
  split.
  - apply ru_sys.
  - apply ru_current.
  - intros s t [] Hi. pose proof Hi as [E1 E2 E3 E4 E5 E7 E6].
    split; [by eapply sys_ok_inert|congruence|by rewrite (in_table_same s t)|auto].
  - intros s s' _ []. by split.
Qed.

#[export] Instance dying_stable c : Stable c (dying c).
Proof.
  split.
  - apply dy_sys.
  - apply dy_current.
  - intros s t [A1 A2 A3 A4] Hi. pose proof Hi as [E1 E2 E3 E4 E5 E7 E6]. split.
    + by eapply sys_ok_inert.
    + congruence.
    + congruence.
    + intros fd Hfd. rewrite E4. auto.
  - intros s s' [A1 A2 A3 A4] [B1 B2 B3 B4 [V1 V2 V3 V4]]. split; auto; [congruence|].
    intros fd Hfd. rewrite V3 by done. auto.
Qed.

(** A process that has closed its files, and is live, is sane. *)
Lemma dying_sane c s : dying c s -> in_table s c -> live s c -> sane c s.
Proof. intros [A1 A2 A3 A4] Ht Hl. exists (fun _ => None). by split. Qed.

(** ** Giving the processor up *)

Lemma inert_upd_task p f s :
  (forall t, t_filp (f t) = t_filp t) ->
  (forall t, t_state t <> TASK_ZOMBIE -> t_state (f t) <> TASK_ZOMBIE) ->
  (forall t, slice_ok t -> slice_ok (f t)) ->
  inert s (upd_task p f s).
Proof.
  intros Hf Hz Hs. split; try done.
  - intros q. simpl. rewrite arr_dec. by case_decide; subst.
  - intros q Hq. unfold live in *. simpl. rewrite arr_dec. case_decide; subst; auto.
  - intros q Hq. simpl. rewrite arr_dec. case_decide; subst; auto.
Qed.

Lemma check_signals_inert i s :
  exists s', check_signals i s = Ret tt s' /\ inert s s'.
Proof.
  unfold check_signals. mrun. destruct (task s i) as [p|]; [|by exists s].
  mrun. destruct (_ && _); mrun; rewrite when_run;
    (destruct (_ && _); [|by eexists; split; [reflexivity|];
       repeat first [reflexivity | etrans; [|apply inert_upd_task]]]).
  all: eexists; (split; [reflexivity|]).
  all: repeat (etrans; [|by apply inert_upd_task]); reflexivity.
Qed.

Lemma recharge_inert i s : exists s', recharge i s = Ret tt s' /\ inert s s'.
Proof.
  unfold recharge. mrun. destruct (task s i) as [p|]; [|by exists s].
  eexists. split; [reflexivity|]. apply inert_upd_task; [done|done|].
  intros t [? ?]. by apply recharged_ok.
Qed.

Lemma for_down_inert i n (body : Z -> K unit) s :
  (forall j t, exists t', body j t = Ret tt t' /\ inert t t') ->
  exists s', for_down i n body s = Ret tt s' /\ inert s s'.
Proof.
  intros Hb. apply (for_down_inv (fun _ => inert s)); [reflexivity|]. intros j t _ Ht.
  destruct (Hb j t) as (t' & Hrun & Ht'). exists t'. split; [done|]. by etrans.
Qed.

Lemma choose_next_inert n s :
  match choose_next n s with
  | Ret next s' => inert s s' /\ (next = 0 \/ 1 <= next <= 63 /\ runnable s' next)
  | NoFuel => True
  | _ => False
  end.
Proof.
  unfold choose_next. revert s. induction n as [|n IH]; intros s; [done|].
  cbn [loop]. mrun. pose proof (pick_spec s 63 (-1) 0) as Hp.
  destruct (pick s 63 (-1) 0) as [b next]. destruct Hp as (_ & Hn & _).
  destruct (nz b).
  - mrun. split; [reflexivity|]. destruct Hn as [[= _ ->]|(Hr & Hrun & _)]; [by left|by right].
  - mrun. destruct (for_down_inert 1 63 recharge s recharge_inert) as (s1 & Hrun & Hi).
    rewrite (bind_Ret _ _ _ _ _ Hrun). mrun. specialize (IH s1).
    destruct (loop n _ tt s1); try done. destruct IH as [Hi' Hn']. split; [by etrans|done].
Qed.

Lemma set_current_same s c : current s = Some c -> s <| current := Some c |> = s.
Proof. intros H. destruct s. simpl in H. by subst. Qed.

Lemma sys_ok_current s p : sys_ok s -> sys_ok (s <| current := p |>).
Proof. intros []. by split. Qed.

Lemma guar_current c s0 s p : guar c s0 s -> guar c s0 (s <| current := p |>).
Proof. intros Hg. etrans; [exact Hg|]. split; [done|]. intros d _. by apply view_same. Qed.

Lemma resumed_current c s p s' : resumed c (s <| current := p |>) s' -> resumed c s s'.
Proof. intros [A1 A2 A3 A4 [V1 V2 V3 V4]]. by split. Qed.

(** schedule by [c]: it goes on at once, being the task chosen, or when it is
    resumed. *)
Lemma schedule_rg c s0 s n (Q : kstate -> unit -> kstate -> Prop) :
  sys_ok s -> current s = Some c -> guar c s0 s ->
  (forall s1, inert s s1 -> in_table s1 c -> live s1 c -> guar c s0 s1 -> Q s0 tt s1) ->
  (forall s1 s', inert s s1 -> resumed c s1 s' -> Q s' tt s') ->
  rg c s0 (schedule n s) Q.
Proof.
  intros Hok Hc Hg HQ1 HQ2. unfold schedule.
  destruct (for_down_inert 1 63 check_signals s check_signals_inert) as (s1 & Hrun & Hi1).
  rewrite (bind_Ret _ _ _ _ _ Hrun). pose proof (choose_next_inert n s1) as Hn.
  unfold mbind, M_bind. destruct (choose_next n s1) as [next s2|?|?|?|]; try done. cbn [res_bind].
  destruct Hn as [Hi2 Hn]. assert (Hi : inert s s2) by (by etrans).
  assert (Hok2 : sys_ok s2) by (by eapply sys_ok_inert).
  assert (Hg2 : guar c s0 s2) by (etrans; [exact Hg|by apply guar_inert]).
  assert (Hd : exists d, task s2 next = Some d /\ in_table s2 d /\ live s2 d).
  { destruct Hn as [->|(Hr & p & Hp & Hst)].
    - destruct (sy_idle _ Hok2) as (d & Hd & Hl). exists d. split; [done|]. split; [|done].
      exists 0. split; [done|exact Hd].
    - exists p. split; [done|]. split; [exists next; split; [unfold NR_TASKS; lia|done]|].
      unfold live. by rewrite Hst. }
  destruct Hd as (d & Hd & Ht & Hl). unfold switch_to. rewrite (in_current _ _ Hi), Hc, Hd.
  unfold ptr_eqb. case_bool_decide as He; cbn [rg].
  - simplify_eq. by apply HQ1.
  - split.
    + split; [by apply sys_ok_current|]. split; [by apply guar_current|]. exists d. done.
    + intros s' Hr. rewrite set_current_same by apply Hr.
      apply HQ2 with s2; [done|]. by apply resumed_current in Hr.
Qed.

Lemma plain_schedule n : plain (schedule n).
Proof.
  intros c I HI s0 s Hs Hg. apply (schedule_rg c); [by eapply st_sys|by eapply st_current|done| |].
  - intros s1 Hi _ _ Hg1. split; [by eapply st_inert|done].
  - intros s1 s' Hi Hr. split; [|apply guar_refl]. eapply st_resume; [|exact Hr]. by eapply st_inert.
Qed.

(** ** Automation

    [keep_steps] goes through the code of a function; the functions it calls
    are looked up in the databases [plain] and [safe]. *)
Create HintDb plain discriminated.
#[export] Hint Constants Opaque : plain.
Create HintDb safe discriminated.
#[export] Hint Constants Opaque : safe.
#[export] Hint Resolve plain_schedule : plain.

(** Code of a process, not the idle task, that may close files. *)
Definition safe {A} (m : K A) : Prop := forall c, keeps c (sane c) m.

Lemma keeps_safe {A} c (m : K A) : safe m -> keeps c (sane c) m.
Proof. intros Hm. apply Hm. Qed.
Lemma safe_plain {A} (m : K A) : plain m -> safe m.
Proof. intros Hm c. apply Hm, _. Qed.

Section primitives.
Lemma plain_modify (g : kstate -> kstate) : (forall s, inert s (g s)) -> plain (modify g).
Proof. intros Hg c I HI. by apply keeps_modify. Qed.
Lemma plain_setb i f : plain (setb i f).
Proof. by apply plain_modify. Qed.
Lemma plain_seti i f : plain (seti i f).
Proof. by apply plain_modify. Qed.
Lemma plain_setsb i f : plain (setsb i f).
Proof. by apply plain_modify. Qed.
Lemma plain_sett p f :
  (forall t, t_filp (f t) = t_filp t) ->
  (forall t, t_state t <> TASK_ZOMBIE -> t_state (f t) <> TASK_ZOMBIE) ->
  (forall t, slice_ok t -> slice_ok (f t)) -> plain (sett p f).
Proof. intros. apply plain_modify. intros s. by apply inert_upd_task. Qed.
Lemma plain_setf i f : (forall x, f_count (f x) = f_count x) -> plain (setf i f).
Proof.
  intros Hf. apply plain_modify. intros s. split; try done.
  intros k. simpl. rewrite arr_dec. by case_decide; subst.
Qed.
Lemma plain_cur : plain cur.
Proof. intros c I HI. apply keeps_bind; [apply keeps_gets|]. intros p. apply keeps_deref. Qed.
Lemma plain_me : plain me.
Proof. intros c I HI. apply keeps_bind; [by apply plain_cur|]. intros p. apply keeps_gets. Qed.
Lemma plain_setme f :
  (forall t, t_filp (f t) = t_filp t) ->
  (forall t, t_state t <> TASK_ZOMBIE -> t_state (f t) <> TASK_ZOMBIE) ->
  (forall t, slice_ok t -> slice_ok (f t)) -> plain (setme f).
Proof.
  intros Hf Hz Hs c I HI. apply keeps_bind; [by apply plain_cur|]. intros p. by apply plain_sett.
Qed.
End primitives.
#[export] Hint Resolve plain_setb plain_seti plain_setsb plain_cur plain_me : plain.

Ltac same_task := solve
  [ intros ?; reflexivity
  | intros ? ?; first [assumption | discriminate | simpl; repeat case_match; first [assumption | discriminate]]
  | intros ?; simpl; repeat case_match; reflexivity ].

Ltac keep_leaf :=
  lazymatch goal with
  | |- keeps ?c ?I (modify _) => apply (keeps_plain c I), plain_modify; intros ?; by split
  | |- keeps ?c ?I (sett _ _) => apply (keeps_plain c I), plain_sett; same_task
  | |- keeps ?c ?I (setme _) => apply (keeps_plain c I), plain_setme; same_task
  | |- keeps ?c ?I (setf _ _) => apply (keeps_plain c I), plain_setf; intros ?; reflexivity
  | |- keeps ?c (sane ?c) _ =>
      first [ apply (keeps_plain c (sane c)); solve [auto with plain nocore]
            | apply keeps_safe; solve [auto with safe nocore] ]
  | |- keeps ?c ?I _ => apply (keeps_plain c I); solve [auto with plain nocore]
  end.

Ltac keep_step :=
  cbv beta iota zeta;
  lazymatch goal with
  | |- keeps _ _ (mret _) => apply keeps_ret
  | |- keeps _ _ (panic _) => apply keeps_panic
  | |- keeps _ _ fault => apply keeps_fault
  | |- keeps _ _ nofuel => apply keeps_nofuel
  | |- keeps _ _ (gets _) => apply keeps_gets
  | |- keeps _ _ get => apply keeps_get
  | |- keeps _ _ (deref _) => apply keeps_deref
  | |- keeps _ _ (getb _) => apply keeps_gets
  | |- keeps _ _ (geti _) => apply keeps_gets
  | |- keeps _ _ (getf _) => apply keeps_gets
  | |- keeps _ _ (getsb _) => apply keeps_gets
  | |- keeps _ _ (gett _) => apply keeps_gets
  | |- keeps _ _ (_ ≫= _) => apply keeps_bind; [|intros ?]
  | |- keeps _ _ (when _ _) => apply keeps_when
  | |- keeps _ _ (loop _ _ _) => apply keeps_loop; intros ?
  | |- keeps _ _ (while _ _ _) => apply keeps_while
  | |- keeps _ _ (for_ _ _ _) => apply keeps_for; intros ? ?
  | |- keeps _ _ (for_down _ _ _) => apply keeps_for_down; intros ?
  | |- keeps _ _ (for_ret _ _ _) => apply keeps_for_ret; intros ?
  | |- keeps _ _ (match ?x with _ => _ end) => destruct x
  | |- keeps _ _ ((match ?x with _ => _ end) _) => destruct x
  | |- _ => keep_leaf
  end.
Ltac keep_steps := repeat keep_step.
(** For [plain (f ...)], once [f] is unfolded. *)
Ltac by_plain := let c := fresh "c" in let I := fresh "I" in let HI := fresh "HI" in
  intros c I HI; keep_steps.
Ltac by_safe := let c := fresh "c" in intros c; keep_steps.
