(* ===== verification/Keeps.v ===== *)
(** The functions of the kernel that open and close no file, one by one: none
    touches a descriptor ([plain]), whatever happens while it sleeps. *)
From S2P Require Export Rely.
#[local] Open Scope bool_scope.

(** A wait queue that is no part of the tables. *)
Definition apart (p : option wqueue) : Prop :=
  match p with Some q => forall v s, inert s (wq_set q v s) | None => True end.

Lemma apart_b_wait i : apart (wq_b_wait i).
Proof. done. Qed.
Lemma apart_i_wait i : apart (wq_i_wait i).
Proof. done. Qed.
Lemma apart_buffer_wait : apart wq_buffer_wait.
Proof. done. Qed.
Lemma apart_wait_for_request : apart wq_wait_for_request.
Proof. done. Qed.
Lemma apart_secondary i : apart (wq_secondary i).
Proof. done. Qed.
Lemma apart_write_q i : apart (wq_write_q i).
Proof. done. Qed.
#[export] Hint Resolve apart_secondary apart_write_q : plain.
#[export] Hint Resolve apart_b_wait apart_i_wait apart_buffer_wait apart_wait_for_request : plain.

Section plain_functions.
Context `{Machine}.

Lemma plain_sleep_on n p : apart p -> plain (sleep_on n p).
Proof.
  intros Hq. unfold sleep_on. destruct p as [q|]; by_plain. apply (keeps_plain c I), plain_modify.
  intros s. apply Hq.
Qed.
Lemma plain_interruptible_sleep_on n p : apart p -> plain (interruptible_sleep_on n p).
Proof.
  intros Hq. unfold interruptible_sleep_on.
  destruct p as [q|]; by_plain; apply (keeps_plain c I), plain_modify; intros s; apply Hq.
Qed.
Lemma plain_wake_up p : apart p -> plain (wake_up p).
Proof.
  intros Hq. unfold wake_up. destruct p as [q|]; by_plain.
  apply (keeps_plain c I), plain_modify. intros s. apply Hq.
Qed.
#[local] Hint Resolve plain_sleep_on plain_interruptible_sleep_on plain_wake_up : plain.

Lemma slice_ok_counter t v : slice_ok t -> 0 <= v < 2147483648 -> slice_ok (t <| t_counter := v |>).
Proof. intros [Hp _] Hv. by split. Qed.

(** A tick spends what is left of a time slice, and no more. *)
Lemma plain_do_timer n cpl : plain (do_timer n cpl).
Proof.
  intros c I HI s0 s Hs Hg. unfold do_timer. mrun. rewrite (st_current s Hs).
  apply rg_bind. eapply (rg_keeps c I); [keep_steps|done|done|]. clear s s0 Hs Hg. intros s0 _ s Hs Hg.
  mrun. rewrite upd_task_eq. change (t_counter (?t <| t_counter ::= ?f |>)) with (f (t_counter t)).
  cbv beta. destruct (_ >? 0) eqn:E; ztest.
  - match goal with |- context [upd_task c ?f s] => assert (Hi : inert s (upd_task c f s)) end.
    { split; try done; intros p; unfold live; simpl; rewrite arr_dec; case_decide; try done; subst; try done.
      intros Hsl. apply (slice_ok_counter _ _ Hsl). rewrite s32_small in * by (destruct Hsl; lia).
      destruct Hsl. lia. }
    split; [by eapply st_inert|]. etrans; [exact Hg|by apply guar_inert].
  - mrun. rewrite upd_task_fuse.
    match goal with |- context [upd_task c ?f s] => assert (Hi : inert s (upd_task c f s)) end.
    { apply inert_upd_task; [done|done|]. intros t Ht. by apply (slice_ok_counter _ 0 Ht). }
    match goal with |- context [upd_task c ?f s] => set (s1 := upd_task c f s) in * end.
    assert (Hs1 : I s1) by (by eapply st_inert).
    assert (Hg1 : guar c s0 s1) by (etrans; [exact Hg|by apply guar_inert]).
    destruct (negb _); [done|]. by apply plain_schedule.
Qed.

(** nice may lower the priority. *)
Lemma plain_sys_nice increment : 0 <= increment < 2147483648 -> plain (sys_nice increment).
Proof.
  intros Hinc c I HI s0 s Hs Hg. unfold sys_nice. pose proof (st_current s Hs) as Hc.
  rewrite (bind_Ret _ _ _ _ _ (me_run s c Hc)).
  destruct (_ >? 0) eqn:E; ztest; [|by rewrite when_false || done].
  rewrite when_true, bind_assoc, (bind_Ret _ _ _ _ _ (setme_run s c _ Hc)).
  match goal with |- context [upd_task c ?f s] => set (s1 := upd_task c f s) end.
  assert (Hi : inert s s1).
  { split; try done; intros p; unfold live, s1; simpl; rewrite arr_dec; case_decide; try done; subst; try done.
    intros [Hp Hcn]. split; [|done]. simpl. rewrite s32_small in * by lia. lia. }
  eapply (rg_keeps c I); [unfold printk; keep_steps|by eapply st_inert|etrans; [exact Hg|by apply guar_inert]|done].
Qed.
#[local] Hint Resolve plain_do_timer plain_sys_nice : plain.

(** *** KState.v *)
Lemma plain_printk fmt args : plain (printk fmt args).
Proof. unfold printk. by_plain. Qed.
Lemma plain_CURRENT_TIME : plain CURRENT_TIME.
Proof. unfold CURRENT_TIME. by_plain. Qed.
Lemma plain_get_fs_byte a : plain (get_fs_byte a).
Proof. unfold get_fs_byte. by_plain. Qed.
Lemma plain_get_fs_long a : plain (get_fs_long a).
Proof. unfold get_fs_long. by_plain. Qed.
Lemma plain_put_fs_byte v a : plain (put_fs_byte v a).
Proof. unfold put_fs_byte. by_plain. Qed.
Lemma plain_put_fs_word v a : plain (put_fs_word v a).
Proof. unfold put_fs_word. by_plain. Qed.
Lemma plain_put_fs_long v a : plain (put_fs_long v a).
Proof. unfold put_fs_long. by_plain. Qed.
Lemma plain_phys_get a : plain (phys_get a).
Proof. unfold phys_get. by_plain. Qed.
Lemma plain_phys_put a v : plain (phys_put a v).
Proof. unfold phys_put. by_plain. Qed.
Lemma plain_inb port : plain (inb port).
Proof. unfold inb. by_plain. Qed.
#[local] Hint Resolve plain_printk plain_CURRENT_TIME plain_get_fs_byte plain_get_fs_long
  plain_put_fs_byte plain_put_fs_word plain_put_fs_long plain_phys_get plain_phys_put
  plain_inb : plain.
Lemma plain_inb_p port : plain (inb_p port).
Proof. unfold inb_p. by_plain. Qed.
Lemma plain_inw port : plain (inw port).
Proof. unfold inw. by_plain. Qed.
Lemma plain_outb value port : plain (outb value port).
Proof. unfold outb. by_plain. Qed.
#[local] Hint Resolve plain_inb_p plain_inw plain_outb : plain.
Lemma plain_outb_p value port : plain (outb_p value port).
Proof. unfold outb_p. by_plain. Qed.
Lemma plain_outw value port : plain (outw value port).
Proof. unfold outw. by_plain. Qed.
#[local] Hint Resolve plain_outb_p plain_outw : plain.

(** *** Sched.v *)
Lemma plain_math_state_restore fninit : plain (math_state_restore fninit).
Proof. unfold math_state_restore. by_plain. Qed.
Lemma plain_sys_pause n : plain (sys_pause n).
Proof. unfold sys_pause. by_plain. Qed.
Lemma plain_sys_alarm seconds : plain (sys_alarm seconds).
Proof. unfold sys_alarm. by_plain. Qed.
Lemma plain_sys_getpid : plain sys_getpid.
Proof. unfold sys_getpid. by_plain. Qed.
Lemma plain_sys_getppid : plain sys_getppid.
Proof. unfold sys_getppid. by_plain. Qed.
Lemma plain_sys_getuid : plain sys_getuid.
Proof. unfold sys_getuid. by_plain. Qed.
Lemma plain_sys_geteuid : plain sys_geteuid.
Proof. unfold sys_geteuid. by_plain. Qed.
Lemma plain_sys_getgid : plain sys_getgid.
Proof. unfold sys_getgid. by_plain. Qed.
Lemma plain_sys_getegid : plain sys_getegid.
Proof. unfold sys_getegid. by_plain. Qed.
Lemma plain_sys_signal signal addr restorer : plain (sys_signal signal addr restorer).
Proof. unfold sys_signal. by_plain. Qed.
#[local] Hint Resolve plain_math_state_restore plain_sys_pause plain_sys_alarm
  plain_sys_getpid plain_sys_getppid plain_sys_getuid plain_sys_geteuid plain_sys_getgid
  plain_sys_getegid plain_sys_signal : plain.

(** *** Memory.v *)
Lemma plain_invalidate : plain invalidate.
Proof. unfold invalidate. by_plain. Qed.
Lemma plain_copy_page from to : plain (copy_page from to).
Proof. unfold copy_page. by_plain. Qed.
Lemma plain_clear_page page : plain (clear_page page).
Proof. unfold clear_page. by_plain. Qed.
#[local] Hint Resolve plain_invalidate plain_copy_page plain_clear_page : plain.
Lemma plain_get_free_page : plain get_free_page.
Proof. unfold get_free_page. by_plain. Qed.
Lemma plain_free_page addr : plain (free_page addr).
Proof. unfold free_page. by_plain. Qed.
#[local] Hint Resolve plain_get_free_page plain_free_page : plain.
Lemma plain_free_page_tables from size : plain (free_page_tables from size).
Proof. unfold free_page_tables, free_dir, free_entry. by_plain. Qed.
Lemma plain_copy_page_tables from to size : plain (copy_page_tables from to size).
Proof. unfold copy_page_tables, copy_dir, copy_entry. by_plain. Qed.
Lemma plain_put_page page address : plain (put_page page address).
Proof. unfold put_page. by_plain. Qed.
#[local] Hint Resolve plain_free_page_tables plain_copy_page_tables plain_put_page : plain.

(** *** Hd.v *)
Lemma plain_getr i : plain (getr i).
Proof. unfold getr. by_plain. Qed.
Lemma plain_setr i f : plain (setr i f).
Proof. unfold setr. by_plain. Qed.
Lemma plain_port_read port bh off nr : plain (port_read port bh off nr).
Proof. unfold port_read. by_plain. Qed.
Lemma plain_port_write port bh off nr : plain (port_write port bh off nr).
Proof. unfold port_write. by_plain. Qed.
Lemma plain_lock_buffer bh : plain (lock_buffer bh).
Proof. unfold lock_buffer. by_plain. Qed.
Lemma plain_unlock_buffer bh : plain (unlock_buffer bh).
Proof. unfold unlock_buffer. by_plain. Qed.
Lemma plain_hd_wait_on_buffer bh : plain (Hd.wait_on_buffer bh).
Proof. unfold Hd.wait_on_buffer. by_plain. Qed.
Lemma plain_controller_ready : plain controller_ready.
Proof. unfold controller_ready. by_plain. Qed.
Lemma plain_win_result : plain win_result.
Proof. unfold win_result. by_plain. Qed.
#[local] Hint Resolve plain_getr plain_setr plain_port_read plain_port_write
  plain_lock_buffer plain_unlock_buffer plain_hd_wait_on_buffer plain_controller_ready
  plain_win_result : plain.
Lemma plain_hd_out drive nsect sect head cyl cmd intr_addr : plain (hd_out drive nsect sect head cyl cmd intr_addr).
Proof. unfold hd_out. by_plain. Qed.
Lemma plain_drive_busy : plain drive_busy.
Proof. unfold drive_busy. by_plain. Qed.
#[local] Hint Resolve plain_hd_out plain_drive_busy : plain.
Lemma plain_reset_controller : plain reset_controller.
Proof. unfold reset_controller. by_plain. Qed.
#[local] Hint Resolve plain_reset_controller : plain.
Lemma plain_reset_hd nr : plain (reset_hd nr).
Proof. unfold reset_hd. by_plain. Qed.
Lemma plain_unexpected_hd_interrupt : plain unexpected_hd_interrupt.
Proof. unfold unexpected_hd_interrupt. by_plain. Qed.
Lemma plain_this_req : plain this_req.
Proof. unfold this_req. by_plain. Qed.
Lemma plain_req_bh r : plain (req_bh r).
Proof. unfold req_bh. by_plain. Qed.
#[local] Hint Resolve plain_reset_hd plain_unexpected_hd_interrupt plain_this_req
  plain_req_bh : plain.
Lemma plain_next_request : plain next_request.
Proof. unfold next_request. by_plain. Qed.
#[local] Hint Resolve plain_next_request : plain.
Lemma plain_bad_rw_intr : plain bad_rw_intr.
Proof. unfold bad_rw_intr. by_plain. Qed.
Lemma plain_do_request : plain do_request.
Proof. unfold do_request. by_plain. Qed.
#[local] Hint Resolve plain_bad_rw_intr plain_do_request : plain.
Lemma plain_read_intr : plain read_intr.
Proof. unfold read_intr. by_plain. Qed.
Lemma plain_write_intr : plain write_intr.
Proof. unfold write_intr. by_plain. Qed.
#[local] Hint Resolve plain_read_intr plain_write_intr : plain.
Lemma plain_hd_interrupt : plain hd_interrupt.
Proof. unfold hd_interrupt. by_plain. Qed.
Lemma plain_insert_step req tmp : plain (insert_step req tmp).
Proof. unfold insert_step. by_plain. Qed.
#[local] Hint Resolve plain_hd_interrupt plain_insert_step : plain.
Lemma plain_insert_after req tmp : plain (insert_after req tmp).
Proof. unfold insert_after. by_plain. Qed.
#[local] Hint Resolve plain_insert_after : plain.
Lemma plain_add_request req : plain (add_request req).
Proof. unfold add_request. by_plain. Qed.
Lemma plain_get_request : plain get_request.
Proof. unfold get_request. by_plain. Qed.
#[local] Hint Resolve plain_add_request plain_get_request : plain.
Lemma plain_rw_abs_hd rw nr sec head cyl bh : plain (rw_abs_hd rw nr sec head cyl bh).
Proof. unfold rw_abs_hd. by_plain. Qed.
#[local] Hint Resolve plain_rw_abs_hd : plain.
Lemma plain_rw_hd rw bh : plain (rw_hd rw bh).
Proof. unfold rw_hd. by_plain. Qed.
#[local] Hint Resolve plain_rw_hd : plain.

(** *** Buffer.v *)
Lemma plain_ll_rw_block rw bh : plain (ll_rw_block rw bh).
Proof.
  unfold ll_rw_block, rd_blk. intros c I HI. apply keeps_bind; [apply keeps_gets|intros b]. cbv zeta.
  destruct (_ >=? _); [apply keeps_panic|]. destruct (_ =? 3); keep_steps.
Qed.
Lemma plain_wait_on_buffer bh : plain (wait_on_buffer bh).
Proof. unfold wait_on_buffer. by_plain. Qed.
#[local] Hint Resolve plain_ll_rw_block plain_wait_on_buffer : plain.
Lemma plain_sys_sync sync_inodes : plain sync_inodes -> plain (sys_sync sync_inodes).
Proof. intros. unfold sys_sync. by_plain. Qed.
Lemma plain_sync_dev dev : plain (sync_dev dev).
Proof. unfold sync_dev. by_plain. Qed.
Lemma plain_set_hash dev block p : plain (set_hash dev block p).
Proof. unfold set_hash. by_plain. Qed.
#[local] Hint Resolve plain_sys_sync plain_sync_dev plain_set_hash : plain.
Lemma plain_remove_from_queues bh : plain (remove_from_queues bh).
Proof. unfold remove_from_queues. by_plain. Qed.
Lemma plain_insert_into_queues bh : plain (insert_into_queues bh).
Proof. unfold insert_into_queues. by_plain. Qed.
Lemma plain_find_step dev block tmp : plain (find_step dev block tmp).
Proof. unfold find_step. by_plain. Qed.
#[local] Hint Resolve plain_remove_from_queues plain_insert_into_queues plain_find_step :
  plain.
Lemma plain_find_buffer dev block : plain (find_buffer dev block).
Proof. unfold find_buffer. by_plain. Qed.
Lemma plain_brelse buf : plain (brelse buf).
Proof. unfold brelse. by_plain. Qed.
#[local] Hint Resolve plain_find_buffer plain_brelse : plain.
Lemma plain_get_hash_table dev block : plain (get_hash_table dev block).
Proof. unfold get_hash_table. by_plain. Qed.
Lemma plain_scan_step tmp : plain (scan_step tmp).
Proof. unfold scan_step. by_plain. Qed.
#[local] Hint Resolve plain_get_hash_table plain_scan_step : plain.
Lemma plain_scan_free : plain scan_free.
Proof. unfold scan_free. by_plain. Qed.
#[local] Hint Resolve plain_scan_free : plain.
Lemma plain_getblk_step dev block x_ : plain (getblk_step dev block x_).
Proof. unfold getblk_step. by_plain. Qed.
#[local] Hint Resolve plain_getblk_step : plain.
Lemma plain_getblk dev block : plain (getblk dev block).
Proof. unfold getblk. by_plain. Qed.
#[local] Hint Resolve plain_getblk : plain.
Lemma plain_bread dev block : plain (bread dev block).
Proof. unfold bread. by_plain. Qed.
Lemma plain_init_step bh : plain (init_step bh).
Proof. unfold init_step. by_plain. Qed.
#[local] Hint Resolve plain_bread plain_init_step : plain.
Lemma plain_block_write dev filp buf count : plain (block_write dev filp buf count).
Proof. unfold block_write. by_plain. Qed.
Lemma plain_block_read dev filp buf count : plain (block_read dev filp buf count).
Proof. unfold block_read. by_plain. Qed.
#[local] Hint Resolve plain_block_write plain_block_read : plain.

(** *** Bitmap.v *)
Lemma plain_get_super dev : plain (get_super dev).
Proof. unfold get_super. by_plain. Qed.
Lemma plain_clear_block bh : plain (clear_block bh).
Proof. unfold clear_block. by_plain. Qed.
#[local] Hint Resolve plain_get_super plain_clear_block : plain.
Lemma plain_free_block dev block : plain (free_block dev block).
Proof. unfold free_block. by_plain. Qed.
Lemma plain_new_block dev : plain (new_block dev).
Proof. unfold new_block. by_plain. Qed.
Lemma plain_free_inode inode : plain (free_inode inode).
Proof. unfold free_inode. by_plain. Qed.
#[local] Hint Resolve plain_free_block plain_new_block plain_free_inode : plain.

(** *** Inode.v *)
Lemma plain_wait_on_inode inode : plain (wait_on_inode inode).
Proof. unfold wait_on_inode. by_plain. Qed.
Lemma plain_lock_inode inode : plain (lock_inode inode).
Proof. unfold lock_inode. by_plain. Qed.
Lemma plain_unlock_inode inode : plain (unlock_inode inode).
Proof. unfold unlock_inode. by_plain. Qed.
#[local] Hint Resolve plain_wait_on_inode plain_lock_inode plain_unlock_inode : plain.
Lemma plain_read_inode inode : plain (read_inode inode).
Proof. unfold read_inode. by_plain. Qed.
Lemma plain_write_inode inode : plain (write_inode inode).
Proof. unfold write_inode. by_plain. Qed.
#[local] Hint Resolve plain_read_inode plain_write_inode : plain.
Lemma plain_sync_inodes : plain sync_inodes.
Proof. unfold sync_inodes. by_plain. Qed.
Lemma plain_zone_of inode k create : plain (zone_of inode k create).
Proof. unfold zone_of. by_plain. Qed.
Lemma plain_indirect dev zone k create : plain (indirect dev zone k create).
Proof. unfold indirect. by_plain. Qed.
#[local] Hint Resolve plain_sync_inodes plain_zone_of plain_indirect : plain.
Lemma plain__bmap inode block create : plain (_bmap inode block create).
Proof. unfold _bmap. by_plain. Qed.
#[local] Hint Resolve plain__bmap : plain.
Lemma plain_bmap inode block : plain (bmap inode block).
Proof. unfold bmap. by_plain. Qed.
Lemma plain_create_block inode block : plain (create_block inode block).
Proof. unfold create_block. by_plain. Qed.
Lemma plain_free_ind dev block : plain (free_ind dev block).
Proof. unfold free_ind. by_plain. Qed.
#[local] Hint Resolve plain_bmap plain_create_block plain_free_ind : plain.
Lemma plain_free_dind dev block : plain (free_dind dev block).
Proof. unfold free_dind. by_plain. Qed.
#[local] Hint Resolve plain_free_dind : plain.
Lemma plain_truncate inode : plain (truncate inode).
Proof. unfold truncate. by_plain. Qed.
#[local] Hint Resolve plain_truncate : plain.
Lemma plain_iput_step i x_ : plain (iput_step i x_).
Proof. unfold iput_step. by_plain. Qed.
#[local] Hint Resolve plain_iput_step : plain.
Lemma plain_iput inode : plain (iput inode).
Proof. unfold iput. by_plain. Qed.
Lemma plain_empty_step x_ : plain (empty_step x_).
Proof. unfold empty_step. by_plain. Qed.
#[local] Hint Resolve plain_iput plain_empty_step : plain.
Lemma plain_get_empty_inode : plain get_empty_inode.
Proof. unfold get_empty_inode. by_plain. Qed.
#[local] Hint Resolve plain_get_empty_inode : plain.
Lemma plain_get_pipe_inode : plain get_pipe_inode.
Proof. unfold get_pipe_inode. by_plain. Qed.
Lemma plain_iget_step dev nr inode : plain (iget_step dev nr inode).
Proof. unfold iget_step. by_plain. Qed.
#[local] Hint Resolve plain_get_pipe_inode plain_iget_step : plain.
Lemma plain_iget dev nr : plain (iget dev nr).
Proof. unfold iget. by_plain. Qed.
Lemma plain_new_inode dev : plain (new_inode dev).
Proof. unfold new_inode. by_plain. Qed.
#[local] Hint Resolve plain_iget plain_new_inode : plain.

(** *** Super.v *)

(** *** Namei.v *)
Lemma plain_permission inode mask : plain (permission inode mask).
Proof. unfold permission. by_plain. Qed.
Lemma plain_find_entry_step dir name namelen entries x : plain (find_entry_step dir name namelen entries x).
Proof. unfold find_entry_step. by_plain. Qed.
#[local] Hint Resolve plain_permission plain_find_entry_step : plain.
Lemma plain_find_entry dir name namelen : plain (find_entry dir name namelen).
Proof. unfold find_entry. by_plain. Qed.
Lemma plain_add_entry_step dir name namelen x : plain (add_entry_step dir name namelen x).
Proof. unfold add_entry_step. by_plain. Qed.
#[local] Hint Resolve plain_find_entry plain_add_entry_step : plain.
Lemma plain_add_entry dir name namelen : plain (add_entry dir name namelen).
Proof. unfold add_entry. by_plain. Qed.
Lemma plain_next_name pathname : plain (next_name pathname).
Proof.
  intros c I HI s0 s Hs Hg. unfold next_name. by destruct (scan _ _ _).
Qed.
#[local] Hint Resolve plain_add_entry plain_next_name : plain.
Lemma plain_get_dir_step x : plain (get_dir_step x).
Proof. unfold get_dir_step. by_plain. Qed.
#[local] Hint Resolve plain_get_dir_step : plain.
Lemma plain_get_dir pathname : plain (get_dir pathname).
Proof. unfold get_dir. by_plain. Qed.
Lemma plain_base_name pathname : plain (base_name pathname).
Proof. unfold base_name. by_plain. Qed.
#[local] Hint Resolve plain_get_dir plain_base_name : plain.
Lemma plain_dir_namei pathname : plain (dir_namei pathname).
Proof. unfold dir_namei. by_plain. Qed.
#[local] Hint Resolve plain_dir_namei : plain.
Lemma plain_namei pathname : plain (namei pathname).
Proof. unfold namei. by_plain. Qed.
Lemma plain_fill_entry bh de num : plain (fill_entry bh de num).
Proof. unfold fill_entry. by_plain. Qed.
Lemma plain_drop_link inode : plain (drop_link inode).
Proof. unfold drop_link. by_plain. Qed.
#[local] Hint Resolve plain_namei plain_fill_entry plain_drop_link : plain.
Lemma plain_open_namei pathname flag mode : plain (open_namei pathname flag mode).
Proof. unfold open_namei. by_plain. Qed.
Lemma plain_sys_mkdir pathname mode : plain (sys_mkdir pathname mode).
Proof. unfold sys_mkdir. by_plain. Qed.
Lemma plain_empty_dir_step inode len x : plain (empty_dir_step inode len x).
Proof. unfold empty_dir_step. by_plain. Qed.
#[local] Hint Resolve plain_open_namei plain_sys_mkdir plain_empty_dir_step : plain.
Lemma plain_empty_dir inode : plain (empty_dir inode).
Proof. unfold empty_dir. by_plain. Qed.
#[local] Hint Resolve plain_empty_dir : plain.
Lemma plain_sys_rmdir name : plain (sys_rmdir name).
Proof. unfold sys_rmdir. by_plain. Qed.
Lemma plain_sys_unlink name : plain (sys_unlink name).
Proof. unfold sys_unlink. by_plain. Qed.
Lemma plain_sys_link oldname newname : plain (sys_link oldname newname).
Proof. unfold sys_link. by_plain. Qed.
#[local] Hint Resolve plain_sys_rmdir plain_sys_unlink plain_sys_link : plain.

(** *** Files.v *)
Lemma plain_sys_utime filename times : plain (sys_utime filename times).
Proof. unfold sys_utime. by_plain. Qed.
Lemma plain_sys_access filename mode : plain (sys_access filename mode).
Proof. unfold sys_access. by_plain. Qed.
Lemma plain_sys_chdir filename : plain (sys_chdir filename).
Proof. unfold sys_chdir. by_plain. Qed.
Lemma plain_sys_chroot filename : plain (sys_chroot filename).
Proof. unfold sys_chroot. by_plain. Qed.
Lemma plain_sys_chmod filename mode : plain (sys_chmod filename mode).
Proof. unfold sys_chmod. by_plain. Qed.
Lemma plain_sys_chown filename uid gid : plain (sys_chown filename uid gid).
Proof. unfold sys_chown. by_plain. Qed.
Lemma plain_get_filp fd : plain (get_filp fd).
Proof. unfold get_filp. by_plain. Qed.
#[local] Hint Resolve plain_sys_utime plain_sys_access plain_sys_chdir plain_sys_chroot
  plain_sys_chmod plain_sys_chown plain_get_filp : plain.
Lemma plain_sys_lseek fd offset origin : plain (sys_lseek fd offset origin).
Proof. unfold sys_lseek. by_plain. Qed.
#[local] Hint Resolve plain_sys_lseek : plain.

(** *** Process.v *)
Lemma plain_send_sig sig p priv : plain (send_sig sig p priv).
Proof. unfold send_sig. by_plain. Qed.
#[local] Hint Resolve plain_send_sig : plain.
Lemma plain_do_kill pid sig priv : plain (do_kill pid sig priv).
Proof. unfold do_kill. by_plain. Qed.
#[local] Hint Resolve plain_do_kill : plain.
Lemma plain_sys_kill pid sig : plain (sys_kill pid sig).
Proof. unfold sys_kill. by_plain. Qed.
Lemma plain_orphan i : plain (orphan i).
Proof. unfold orphan. by_plain. Qed.
Lemma plain_share_inode p : plain (share_inode p).
Proof. unfold share_inode. by_plain. Qed.
Lemma plain_find_empty_process : plain find_empty_process.
Proof. unfold find_empty_process. by_plain. Qed.
#[local] Hint Resolve plain_sys_kill plain_orphan plain_share_inode
  plain_find_empty_process : plain.

(** *** Queue.v *)
Lemma plain_gettty i : plain (gettty i).
Proof. unfold gettty. by_plain. Qed.
Lemma plain_settty i f : plain (settty i f).
Proof. unfold settty. by_plain. Qed.
#[local] Hint Resolve plain_gettty plain_settty : plain.

(** *** Console.v *)
Lemma plain_setc f : plain (setc f).
Proof. unfold setc. by_plain. Qed.
Lemma plain_set_register r a : plain (set_register r a).
Proof. unfold set_register. by_plain. Qed.
#[local] Hint Resolve plain_setc plain_set_register : plain.
Lemma plain_set_origin : plain set_origin.
Proof. unfold set_origin. by_plain. Qed.
Lemma plain_set_cursor : plain set_cursor.
Proof. unfold set_cursor. by_plain. Qed.
#[local] Hint Resolve plain_set_origin plain_set_cursor : plain.
Lemma plain_scrup : plain scrup.
Proof. unfold scrup. by_plain. Qed.
#[local] Hint Resolve plain_scrup : plain.
Lemma plain_lf : plain lf.
Proof. unfold lf. by_plain. Qed.
Lemma plain_delete_line : plain delete_line.
Proof. unfold delete_line. by_plain. Qed.
#[local] Hint Resolve plain_lf plain_delete_line : plain.
Lemma plain_csi_M nr : plain (csi_M nr).
Proof. unfold csi_M. by_plain. Qed.
Lemma plain_respond cooked tty : (forall i, plain (cooked i)) -> plain (respond cooked tty).
Proof. intros. unfold respond. by_plain. Qed.
Lemma plain_plain_char tty ch : plain (plain_char tty ch).
Proof. unfold plain_char. by_plain. Qed.
#[local] Hint Resolve plain_csi_M plain_respond plain_plain_char : plain.
Lemma plain_escape_char cooked tty ch : (forall i, plain (cooked i)) -> plain (escape_char cooked tty ch).
Proof. intros. unfold escape_char. by_plain. Qed.
Lemma plain_csi_final ch : plain (csi_final ch).
Proof. unfold csi_final. by_plain. Qed.
#[local] Hint Resolve plain_escape_char plain_csi_final : plain.
Lemma plain_csi_param ch : plain (csi_param ch).
Proof. unfold csi_param. by_plain. Qed.
#[local] Hint Resolve plain_csi_param : plain.
Lemma plain_csi_first ch : plain (csi_first ch).
Proof. unfold csi_first. by_plain. Qed.
#[local] Hint Resolve plain_csi_first : plain.
Lemma plain_con_char cooked tty : (forall i, plain (cooked i)) -> plain (con_char cooked tty).
Proof. intros. unfold con_char. by_plain. Qed.
#[local] Hint Resolve plain_con_char : plain.
Lemma plain_con_write cooked tty : (forall i, plain (cooked i)) -> plain (con_write cooked tty).
Proof. intros. unfold con_write. by_plain. Qed.
#[local] Hint Resolve plain_con_write : plain.

(** *** Tty.v *)
Lemma plain_put_write i c : plain (put_write i c).
Proof. unfold put_write. by_plain. Qed.
Lemma plain_put_secondary i c : plain (put_secondary i c).
Proof. unfold put_secondary. by_plain. Qed.
Lemma plain_get_secondary i : plain (get_secondary i).
Proof. unfold get_secondary. by_plain. Qed.
Lemma plain_get_read i : plain (get_read i).
Proof. unfold get_read. by_plain. Qed.
Lemma plain_tty_intr tty signal : plain (tty_intr tty signal).
Proof. unfold tty_intr. by_plain. Qed.
Lemma plain_rs_write tty : plain (rs_write tty).
Proof. unfold rs_write. by_plain. Qed.
Lemma plain_sleep_if_empty tty : plain (sleep_if_empty tty).
Proof. unfold sleep_if_empty. by_plain. Qed.
Lemma plain_sleep_if_full tty : plain (sleep_if_full tty).
Proof. unfold sleep_if_full. by_plain. Qed.
#[local] Hint Resolve plain_put_write plain_put_secondary plain_get_secondary
  plain_get_read plain_tty_intr plain_rs_write plain_sleep_if_empty plain_sleep_if_full :
  plain.
Lemma plain_store_cooked write tty c : (forall i, plain (write i)) -> plain (store_cooked write tty c).
Proof. intros. unfold store_cooked. by_plain. Qed.
Lemma plain_erase_cooked write tty : (forall i, plain (write i)) -> plain (erase_cooked write tty).
Proof. intros. unfold erase_cooked. by_plain. Qed.
#[local] Hint Resolve plain_store_cooked plain_erase_cooked : plain.
Lemma plain_cooked_step write tty u : (forall i, plain (write i)) -> plain (cooked_step write tty u).
Proof. intros. unfold cooked_step. by_plain. Qed.
#[local] Hint Resolve plain_cooked_step : plain.
Lemma plain_cook write tty : (forall i, plain (write i)) -> plain (cook write tty).
Proof. intros. unfold cook. by_plain. Qed.
Lemma plain_tty_out cooked tty : (forall i, plain (cooked i)) -> plain (tty_out cooked tty).
Proof. intros. unfold tty_out. by_plain. Qed.
#[local] Hint Resolve plain_cook plain_tty_out : plain.
Lemma plain_cook_at n tty : plain (cook_at n tty).
Proof.
  revert tty. induction n as [|n IH]; intros tty; simpl; [by_plain|]. auto with plain nocore.
Qed.
#[local] Hint Resolve plain_cook_at : plain.
Lemma plain_copy_to_cooked tty : plain (copy_to_cooked tty).
Proof. unfold copy_to_cooked. by_plain. Qed.
#[local] Hint Resolve plain_copy_to_cooked : plain.
Lemma plain_write_tty tty : plain (write_tty tty).
Proof. unfold write_tty. by_plain. Qed.
Lemma plain_do_tty_interrupt tty : plain (do_tty_interrupt tty).
Proof. unfold do_tty_interrupt. by_plain. Qed.
Lemma plain_read_chars tty nr b : plain (read_chars tty nr b).
Proof. unfold read_chars. by_plain. Qed.
#[local] Hint Resolve plain_write_tty plain_do_tty_interrupt plain_read_chars : plain.
Lemma plain_read_step tty buf minimum time oldalarm x : plain (read_step tty buf minimum time oldalarm x).
Proof. unfold read_step. by_plain. Qed.
#[local] Hint Resolve plain_read_step : plain.
Lemma plain_tty_read channel buf nr : plain (tty_read channel buf nr).
Proof. unfold tty_read. by_plain. Qed.
Lemma plain_write_step tty x : plain (write_step tty x).
Proof. unfold write_step. by_plain. Qed.
#[local] Hint Resolve plain_tty_read plain_write_step : plain.
Lemma plain_tty_write channel buf nr : plain (tty_write channel buf nr).
Proof. unfold tty_write. by_plain. Qed.
#[local] Hint Resolve plain_tty_write : plain.
Lemma plain_rw_ttyx rw minor buf count : plain (rw_ttyx rw minor buf count).
Proof. unfold rw_ttyx. by_plain. Qed.
#[local] Hint Resolve plain_rw_ttyx : plain.
Lemma plain_rw_tty rw buf count : plain (rw_tty rw buf count).
Proof. unfold rw_tty. by_plain. Qed.
#[local] Hint Resolve plain_rw_tty : plain.
Lemma plain_rw_char rw dev buf count : plain (rw_char rw dev buf count).
Proof. unfold rw_char. by_plain. Qed.
#[local] Hint Resolve plain_rw_char : plain.

(** *** ReadWrite.v *)
Lemma plain_wait_readable inode : plain (wait_readable inode).
Proof. unfold wait_readable. by_plain. Qed.
Lemma plain_take_bytes inode buf count : plain (take_bytes inode buf count).
Proof. unfold take_bytes. by_plain. Qed.
#[local] Hint Resolve plain_wait_readable plain_take_bytes : plain.
Lemma plain_read_pipe inode buf count : plain (read_pipe inode buf count).
Proof. unfold read_pipe. by_plain. Qed.
Lemma plain_sigpipe : plain sigpipe.
Proof. unfold sigpipe. by_plain. Qed.
#[local] Hint Resolve plain_read_pipe plain_sigpipe : plain.
Lemma plain_wait_writable inode : plain (wait_writable inode).
Proof. unfold wait_writable. by_plain. Qed.
Lemma plain_put_pipe inode b : plain (put_pipe inode b).
Proof. unfold put_pipe. by_plain. Qed.
#[local] Hint Resolve plain_wait_writable plain_put_pipe : plain.
Lemma plain_write_pipe inode buf count : plain (write_pipe inode buf count).
Proof. unfold write_pipe. by_plain. Qed.
Lemma plain_read_round inode filp x : plain (read_round inode filp x).
Proof. unfold read_round. by_plain. Qed.
#[local] Hint Resolve plain_write_pipe plain_read_round : plain.
Lemma plain_file_read inode filp buf count : plain (file_read inode filp buf count).
Proof. unfold file_read. by_plain. Qed.
Lemma plain_write_round inode count x : plain (write_round inode count x).
Proof. unfold write_round. by_plain. Qed.
#[local] Hint Resolve plain_file_read plain_write_round : plain.
Lemma plain_file_write inode filp buf count : plain (file_write inode filp buf count).
Proof. unfold file_write. by_plain. Qed.
#[local] Hint Resolve plain_file_write : plain.
Lemma plain_sys_write fd buf count : plain (sys_write fd buf count).
Proof. unfold sys_write. by_plain. Qed.
#[local] Hint Resolve plain_sys_write : plain.

(** *** Exec.v *)
Lemma plain_brelse_opt bh : plain (brelse_opt bh).
Proof. unfold brelse_opt. by_plain. Qed.
Lemma plain_cp_block bh from to size : plain (cp_block bh from to size).
Proof. unfold cp_block. by_plain. Qed.
Lemma plain_skip_string p : plain (skip_string p).
Proof. unfold skip_string. by_plain. Qed.
#[local] Hint Resolve plain_brelse_opt plain_cp_block plain_skip_string : plain.
Lemma plain_put_pointers n p v : plain (put_pointers n p v).
Proof. unfold put_pointers. by_plain. Qed.
#[local] Hint Resolve plain_put_pointers : plain.
Lemma plain_create_tables p argc envc : plain (create_tables p argc envc).
Proof. unfold create_tables. by_plain. Qed.
Lemma plain_count argv : plain (count argv).
Proof. unfold count. by_plain. Qed.
Lemma plain_arg_pages i page : plain (arg_pages i page).
Proof. unfold arg_pages. by_plain. Qed.
Lemma plain_copy_down page p tmp len : plain (copy_down page p tmp len).
Proof. unfold copy_down. by_plain. Qed.
#[local] Hint Resolve plain_create_tables plain_count plain_arg_pages plain_copy_down : plain.
Lemma plain_copy_strings argc argv page p : plain (copy_strings argc argv page p).
Proof. unfold copy_strings. by_plain. Qed.
Lemma plain_change_ldt text_size page : plain (change_ldt text_size page).
Proof. unfold change_ldt. by_plain. Qed.
Lemma plain_is_valid_elf ex : plain (is_valid_elf ex).
Proof. unfold is_valid_elf. by_plain. Qed.
Lemma plain_read_file_block_ind dev ind block_num : plain (read_file_block_ind dev ind block_num).
Proof. unfold read_file_block_ind. by_plain. Qed.
#[local] Hint Resolve plain_copy_strings plain_change_ldt plain_is_valid_elf
  plain_read_file_block_ind : plain.
Lemma plain_read_file_block inode block_num : plain (read_file_block inode block_num).
Proof. unfold read_file_block. by_plain. Qed.
#[local] Hint Resolve plain_read_file_block : plain.
Lemma plain_copy_section inode from dest size : plain (copy_section inode from dest size).
Proof. unfold copy_section. by_plain. Qed.
Lemma plain_create_bss_section dest size : plain (create_bss_section dest size).
Proof. unfold create_bss_section. by_plain. Qed.
#[local] Hint Resolve plain_copy_section plain_create_bss_section : plain.
Lemma plain_load_section inode ex x : plain (load_section inode ex x).
Proof. unfold load_section. by_plain. Qed.
#[local] Hint Resolve plain_load_section : plain.
Lemma plain_load_elf_binary inode bh : plain (load_elf_binary inode bh).
Proof. unfold load_elf_binary. by_plain. Qed.
#[local] Hint Resolve plain_load_elf_binary : plain.

(** *** Stat.v *)
Lemma plain_put_struct tmp size addr : plain (put_struct tmp size addr).
Proof. unfold put_struct. by_plain. Qed.
Lemma plain_fd_inode fd : plain (fd_inode fd).
Proof. unfold fd_inode. by_plain. Qed.
Lemma plain_sys_oldstat : plain sys_oldstat.
Proof. unfold sys_oldstat. by_plain. Qed.
Lemma plain_sys_oldfstat : plain sys_oldfstat.
Proof. unfold sys_oldfstat. by_plain. Qed.
Lemma plain_put_char_of d de d_name i : plain (put_char_of d de d_name i).
Proof. unfold put_char_of. by_plain. Qed.
#[local] Hint Resolve plain_put_struct plain_fd_inode plain_sys_oldstat plain_sys_oldfstat
  plain_put_char_of : plain.
Lemma plain_put_name d de d_name : plain (put_name d de d_name).
Proof. unfold put_name. by_plain. Qed.
#[local] Hint Resolve plain_put_name : plain.
Lemma plain_dent_step ds dl inode filp bh dirent offset : plain (dent_step ds dl inode filp bh dirent offset).
Proof. unfold dent_step. by_plain. Qed.
#[local] Hint Resolve plain_dent_step : plain.
Lemma plain_scan_block ds dl inode filp bh dirent offset : plain (scan_block ds dl inode filp bh dirent offset).
Proof. unfold scan_block. by_plain. Qed.
#[local] Hint Resolve plain_scan_block : plain.
Lemma plain_getdents ds dl inode filp dirent : plain (getdents ds dl inode filp dirent).
Proof. unfold getdents. by_plain. Qed.
#[local] Hint Resolve plain_getdents : plain.
Lemma plain_minix_getdents inode filp dirent count : plain (minix_getdents inode filp dirent count).
Proof. unfold minix_getdents. by_plain. Qed.
Lemma plain_minix_getdents64 inode filp dirent count : plain (minix_getdents64 inode filp dirent count).
Proof. unfold minix_getdents64. by_plain. Qed.
#[local] Hint Resolve plain_minix_getdents plain_minix_getdents64 : plain.

(** *** Sys.v *)
Lemma plain_sys_setgid gid : plain (sys_setgid gid).
Proof. unfold sys_setgid. by_plain. Qed.
Lemma plain_sys_setuid uid : plain (sys_setuid uid).
Proof. unfold sys_setuid. by_plain. Qed.
Lemma plain_sys_stime tptr : plain (sys_stime tptr).
Proof. unfold sys_stime. by_plain. Qed.
Lemma plain_sys_brk end_data_seg : plain (sys_brk end_data_seg).
Proof. unfold sys_brk. by_plain. Qed.
Lemma plain_sys_setpgid pid pgid : plain (sys_setpgid pid pgid).
Proof. unfold sys_setpgid. by_plain. Qed.
Lemma plain_sys_getpgrp : plain sys_getpgrp.
Proof. unfold sys_getpgrp. by_plain. Qed.
Lemma plain_sys_setsid : plain sys_setsid.
Proof. unfold sys_setsid. by_plain. Qed.
Lemma plain_sys_oldolduname : plain sys_oldolduname.
Proof. unfold sys_oldolduname. by_plain. Qed.
Lemma plain_sys_umask mask : plain (sys_umask mask).
Proof. unfold sys_umask. by_plain. Qed.
#[local] Hint Resolve plain_sys_setgid plain_sys_setuid plain_sys_stime plain_sys_brk
  plain_sys_setpgid plain_sys_getpgrp plain_sys_setsid plain_sys_oldolduname plain_sys_umask :
  plain.

(** *** Entry.v *)
Lemma plain_signal_step : plain signal_step.
Proof. unfold signal_step. by_plain. Qed.
Lemma plain_get_seg_byte seg addr : plain (get_seg_byte seg addr).
Proof. unfold get_seg_byte. by_plain. Qed.
Lemma plain_get_seg_long seg addr : plain (get_seg_long seg addr).
Proof. unfold get_seg_long. by_plain. Qed.
#[local] Hint Resolve plain_signal_step plain_get_seg_byte plain_get_seg_long : plain.


End plain_functions.

#[export] Hint Resolve plain_sleep_on plain_interruptible_sleep_on plain_wake_up
  plain_do_timer plain_sys_nice plain_printk plain_CURRENT_TIME plain_get_fs_byte
  plain_get_fs_long plain_put_fs_byte plain_put_fs_word plain_put_fs_long plain_phys_get
  plain_phys_put plain_inb plain_inb_p plain_inw plain_outb plain_outb_p plain_outw
  plain_math_state_restore plain_sys_pause plain_sys_alarm plain_sys_getpid plain_sys_getppid
  plain_sys_getuid plain_sys_geteuid plain_sys_getgid plain_sys_getegid plain_sys_signal
  plain_invalidate plain_copy_page plain_clear_page plain_get_free_page plain_free_page
  plain_free_page_tables plain_copy_page_tables plain_put_page plain_getr plain_setr
  plain_port_read plain_port_write plain_lock_buffer plain_unlock_buffer
  plain_hd_wait_on_buffer plain_controller_ready plain_win_result plain_hd_out
  plain_drive_busy plain_reset_controller plain_reset_hd plain_unexpected_hd_interrupt
  plain_this_req plain_req_bh plain_next_request plain_bad_rw_intr plain_do_request
  plain_read_intr plain_write_intr plain_hd_interrupt plain_insert_step plain_insert_after
  plain_add_request plain_get_request plain_rw_abs_hd plain_rw_hd plain_ll_rw_block
  plain_wait_on_buffer plain_sys_sync plain_sync_dev plain_set_hash plain_remove_from_queues
  plain_insert_into_queues plain_find_step plain_find_buffer plain_brelse plain_get_hash_table
  plain_scan_step plain_scan_free plain_getblk_step plain_getblk plain_bread plain_init_step
  plain_block_write plain_block_read plain_get_super plain_clear_block plain_free_block
  plain_new_block plain_free_inode plain_wait_on_inode plain_lock_inode plain_unlock_inode
  plain_read_inode plain_write_inode plain_sync_inodes plain_zone_of plain_indirect
  plain__bmap plain_bmap plain_create_block plain_free_ind plain_free_dind plain_truncate
  plain_iput_step plain_iput plain_empty_step plain_get_empty_inode plain_get_pipe_inode
  plain_iget_step plain_iget plain_new_inode plain_permission plain_find_entry_step
  plain_find_entry plain_add_entry_step plain_add_entry plain_next_name plain_get_dir_step
  plain_get_dir plain_base_name plain_dir_namei plain_namei plain_fill_entry plain_drop_link
  plain_open_namei plain_sys_mkdir plain_empty_dir_step plain_empty_dir plain_sys_rmdir
  plain_sys_unlink plain_sys_link plain_sys_utime plain_sys_access plain_sys_chdir
  plain_sys_chroot plain_sys_chmod plain_sys_chown plain_get_filp plain_sys_lseek
  plain_send_sig plain_do_kill plain_sys_kill plain_orphan plain_share_inode
  plain_find_empty_process plain_gettty plain_settty plain_setc plain_set_register
  plain_set_origin plain_set_cursor plain_scrup plain_lf plain_delete_line plain_csi_M
  plain_respond plain_plain_char plain_escape_char plain_csi_final plain_csi_param
  plain_csi_first plain_con_char plain_con_write plain_put_write plain_put_secondary
  plain_get_secondary plain_get_read plain_tty_intr plain_rs_write plain_sleep_if_empty
  plain_sleep_if_full plain_store_cooked plain_erase_cooked plain_cooked_step plain_cook
  plain_tty_out plain_cook_at plain_copy_to_cooked plain_write_tty plain_do_tty_interrupt
  plain_read_chars plain_read_step plain_tty_read plain_write_step plain_tty_write
  plain_rw_ttyx plain_rw_tty plain_rw_char plain_wait_readable plain_take_bytes
  plain_read_pipe plain_sigpipe plain_wait_writable plain_put_pipe plain_write_pipe
  plain_read_round plain_file_read plain_write_round plain_file_write plain_sys_write
  plain_brelse_opt plain_cp_block plain_skip_string plain_put_pointers plain_create_tables
  plain_count plain_arg_pages plain_copy_down plain_copy_strings plain_change_ldt
  plain_is_valid_elf plain_read_file_block_ind plain_read_file_block plain_copy_section
  plain_create_bss_section plain_load_section plain_load_elf_binary plain_put_struct
  plain_fd_inode plain_sys_oldstat plain_sys_oldfstat plain_put_char_of plain_put_name
  plain_dent_step plain_scan_block plain_getdents plain_minix_getdents plain_minix_getdents64
  plain_sys_setgid plain_sys_setuid plain_sys_stime plain_sys_brk plain_sys_setpgid
  plain_sys_getpgrp plain_sys_setsid plain_sys_oldolduname plain_sys_umask plain_signal_step
  plain_get_seg_byte plain_get_seg_long : plain.
