(* ===== verification/Descr.v ===== *)
(** The calls that open and close files, run among other processes: each
    leaves the count of every open file right and the descriptors of the other
    processes alone, whatever they do while it sleeps. *)
From S2P Require Export Keeps.
#[local] Open Scope bool_scope.

(** ** A change of the descriptors of one process *)

(** How many of the descriptors [F] lead to [f]. *)
Definition refs (F : Z -> ptr) (f : Z) : Z :=
  zsum (fun fd => b2z (ptr_eqb (F fd) (Some f))) 0 (Z.to_nat NR_OPEN).
Definition leads (F : Z -> ptr) (f : Z) : Prop := exists fd, 0 <= fd < NR_OPEN /\ F fd = Some f.

Lemma refs_ext F G f : (forall fd, 0 <= fd < NR_OPEN -> F fd = G fd) -> refs F f = refs G f.
Proof. intros E. apply zsum_ext. intros j ?. by rewrite E. Qed.

Lemma refs_set F fd p f : 0 <= fd < NR_OPEN ->
  refs (<[fd := p]> F) f = refs F f + (b2z (ptr_eqb p (Some f)) - b2z (ptr_eqb (F fd) (Some f))).
Proof.
  intros Hfd. unfold refs.
  rewrite (zsum_change _ (fun k => b2z (ptr_eqb (F k) (Some f))) 0 _ fd).
  - by rewrite arr_eq.
  - unfold NR_OPEN in *. lia.
  - intros j Hj Hne. by rewrite arr_ne by done.
Qed.

Lemma ptr_eqb_b2z a f : b2z (ptr_eqb (Some a) (Some f)) = if decide (a = f) then 1 else 0.
Proof.
  case_decide; [subst; by rewrite ptr_eqb_refl|].
  unfold ptr_eqb. by rewrite bool_decide_eq_false_2 by congruence.
Qed.

(** A file that no descriptor of a process leads to. *)
Definition unused (s : kstate) (f : Z) : Prop := f_count (file_table s f) = 0.

Lemma unused_not_held s p f : sys_ok s -> unused s f -> 0 <= f < NR_FILE -> in_table s p ->
  ~ holds (tsk s p) f.
Proof.
  intros Hok Hz Hf (i & Hi & Hp) (fd & Hfd & He).
  pose proof (file_refs_pos s i p fd f Hi Hp Hfd He). pose proof (sy_counts _ Hok f Hf).
  unfold unused in Hz. lia.
Qed.

(** From [s] to [t] the descriptors of [c] change from [F] to [G], and with
    them the counts of the files. *)
Record changed (c : Z) (F G : Z -> ptr) (s t : kstate) : Prop := {
  ch_task : task t = task s;
  ch_current : current t = current s;
  ch_setup : setup_callable t = setup_callable s;
  ch_other : forall p, p <> c -> t_filp (tsk t p) = t_filp (tsk s p);
  ch_mine : forall fd, 0 <= fd < NR_OPEN -> t_filp (tsk t c) fd = G fd;
  ch_live : forall p, live s p -> live t p;
  ch_slice : forall p, slice_ok (tsk s p) -> slice_ok (tsk t p);
  ch_count : forall f, 0 <= f < NR_FILE ->
    f_count (file_table t f) = f_count (file_table s f) + (refs G f - refs F f);
  (** a file that [c] did not have was free *)
  ch_new : forall f, leads G f -> leads F f \/ 0 <= f < NR_FILE /\ unused s f;
}.

Lemma changed_range c F X G s t f : own c F X s -> changed c F G s t -> leads G f -> 0 <= f < NR_FILE.
Proof.
  intros Ho Hc Hl. destruct (ch_new _ _ _ _ _ Hc f Hl) as [(fd & Hfd & He)|[? _]]; [|done].
  apply (sy_range _ (ow_sys _ _ _ _ Ho) c f (ow_table _ _ _ _ Ho)). exists fd.
  by rewrite (ow_filp _ _ _ _ Ho).
Qed.

Lemma changed_refs c F X G s t f : own c F X s -> changed c F G s t ->
  file_refs t f = file_refs s f + (refs G f - refs F f).
Proof.
  intros Ho [C1 C2 C3 C4 C5 C6 C9 C7 C8]. destruct (ow_table _ _ _ _ Ho) as (i & Hi & Hti).
  unfold file_refs. rewrite (zsum_change _ (slot_refs s f) 0 _ i).
  - unfold slot_refs at 2 3. rewrite C1, Hti. unfold fd_refs.
    change (zsum (fun fd => b2z (ptr_eqb (t_filp ?x fd) (Some f))) 0 (Z.to_nat NR_OPEN)) with (refs (t_filp x) f).
    f_equal. f_equal; [by apply refs_ext|]. apply refs_ext. apply (ow_filp _ _ _ _ Ho).
  - unfold NR_TASKS in *. lia.
  - intros j Hj Hne. unfold slot_refs. rewrite C1. destruct (task s j) as [p|] eqn:Hp; [|done].
    unfold fd_refs. rewrite C4; [done|]. intros ->. apply Hne.
    apply (sy_slots _ (ow_sys _ _ _ _ Ho) j i c); unfold NR_TASKS in *; auto with lia.
Qed.

Lemma changed_sys c F X G s t : own c F X s -> changed c F G s t -> sys_ok t.
Proof.
  intros Ho Hc. pose proof Hc as [C1 C2 C3 C4 C5 C6 C9 C7 C8].
  pose proof (ow_sys _ _ _ _ Ho) as [A1 A2 A3 A4 (p0 & A5 & A6) A8 A7]. split.
  - by rewrite C1.
  - intros p f. rewrite (in_table_same s t) by done. intros Hp (fd & Hfd & He).
    destruct (decide (p = c)) as [->|Hne].
    + apply (changed_range c F X G s t f Ho Hc). exists fd. by rewrite <- C5.
    + apply (A2 p f Hp). exists fd. by rewrite <- C4.
  - intros f Hf. rewrite C7, A3, (changed_refs c F X G s t f Ho Hc) by done. done.
  - intros p. rewrite (in_table_same s t) by done. intros Hp Hz.
    destruct (decide (p = c)) as [->|Hne].
    + destruct Hz. apply C6, Ho.
    + intros fd Hfd. rewrite C4 by done. apply (A4 p Hp); [|done]. intros Hl. by apply Hz, C6.
  - exists p0. rewrite C1. auto.
  - intros p. rewrite (in_table_same s t) by done. auto.
  - congruence.
Qed.

Lemma own_changed c F X G Y s0 s t : own c F X s -> changed c F G s t -> guar c s0 s ->
  (forall f, Y f -> leads G f /\ (X f \/ 0 <= f < NR_FILE /\ unused s f)) ->
  own c G Y t /\ guar c s0 t.
Proof.
  intros Ho Hc Hg HY. pose proof Hc as [C1 C2 C3 C4 C5 C6 C9 C7 C8].
  pose proof (ow_sys _ _ _ _ Ho) as Hok.
  assert (Hh : forall p f, p <> c -> holds (tsk t p) f <-> holds (tsk s p) f).
  { intros p f Hne. apply holds_same. by apply C4. }
  split.
  - split.
    + by eapply changed_sys.
    + rewrite C2. apply Ho.
    + rewrite (in_table_same s t) by done. apply Ho.
    + apply C6, Ho.
    + rewrite C1. apply Ho.
    + exact C5.
    + intros f Hf. destruct (HY f Hf) as [(fd & Hfd & He) HX]. split.
      { exists fd. by rewrite C5. }
      intros p Hp Hne. rewrite (in_table_same s t) in Hp by done. rewrite Hh by done.
      destruct HX as [HX|[Hr Hz]]; [by apply (ow_only _ _ _ _ Ho f HX)|by apply unused_not_held].
  - etrans; [exact Hg|]. split; [by rewrite C1|]. intros d Hd. split.
    + by rewrite C1.
    + by rewrite (in_table_same s t).
    + intros _ fd _. by rewrite C4.
    + intros Hdt f Hdf Hof p Hp Hne. rewrite (in_table_same s t) in Hdt, Hp by done.
      destruct (decide (p = c)) as [->|Hpc]; [|rewrite Hh by done; by apply Hof].
      intros (fd & Hfd & He). rewrite C5 in He by done.
      destruct (C8 f) as [(k & Hk & Hek)|[Hr Hz]]; [by exists fd| |].
      * apply (Hof c Hp Hne). exists k. split; [done|]. by rewrite (ow_filp _ _ _ _ Ho).
      * by apply (unused_not_held s d f Hok Hz Hr Hdt).
Qed.

Lemma own_ext c F G X s : own c F X s -> (forall fd, 0 <= fd < NR_OPEN -> F fd = G fd) -> own c G X s.
Proof. intros [] E. split; auto. intros fd Hfd. by rewrite <- E; auto. Qed.

(** ** close and dup *)

Definition close_fd (fd : Z) (F : Z -> ptr) : Z -> ptr :=
  if fd >=? NR_OPEN then F else <[fd := None]> F.

Lemma own_count c F X s f : own c F X s -> leads F f -> 0 <= f < NR_FILE ->
  f_count (file_table s f) = file_refs s f /\ 0 < file_refs s f <= 1280.
Proof.
  intros Ho (fd & Hfd & He) Hf. split; [by apply (sy_counts _ (ow_sys _ _ _ _ Ho))|].
  pose proof (file_refs_range s f). destruct (ow_table _ _ _ _ Ho) as (i & Hi & Ht).
  assert (He' : t_filp (tsk s c) fd = Some f) by (by rewrite (ow_filp _ _ _ _ Ho)).
  pose proof (file_refs_pos s i c fd f Hi Ht Hfd He'). lia.
Qed.

Lemma own_leads_range c F X s f : own c F X s -> leads F f -> 0 <= f < NR_FILE.
Proof.
  intros Ho (fd & Hfd & He). apply (sy_range _ (ow_sys _ _ _ _ Ho) c f (ow_table _ _ _ _ Ho)).
  exists fd. by rewrite (ow_filp _ _ _ _ Ho).
Qed.

Lemma leads_set F fd p f : leads (<[fd := p]> F) f -> p = Some f \/ leads F f.
Proof.
  intros (k & Hk & He). rewrite arr_dec in He. case_decide; [by left|right; by exists k].
Qed.

Lemma closed_changed c F X s fd f : own c F X s -> 0 <= fd < NR_OPEN -> F fd = Some f ->
  changed c F (<[fd := None]> F) s (closed c fd f s).
Proof.
  intros Ho Hfd He. assert (Hl : leads F f) by (by exists fd).
  destruct (own_count c F X s f Ho Hl (own_leads_range c F X s f Ho Hl)) as [Hcnt Hpos].
  split; try done.
  - intros p Hp. unfold closed. simpl. by rewrite arr_ne by done.
  - intros k Hk. unfold closed. simpl. rewrite arr_eq. simpl. rewrite !arr_dec.
    case_decide; [done|]. by apply Ho.
  - intros p Hp. unfold live, closed in *. simpl. rewrite arr_dec. case_decide; by subst.
  - intros p Hp. unfold closed. simpl. rewrite arr_dec. case_decide; by subst.
  - intros g Hg. rewrite refs_set, He, ptr_eqb_b2z by done.
    assert (ptr_eqb None (Some g) = false) as -> by done. unfold closed. simpl. rewrite arr_dec.
    case_decide; [subst g; simpl; rewrite Hcnt, u16_small; lia|simpl; lia].
  - intros g Hg. left. by destruct (leads_set _ _ _ _ Hg).
Qed.

(** The state between the two halves of [sys_close]. *)
Lemma own_cloexec c F X s fd : own c F X s -> own c F X (upd_task c (clear_cloexec fd) s).
Proof. intros Ho. eapply (st_inert s); [done|]. by apply inert_upd_task. Qed.

Section files.
Context `{Machine}.

Lemma sys_close_rg c F s0 s fd : 0 <= fd -> own c F none s -> guar c s0 s ->
  rg c s0 (sys_close fd s) (fun s0' _ s' => own c (close_fd fd F) none s' /\ guar c s0' s').
Proof.
  intros Hfd Ho Hg. unfold sys_close, close_fd. destruct (fd >=? NR_OPEN) eqn:E; [done|]. ztest.
  set (s1 := upd_task c (clear_cloexec fd) s). pose proof (ow_current _ _ _ _ Ho) as Hc.
  rewrite (bind_Ret _ _ _ _ _ (setme_run s c _ Hc)). fold s1.
  assert (Ho1 : own c F none s1) by (by apply own_cloexec).
  assert (Hg1 : guar c s0 s1) by (etrans; [exact Hg|by apply guar_inert, inert_upd_task]).
  rewrite (bind_Ret _ _ _ _ _ (me_run s1 c Hc)). rewrite (ow_filp _ _ _ _ Ho1) by (split; lia).
  destruct (F fd) as [f|] eqn:Hf.
  - rewrite (bind_Ret _ _ _ _ _ (setme_run s1 c _ Hc)). unfold s1. rewrite upd_task_fuse. mrun.
    destruct (f_count _ =? 0); [done|]. mrun.
    destruct (own_changed c F none (<[fd := None]> F) none s0 s (closed c fd f s)) as [Ho2 Hg2];
      [done|by eapply closed_changed|done|done|].
    fold (closed c fd f s).
    match goal with |- context [upd_file f ?h ?t] => change (upd_file f h t) with (closed c fd f s) end.
    destruct (nz _); [done|]. eapply rg_bind, rg_keeps; [apply plain_iput, own_stable|done|done|].
    done.
  - split; [|done]. eapply own_ext; [done|]. intros k Hk. rewrite arr_dec. case_decide; congruence.
Qed.

Lemma safe_sys_close fd : 0 <= fd -> safe (sys_close fd).
Proof.
  intros Hfd c s0 s [F HF] Hg. eapply rg_mono; [by apply (sys_close_rg c F)|].
  intros s0' a s' [Ho Hg']. split; [by eexists|done].
Qed.

Lemma free_fd_own c F X s arg fd : own c F X s -> 0 <= arg -> free_fd (tsk s c) arg = Some fd ->
  0 <= fd < NR_OPEN /\ F fd = None.
Proof.
  intros Ho Harg E. apply free_fd_Some in E as [Hr Hn]; [|done].
  assert (Hfd : 0 <= fd < NR_OPEN) by lia. split; [done|]. by rewrite <- (ow_filp _ _ _ _ Ho).
Qed.

Lemma dupped_changed c F X s fd n f : own c F X s -> 0 <= fd < NR_OPEN -> F fd = Some f ->
  0 <= n < NR_OPEN -> F n = None -> changed c F (<[n := Some f]> F) s (dupped c n f s).
Proof.
  intros Ho Hfd He Hn Hnone. assert (Hl : leads F f) by (by exists fd).
  destruct (own_count c F X s f Ho Hl (own_leads_range c F X s f Ho Hl)) as [Hcnt Hpos].
  split; try done.
  - intros p Hp. unfold dupped. simpl. by rewrite arr_ne by done.
  - intros k Hk. unfold dupped. simpl. rewrite arr_eq. simpl. rewrite !arr_dec.
    case_decide; [done|]. by apply Ho.
  - intros p Hp. unfold live, dupped in *. simpl. rewrite arr_dec. case_decide; by subst.
  - intros p Hp. unfold dupped. simpl. rewrite arr_dec. case_decide; by subst.
  - intros g Hg. rewrite refs_set, Hnone, ptr_eqb_b2z by done.
    assert (ptr_eqb None (Some g) = false) as -> by done. unfold dupped. simpl. rewrite arr_dec.
    case_decide; [subst g; simpl; rewrite Hcnt, u16_small; lia|simpl; lia].
  - intros g Hg. left. destruct (leads_set _ _ _ _ Hg); [by simplify_eq|done].
Qed.

Lemma safe_dupfd fd arg : 0 <= fd -> 0 <= arg -> safe (dupfd fd arg).
Proof.
  intros Hfd Harg c s0 s [F Ho] Hg. assert (HI : sane c s) by (by exists F).
  pose proof (ow_current _ _ _ _ Ho) as Hc. unfold dupfd.
  rewrite (bind_Ret _ _ _ _ _ (get_filp_run s c fd Hc)). unfold filp_of.
  destruct (fd >=? NR_OPEN) eqn:Efd; [done|]. ztest.
  rewrite (ow_filp _ _ _ _ Ho) by (split; lia). destruct (F fd) as [f|] eqn:Hf; [|done].
  destruct (arg >=? NR_OPEN); [done|]. rewrite (bind_Ret _ _ _ _ _ (me_run s c Hc)).
  destruct (free_fd (tsk s c) arg) as [n|] eqn:Hn; [|done].
  apply (free_fd_own c F none) in Hn as [Hn Hnone]; [|done|done].
  rewrite (bind_Ret _ _ _ _ _ (setme_run s c _ Hc)).
  rewrite (bind_Ret _ _ _ tt _ (setme_run (upd_task c (clear_cloexec n) s) c _ Hc)), upd_task_fuse.
  destruct (own_changed c F none (<[n := Some f]> F) none s0 s (dupped c n f s)) as [Ho' Hg'];
    [done|by apply (dupped_changed c F none s fd)|done|done|].
  split; [by eexists|done].
Qed.

(** ** open *)

(** [c] has taken the free descriptor [fd] for the free file [f]. *)
Lemma taken_changed c F X s t fd f : own c F X s -> 0 <= fd < NR_OPEN -> F fd = None ->
  0 <= f < NR_FILE -> unused s f ->
  task t = task s -> current t = current s -> setup_callable t = setup_callable s ->
  (forall p, p <> c -> t_filp (tsk t p) = t_filp (tsk s p)) ->
  (forall k, t_filp (tsk t c) k = if decide (fd = k) then Some f else t_filp (tsk s c) k) ->
  (forall p, live s p -> live t p) -> (forall p, slice_ok (tsk s p) -> slice_ok (tsk t p)) ->
  (forall g, f_count (file_table t g) = if decide (f = g) then 1 else f_count (file_table s g)) ->
  changed c F (<[fd := Some f]> F) s t.
Proof.
  intros Ho Hfd Hn Hf Hz T1 T2 T3 T4 T5 T6 T8 T7. split; try done.
  - intros k Hk. rewrite T5, arr_dec. case_decide; [done|]. by apply Ho.
  - intros g Hg. rewrite refs_set, Hn, ptr_eqb_b2z, T7 by done.
    assert (ptr_eqb None (Some g) = false) as -> by done. unfold unused in Hz.
    case_decide; [subst g; rewrite Hz; simpl; lia|simpl; lia].
  - intros g Hg. destruct (leads_set _ _ _ _ Hg); [simplify_eq; by right|by left].
Qed.

(** A file that only [c] has, by its one descriptor [fd], is counted once. *)
Lemma single_count c F X s f : own c F X s -> X f -> refs F f = 1 -> 0 <= f < NR_FILE ->
  f_count (file_table s f) = 1.
Proof.
  intros Ho HX Hone Hf. rewrite (sy_counts _ (ow_sys _ _ _ _ Ho)) by done.
  destruct (ow_table _ _ _ _ Ho) as (i & Hi & Hti). unfold file_refs.
  rewrite (zsum_change _ (fun _ => 0) 0 _ i).
  - unfold slot_refs. rewrite Hti. unfold fd_refs.
    rewrite (zsum_ext (fun fd => b2z (ptr_eqb (t_filp (tsk s c) fd) (Some f))) (fun fd => b2z (ptr_eqb (F fd) (Some f)))).
    + fold (refs F f). rewrite Hone.
      rewrite (zsum_0 (fun _ => 0)) by done. lia.
    + intros k Hk. rewrite (ow_filp _ _ _ _ Ho); [done|]. unfold NR_OPEN in *. lia.
  - unfold NR_TASKS in *. lia.
  - intros j Hj Hne. unfold slot_refs. destruct (task s j) as [p|] eqn:Hp; [|done].
    unfold fd_refs. apply zsum_0. intros k Hk. unfold ptr_eqb. rewrite bool_decide_eq_false_2; [done|]. intros He.
    assert (Hj' : 0 <= j < NR_TASKS) by (unfold NR_TASKS in *; lia).
    destruct (decide (p = c)) as [->|Hpc].
    + apply Hne. by apply (sy_slots _ (ow_sys _ _ _ _ Ho) j i c).
    + apply (proj2 (ow_only _ _ _ _ Ho f HX) p); [by exists j|done|].
      exists k. split; [unfold NR_OPEN in *; lia|done].
Qed.

Lemma not_led F f : ~ leads F f -> refs F f = 0.
Proof.
  intros Hn. unfold refs. apply zsum_0. intros k Hk. unfold ptr_eqb. rewrite bool_decide_eq_false_2; [done|]. intros He.
  apply Hn. exists k. split; [unfold NR_OPEN in *; lia|done].
Qed.

(** A new open file behind a new descriptor of [c]. *)
Record fresh (F : Z -> ptr) (fd f : Z) : Prop := {
  fr_fd : 0 <= fd < NR_OPEN;
  fr_none : F fd = None;
  fr_file : 0 <= f < NR_FILE;
  fr_new : ~ leads F f;
}.

Lemma fresh_refs F fd f : fresh F fd f -> refs (<[fd := Some f]> F) f = 1.
Proof.
  intros [Hfd Hn _ Hl]. rewrite refs_set, Hn, ptr_eqb_b2z, (not_led F f Hl), decide_True by done. done.
Qed.

Lemma fresh_count c F fd f X s : fresh F fd f -> own c (<[fd := Some f]> F) X s -> X f ->
  f_count (file_table s f) = 1.
Proof.
  intros Hfr Ho HX. eapply single_count; [exact Ho|exact HX|by apply fresh_refs|apply Hfr].
Qed.

Lemma take_fd c F s0 s fd f : own c F none s -> guar c s0 s ->
  free_fd (tsk s c) 0 = Some fd -> free_file s = Some f ->
  let t := upd_file f (fun x => x <| f_count ::= fun c => u16 (c + 1) |>)
             (upd_task c (set_filp fd (Some f)) (upd_task c (clear_cloexec fd) s)) in
  fresh F fd f /\ own c (<[fd := Some f]> F) (eq f) t /\ guar c s0 t.
Proof.
  intros Ho Hg Hfd Hf t. apply (free_fd_own c F none) in Hfd as [Hfd Hn]; [|done|done].
  assert (Hfree : 0 <= f < NR_FILE /\ unused s f).
  { unfold free_file in Hf. apply scan_Some in Hf as (? & Hc & _). ztest. split; [|done].
    change (Z.of_nat (Z.to_nat NR_FILE)) with 64 in *. unfold NR_FILE. lia. }
  destruct Hfree as [Hfr Hz].
  assert (Hnl : ~ leads F f).
  { intros (k & Hk & He). apply (unused_not_held s c f (ow_sys _ _ _ _ Ho) Hz Hfr (ow_table _ _ _ _ Ho)).
    exists k. by rewrite (ow_filp _ _ _ _ Ho). }
  split; [by split|].
  apply (own_changed c F none _ _ s0 s); [done| |done|].
  - apply (taken_changed c F none s t fd f); try done.
    + intros p Hp. unfold t. simpl. by rewrite !arr_ne by done.
    + intros k. unfold t. simpl. rewrite !arr_eq. simpl. by rewrite arr_dec.
    + intros p Hp. unfold live, t in *. simpl. rewrite !arr_dec.
      repeat case_decide; subst; by rewrite ?arr_eq.
    + intros p Hp. unfold t. simpl. rewrite !arr_dec. repeat case_decide; subst; by rewrite ?arr_eq.
    + intros g. unfold t. simpl. rewrite arr_dec. case_decide; [subst g|done]. simpl.
      unfold unused in Hz. by rewrite Hz.
  - intros g <-. split; [exists fd; by rewrite arr_eq|]. by right.
Qed.

Lemma undo_open_rg c F fd f err s0 s : fresh F fd f -> own c (<[fd := Some f]> F) (eq f) s ->
  guar c s0 s -> rg c s0 (undo_open fd f err s) (fun s0' _ s' => sane c s' /\ guar c s0' s').
Proof.
  intros Hfr Ho Hg. pose proof Hfr as [Hfd Hn Hf Hl]. unfold undo_open.
  rewrite (bind_Ret _ _ _ _ _ (setme_run s c _ (ow_current _ _ _ _ Ho))). mrun. cbn [rg mret M_ret].
  set (t := upd_file f _ _). pose proof (fresh_count c F fd f (eq f) s Hfr Ho eq_refl) as Hone.
  destruct (own_changed c (<[fd := Some f]> F) (eq f) F none s0 s t) as [Ho' Hg']; [done| |done|done|].
  - split; try done.
    + intros p Hp. unfold t. simpl. by rewrite arr_ne.
    + intros k Hk. unfold t. simpl. rewrite arr_eq. simpl. rewrite arr_dec.
      case_decide; [congruence|]. rewrite (ow_filp _ _ _ _ Ho), arr_ne by done. done.
    + intros p Hp. unfold live, t in *. simpl. rewrite arr_dec. case_decide; by subst.
    + intros p Hp. unfold t. simpl. rewrite arr_dec. case_decide; by subst.
    + intros g Hg'. rewrite refs_set, Hn, ptr_eqb_b2z by done.
      assert (ptr_eqb None (Some g) = false) as -> by done. unfold t. simpl. rewrite arr_dec.
      case_decide; [subst g; rewrite Hone; simpl; lia|simpl; lia].
    + intros g (k & Hk & He). left. exists k. split; [done|]. rewrite arr_ne; [done|]. congruence.
  - split; [by exists F|done].
Qed.

Lemma finish_open_rg c F fd f s0 s (h : file -> file) (r : Z) : fresh F fd f ->
  own c (<[fd := Some f]> F) (eq f) s -> guar c s0 s -> (forall x, f_count (h x) = 1) ->
  rg c s0 ((setf f h;; mret r) s) (fun s0' _ s' => sane c s' /\ guar c s0' s').
Proof.
  intros Hfr Ho Hg Hh. pose proof (fresh_count c F fd f (eq f) s Hfr Ho eq_refl) as Hone.
  unfold setf. mrun. assert (Hi : inert s (upd_file f h s)).
  { split; try done. intros g. simpl. rewrite arr_dec. case_decide; [subst g|done]. by rewrite Hh, Hone. }
  split; [|etrans; [exact Hg|by apply guar_inert]]. exists (<[fd := Some f]> F).
  pose proof (st_inert _ _ Ho Hi) as []. by split.
Qed.

Lemma safe_sys_open filename flag mode : safe (sys_open filename flag mode).
Proof.
  intros c s0 s [F Ho] Hg. pose proof (ow_current _ _ _ _ Ho) as Hc. assert (HI : sane c s) by (by exists F).
  unfold sys_open. rewrite (bind_Ret _ _ _ _ _ (me_run s c Hc)). cbv zeta.
  destruct (free_fd (tsk s c) 0) as [fd|] eqn:Hfd; [|done].
  rewrite (bind_Ret _ _ _ _ _ (setme_run s c _ Hc)). rewrite bind_get.
  change (free_file (upd_task c (clear_cloexec fd) s)) with (free_file s).
  destruct (free_file s) as [f|] eqn:Hf.
  2: { split; [exists F; by apply own_cloexec|]. etrans; [exact Hg|by apply guar_inert, inert_upd_task]. }
  destruct (take_fd c F s0 s fd f Ho Hg Hfd Hf) as (Hfr & Ho1 & Hg1).
  rewrite (bind_Ret _ _ _ tt _ (setme_run (upd_task c (clear_cloexec fd) s) c _ Hc)).
  unfold add_ref. rewrite bind_setf.
  set (s1 := upd_file f _ _) in *. clearbody s1. apply rg_bind.
  eapply (rg_keeps c (own c (<[fd := Some f]> F) (eq f))); [apply plain_open_namei, own_stable|done|done|].
  clear s s0 s1 Ho Hg Hc HI Hfd Hf Ho1 Hg1. intros s0 [i p] s Ho Hg. cbv beta iota.
  destruct (i <? 0); [by apply (undo_open_rg c F)|]. destruct p as [inode|]; [|done]. mrun.
  rewrite (bind_Ret _ _ _ _ _ (me_run s c (ow_current _ _ _ _ Ho))).
  assert (Hfin : forall s0 s, own c (<[fd := Some f]> F) (eq f) s -> guar c s0 s ->
    rg c s0 ((n ← geti inode;
      setf f (fun x => x <| f_mode := i_mode n |> <| f_flags := u16 flag |>
                <| f_count := 1 |> <| f_inode := Some inode |> <| f_pos := 0 |>);;
      mret fd) s) (fun s0' _ s' => sane c s' /\ guar c s0' s')).
  { intros t0 t Ht Hgt. rewrite bind_geti. by apply (finish_open_rg c F fd). }
  destruct (S_ISCHR _); [|by apply Hfin]. destruct (_ =? 4).
  - apply rg_bind. eapply (rg_keeps c (own c (<[fd := Some f]> F) (eq f))); [|done|done|].
    + apply keeps_when. keep_steps.
    + intros t0 _ t Ht Hgt. by apply Hfin.
  - destruct (_ && _); [|by apply Hfin]. apply rg_bind.
    eapply (rg_keeps c (own c (<[fd := Some f]> F) (eq f))); [apply plain_iput, own_stable|done|done|].
    intros t0 _ t Ht Hgt. by apply (undo_open_rg c F).
Qed.
End files.

(** ** pipe *)

Section pipe.
Context `{Machine}.

Lemma refs_two F fd0 fd1 f0 f1 g : 0 <= fd0 < NR_OPEN -> 0 <= fd1 < NR_OPEN -> fd0 <> fd1 ->
  F fd0 = None -> F fd1 = None ->
  refs (<[fd1 := Some f1]> (<[fd0 := Some f0]> F)) g =
    refs F g + (if decide (f0 = g) then 1 else 0) + (if decide (f1 = g) then 1 else 0).
Proof.
  intros H0 H1 Hne Hn0 Hn1. rewrite refs_set, arr_ne, Hn1, refs_set, Hn0, !ptr_eqb_b2z by done.
  assert (ptr_eqb None (Some g) = false) as -> by done. simpl. lia.
Qed.

Definition either (a b x : Z) : Prop := x = a \/ x = b.

(** Two free files behind two free descriptors of [c]. *)
Lemma take_two c F s0 s fd0 fd1 f0 f1 : own c F none s -> guar c s0 s ->
  0 <= fd0 < fd1 -> fd1 < NR_OPEN -> F fd0 = None -> F fd1 = None ->
  0 <= f0 < f1 -> f1 < NR_FILE -> unused s f0 -> unused s f1 ->
  own c (<[fd1 := Some f1]> (<[fd0 := Some f0]> F)) (either f0 f1) (fds_taken c fd0 fd1 f0 f1 s) /\
  guar c s0 (fds_taken c fd0 fd1 f0 f1 s).
Proof.
  intros Ho Hg Hfd Hfd1 Hn0 Hn1 Hf Hf1 Hz0 Hz1. set (t := fds_taken c fd0 fd1 f0 f1 s).
  set (G := <[fd1 := Some f1]> (<[fd0 := Some f0]> F)).
  assert (HG : forall k, G k = if decide (fd1 = k) then Some f1 else if decide (fd0 = k) then Some f0 else F k).
  { intros k. unfold G. by rewrite !arr_dec. }
  apply (own_changed c F none G _ s0 s); [done| |done|].
  - split; try done.
    + intros p Hp. unfold t, fds_taken. simpl. by rewrite !arr_ne.
    + intros k Hk. unfold t. rewrite fds_taken_filp, HG, (ow_filp _ _ _ _ Ho) by (done || lia).
      assert (fd0 <> fd1) by lia. repeat case_decide; intuition congruence.
    + intros p Hp. unfold live, t, fds_taken, files_taken in *. simpl. rewrite !arr_dec.
      repeat case_decide; subst; by rewrite ?arr_eq.
    + intros p Hp. unfold t, fds_taken, files_taken. simpl. rewrite !arr_dec.
      repeat case_decide; subst; by rewrite ?arr_eq.
    + intros g _. unfold G. rewrite refs_two by (done || lia). unfold t, fds_taken, files_taken, unused in *.
      simpl. rewrite !arr_dec. repeat case_decide; subst; simpl; rewrite ?Hz0, ?Hz1; try change (u16 (0 + 1)) with 1; lia.
    + intros g (k & Hk & He). rewrite HG in He. repeat case_decide; simplify_eq.
      * right. split; [lia|done].
      * right. split; [lia|done].
      * left. by exists k.
  - intros g [-> | ->]; (split; [|right; split; [lia|done]]).
    + exists fd0. rewrite HG, decide_False, decide_True by lia. split; [lia|done].
    + exists fd1. rewrite HG, decide_True by lia. split; [lia|done].
Qed.

(** The two descriptors and files given back. *)
Lemma give_two c F s0 s t fd0 fd1 f0 f1 :
  own c (<[fd1 := Some f1]> (<[fd0 := Some f0]> F)) (either f0 f1) s -> guar c s0 s ->
  0 <= fd0 < fd1 -> fd1 < NR_OPEN -> F fd0 = None -> F fd1 = None ->
  0 <= f0 < f1 -> f1 < NR_FILE -> ~ leads F f0 -> ~ leads F f1 ->
  task t = task s -> current t = current s -> setup_callable t = setup_callable s ->
  (forall p k, t_filp (tsk t p) k =
     if decide (p = c /\ (k = fd0 \/ k = fd1)) then None else t_filp (tsk s p) k) ->
  (forall p, live s p -> live t p) -> (forall p, slice_ok (tsk s p) -> slice_ok (tsk t p)) ->
  (forall f, f_count (file_table t f) =
     if decide (f = f0 \/ f = f1) then 0 else f_count (file_table s f)) ->
  sane c t /\ guar c s0 t.
Proof.
  intros Ho Hg Hfd Hfd1 Hn0 Hn1 Hf Hf1 Hl0 Hl1 T1 T2 T3 T4 T5 T7 T6.
  set (G := <[fd1 := Some f1]> (<[fd0 := Some f0]> F)) in *.
  assert (Hcnt : forall f, f = f0 \/ f = f1 -> f_count (file_table s f) = 1).
  { intros f Hcase. eapply single_count; [exact Ho|exact Hcase| |destruct Hcase; lia].
    unfold G. rewrite refs_two by (done || lia).
    destruct Hcase; subst; rewrite not_led by done; repeat case_decide; lia. }
  destruct (own_changed c G (either f0 f1) F none s0 s t) as [Ho' Hg']; [done| |done|done|].
  - split; try done.
    + intros p Hp. apply functional_extensionality. intros k. rewrite T4, decide_False; [done|tauto].
    + intros k Hk. rewrite T4. destruct (decide (c = c /\ (k = fd0 \/ k = fd1))) as [[_ Hcase]|Hno].
      * destruct Hcase; congruence.
      * rewrite (ow_filp _ _ _ _ Ho) by done. unfold G. rewrite !arr_ne; [done|intros ->; tauto..].
    + intros g _. unfold G. rewrite T6, refs_two by (done || lia).
      destruct (decide (g = f0 \/ g = f1)) as [Hcase|Hno].
      * rewrite Hcnt by done. repeat case_decide; lia.
      * repeat case_decide; try lia; subst; tauto.
    + intros g (k & Hk & He). left. exists k. split; [done|]. unfold G.
      rewrite !arr_ne; [done|congruence..].
  - split; [by exists F|done].
Qed.

Lemma safe_make_pipe c F s0 s fildes fd0 fd1 f0 f1 :
  own c (<[fd1 := Some f1]> (<[fd0 := Some f0]> F)) (either f0 f1) s -> guar c s0 s ->
  0 <= fd0 < fd1 -> fd1 < NR_OPEN -> F fd0 = None -> F fd1 = None ->
  0 <= f0 < f1 -> f1 < NR_FILE -> ~ leads F f0 -> ~ leads F f1 ->
  rg c s0 (make_pipe fildes f0 f1 fd0 fd1 s) (fun s0' _ s' => sane c s' /\ guar c s0' s').
Proof.
  intros Ho Hg Hfd Hfd1 Hn0 Hn1 Hf Hf1 Hl0 Hl1. unfold make_pipe. apply rg_bind.
  eapply (rg_keeps c (own c _ (either f0 f1))); [apply plain_get_pipe_inode, own_stable|exact Ho|done|].
  clear s s0 Ho Hg. intros s0 [inode|] s Ho Hg.
  - eapply (rg_keeps c (own c _ (either f0 f1))); [keep_steps|exact Ho|done|].
    intros s0' _ s' Ho' Hg'. split; [|done]. eexists. destruct Ho'. by split.
  - pose proof (ow_current _ _ _ _ Ho) as Hc. rewrite (bind_Ret _ _ _ _ _ (setme_run s c _ Hc)).
    rewrite (bind_Ret _ _ _ tt _ (setme_run (upd_task c (set_filp fd1 None) s) c (set_filp fd0 None) Hc)).
    mrun. apply (give_two c F s0 s _ fd0 fd1 f0 f1); try done.
    + intros p k. simpl. rewrite !arr_same, ?arr_eq, arr_dec. destruct (decide (c = p)) as [<-|Hp].
      * simpl. rewrite !arr_dec. repeat case_decide; intuition congruence.
      * rewrite decide_False by intuition congruence. done.
    + intros p Hp. unfold live in *. simpl. rewrite !arr_dec. repeat case_decide; subst; by rewrite ?arr_eq.
    + intros p Hp. simpl. rewrite !arr_dec. repeat case_decide; subst; by rewrite ?arr_eq.
    + intros f. simpl. rewrite !arr_dec. repeat case_decide; subst; simpl; intuition congruence.
Qed.

Lemma unused_not_led c F X s f : own c F X s -> unused s f -> 0 <= f < NR_FILE -> ~ leads F f.
Proof.
  intros Ho Hz Hf (k & Hk & He).
  apply (unused_not_held s c f (ow_sys _ _ _ _ Ho) Hz Hf (ow_table _ _ _ _ Ho)).
  exists k. by rewrite (ow_filp _ _ _ _ Ho).
Qed.

Lemma safe_sys_pipe fildes : safe (sys_pipe fildes).
Proof.
  intros c s0 s [F Ho] Hg. pose proof (ow_current _ _ _ _ Ho) as Hc.
  assert (Hback : forall t, inert s t -> sane c t /\ guar c s0 t).
  { intros t Hi. split; [exists F; by eapply st_inert|etrans; [exact Hg|by apply guar_inert]]. }
  unfold sys_pipe. mrun.
  destruct (free_file_from s 0) as [f0|] eqn:E0; [|apply Hback; reflexivity].
  apply free_file_from_Some in E0 as [Hf0 Hz0]; [|done]. mrun.
  destruct (free_file_from _ (f0 + 1)) as [f1|] eqn:E1.
  2: { mrun. apply Hback. split; try done. intros f. simpl. rewrite !arr_dec.
       repeat case_decide; subst; done. }
  apply free_file_from_Some in E1 as [Hf1 Hz1]; [|lia]. rewrite upd_file_ne in Hz1 by lia. mrun.
  change (upd_file f1 _ (upd_file f0 _ s)) with (files_taken f0 f1 s). cbv zeta.
  pose proof (fun f => files_given_back f0 f1 s f Hz0 Hz1) as Hgiven.
  set (s1 := files_taken f0 f1 s) in *.
  assert (Hc1 : current s1 = Some c) by done.
  rewrite (bind_Ret _ _ _ _ _ (me_run s1 c Hc1)). change (tsk s1 c) with (tsk s c).
  destruct (free_fd (tsk s c) 0) as [fd0|] eqn:E2.
  2: { mrun. apply Hback. by split. }
  assert (Hfd0' := E2). apply (free_fd_own c F none) in Hfd0' as [Hfd0 Hn0]; [|done|done].
  rewrite (bind_Ret _ _ _ _ _ (setme_run s1 c _ Hc1)).
  set (s2 := upd_task c (set_filp fd0 (Some f0)) s1).
  assert (Hc2 : current s2 = Some c) by done.
  rewrite (bind_Ret _ _ _ _ _ (me_run s2 c Hc2)).
  destruct (free_fd (tsk s2 c) (fd0 + 1)) as [fd1|] eqn:E3.
  2: { rewrite (bind_Ret _ _ _ tt _ (setme_run s2 c _ Hc2)). mrun. apply Hback. split; try done.
       - intros p. apply functional_extensionality. intros k. unfold s2. simpl.
         rewrite arr_same, arr_dec. case_decide; [subst p|done]. rewrite arr_eq. simpl.
         rewrite arr_same, arr_dec. case_decide; [subst k|done].
         by rewrite <- Hn0, (ow_filp _ _ _ _ Ho).
       - intros p Hp. unfold live, s2 in *. simpl. rewrite arr_same, arr_dec.
         case_decide; subst; by rewrite ?arr_eq.
       - intros p Hp. unfold s2. simpl. rewrite arr_same, arr_dec. case_decide; subst; by rewrite ?arr_eq. }
  apply free_fd_Some in E3 as [Hfd1 Hn1]; [|lia].
  assert (HF1 : F fd1 = None).
  { rewrite <- Hn1, <- (ow_filp _ _ _ _ Ho) by lia. unfold s2. rewrite upd_task_eq.
    simpl. by rewrite arr_ne by lia. }
  rewrite (bind_Ret _ _ _ tt _ (setme_run s2 c (set_filp fd1 (Some f1)) Hc2)).
  change (upd_task c (set_filp fd1 (Some f1)) s2) with (fds_taken c fd0 fd1 f0 f1 s).
  destruct (take_two c F s0 s fd0 fd1 f0 f1) as [Ho' Hg']; try done; try lia.
  apply (safe_make_pipe c F); try done; try lia; eapply unused_not_led; eauto; lia.
Qed.
End pipe.

(** ** The end of a process *)

(** The first part of the code keeps the assertion [I]. *)
Ltac keep_first I :=
  lazymatch goal with
  | Hs : I ?s, Hg : guar ?c ?s0 ?s |- rg ?c ?s0 _ _ =>
      apply rg_bind; eapply (rg_keeps c I); [solve [keep_steps]|exact Hs|exact Hg|];
      clear s0 s Hs Hg; intros s0 ? s Hs Hg; cbv beta
  end.

Section exit.
Context `{Machine}.

(** A process without open files may leave the table. *)
Definition without (i : Z) (s : kstate) : kstate := s <| task ::= <[i := None]> |>.

Lemma without_table i s q : in_table (without i s) q -> in_table s q.
Proof.
  intros (j & Hj & Hq). unfold without in Hq. simpl in Hq. rewrite arr_dec in Hq.
  case_decide; [done|]. by exists j.
Qed.

Lemma without_sys s i p : sys_ok s -> 1 <= i < NR_TASKS -> task s i = Some p -> no_files (tsk s p) ->
  sys_ok (without i s).
Proof.
  intros [A1 A2 A3 A4 (p0 & A5 & A6) A8 A7] Hi Hp Hno. split.
  - intros j k q Hj Hk. unfold without. simpl. rewrite !arr_dec. repeat case_decide; try done.
    by apply A1.
  - intros q f Hq. apply A2. by eapply without_table.
  - intros f Hf. change (file_table (without i s)) with (file_table s). rewrite A3 by done.
    unfold file_refs. rewrite (zsum_change _ (slot_refs (without i s) f) 0 _ i).
    + unfold slot_refs at 2 3. unfold without. simpl. rewrite arr_eq, Hp.
      unfold fd_refs. rewrite zsum_0; [lia|]. intros k Hk. by rewrite Hno by (unfold NR_OPEN in *; lia).
    + unfold NR_TASKS in *. lia.
    + intros j Hj Hne. unfold slot_refs, without. simpl. by rewrite arr_ne by done.
  - intros q Hq. apply A4. by eapply without_table.
  - exists p0. unfold without. simpl. rewrite arr_ne by lia. done.
  - intros q Hq. apply A8. by eapply without_table.
  - done.
Qed.

Lemma without_guar c s i : 1 <= i -> guar c s (without i s).
Proof.
  intros Hi. split; [unfold without; simpl; by rewrite arr_ne by lia|]. intros d _. split.
  - unfold without. simpl. by rewrite arr_ne by lia.
  - apply without_table.
  - done.
  - intros _ f _ Ho p Hp. apply Ho. by eapply without_table.
Qed.

Lemma release_scan s p : match scan (fun i => ptr_eqb (task s i) (Some p)) 1 63 with
  | Some i => 1 <= i < NR_TASKS /\ task s i = Some p
  | None => True
  end.
Proof.
  destruct (scan _ 1 63) as [i|] eqn:E; [|done]. apply scan_Some in E as (? & Hp & _).
  unfold NR_TASKS. split; [lia|]. apply bool_decide_eq_true in Hp. done.
Qed.

(** [c] releases a child that has ended. *)
Lemma release_child c p s0 s : sane c s -> guar c s0 s -> p <> c -> no_files (tsk s p) ->
  rg c s0 (release (Some p) s) (fun s0' _ s' => sane c s' /\ guar c s0' s').
Proof.
  intros [F Ho] Hg Hne Hno. unfold release. mrun. pose proof (release_scan s p) as Hsc.
  destruct (scan _ 1 63) as [i|]; [|done]. destruct Hsc as [Hi Hp]. mrun.
  assert (Hs1 : sane c (without i s)).
  { exists F. destruct Ho as [A1 A2 A3 A4 A0 A5 A6]. split; try done.
    - by eapply without_sys.
    - destruct A3 as (j & Hj & Hc). exists j. split; [done|]. unfold without. simpl.
      rewrite arr_ne; [done|]. intros ->. congruence.
    - unfold without. simpl. rewrite arr_ne by lia. done. }
  fold (without i s). apply rg_bind. eapply rg_keeps; [apply plain_free_page, sane_stable|exact Hs1| |].
  - etrans; [exact Hg|apply without_guar; lia].
  - intros s0' a s' Hs' Hg'. by apply plain_schedule; [apply _| |].
Qed.

(** [c] itself leaves the table; it never comes back. *)
Lemma release_self c s0 s : dying c s -> guar c s0 s ->
  rg c s0 (release (Some c) s) (fun s0' _ s' => sane c s' /\ guar c s0' s').
Proof.
  intros Hd Hg. unfold release. mrun. pose proof (release_scan s c) as Hsc.
  destruct (scan _ 1 63) as [i|]; [|done]. destruct Hsc as [Hi Hp]. mrun.
  assert (Hs1 : dying c (without i s)).
  { destruct Hd as [A1 A2 A3 A4]. split; try done.
    - by eapply without_sys.
    - unfold without. simpl. rewrite arr_ne by lia. done. }
  fold (without i s). apply rg_bind. eapply rg_keeps; [apply plain_free_page, dying_stable|exact Hs1| |].
  - etrans; [exact Hg|apply without_guar; lia].
  - clear s s0 Hd Hg Hs1 Hi Hp. intros s0 _ s Hd Hg.
    apply (schedule_rg c); [apply Hd|apply Hd|done| |].
    + intros s1 Hi Ht Hl Hg1. split; [|done]. apply dying_sane; [|done|done]. by eapply st_inert.
    + intros s1 s' Hi Hr. split; [|apply guar_refl].
      assert (Hd1 : dying c s1) by (by eapply st_inert).
      apply dying_sane; [by eapply st_resume|apply Hr|apply Hr].
Qed.

(** The loop of [do_exit] closes the descriptors below [i + n]. *)
Lemma close_all_rg c n : forall F i s0 s, 0 <= i -> i + Z.of_nat n <= NR_OPEN ->
  (forall fd, 0 <= fd < i -> F fd = None) -> own c F none s -> guar c s0 s ->
  rg c s0 (for_ i n (fun i =>
      c ← me;
      match t_filp c i with
      | None => mret tt
      | Some _ => sys_close i;; mret tt
      end) s)
    (fun s0' _ s' => (exists G, (forall fd, 0 <= fd < i + Z.of_nat n -> G fd = None) /\ own c G none s') /\
                     guar c s0' s').
Proof.
  induction n as [|n IH]; intros F i s0 s Hi Hn HF Ho Hg.
  { split; [|done]. exists F. split; [|done]. intros fd ?. apply HF. lia. }
  cbn [for_]. apply rg_bind. rewrite (bind_Ret _ _ _ _ _ (me_run s c (ow_current _ _ _ _ Ho))).
  replace (i + Z.of_nat (S n)) with (i + 1 + Z.of_nat n) in * by lia.
  rewrite (ow_filp _ _ _ _ Ho) by (split; lia). destruct (F i) as [f|] eqn:Hf.
  - apply rg_bind. eapply rg_mono; [by apply (sys_close_rg c F)|].
    intros s0' _ s' [Ho' Hg']. cbv beta. apply (IH (close_fd i F)); [lia|lia| |done|done].
    intros fd Hfd. unfold close_fd. destruct (i >=? NR_OPEN) eqn:E; ztest; [lia|].
    rewrite arr_dec. case_decide; [done|]. apply HF. lia.
  - apply (IH F); [lia|lia| |done|done]. intros fd Hfd.
    destruct (decide (fd = i)) as [->|]; [done|]. apply HF. lia.
Qed.

Lemma own_dying c F s : own c F none s -> (forall fd, 0 <= fd < NR_OPEN -> F fd = None) ->
  dying c s.
Proof. intros [A1 A2 A3 A4 A0 A5 A6] HF. split; try done. intros fd Hfd. by rewrite A5, HF. Qed.

(** The current process becomes a zombie. *)
Lemma zombie_dying c s f : dying c s -> (forall t, t_filp (f t) = t_filp t) ->
  (forall t, slice_ok t -> slice_ok (f t)) -> dying c (upd_task c f s).
Proof.
  intros [A1 A2 A3 A4] Hf Hsl.
  assert (Hfp : forall p, t_filp (tsk (upd_task c f s) p) = t_filp (tsk s p)).
  { intros p. simpl. rewrite arr_dec. by case_decide; subst. }
  split; try done.
  - destruct A1 as [B1 B2 B3 B4 (p0 & B5 & B6) B8 B7]. split; try done.
    + intros p g Hp. rewrite (holds_same (tsk s p)) by done. by apply B2.
    + intros g Hg. change (file_table (upd_task c f s)) with (file_table s). rewrite B3 by done.
      apply zsum_ext. intros j _. unfold slot_refs, fd_refs. change (task (upd_task c f s)) with (task s).
      destruct (task s j); [|done]. by rewrite Hfp.
    + intros p Hp Hz fd Hfd. rewrite Hfp. destruct (decide (p = c)) as [->|Hne]; [by apply A4|].
      apply (B4 p Hp); [|done]. unfold live in *. simpl in Hz. by rewrite arr_ne in Hz by done.
    + exists p0. split; [done|]. unfold live. simpl. rewrite arr_ne; [done|congruence].
    + intros p Hp. simpl. rewrite arr_dec. case_decide; subst; auto.
  - intros fd Hfd. rewrite Hfp. by apply A4.
Qed.

Lemma guar_filp c s f : (forall t, t_filp (f t) = t_filp t) -> guar c s (upd_task c f s).
Proof.
  intros Hf. split; [done|]. intros d Hd. apply view_same; [done|]. intros p. simpl.
  rewrite arr_dec. by case_decide; subst.
Qed.

(** The end of [do_exit]: [c] becomes a zombie and tells its father, or is
    released at once; it gives the processor up for good. *)
Lemma exit_end_rg c code s0 s : dying c s -> guar c s0 s ->
  rg c s0 ((c ← me;
  (if nz (t_father c) then
     setme (fun t => t <| t_state := TASK_ZOMBIE |>);;
     c ← me;
     do_kill (t_father c) SIGCHLD true;;
     setme (fun t => t <| t_exit_code := code |>)
   else
     s ← get;
     release (current s));;
  schedule fuel;;
  mret (-1)) s) (fun s0' _ s' => sane c s' /\ guar c s0' s').
Proof.
  intros Hd Hg. pose proof (dy_current _ _ Hd) as Hc.
  rewrite (bind_Ret _ _ _ _ _ (me_run s c Hc)). apply rg_bind. destruct (nz _).
  - rewrite (bind_Ret _ _ _ _ _ (setme_run s c _ Hc)).
    set (s1 := upd_task c _ s). assert (Hd1 : dying c s1) by (by apply zombie_dying).
    assert (Hg1 : guar c s0 s1) by (etrans; [exact Hg|by apply guar_filp]). clearbody s1.
    eapply (rg_keeps c (dying c)); [keep_steps|exact Hd1|done|].
    intros t0 _ t Ht Hgt. cbv beta. apply rg_bind.
    apply (schedule_rg c); [apply Ht|apply Ht|done| |].
    + intros t1 Hi Htb Hl Hgt1. split; [|done]. apply dying_sane; [|done|done]. by eapply st_inert.
    + intros t1 t' Hi Hr. split; [|apply guar_refl].
      assert (Hd2 : dying c t1) by (by eapply st_inert).
      apply dying_sane; [by eapply st_resume|apply Hr|apply Hr].
  - mrun. rewrite Hc. eapply rg_mono; [by apply release_self|]. intros t0 _ t [Ht Hgt]. cbv beta.
    eapply (rg_keeps c (sane c)); [keep_steps|exact Ht|done|]. done.
Qed.

Lemma safe_do_exit code : safe (do_exit code).
Proof.
  intros c s0 s Hs Hg. unfold do_exit.
  do 5 keep_first (sane c). destruct Hs as [F Ho].
  apply rg_bind. eapply rg_mono.
  { apply (close_all_rg c (Z.to_nat NR_OPEN) F 0); [done|done| |done|done]. intros fd ?. lia. }
  clear s s0 F Ho Hg. intros s0 _ s [(F & HF & Ho) Hg]. cbv beta.
  change (0 + Z.of_nat (Z.to_nat NR_OPEN)) with NR_OPEN in HF.
  assert (Hs : dying c s) by (by eapply own_dying). clear F HF Ho.
  do 10 keep_first (dying c). by apply exit_end_rg.
Qed.
End exit.
