(* ===== verification/System.v ===== *)
(** The system as a whole: every system call, exception and interrupt, run by
    many processes in turn, keeps the tables of open files right. *)
From stdpp Require Import relations.
From S2P Require Export Keyboard Rsio Fair Descr.
#[local] Open Scope bool_scope.

Section calls.
Context `{Machine}.
#[local] Hint Resolve safe_sys_close safe_dupfd safe_sys_open safe_sys_pipe safe_do_exit : safe.

Lemma safe_un_wp_page e : safe (un_wp_page do_exit e).
Proof. unfold un_wp_page. by_safe. Qed.
#[local] Hint Resolve safe_un_wp_page : safe.
Lemma safe_do_wp_page error_code address : safe (do_wp_page do_exit error_code address).
Proof. unfold do_wp_page. by_safe. Qed.
#[local] Hint Resolve safe_do_wp_page : safe.
Lemma safe_write_verify address : safe (write_verify do_exit address).
Proof. unfold write_verify. by_safe. Qed.
#[local] Hint Resolve safe_write_verify : safe.
Lemma safe_do_no_page error_code address : safe (do_no_page do_exit error_code address).
Proof. unfold do_no_page. by_safe. Qed.
#[local] Hint Resolve safe_do_no_page : safe.
Lemma safe_verify_area addr size : safe (verify_area addr size).
Proof. unfold verify_area. by_safe. Qed.
#[local] Hint Resolve safe_verify_area : safe.
Lemma safe_sys_exit error_code : safe (sys_exit error_code).
Proof. unfold sys_exit. by_safe. Qed.
#[local] Hint Resolve safe_sys_exit : safe.
Lemma safe_sys_creat pathname mode : safe (sys_creat pathname mode).
Proof. unfold sys_creat. by_safe. Qed.
#[local] Hint Resolve safe_sys_creat : safe.
Lemma safe_get_termios tty a : safe (get_termios tty a).
Proof. unfold get_termios. by_safe. Qed.
#[local] Hint Resolve safe_get_termios : safe.
Lemma safe_set_termios tty a : safe (set_termios tty a).
Proof. unfold set_termios. by_safe. Qed.
#[local] Hint Resolve safe_set_termios : safe.
Lemma safe_get_termio tty a : safe (get_termio tty a).
Proof. unfold get_termio. by_safe. Qed.
#[local] Hint Resolve safe_get_termio : safe.
Lemma safe_set_termio tty a : safe (set_termio tty a).
Proof. unfold set_termio. by_safe. Qed.
#[local] Hint Resolve safe_set_termio : safe.
Lemma safe_tty_ioctl dev cmd a : safe (tty_ioctl dev cmd a).
Proof. unfold tty_ioctl. by_safe. Qed.
#[local] Hint Resolve safe_tty_ioctl : safe.
Lemma safe_sys_ioctl fd cmd a : safe (sys_ioctl fd cmd a).
Proof. unfold sys_ioctl. by_safe. Qed.
#[local] Hint Resolve safe_sys_ioctl : safe.
Lemma safe_sys_read fd buf count : safe (sys_read fd buf count).
Proof. unfold sys_read. by_safe. Qed.
#[local] Hint Resolve safe_sys_read : safe.
Lemma safe_drop_program : safe drop_program.
Proof. unfold drop_program. by_safe. Qed.
#[local] Hint Resolve safe_drop_program : safe.
Lemma safe_set_program inode page p argc envc bs : safe (set_program inode page p argc envc bs).
Proof. unfold set_program. by_safe. Qed.
#[local] Hint Resolve safe_set_program : safe.
Lemma safe_exec_file filename argv envp inode bh : safe (exec_file filename argv envp inode bh).
Proof. unfold exec_file. by_safe. Qed.
#[local] Hint Resolve safe_exec_file : safe.
Lemma safe_do_execve cs filename argv envp : safe (do_execve cs filename argv envp).
Proof. unfold do_execve. by_safe. Qed.
#[local] Hint Resolve safe_do_execve : safe.
Lemma safe_cp_stat inode statbuf : safe (cp_stat inode statbuf).
Proof. unfold cp_stat. by_safe. Qed.
#[local] Hint Resolve safe_cp_stat : safe.
Lemma safe_sys_stat filename statbuf : safe (sys_stat filename statbuf).
Proof. unfold sys_stat. by_safe. Qed.
#[local] Hint Resolve safe_sys_stat : safe.
Lemma safe_sys_lstat filename statbuf : safe (sys_lstat filename statbuf).
Proof. unfold sys_lstat. by_safe. Qed.
#[local] Hint Resolve safe_sys_lstat : safe.
Lemma safe_sys_fstat fd statbuf : safe (sys_fstat fd statbuf).
Proof. unfold sys_fstat. by_safe. Qed.
#[local] Hint Resolve safe_sys_fstat : safe.
Lemma safe_cp_stat64 inode statbuf : safe (cp_stat64 inode statbuf).
Proof. unfold cp_stat64. by_safe. Qed.
#[local] Hint Resolve safe_cp_stat64 : safe.
Lemma safe_sys_stat64 filename statbuf : safe (sys_stat64 filename statbuf).
Proof. unfold sys_stat64. by_safe. Qed.
#[local] Hint Resolve safe_sys_stat64 : safe.
Lemma safe_sys_fstat64 fd statbuf : safe (sys_fstat64 fd statbuf).
Proof. unfold sys_fstat64. by_safe. Qed.
#[local] Hint Resolve safe_sys_fstat64 : safe.
Lemma safe_sys_lstat64 filename statbuf : safe (sys_lstat64 filename statbuf).
Proof. unfold sys_lstat64. by_safe. Qed.
#[local] Hint Resolve safe_sys_lstat64 : safe.
Lemma safe_sys_getdents fd dirp count : safe (sys_getdents fd dirp count).
Proof. unfold sys_getdents. by_safe. Qed.
#[local] Hint Resolve safe_sys_getdents : safe.
Lemma safe_sys_getdents64 fd dirp count : safe (sys_getdents64 fd dirp count).
Proof. unfold sys_getdents64. by_safe. Qed.
#[local] Hint Resolve safe_sys_getdents64 : safe.
Lemma safe_sys_time tloc : safe (sys_time tloc).
Proof. unfold sys_time. by_safe. Qed.
#[local] Hint Resolve safe_sys_time : safe.
Lemma safe_sys_times tbuf : safe (sys_times tbuf).
Proof. unfold sys_times. by_safe. Qed.
#[local] Hint Resolve safe_sys_times : safe.
Lemma safe_sys_uname name : safe (sys_uname name).
Proof. unfold sys_uname. by_safe. Qed.
#[local] Hint Resolve safe_sys_uname : safe.
Lemma safe_deliver r i h : safe (deliver r i h).
Proof. unfold deliver. by_safe. Qed.
#[local] Hint Resolve safe_deliver : safe.

Lemma safe_sys_dup fildes : 0 <= fildes -> safe (sys_dup fildes).
Proof. intros. by apply safe_dupfd. Qed.
Lemma safe_sys_dup2 oldfd newfd : 0 <= oldfd -> 0 <= newfd -> safe (sys_dup2 oldfd newfd).
Proof. intros. unfold sys_dup2. by_safe. Qed.
Lemma safe_sys_fcntl fd cmd a : 0 <= fd -> 0 <= a -> safe (sys_fcntl fd cmd a).
Proof. intros. unfold sys_fcntl. by_safe. Qed.
#[local] Hint Resolve safe_sys_dup safe_sys_dup2 safe_sys_fcntl : safe.
Lemma safe_sys_fcntl64 fd cmd a : 0 <= fd -> 0 <= a -> safe (sys_fcntl64 fd cmd a).
Proof. intros. unfold sys_fcntl64. by_safe. Qed.
#[local] Hint Resolve safe_sys_fcntl64 : safe.

(** The system has been set up: the call fails. *)
Lemma safe_sys_setup m : safe (sys_setup m).
Proof.
  intros c s0 s Hs Hg. unfold sys_setup. mrun. pose proof (st_sys _ Hs) as Hok.
  by rewrite (sy_setup _ Hok).
Qed.
#[local] Hint Resolve safe_sys_setup : safe.

(** waitpid releases a child that has ended, which has no files. *)
Lemma safe_sys_waitpid pid stat_addr options : safe (sys_waitpid pid stat_addr options).
Proof.
  unfold sys_waitpid. intros c. apply keeps_bind; [keep_steps|intros _]. apply keeps_loop. intros flag.
  intros s0 s Hs Hg. pose proof (st_current _ Hs) as Hc. mrun.
  rewrite (bind_Ret _ _ _ _ _ (cur_run s c Hc)).
  destruct (scan (fun k => waited s c pid (63 - k) && zombie s (63 - k)) 0 63) as [k|] eqn:Hsc.
  - apply scan_Some in Hsc as (Hk & Hw & _). change (Z.of_nat 63) with 63 in Hk.
    apply andb_true_iff in Hw as [Hw Hz]. unfold waited in Hw. unfold zombie in Hz.
    destruct (task s (63 - k)) as [p|] eqn:Hp; [|done].
    assert (Hne : p <> c).
    { intros ->. by rewrite Z.eqb_refl in Hw. }
    assert (Hno : no_files (tsk s p)).
    { apply (sy_zombie _ (st_sys _ Hs)).
      - exists (63 - k). split; [unfold NR_TASKS; lia|done].
      - unfold live. ztest. congruence. }
    unfold put_fs_long. mrun. set (t := tsk s p).
    match goal with |- rg _ _ ((setme ?f ≫= _) ?u) _ => set (s1 := u); set (f1 := f) end.
    assert (Hc1 : current s1 = Some c) by done.
    rewrite (bind_Ret _ _ _ _ _ (setme_run s1 c f1 Hc1)).
    match goal with |- rg _ _ ((setme ?f ≫= _) ?u) _ => set (f2 := f) end.
    rewrite (bind_Ret _ _ _ tt _ (setme_run (upd_task c f1 s1) c f2 Hc1)).
    cbv zeta. set (s2 := upd_task c f2 (upd_task c f1 s1)).
    assert (Hi : inert s s2).
    { transitivity s1; [by split|]. transitivity (upd_task c f1 s1); by apply inert_upd_task. }
    apply rg_bind. eapply rg_mono.
    { apply (release_child c p); [by eapply st_inert| |done|].
      - etrans; [exact Hg|by apply guar_inert].
      - intros fd Hfd. rewrite (in_filp _ _ Hi). by apply Hno. }
    done.
  - destruct (flag || _); cbn [negb]; [|done]. destruct (hasbit _ _); [done|].
    revert s0 s Hs Hg Hc Hsc. intros s0 s Hs Hg _ _. revert s0 s Hs Hg. 
    change (keeps c (sane c) (sys_pause fuel;;
          setme (fun t => t <| t_signal ::= fun g =>
            Z.land g (Z.lnot (Z.shiftl 1 (SIGCHLD - 1))) |>);;
          t ← me;
          if negb (nz (t_signal t)) then mret (inl true : bool + Z) else mret (inr (- EINTR)))).
    keep_steps.
Qed.
#[local] Hint Resolve safe_sys_waitpid : safe.

(** ** The table of system calls *)

Context (fninit : Z -> Z).

(** The registers hold 32-bit values. *)
Definition regs_ok (r : frame) : Prop :=
  0 <= fr_ebx r /\ 0 <= fr_ecx r /\ 0 <= fr_edx r.

(** A system call that a process may make at any time. *)
Definition safe_handler (h : handler) : Prop := forall r, regs_ok r -> safe (h r).
Definition safe_entry (o : option handler) : Prop :=
  match o with Some h => safe_handler h | None => True end.

Lemma safe_call0 m : safe m -> safe_handler (call0 m).
Proof. intros Hm r _ c. unfold call0. apply keeps_bind; [apply Hm|]. intros z. apply keeps_ret. Qed.
Lemma safe_call1 t f : (forall x, (t = uns -> 0 <= x) -> safe (f x)) -> safe_handler (call1 t f).
Proof. intros Hf r Hr. pose proof Hr as (Hb & _). apply safe_call0; [|done]. apply Hf. intros ->. exact Hb. Qed.
Lemma safe_call2 t u f :
  (forall x y, (t = uns -> 0 <= x) -> (u = uns -> 0 <= y) -> safe (f x y)) ->
  safe_handler (call2 t u f).
Proof. intros Hf r Hr. pose proof Hr as (Hb & Hcx & _). apply safe_call0; [|done]. apply Hf; by intros ->. Qed.
Lemma safe_call3 t u v f :
  (forall x y z, (t = uns -> 0 <= x) -> (u = uns -> 0 <= y) -> (v = uns -> 0 <= z) -> safe (f x y z)) ->
  safe_handler (call3 t u v f).
Proof. intros Hf r Hr. pose proof Hr as (Hb & Hcx & Hd). apply safe_call0; [|done]. apply Hf; by intros ->. Qed.
Lemma safe_const z : safe_handler (const z).
Proof. apply safe_call0. intros c. apply keeps_ret. Qed.
Lemma safe_execve : safe_handler sys_execve.
Proof. intros r _. unfold sys_execve. by_safe. Qed.

Ltac safe_service :=
  lazymatch goal with
  | |- safe_handler (call0 _) => apply safe_call0
  | |- safe_handler (call1 _ _) => apply safe_call1; intros ? Hx; try specialize (Hx eq_refl)
  | |- safe_handler (call2 _ _ _) =>
      apply safe_call2; intros ? ? Hx Hy; try specialize (Hx eq_refl); try specialize (Hy eq_refl)
  | |- safe_handler (call3 _ _ _ _) =>
      apply safe_call3; intros ? ? ? Hx Hy Hz; try specialize (Hx eq_refl);
      try specialize (Hy eq_refl); try specialize (Hz eq_refl)
  | |- safe_handler (const _) => apply safe_const
  | |- safe_handler (fun r => const _ r) => intros r Hr; by apply safe_const
  | |- safe_handler sys_execve => apply safe_execve
  end;
  try (let c := fresh "c" in intros c; keep_leaf).

Lemma table_safe : Forall safe_entry (let t := sys_call_table fninit in
  take 2 t ++ take 31 (drop 3 t) ++ drop 35 t).
Proof.
  unfold sys_call_table. cbn [map app take drop].
  repeat first [ apply Forall_app_2 | apply Forall_replicate; exact Logic.I | apply Forall_cons_2 | apply Forall_nil_2 ];
    cbn [safe_entry]; try exact Logic.I.
  all: safe_service.
Qed.

Lemma service_safe nr h : service fninit nr = Some h -> nr <> 2 -> nr <> 34 -> safe_handler h.
Proof.
  unfold service. intros Hs Hnr Hnr'. pose proof table_safe as Ht. cbv zeta in Ht.
  set (table := sys_call_table fninit) in *.
  destruct (table !! Z.to_nat nr) as [[h'|]|] eqn:E; try done. injection Hs as <-.
  apply Forall_app in Ht as [H1 [H2 H3]%Forall_app].
  change (safe_entry (Some h')). destruct (decide (Z.to_nat nr < 2)%nat) as [Hlt|Hge];
    [|destruct (decide (Z.to_nat nr < 34)%nat) as [Hlt'|Hge']].
  - eapply Forall_lookup_1; [exact H1|]. by rewrite lookup_take_lt.
  - apply (Forall_lookup_1 _ _ (Z.to_nat nr - 3)%nat _ H2). rewrite lookup_take_lt by lia. rewrite lookup_drop.
    by replace (3 + (Z.to_nat nr - 3))%nat with (Z.to_nat nr) by lia.
  - apply (Forall_lookup_1 _ _ (Z.to_nat nr - 35)%nat _ H3). rewrite lookup_drop.
    by replace (35 + (Z.to_nat nr - 35))%nat with (Z.to_nat nr) by lia.
Qed.

(** A system call that the theorems below speak of: not [fork], which has a step
    of its own, and not [nice] with a negative increment, by which any process
    can raise its priority so far that the recharge of its slice overflows. *)
Record fair_call (r : frame) : Prop := {
  fc_regs : regs_ok r;
  fc_fork : fr_eax r <> 2;
  fc_nice : fr_eax r = 34 -> 0 <= s32 (fr_ebx r);
}.

Lemma safe_dispatch r : fair_call r -> safe (dispatch fninit r).
Proof.
  intros [Hr Hf Hn]. unfold dispatch. destruct (decide (fr_eax r = 34)) as [He|Hne].
  - rewrite He. change (service fninit 34) with (Some (call1 int sys_nice)). cbv iota beta.
    apply safe_call0; [|done]. apply safe_plain, plain_sys_nice. cbn [arg]. split; [by apply Hn|].
    apply s32_range.
  - destruct (service fninit (fr_eax r)) as [h|] eqn:Es; [|by_safe].
    by apply (service_safe (fr_eax r)).
Qed.

Lemma safe_ret_from_sys_call r : safe (ret_from_sys_call r).
Proof. unfold ret_from_sys_call. by_safe. Qed.
#[local] Hint Resolve safe_ret_from_sys_call : safe.

(** A system call from the entry to the return. *)
Lemma safe_system_call r : fair_call r -> safe (system_call fninit r).
Proof.
  intros Hr. pose proof (safe_dispatch r Hr). unfold system_call. by_safe.
Qed.

Lemma safe_timer_interrupt r : safe (timer_interrupt r).
Proof. unfold timer_interrupt. by_safe. Qed.
Lemma safe_page_fault error_code cr2 : safe (page_fault error_code cr2).
Proof. unfold page_fault. by_safe. Qed.
Lemma safe_die what esp nr : safe (die what esp nr).
Proof. unfold die. by_safe. Qed.

(** ** fork *)

Lemma sys_files_ok s c : sys_ok s -> current s = Some c -> in_table s c -> files_ok s.
Proof.
  intros [A1 A2 A3 A4 A5 A8 A6] Hc (i & Hi & Ht). split; try done.
  - by exists i, c.
  - intros j p fd f Hj Hp Hfd Hf. apply (A2 p f); [by exists j|by exists fd].
Qed.

Lemma files_sys_ok s : files_ok s ->
  (forall p, in_table s p -> ~ live s p -> no_files (tsk s p)) ->
  (exists p, task s 0 = Some p /\ live s p) -> (forall p, in_table s p -> slice_ok (tsk s p)) ->
  setup_callable s = 0 -> sys_ok s.
Proof.
  intros [A1 A2 A3 A4] Hz Hi Hsl Hs. split; try done.
  intros p f (i & Hi' & Hp) (fd & Hfd & Hf). by apply (A3 i p fd).
Qed.

Lemma find_empty_run s :
  match find_empty_process s with
  | Ret nr s' => (exists l, s' = s <| last_pid := l |>) /\
      (nr < 0 \/ 1 <= nr < NR_TASKS /\ task s nr = None)
  | NoFuel => True
  | _ => False
  end.
Proof.
  unfold find_empty_process.
  match goal with |- context [loop fuel ?b tt] => set (body := b) end.
  assert (Hb : forall s, exists l x, body tt s = Ret x (s <| last_pid := l |>)).
  { intros t. unfold body. mrun. destruct (_ <? 0); mrun; eexists _, _; reflexivity. }
  assert (Hl : forall n t, match loop n body tt t with
    | Ret _ t' => exists l, t' = t <| last_pid := l |> | NoFuel => True | _ => False end).
  { induction n as [|n IH]; intros t; [done|]. cbn [loop]. destruct (Hb t) as (l & x & Hrun).
    rewrite (bind_Ret _ _ _ _ _ Hrun). destruct x as [[]|[]]; [|by exists l].
    specialize (IH (t <| last_pid := l |>)). destruct (loop n body tt _); try done. }

  specialize (Hl fuel s). unfold mbind at 1, M_bind at 1.
  destruct (loop fuel body tt s) as [u s1|?|?|?|]; try done. cbn [res_bind].
  destruct Hl as [l ->]. rewrite bind_get. change (task (s <| last_pid := l |>)) with (task s).
  destruct (scan (fun i => null (task s i)) 1 63) as [i|] eqn:E; (split; [by exists l|]).
  - right. apply scan_Some in E as (? & Hn & _). unfold NR_TASKS. split; [lia|]. by destruct (task s i).
  - by left.
Qed.

(** From [s] to [s'] process [c] makes at most one new process. *)
Record forked (c : Z) (s s' : kstate) : Prop := {
  fk_running : running c s';
  fk_view : forall d, d <> c -> in_table s d \/ ~ in_table s' d -> view d s s';
}.

Lemma forked_child c s s' nr p : running c s -> files_ok s' -> current s' = Some c ->
  setup_callable s' = setup_callable s -> 1 <= nr < NR_TASKS -> task s nr = None ->
  task s' = <[nr := Some p]> (task s) ->
  t_state (tsk s' p) = TASK_RUNNING -> t_filp (tsk s' p) = t_filp (tsk s c) ->
  slice_ok (tsk s' p) ->
  (forall q, q <> p -> tsk s' q = tsk s q) -> ~ in_table s p -> forked c s s'.
Proof.
  intros [R1 R2 R3 R4] Hok Hc Hset Hnr Hfree Ht Hst Hfp Hsl Hoth Hp.
  assert (Hin : forall q, in_table s' q -> q = p \/ in_table s q).
  { intros q (i & Hi & Hq). rewrite Ht, arr_dec in Hq. case_decide; [left; congruence|right; by exists i]. }
  assert (Hin' : forall q, in_table s q -> in_table s' q /\ q <> p).
  { intros q Hq. split; [|by intros ->]. destruct Hq as (i & Hi & Hq). exists i. split; [done|].
    rewrite Ht, arr_ne; [done|]. intros ->. congruence. }
  assert (Hnp : forall q, in_table s q -> tsk s' q = tsk s q) by (intros q Hq; apply Hoth, Hin', Hq).
  assert (H0 : task s' 0 = task s 0) by (rewrite Ht, arr_ne by lia; done).
  split.
  - split; [|done|by apply Hin'|unfold live; by rewrite Hnp].
    apply files_sys_ok; [done| | | |by rewrite Hset; apply R1].
    + intros q Hq Hl. destruct (Hin q Hq) as [->|Hq']; [by destruct Hl; unfold live; rewrite Hst|].
      rewrite Hnp by done. apply (sy_zombie _ R1); [done|]. unfold live in *. by rewrite Hnp in Hl.
    + destruct (sy_idle _ R1) as (q & Hq & Hl). exists q. split; [by rewrite H0|].
      unfold live. rewrite Hnp; [done|]. exists 0. done.
    + intros q Hq. destruct (Hin q Hq) as [->|Hq']; [done|]. rewrite Hnp by done.
      by apply (sy_slice _ R1).
  - intros d Hd Hdt. assert (Hdp : d <> p \/ ~ in_table s' d) by (destruct Hdt; [left; intros ->; done|by right]).
    split; [done| | |].
    + intros Hd'. by destruct Hdt.
    + intros Hd' fd Hfd. destruct Hdt; [|done]. by rewrite Hnp.
    + intros Hd' f Hh Ho q Hq Hqd. destruct Hdt as [Hdt|]; [|done]. destruct (Hin q Hq) as [->|Hq'].
      * rewrite (holds_same (tsk s c)) by done. by apply Ho.
      * rewrite Hnp by done. by apply Ho.
Qed.

Lemma fork_run r s c : running c s -> tasks_placed s ->
  match sys_fork fninit r s with
  | Ret _ s' => forked c s s'
  | Panic _ _ | NoFuel => True
  | _ => False
  end.
Proof.
  intros Hr Hpl. unfold sys_fork. pose proof (find_empty_run s) as Hfe.
  unfold mbind at 1, M_bind at 1. destruct (find_empty_process s) as [nr s1|?|?|?|]; try done.
  destruct Hfe as [[l ->] Hnr]. cbn [res_bind]. set (s1 := s <| last_pid := l |>) in *.
  assert (Hr1 : running c s1) by (eapply st_inert; [exact Hr|by split]).
  destruct (nr <? 0) eqn:E; ztest.
  { split; [done|]. intros d _ _. by apply view_same. }
  destruct Hnr as [|[Hnr Hfree]]; [lia|]. destruct Hr1 as [R1 R2 R3 R4].
  pose proof (copy_process_run fninit nr (regs_of r) s1 c (sys_files_ok s1 c R1 R2 R3) Hpl R2 Hnr Hfree) as Hcp.
  unfold mbind, M_bind. destruct (copy_process fninit nr (regs_of r) s1) as [v s2|?|?|?|]; try done.
  cbn [res_bind]. destruct Hcp as (Hok & Hc & Hset & Hcase).
  assert (Hr1 : running c s1) by (by split).
  enough (Hf : forked c s1 s2).
  { destruct Hf as [F1 F2]. split; [done|]. intros d Hd Hdt. destruct (F2 d Hd Hdt). by split. }
  destruct Hcase as [(_ & (p & Ht & Hch & Hoth & Hnew) & _)|(_ & Ht & Hft & _ & Hoth)].
  - destruct Hch as [D1 D2 D3 D4 D5 D6 D7].
    apply (forked_child c s1 s2 nr p); try done; [by rewrite Hc|apply D5| |].
    { destruct D4 as (_ & _ & _ & Hcn & Hpr), (sy_slice _ R1 c R3) as [? ?].
      unfold slice_ok. rewrite Hcn, Hpr. lia. }
    intros (i & Hi & Hp). by apply (Hnew i p).
  - assert (Hnp : forall q, in_table s1 q -> tsk s2 q = tsk s1 q) by (intros q (i & Hi & Hq); by apply (Hoth i)).
    split.
    + split; [|by rewrite Hc|by rewrite (in_table_same s1 s2)|unfold live; by rewrite Hnp].
      apply files_sys_ok; [done| | | |by rewrite Hset; apply R1].
      * intros q Hq Hl. rewrite (in_table_same s1 s2) in Hq by done. rewrite Hnp by done.
        apply (sy_zombie _ R1); [done|]. unfold live in *. by rewrite Hnp in Hl.
      * destruct (sy_idle _ R1) as (q & Hq & Hl). exists q. split; [by rewrite Ht|].
        unfold live. rewrite Hnp; [done|]. exists 0. done.
      * intros q Hq. rewrite (in_table_same s1 s2) in Hq by done. rewrite Hnp by done.
        by apply (sy_slice _ R1).
    + intros d Hd Hdt. split; [by rewrite Ht|by rewrite (in_table_same s1 s2)| |].
      * intros Hd' fd Hfd. rewrite (in_table_same s1 s2) in Hd' by done. by rewrite Hnp.
      * intros Hd' f Hh Ho q Hq Hqd. rewrite (in_table_same s1 s2) in Hq by done.
        rewrite Hnp by done. by apply Ho.
Qed.

(** ** The idle task *)

Definition idle (c : Z) (s : kstate) : Prop := running c s /\ task s 0 = Some c.

#[local] Instance idle_stable c : Stable c (idle c).
Proof.
  split.
  - intros s [Hr _]. apply Hr.
  - intros s [Hr _]. apply Hr.
  - intros s t [Hr H0] Hi. split; [by eapply st_inert|]. by rewrite (in_task _ _ Hi).
  - intros s s' [Hr H0] Hre. split; [by eapply st_resume|].
    by rewrite (vw_idle _ _ _ (re_view _ _ _ Hre)).
Qed.

(** It has no signals to act on. *)
Lemma idle_ret_from_sys_call c r : keeps c (idle c) (ret_from_sys_call r).
Proof.
  intros s0 s Hi Hg. unfold ret_from_sys_call. mrun. destruct Hi as [[R1 R2 R3 R4] H0].
  rewrite R2, H0, ptr_eqb_refl. split; [by split; [split|]|done].
Qed.

Lemma idle_timer_interrupt c r : keeps c (idle c) (timer_interrupt r).
Proof.
  unfold timer_interrupt. apply keeps_bind; [keep_steps|intros _].
  apply keeps_bind; [keep_steps|intros _]. apply keeps_bind; [keep_steps|intros _].
  apply idle_ret_from_sys_call.
Qed.

Lemma idle_pause c r : fr_eax r = 29 -> keeps c (idle c) (system_call fninit r).
Proof.
  intros Hr. unfold system_call. rewrite Hr. change (29 >? nr_system_calls - 1) with false. cbv iota.
  unfold dispatch. rewrite Hr. change (service fninit 29) with (Some (call0 (sys_pause fuel))). cbv iota beta.
  unfold call0. apply keeps_bind; [keep_steps|intros [z r']].
  apply keeps_bind; [keep_steps|intros t]. apply keeps_bind; [keep_steps|intros _].
  apply idle_ret_from_sys_call.
Qed.

(** ** Entering the kernel *)

(** What a device or the coprocessor asks for: kernel/hd.c, the keyboard and
    the serial lines, the timer while the kernel runs, kernel/sched.c. *)
Inductive device : K unit -> Prop :=
| dv_tick : device (tick 0)
| dv_hd : device hd_interrupt
| dv_keyboard kb ecx : device (keyboard_interrupt kb ecx;; mret tt)
| dv_serial tty : device (rs_interrupt tty)
| dv_math : device (math_state_restore fninit).

(** What makes [c] enter the kernel: system calls, faults, the timer and
    devices.  The idle task only pauses and is interrupted. *)
Inductive enters (c : Z) (s : kstate) : K unit -> Prop :=
| en_call r : task s 0 <> Some c -> fair_call r -> enters c s (system_call fninit r;; mret tt)
| en_page_fault e cr2 : task s 0 <> Some c -> enters c s (page_fault e cr2)
| en_fault what esp nr : task s 0 <> Some c -> enters c s (die what esp nr)
| en_int3 p esp fs es ds ebp esi edi edx ecx ebx eax :
    enters c s (do_int3 p esp fs es ds ebp esi edi edx ecx ebx eax)
| en_pause r : fr_eax r = 29 -> enters c s (system_call fninit r;; mret tt)
| en_timer r : enters c s (timer_interrupt r;; mret tt)
| en_device m : device m -> enters c s m.

Lemma plain_tick cpl : plain (tick cpl).
Proof. unfold tick. by_plain. Qed.
(** The interrupts of the keyboard and the serial lines. *)
Lemma plain_put_queue eax ebx : plain (put_queue eax ebx).
Proof. unfold put_queue, put_round, set_read_q. by_plain. Qed.
#[local] Hint Resolve plain_put_queue : plain.
Lemma plain_set_leds kb : plain (set_leds kb).
Proof. unfold set_leds, kb_wait. by_plain. Qed.
#[local] Hint Resolve plain_set_leds : plain.
Lemma plain_routine k kb ecx eax : plain (routine k kb ecx eax).
Proof.
  destruct k; simpl; unfold caps, toggle_led, cursor, Keyboard.cur, func, Keyboard.minus, do_self, reboot, kb_wait; by_plain.
Qed.
#[local] Hint Resolve plain_routine : plain.
Lemma plain_keyboard kb ecx : plain (keyboard_interrupt kb ecx).
Proof. unfold keyboard_interrupt, scan_code. by_plain. Qed.
Lemma plain_rs_interrupt tty : plain (rs_interrupt tty).
Proof.
  unfold rs_interrupt, rep_int, modem_status, line_status, read_char, write_char, write_buffer_empty, wake_queue.
  by_plain.
Qed.
#[local] Hint Resolve plain_keyboard plain_rs_interrupt : plain.

Lemma device_plain m : device m -> plain m.
Proof. intros []; first [apply plain_tick | solve [auto with plain nocore] | by_plain]. Qed.

Lemma running_sane c s : running c s -> task s 0 <> Some c -> sane c s.
Proof. intros [] H0. exists (t_filp (tsk s c)). by split. Qed.
Lemma sane_running c s : sane c s -> running c s.
Proof. intros [F []]. by split. Qed.

(** What is left of the kernel code of [c] leaves the system sound. *)
Definition fine {A} (c : Z) (s : kstate) (r : res kstate A) : Prop :=
  rg c s r (fun s0 _ s' => running c s' /\ guar c s0 s').

Lemma keeps_fine {A} c (I : kstate -> Prop) (m : K A) s : keeps c I m -> I s ->
  (forall s, I s -> running c s) -> fine c s (m s).
Proof.
  intros Hm Hs HI. eapply rg_mono; [apply Hm; [exact Hs|apply guar_refl]|].
  intros s0 a s' [Hs' Hg]. split; [by apply HI|done].
Qed.

Lemma fine_unit {A} c (m : K A) s : fine c s (m s) -> fine c s ((m;; mret tt) s).
Proof. intros Hm. apply rg_bind. eapply rg_mono; [exact Hm|]. done. Qed.

Lemma enters_fine c s m : running c s -> enters c s m -> fine c s (m s).
Proof.
  intros Hr He. assert (Hsafe : forall A (m : K A), safe m -> task s 0 <> Some c -> fine c s (m s)).
  { intros A m' Hm H0. apply (keeps_fine c (sane c)); [apply Hm|by apply running_sane|].
    apply sane_running. }
  assert (Hidle : forall A (m : K A), keeps c (idle c) m -> task s 0 = Some c -> fine c s (m s)).
  { intros A m' Hm H0. apply (keeps_fine c (idle c)); [done|by split|]. by intros t []. }
  destruct He as [r H0 Hrg|e cr2 H0|w esp nr H0|??? ????? ????|r Hn|r|m Hd].
  - apply fine_unit, Hsafe; [by apply safe_system_call|done].
  - by apply Hsafe; [apply safe_page_fault|].
  - by apply Hsafe; [apply safe_die|].
  - apply (keeps_fine c (running c)); [unfold do_int3; keep_steps|done|done].
  - apply fine_unit. destruct (decide (task s 0 = Some c)) as [H0|H0].
    + by apply Hidle; [apply idle_pause|].
    + apply Hsafe; [|done]. unfold system_call. rewrite Hn.
      change (29 >? nr_system_calls - 1) with false. cbv iota. unfold dispatch. rewrite Hn.
      change (service fninit 29) with (Some (call0 (sys_pause fuel))). cbv iota beta. unfold call0. by_safe.
  - apply fine_unit. destruct (decide (task s 0 = Some c)) as [H0|H0].
    + by apply Hidle; [apply idle_timer_interrupt|].
    + by apply Hsafe; [apply safe_timer_interrupt|].
  - apply (keeps_fine c (running c)); [by apply (device_plain m Hd c (running c)), running_stable|done|done].
Qed.
End calls.

(** ** The system *)

(** The kernel and, for each process that sleeps in it, the code it goes on
    with when it is resumed. *)
Record world : Type := mk_world {
  w_state : kstate;
  w_code : Z -> option (kstate -> res kstate unit);
}.

Section system.
Context `{Machine}.
Context (fninit : Z -> Z).

(** Code run by [c] comes to its end, or gives the processor up. *)
Inductive outcome (c : Z) (ws : Z -> option (kstate -> res kstate unit)) :
    res kstate unit -> world -> Prop :=
| out_ret u s : outcome c ws (Ret u s) (mk_world s (<[c := None]> ws))
| out_yield s k : outcome c ws (Yield s k) (mk_world s (<[c := Some k]> ws)).

(** A step of the system: the current process enters the kernel, goes on in it,
    forks, or computes in its own memory; or a device interrupts it.  [fork]
    needs a page allocator that gives out no page in which a process lies. *)
Inductive wstep : world -> world -> Prop :=
| ws_enter s ws c m w' : current s = Some c -> ws c = None -> enters fninit c s m ->
    outcome c ws (m s) w' -> wstep (mk_world s ws) w'
| ws_resume s ws c k w' : current s = Some c -> ws c = Some k ->
    outcome c ws (k s) w' -> wstep (mk_world s ws) w'
| ws_interrupt s ws m u s' : device fninit m -> m s = Ret u s' ->
    wstep (mk_world s ws) (mk_world s' ws)
| ws_fork s ws c r z s' ws' : current s = Some c -> ws c = None -> tasks_placed s ->
    sys_fork fninit r s = Ret z s' ->
    (forall p, in_table s p \/ ~ in_table s' p -> ws' p = ws p) ->
    (forall p, in_table s' p -> ~ in_table s p -> ws' p = None) ->
    wstep (mk_world s ws) (mk_world s' ws')
| ws_compute s ws c u m f : current s = Some c -> ws c = None ->
    wstep (mk_world s ws) (mk_world (s <| user := u |> <| phys := m |> <| fpu := f |>) ws).

(** What is left of the code of a sleeping process may be run in any state the
    others can bring about. *)
Definition pending (d : Z) (s : kstate) (k : kstate -> res kstate unit) : Prop :=
  forall s', resumed d s s' -> fine d s' (k s').

Record sound (w : world) : Prop := {
  sd_running : exists c, running c (w_state w);
  sd_code : forall d k, w_code w d = Some k -> pending d (w_state w) k;
}.

Lemma pending_view d s t k : pending d s k -> view d s t -> pending d t k.
Proof.
  intros Hp Hv s' [R1 R2 R3 R4 R5]. apply Hp. split; try done. by etrans.
Qed.

(** What a step does to the processes that do not run. *)
Definition others_view (w w' : world) : Prop := forall d,
  current (w_state w) <> Some d ->
  in_table (w_state w) d \/ ~ in_table (w_state w') d -> view d (w_state w) (w_state w').

Lemma fine_outcome c s ws r w' : current s = Some c -> sound (mk_world s ws) -> fine c s r ->
  outcome c ws r w' -> sound w' /\ others_view (mk_world s ws) w'.
Proof.
  intros Hc [_ Hcode] Hf Ho. cbn [w_state w_code] in Hcode.
  assert (Hoth : forall s1 x, guar c s s1 -> (forall k, x = Some k -> pending c s1 k) ->
    forall d k, <[c := x]> ws d = Some k -> pending d s1 k).
  { intros s1 x Hg Hx d k Hd. rewrite arr_dec in Hd. case_decide; [subst; auto|].
    eapply pending_view; [by apply Hcode|]. by apply Hg. }
  destruct Ho as [u s1|s1 k]; cbn [fine rg] in Hf.
  - destruct Hf as [Hr Hg]. split; [split; [by exists c|by apply Hoth]|].
    intros d Hd _. apply Hg. cbn [w_state] in Hd. congruence.
  - destruct Hf as [(Hok & Hg & d & Hd & Ht & Hl) Hk]. split.
    + split; [by exists d|]. apply Hoth; [done|]. intros k' [= <-]. exact Hk.
    + intros e He _. apply Hg. cbn [w_state] in He. congruence.
Qed.

(** An interrupt leaves even the process it interrupts as it is. *)
Definition watched (c : Z) (s0 s : kstate) : Prop := running c s /\ view c s0 s.
#[local] Instance watched_stable c s0 : Stable c (watched c s0).
Proof.
  split.
  - intros s [Hr _]. apply Hr.
  - intros s [Hr _]. apply Hr.
  - intros s t [Hr Hv] Hi. split; [by eapply st_inert|]. etrans; [exact Hv|].
    apply view_same; apply Hi.
  - intros s s' [Hr Hv] Hre. split; [by eapply st_resume|]. etrans; [exact Hv|apply Hre].
Qed.

Lemma view_refl d s : view d s s.
Proof. by apply view_same. Qed.

Lemma interrupt_view c s m u s' : running c s -> device fninit m -> m s = Ret u s' ->
  running c s' /\ forall d, view d s s'.
Proof.
  intros Hr Hd Hm. pose proof (device_plain fninit m Hd c (watched c s) _ s s) as Hk.
  rewrite Hm in Hk. destruct Hk as [[Hr' Hv] Hg]; [split; [done|apply view_refl]|apply guar_refl|].
  split; [done|]. intros d. destruct (decide (d = c)) as [->|]; [done|]. by apply Hg.
Qed.

Lemma wstep_sound w w' : sound w -> wstep w w' -> sound w' /\ others_view w w'.
Proof.
  intros Hs Hw. pose proof Hs as [[c0 Hr] Hcode].
  destruct Hw as [s ws c m w' Hc Hn He Ho|s ws c k w' Hc Hk Ho|s ws m u s' Hd Hm
                 |s ws c r z s' ws' Hc Hn Hpl Hf Hold Hnew|s ws c u m f Hc Hn];
    cbn [w_state w_code] in *.
  - assert (c0 = c) as -> by (pose proof (ru_current _ _ Hr); congruence).
    apply (fine_outcome c s ws (m s)); [done|done|by apply enters_fine in He|done].
  - assert (c0 = c) as -> by (pose proof (ru_current _ _ Hr); congruence).
    apply (fine_outcome c s ws (k s)); [done|done| |done]. apply (Hcode c k Hk).
    destruct Hr. by split.
  - destruct (interrupt_view c0 s m u s' Hr Hd Hm) as [Hr' Hv]. split.
    + split; [by exists c0|]. intros d k Hk. eapply pending_view; [by apply Hcode|apply Hv].
    + intros d _ _. apply Hv.
  - assert (c0 = c) as -> by (pose proof (ru_current _ _ Hr); congruence).
    pose proof (fork_run fninit r s c Hr Hpl) as Hfk. rewrite Hf in Hfk. destruct Hfk as [Hr' Hv].
    split.
    + split; [by exists c|]. cbn [w_state w_code]. intros d k Hk.
      assert (Hdt : in_table s d \/ ~ in_table s' d).
      { destruct (decide (in_table s d)) as [|Ho]; [by left|right]. intros Hd.
        rewrite Hnew in Hk by done. done. }
      rewrite Hold in Hk by done. eapply pending_view; [by apply Hcode|]. apply Hv; [|done].
      intros ->. congruence.
    + intros d Hd Hdt. apply Hv; [|done]. cbn [w_state] in Hd. congruence.
  - assert (Hi : inert s (s <| user := u |> <| phys := m |> <| fpu := f |>)) by (by split).
    split; [split|].
    + exists c0. by eapply st_inert.
    + cbn [w_state w_code]. intros d k Hk. eapply pending_view; [by apply Hcode|].
      apply view_same; apply Hi.
    + intros d _ _. apply view_same; apply Hi.
Qed.

Lemma reachable_sound w0 w : (exists c, running c (w_state w0)) -> (forall p, w_code w0 p = None) ->
  rtc wstep w0 w -> sound w.
Proof.
  intros Hr Hn. apply (rtc_ind_r sound w0); [|intros; by eapply wstep_sound].
  split; [done|]. intros d k Hk. by rewrite Hn in Hk.
Qed.

(** C3: In every state the whole system reaches - processes entering any system
    call, fault or interrupt, sleeping in the middle of one while others run,
    being resumed, forking, exiting, being killed - the count of every open file
    is the number of descriptors that denote it, and a zombie has no descriptor. *)
Theorem system_files_ok w0 w :
  (exists c, running c (w_state w0)) -> (forall p, w_code w0 p = None) -> rtc wstep w0 w ->
  files_ok (w_state w) /\
  (forall p, in_table (w_state w) p -> t_state (tsk (w_state w) p) = TASK_ZOMBIE ->
     forall fd, 0 <= fd < NR_OPEN -> t_filp (tsk (w_state w) p) fd = None).
Proof.
  intros Hr Hn Hw. destruct (reachable_sound w0 w Hr Hn Hw) as [[c [Hok Hc Ht Hl0]] _].
  split; [by apply (sys_files_ok _ c)|]. intros p Hp Hz. apply (sy_zombie _ Hok p Hp).
  intros Hl. by apply Hl.
Qed.

(** C4: As long as nobody calls nice with a negative increment - the code lets
    any process do so, and then neither bound holds (a finding) - in every state
    the whole system reaches each task's priority is positive and below 2^30 and
    its time slice is non-negative and fits 31 bits, so that recharging does not
    overflow; hence schedule there always ends, switching to a task with the
    largest slice. *)
Theorem system_slices_ok w0 w n :
  (exists c, running c (w_state w0)) -> (forall p, w_code w0 p = None) -> rtc wstep w0 w ->
  (2 <= n)%nat ->
  (forall p, in_table (w_state w) p ->
     0 < t_priority (tsk (w_state w) p) < 1073741824 /\ 0 <= t_counter (tsk (w_state w) p) < 2147483648) /\
  exists next s1, schedule n (w_state w) = switch_to next s1 /\ best_slot s1 next.
Proof.
  intros Hr Hn Hw Hf. destruct (reachable_sound w0 w Hr Hn Hw) as [[c [Hok Hc Ht Hl0]] _].
  split; [apply (sy_slice _ Hok)|].
  assert (Hin : forall i p, 1 <= i <= 63 -> task (w_state w) i = Some p -> in_table (w_state w) p).
  { intros i p Hi Hp. exists i. split; [unfold NR_TASKS; lia|done]. }
  assert (Hs : sched_ok (w_state w)).
  { split.
    - intros i j p Hi Hj. apply (sy_slots _ Hok); unfold NR_TASKS; lia.
    - intros i p Hi Hp. by apply (sy_slice _ Hok p), (Hin i).
    - intros i p Hi Hp. by apply (sy_slice _ Hok p), (Hin i). }
  destruct (choose_next_run n (on_tasks (check_task (jiffies (w_state w))) (w_state w)) Hf
              ltac:(by apply sched_ok_check)) as (next & s1 & Hrun & Hbest & _).
  exists next, s1. split; [|done]. unfold schedule.
  by rewrite (bind_Ret _ _ _ _ _ (check_signals_run _ Hs)), (bind_Ret _ _ _ _ _ Hrun).
Qed.

(** C5: No step of the system - whatever another process calls, wherever it
    sleeps or is resumed - changes the descriptors of a process that is not
    running, or gives another process a descriptor of an open file that only
    that process holds. *)
Theorem descriptors_private w0 w w' d :
  (exists c, running c (w_state w0)) -> (forall p, w_code w0 p = None) -> rtc wstep w0 w ->
  wstep w w' -> current (w_state w) <> Some d ->
  in_table (w_state w) d -> in_table (w_state w') d ->
  (forall fd, 0 <= fd < NR_OPEN -> t_filp (tsk (w_state w') d) fd = t_filp (tsk (w_state w) d) fd) /\
  (forall f, holds (tsk (w_state w) d) f -> only (w_state w) d f -> only (w_state w') d f).
Proof.
  intros Hr Hn Hw Hs Hc Hd Hd'. pose proof (reachable_sound w0 w Hr Hn Hw) as Hsound.
  destruct (proj2 (wstep_sound w w' Hsound Hs) d Hc (or_introl Hd)). auto.
Qed.
End system.

(** The state the kernel is loaded with is one the theorems start from, but for the call
    [setup], which is still to come. *)
Lemma statics_running a : running a ((statics a) <| setup_callable := 0 |>).
Proof.
  assert (Ht : forall i p, task (statics a) i = Some p -> i = 0 /\ p = a).
  { intros i p. unfold statics. cbn. destruct (Z.eqb_spec i 0); [|done]. intros [= <-]. done. }
  assert (Hr : forall f, file_refs (statics a) f = 0).
  { intros f. unfold file_refs. apply zsum_0. intros i _. unfold slot_refs. case_match; [|done].
    unfold fd_refs. by apply zsum_0. }
  assert (Hl : forall p, live (statics a) p) by done.
  split; [|done|by exists 0|done]. split.
  - intros i j p _ _ Hi Hj. apply Ht in Hi as [-> _], Hj as [-> _]. done.
  - intros p f _ (fd & _ & Hf). done.
  - intros f _. change (0 = file_refs (statics a) f). by rewrite Hr.
  - intros p _ Hp. by destruct Hp.
  - exists a. split; done.
  - intros p _. split; simpl; lia.
  - done.
Qed.

(** ** A concrete system: two processes that share a file, of which one calls [dup]. *)
Definition booted : kstate := zero_kstate
  <| task := fun i => if i =? 0 then Some 4096 else if i =? 1 then Some 8192 else None |>
  <| tsk := fun _ => zero_task <| t_filp := fun fd => if fd =? 0 then Some 3 else None |>
                       <| t_counter := 3 |> <| t_priority := 15 |> |>
  <| file_table := fun f => zero_file <| f_count := if f =? 3 then 2 else 0 |> |>
  <| current := Some 8192 |> <| setup_callable := 0 |>.
Definition booted_world : world := mk_world booted (fun _ => None).

Lemma booted_running : running 8192 booted.
Proof.
  assert (Hin : in_table booted 8192) by (exists 1; done). split; [|done|done|discriminate].
  destruct sharing_ok as [S1 _ S3 S4]. apply files_sys_ok;
    [|intros p _ Hl; destruct Hl; discriminate|exists 4096; split; [done|discriminate]
     |intros p _; by split|done]. split.
  - exact S1.
  - by exists 1, 8192.
  - exact S3.
  - exact S4.
Qed.

(** The frame of [dup(0)]. *)
Definition dup_frame : frame := mk_frame 41 0 0 0 0 0 0 0 0 0 0 0 0 0 0 0.

Definition after_dup : kstate :=
  match (@system_call quiet_machine zero_arr dup_frame;; mret tt) booted with
  | Ret _ s => s
  | _ => booted
  end.
Definition dup_world : world := mk_world after_dup (<[8192 := None]> (fun _ => None)).

Lemma dup_step : @wstep quiet_machine zero_arr booted_world dup_world.
Proof.
  apply ws_enter with (c := 8192) (m := (@system_call quiet_machine zero_arr dup_frame;; mret tt)); try done.
  - apply en_call; [done|]. by split.
  - unfold dup_world, after_dup.
    assert (Hret : is_ret ((@system_call quiet_machine zero_arr dup_frame;; mret tt) booted) = true)
      by (vm_compute; reflexivity).
    destruct ((system_call zero_arr dup_frame;; mret tt) booted); try discriminate. apply out_ret.
Qed.

Lemma system_files_ok_witness :
  t_filp (tsk (w_state dup_world) 8192) 1 = Some 3 /\ files_ok (w_state dup_world).
Proof.
  split; [vm_compute; reflexivity|].
  destruct (@system_files_ok quiet_machine zero_arr booted_world dup_world
              (ex_intro _ 8192 booted_running) (fun p => eq_refl) (rtc_once _ _ dup_step)) as [Hok _].
  exact Hok.
Defined.

Lemma system_slices_ok_witness :
  exists next s1, schedule 2 (w_state dup_world) = switch_to next s1 /\ best_slot s1 next.
Proof.
  destruct (@system_slices_ok quiet_machine zero_arr booted_world dup_world 2%nat
              (ex_intro _ 8192 booted_running) (fun p => eq_refl) (rtc_once _ _ dup_step) (le_n 2)) as [_ H].
  exact H.
Defined.

Lemma descriptors_private_witness : t_filp (tsk (w_state dup_world) 4096) 1 = None.
Proof.
  assert (H0 : in_table (w_state booted_world) 4096) by (exists 0; done).
  assert (H1 : in_table (w_state dup_world) 4096) by (exists 0; split; [done|vm_compute; reflexivity]).
  assert (Hc : current (w_state booted_world) <> Some 4096) by discriminate.
  destruct (@descriptors_private quiet_machine zero_arr booted_world booted_world dup_world 4096
              (ex_intro _ 8192 booted_running) (fun p => eq_refl) (rtc_refl _ _) dup_step Hc H0 H1) as [Hf _].
  rewrite (Hf 1); [reflexivity|unfold NR_OPEN; lia].
Defined.
