(* ===== verification/Boot.v ===== *)
(** The boot sector, boot/boot.s: it moves itself away, loads the kernel from the
    floppy disk with the BIOS, moves it to address 0, programs the interrupt
    controllers and enters protected mode.  Registers are 16-bit values, memory is
    bytes by physical address. *)
From S2P Require Export Prelude.
#[local] Open Scope bool_scope.

(** ** The machine *)

(** Memory, the bytes sent to ports, and how often the BIOS and the keyboard
    controller were asked.  The stack, in the KB at 0x90000, is left out. *)
Record real := mk_real {
  mem : Z -> Z;
  calls : nat;
  polls : nat;
  ports : list (Z * Z);
}.
#[export] Instance real_eta : Eta real := fun r =>
  mk_real (mem r) (calls r) (polls r) (ports r).

(** What the machine has besides: [int13 n al ch cl dh a m] is the BIOS's answer to
    the [n]-th request to read [al] sectors of cylinder [ch], side [dh], from sector
    [cl] on, to address [a] of memory [m]: the carry flag and the memory; the status
    of the keyboard controller; the position of the cursor. *)
Class Bios := {
  int13 : nat -> Z -> Z -> Z -> Z -> Z -> (Z -> Z) -> bool * (Z -> Z);
  status_8042 : nat -> Z;
  cursor : Z;
}.

(** boot/boot.s:57 *)
Definition sectors : Z := 18.
(** boot/boot.s:72-74 *)
Definition BOOTSEG : Z := 0x07c0.
Definition INITSEG : Z := 0x9000.
Definition SYSSEG : Z := 0x1000.

(** The address of a segment and an offset. *)
Definition at_seg (seg off : Z) : Z := 16 * seg + off.
Definition copy_bytes (src dst n : Z) (m : Z -> Z) : Z -> Z :=
  fun x => if (dst <=? x) && (x <? dst + n) then m (src + (x - dst)) else m x.

Section boot.
Context `{Bios}.
(** The offset in the boot sector at which the assembler puts [sread], the size of the
    kernel in 16-byte units, which the build computes, and how often a loop that waits
    for a device tries. *)
Context (sread SYSSIZE : Z) (patience : nat).

(** boot/boot.s:75 *)
Definition ENDSEG : Z := SYSSEG + SYSSIZE.

(** boot/boot.s:260-262: three words inside the boot sector, where it has moved to. *)
Definition sread_at : Z := at_seg INITSEG sread.
Definition head_at : Z := sread_at + 2.
Definition track_at : Z := sread_at + 4.
Definition r_sread (r : real) : Z := le16 (mem r) sread_at.
Definition r_head (r : real) : Z := le16 (mem r) head_at.
Definition r_track (r : real) : Z := le16 (mem r) track_at.
Definition store (a v : Z) (r : real) : real := r <| mem ::= fun m => put16 m a v |>.

(** boot/boot.s:308-339: [n] sectors to [es:bx]; after an error the drive is reset
    and the read tried again. *)
Fixpoint read_track (fuel : nat) (n es bx : Z) (r : real) : option real :=
  match fuel with
  | O => None
  | S fuel =>
      let cl := (r_sread r + 1) mod 256 in
      let ch := r_track r mod 256 in
      let dh := Z.land (256 * (r_head r mod 256)) 0x0100 / 256 in
      let (carry, m) := int13 (calls r) (n mod 256) ch cl dh (at_seg es bx) (mem r) in
      let r := r <| mem := m |> <| calls ::= S |> in
      if carry then read_track fuel n es bx r else Some r
  end.

(** boot/boot.s:273-283: how many sectors to read: the rest of the track, or what
    fits below the next 64 KB boundary. *)
Definition how_many (bx : Z) (r : real) : Z :=
  let ax := u16 (sectors - r_sread r) in
  let cx := u16 (ax * 512) + bx in
  if (cx <? 65536) || (u16 cx =? 0) then ax else u16 (- bx) / 512.

(** boot/boot.s:285-298: the variables after [n] sectors were read. *)
Definition advance (n : Z) (r : real) : real :=
  let ax := u16 (n + r_sread r) in
  if ax =? sectors then
    let ax := u16 (1 - r_head r) in
    let r := if ax =? 0 then store track_at (u16 (r_track r + 1)) r else r in
    store sread_at 0 (store head_at ax r)
  else store sread_at ax r.

(** boot/boot.s:268-306: from the segment [es] and the offset [bx]. *)
Fixpoint rp_read (rounds : nat) (es bx : Z) (r : real) : option real :=
  match rounds with
  | O => None
  | S rounds =>
      if ENDSEG <=? es then Some r
      else
        let ax := how_many bx r in
        match read_track patience ax es bx r with
        | None => None
        | Some r =>
            let bx' := bx + u16 (ax * 512) in
            if bx' <? 65536 then rp_read rounds es bx' (advance ax r)
            else rp_read rounds (u16 (es + 0x1000)) 0 (advance ax r)
        end
  end.

(** boot/boot.s:263-267: [None] when it waits for ever.  At most 8 segments of 128
    sectors are read, so 1025 rounds are enough. *)
Definition read_it (es : Z) (r : real) : option real :=
  if Z.land es 0x0fff =? 0 then rp_read 1025 es 0 r else None.

Definition out (v port : Z) (r : real) : real := r <| ports ::= fun l => l ++ [(port, v)] |>.

(** boot/boot.s:346-352 *)
Definition kill_motor : real -> real := out 0 0x3f2.

(** boot/boot.s:237-241 *)
Fixpoint empty_8042 (fuel : nat) (r : real) : option real :=
  match fuel with
  | O => None
  | S fuel =>
      let al := status_8042 (polls r) in
      let r := r <| polls ::= S |> in
      if hasbit al 2 then empty_8042 fuel r else Some r
  end.

(** boot/boot.s:134-147: the segments from 0x1000 to 0x8000, each moved down by one. *)
Fixpoint do_move (fuel : nat) (ax : Z) (r : real) : real :=
  match fuel with
  | O => r
  | S fuel =>
      let es := ax in
      let ax := u16 (ax + 0x1000) in
      if ax =? 0x9000 then r
      else do_move fuel ax (r <| mem ::= copy_bytes (at_seg ax 0) (at_seg es 0) 0x10000 |>)
  end.

(** boot/boot.s:160-165 *)
Definition enable_a20 (r : real) : option real :=
  r ← empty_8042 patience r;
  r ← empty_8042 patience (out 0xD1 0x64 r);
  empty_8042 patience (out 0xDF 0x60 r).

(** boot/boot.s:184-208: the two interrupt controllers. *)
Definition init_8259 (r : real) : real :=
  out 0xFF 0xA1 (out 0xFF 0x21 (out 0x01 0xA1 (out 0x01 0x21 (out 0x02 0xA1 (out 0x04 0x21
    (out 0x28 0xA1 (out 0x20 0x21 (out 0x11 0xA0 (out 0x11 0x20 r))))))))).

(** boot/boot.s:354-364: the segments of the kernel in protected mode. *)
Definition boot_gdt : list Z :=
  [0; 0; 0; 0; 0x07FF; 0x0000; 0x9A00; 0x00C0; 0x07FF; 0x0000; 0x9200; 0x00C0].

(** boot/boot.s:78-229, to the jump to address 0. *)
Definition start (r : real) : option real :=
  let r := r <| mem ::= copy_bytes (at_seg BOOTSEG 0) (at_seg INITSEG 0) 512 |> in
  r ← read_it SYSSEG r;
  let r := kill_motor r in
  let r := store (at_seg INITSEG 510) cursor r in
  let r := do_move 9 0 r in
  r ← enable_a20 r;
  Some (init_8259 r).
End boot.

(** ** What the loader relies on *)

(** A transfer that lies in one track and crosses no 64 KB boundary. *)
Definition sound (n c h s a : Z) : Prop :=
  1 <= n /\ 1 <= s /\ s + n - 1 <= sectors /\ 0 <= c < 80 /\ 0 <= h <= 1 /\ a mod 65536 + 512 * n <= 65536.

(** The sectors of the disk in order. *)
Definition sector_nr (c h s : Z) : Z := (2 * c + h) * sectors + (s - 1).

(** The documented behaviour of the BIOS on sound requests: without an error it has
    read the sectors, with one it has touched nothing but the place they belong; and
    neither it nor the keyboard controller is out of order [patience] times in a row. *)
Record bios_ok `{Bios} (disk : Z -> Z) (patience : nat) : Prop := {
  bo_read : forall k n c h s a m x, sound n c h s a -> fst (int13 k n c s h a m) = false ->
    snd (int13 k n c s h a m) x =
      if (a <=? x) && (x <? a + 512 * n) then disk (512 * sector_nr c h s + (x - a)) else m x;
  bo_fail : forall k n c h s a m x, sound n c h s a -> ~ a <= x < a + 512 * n -> snd (int13 k n c s h a m) x = m x;
  bo_patient : forall k, exists d, (d < patience)%nat /\
    forall n c h s a m, sound n c h s a -> fst (int13 (k + d) n c s h a m) = false;
  bo_8042 : forall k, exists d, (d < patience)%nat /\ hasbit (status_8042 (k + d)) 2 = false;
}.

Section loads.
Context `{Bios} (disk : Z -> Z) (sread SYSSIZE : Z) (patience : nat).
Context (Hbios : bios_ok disk patience) (Hsread : 0 <= sread /\ sread + 6 <= 510).
#[local] Abbreviation sread_of := (r_sread sread).
#[local] Abbreviation head_of := (r_head sread).
#[local] Abbreviation track_of := (r_track sread).

(** The variables of the loader are in range, and the sector they point at. *)
Definition in_range (r : real) : Prop := 0 <= sread_of r < sectors /\ 0 <= head_of r <= 1 /\ 0 <= track_of r < 80.
Definition here (r : real) : Z := sector_nr (track_of r) (head_of r) (sread_of r + 1).
(** The addresses of the variables. *)
Definition variable (x : Z) : Prop := at_seg INITSEG sread <= x < at_seg INITSEG sread + 6.

Lemma head_bit h : 0 <= h <= 1 -> Z.land (256 * (h mod 256)) 0x0100 / 256 = h.
Proof. intros Hh. assert (h = 0 \/ h = 1) as [->| ->] by lia; reflexivity. Qed.

(** The variables depend on their own six bytes only. *)
Lemma vars_same r r' : (forall x, variable x -> mem r' x = mem r x) ->
  sread_of r' = sread_of r /\ head_of r' = head_of r /\ track_of r' = track_of r.
Proof.
  unfold variable. intros Hm. unfold r_sread, r_head, r_track, le16, track_at, head_at, sread_at.
  rewrite !Hm by lia. done.
Qed.

Lemma read_track_run fuel d n es bx r : (d < fuel)%nat -> in_range r -> at_seg es bx + 512 * n <= 0x90000 ->
  sound n (track_of r) (head_of r) (sread_of r + 1) (at_seg es bx) ->
  (forall n c h s a m, sound n c h s a -> fst (int13 (calls r + d) n c s h a m) = false) ->
  exists r', read_track sread fuel n es bx r = Some r' /\
    r' = r <| mem := mem r' |> <| calls := calls r' |> /\
    forall x, mem r' x = if (at_seg es bx <=? x) && (x <? at_seg es bx + 512 * n)
                         then disk (512 * here r + (x - at_seg es bx)) else mem r x.
Proof.
  intros Hd Hr Hend Hs. revert d r Hd Hr Hs. induction fuel as [|fuel IH]; intros d r Hd Hr Hs Hok; [lia|].
  cbn [read_track]. pose proof Hr as (Hsr & Hh & Ht). pose proof Hs as (Hn & _ & Hsn & _). unfold sectors in *.
  rewrite head_bit, (Z.mod_small (sread_of r + 1)), (Z.mod_small (track_of r)), (Z.mod_small n) by lia.
  destruct (int13 _ _ _ _ _ _ _) as [carry m] eqn:E. destruct carry.
  - destruct d as [|d].
    { specialize (Hok n (track_of r) (head_of r) (sread_of r + 1) (at_seg es bx) (mem r) Hs).
      rewrite Nat.add_0_r, E in Hok. done. }
    set (r1 := r <| mem := m |> <| calls ::= S |>).
    assert (Hm1 : forall x, ~ at_seg es bx <= x < at_seg es bx + 512 * n -> mem r1 x = mem r x).
    { intros x Hx. pose proof (bo_fail _ _ Hbios (calls r) n _ _ _ (at_seg es bx) (mem r) x Hs Hx) as Hf. by rewrite E in Hf. }
    destruct (vars_same r r1) as (V1 & V2 & V3).
    { unfold variable. intros x Hx. apply Hm1. unfold at_seg, INITSEG in *. lia. }
    assert (Hh1 : here r1 = here r) by (unfold here; congruence).
    destruct (IH d r1) as (r' & Hrun & Heq & Hm); [lia|unfold in_range; rewrite V1, V2, V3; done|by rewrite V1, V2, V3| |].
    { intros. replace (calls r1 + d)%nat with (calls r + S d)%nat by (simpl; lia). by apply Hok. }
    exists r'. split; [exact Hrun|]. split; [rewrite Heq; done|]. intros x. rewrite Hm, Hh1. case_match eqn:Hx; [done|].
    apply Hm1. intros [? ?]. rewrite (proj2 (Z.leb_le _ _)), (proj2 (Z.ltb_lt _ _)) in Hx by done. done.
  - eexists. split; [reflexivity|]. split; [by destruct r|]. intros x. simpl.
    pose proof (bo_read _ _ Hbios (calls r) n _ _ _ (at_seg es bx) (mem r) x Hs) as Hf. rewrite E in Hf. by apply Hf.
Qed.

(** [p] sectors are loaded: everything from the second sector of the disk on. *)
Record loaded (m0 : Z -> Z) (p es bx : Z) (r : real) : Prop := {
  ld_range : in_range r;
  ld_here : here r = p + 1;
  ld_seg : es = SYSSEG + 0x1000 * (p / 128);
  ld_off : bx = 512 * (p mod 128);
  ld_mem : forall x, ~ variable x ->
    mem r x = if (0x10000 <=? x) && (x <? 0x10000 + 512 * p) then disk (512 + (x - 0x10000)) else m0 x;
  ld_polls : polls r = 0%nat;
  ld_ports : ports r = [];
}.

Lemma how_many_fits bx p r : in_range r -> 0 <= p -> bx = 512 * (p mod 128) ->
  how_many sread bx r = Z.min (sectors - sread_of r) (128 - p mod 128).
Proof.
  intros (Hs & _) Hp ->. unfold how_many. set (q := p mod 128). assert (0 <= q < 128) by (apply Z.mod_pos_bound; lia).
  unfold sectors in *. rewrite !u16_small by (rewrite ?u16_small; lia).
  destruct (Z.ltb_spec ((18 - sread_of r) * 512 + 512 * q) 65536); cbn [orb]; [lia|].
  destruct (Z.eqb_spec (u16 ((18 - sread_of r) * 512 + 512 * q)) 0) as [E|E]; unfold u16 in *.
  - replace ((18 - sread_of r) * 512 + 512 * q) with (((18 - sread_of r) * 512 + 512 * q - 65536) + 1 * 65536) in E by lia.
    rewrite Z.mod_add, Z.mod_small in E by lia. lia.
  - replace (- (512 * q)) with (65536 - 512 * q + (-1) * 65536) by lia. rewrite Z.mod_add, Z.mod_small by lia.
    replace (65536 - 512 * q) with ((128 - q) * 512) by lia. rewrite Z.div_mul by lia.
    assert ((18 - sread_of r) * 512 + 512 * q <> 65536); [|lia]. intros E'. rewrite E' in E. done.
Qed.

(** What the three stores of [advance] do to the variables. *)
Lemma store_vars a v r : sread_of (store a v r) = le16 (put16 (mem r) a v) (sread_at sread) /\
  head_of (store a v r) = le16 (put16 (mem r) a v) (head_at sread) /\
  track_of (store a v r) = le16 (put16 (mem r) a v) (track_at sread).
Proof. done. Qed.
Ltac var_read := repeat (rewrite le16_put16 || rewrite le16_put16_ne by (unfold track_at, head_at, sread_at; lia)).
Lemma stored_sread v r : let r' := store (sread_at sread) v r in
  sread_of r' = u16 v /\ head_of r' = head_of r /\ track_of r' = track_of r.
Proof. unfold store, r_sread, r_head, r_track. simpl. var_read. done. Qed.
Lemma stored_head v r : let r' := store (head_at sread) v r in
  sread_of r' = sread_of r /\ head_of r' = u16 v /\ track_of r' = track_of r.
Proof. unfold store, r_sread, r_head, r_track. simpl. var_read. done. Qed.
Lemma stored_track v r : let r' := store (track_at sread) v r in
  sread_of r' = sread_of r /\ head_of r' = head_of r /\ track_of r' = u16 v.
Proof. unfold store, r_sread, r_head, r_track. simpl. var_read. done. Qed.

Lemma advance_frame n r : (forall x, ~ variable x -> mem (advance sread n r) x = mem r x) /\
  polls (advance sread n r) = polls r /\ ports (advance sread n r) = ports r.
Proof.
  unfold advance, store, variable, track_at, head_at, sread_at.
  split; [intros x Hx|]; repeat case_match; simpl; rewrite ?put16_ne by lia; done.
Qed.

Lemma advance_run n r : in_range r -> 1 <= n -> n + sread_of r <= sectors -> here r + n < 80 * 36 ->
  in_range (advance sread n r) /\ here (advance sread n r) = here r + n.
Proof.
  unfold in_range, here, sector_nr, sectors. intros (Hs & Hh & Ht) Hn Hle Hmax. unfold advance.
  rewrite (u16_small (n + sread_of r)) by lia. unfold sectors.
  destruct (Z.eqb_spec (n + sread_of r) 18) as [E|E].
  - rewrite (u16_small (1 - head_of r)) by lia. destruct (Z.eqb_spec (1 - head_of r) 0) as [E'|E'].
    + set (r1 := store (track_at sread) _ r). set (r2 := store (head_at sread) _ r1).
      destruct (stored_sread 0 r2) as (-> & -> & ->). unfold r2. destruct (stored_head (1 - head_of r) r1) as (_ & -> & ->).
      unfold r1. destruct (stored_track (u16 (track_of r + 1)) r) as (_ & _ & ->). rewrite !u16_small by (rewrite ?u16_small; lia). lia.
    + set (r2 := store (head_at sread) _ r).
      destruct (stored_sread 0 r2) as (-> & -> & ->). unfold r2. destruct (stored_head (1 - head_of r) r) as (_ & -> & ->).
      rewrite !u16_small by lia. lia.
  - destruct (stored_sread (n + sread_of r) r) as (-> & -> & ->). rewrite u16_small by lia. lia.
Qed.

(** How many 64 KB segments the kernel takes. *)
Definition segments : Z := (SYSSIZE + 4095) / 4096.

Lemma round_run m0 p es bx r : loaded m0 p es bx r -> 0 <= p < 1024 ->
  let n := how_many sread bx r in let bx' := bx + u16 (n * 512) in
  1 <= n /\ p + n <= 128 * (p / 128 + 1) /\
  exists r', read_track sread patience n es bx r = Some r' /\
    if bx' <? 65536 then loaded m0 (p + n) es bx' (advance sread n r')
    else loaded m0 (p + n) (u16 (es + 0x1000)) 0 (advance sread n r').
Proof.
  intros [L1 L2 L3 L4 L5 L6 L7] Hp n bx'. assert (Hn : n = Z.min (sectors - sread_of r) (128 - p mod 128)).
  { by apply how_many_fits; [|lia|]. }
  assert (Hq : 0 <= p mod 128 < 128) by (apply Z.mod_pos_bound; lia). pose proof L1 as (Hs & Hh & Ht).
  unfold sectors in *. assert (Hn1 : 1 <= n /\ n <= 18 - sread_of r /\ n <= 128 - p mod 128) by lia. clearbody n. clear Hn.
  assert (Ha : at_seg es bx = 0x10000 + 512 * p) by (unfold at_seg, SYSSEG in *; dlia).
  split; [lia|]. split; [dlia|].
  destruct (bo_patient _ _ Hbios (calls r)) as (d & Hd & Hok).
  destruct (read_track_run patience d n es bx r Hd L1) as (r' & Hrun & Heq & Hm); [rewrite Ha; dlia| |exact Hok|].
  { unfold sound, sectors. rewrite Ha. repeat split; try lia. dlia. }
  exists r'. split; [exact Hrun|].
  assert (Hend : 512 * p + 512 * n <= 0x80000) by dlia.
  destruct (vars_same r r') as (V1 & V2 & V3).
  { unfold variable, at_seg at 1, INITSEG at 1. intros x Hx. rewrite Hm, Ha, (proj2 (Z.ltb_ge _ _)) by lia. by rewrite andb_false_r. }
  assert (L1' : in_range r') by (unfold in_range; rewrite V1, V2, V3; exact L1).
  assert (Hh' : here r' = p + 1) by (unfold here in *; congruence).
  destruct (advance_run n r' L1') as (A1 & A2); [lia|unfold sectors; lia|lia|].
  destruct (advance_frame n r') as (A3 & A4 & A5).
  assert (Hmem : forall x, ~ variable x -> mem (advance sread n r') x =
    if (0x10000 <=? x) && (x <? 0x10000 + 512 * (p + n)) then disk (512 + (x - 0x10000)) else m0 x).
  { intros x Hx. rewrite A3, Hm, L2, Ha, L5 by done.
    destruct (Z.leb_spec 0x10000 x), (Z.ltb_spec x (0x10000 + 512 * (p + n))), (Z.leb_spec (0x10000 + 512 * p) x),
      (Z.ltb_spec x (0x10000 + 512 * p + 512 * n)), (Z.ltb_spec x (0x10000 + 512 * p)); try lia; cbn [andb]; try done.
    f_equal. lia. }
  assert (Hpp : polls (advance sread n r') = 0%nat /\ ports (advance sread n r') = []).
  { rewrite A4, A5, Heq. done. }
  unfold bx' in *. rewrite u16_small by lia. destruct Hpp.
  destruct (Z.ltb_spec (bx + n * 512) 65536); split; try done; try lia; try (unfold SYSSEG in *; dlia).
  rewrite u16_small by (unfold SYSSEG in *; dlia). unfold SYSSEG in *. dlia.
Qed.

Lemma rp_read_run m0 rounds p es bx r : 0 <= SYSSIZE <= 0x8000 ->
  loaded m0 p es bx r -> 0 <= p <= 128 * segments -> 1024 - p < Z.of_nat rounds ->
  exists r' es' bx', rp_read sread SYSSIZE patience rounds es bx r = Some r' /\ loaded m0 (128 * segments) es' bx' r'.
Proof.
  intros Hsize. unfold segments. set (k := (SYSSIZE + 4095) / 4096) in *.
  assert (Hk : 4096 * (k - 1) < SYSSIZE <= 4096 * k) by (unfold k; dlia).
  revert p es bx r. induction rounds as [|rounds IH]; intros p es bx r HL Hp Hr; [lia|].
  cbn [rp_read]. pose proof (ld_seg _ _ _ _ _ HL) as Hes. unfold ENDSEG.
  destruct (Z.leb_spec (SYSSEG + SYSSIZE) es) as [Hle|Hlt].
  - exists r, es, bx. split; [done|]. replace (128 * k) with p; [done|]. unfold SYSSEG in *. dlia.
  - assert (Hp1 : p / 128 < k) by (unfold SYSSEG in *; lia).
    destruct (round_run m0 p es bx r HL) as (Hn & Hpn & r' & Hrun & HL'); [dlia|].
    rewrite Hrun. destruct (_ <? 65536); (eapply IH; [exact HL'|lia|lia]).
Qed.

Lemma do_move_run n j r : 0 <= j -> j + Z.of_nat n = 8 -> exists m, do_move (S n) (0x1000 * j) r = r <| mem := m |> /\
  forall x, m x = if (0x10000 * j <=? x) && (x <? 0x80000) then mem r (x + 0x10000) else mem r x.
Proof.
  revert j r. induction n as [|n IH]; intros j r Hj Hn.
  - replace j with 8 by lia. exists (mem r). split; [by destruct r|]. intros x.
    destruct (Z.leb_spec (0x10000 * 8) x), (Z.ltb_spec x 0x80000); cbn [andb]; try done. lia.
  - cbn [do_move]. rewrite u16_small by lia. rewrite (proj2 (Z.eqb_neq _ _)) by lia.
    replace (0x1000 * j + 0x1000) with (0x1000 * (j + 1)) by lia.
    destruct (IH (j + 1) (r <| mem ::= copy_bytes (at_seg (0x1000 * (j + 1)) 0) (at_seg (0x1000 * j) 0) 0x10000 |>))
      as (m & Hm & Hx); [lia|lia|].
    exists m. split; [exact Hm|]. intros x. rewrite Hx. simpl. unfold copy_bytes, at_seg.
    destruct (Z.leb_spec (0x10000 * (j + 1)) x), (Z.ltb_spec x 0x80000), (Z.leb_spec (0x10000 * j) x); cbn [andb]; try lia.
    all: repeat (match goal with |- context [Z.leb ?a ?b] => destruct (Z.leb_spec a b)
                            | |- context [Z.ltb ?a ?b] => destruct (Z.ltb_spec a b) end; cbn [andb]); try lia; f_equal; lia.
Qed.

Lemma empty_8042_run fuel d r : (d < fuel)%nat -> hasbit (status_8042 (polls r + d)) 2 = false ->
  exists k, empty_8042 fuel r = Some (r <| polls := k |>).
Proof.
  revert d r. induction fuel as [|fuel IH]; intros d r Hd Hok; [lia|]. cbn [empty_8042].
  destruct (hasbit (status_8042 (polls r)) 2) eqn:E; [|by eexists].
  destruct d as [|d]; [by rewrite Nat.add_0_r, E in Hok|].
  destruct (IH d (r <| polls ::= S |>)) as (k & Hk); [lia|simpl; by rewrite <- Nat.add_succ_r|].
  exists k. rewrite Hk. done.
Qed.
Lemma empty_ok r : exists k, empty_8042 patience r = Some (r <| polls := k |>).
Proof. destruct (bo_8042 _ _ Hbios (polls r)) as (d & Hd & Hok). by apply (empty_8042_run patience d). Qed.

Lemma enable_a20_run r : exists k,
  enable_a20 patience r = Some (r <| polls := k |> <| ports ::= fun l => l ++ [(0x64, 0xD1); (0x60, 0xDF)] |>).
Proof.
  unfold enable_a20. destruct (empty_ok r) as (k & ->). cbn [mbind option_bind].
  destruct (empty_ok (out 0xD1 0x64 (r <| polls := k |>))) as (k' & ->). cbn [mbind option_bind].
  match goal with |- context [empty_8042 patience ?u] => destruct (empty_ok u) as (k'' & ->) end.
  exists k''. f_equal. unfold out, set_field. simpl. by rewrite <- app_assoc.
Qed.

(** The state in which the boot sector is loaded: its variables say that one sector
    of the disk was read. *)
Record fresh (r : real) : Prop := {
  fr_sread : le16 (mem r) (at_seg BOOTSEG sread) = 1;
  fr_head : le16 (mem r) (at_seg BOOTSEG sread + 2) = 0;
  fr_track : le16 (mem r) (at_seg BOOTSEG sread + 4) = 0;
  fr_polls : polls r = 0%nat;
  fr_ports : ports r = [];
}.
(** It has moved. *)
Definition moved (r : real) : real := r <| mem ::= copy_bytes (at_seg BOOTSEG 0) (at_seg INITSEG 0) 512 |>.

Lemma moved_mem r x : 0 <= x < 512 -> mem (moved r) (at_seg INITSEG x) = mem r (at_seg BOOTSEG x).
Proof.
  intros Hx. unfold moved, copy_bytes, at_seg, INITSEG, BOOTSEG. simpl mem.
  rewrite (proj2 (Z.leb_le _ _)), (proj2 (Z.ltb_lt _ _)) by lia. cbn [andb]. f_equal. lia.
Qed.
Lemma moved_vars r : fresh r -> sread_of (moved r) = 1 /\ head_of (moved r) = 0 /\ track_of (moved r) = 0.
Proof.
  intros [F1 F2 F3 _ _]. unfold r_sread, r_head, r_track, le16, track_at, head_at, sread_at.
  assert (E : forall k, 0 <= k < 6 -> mem (moved r) (at_seg INITSEG sread + k) = mem r (at_seg BOOTSEG sread + k)).
  { intros k Hk. pose proof (moved_mem r (sread + k) ltac:(lia)) as E. unfold at_seg in *. by rewrite !Z.add_assoc in E. }
  unfold le16 in *. pose proof (E 0) as E0. rewrite !Z.add_0_r in E0. rewrite <- !Z.add_assoc in *. rewrite E0, !E by lia. done.
Qed.

Lemma read_it_run r : 0 <= SYSSIZE <= 0x8000 -> fresh r ->
  exists r', read_it sread SYSSIZE patience SYSSEG (moved r) = Some r' /\
  (forall x, ~ variable x -> mem r' x =
     if (0x10000 <=? x) && (x <? 0x10000 * (1 + segments)) then disk (512 + (x - 0x10000)) else mem (moved r) x) /\
  polls r' = 0%nat /\ ports r' = [].
Proof.
  intros Hs Hf. destruct (moved_vars r Hf) as (F1 & F2 & F3). destruct Hf as [_ _ _ F4 F5].
  assert (Hk : 0 <= segments <= 8) by (unfold segments; dlia).
  destruct (rp_read_run (mem (moved r)) 1025 0 SYSSEG 0 (moved r) Hs) as (r' & es' & bx' & Hr & HL); [|lia|lia|].
  { split; try done.
    - unfold in_range, sectors. rewrite F1, F2, F3. lia.
    - unfold here, sector_nr. rewrite F1, F2, F3. done.
    - intros x _. destruct (Z.leb_spec 0x10000 x), (Z.ltb_spec x (0x10000 + 512 * 0)); cbn [andb]; try done. lia. }
  exists r'. split; [exact Hr|]. destruct HL as [_ _ _ _ Hm Hp1 Hp2]. split; [|done].
  intros x Hx. rewrite Hm by done. by replace (0x10000 + 512 * (128 * segments)) with (0x10000 * (1 + segments)) by lia.
Qed.
End loads.

(** The run of the boot sector. *)
Theorem boot_loads_kernel `{Bios} (disk : Z -> Z) sread SYSSIZE patience r :
  bios_ok disk patience -> 0 <= sread -> sread + 6 <= 510 -> 0 <= SYSSIZE <= 0x8000 -> fresh sread r ->
  exists r', start sread SYSSIZE patience r = Some r' /\
    (forall x, 0 <= x < 16 * SYSSIZE -> mem r' x = disk (512 + x)) /\
    (forall x, 0 <= x < 510 -> ~ sread <= x < sread + 6 -> mem r' (at_seg INITSEG x) = mem r (at_seg BOOTSEG x)) /\
    mem r' (at_seg INITSEG 510) + 256 * mem r' (at_seg INITSEG 511) = u16 cursor /\
    ports r' = [(0x3f2, 0); (0x64, 0xD1); (0x60, 0xDF); (0x20, 0x11); (0xA0, 0x11); (0x21, 0x20); (0xA1, 0x28);
      (0x21, 0x04); (0xA1, 0x02); (0x21, 0x01); (0xA1, 0x01); (0x21, 0xFF); (0xA1, 0xFF)].
Proof.
  intros Hb Hlo Hhi Hs Hf. assert (Hk : 0 <= segments SYSSIZE <= 8 /\ 16 * SYSSIZE <= 0x10000 * segments SYSSIZE) by (unfold segments; dlia).
  unfold start. fold (moved r).
  destruct (read_it_run disk sread SYSSIZE patience Hb (conj Hlo Hhi) r Hs Hf) as (r2 & Hr2 & Hm2 & _ & Hp2).
  rewrite Hr2. cbn [mbind option_bind]. unfold variable, at_seg, INITSEG in Hm2.
  set (r3 := store (at_seg INITSEG 510) cursor (kill_motor r2)).
  destruct (do_move_run 8 0 r3) as (m4 & Hm4 & Hx4); [lia|lia|]. rewrite Z.mul_0_r in Hm4, Hx4. rewrite Hm4.
  destruct (enable_a20_run disk patience Hb (r3 <| mem := m4 |>)) as (k & Hk5). rewrite Hk5. cbn [mbind option_bind].
  eexists. split; [reflexivity|]. unfold init_8259, out.
  assert (E3 : forall x, 0 <= x < 16 * 0x9000 + 510 -> mem r3 x = mem r2 x).
  { intros x Hx. unfold r3, store, kill_motor, out. simpl mem. apply put16_ne. unfold at_seg, INITSEG. lia. }
  assert (E4 : forall x, 0x80000 <= x -> m4 x = mem r3 x).
  { intros x Hx. rewrite Hx4, (proj2 (Z.ltb_ge x 0x80000)) by lia. by rewrite andb_false_r. }
  split; [|split; [|split]]; simpl mem.
  - intros x Hx. rewrite Hx4, (proj2 (Z.leb_le _ _)), (proj2 (Z.ltb_lt _ _)) by lia. cbn [andb].
    rewrite E3, Hm2, (proj2 (Z.leb_le _ _)), (proj2 (Z.ltb_lt _ _)) by lia. cbn [andb]. f_equal. lia.
  - intros x Hx Hv. rewrite E4, E3, Hm2, (proj2 (Z.ltb_ge _ _)) by (unfold at_seg, INITSEG; lia). rewrite andb_false_r.
    apply moved_mem. lia.
  - rewrite !E4 by (unfold at_seg, INITSEG; lia). unfold r3, store. simpl mem. unfold put16, at_seg, INITSEG.
    rewrite arr_ne, arr_eq by lia. change (16 * 0x9000 + 510 + 1) with (16 * 0x9000 + 511). rewrite arr_eq.
    unfold u8, u16. dlia.
  - unfold r3, store, kill_motor, out. simpl. by rewrite Hp2.
Qed.

(** A machine that always works, with this disk. *)
Definition sound_bios (disk : Z -> Z) : Bios := {|
  int13 := fun _ n c s h a m =>
    (false, fun x => if (a <=? x) && (x <? a + 512 * n) then disk (512 * sector_nr c h s + (x - a)) else m x);
  status_8042 := fun _ => 0;
  cursor := 0x0501;
|}.
Lemma sound_bios_ok disk : bios_ok (H := sound_bios disk) disk 1.
Proof.
  split.
  - reflexivity.
  - intros k n c h s a m x _ Hx. cbn [int13 sound_bios snd]. destruct (Z.leb_spec a x), (Z.ltb_spec x (a + 512 * n)); cbn [andb]; try done; lia.
  - intros k. exists 0%nat. split; [lia|done].
  - intros k. exists 0%nat. split; [lia|done].
Qed.

(** A boot sector with its variables from offset 100 on. *)
Definition loaded_at_100 : real := mk_real (fun x => if x =? at_seg BOOTSEG 100 then 1 else 0) 0 0 [].

Lemma boot_loads_kernel_witness : exists r', start (H := sound_bios (fun x => x)) 100 0x2001 1 loaded_at_100 = Some r' /\
  (forall x, 0 <= x < 16 * 0x2001 -> mem r' x = 512 + x).
Proof.
  destruct (boot_loads_kernel (H := sound_bios (fun x => x)) (fun x => x) 100 0x2001 1 loaded_at_100)
    as (r' & Hr & Hx & _).
  - exact (sound_bios_ok _).
  - lia.
  - lia.
  - lia.
  - split; reflexivity.
  - exists r'. split; [exact Hr|exact Hx].
Defined.
