(* ===== verification/Build.v ===== *)
(** The program that joins the boot sector and the kernel into the image of a disk,
    tools/build.c, and what becomes of the image: the loader of Boot.v puts the kernel
    it holds at address 0. *)
From S2P Require Export Boot.
#[local] Open Scope bool_scope.

(** tools/build.c:8 *)
Definition MINIX_HEADER : Z := 32.

(** A run of the program: its result, or the message it has ended with; what it had
    written by then is not kept. *)
Definition run (A : Type) : Type := string + A.
#[export] Instance run_bind : MBind run := fun A B f m => match m with inl e => inl e | inr x => f x end.
(** tools/build.c:11-15 *)
Definition die {A} (str : string) : run A := inl str.
Definition orelse (b : bool) (str : string) : run unit := if b then inr tt else die str.
(** The bytes of a buffer in memory, and a word of it. *)
Definition buffer (l : list Z) : Z -> Z := fun i => if i <? 0 then 0 else nth (Z.to_nat i) l 0.
Definition bytes_of (buf : Z -> Z) (n : nat) : list Z := map (fun i => buf (Z.of_nat i)) (seq 0 n).
(** [read] of the next bytes of a file into the buffer, and [memset]. *)
Definition read_into (l : list Z) (buf : Z -> Z) : Z -> Z :=
  fun i => if (0 <=? i) && (i <? Z.of_nat (length l)) then buffer l i else buf i.

(** The output takes [room] bytes more. *)
Definition write_out (room : Z) (out l : list Z) : run (list Z) :=
  if Z.of_nat (length out) + Z.of_nat (length l) <=? room then inr (out ++ l) else die "Write call failed".

(** tools/build.c:34-45: the header of the boot sector's file. *)
Definition check_header (buf : Z -> Z) : run unit :=
  let long i := le32 buf (4 * i) in
  orelse (long 0 =? 0x04100301) "Non-Minix header of 'boot'";;
  orelse (long 1 =? MINIX_HEADER) "Non-Minix header of 'boot'";;
  orelse (long 3 =? 0) "Illegal data segment in 'boot'";;
  orelse (long 4 =? 0) "Illegal bss in 'boot'";;
  orelse (long 5 =? 0) "Non-Minix header of 'boot'";;
  orelse (long 7 =? 0) "Illegal symbol table in 'boot'".

(** tools/build.c:63-65: the kernel, in pieces of 1024 bytes. *)
Fixpoint copy_system (fuel : nat) (room : Z) (out l : list Z) : run (list Z) :=
  match fuel with
  | O => inr out
  | S fuel =>
      match take 1024 l with
      | [] => inr out
      | piece =>
          out ← write_out room out piece;
          copy_system fuel room out (drop 1024 l)
      end
  end.

(** tools/build.c:22-76, with the contents of its two files; a file that cannot be
    opened is [None].  Its usage message and the closing of the files are left out. *)
Definition main (room : Z) (boot system : option (list Z)) : run (list Z) :=
  match boot with
  | None => die "Unable to open 'boot'"
  | Some boot =>
      let header := take (Z.to_nat MINIX_HEADER) boot in
      orelse (Z.of_nat (length header) =? MINIX_HEADER) "Unable to read header of 'boot'";;
      let buf := read_into header (fun _ => 0) in
      check_header buf;;
      let code := take 1024 (drop (Z.to_nat MINIX_HEADER) boot) in
      orelse (negb (Z.of_nat (length code) >? 510)) "Boot block may not exceed 510 bytes";;
      let buf := read_into code buf in
      let buf := <[511 := 0xAA]> (<[510 := 0x55]> buf) in
      out ← write_out room [] (bytes_of buf 512);
      match system with
      | None => die "Unable to open 'system'"
      | Some system => copy_system (S (length system)) room out system
      end
  end.

(** ** The image *)

Lemma copy_system_run fuel room out l : (length l < fuel)%nat ->
  copy_system fuel room out l =
    if decide (Z.of_nat (length out) + Z.of_nat (length l) <= room \/ l = []) then inr (out ++ l)
    else die "Write call failed".
Proof.
  revert out l. induction fuel as [|fuel IH]; intros out l Hf; [lia|]. cbn [copy_system].
  destruct (take 1024 l) as [|x p] eqn:Ht.
  - destruct l; [|done]. rewrite decide_True by auto. by rewrite app_nil_r.
  - assert (Hl : l <> []) by (intros ->; done). rewrite <- Ht. unfold write_out.
    assert (Hlen : length l = (length (take 1024 l) + length (drop 1024 l))%nat) by (by rewrite <- length_app, take_drop).
    assert (length (take 1024 l) <> 0%nat) by (rewrite Ht; done).
    destruct (Z.leb_spec (Z.of_nat (length out) + Z.of_nat (length (take 1024 l))) room) as [Hle|Hgt].
    + cbn [mbind run_bind]. rewrite IH by lia. rewrite length_app.
      destruct (decide (Z.of_nat (length out) + Z.of_nat (length l) <= room \/ l = [])) as [[Ho|]|Ho]; [|done|].
      * rewrite decide_True by lia. by rewrite <- app_assoc, take_drop.
      * rewrite decide_False; [done|]. intros [?|Hd]; [lia|]. rewrite Hd in Hlen. simpl in Hlen. lia.
    + rewrite decide_False; [done|]. intros [?|?]; [lia|done].
Qed.

(** The file of the boot sector: the header and at most 510 bytes of code. *)
Record boot_file (boot code : list Z) : Prop := {
  bf_header : check_header (read_into (take 32 boot) (fun _ => 0)) = inr tt;
  bf_code : exists h, boot = h ++ code /\ length h = 32%nat;
  bf_size : (length code <= 510)%nat;
}.

Lemma bytes_of_nth buf n i : 0 <= i < Z.of_nat n -> nth (Z.to_nat i) (bytes_of buf n) 0 = buf i.
Proof.
  intros Hi. unfold bytes_of. rewrite (nth_indep _ 0 (buf (Z.of_nat 0))) by (rewrite length_map, length_seq; lia).
  rewrite (map_nth (fun i => buf (Z.of_nat i))), seq_nth by lia. f_equal. lia.
Qed.

(** What is written: a sector that begins with the code and ends with the mark the BIOS
    looks for, and the kernel after it. *)
Lemma main_image room boot code system : boot_file boot code ->
  512 + Z.of_nat (length system) <= room ->
  exists sector, main room (Some boot) (Some system) = inr (sector ++ system) /\ length sector = 512%nat /\
    (forall i, (i < length code)%nat -> nth i sector 0 = nth i code 0) /\
    nth 510 sector 0 = 0x55 /\ nth 511 sector 0 = 0xAA.
Proof.
  intros [Hh (h & -> & Hlen) Hs] Hroom. unfold main. change (Z.to_nat MINIX_HEADER) with 32%nat.
  assert (Ht : take 32 (h ++ code) = h) by (by rewrite take_app_length').
  assert (Hd : drop 32 (h ++ code) = code) by (by rewrite drop_app_length').
  rewrite Ht in *. rewrite Hd, Hlen, Hh. unfold mbind, run_bind. cbn [orelse]. change (Z.of_nat 32 =? MINIX_HEADER) with true. cbn [orelse].
  rewrite take_ge by lia.
  assert (Hgt : (Z.of_nat (length code) >? 510) = false) by (rewrite Z.gtb_ltb; apply Z.ltb_ge; lia).
  rewrite Hgt. cbn [negb orelse]. set (buf := <[511 := _]> _).
  assert (Hl : length (bytes_of buf 512) = 512%nat) by (unfold bytes_of; by rewrite length_map, length_seq).
  exists (bytes_of buf 512). unfold write_out at 1. rewrite Hl.
  rewrite (proj2 (Z.leb_le _ _)) by (simpl; lia). rewrite copy_system_run by lia. rewrite decide_True by (left; simpl app; lia).
  split; [done|]. split; [done|]. split; [|split].
  - intros i Hi. rewrite <- (Nat2Z.id i), bytes_of_nth by lia. unfold buf. rewrite !arr_ne by lia.
    unfold read_into. rewrite (proj2 (Z.leb_le 0 _)), (proj2 (Z.ltb_lt _ _)) by lia. cbn [andb].
    unfold buffer. by rewrite (proj2 (Z.ltb_ge _ _)) by lia.
  - change 510%nat with (Z.to_nat 510). rewrite bytes_of_nth by lia. unfold buf. by rewrite arr_ne, arr_eq by lia.
  - change 511%nat with (Z.to_nat 511). rewrite bytes_of_nth by lia. unfold buf. by rewrite arr_eq.
Qed.

Lemma orelse_ok {A} b str (k : unit -> run A) x : (orelse b str ≫= k) = inr x -> b = true /\ k tt = inr x.
Proof. destruct b; [done|discriminate]. Qed.

(** An image comes only from a file that is a boot sector. *)
Lemma main_boot_file room boot system image : main room (Some boot) system = inr image ->
  boot_file boot (drop 32 boot).
Proof.
  unfold main. change (Z.to_nat MINIX_HEADER) with 32%nat. intros H.
  apply orelse_ok in H as [H1 H]. apply Z.eqb_eq in H1. unfold MINIX_HEADER in H1. cbv zeta in H.
  destruct (check_header _) as [e|[]] eqn:Hh; [discriminate|]. cbn [mbind run_bind] in H.
  apply orelse_ok in H as [H2 _]. apply negb_true_iff in H2. rewrite Z.gtb_ltb in H2. apply Z.ltb_ge in H2.
  rewrite length_take in H1, H2. rewrite length_drop in H2. split; [exact Hh| |].
  - exists (take 32 boot). rewrite take_drop, length_take. split; [done|lia].
  - rewrite length_drop. lia.
Qed.

(** The disk holds the image. *)
Definition holds (disk : Z -> Z) (image : list Z) : Prop :=
  forall i, (i < length image)%nat -> disk (Z.of_nat i) = nth i image 0.

(** The loader's variables in the code of the boot sector, boot/boot.s:260-262. *)
Definition has_variables (code : list Z) (sread : Z) : Prop :=
  0 <= sread /\ take 6 (drop (Z.to_nat sread) code) = [1; 0; 0; 0; 0; 0].
(** The BIOS has loaded the first sector of the image and started it. *)
Record started (image : list Z) (r : real) : Prop := {
  st_mem : forall i, (i < 512)%nat -> mem r (at_seg BOOTSEG (Z.of_nat i)) = nth i image 0;
  st_polls : polls r = 0%nat;
  st_ports : ports r = [];
}.

Lemma variables_nth code sread : has_variables code sread ->
  sread + 6 <= Z.of_nat (length code) /\
  forall k, (k < 6)%nat -> nth (Z.to_nat sread + k) code 0 = nth k [1; 0; 0; 0; 0; 0] 0.
Proof.
  intros [Hp Ht]. assert (Hl := f_equal length Ht). rewrite length_take, length_drop in Hl. simpl length in Hl.
  split; [lia|]. intros k Hk. rewrite <- Ht.
  rewrite nth_firstn, nth_skipn. by rewrite (proj2 (Nat.ltb_lt k 6)).
Qed.

Lemma started_fresh image code sread r : started image r -> has_variables code sread -> (length code <= 510)%nat ->
  (forall i, (i < length code)%nat -> nth i image 0 = nth i code 0) -> fresh sread r.
Proof.
  intros [Hm Hp Hq] Hv Hl Hc. destruct (variables_nth _ _ Hv) as [Hle Hn]. destruct Hv as [Hpos _].
  assert (E : forall k, (k < 6)%nat -> mem r (at_seg BOOTSEG sread + Z.of_nat k) = nth k [1; 0; 0; 0; 0; 0] 0).
  { intros k Hk. rewrite <- Hn, <- Hc, <- Hm by lia. f_equal. unfold at_seg. lia. }
  assert (L : forall k, (k < 5)%nat -> le16 (mem r) (at_seg BOOTSEG sread + Z.of_nat k) =
    nth k [1; 0; 0; 0; 0; 0] 0 + 256 * nth (S k) [1; 0; 0; 0; 0; 0] 0).
  { intros k Hk. unfold le16. replace (_ + _ + 1) with (at_seg BOOTSEG sread + Z.of_nat (S k)) by lia. by rewrite !E by lia. }
  split; try done; [|apply (L 2%nat)|apply (L 4%nat)]; try lia.
  pose proof (L 0%nat ltac:(lia)) as L0. by rewrite Z.add_0_r in L0.
Qed.

(** C39: From the build to the start: the image that tools/build.c makes of a
    boot sector and a kernel begins with the boot sector's code and carries the
    mark of one; and when the kernel has at most the SYSSIZE * 16 <= 512 KB that
    the loader reads, and a disk holds the image, the boot sector - which keeps
    its three variables in its own copy, retries reads that fail and never
    crosses the end of a track or a 64 KB boundary - ends with the whole kernel
    at address 0, its own copy unchanged but for those variables (the saved
    cursor goes behind its code), the motor off, address line 20 on and the
    interrupt controllers programmed. *)
Theorem built_image_boots `{Bios} room boot code sread system disk SYSSIZE patience r :
  boot_file boot code -> has_variables code sread -> 512 + Z.of_nat (length system) <= room ->
  Z.of_nat (length system) <= 16 * SYSSIZE -> SYSSIZE <= 0x8000 -> bios_ok disk patience ->
  exists image, main room (Some boot) (Some system) = inr image /\
    (forall i, (i < length code)%nat -> nth i image 0 = nth i code 0) /\
    nth 510 image 0 = 0x55 /\ nth 511 image 0 = 0xAA /\
    (holds disk image -> started image r ->
     exists r', start sread SYSSIZE patience r = Some r' /\
       (forall i, (i < length system)%nat -> mem r' (Z.of_nat i) = nth i system 0) /\
       (forall i, (i < length code)%nat -> ~ sread <= Z.of_nat i < sread + 6 ->
          mem r' (at_seg INITSEG (Z.of_nat i)) = nth i code 0) /\
       ports r' = [(0x3f2, 0); (0x64, 0xD1); (0x60, 0xDF); (0x20, 0x11); (0xA0, 0x11); (0x21, 0x20); (0xA1, 0x28);
         (0x21, 0x04); (0xA1, 0x02); (0x21, 0x01); (0xA1, 0x01); (0x21, 0xFF); (0xA1, 0xFF)]).
Proof.
  intros Hboot Hv Hroom Hsize Hmax Hbios.
  destruct (main_image room boot code system Hboot Hroom) as (sector & Hm & Hl & Hc & H510 & H511).
  exists (sector ++ system). split; [exact Hm|]. destruct Hboot as [_ _ Hlen].
  assert (Hc' : forall i, (i < length code)%nat -> nth i (sector ++ system) 0 = nth i code 0).
  { intros i Hi. rewrite app_nth1 by lia. by apply Hc. }
  split; [exact Hc'|]. rewrite !app_nth1 by lia. split; [done|]. split; [done|].
  intros Hd Hst. pose proof (started_fresh _ _ _ _ Hst Hv Hlen Hc') as Hf.
  destruct (variables_nth _ _ Hv) as [Hle _]. destruct Hv as [Hpos _].
  destruct (boot_loads_kernel disk sread SYSSIZE patience r Hbios Hpos ltac:(lia) ltac:(lia) Hf) as (r' & Hr & Hk & Hi & _ & Hp).
  exists r'. split; [exact Hr|]. split; [|split; [|exact Hp]].
  - intros i Hi'. rewrite Hk by lia.
    replace (512 + Z.of_nat i) with (Z.of_nat (512 + i)) by lia. rewrite Hd by (rewrite length_app; lia).
    rewrite app_nth2 by lia. f_equal. lia.
  - intros i Hi' Hout. rewrite Hi by lia. rewrite (st_mem _ _ Hst) by lia. by apply Hc'.
Qed.

(** A boot sector of eight bytes, a kernel of three. *)
Definition small_code : list Z := [0xEB; 0xFE; 1; 0; 0; 0; 0; 0].
Definition small_boot : list Z :=
  [1; 3; 0x10; 4; 32; 0; 0; 0; 8; 0; 0; 0] ++ replicate 20 0 ++ small_code.
Lemma small_boot_file : boot_file small_boot small_code.
Proof.
  split; [vm_compute; reflexivity| |simpl; lia].
  exists ([1; 3; 0x10; 4; 32; 0; 0; 0; 8; 0; 0; 0] ++ replicate 20 0). done.
Qed.

(** The image of these two, on a disk and in the machine that has started it. *)
Definition small_image : list Z :=
  match main 1000 (Some small_boot) (Some [7; 8; 9]) with inr image => image | inl _ => [] end.
Definition small_disk (i : Z) : Z := nth (Z.to_nat i) small_image 0.
Definition small_start : real := mk_real (fun x => small_disk (x - at_seg BOOTSEG 0)) 0 0 [].

Lemma built_image_boots_witness : exists r',
  start (H := sound_bios small_disk) 2 1 1 small_start = Some r' /\ mem r' 2 = 9.
Proof.
  destruct (built_image_boots (H := sound_bios small_disk) 1000 small_boot small_code 2 [7; 8; 9]
    small_disk 1 1 small_start) as (image & Hm & _ & _ & _ & Hb).
  - exact small_boot_file.
  - split; [lia|reflexivity].
  - simpl. lia.
  - simpl. lia.
  - lia.
  - exact (sound_bios_ok _).
  - assert (Hi : small_image = image) by (unfold small_image; rewrite Hm; reflexivity).
    destruct Hb as (r' & Hr & Hk & _).
    + intros i _. unfold small_disk. rewrite Hi, Nat2Z.id. reflexivity.
    + split; try reflexivity. intros i _. unfold small_start, small_disk. cbn [mem].
      replace (at_seg BOOTSEG (Z.of_nat i) - at_seg BOOTSEG 0) with (Z.of_nat i) by (unfold at_seg; lia).
      rewrite Hi, Nat2Z.id. reflexivity.
    + exists r'. split; [exact Hr|]. exact (Hk 2%nat ltac:(simpl; lia)).
Defined.
