(* ===== verification/Head.v ===== *)
(** The 32-bit start of the kernel, boot/head.s: the tables it builds, above all the
    page tables, and what the memory manager finds in them. *)
From S2P Require Export Entry Share.
#[local] Open Scope bool_scope.

(** boot/head.s:233-239: the segments of the kernel's code and data. *)
Definition head_gdt (i : Z) : Z * Z :=
  if i =? 1 then (0x000007ff, 0x00c09a00) else if i =? 2 then (0x000007ff, 0x00c09200) else (0, 0).
(** boot/head.s:102-104 *)
Definition setup_gdt : K unit := modify (fun s => s <| gdt := head_gdt |>).

(** boot/head.s:40-44: [a20] tells whether address line 20 is there; without it
    0x100000 is the same place as 0. *)
Definition a20_step (a20 : bool) (eax : Z) : K (Z + unit) :=
  let eax := u32 (eax + 1) in
  phys_put 0 eax;;
  x ← phys_get (if a20 then 0x100000 else 0);
  mret (if x =? eax then inl eax else inr tt).
Definition check_a20 `{Machine} (a20 : bool) : K unit := loop fuel (a20_step a20) 0.

(** boot/head.s:45-51: the control register after the check for a coprocessor. *)
Definition check_math (cr0 : Z) : Z :=
  let e := Z.land cr0 0x80000011 in
  if hasbit e 0x10 then e else Z.lor e 4.

(** boot/head.s:138-142 *)
Definition ignore_int : K unit :=
  modify (fun s => s <| phys ::= fun m => <[0xb8000 + 161 := 2]> (<[0xb8000 + 160 := u8 (m (0xb8000 + 160) + 1)]> m) |>).

(** boot/head.s:107-111: where the linker puts the first two page tables. *)
Definition pg0 : Z := 0x1000.
Definition pg1 : Z := 0x2000.

(** boot/head.s:200-203: one entry, from the last down; the sum is signed. *)
Definition fill_step (r : Z * Z) : K (Z * Z + unit) :=
  let (edi, eax) := r in
  phys_put edi eax;;
  let eax := s32 (eax - 0x1000) in
  mret (if eax >=? 0 then inl (edi - 4, eax) else inr tt).

(** boot/head.s:188-211; the pages of the first 8 MB take 2048 entries.  The
    processor's registers are set to use the tables from then on. *)
Definition setup_paging : K unit :=
  for_ 0 3072 (fun i => phys_put (4 * i) 0);;
  phys_put 0 (pg0 + 7);;
  phys_put 4 (pg1 + 7);;
  loop 2048 fill_step (pg1 + 4092, 0x7ff007).

(** boot/head.s:24-52, 120-128: the whole start; [main] does not return. *)
Definition startup_32 `{Machine} (a20 : bool) (x y : Z) : K unit :=
  setup_idt;;
  setup_gdt;;
  check_a20 a20;;
  setup_paging;;
  start_kernel x y.

(** ** The check for the address line *)

(** With the line, the second round at the latest sees two different words. *)
Lemma check_a20_on `{Machine} s : (2 <= fuel)%nat -> exists s', check_a20 true s = Ret tt s' /\
  s' = s <| phys := phys s' |> /\ forall a, 4 <= a -> phys s' a = phys s a.
Proof.
  intros Hf. unfold check_a20. destruct fuel as [|[|n]]; try lia.
  set (x := le32 (phys s) 0x100000).
  assert (Hstep : forall e t, le32 (phys t) 0x100000 = x ->
    a20_step true e t = Ret (if x =? u32 (e + 1) then inl (u32 (e + 1)) else inr tt)
      (t <| phys ::= fun m => put32 m 0 (u32 (e + 1)) |>)).
  { intros e t Ht. unfold a20_step. rewrite bind_phys_put, bind_phys_get. simpl phys.
    by rewrite le32_put32_ne, Ht by lia. }
  destruct (decide (x = 1)) as [E|E].
  - erewrite loop_again by (rewrite Hstep by done; by rewrite E). erewrite loop_leave; cycle 1.
    { rewrite Hstep by (simpl; by rewrite le32_put32_ne by lia). by rewrite E. }
    eexists. split; [reflexivity|]. split; [done|]. intros a Ha. simpl. by rewrite !put32_ne by lia.
  - erewrite loop_leave; cycle 1.
    { rewrite Hstep by done. change (u32 (0 + 1)) with 1. by rewrite (proj2 (Z.eqb_neq _ _)). }
    eexists. split; [reflexivity|]. split; [done|]. intros a Ha. simpl. by rewrite put32_ne by lia.
Qed.

(** Without it the kernel waits for ever. *)
Lemma check_a20_off `{Machine} s : check_a20 false s = NoFuel.
Proof.
  unfold check_a20. generalize 0, s. induction fuel as [|n IH]; intros e t; [done|].
  erewrite loop_again; [apply IH|]. unfold a20_step. rewrite bind_phys_put, bind_phys_get. simpl phys.
  rewrite le32_put32, u32_small by apply u32_range. by rewrite Z.eqb_refl.
Qed.

(** ** The page tables *)

Lemma zero_words s n : exists m, for_ 0 n (fun i => phys_put (4 * i) 0) s = Ret tt (s <| phys := m |>) /\
  (forall a, 0 <= a < 4 * Z.of_nat n -> m a = 0) /\ (forall a, ~ 0 <= a < 4 * Z.of_nat n -> m a = phys s a).
Proof.
  destruct (for_inv (fun j t => exists m, t = s <| phys := m |> /\
    (forall a, 0 <= a < 4 * j -> m a = 0) /\ (forall a, ~ 0 <= a < 4 * j -> m a = phys s a)) 0 n
    (fun i => phys_put (4 * i) 0) s) as (t & Ht & m & -> & Hm).
  - exists (phys s). split; [by destruct s|]. split; [lia|done].
  - intros j t Hj (m & -> & H1 & H2). eexists. split; [reflexivity|]. eexists. split; [reflexivity|].
    simpl phys. split; intros a Ha; unfold put32; arr_decide; try (done || lia); [apply H1|apply H2]; lia.
  - exists m. by rewrite Z.add_0_l in Hm.
Qed.

(** The entries from the last of [n] down. *)
Lemma fill_run n s : (0 < n)%nat -> Z.of_nat n <= 2048 ->
  exists m, loop n fill_step (pg0 + 4 * (Z.of_nat n - 1), 0x1000 * (Z.of_nat n - 1) + 7) s = Ret tt (s <| phys := m |>) /\
    (forall e, 0 <= e < Z.of_nat n -> le32 m (pg0 + 4 * e) = 0x1000 * e + 7) /\
    (forall a, ~ pg0 <= a < pg0 + 4 * Z.of_nat n -> m a = phys s a).
Proof.
  revert s. induction n as [|n IH]; intros s Hn Hle; [lia|]. rewrite Nat2Z.inj_succ in *.
  replace (Z.succ (Z.of_nat n) - 1) with (Z.of_nat n) by lia.
  set (v := 0x1000 * Z.of_nat n + 7). set (s1 := s <| phys := put32 (phys s) (pg0 + 4 * Z.of_nat n) v |>).
  assert (Hs : s32 (v - 0x1000) = 0x1000 * (Z.of_nat n - 1) + 7) by (unfold v; rewrite s32_small; lia).
  assert (Hu : u32 v = v) by (apply u32_small; unfold v; lia).
  destruct n as [|n].
  - erewrite loop_leave by reflexivity. eexists. split; [reflexivity|]. split.
    + intros e He. replace e with 0 by lia. simpl. rewrite le32_put32. done.
    + intros a Ha. simpl. by rewrite put32_ne by (unfold pg0 in *; lia).
  - destruct (IH s1) as (m & Hm & H1 & H2); [lia|lia|].
    exists m. split; [|split].
    + erewrite loop_again; [exact Hm|]. unfold fill_step. rewrite bind_phys_put, Hs.
      rewrite (proj2 (Z.geb_le _ _)) by lia. do 3 f_equal. unfold pg0. lia.
    + intros e He. destruct (decide (e = Z.of_nat (S n))) as [->|Hne]; [|apply H1; lia].
      rewrite (le32_outside m (put32 (phys s) (pg0 + 4 * Z.of_nat (S n)) v)).
      * by rewrite le32_put32, Hu.
      * intros a Ha. rewrite H2 by lia. done.
    + intros a Ha. rewrite H2 by lia. simpl. by rewrite put32_ne by (unfold pg0 in *; lia).
Qed.

(** What the directory and its tables are then. *)
Lemma setup_paging_run s : exists m, setup_paging s = Ret tt (s <| phys := m |>) /\
  (forall k, 0 <= k < 1024 -> table_of (s <| phys := m |>) k =
     if k =? 0 then Some pg0 else if k =? 1 then Some pg1 else None) /\
  (forall k j, 0 <= k < 1024 -> 0 <= j < 1024 -> pte (s <| phys := m |>) k j =
     if k <? 2 then 0x1000 * (1024 * k + j) + 7 else 0) /\
  (forall a, ~ 0 <= a < 0x3000 -> m a = phys s a).
Proof.
  destruct (zero_words s 3072) as (m0 & H0 & Z1 & Z2).
  set (m1 := put32 (put32 m0 0 (pg0 + 7)) 4 (pg1 + 7)).
  destruct (fill_run 2048 (s <| phys := m1 |>)) as (m & Hm & F1 & F2); [lia|lia|]. simpl phys in F2.
  assert (Hd : forall k, 0 <= k < 1024 -> le32 m (4 * k) = if k =? 0 then pg0 + 7 else if k =? 1 then pg1 + 7 else 0).
  { intros k Hk. rewrite (le32_outside m m1) by (intros a Ha; apply F2; unfold pg0; lia). unfold m1.
    destruct (Z.eqb_spec k 0) as [->|]; [by rewrite le32_put32_ne, le32_put32 by lia|].
    destruct (Z.eqb_spec k 1) as [->|]; [by rewrite le32_put32 by lia|].
    rewrite !le32_put32_ne by lia. unfold le32. by rewrite !Z1 by lia. }
  assert (Ht : forall k, 0 <= k < 1024 -> table_of (s <| phys := m |>) k =
     if k =? 0 then Some pg0 else if k =? 1 then Some pg1 else None).
  { intros k Hk. unfold table_of. simpl phys. rewrite Hd by done. destruct (k =? 0), (k =? 1); done. }
  exists m. split; [|split; [exact Ht|split]].
  - unfold setup_paging. rewrite (bind_Ret _ _ _ _ _ H0), !bind_phys_put. exact Hm.
  - intros k j Hk Hj. unfold pte. rewrite Ht by done. destruct (Z.eqb_spec k 0) as [->|]; [|destruct (Z.eqb_spec k 1) as [->|]].
    + simpl phys. rewrite F1 by lia. simpl. lia.
    + simpl phys. replace (pg1 + 4 * j) with (pg0 + 4 * (1024 + j)) by (unfold pg0, pg1; lia). rewrite F1 by lia.
      simpl. lia.
    + by rewrite (proj2 (Z.ltb_ge k 2)) by lia.
  - intros a Ha. rewrite F2 by (unfold pg0; lia). unfold m1. rewrite !put32_ne by lia. apply Z2. lia.
Qed.

(** Where the entry for an address below 8 MB leads. *)
Lemma kernel_block a : 0 <= a < 4294967296 ->
  (a / 4194304) mod 1024 = a / 4194304 /\ (a / 4194304 <? 2) = (a <? 0x800000).
Proof.
  intros Ha. split; [apply Z.mod_small; dlia|]. apply eq_true_iff_eq. rewrite !Z.ltb_lt. dlia.
Qed.
Lemma kernel_entry a : 0 <= a < 0x800000 ->
  let e := 0x1000 * (1024 * (a / 4194304) + (a / 4096) mod 1024) + 7 in
  hasbit e 1 = true /\ page_of e + a mod 4096 = a /\ hasbit e 2 = true.
Proof.
  intros Ha. set (p := 0x1000 * (1024 * (a / 4194304) + (a / 4096) mod 1024)).
  assert (Hp : p mod 4096 = 0 /\ 0 <= p < 4294967296 /\ p + a mod 4096 = a) by (unfold p; dlia).
  destruct Hp as (H1 & H2 & H3). unfold page_of. rewrite entry_present, entry_page, entry_writable by done. done.
Qed.

(** A state with these tables and no others. *)
Section built.
Context (s : kstate).
Context (Ht : forall k, 0 <= k < 1024 -> table_of s k = if k =? 0 then Some pg0 else if k =? 1 then Some pg1 else None).
Context (Hp : forall k j, 0 <= k < 1024 -> 0 <= j < 1024 -> pte s k j = if k <? 2 then 0x1000 * (1024 * k + j) + 7 else 0).

Lemma built_none k : 2 <= k < 1024 -> table_of s k = None.
Proof. intros Hk. rewrite Ht by lia. destruct (Z.eqb_spec k 0), (Z.eqb_spec k 1); lia || done. Qed.
Lemma built_table k u : 0 <= k < 1024 -> table_of s k = Some u -> k = 0 /\ u = 0x1000 \/ k = 1 /\ u = 0x2000.
Proof.
  intros Hk. rewrite Ht by exact Hk. destruct (Z.eqb_spec k 0); [|destruct (Z.eqb_spec k 1); [|discriminate]]; unfold pg0, pg1;
    intros Hu; injection Hu as Hu; [left|right]; (split; [assumption|symmetry; exact Hu]).
Qed.

Lemma built_ok : (forall x, 0 <= mem_map s x < 65536) -> mem_ok s.
Proof.
  intros Hc. split; [split| | | |].
  - intros k u Hk Hu. split; [destruct (built_table k u Hk Hu) as [[_ ->]|[_ ->]]; lia|].
    intros i Hi ->. pose proof (frame_range i Hi). destruct (built_table k _ Hk Hu); lia.
  - intros k l u Hk Hl Hku Hlu. destruct (built_table k u Hk Hku), (built_table l u Hl Hlu); lia.
  - intros x. unfold total_refs. rewrite zsum_0; [by apply Hc|]. intros k Hk. unfold dir_refs, tab_ref, block_refs, refs_to.
    rewrite built_none by lia. rewrite zsum_0; [done|]. intros l _. unfold pte. by rewrite built_none by lia.
  - intros k j Hk Hj. rewrite Hp by lia. by rewrite (proj2 (Z.ltb_ge k 2)) by lia.
  - intros k u Hk Hu. by rewrite built_none in Hu by lia.
  - intros k u Hk Hu. destruct (built_table k u) as [[_ ->]|[_ ->]]; [lia|done|done|done].
Qed.

Lemma built_translate a : linear a -> translate s a = if a <? 0x800000 then Some (a, true) else None.
Proof.
  intros Ha. unfold linear in Ha. rewrite translate_pte. cbv zeta. rewrite Hp by (apply Z.mod_pos_bound; lia).
  destruct (kernel_block a Ha) as [Hk Hlt]. rewrite Hk, Hlt. destruct (Z.ltb_spec a 0x800000); [|reflexivity].
  destruct (kernel_entry a) as (-> & -> & ->); [lia|done].
Qed.
End built.

(** C38: setup_paging always ends; then the first 8 MB of addresses are mapped
    to themselves, writable, and nothing else is mapped, the invariant of the
    memory manager holds, and nothing outside the directory and the two tables
    has changed. *)
Theorem setup_paging_spec s : (forall x, 0 <= mem_map s x < 65536) ->
  exists s', setup_paging s = Ret tt s' /\ mem_ok s' /\ s' = s <| phys := phys s' |> /\
    (forall a, linear a -> translate s' a = if a <? 0x800000 then Some (a, true) else None) /\
    (forall a, ~ 0 <= a < 0x3000 -> phys s' a = phys s a).
Proof.
  intros Hc. destruct (setup_paging_run s) as (m & Hm & Ht & Hp & Ho).
  exists (s <| phys := m |>). split; [exact Hm|]. split; [by apply built_ok|]. split; [done|].
  split; [by apply built_translate|exact Ho].
Qed.

Lemma setup_paging_spec_witness : exists s', setup_paging zero_kstate = Ret tt s' /\
  translate s' 0x7fffff = Some (0x7fffff, true) /\ translate s' 0x800000 = None.
Proof.
  destruct (setup_paging_spec zero_kstate) as (s' & Hr & _ & _ & Ht & _).
  - intros x. change (mem_map zero_kstate x) with 0. lia.
  - exists s'. split; [exact Hr|]. split; rewrite Ht; [reflexivity|split; lia|reflexivity|split; lia].
Defined.

(** ** The first [fork] *)

(** The kernel's first 4 MB are mapped to themselves. *)
Record identity_block (s : kstate) : Prop := {
  ib_table : table_of s 0 = Some pg0;
  ib_pte : forall j, 0 <= j < 1024 -> pte s 0 j = 0x1000 * j + 7;
}.

Lemma setup_identity s : exists s', setup_paging s = Ret tt s' /\ identity_block s'.
Proof.
  destruct (setup_paging_run s) as (m & Hm & Ht & Hp & _). eexists. split; [exact Hm|]. split.
  - by rewrite Ht by lia.
  - intros j Hj. rewrite Hp by lia. simpl. lia.
Qed.

Lemma low_entry j : 0 <= j < 160 -> let e := 0x1000 * j + 7 in
  hasbit e 1 = true /\ page_of e = 0x1000 * j /\ (forall x, refers e x = false) /\ kept e = e.
Proof.
  intros Hj. set (e := 0x1000 * j + 7). cbv zeta. assert (Ha : (0x1000 * j) mod 4096 = 0) by dlia.
  assert (Hp : page_of e = 0x1000 * j) by (unfold page_of, e; apply entry_page; dlia).
  assert (Hb : hasbit e 1 = true) by (by apply entry_present).
  assert (Hl : (LOW_MEM <=? page_of e) = false) by (rewrite Hp; apply Z.leb_gt; unfold LOW_MEM, BUFFER_END; lia).
  split; [done|]. split; [done|]. split.
  - intros x. unfold refers, at_frame. by rewrite Hl, andb_false_r.
  - unfold kept. by rewrite Hl, andb_false_r.
Qed.

(** The kernel's entries hold no reference that is counted. *)
Lemma identity_refs s n x : identity_block s -> (n <= 160)%nat -> refs_to (pte s 0) x n = 0.
Proof.
  intros [_ Hp] Hn. apply zsum_0. intros j Hj. rewrite Hp by lia.
  by destruct (low_entry j ltac:(lia)) as (_ & _ & -> & _).
Qed.

Section part.
Context (s t : kstate) (tk : Z) (Hid : identity_block s) (Htk : 2 <= tk < 1024).
Context (Hfree : table_of s tk = None) (HP : copied_part s 0 tk 160 t).

Lemma part_same k j : 0 <= k < 1024 -> 0 <= j < 1024 -> k <> tk -> pte t k j = pte s k j.
Proof.
  intros Hk Hj Hne. destruct HP as [_ _ P3 P4 P5 P6 _ _ _]. destruct (decide (k = 0)) as [->|]; [|by apply P6].
  rewrite P5 by done. destruct (Z.ltb_spec j 160); [|done]. rewrite (ib_pte s Hid) by done.
  by destruct (low_entry j ltac:(lia)) as (_ & _ & _ & ->).
Qed.
Lemma part_new j : 0 <= j < 1024 -> pte t tk j = if j <? 160 then cow (0x1000 * j + 7) else 0.
Proof. intros Hj. rewrite (pb_new _ _ _ _ _ HP) by done. by rewrite (ib_pte s Hid). Qed.
Lemma part_map x : mem_map t x = mem_map s x + tab_ref t tk x.
Proof. rewrite (pb_map _ _ _ _ _ HP), (identity_refs s) by (done || lia). lia. Qed.

Lemma part_refs x : dir_refs t x tk = tab_ref t tk x.
Proof.
  unfold dir_refs, block_refs, refs_to. rewrite zsum_0; [lia|]. intros j Hj. rewrite part_new by lia.
  destruct (Z.ltb_spec j 160); [|done]. rewrite refers_cow.
  by destruct (low_entry j ltac:(lia)) as (_ & _ & -> & _).
Qed.
Lemma part_total x : total_refs t x = total_refs s x + tab_ref t tk x.
Proof.
  unfold total_refs. rewrite (zsum_change (dir_refs t x) (dir_refs s x) 2 1022 tk); [|lia|].
  - rewrite part_refs. assert (dir_refs s x tk = 0); [|lia].
    unfold dir_refs, tab_ref, block_refs, refs_to. rewrite Hfree, zsum_0; [done|]. intros j _. unfold pte. by rewrite Hfree.
  - intros k Hk Hne. unfold dir_refs, tab_ref. rewrite (pb_table _ _ _ _ _ HP) by lia. f_equal.
    apply refs_to_ext. intros j Hj. by rewrite part_same by lia.
Qed.

Lemma part_ok : mem_ok s -> (forall x, mem_map s x < 65536 - 1024) -> mem_ok t.
Proof.
  intros [M1 M2 M3 M4 M5] Hr. pose proof (pb_table _ _ _ _ _ HP) as P3. split.
  - apply HP.
  - intros x. rewrite part_total, part_map. pose proof (tab_ref_range t tk x). specialize (M2 x). specialize (Hr x). lia.
  - intros k j Hk Hj. destruct (decide (k = tk)) as [->|]; [|rewrite part_same by lia; by apply M3].
    rewrite part_new by done. destruct (Z.ltb_spec j 160); [|done]. intros _.
    destruct (low_entry j ltac:(lia)) as (E & Hp & _). rewrite cow_page, Hp by done. unfold HIGH_MEMORY. lia.
  - intros k u Hk Hu. destruct (decide (k = tk)) as [->|]; [by apply HP|]. rewrite P3 in Hu by lia. by apply (M4 k).
  - intros k u Hk Hu. rewrite P3 in Hu by lia. by apply (M5 k).
Qed.

Lemma part_translate a : linear a -> translate t a =
  if decide (in_blocks tk 1 a) then
    if a mod 4194304 <? 0xa0000 then Some (a mod 4194304, false) else None
  else translate s a.
Proof.
  unfold linear, in_blocks. intros Ha. rewrite !translate_pte. cbv zeta.
  replace ((a / 4194304) mod 1024) with (a / 4194304) by dlia.
  assert (0 <= (a / 4096) mod 1024 < 1024) by (apply Z.mod_pos_bound; lia). case_decide as Hin.
  - replace (a / 4194304) with tk by lia. rewrite part_new by done.
    destruct (Z.ltb_spec ((a / 4096) mod 1024) 160), (Z.ltb_spec (a mod 4194304) 0xa0000); try dlia; [|done].
    destruct (low_entry ((a / 4096) mod 1024)) as (E & Hp & _); [dlia|].
    rewrite cow_present, E, cow_page, cow_readonly, Hp by done. do 2 f_equal. dlia.
  - by rewrite part_same by dlia.
Qed.
End part.

(** The first [fork]: the child's first 640 KB are the kernel's own pages, read-only; the
    kernel keeps leave to write to them, no count changes but that of the new page table,
    and the invariant holds again. *)
Theorem first_fork_pages tk s :
  mem_ok s -> identity_block s -> 2 <= tk < 1024 -> table_of s tk = None ->
  (forall x, mem_map s x < 65536 - 1024) ->
  exists r t, copy_page_tables 0 (block_start tk) 0xa0000 s = Ret r t /\ mem_ok t /\ identity_block t /\
    (r = -1 /\ t = s /\ (forall j, frame_ok j -> mem_map s j <> 0) \/
     r = 0 /\
     (forall a, linear a -> translate t a =
        if decide (in_blocks tk 1 a) then
          if a mod 4194304 <? 0xa0000 then Some (a mod 4194304, false) else None
        else translate s a) /\
     (forall x, mem_map t x = mem_map s x + tab_ref t tk x)).
Proof.
  intros Hok Hid Htk Hfree Hr. change 0 with (block_start 0) at 1.
  unfold copy_page_tables. rewrite !start_aligned, !start_dir by lia. cbn [orb].
  change (Z.to_nat (Z.shiftr (u32 (0xa0000 + 0x3fffff)) 22)) with 1%nat.
  change (block_start 0) with 0.
  assert (Hfor : forall r t, copy_dir 0 (4 * 0) (4 * tk) s = Ret r t ->
    for_ret 0 1 (fun i => copy_dir 0 (4 * 0 + 4 * i) (4 * tk + 4 * i)) s = Ret r t).
  { intros r t Ht. cbn [for_ret]. rewrite !Z.mul_0_r, !Z.add_0_r in *. erewrite bind_Ret by exact Ht. by destruct r. }
  destruct (copy_part_run 0 0 tk s pg0) as [[Hc Hall]|(t & Hc & HP)]; try lia; try done; [apply Hok|..|apply Hid| |].
  { intros x. pose proof (mem_count s x Hok). specialize (Hr x). lia. }
  - exists (-1), s. rewrite (bind_Ret _ _ _ _ _ (Hfor _ _ Hc)). split; [done|]. split; [done|]. split; [done|]. by left.
  - exists 0, t. change (copy_nr 0) with 160 in HP. rewrite (bind_Ret _ _ _ _ _ (Hfor _ _ Hc)). split; [done|].
    split; [by apply (part_ok s t tk)|]. split.
    + split; [rewrite (pb_table _ _ _ _ _ HP) by lia; apply Hid|]. intros j Hj.
      rewrite (part_same s t tk) by (done || lia). by apply Hid.
    + right. split; [done|]. split; [intros a; by apply (part_translate s t tk)|intros x; by apply (part_map s t tk)].
Qed.

Lemma first_fork_pages_witness : exists s, setup_paging zero_kstate = Ret tt s /\
  exists t, copy_page_tables 0 (block_start 16) 0xa0000 s = Ret 0 t /\
    translate t 0x4001234 = Some (0x1234, false) /\ translate t 0x1234 = Some (0x1234, true).
Proof.
  destruct (setup_paging_run zero_kstate) as (m & Hs & Htab & Hpte & _). set (s := zero_kstate <| phys := m |>) in *.
  destruct (setup_identity zero_kstate) as (s' & Hs' & Hid). assert (s' = s) by congruence. subst s'.
  assert (Hz : forall x, mem_map s x = 0) by reflexivity.
  exists s. split; [exact Hs|].
  destruct (first_fork_pages 16 s) as (r & t & Hr & _ & _ & [(_ & _ & Hno)|(-> & Hin & _)]).
  - apply built_ok; [exact Htab|exact Hpte|]. intros x. rewrite Hz. lia.
  - exact Hid.
  - lia.
  - rewrite Htab by lia. reflexivity.
  - intros x. rewrite Hz. lia.
  - exfalso. apply (Hno 0); [split; [lia|reflexivity]|apply Hz].
  - exists t. split; [exact Hr|]. split; (rewrite Hin; [|split; [lia|reflexivity]]).
    + rewrite decide_True by (split; [discriminate|reflexivity]). reflexivity.
    + rewrite decide_False by (intros [Hle _]; apply Hle; reflexivity).
      rewrite built_translate; [reflexivity|exact Hpte|split; lia].
Defined.
