(* ===== verification/Paging.v ===== *)
(** Page faults and the counts of the frames: [mem_ok] of Share.v, the invariant that
    every reference from a page table is counted, through mm/page.s and the handlers of
    mm/memory.c. *)
From S2P Require Export Entry Share.
#[local] Open Scope bool_scope.

(** ** One entry changes *)

(** Entry [j] of block [k] becomes [v], and no other changes. *)
Record stored (s s' : kstate) (k j v : Z) : Prop := {
  so_table : forall l, 0 <= l < 1024 -> table_of s' l = table_of s l;
  so_pte : forall l i, 0 <= l < 1024 -> 0 <= i < 1024 ->
    pte s' l i = if decide (l = k /\ i = j) then v else pte s l i;
}.

Lemma refs_change e e' x n j : 0 <= j < Z.of_nat n -> (forall l, l <> j -> e' l = e l) ->
  refs_to e' x n = refs_to e x n + b2z (refers (e' j) x) - b2z (refers (e j) x).
Proof.
  intros Hj He. unfold refs_to.
  rewrite (zsum_change (fun l => b2z (refers (e' l) x)) (fun l => b2z (refers (e l) x)) 0 n j); [lia|lia|].
  intros l Hl Hne. by rewrite He.
Qed.

Lemma stored_total s s' k j v x : 2 <= k < 1024 -> 0 <= j < 1024 -> stored s s' k j v ->
  total_refs s' x = total_refs s x + b2z (refers v x) - b2z (refers (pte s k j) x).
Proof.
  intros Hk Hj [Ht Hp]. unfold total_refs. rewrite (zsum_change (dir_refs s' x) (dir_refs s x) 2 1022 k); [|lia|].
  - unfold dir_refs, tab_ref. rewrite Ht by lia. unfold block_refs.
    assert (E : refs_to (pte s' k) x 1024 = refs_to (pte s k) x 1024 + b2z (refers v x) - b2z (refers (pte s k j) x)); [|lia].
    rewrite (refs_to_ext (pte s' k) (fun l => if decide (l = j) then v else pte s k l)).
    + rewrite (refs_change (pte s k) _ x 1024 j) by (try lia; intros l Hl; by rewrite decide_False). by rewrite decide_True.
    + intros l Hl. rewrite Hp by lia. f_equal. repeat case_decide; done || lia.
  - intros l Hl Hne. unfold dir_refs, tab_ref. rewrite Ht by lia. f_equal. apply refs_to_ext.
    intros i Hi. rewrite Hp by lia. by rewrite decide_False by lia.
Qed.

Lemma stored_ok s s' k j v : mem_ok s -> 2 <= k < 1024 -> 0 <= j < 1024 -> stored s s' k j v ->
  (hasbit v 1 = true -> page_of v < HIGH_MEMORY) ->
  (forall x, total_refs s x + b2z (refers v x) - b2z (refers (pte s k j) x) <= mem_map s' x < 65536) ->
  mem_ok s'.
Proof.
  intros [[M1 M1'] M2 M3 M4 M5] Hk Hj Hs Hv Hc. pose proof Hs as [Ht Hp]. apply mem_ok_intro.
  - intros l u Hl Hu. rewrite Ht in Hu by done. by destruct (M1 l u Hl Hu).
  - intros l m u Hl Hm Hlu Hmu. rewrite Ht in Hlu, Hmu by done. by apply (M1' l m u).
  - intros x. by rewrite (stored_total s s' k j v).
  - intros l i Hl Hi. rewrite Hp by lia. case_decide; [done|]. by apply M3.
  - intros l u Hl Hu. rewrite Ht in Hu by lia. by apply (M4 l).
  - intros l u Hl Hu. rewrite Ht in Hu by lia. by apply (M5 l).
Qed.

(** Memory agrees with a stored entry but for frames that were free. *)
Lemma stored_phys s s' k t j v : tables_ok s -> 0 <= k < 1024 -> 0 <= j < 1024 -> table_of s k = Some t ->
  0 <= v < 4294967296 ->
  (forall y, phys s' y = put32 (phys s) (t + 4 * j) v y \/ exists i, frame_ok i /\ mem_map s i = 0 /\ in_page (frame i) y) ->
  stored s s' k j v.
Proof.
  intros Hok Hk Hj Ht Hv Hphys. destruct (to_page _ Hok k t Hk Ht) as [Hlow _]. pose proof (table_aligned _ _ _ Ht) as Hal.
  assert (Hkeep : forall y, (forall i, frame_ok i -> mem_map s i = 0 -> ~ in_page (frame i) y) ->
    phys s' y = put32 (phys s) (t + 4 * j) v y).
  { intros y Hy. destruct (Hphys y) as [->|(i & Hi & Hz & Hiy)]; [done|]. by destruct (Hy i). }
  assert (Htab : forall l, 0 <= l < 1024 -> table_of s' l = table_of s l).
  { intros l Hl. apply table_of_same; [|done]. intros x Hx. rewrite Hkeep; [apply put32_ne; lia|].
    intros i Hi _ [? ?]. pose proof (frame_range i Hi). lia. }
  split; [exact Htab|]. intros l i Hl Hi. unfold pte. rewrite Htab by done. destruct (table_of s l) as [u|] eqn:Hu; cycle 1.
  { rewrite decide_False; [done|]. intros [-> _]. congruence. }
  rewrite (le32_outside (phys s') (put32 (phys s) (t + 4 * j) v)); cycle 1.
  { intros a Ha. apply Hkeep. intros n Hn Hz Hna. destruct (table_not_frame s l u n Hok Hl Hu Hn Hz); unfold in_page in *; lia. }
  case_decide as E.
  - destruct E as [-> ->]. assert (u = t) as -> by congruence. by rewrite le32_put32, u32_small.
  - destruct (decide (l = k)) as [->|Hne].
    + assert (u = t) as -> by congruence. by rewrite le32_put32_ne by lia.
    + assert (u <> t) by (intros ->; by apply Hne, (to_inj _ Hok l k t)).
      destruct (pages_apart u t); [by eapply table_aligned|done|done| |]; by rewrite le32_put32_ne by lia.
Qed.

(** ** A frame becomes a page table *)

Section new.
Context (s : kstate) (k i : Z) (Hm : mem_ok s) (Hk : 2 <= k < 1024) (Hi : frame_ok i) (Hz : mem_map s i = 0).
Context (Hn : table_of s k = None).

Lemma pte_new l j : 0 <= l < 1024 -> 0 <= j < 1024 -> pte (new_table k i s) l j = pte s l j.
Proof.
  intros Hl Hj. pose proof (mo_tables s Hm) as Hok. pose proof (frame_range i Hi). unfold pte.
  rewrite table_of_new by (done || lia). case_decide as E.
  - subst l. rewrite Hn, new_table_phys, le32_put32_ne by lia. unfold le32. by rewrite !taken_zero by (unfold in_page; lia).
  - destruct (table_of s l) as [u|] eqn:Hu; [|done]. destruct (to_page _ Hok l u Hl Hu) as [Hlow _].
    pose proof (table_not_frame s l u i Hok Hl Hu Hi Hz). rewrite new_table_phys, le32_put32_ne by lia. apply le32_taken. lia.
Qed.
Lemma total_new x : total_refs (new_table k i s) x = total_refs s x + b2z (i =? x).
Proof.
  unfold total_refs. rewrite (zsum_change _ (dir_refs s x) 2 1022 k); [|lia|].
  - unfold dir_refs, tab_ref, block_refs. rewrite table_of_new, decide_True, Hn, at_frame_frame by (done || lia || (destruct Hi; lia)).
    rewrite (refs_to_ext (pte (new_table k i s) k) (pte s k)) by (intros j Hj; by rewrite pte_new by lia). lia.
  - intros l Hl Hne. unfold dir_refs, tab_ref. rewrite table_of_new, decide_False by (done || lia). f_equal.
    apply refs_to_ext. intros j Hj. by rewrite pte_new by lia.
Qed.
Lemma new_table_ok : mem_ok (new_table k i s).
Proof.
  pose proof Hm as [Hok M2 M3 M4 M5]. pose proof (frame_range i Hi). split.
  - apply tables_new; (done || lia).
  - intros x. rewrite total_new. unfold new_table. simpl. rewrite arr_dec. pose proof (M2 x) as Hx.
    destruct (Z.eqb_spec i x); case_decide; subst; simpl; lia.
  - intros l j Hl Hj. rewrite pte_new by lia. by apply M3.
  - intros l u Hl Hu. rewrite table_of_new in Hu by (done || lia). case_decide; [|by apply (M4 l)].
    injection Hu as <-. unfold HIGH_MEMORY. lia.
  - intros l u Hl Hu. rewrite table_of_new, decide_False in Hu by (done || lia). by apply (M5 l).
Qed.
End new.

(** ** The faults *)

(** The entry of a fresh frame. *)
Lemma frame_entry p : frame_ok p -> let v := frame p + 7 in
  0 <= v < 4294967296 /\ page_of v < HIGH_MEMORY /\ forall x, refers v x = (p =? x).
Proof.
  intros Hp v. pose proof (frame_range p Hp). pose proof (frame_aligned p).
  assert (Hpg : page_of v = frame p) by (unfold page_of, v; apply entry_page; (done || lia)).
  split; [unfold v; lia|]. split; [rewrite Hpg; unfold HIGH_MEMORY; lia|].
  intros x. unfold refers. rewrite Hpg, at_frame_frame by (destruct Hp; lia). unfold v. by rewrite entry_present.
Qed.

Lemma store_entry_ok s k j t p : mem_ok s -> 2 <= k < 1024 -> 0 <= j < 1024 -> table_of s k = Some t ->
  frame_ok p -> mem_map s p = 1 -> total_refs s p = 0 -> mem_ok (store_entry t j (frame p + 7) s).
Proof.
  intros Hm Hk Hj Ht Hp Hone H0. destruct (frame_entry p Hp) as (Hv & Hpg & Href).
  apply (stored_ok s _ k j (frame p + 7)); [done|done|done| |done|].
  - apply (stored_phys s _ k t); try done; [apply Hm|lia|by left].
  - intros x. rewrite Href. change (mem_map (store_entry t j (frame p + 7) s) x) with (mem_map s x).
    pose proof (mo_count s Hm x). destruct (refers (pte s k j) x), (Z.eqb_spec p x); subst; simpl; lia.
Qed.

Lemma put_page_ok s p address : mem_ok s -> linear address -> 0x800000 <= address ->
  frame_ok p -> mem_map s p = 1 -> total_refs s p = 0 ->
  put_page (frame p) address s = Ret 0 s \/
  exists s', put_page (frame p) address s = Ret (frame p) s' /\ mem_ok s'.
Proof.
  intros Hm Ha Hlow Hp Hone H0. unfold linear in Ha.
  assert (Hk : 2 <= (address / 4194304) mod 1024 < 1024) by dlia.
  assert (Hj : 0 <= (address / 4096) mod 1024 < 1024) by (apply Z.mod_pos_bound; lia).
  destruct (put_page_cases s p address Hp Hone) as [(t & Ht & Hrun)|(Hn & [[Hrun Hall]|(i & Hi & Hz & Hrun)])].
  - right. eexists. split; [exact Hrun|]. by eapply store_entry_ok.
  - by left.
  - right. eexists. split; [exact Hrun|]. set (k := (address / 4194304) mod 1024) in *.
    assert (Hip : i <> p) by (intros ->; lia).
    apply (store_entry_ok _ k); try done.
    + by apply new_table_ok.
    + rewrite table_of_new by (done || lia). by rewrite decide_True.
    + unfold new_table. simpl. by rewrite arr_ne.
    + rewrite total_new by done. rewrite (proj2 (Z.eqb_neq i p)) by done. simpl. lia.
Qed.

Section exits.
Context (do_exit : Z -> K Z).

(** A handler of faults keeps the invariant, until it ends the process. *)
Definition keeps_counts (m : K unit) (s : kstate) : Prop :=
  exists s', mem_ok s' /\ (m s = Ret tt s' \/ exists k, m s = (do_exit SIGSEGV ≫= k) s').

Lemma do_no_page_counts error_code address s : mem_ok s -> linear address -> 0x800000 <= address ->
  keeps_counts (do_no_page do_exit error_code address) s.
Proof.
  intros Hm Ha Hlow. unfold keeps_counts, do_no_page.
  destruct (get_free_page_cases s) as [[Hrun Hall]|(i & Hi & Hz & _ & Hrun)]; rewrite (bind_Ret _ _ _ _ _ Hrun).
  { exists s. split; [done|]. right. by eexists. }
  rewrite frame_nz by done. pose proof (taken_ok s i Hm Hi Hz) as Hm1.
  destruct (put_page_ok (taken i s) i address) as [Hput|(s' & Hput & Hm')]; try done.
  - simpl. apply arr_eq.
  - rewrite total_taken by (done || apply Hm). pose proof (free_no_refs s i Hm Hz). pose proof (total_nonneg s i). lia.
  - exists (taken i s). split; [done|]. right. rewrite (bind_Ret _ _ _ _ _ Hput). by eexists.
  - exists s'. split; [done|]. left. rewrite (bind_Ret _ _ _ _ _ Hput). by rewrite frame_nz.
Qed.

(** The page of an entry is in use. *)
Lemma refers_total s k j x : 2 <= k < 1024 -> 0 <= j < 1024 -> refers (pte s k j) x = true -> 1 <= total_refs s x.
Proof.
  intros Hk Hj Hr. pose proof (total_refs_ge s x k Hk) as H. unfold dir_refs in H.
  pose proof (tab_ref_range s k x). enough (1 <= block_refs s k x) by lia. unfold block_refs, refs_to.
  pose proof (zsum_ge (fun l => b2z (refers (pte s k l) x)) 0 1024 j ltac:(lia)) as Hg. cbv beta in Hg.
  rewrite Hr in Hg. apply Hg. intros l _. unfold b2z. case_match; lia.
Qed.

Lemma un_wp_page_counts s k j t : mem_ok s -> bytes (phys s) -> 2 <= k < 1024 -> 0 <= j < 1024 ->
  table_of s k = Some t -> hasbit (pte s k j) 1 = true -> hasbit (pte s k j) 2 = false ->
  keeps_counts (un_wp_page do_exit (t + 4 * j)) s.
Proof.
  intros Hm Hb Hk Hj Ht H1 H2. assert (He : pte s k j = le32 (phys s) (t + 4 * j)) by (unfold pte; by rewrite Ht).
  pose proof (mo_page s Hm k j Hk Hj H1) as Hhigh. set (e := pte s k j) in *.
  assert (Her : 0 <= e < 4294967296) by (rewrite He; by apply le32_range).
  assert (Hold : forall n, frame_ok n -> page_of e = frame n -> refers e n = true).
  { intros n Hn Hf. unfold refers. rewrite H1, Hf, at_frame_frame by (destruct Hn; lia). by rewrite Z.eqb_refl. }
  unfold keeps_counts. destruct (un_wp_page_run do_exit (t + 4 * j) s) as
    [(-> & _)|[(c & -> & _)|(i & Hi & Hz & _ & Hmore & s' & -> & Hmm & Hps)]]; rewrite <- ?He; try done.
  - intros n Hn. pose proof (mo_count s Hm n). pose proof (total_nonneg s n). lia.
  - intros n Hn Hf. rewrite <- ?He in Hf. pose proof (refers_total s k j n Hk Hj (Hold n Hn Hf)).
    pose proof (mo_count s Hm n). lia.
  - eexists. split; [|by left]. destruct (entry_make_writable e Her H1 H2) as (-> & Hn1 & _ & Hn3 & Hn4).
    assert (Href : forall x, refers (e + 2) x = refers e x) by (intros x; unfold refers, page_of; by rewrite Hn1, Hn3, H1).
    apply (stored_ok s _ k j (e + 2)); try done.
    + apply (stored_phys s _ k t); try done; [apply Hm|lia|lia|by left].
    + unfold page_of. by rewrite Hn3.
    + intros x. simpl. rewrite Href. pose proof (mo_count s Hm x). fold e. lia.
  - exists s. split; [done|]. right. by eexists.
  - rewrite <- ?He in Hmore, Hmm, Hps. change (Z.land 0xfffff000 e) with (page_of e) in *.
    eexists. split; [|by left]. destruct (frame_entry i Hi) as (Hv & Hpg & Href).
    apply (stored_ok s _ k j (frame i + 7)); try done.
    + apply (stored_phys s _ k t); try done; [apply Hm|lia|]. intros y.
      destruct (decide (in_page (frame i) y)) as [Hy|Hy]; [right; by exists i|left].
      pose proof (table_not_frame s k t i (mo_tables s Hm) ltac:(lia) Ht Hi Hz).
      rewrite Hps, wp_taken_phys, decide_False by (done || lia). done.
    + intros x. rewrite Hmm, Href. fold e. unfold leave_page. pose proof (mo_count s Hm x) as Hx.
      pose proof (free_no_refs s i Hm Hz) as Hi0. pose proof (total_nonneg s i).
      destruct (page_of e >=? LOW_MEM) eqn:Hge.
      * ztest. destruct (frame_of_page (page_of e)) as [Hno Hon]; [apply page_aligned|lia|].
        specialize (Hmore _ Hno Hon). set (n := MAP_NR (page_of e)) in *.
        assert (Hrx : refers e x = (n =? x)).
        { unfold refers. rewrite H1, Hon, at_frame_frame by (destruct Hno; lia). done. }
        rewrite Hrx. assert (i <> n) by (intros E; rewrite E in Hz; lia).
        rewrite (arr_ne _ i) by done. rewrite !arr_dec.
        destruct (Z.eqb_spec i x), (Z.eqb_spec n x); subst; repeat case_decide; subst; simpl; lia.
      * assert (Hrx : refers e x = false).
        { unfold refers, at_frame. rewrite (proj2 (Z.leb_gt _ _)); [by rewrite andb_false_r|]. ztest. lia. }
        rewrite Hrx, arr_dec. destruct (Z.eqb_spec i x); case_decide; subst; simpl; lia.
Qed.
End exits.

(** C11: Whatever page fault a process takes - on a page that is not there, on a
    shared page it writes to - afterwards the count of each frame again covers
    every reference from the page tables, no two tables share a page, and
    everything that is mapped lies in memory; the only other outcome is that the
    process is ended, in a state of which this holds too. *)
Theorem page_fault_counts `{Machine} error_code cr2 s :
  mem_ok s -> bytes (phys s) -> linear cr2 -> 0x800000 <= cr2 ->
  (hasbit error_code 1 = true -> exists x, translate s cr2 = Some (x, false)) ->
  exists s', mem_ok s' /\
    (page_fault error_code cr2 s = Ret tt s' \/
     exists k, page_fault error_code cr2 s = (do_exit SIGSEGV ≫= k) s').
Proof.
  intros Hm Hb Ha Hlow Hp. unfold page_fault. destruct (hasbit error_code 1); [|by apply do_no_page_counts].
  destruct (Hp eq_refl) as (x & Hx). destruct (translate_entry s cr2 x false Hx) as (t & Ht & _ & H1 & H2 & _).
  rewrite (do_wp_page_run _ _ _ _ t Ht). unfold linear in Ha.
  apply (un_wp_page_counts do_exit s ((cr2 / 4194304) mod 1024)); try done; [dlia|apply Z.mod_pos_bound; lia| |];
    unfold pte; by rewrite Ht.
Qed.

Lemma page_fault_counts_witness : translate shared_page 0x4000010 = Some (0x400010, false) /\
  exists s', mem_ok s' /\
    (@page_fault quiet_machine 3 0x4000010 shared_page = Ret tt s' \/
     exists k, @page_fault quiet_machine 3 0x4000010 shared_page = (@do_exit quiet_machine SIGSEGV ≫= k) s').
Proof.
  split; [reflexivity|]. apply (@page_fault_counts quiet_machine 3 0x4000010 shared_page).
  - exact shared_page_ok.
  - apply bytes_put32, bytes_put32. intros a. unfold zero_arr. lia.
  - split; lia.
  - lia.
  - intros _. exists 0x400010. reflexivity.
Defined.
