(* ===== verification/Faults.v ===== *)
(** The entries of the processor's faults, kernel/asm.s, as the instructions they are:
    how they save the registers, call the C handler of Entry.v and restore them. *)
From S2P Require Export Entry.
#[local] Open Scope bool_scope.

(** ** The processor *)

(** The C handlers the stubs push the addresses of. *)
Inductive cfun :=
| f_divide_error | f_int3 | f_nmi | f_overflow | f_bounds | f_invalid_op | f_device_not_available
| f_coprocessor_segment_overrun | f_reserved | f_coprocessor_error | f_double_fault
| f_invalid_TSS | f_segment_not_present | f_stack_segment | f_general_protection.

(** A word of a register or of the stack: a number or the address of a handler. *)
Inductive word := W (z : Z) | Fn (f : cfun).
Definition val (w : word) : Z := match w with W z => z | Fn _ => 0 end.

Inductive reg := r_eax | r_ebx | r_ecx | r_edx | r_edi | r_esi | r_ebp | r_ds | r_es | r_fs.

(** The registers; the stack, from its top on, ends below address [bottom]. *)
Record cpu := mk_cpu {
  c_eax : word; c_ebx : word; c_ecx : word; c_edx : word; c_edi : word; c_esi : word; c_ebp : word;
  c_ds : word; c_es : word; c_fs : word;
  stack : list word;
  bottom : Z;
}.
#[export] Instance cpu_eta : Eta cpu := fun c =>
  mk_cpu (c_eax c) (c_ebx c) (c_ecx c) (c_edx c) (c_edi c) (c_esi c) (c_ebp c) (c_ds c) (c_es c) (c_fs c)
    (stack c) (bottom c).

Definition esp_of (c : cpu) : Z := bottom c - 4 * Z.of_nat (length (stack c)).
Definition get_reg (r : reg) (c : cpu) : word :=
  match r with
  | r_eax => c_eax c | r_ebx => c_ebx c | r_ecx => c_ecx c | r_edx => c_edx c | r_edi => c_edi c
  | r_esi => c_esi c | r_ebp => c_ebp c | r_ds => c_ds c | r_es => c_es c | r_fs => c_fs c
  end.
Definition set_reg (r : reg) (w : word) (c : cpu) : cpu :=
  match r with
  | r_eax => c <| c_eax := w |> | r_ebx => c <| c_ebx := w |> | r_ecx => c <| c_ecx := w |>
  | r_edx => c <| c_edx := w |> | r_edi => c <| c_edi := w |> | r_esi => c <| c_esi := w |>
  | r_ebp => c <| c_ebp := w |> | r_ds => c <| c_ds := w |> | r_es => c <| c_es := w |>
  | r_fs => c <| c_fs := w |>
  end.

(** The instructions; offsets from the top of the stack count words of 4 bytes. *)
Inductive instr :=
| push (r : reg)
| push_imm (w : word)
| pop (r : reg)
| xchg (r : reg) (n : nat)
| lea (n : nat) (r : reg)
| mov_imm (z : Z) (r : reg)
| mov (r r' : reg)
| call (r : reg)
| add_esp (n : nat).

Section faults.
Context `{Machine}.
Context (fninit : Z -> Z).
(** What a C function leaves in the registers it need not keep. *)
Context (left_eax left_ecx left_edx : word).

Definition clobber (c : cpu) : cpu := c <| c_eax := left_eax |> <| c_ecx := left_ecx |> <| c_edx := left_edx |>.

(** A handler, with its arguments as they lie on the stack and the words from the
    address of the first on. *)
Definition c_call (f : cfun) (args : list Z) (esp : Z -> Z) : K unit :=
  let arg i := nth i args 0 in
  let code := arg 1%nat in
  match f with
  | f_divide_error => do_divide_error esp code
  | f_int3 => do_int3 (arg 0%nat) esp (arg 2%nat) (arg 3%nat) (arg 4%nat) (arg 5%nat) (arg 6%nat) (arg 7%nat)
                (arg 8%nat) (arg 9%nat) (arg 10%nat) (arg 11%nat)
  | f_nmi => do_nmi esp code
  | f_overflow => do_overflow esp code
  | f_bounds => do_bounds esp code
  | f_invalid_op => do_invalid_op esp code
  | f_device_not_available => do_device_not_available esp code
  | f_coprocessor_segment_overrun => do_coprocessor_segment_overrun esp code
  | f_reserved => do_reserved esp code
  | f_coprocessor_error => do_coprocessor_error esp code
  | f_double_fault => do_double_fault esp code
  | f_invalid_TSS => do_invalid_TSS esp code
  | f_segment_not_present => do_segment_not_present esp code
  | f_stack_segment => do_stack_segment esp code
  | f_general_protection => do_general_protection esp code
  end.

(** An instruction but a call; [None] when the stack is too short. *)
Definition move (i : instr) (c : cpu) : option cpu :=
  match i with
  | push r => Some (c <| stack := get_reg r c :: stack c |>)
  | push_imm w => Some (c <| stack := w :: stack c |>)
  | pop r =>
      match stack c with
      | w :: l => Some (set_reg r w (c <| stack := l |>))
      | [] => None
      end
  | xchg r n =>
      match stack c !! n with
      | Some w => Some (set_reg r w (c <| stack := <[n := get_reg r c]> (stack c) |>))
      | None => None
      end
  | lea n r => Some (set_reg r (W (esp_of c + 4 * Z.of_nat n)) c)
  | mov_imm z r => Some (set_reg r (W z) c)
  | mov r r' => Some (set_reg r' (get_reg r c) c)
  | add_esp n => Some (c <| stack := drop n (stack c) |>)
  | call _ => None
  end.

(** A call runs the handler whose address the register holds, with the stack as its
    arguments. *)
Definition step (i : instr) (c : cpu) : K (option cpu) :=
  match i with
  | call r =>
      match get_reg r c with
      | W _ => mret None
      | Fn f =>
          let args := map val (stack c) in
          let n := Z.to_nat ((nth 0 args 0 - esp_of c) / 4) in
          c_call f args (fun i => nth (Z.to_nat i) (drop n args) 0);;
          mret (Some (clobber c))
      end
  | i => mret (move i c)
  end.

Fixpoint exec (l : list instr) (c : cpu) : K (option cpu) :=
  match l with
  | [] => mret (Some c)
  | i :: l =>
      x ← step i c;
      match x with None => mret None | Some c => exec l c end
  end.

(** ** The stubs *)

(** kernel/asm.s:33-45 *)
Definition restore : list instr :=
  [add_esp 2; pop r_fs; pop r_es; pop r_ds; pop r_ebp; pop r_esi; pop r_edi; pop r_edx; pop r_ecx; pop r_ebx; pop r_eax].
(** kernel/asm.s:15-45, to the [iret]. *)
Definition no_error_code : list instr :=
  [xchg r_eax 0; push r_ebx; push r_ecx; push r_edx; push r_edi; push r_esi; push r_ebp;
   push r_ds; push r_es; push r_fs; push_imm (W 0); lea 11 r_edx; push r_edx;
   mov_imm 0x10 r_edx; mov r_edx r_ds; mov r_edx r_es; mov r_edx r_fs; call r_eax] ++ restore.
(** kernel/asm.s:110-140 *)
Definition error_code : list instr :=
  [xchg r_eax 1; xchg r_ebx 0; push r_ecx; push r_edx; push r_edi; push r_esi; push r_ebp;
   push r_ds; push r_es; push r_fs; push r_eax; lea 11 r_eax; push r_eax;
   mov_imm 0x10 r_eax; mov r_eax r_ds; mov r_eax r_es; mov r_eax r_fs; call r_ebx] ++ restore.

(** kernel/asm.s:13-14, 47-69, 96-109, 142-156: what each entry pushes, and whether the
    processor has pushed an error code. *)
Definition stub_of (e : entry) : option (cfun * bool) :=
  match e with
  | at_divide_error => Some (f_divide_error, false)
  | at_debug => Some (f_int3, false)
  | at_nmi => Some (f_nmi, false)
  | at_int3 => Some (f_int3, false)
  | at_overflow => Some (f_overflow, false)
  | at_bounds => Some (f_bounds, false)
  | at_invalid_op => Some (f_invalid_op, false)
  | at_coprocessor_segment_overrun => Some (f_coprocessor_segment_overrun, false)
  | at_reserved => Some (f_reserved, false)
  | at_coprocessor_error => Some (f_coprocessor_error, false)
  | at_double_fault => Some (f_double_fault, true)
  | at_invalid_TSS => Some (f_invalid_TSS, true)
  | at_segment_not_present => Some (f_segment_not_present, true)
  | at_stack_segment => Some (f_stack_segment, true)
  | at_general_protection => Some (f_general_protection, true)
  | _ => None
  end.
Definition stub (f : cfun) (code : bool) : list instr :=
  push_imm (Fn f) :: if code then error_code else no_error_code.

(** The entry of a vector's fault, up to its [iret]. *)
Definition fault_entry (e : entry) (c : cpu) : K (option cpu) :=
  match stub_of e with Some (f, code) => exec (stub f code) c | None => mret None end.

(** kernel/asm.s:71-74 *)
Definition math_emulate : list instr := pop r_eax :: push_imm (Fn f_device_not_available) :: no_error_code.

(** kernel/asm.s:75-94; [cr0] is the control register, whose flag TS [clts] clears. *)
Definition device_not_available (cr0 : Z) (c : cpu) : K (option cpu * Z) :=
  let c := set_reg r_eax (W cr0) (c <| stack := c_eax c :: stack c |>) in
  if Z.testbit cr0 2 then x ← exec math_emulate c; mret (x, cr0)
  else
    let cr0 := Z.clearbit cr0 3 in
    s ← get;
    if ptr_eqb (last_task_used_math s) (current s) then x ← exec [pop r_eax] c; mret (x, cr0)
    else
      x ← exec [push r_ecx; push r_edx; push r_ds; mov_imm 0x10 r_eax; mov r_eax r_ds] c;
      match x with
      | None => mret (None, cr0)
      | Some c =>
          math_state_restore fninit;;
          x ← exec [pop r_ds; pop r_edx; pop r_ecx; pop r_eax] (clobber c);
          mret (x, cr0)
      end.

(** ** What they do *)

(** The word the stubs leave for the handler is the address of the frame, twelve words
    above the top. *)
Lemma lea_frame b n : b - 4 * Z.of_nat (11 + n) + 4 * Z.of_nat 11 = b - 4 * Z.of_nat n.
Proof. lia. Qed.
Lemma frame_index b n : Z.to_nat ((b - 4 * Z.of_nat n - (b - 4 * Z.of_nat (12 + n))) / 4) = 12%nat.
Proof. replace (_ - _) with (12 * 4) by lia. by rewrite Z.div_mul. Qed.

(** The arguments of the handler: where the return frame [frame] lies, the error code,
    and the registers of the interrupted code. *)
Definition fault_args (c : cpu) (code : Z) (frame : list word) : list Z :=
  bottom c - 4 * Z.of_nat (length frame) :: code ::
  map val ([c_fs c; c_es c; c_ds c; c_ebp c; c_esi c; c_edi c; c_edx c; c_ecx c; c_ebx c; c_eax c] ++ frame).
Definition frame_word (frame : list word) (i : Z) : Z := nth (Z.to_nat i) (map val frame) 0.

(** Code without calls. *)
Fixpoint moves (l : list instr) (c : cpu) : option cpu :=
  match l with [] => Some c | i :: l => c ← move i c; moves l c end.

Lemma moves_step i c c' s : move i c = Some c' -> step i c s = Ret (Some c') s.
Proof. intros Hi. destruct i; try (by unfold step; rewrite Hi). done. Qed.
Lemma exec_moves l k c c' s : moves l c = Some c' -> exec (l ++ k) c s = exec k c' s.
Proof.
  revert c. induction l as [|i l IH]; intros c Hl; simpl in Hl.
  - by injection Hl as ->.
  - destruct (move i c) as [c1|] eqn:Hi; [|done]. cbn [app exec].
    rewrite (bind_Ret _ _ _ _ _ (moves_step i c c1 s Hi)). by apply IH.
Qed.

(** The processor at the call of the handler. *)
Definition at_call (c : cpu) (eax ebx ecx edx : word) (code : Z) (frame : list word) : cpu :=
  c <| c_eax := eax |> <| c_ebx := ebx |> <| c_ecx := ecx |> <| c_edx := edx |>
    <| c_ds := W 0x10 |> <| c_es := W 0x10 |> <| c_fs := W 0x10 |>
    <| stack := W (bottom c - 4 * Z.of_nat (length frame)) :: W code ::
         [c_fs c; c_es c; c_ds c; c_ebp c; c_esi c; c_edi c; c_edx c; c_ecx c; c_ebx c; c_eax c] ++ frame |>.

(** The handler's run, and what is restored after it. *)
Lemma call_restore f r c eax ebx ecx edx code frame s :
  get_reg r (at_call c eax ebx ecx edx code frame) = Fn f ->
  exec (call r :: restore) (at_call c eax ebx ecx edx code frame) s =
  (c_call f (fault_args c code frame) (frame_word frame);; mret (Some (c <| stack := frame |>))) s.
Proof.
  intros Hr. cbn [exec step]. rewrite Hr.
  assert (Hn : esp_of (at_call c eax ebx ecx edx code frame) = bottom c - 4 * Z.of_nat (12 + length frame)) by done.
  rewrite Hn. change (nth 0 (map val (stack (at_call c eax ebx ecx edx code frame))) 0) with (bottom c - 4 * Z.of_nat (length frame)).
  rewrite frame_index.
  change (map val (stack (at_call c eax ebx ecx edx code frame))) with (fault_args c code frame).
  change (drop 12 (fault_args c code frame)) with (map val frame). fold (frame_word frame).
  rewrite bind_assoc. apply bind_ext. intros [] t.
  rewrite bind_mret. rewrite <- (app_nil_r restore). erewrite exec_moves; [reflexivity|]. by destruct c.
Qed.

Lemma no_error_run f c s : exec (stub f false) c s =
  (c_call f (fault_args c 0 (stack c)) (frame_word (stack c));; mret (Some c)) s.
Proof.
  change (stub f false) with (([push_imm (Fn f); xchg r_eax 0; push r_ebx; push r_ecx; push r_edx; push r_edi; push r_esi;
    push r_ebp; push r_ds; push r_es; push r_fs; push_imm (W 0); lea 11 r_edx; push r_edx;
    mov_imm 0x10 r_edx; mov r_edx r_ds; mov r_edx r_es; mov r_edx r_fs]) ++ call r_eax :: restore).
  rewrite (exec_moves _ _ c (at_call c (Fn f) (c_ebx c) (c_ecx c) (W 0x10) 0 (stack c))).
  - rewrite (call_restore f) by done. by destruct c.
  - destruct c as [eax ebx ecx edx edi esi ebp ds es fs l b]. unfold at_call. simpl stack. simpl bottom.
    rewrite <- (lea_frame b (length l)). lazy -[Z.add Z.sub Z.mul Z.of_nat length]. reflexivity.
Qed.

Lemma error_run f c code frame s : stack c = W code :: frame -> exec (stub f true) c s =
  (c_call f (fault_args c code frame) (frame_word frame);; mret (Some (c <| stack := frame |>))) s.
Proof.
  intros Hc.
  change (stub f true) with ([push_imm (Fn f); xchg r_eax 1; xchg r_ebx 0; push r_ecx; push r_edx; push r_edi; push r_esi;
    push r_ebp; push r_ds; push r_es; push r_fs; push r_eax; lea 11 r_eax; push r_eax;
    mov_imm 0x10 r_eax; mov r_eax r_ds; mov r_eax r_es; mov r_eax r_fs] ++ call r_ebx :: restore).
  rewrite (exec_moves _ _ c (at_call c (W 0x10) (Fn f) (c_ecx c) (c_edx c) code frame)).
  - by apply (call_restore f).
  - destruct c as [eax ebx ecx edx edi esi ebp ds es fs l b]. simpl in Hc. subst l. unfold at_call. simpl stack. simpl bottom.
    rewrite <- (lea_frame b (length frame)). lazy -[Z.add Z.sub Z.mul Z.of_nat length]. reflexivity.
Qed.

(** C14: The entry of each fault, run instruction by instruction, calls its C
    handler with the address of the return frame, the error code (0 if the
    processor pushes none) and the registers of the interrupted code in the
    order the handler declares them; when the handler returns, every register
    has its old value again, whatever C left in it, and the stack is at the
    return frame. *)
Theorem fault_stubs_run e f has_code code frame c s :
  stub_of e = Some (f, has_code) -> stack c = (if has_code then W code :: frame else frame) ->
  fault_entry e c s =
  (c_call f (fault_args c (if has_code then code else 0) frame) (frame_word frame);;
   mret (Some (c <| stack := frame |>))) s.
Proof.
  intros He Hc. unfold fault_entry. rewrite He. destruct has_code; [by apply error_run|]. rewrite no_error_run. subst frame. by destruct c.
Qed.

(** A coprocessor that is to be emulated is a fault; otherwise the process gets its state
    of the coprocessor, unless it has it, and goes on as it was, with TS clear. *)
Theorem device_not_available_run cr0 c s :
  device_not_available cr0 c s =
  if Z.testbit cr0 2 then
    (do_device_not_available (frame_word (stack c)) 0;; mret (Some c, cr0)) s
  else
    ((if ptr_eqb (last_task_used_math s) (current s) then mret tt else math_state_restore fninit);;
     mret (Some c, Z.clearbit cr0 3)) s.
Proof.
  unfold device_not_available. destruct (Z.testbit cr0 2).
  - set (c1 := set_reg _ _ _).
    assert (He : exec math_emulate c1 s =
      (c_call f_device_not_available (fault_args c 0 (stack c)) (frame_word (stack c));; mret (Some c)) s).
    { rewrite <- no_error_run. change math_emulate with ([pop r_eax] ++ stub f_device_not_available false).
      rewrite (exec_moves [pop r_eax] _ c1 c) by (by destruct c). done. }
    transitivity ((exec math_emulate c1 ≫= fun x => mret (x, cr0)) s); [done|].
    unfold mbind at 1, M_bind at 1. rewrite He.
    change (res_bind ((c_call f_device_not_available (fault_args c 0 (stack c)) (frame_word (stack c));; mret (Some c)) s)
      (fun x => mret (x, cr0))) with
      (((c_call f_device_not_available (fault_args c 0 (stack c)) (frame_word (stack c));; mret (Some c)) ≫= fun x => mret (x, cr0)) s).
    by rewrite bind_assoc.
  - rewrite bind_get. destruct (ptr_eqb _ _); [by destruct c|].
    set (c1 := set_reg _ _ _).
    rewrite <- (app_nil_r [push r_ecx; push r_edx; push r_ds; mov_imm 0x10 r_eax; mov r_eax r_ds]).
    unfold mbind at 1, M_bind at 1. erewrite exec_moves by reflexivity. cbn [exec]. rewrite mret_run. cbn [res_bind].
    apply bind_ext. intros [] t. by destruct c.
Qed.
End faults.

(** A process that faulted, with the error code on its stack. *)
Definition faulted : cpu :=
  mk_cpu (W 1) (W 2) (W 3) (W 4) (W 5) (W 6) (W 7) (W 0x17) (W 0x17) (W 0x17)
    [W 0x10; W 0x1234; W 0xf; W 0x202; W 0x8000; W 0x17] 0x100000.

Lemma fault_stubs_run_witness : stub_of at_general_protection = Some (f_general_protection, true) /\
  fault_entry (H := quiet_machine) (W 0) (W 0) (W 0) at_general_protection faulted zero_kstate =
  (c_call (H := quiet_machine) f_general_protection
     [0xfffec; 0x10; 0x17; 0x17; 0x17; 7; 6; 5; 4; 3; 2; 1; 0x1234; 0xf; 0x202; 0x8000; 0x17]
     (frame_word [W 0x1234; W 0xf; W 0x202; W 0x8000; W 0x17]);;
   mret (Some (faulted <| stack := [W 0x1234; W 0xf; W 0x202; W 0x8000; W 0x17] |>))) zero_kstate.
Proof.
  split; [reflexivity|].
  exact (@fault_stubs_run quiet_machine (W 0) (W 0) (W 0) at_general_protection f_general_protection true 0x10
    [W 0x1234; W 0xf; W 0x202; W 0x8000; W 0x17] faulted zero_kstate eq_refl eq_refl).
Defined.
